(* ===== verification/_CoqProject ===== *)
-Q . S2P
Prelude.v
CString.v
FruField.v
FruValidate.v
FruDate.v
FruPlat.v
FruOps.v
FruEdit.v
FruCreate.v
FruCommands.v
FruDisplay.v
FruBoard.v
FruBoardProps.v
FruCli.v
FruCliProps.v
Uboot.v
UbootProps.v
UbootCli.v
UbootCliProps.v
BoardInit.v
BoardInitProps.v
Provision.v
BootScripts.v
BootScriptsProps.v
SequenceBoot.v
SequenceBootProps.v
AltIpmi.v
ClkInit.v
ClkInitProps.v
ClkTables.v
ZynqHooks.v
ZynqHooksProps.v
BoardHooks.v
BoardHooksProps.v
Pwm.v
Pool.v
PoolSpec.v
PoolProps.v
ZapDev.v
Dma.v
Zap.v
ZapSpec.v
DmaProps.v
ZapProps.v
ZapSystem.v
ZapSystemInv.v
ZapSystemProps.v
ZapInterleave.v
ZapInterleaveProps.v
Events.v
EventsProps.v
Ocp.v
OcpProps.v
Lifecycle.v
EventsLife.v
OcpLife.v
ZapLife.v
FbDev.v
Passthrough.v
MdioGen.v
SmallTools.v
