(* ===== verification/Prelude.v ===== *)
(** * meta-iveia: verification library

    The repository is a Yocto layer for iVeia boards.  Its own program logic is C: the
    library behind the [ivfru] tools, which reads, checks, edits and writes the
    inventory record (IPMI FRU) in the EEPROM or flash of a board, the start-up code that
    uses the record (U-Boot and the first-stage loader), and kernel drivers, above all
    ZAP, a zero-copy port that moves packets between processes and an FPGA.
    This library models that code and proves it correct, or shows where it is not.

    ** Files

    - [Prelude]: integers of the machine, buffers with checked accesses ([ld], [st],
      [rd_range], [wr_range]), the monad [M], tactics and hint databases, and the
      segments of a buffer ([seg]).
    - FRU library (src/recipes-bsp/shared/files/ivfru_common.c, ivfru_common.h):
      [FruField] (type/length bytes, fields, checksums), [FruValidate] (validation and
      the predefined fields), [FruDate] (dates), [FruPlat] (the platform interface as
      the class [FruPlat], and its Linux implementation,
      src/recipes-bsp/ivfru/files/ivfru_plat.c), [FruOps] (the commands), [FruEdit] and
      [FruCreate] (what the commands do to the bytes of an image), [FruCommands] and
      [FruDisplay] (properties of the commands on a Linux system); [CString] (C strings
      and the number parsers).
    - [ivfru] on Linux (src/recipes-bsp/ivfru/files): [FruBoard] (the board access of
      ivfru_plat.c: device tree, shell tools, flash and EEPROM), [FruBoardProps];
      [FruCli] (ivfru.c, the command line), [FruCliProps].
    - [ivfru] in U-Boot (src/recipes-bsp/u-boot/files): [Uboot] (ivfru_plat.c, the second
      instance of [FruPlat]), [UbootProps], [UbootCli] (ivfru.c), [UbootCliProps] (both
      command lines).
    - Board start-up (src/recipes-bsp/u-boot/files): [BoardInit] (iveia-init.c: identity
      of the boards, MAC addresses, what is printed), [BoardInitProps]; [AltIpmi]
      (eeprom-ipmi-00130.c); [BootScripts] (the scripts of the default environment,
      iveia-config.h), [BootScriptsProps].
    - From Linux to U-Boot: [Provision] (an identity written by the tool and published at
      the next start).
    - First-stage loader (src/recipes-bsp/fsbl-firmware/files): [SequenceBoot]
      (iv_z8_sequence_boot.c), [SequenceBootProps]; [ClkInit] (iv_z8_init.c and the table
      of clkinit_100_125_26_125.h), [ClkInitProps]; [ClkTables] (the other
      clkinit_*.h, and the frequencies the tables make); [ZynqHooks] (zynq-hooks.c),
      [ZynqHooksProps]; [BoardHooks] (00104.c, 00108.c, 00114.c, 00126.c, 00127.c),
      [BoardHooksProps].
    - ZAP driver (src/recipes-kernel/iv-zap/src): [Pool] (pool.c), [PoolSpec] (its
      invariant and the abstract pool), [PoolProps]; [ZapDev] (the device's state,
      _zap.h), [Dma] (dma.c, dma_zynq.c), [Zap] (zap.c), [ZapSpec] (how operations
      run), [DmaProps], [ZapProps]; [ZapSystem] (the driver among user programs, the
      worker, interrupts and the FPGA), [ZapSystemInv], [ZapSystemProps]; [ZapInterleave]
      (worker and interrupt handler cut into steps), [ZapInterleaveProps].
    - Events driver (src/recipes-kernel/iv-events/src): [Events], [EventsProps].
    - OCP driver (src/recipes-kernel/iv-ocp/src): [Ocp], [OcpProps].
    - PWM driver (src/recipes-kernel/iv-pwm/src/pwm-iveia.c): [Pwm].
    - Binding and removing drivers: [Lifecycle] (the kernel resources a driver claims and
      releases), and on it [EventsLife] (events.c), [OcpLife] (ocp.c), [ZapLife] (zap.c,
      dma.c, dma_zynq.c), [FbDev] (the frame buffer,
      src/recipes-kernel/iv-fbdev/src/iv-fbdev.c) and [MdioGen]
      (src/recipes-kernel/linux/files/drivers/net/mdio/mdio-i2c-gen.c).
    - Video pass-through
      (src/recipes-kernel/iv-v4l-passthrough/src/iveia-passthrough.c): [Passthrough].
    - Tools (src/recipes-support: bdevmem.c, busyloop.c): [SmallTools].

    ** How the code is represented

    Functions of the C code are definitions of the same name; a loop is a [Fixpoint]
    next to its function.  An [unsigned] value is a [Z] with its wrap-around written
    out ([u8], [u32], [u64]); overflow of an [int] is [None].  Plain [char] is unsigned,
    as on the ARM targets.  The FRU code works on one buffer, a list of bytes; a pointer
    into it is an offset, and an access outside it is [None].  Its heap is explicit, so
    that a buffer moved by [realloc] leaves old pointers dangling, and whether it moves is
    left to the C library ([realloc_moves]); [memcpy] on overlapping areas, which the C
    standard leaves undefined, is [None].  The drivers run in
    a state monad over the whole device: pools with their linked lists and lock, the
    semaphores, and the list of register accesses; the FPGA is a function from the
    history of accesses to the value read ([ZapEnv], [EventsEnv]).  A fault, a BUG or a
    deadlock on a spinlock is [None].  A blocking call gets the outcomes of its waits,
    with the state as other threads have left it; when they run out it is still
    blocked.  The hardware under the loader is likewise a function of the accesses made
    so far ([Soc], [Xfsbl], [ZynqFsbl]).  [Libc], [BoardIO], [LinuxIO] (the shell, its tools and the
    kernel's files), [UbootIO], [UbootShell], [InitEnv], [I2cCompat], [Soc], [Xfsbl],
    [ZynqFsbl], [PsuInit], [V4l2], [DevMem], [BootCmds], [ZapEnv] and [EventsEnv] stand for code that is not in the repository; every property
    with a hypothesis on one has a witness with a concrete one.

    ** How the parts interact

    The commands of [FruOps] are written against the class [FruPlat] (buffer, file and
    board storage), which has two instances, Linux and U-Boot: a command reads the file
    (or memory) at its location into the buffer, validates and edits it, and writes it
    back.  [FruCli] and [UbootCli] call the commands; [BoardInit] calls [ivfru_read] on the
    U-Boot instance to name the boards; [SequenceBoot] reads the same record with a parser
    of its own.  [ClkInit] programs the clock chip through the class [ClockBus], of which
    the I2C controller's code is one instance and an ideal chip the other.  In the ZAP driver, received packets go from the free list of a receive
    pool to the FPGA (worker), from the FPGA to the queue (interrupt handler), from the
    queue to the process ([read]) and back ([write]); packets to send go the other way.
    [ZapSystem] puts this together: its steps are the system calls, one turn of the
    worker, one interrupt, and changes elsewhere in the driver, in any order.
    [ZapInterleave] cuts the worker between taking a buffer and posting it, and the
    handler between reading the cause and serving receiving, sending (in four steps)
    and freed buffers, so that all other steps come in between ([handler_is_isr] and
    [take_post_is_worker] give back the functions of [Dma]).  A system call, and the FPGA's registers with the
    pool operation on what they hold, are one step.  What the FPGA holds is read off the
    register accesses ([view]), and the classes [HonestFpga] and [LiveFpga] say what is
    asked of it.
    [Dma] and [Zap] call [Pool] through [on_pool], which runs an operation on the pool
    of one direction of one interface.

    ** What is proved

    - The whole ZAP exchange, over every interleaving: nothing faults and every packet is
      in one place ([zap_interleaved_safe]), both streams arrive complete and in order
      ([zap_interleaved_streams]), and there is no deadlock ([zap_interleaved_flowing]);
      the same with whole turns of worker and handler ([zap_system_safe],
      [zap_streams_exact], [zap_keeps_flowing]).  A packet sent while the handler is about
      to mask the interrupt stays queued ([tx_wakeup_lost]).  A user program that writes
      the offset of a packet it does not hold, or sets a size of 0, stops the kernel
      ([zap_user_can_crash], [zap_zero_size_faults]).
    - From the command line on Linux to the environment of U-Boot:
      [identity_reaches_start_up].
    - Validation: [validate_exact] gives the set of accepted buffers (a grammar of
      images, [fru_image]), [validate_in_bounds] that nothing outside is read,
      [validate_detects_corruption] that a changed byte other than the length byte is
      noticed, [length_byte_unnoticed] that a changed length byte may not be, and
      [predefined_fields_exact] where the fields are.
    - Commands: what [create], [add], [rm], [fix], [write] and [display] do to the image
      they are given, errors included.  [ivfru_add_inserts] says when [add] faults (a moved
      buffer) and when its file is no image (more than 2040 bytes of area),
      [ivfru_rm_removes] when the removal copies an area over itself, and
      [ivfru_rm_undoes_add] when [rm] after [add] gives the original file back.
      [ivfru_write_exact]: only a valid image reaches a board.
    - Boards on Linux: an image written to flash and read back ([flash_image_round_trip]),
      the commands run for an EEPROM ([i2c_write_protects], [i2c_read_exact]).
    - Command line: [main_add_inserts], [main_rejects], [main_exit_codes].
    - U-Boot: the commands give the same bytes as on Linux, unless the buffer moves there
      ([platforms_agree]); storage round trips ([ub_i2c_write_read],
      [ub_flash_write_read]).  [command_lines_agree] composes both command lines with the
      commands: the same arguments, the same image.
    - Start-up: [board_scan_publishes] composes reading, validation and the environment;
      [board_scan_overruns] when it overruns its arrays; [sn_to_mac_exact],
      [ports_distinct] and [set_mac_addrs_exact] the MAC addresses;
      [read_alternate_exact] the alternate record.  [bootseq_starts_first] which target
      the boot script starts, [jtag_load_exact] when it takes a file a debugger left in
      memory, [stale_command_runs_again] a boot command that is not forgotten.
    - Loader: [sequence_boot_first_image] the boot sequence, [loader_reads_created] and
      [loader_rejects_added] what it makes of the tool's records; [i2c_write_ends] and
      [i2c_read_ends] that transfers end, [clock_table_applied] what the chip holds,
      [clocks_started] the frequencies it makes; [handoff_clocks] the clocks
      of a Zynq board, [usb_reset_exact] its USB reset; [i2c_out_of_reset],
      [oscillators_enabled] and [no_chip_leaves_bus] the hooks of the boards.
    - PWM: [pwm_lags], [pwm_disable_exact].
    - Dates: the accepted strings, totality of decoding, and what the encoding of any date
      decodes to: the date itself up to 24 November 2027 ([date_time_roundtrip]).
    - Pool: every operation implements the abstract pool of [PoolSpec] and keeps its
      invariant; packets leave in order over whole histories; blocking removal; resizing;
      the lock kept by a failed resize and the index one past the end.
    - DMA and ZAP: what the interrupt handler queues and sends, descriptors, the worker;
      the regions of memory, also when the transmit memory is too small for them
      ([setup_pools_partition]); the descriptors passed by [read] and [write]; the sizes
      set by [ioctl]; exclusive opening, and how closing breaks it.
    - Events: delivery and wake-ups, what [read] takes; over histories, a file is left with
      exactly the events raised and not returned since ([events_conserved]); the balance of
      the interrupt.
    - OCP: the window of [read], [write], [llseek] and [mmap].
    - Binding and removing: what each driver keeps (references to device tree nodes and
      interrupt mappings among it), gives back and gives back without having taken ([zap_lifecycle], [zap_probe_failure_faults], [events_lifecycle],
      [ocp_lifecycle], [fb_stale_mapping], [fb_probe_errors], [mdio_probe_exact]).
    - Video: [set_get_fmt], [ivpass_probe_exact].
    - Tools: [bdevmem_header_exact], [busyloop_counts].

    ** Bounds and fuel

    Loops over fields have fuel from the length left ([loop_fuel]) or the length of the
    buffer ([scan_fuel]): every iteration consumes a byte.  The month loop has 420
    iterations: three bytes of minutes are less than 32 years ([ipmi_time_total] shows
    they are enough).  The transfers of the clock chip's bus have fuel for the turns of
    their loops; [i2c_read_ends] gives a number that is enough.  [pll_loop] has the code's
    own limit, [PLL_TRIES].  The receive worker's theorem says how many iterations it makes;
    in [ZapSystem] a turn of it is one iteration, and the next turn goes on.
    [pow2_loop] doubles a 64-bit number at most 63 times; its fuel is 64.  [busyloop_main]
    takes the turns of its loop as fuel, and [busyloop_counts] says how many are enough.
    Other loops count down as in the code.

    ** Not modelled

    Patches to code that is not in the repository, and the tables that register a driver
    with the kernel.  Kernel messages and the progress messages of the first-stage loader
    ([pr_boot_mode]) are left out; what the FRU commands print is modelled where it is
    their result ([ivfru_display]), what U-Boot's start-up prints is its console.  The
    boot scripts are followed as they are in the default environment, not as a file
    that is imported may redefine them; a pattern of [setexpr] stands for its own
    characters, as in the names of the targets.  Spinlocks
    that protect single register accesses are left out: each access is one step.  The
    drawing operations of the frame buffer are the kernel's own functions. *)
From stdpp Require Export base numbers list gmap strings.
From Stdlib Require Export ZArith Lia.

#[global] Open Scope Z_scope.
#[global] Set Default Goal Selector "!".

(** ** Machine integers *)

(** Wrap-around of the unsigned C types the sources use. *)
Definition u8 (z : Z) : Z := z `mod` 256.
Definition u32 (z : Z) : Z := z `mod` 2 ^ 32.
Definition u64 (z : Z) : Z := z `mod` 2 ^ 64.

(** Signed [int] arithmetic: overflow is undefined behaviour in C, so a result
    outside the range is a fault ([None]). *)
Definition i32 (z : Z) : option Z :=
  if (- 2 ^ 31 <=? z) && (z <? 2 ^ 31) then Some z else None.

(** Conversion of an unsigned value to [int] (implementation defined, modular on
    the gcc targets). *)
Definition to_i32 (z : Z) : Z := (z + 2 ^ 31) `mod` 2 ^ 32 - 2 ^ 31.

Definition is_byte (b : Z) : Prop := 0 <= b < 256.

(** ** Buffers

    An addressable C object is the list of its bytes; an address inside it is an
    offset.  Every access is checked: one outside the object is undefined
    behaviour and yields [None]. *)
Definition zlen {A} (l : list A) : Z := Z.of_nat (length l).

Definition ld (b : list Z) (a : Z) : option Z :=
  if a <? 0 then None else b !! Z.to_nat a.

Definition st (b : list Z) (a v : Z) : option (list Z) :=
  if (0 <=? a) && (a <? zlen b) then Some (<[Z.to_nat a := u8 v]> b) else None.

Definition rd_range (b : list Z) (a n : Z) : option (list Z) :=
  if (0 <=? a) && (0 <=? n) && (a + n <=? zlen b)
  then Some (take (Z.to_nat n) (drop (Z.to_nat a) b)) else None.

Definition wr_range (b : list Z) (a : Z) (src : list Z) : option (list Z) :=
  if (0 <=? a) && (a + zlen src <=? zlen b)
  then Some (take (Z.to_nat a) b ++ src ++ drop (Z.to_nat a + length src) b) else None.

(** [memset(b + a, v, n)]; a negative [int] length converts to a huge [size_t]. *)
Definition memset (b : list Z) (a v n : Z) : option (list Z) :=
  if n <? 0 then None else wr_range b a (replicate (Z.to_nat n) (u8 v)).

(** ** A state monad with faults *)

Definition M (W A : Type) : Type := W -> option (A * W).

#[global] Instance M_ret W : MRet (M W) := fun A a w => Some (a, w).
#[global] Instance M_bind W : MBind (M W) :=
  fun A B k m w => match m w with Some (a, w') => k a w' | None => None end.

Definition lift {W A} (o : option A) : M W A :=
  fun w => match o with Some a => Some (a, w) | None => None end.

Lemma bind_run {W A B} (m : M W A) (k : A -> M W B) w a w' : m w = Some (a, w') -> (m ≫= k) w = k a w'.
Proof. intros Hm. unfold mbind, M_bind. by rewrite Hm. Qed.

Lemma bind_none {W A B} (m : M W A) (k : A -> M W B) w : m w = None -> (m ≫= k) w = None.
Proof. intros Hm. unfold mbind, M_bind. by rewrite Hm. Qed.

Lemma lift_run {W A B} (o : option A) (k : A -> M W B) (w : W) a : o = Some a -> (lift o ≫= k) w = k a w.
Proof. intros ->. done. Qed.

(** ** Tactics *)

Ltac bool_to_prop :=
  repeat match goal with
  | H : (_ && _) = true |- _ => apply andb_prop in H; destruct H
  | H : (_ || _) = false |- _ => apply orb_false_elim in H; destruct H
  | H : negb _ = true |- _ => apply negb_true_iff in H
  | H : negb _ = false |- _ => apply negb_false_iff in H
  | H : (_ <? _) = true |- _ => apply Z.ltb_lt in H
  | H : (_ <? _) = false |- _ => apply Z.ltb_ge in H
  | H : (_ <=? _) = true |- _ => apply Z.leb_le in H
  | H : (_ <=? _) = false |- _ => apply Z.leb_gt in H
  | H : (_ =? _) = true |- _ => apply Z.eqb_eq in H
  | H : (_ =? _) = false |- _ => apply Z.eqb_neq in H
  end.

(** Case analysis on the next [if] of the goal (or of [H]), with the test turned
    into a proposition. *)
Ltac case_if :=
  match goal with
  | |- context [if ?b then _ else _] => destruct b eqn:?; bool_to_prop
  end.
Ltac case_if_in H :=
  match type of H with
  | context [if ?b then _ else _] => destruct b eqn:?; bool_to_prop
  end.

(** Opens one monadic bind of an option in hypothesis [H]. *)
Ltac bind_in H :=
  match type of H with
  | context [?m ≫= _] =>
      let E := fresh "E" in destruct m eqn:E; cbn [mbind option_bind] in H; [|discriminate H]
  end.

(** The same in a goal, for a computation whose result is the known [E]. *)
Lemma obind_some {A B} (m : option A) (f : A -> option B) a r : m = Some a -> f a = r -> (m ≫= f) = r.
Proof. by intros ->. Qed.
Ltac obind E := eapply obind_some; [exact E|cbv beta iota].

(** [lia] with the defining equations of [/] and [mod] by numerals. *)
Ltac mlia := Z.div_mod_to_equations; lia.

(** Equality of results built with [Some] and pairs, up to arithmetic. *)
Ltac res_lia :=
  repeat match goal with
  | |- Some _ = Some _ => apply (f_equal Some)
  | |- (_, _) = (_, _) => apply f_equal2
  end; first [reflexivity | lia].

Create HintDb fru.

(** ** Lengths *)

Lemma zlen_nil {A} : zlen (@nil A) = 0.
Proof. reflexivity. Qed.
Lemma zlen_cons {A} (x : A) l : zlen (x :: l) = 1 + zlen l.
Proof. unfold zlen. cbn [length]. lia. Qed.
Lemma zlen_app {A} (l1 l2 : list A) : zlen (l1 ++ l2) = zlen l1 + zlen l2.
Proof. unfold zlen. rewrite length_app. lia. Qed.
Lemma zlen_replicate {A} n (x : A) : zlen (replicate n x) = Z.of_nat n.
Proof. unfold zlen. by rewrite length_replicate. Qed.
Lemma zlen_nonneg {A} (l : list A) : 0 <= zlen l.
Proof. unfold zlen. lia. Qed.
Lemma to_nat_zlen {A} (l : list A) : Z.to_nat (zlen l) = length l.
Proof. unfold zlen. lia. Qed.
Lemma zlen_take {A} (l : list A) n : 0 <= n <= zlen l -> zlen (take (Z.to_nat n) l) = n.
Proof. unfold zlen. intros H. rewrite length_take. lia. Qed.
Lemma zlen_drop {A} (l : list A) n : 0 <= n <= zlen l -> zlen (drop (Z.to_nat n) l) = zlen l - n.
Proof. unfold zlen. intros H. rewrite length_drop. lia. Qed.

Create Rewrite HintDb zlen.
#[export] Hint Rewrite @zlen_nil @zlen_cons @zlen_app @zlen_replicate @to_nat_zlen : zlen.

(** Normalises lengths everywhere and closes linear goals about them. *)
Ltac zl :=
  autorewrite with zlen in *;
  repeat match goal with
  | |- context [zlen ?l] => lazymatch goal with
      | _ : 0 <= zlen l |- _ => fail | _ => pose proof (zlen_nonneg l) end
  | _ : context [zlen ?l] |- _ => lazymatch goal with
      | _ : 0 <= zlen l |- _ => fail | _ => pose proof (zlen_nonneg l) end
  end; try lia.

(** ** Reading and writing a buffer at a known split *)

Lemma ld_mid pre x post a : a = zlen pre -> ld (pre ++ x :: post) a = Some x.
Proof.
  intros ->. unfold ld. case_if; [zl|].
  rewrite to_nat_zlen. by apply list_lookup_middle.
Qed.

Lemma ld_inv b a x :
  ld b a = Some x -> exists pre post, b = pre ++ x :: post /\ a = zlen pre.
Proof.
  unfold ld. case_if; [done|]. intros Hx.
  exists (take (Z.to_nat a) b), (drop (S (Z.to_nat a)) b). split.
  - symmetry. by apply take_drop_middle.
  - apply lookup_lt_Some in Hx. unfold zlen. rewrite length_take. lia.
Qed.

Lemma ld_bounds b a x : ld b a = Some x -> 0 <= a < zlen b.
Proof. intros (pre & post & -> & ->)%ld_inv. zl. Qed.

Lemma ld_total b a : 0 <= a < zlen b -> exists x, ld b a = Some x.
Proof.
  intros H. unfold ld. case_if; [lia|].
  destruct (lookup_lt_is_Some_2 b (Z.to_nat a)) as [x Hx]; [unfold zlen in H; lia|].
  by exists x.
Qed.

Lemma ld_app_l b1 b2 a : a < zlen b1 -> ld (b1 ++ b2) a = ld b1 a.
Proof.
  intros H. unfold ld. case_if; [done|]. apply lookup_app_l. unfold zlen in H. lia.
Qed.

Lemma ld_app_r b1 b2 a : zlen b1 <= a -> ld (b1 ++ b2) a = ld b2 (a - zlen b1).
Proof.
  intros H. pose proof (zlen_nonneg b1). unfold ld.
  rewrite (proj2 (Z.ltb_ge a 0)), (proj2 (Z.ltb_ge (a - zlen b1) 0)) by lia.
  unfold zlen in *. rewrite lookup_app_r by lia. f_equal. lia.
Qed.

Lemma ld_byte b a x : Forall is_byte b -> ld b a = Some x -> is_byte x.
Proof.
  intros Hb (pre & post & -> & _)%ld_inv.
  apply Forall_app in Hb as [_ Hb]. by inversion Hb.
Qed.

Lemma st_mid pre x post a v : a = zlen pre -> st (pre ++ x :: post) a v = Some (pre ++ u8 v :: post).
Proof.
  intros ->. unfold st. rewrite (proj2 (Z.leb_le _ _)) by zl.
  rewrite (proj2 (Z.ltb_lt _ _)) by zl. cbn [andb].
  rewrite to_nat_zlen. f_equal. replace (length pre) with (length pre + 0)%nat by lia.
  by rewrite insert_app_r.
Qed.

Lemma rd_mid pre mid post a n :
  a = zlen pre -> n = zlen mid -> rd_range (pre ++ mid ++ post) a n = Some mid.
Proof.
  intros -> ->. unfold rd_range.
  rewrite !(proj2 (Z.leb_le _ _)) by zl. cbn [andb].
  rewrite !to_nat_zlen, drop_app_length, take_app_length. done.
Qed.

Lemma wr_mid pre mid post a src :
  a = zlen pre -> zlen src = zlen mid -> wr_range (pre ++ mid ++ post) a src = Some (pre ++ src ++ post).
Proof.
  intros -> H. unfold wr_range.
  rewrite !(proj2 (Z.leb_le _ _)) by zl. cbn [andb].
  rewrite to_nat_zlen, take_app_length.
  do 3 f_equal. rewrite (assoc_L (++)). apply drop_app_length'.
  unfold zlen in H. rewrite length_app. lia.
Qed.

Lemma memset_mid pre mid post a v n :
  a = zlen pre -> n = zlen mid ->
  memset (pre ++ mid ++ post) a v n = Some (pre ++ replicate (Z.to_nat n) (u8 v) ++ post).
Proof.
  intros -> ->. unfold memset. case_if; [zl|].
  apply wr_mid; [done|]. zl. unfold zlen. lia.
Qed.

(** Splitting a list at an address. *)
Lemma split_at {A} (b : list A) a :
  0 <= a <= zlen b -> exists pre post, b = pre ++ post /\ zlen pre = a.
Proof.
  intros H. exists (take (Z.to_nat a) b), (drop (Z.to_nat a) b). split.
  - symmetry. apply take_drop.
  - by apply zlen_take.
Qed.

Lemma u8_byte z : is_byte (u8 z).
Proof. unfold is_byte, u8. apply Z.mod_pos_bound. lia. Qed.
Lemma land_byte z m : 0 <= m < 256 -> is_byte (Z.land z m).
Proof.
  intros Hm. replace m with (Z.land m (Z.ones 8)).
  - rewrite Z.land_assoc, Z.land_ones by lia. apply Z.mod_pos_bound. lia.
  - rewrite Z.land_ones by lia. by apply Z.mod_small.
Qed.
Lemma u8_id z : is_byte z -> u8 z = z.
Proof. unfold is_byte, u8. intros. by apply Z.mod_small. Qed.

Lemma u32_small z : 0 <= z < 2 ^ 32 -> u32 z = z.
Proof. apply Z.mod_small. Qed.
Lemma u64_small z : 0 <= z < 2 ^ 64 -> u64 z = z.
Proof. apply Z.mod_small. Qed.
Lemma to_i32_small z : - 2 ^ 31 <= z < 2 ^ 31 -> to_i32 z = z.
Proof. intros Hz. unfold to_i32. rewrite Z.mod_small by lia. lia. Qed.

#[export] Hint Resolve u8_byte ld_byte zlen_nonneg : fru.

(** ** Segments

    [seg b a m]: the bytes of [b] from address [a] on start with [m]. *)
Definition seg (b : list Z) (a : Z) (m : list Z) : Prop :=
  exists pre post, b = pre ++ m ++ post /\ zlen pre = a.

Lemma app_eq_split {A} (x1 x2 y1 y2 : list A) :
  zlen x1 = zlen x2 -> x1 ++ y1 = x2 ++ y2 -> x1 = x2 /\ y1 = y2.
Proof. unfold zlen. intros H Heq. apply app_inj_1 in Heq; [done|lia]. Qed.

Lemma seg_bounds b a m : seg b a m -> 0 <= a /\ a + zlen m <= zlen b.
Proof. intros (pre & post & -> & <-). zl. Qed.

Lemma seg_app b a m1 m2 : seg b a (m1 ++ m2) <-> seg b a m1 /\ seg b (a + zlen m1) m2.
Proof.
  split.
  - intros (pre & post & -> & <-). split.
    + exists pre, (m2 ++ post). by rewrite <- (assoc_L (++)).
    + exists (pre ++ m1), post. split; [|zl]. by rewrite <- !(assoc_L (++)).
  - intros [(pre & post & -> & <-) (pre' & post' & Heq & Hl)].
    exists pre, post'. split; [|done].
    rewrite (assoc_L (++) pre), <- (assoc_L (++) m1) in *.
    apply app_eq_split in Heq as [<- ->]; [|zl].
    by rewrite <- !(assoc_L (++)).
Qed.

Lemma seg_nil b a : seg b a [] <-> 0 <= a <= zlen b.
Proof.
  split; [intros H%seg_bounds; zl|]. intros (pre & post & -> & <-)%split_at. by exists pre, post.
Qed.

Lemma seg_cons b a c m : seg b a (c :: m) <-> ld b a = Some c /\ seg b (a + 1) m.
Proof.
  change (c :: m) with ([c] ++ m). rewrite seg_app.
  assert (seg b a [c] <-> ld b a = Some c) as ->; [|zl; reflexivity].
  split.
  - intros (pre & post & -> & <-). by apply ld_mid.
  - intros (pre & post & -> & ->)%ld_inv. by exists pre, post.
Qed.

Lemma seg_rd b a m n : seg b a m -> n = zlen m -> rd_range b a n = Some m.
Proof. intros (pre & post & -> & <-) ->. by apply rd_mid. Qed.

Lemma seg_exists b a n : 0 <= a -> 0 <= n -> a + n <= zlen b -> exists m, seg b a m /\ zlen m = n.
Proof.
  intros ? ? ?. destruct (split_at b a) as (pre & post & -> & <-); [lia|].
  destruct (split_at post n) as (m & post' & -> & <-); [zl|].
  exists m. split; [|done]. by exists pre, post'.
Qed.

Lemma seg_inj b a m1 m2 : seg b a m1 -> seg b a m2 -> zlen m1 = zlen m2 -> m1 = m2.
Proof.
  intros (p1 & q1 & -> & <-) (p2 & q2 & Heq & Hl) Hm.
  apply app_eq_split in Heq as [_ Heq]; [|done]. by apply app_eq_split in Heq as [-> _].
Qed.

Lemma rd_seg b a n m : rd_range b a n = Some m -> seg b a m /\ zlen m = n.
Proof.
  unfold rd_range. case_if; [|done]. intros [= <-].
  destruct (seg_exists b a n) as (m & Hm & Hl); [lia..|].
  pose proof (seg_rd _ _ _ n Hm (eq_sym Hl)) as Hr. unfold rd_range in Hr.
  rewrite !(proj2 (Z.leb_le _ _)) in Hr by lia. cbn [andb] in Hr. injection Hr as ->. done.
Qed.

Lemma seg_bytes b a m : Forall is_byte b -> seg b a m -> Forall is_byte m.
Proof.
  intros Hb (pre & post & -> & _). apply Forall_app in Hb as [_ Hb].
  by apply Forall_app in Hb as [Hb _].
Qed.

(** Changing the way an address is written. *)
Lemma seg_at b a a' m : seg b a m -> a = a' -> seg b a' m.
Proof. by intros ? <-. Qed.
Lemma ld_at b a a' c : ld b a = Some c -> a = a' -> ld b a' = Some c.
Proof. by intros ? <-. Qed.

Lemma seg_prefix m post : seg (m ++ post) 0 m.
Proof. by exists [], post. Qed.

#[export] Hint Resolve seg_bytes : fru.

(** Proves that a concatenation is a segment from its parts in the context. *)
Ltac seg_solve :=
  repeat first
    [ rewrite <- (assoc_L (++)) | progress cbn [app]
    | apply seg_cons; split | apply seg_app; split ];
  match goal with
  | H : ld ?b ?a = Some ?c |- ld ?b ?a' = Some ?c => apply (ld_at b a a' c H); solve [zl]
  | H : seg ?b ?a ?m |- seg ?b ?a' ?m => apply (seg_at b a a' m H); solve [zl]
  | |- seg ?b ?a [] => apply seg_nil; solve [zl]
  | H : ld ?b ?a = Some _ |- seg ?b ?a' [] => apply ld_bounds in H; apply seg_nil; solve [zl]
  | H : seg ?b ?a _ |- seg ?b ?a' [] => apply seg_bounds in H; apply seg_nil; solve [zl]
  end.
