(* ===== verification/CString.v ===== *)
(** * C strings

    Functions of the C library the sources use on strings: building and cutting strings
    in arrays, printing and reading numbers.  Names and commands are [string]s; the
    characters a program looks at one by one are lists of bytes without the NUL. *)
From stdpp Require Export pretty.
From Stdlib Require Import Ascii.
From S2P Require Import Prelude.

#[local] Open Scope string_scope.
#[local] Open Scope list_scope.
#[local] Open Scope Z_scope.

(** ** Strings and arrays *)

Definition strlen (s : string) : Z := Z.of_nat (String.length s).
Definition bytes (s : string) : list Z := (fun c => Z.of_N (N_of_ascii c)) <$> String.list_ascii_of_string s.

(** A byte array as a C string. *)
Fixpoint cstr (l : list Z) : list Z :=
  match l with [] => [] | c :: l => if c =? 0 then [] else c :: cstr l end.

(** [strcpy] and [strcat] of [parts] into an array of [size] bytes. *)
Definition strbuild (size : Z) (parts : list string) : option string :=
  let s := foldr String.append "" parts in if strlen s + 1 <=? size then Some s else None.

Definition snprintf (size : Z) (s : string) : string := String.substring 0 (Z.to_nat (size - 1)) s.

(** ** Printing numbers: ["%02x"]; ["%d"] is [pretty] *)

Definition hex_char (d : Z) : string :=
  String (ascii_of_N (Z.to_N (if d <? 10 then 48 + d else 87 + d))) "".
Fixpoint hex_digits (fuel : nat) (n : Z) (acc : string) : string :=
  match fuel with
  | O => acc
  | S fuel => if n <? 16 then hex_char n +:+ acc else hex_digits fuel (n / 16) (hex_char (n `mod` 16) +:+ acc)
  end.
Definition hex2 (n : Z) : string := if n <? 16 then "0" +:+ hex_char n else hex_digits 8 n "".

(** ** Reading numbers: [strtol] and [strtoul] *)

Definition is_space (c : Z) : bool := ((9 <=? c) && (c <=? 13)) || (c =? 32).
Fixpoint skip_space (s : list Z) : list Z :=
  match s with c :: s' => if is_space c then skip_space s' else s | [] => [] end.

(** The value of a digit in a base up to 16. *)
Definition digit_val (base c : Z) : option Z :=
  let v := if (48 <=? c) && (c <=? 57) then c - 48
           else if (97 <=? c) && (c <=? 102) then c - 87
           else if (65 <=? c) && (c <=? 70) then c - 55 else 16 in
  if v <? base then Some v else None.

(** The digits, and what follows them. *)
Fixpoint digits (base : Z) (s : list Z) (acc : Z) : Z * list Z :=
  match s with
  | c :: s' => match digit_val base c with Some v => digits base s' (acc * base + v) | None => (acc, s) end
  | [] => (acc, [])
  end.

(** A prefix [0x] of a hexadecimal number counts only before a digit. *)
Definition skip_0x (base : Z) (s : list Z) : list Z :=
  match s with
  | z :: x :: c :: rest =>
    if (base =? 16) && (z =? 48) && ((x =? 120) || (x =? 88)) && bool_decide (is_Some (digit_val 16 c)) then c :: rest else s
  | _ => s
  end.

(** Whether there is a minus, the magnitude, and what is left; [None] without a number. *)
Definition number (base : Z) (s : list Z) : option (bool * Z * list Z) :=
  let s := skip_space s in
  let '(neg, s) := match s with
    | c :: s' => if c =? 45 then (true, s') else if c =? 43 then (false, s') else (false, s)
    | [] => (false, []) end in
  match s with
  | c :: _ =>
    match digit_val base c with
    | Some _ => let '(v, rest) := digits base (skip_0x base s) 0 in Some (neg, v, rest)
    | None => None
    end
  | [] => None
  end.

(** The value and what is left from [*end] on. *)
Definition strtoul (base : Z) (s : list Z) : Z * list Z :=
  match number base s with
  | None => (0, s)
  | Some (neg, v, rest) => (if 2 ^ 64 <=? v then 2 ^ 64 - 1 else if neg then u64 (- v) else v, rest)
  end.
Definition strtol (base : Z) (s : list Z) : Z * list Z :=
  match number base s with
  | None => (0, s)
  | Some (neg, v, rest) => (if neg then Z.max (- 2 ^ 63) (- v) else Z.min (2 ^ 63 - 1) v, rest)
  end.

(** ** Lemmas *)

Lemma string_app_nil s : s +:+ "" = s.
Proof. induction s as [|c s IH]; [done|]. exact (f_equal (String c) IH). Qed.
Lemma string_app_assoc s1 s2 s3 : s1 +:+ (s2 +:+ s3) = (s1 +:+ s2) +:+ s3.
Proof. induction s1 as [|c s1 IH]; [done|]. exact (f_equal (String c) IH). Qed.
Lemma strlen_app s1 s2 : strlen (s1 +:+ s2) = strlen s1 + strlen s2.
Proof.
  induction s1 as [|c s1 IH]; [done|]. change (strlen (String c s1 +:+ s2)) with (Z.of_nat (S (String.length (s1 +:+ s2)))).
  change (strlen (String c s1)) with (Z.of_nat (S (String.length s1))). unfold strlen in *. lia.
Qed.
Lemma bytes_app s1 s2 : bytes (s1 +:+ s2) = bytes s1 ++ bytes s2.
Proof. induction s1 as [|c s1 IH]; [done|]. exact (f_equal (cons _) IH). Qed.
Lemma bytes_is_byte s : Forall is_byte (bytes s).
Proof.
  unfold bytes. apply Forall_fmap, Forall_true. intros c. unfold compose, is_byte. pose proof (Ascii.N_ascii_bounded c). lia.
Qed.
Lemma zlen_bytes s : zlen (bytes s) = strlen s.
Proof.
  induction s as [|c s IH]; [done|]. change (bytes (String c s)) with (Z.of_N (N_of_ascii c) :: bytes s).
  change (strlen (String c s)) with (Z.of_nat (S (String.length s))). rewrite zlen_cons, IH. unfold strlen. lia.
Qed.
Lemma strbuild_ok size parts : strlen (foldr String.append "" parts) + 1 <= size ->
  strbuild size parts = Some (foldr String.append "" parts).
Proof. intros Hl. unfold strbuild. by rewrite (proj2 (Z.leb_le _ _)). Qed.

Lemma substring_all s : forall n, (String.length s <= n)%nat -> String.substring 0 n s = s.
Proof.
  induction s as [|c s IH]; intros n Hn; [by destruct n|]. destruct n as [|n]; cbn [String.length] in Hn; [lia|].
  cbn [String.substring]. by rewrite IH by lia.
Qed.
Lemma prefix_app a b : String.prefix a (a +:+ b) = true.
Proof.
  induction a as [|c a IH]; [by destruct b|].
  change (String c a +:+ b) with (String c (a +:+ b)). cbn [String.prefix].
  by destruct (Ascii.ascii_dec c c).
Qed.
Lemma substring_skip a b m n : String.substring (String.length a + m) n (a +:+ b) = String.substring m n b.
Proof. induction a as [|c a IH]; [done|exact IH]. Qed.
Lemma substring_take a b : String.substring 0 (String.length a) (a +:+ b) = a.
Proof. induction a as [|c a IH]; [by destruct b|]. exact (f_equal (String c) IH). Qed.

(** Two hexadecimal digits read back. *)
Lemma hex2_byte b : is_byte b -> strtoul 16 (bytes (hex2 b)) = (b, []) /\ strlen (hex2 b) = 2.
Proof.
  intros Hb. assert (Hall : forallb (fun n => let b := Z.of_nat n in
    bool_decide (strtoul 16 (bytes (hex2 b)) = (b, [])) && (strlen (hex2 b) =? 2)) (seq 0 256) = true) by (vm_compute; reflexivity).
  rewrite forallb_forall in Hall. specialize (Hall (Z.to_nat b)). rewrite Z2Nat.id in Hall by apply Hb.
  destruct (andb_prop _ _ (Hall ltac:(apply in_seq; unfold is_byte in Hb; lia))) as [H1 H2].
  by apply bool_decide_eq_true in H1; apply Z.eqb_eq in H2.
Qed.

(** ** Decimal numbers *)

Definition dec_digit (c : Z) : Prop := 48 <= c <= 57.
Definition dec_value (ds : list Z) : Z := foldl (fun v c => v * 10 + (c - 48)) 0 ds.

Lemma digit_val_10 c : dec_digit c -> digit_val 10 c = Some (c - 48).
Proof.
  unfold dec_digit, digit_val. intros Hc. rewrite (proj2 (Z.leb_le 48 c)), (proj2 (Z.leb_le c 57)) by lia. cbn [andb].
  by rewrite (proj2 (Z.ltb_lt _ _)) by lia.
Qed.

(** Nothing or no digit follows. *)
Definition number_end (rest : list Z) : Prop := match rest with c :: _ => digit_val 10 c = None | [] => True end.

Lemma digits_dec ds rest : Forall dec_digit ds -> number_end rest -> forall v,
  digits 10 (ds ++ rest) v = (foldl (fun v c => v * 10 + (c - 48)) v ds, rest).
Proof.
  intros Hds Hc. induction Hds as [|d ds Hd _ IH]; intros v; cbn [app digits foldl].
  - destruct rest as [|c rest]; [done|]. cbn [digits]. by rewrite Hc.
  - rewrite (digit_val_10 d Hd). apply IH.
Qed.

Lemma number_dec (neg : bool) ds rest : Forall dec_digit ds -> ds <> [] -> number_end rest ->
  number 10 ((if neg then [45] else []) ++ ds ++ rest) = Some (neg, dec_value ds, rest).
Proof.
  intros Hds Hne Hc. destruct ds as [|d ds]; [done|]. inversion Hds as [|? ? Hd _]; subst. unfold dec_digit in Hd.
  assert (Hsp : skip_space ((if neg then [45] else []) ++ (d :: ds) ++ rest) = (if neg then [45] else []) ++ (d :: ds) ++ rest).
  { destruct neg; [done|]. cbn [app skip_space]. unfold is_space.
    rewrite (proj2 (Z.leb_gt d 13)), (proj2 (Z.eqb_neq d 32)) by lia. by rewrite andb_false_r. }
  assert (Hx : skip_0x 10 ((d :: ds) ++ rest) = (d :: ds) ++ rest).
  { cbn [app]. unfold skip_0x. by destruct (ds ++ rest) as [|? [|? ?]]. }
  unfold number. rewrite Hsp. cbv zeta.
  destruct neg; cbn [app]; [|rewrite (proj2 (Z.eqb_neq d 45)), (proj2 (Z.eqb_neq d 43)) by lia];
    change (45 =? 45) with true; cbv iota; rewrite digit_val_10 by done; cbn [app] in Hx; rewrite Hx;
    pose proof (digits_dec (d :: ds) rest Hds Hc 0) as Hd'; cbn [app] in Hd'; rewrite Hd'; done.
Qed.

(** [s] is the numeral of an [int] [n]: digits, with a minus in front of a negative one. *)
Definition numeral (s : list Z) (n : Z) : Prop :=
  exists neg ds, s = (if neg : bool then [45] else []) ++ ds /\ n = (if neg then - dec_value ds else dec_value ds) /\
    Forall dec_digit ds /\ ds <> [] /\ - 2 ^ 31 <= n < 2 ^ 31.

Lemma strtol_numeral s n : numeral s n -> strtol 10 s = (n, []).
Proof.
  intros (neg & ds & -> & -> & Hds & Hne & Hb). pose proof (number_dec neg ds [] Hds Hne I) as Hn. rewrite app_nil_r in Hn.
  unfold strtol. rewrite Hn. destruct neg; f_equal; lia.
Qed.
