(* ===== verification/FruField.v ===== *)
(** * IPMI fields and checksums of [ivfru_common.c]

    The return codes and enumerations of [ivfru_common.h], the type-length byte,
    the field formatter and reader and the zero-sum checksum.  A [char *] is an
    offset into the buffer it points into; [char] is unsigned, as in the ARM ABI
    the layer is built for. *)
From S2P Require Import Prelude.

Inductive ivfru_ret :=
  | IVFRU_RET_SUCCESS
  | IVFRU_RET_INVALID_ARGUMENT
  | IVFRU_RET_IO_ERROR
  | IVFRU_RET_MEM_ERROR
  | IVFRU_RET_INVALID_DEVICE_TREE
  | IVFRU_RET_INVALID_FRU_DATA
  | IVFRU_RET_FRU_OLD_FORMAT
  | IVFRU_RET_FRU_NEW_FORMAT.

#[export] Instance ivfru_ret_eq_dec : EqDecision ivfru_ret.
Proof. solve_decision. Defined.

Inductive ivfru_board := IVFRU_BOARD_MB | IVFRU_BOARD_IO | IVFRU_BOARD_BP | MAX_IVFRU_BOARD.

#[export] Instance ivfru_board_eq_dec : EqDecision ivfru_board.
Proof. solve_decision. Defined.

Inductive ivfru_tlb_type :=
  | IVFRU_TLB_TYPE_UNSPECIFIED
  | IVFRU_TLB_TYPE_BCD_PLUS
  | IVFRU_TLB_TYPE_6BIT_ASCII_PACKED
  | IVFRU_TLB_TYPE_11
  | MAX_TLB_TYPE.

(** The enumerator's integer value, used where the sources convert it to [int]. *)
Definition tlb_code (t : ivfru_tlb_type) : Z :=
  match t with
  | IVFRU_TLB_TYPE_UNSPECIFIED => 0
  | IVFRU_TLB_TYPE_BCD_PLUS => 1
  | IVFRU_TLB_TYPE_6BIT_ASCII_PACKED => 2
  | IVFRU_TLB_TYPE_11 => 3
  | MAX_TLB_TYPE => 4
  end.

Definition FRU_END_MARKER : Z := 0xC1.

(** [fru_make_tl_byte]: the error code, or the byte stored through [tl]. *)
Definition fru_make_tl_byte (length : Z) (type : ivfru_tlb_type) : ivfru_ret + Z :=
  if 63 <? length then inl IVFRU_RET_INVALID_ARGUMENT
  else if length =? 1 then inl IVFRU_RET_INVALID_ARGUMENT
  else inr (u8 (Z.lor (u8 (Z.shiftl (tlb_code type) 6)) length)).

Definition fru_tl_get_length (b : list Z) (address : Z) : option Z :=
  c ← ld b address;
  if c =? FRU_END_MARKER then Some 0 else Some (Z.land c 0x3F).

(** [fru_area_format_field]: return code, buffer and the value left in [*next].
    [data] is the C object the pointer designates ([None] for NULL); [memcpy]
    reading past it, or a negative [len] converted to [size_t], is a fault. *)
Definition fru_area_format_field (b : list Z) (address : Z) (data : option (list Z))
    (len : Z) (type : ivfru_tlb_type) : option (ivfru_ret * list Z * Z) :=
  match fru_make_tl_byte len type with
  | inl _ => Some (IVFRU_RET_INVALID_ARGUMENT, b, address)
  | inr tl =>
    match data with
    | None =>
      b ← st b address FRU_END_MARKER;
      Some (IVFRU_RET_SUCCESS, b, address + 1 + 0)
    | Some d =>
      b ← st b address tl;
      src ← rd_range d 0 len;
      b ← wr_range b (address + 1) src;
      Some (IVFRU_RET_SUCCESS, b, address + 1 + len)
    end
  end.

(** [fru_area_get_field_at_address]: the bytes copied to [data] with their
    terminating NUL when [data] is an array of the given capacity ([None] for
    NULL), and the value left in [*next]. *)
Definition fru_area_get_field_at_address (b : list Z) (address : Z) (data : option Z)
    : option (list Z * Z) :=
  length ← fru_tl_get_length b address;
  match data with
  | None => Some ([], address + 1 + length)
  | Some cap =>
    d ← rd_range b (address + 1) length;
    if length <? cap then Some (d ++ [0], address + 1 + length) else None
  end.

(** The pointer-advancing use of the reader ([data == NULL]). *)
Definition fru_next (b : list Z) (address : Z) : option Z :=
  snd <$> fru_area_get_field_at_address b address None.

(** The [while(size--)] loop of [fru_calculate_checksum], walking the bytes from
    [address] on; running off the object is a fault, which a negative [size]
    always does. *)
Fixpoint checksum_loop (bytes : list Z) (size sum : Z) : option Z :=
  if size =? 0 then Some sum
  else match bytes with
       | [] => None
       | c :: bytes => checksum_loop bytes (size - 1) (Z.land (sum + c) 0xFF)
       end.

Definition fru_calculate_checksum (b : list Z) (address size : Z) : option Z :=
  if (address <? 0) || (zlen b <? address) then None
  else sum ← checksum_loop (drop (Z.to_nat address) b) size 0;
       Some (u8 (0x100 - sum)).

(** ** What these functions mean *)

(** An encoded field: its type-length byte and its data. *)
Record field := Field { f_tl : Z; f_data : list Z }.

Definition render_field (f : field) : list Z := f_tl f :: f_data f.
Definition render_fields (fs : list field) : list Z := concat (render_field <$> fs).

Definition field_ok (f : field) : Prop :=
  is_byte (f_tl f) /\ f_tl f <> FRU_END_MARKER /\
  zlen (f_data f) = Z.land (f_tl f) 0x3F /\ Forall is_byte (f_data f).

(** The checksum that makes a list of bytes sum to zero modulo 256. *)
Definition zsum (l : list Z) : Z := foldr Z.add 0 l.
Definition cksum (l : list Z) : Z := u8 (- zsum l).

(** ** Lemmas: fields *)

Lemma render_fields_cons f fs : render_fields (f :: fs) = f_tl f :: f_data f ++ render_fields fs.
Proof. reflexivity. Qed.
Lemma render_fields_app fs gs : render_fields (fs ++ gs) = render_fields fs ++ render_fields gs.
Proof. unfold render_fields. by rewrite fmap_app, concat_app. Qed.
Lemma zlen_render_field f : zlen (render_field f) = 1 + zlen (f_data f).
Proof. unfold render_field. zl. Qed.

#[export] Hint Rewrite render_fields_cons render_fields_app zlen_render_field : zlen.

Lemma land_3F_bounds c : 0 <= Z.land c 0x3F < 64.
Proof.
  change 0x3F with (Z.ones 6). rewrite Z.land_ones by lia. apply Z.mod_pos_bound. lia.
Qed.

Lemma field_len_bounds f : field_ok f -> 0 <= zlen (f_data f) < 64.
Proof. intros (_ & _ & -> & _). apply land_3F_bounds. Qed.

Lemma tl_get_length_inv b a l :
  fru_tl_get_length b a = Some l ->
  exists c, ld b a = Some c /\ l = (if c =? FRU_END_MARKER then 0 else Z.land c 0x3F) /\ 0 <= l < 64.
Proof.
  unfold fru_tl_get_length. destruct (ld b a) as [c|]; cbn; [|done].
  pose proof (land_3F_bounds c). case_if; intros [= <-]; exists c; repeat split; auto; try lia.
  - by rewrite Heqb0.
  - by rewrite (proj2 (Z.eqb_neq _ _) Heqb0).
Qed.

Lemma tl_get_length_total b a :
  0 <= a < zlen b -> exists l, fru_tl_get_length b a = Some l /\ 0 <= l < 64.
Proof.
  intros [c Hc]%ld_total. unfold fru_tl_get_length. rewrite Hc. cbn.
  pose proof (land_3F_bounds c). case_if; eexists; split; eauto; lia.
Qed.

Lemma fru_next_eq b a : fru_next b a = (fun l => a + 1 + l) <$> fru_tl_get_length b a.
Proof.
  unfold fru_next, fru_area_get_field_at_address. by destruct (fru_tl_get_length b a).
Qed.

(** On an encoded field the length is the field's, and [next] steps over it. *)
Lemma tl_get_length_field b a f :
  field_ok f -> seg b a (render_field f) -> fru_tl_get_length b a = Some (zlen (f_data f)).
Proof.
  intros (_ & Hm & Hl & _) [Hc _]%seg_cons. unfold fru_tl_get_length.
  rewrite Hc. cbn. apply Z.eqb_neq in Hm. by rewrite Hm, Hl.
Qed.

Lemma fru_next_field b a f :
  field_ok f -> seg b a (render_field f) -> fru_next b a = Some (a + zlen (render_field f)).
Proof.
  intros Hok Hs. rewrite fru_next_eq, (tl_get_length_field b a f) by done.
  cbn. f_equal. rewrite zlen_render_field. lia.
Qed.

(** Conversely, the reader sees an encoded field wherever one fits. *)
Lemma field_at b a c :
  Forall is_byte b -> ld b a = Some c -> c <> FRU_END_MARKER ->
  a + 1 + Z.land c 0x3F <= zlen b ->
  exists f, field_ok f /\ f_tl f = c /\ seg b a (render_field f) /\ zlen (f_data f) = Z.land c 0x3F.
Proof.
  intros Hb Hc Hm Hl. pose proof (land_3F_bounds c). pose proof (ld_bounds _ _ _ Hc).
  destruct (seg_exists b (a + 1) (Z.land c 0x3F)) as (d & Hd & Hdl); [lia..|].
  exists (Field c d). repeat split; cbn; eauto with fru.
  - eapply ld_byte in Hc; [|done]. destruct Hc. done.
  - eapply ld_byte in Hc; [|done]. destruct Hc. done.
  - apply seg_cons. done.
Qed.

(** ** Lemmas: checksum *)

Lemma zsum_app l1 l2 : zsum (l1 ++ l2) = zsum l1 + zsum l2.
Proof. induction l1; cbn in *; [done|]. unfold zsum in *. lia. Qed.

Lemma checksum_loop_app l rest sum :
  checksum_loop (l ++ rest) (zlen l) sum = Some (if bool_decide (l = []) then sum else (sum + zsum l) `mod` 256).
Proof.
  revert sum. induction l as [|c l IH]; intros sum.
  - by destruct rest.
  - cbn [app checksum_loop]. case_if; [zl|].
    rewrite zlen_cons. replace (1 + zlen l - 1) with (zlen l) by lia.
    rewrite IH. rewrite (bool_decide_false (c :: l = [])) by done.
    change 0xFF with (Z.ones 8). rewrite Z.land_ones by lia. change (2 ^ 8) with 256.
    f_equal. cbn [zsum foldr]. case_bool_decide.
    + subst. cbn. f_equal. lia.
    + rewrite Z.add_mod_idemp_l by lia. f_equal. unfold zsum. lia.
Qed.

Lemma checksum_seg b a l n :
  seg b a l -> n = zlen l -> fru_calculate_checksum b a n = Some (cksum l).
Proof.
  intros (pre & post & -> & <-) ->. unfold fru_calculate_checksum.
  rewrite (proj2 (Z.ltb_ge (zlen pre) 0)), (proj2 (Z.ltb_ge _ (zlen pre))) by zl. cbn [orb].
  rewrite to_nat_zlen, drop_app_length, checksum_loop_app. cbn. f_equal.
  unfold cksum, u8. case_bool_decide; [by subst|]. mlia.
Qed.

(** A negative size makes the loop run off the end of every object. *)
Lemma checksum_loop_neg l n sum : n < 0 -> checksum_loop l n sum = None.
Proof.
  revert n sum. induction l as [|c l IH]; intros n sum Hn; cbn; (case_if; [lia|]); [done|].
  apply IH. lia.
Qed.

Lemma checksum_neg b a n : n < 0 -> fru_calculate_checksum b a n = None.
Proof.
  intros Hn. unfold fru_calculate_checksum. case_if; [done|]. by rewrite checksum_loop_neg.
Qed.
