(* ===== verification/FruValidate.v ===== *)
(** * Validation of a FRU image ([ivfru_common.c])

    [fru_is_old_format], [fru_get_total_length], [ivfru_bia_validate],
    [ivfru_validate] and [ivfru_get_bia_predefined_fields] over the bytes of the
    image, and the grammar of images that they recognise. *)
From S2P Require Import Prelude FruField.

(** ** Layout of [struct ivfru_common_header] and [struct ivfru_board_info_area] *)

Definition CH_format_version : Z := 0.
Definition CH_internal_use_area : Z := 1.
Definition CH_chassis_info_area : Z := 2.
Definition CH_board_info_area : Z := 3.
Definition CH_product_info_area : Z := 4.
Definition CH_multirecord_area : Z := 5.
Definition CH_checksum : Z := 7.
Definition sizeof_CH : Z := 8.

Definition BIA_format_version : Z := 0.
Definition BIA_length : Z := 1.
Definition BIA_language_code : Z := 2.
Definition BIA_mfg_date_time : Z := 3.
Definition BIA_variable : Z := 6.
Definition sizeof_BIA : Z := 6.

Definition CH_DEFAULT : list Z := [0x01; 0; 0; 0x01; 0; 0; 0; 0xFE].
Definition CH_OLD : list Z := [0x01; 0; 0; 0x08; 0; 0; 0; 0xF7].

(** [enum validation_result]: a set of flags. *)
Definition VAL_RES_SUCCESS : Z := 0x0000.
Definition VAL_RES_CH_INVALID_FORMAT_VERSION : Z := 0x0001.
Definition VAL_RES_CH_INVALID_BIA_OFFSET : Z := 0x0002.
Definition VAL_RES_CH_INVALID_CHECKSUM : Z := 0x0004.
Definition VAL_RES_BIA_INVALID_FORMAT_VERSION : Z := 0x0008.
Definition VAL_RES_BIA_INVALID_LANGUAGE_CODE : Z := 0x0010.
Definition VAL_RES_BIA_PREDEF_FIELDS_MISSING : Z := 0x0020.
Definition VAL_RES_BIA_INVALID_FRU_FILE_ID : Z := 0x0040.
Definition VAL_RES_BIA_MISSING_END_OF_FIELDS : Z := 0x0080.
Definition VAL_RES_BIA_INVALID_PADDING : Z := 0x0100.
Definition VAL_RES_BIA_MISSING_CHECKSUM : Z := 0x0200.
Definition VAL_RES_BIA_INCORRECT_CHECKSUM : Z := 0x0400.
Definition VAL_RES_BIA_MASK : Z := 0x4F8.

(** [memcmp(location, &CH_OLD, sizeof(CH_OLD)) == 0]: a library function that is
    given eight bytes may read all of them. *)
Definition fru_is_old_format (b : list Z) : option bool :=
  h ← rd_range b 0 sizeof_CH; Some (bool_decide (h = CH_OLD)).

Definition fru_get_total_length (b : list Z) : option Z :=
  v ← ld b CH_format_version;
  if negb (v =? 0x01) then Some 0
  else
    o ← ld b CH_board_info_area;
    if negb (o =? 0x00) then
      l ← ld b (sizeof_CH + BIA_length); Some (8 + l * 8)
    else Some 8.

(** The statement [if(bad) { res |= bit; if(!ignore) goto end; }] followed by [k];
    reaching the label returns the flags collected so far. *)
Definition check (ignore bad : bool) (bit res : Z) (k : Z -> option Z) : option Z :=
  if bad then
    let res := Z.lor res bit in
    if negb ignore then Some res else k res
  else k res.

(** The loop over the first four pre-defined fields. *)
Fixpoint predef_loop (fuel : nat) (b : list Z) (address rem_length index : Z)
    : option (Z * Z * Z) :=
  match fuel with
  | O => None
  | S fuel =>
    c ← ld b address;
    if negb (c =? FRU_END_MARKER) && (index <? 4) && (0 <? rem_length) then
      l ← fru_tl_get_length b address;
      next ← fru_next b address;
      predef_loop fuel b next (rem_length - (1 + l)) (index + 1)
    else Some (address, rem_length, index)
  end.

(** The loop over the custom fields (and the FRU File ID field). *)
Fixpoint custom_loop (fuel : nat) (b : list Z) (address rem_length : Z) : option (Z * Z) :=
  match fuel with
  | O => None
  | S fuel =>
    c ← ld b address;
    if negb (c =? FRU_END_MARKER) && (0 <? rem_length) then
      l ← fru_tl_get_length b address;
      next ← fru_next b address;
      custom_loop fuel b next (rem_length - (1 + l))
    else Some (address, rem_length)
  end.

(** The loop over the zero padding. *)
Fixpoint padding_loop (fuel : nat) (b : list Z) (address rem_length : Z) : option (Z * Z) :=
  match fuel with
  | O => None
  | S fuel =>
    c ← ld b address;
    if (c =? 0x00) && (1 <? rem_length) then padding_loop fuel b (address + 1) (rem_length - 1)
    else Some (address, rem_length)
  end.

(** Enough iterations for a loop that consumes at least one of [rem] bytes. *)
Definition loop_fuel (rem : Z) : nat := S (Z.to_nat rem).

(** [ivfru_bia_validate] on the area at offset [bia]: the flags of [res] when
    control reaches [end]. *)
Definition ivfru_bia_validate_res (b : list Z) (bia : Z) (old_format ignore : bool) : option Z :=
  l ← ld b (bia + BIA_length);
  let bia_length := if negb old_format then l * 8 else l in
  let rem_length := bia_length in
  check ignore (rem_length <? sizeof_BIA) VAL_RES_BIA_PREDEF_FIELDS_MISSING VAL_RES_SUCCESS (fun res =>
  v ← ld b (bia + BIA_format_version);
  check ignore (negb (v =? 0x01)) VAL_RES_BIA_INVALID_FORMAT_VERSION res (fun res =>
  lang ← ld b (bia + BIA_language_code);
  check ignore (negb (lang =? 0x00)) VAL_RES_BIA_INVALID_LANGUAGE_CODE res (fun res =>
  let address := bia + BIA_variable in
  let rem_length := rem_length - sizeof_BIA in
  '(address, rem_length, index) ← predef_loop 5 b address rem_length 0;
  missing ← (if (index <? 4) || (rem_length <? 3) then Some true
             else c ← ld b address; Some (c =? FRU_END_MARKER));
  check ignore missing VAL_RES_BIA_PREDEF_FIELDS_MISSING res (fun res =>
  c ← ld b address;
  check ignore (negb (c =? 0)) VAL_RES_BIA_INVALID_FRU_FILE_ID res (fun res =>
  '(address, rem_length) ← custom_loop (loop_fuel rem_length) b address rem_length;
  c ← ld b address;
  check ignore (negb (c =? FRU_END_MARKER) || (rem_length <? 1))
    VAL_RES_BIA_MISSING_END_OF_FIELDS res (fun res =>
  let address := address + 1 in
  let rem_length := rem_length - 1 in
  '(address, rem_length) ← padding_loop (loop_fuel rem_length) b address rem_length;
  check ignore (1 <? rem_length) VAL_RES_BIA_INVALID_PADDING res (fun res =>
  check ignore (rem_length <? 1) VAL_RES_BIA_MISSING_CHECKSUM res (fun res =>
  checksum ← fru_calculate_checksum b bia (bia_length - 1);
  c ← ld b address;
  check ignore (negb (checksum =? c)) VAL_RES_BIA_INCORRECT_CHECKSUM res (fun res =>
  Some res))))))))).

Definition ret_of_res (res : Z) : ivfru_ret :=
  if negb (res =? VAL_RES_SUCCESS) then IVFRU_RET_INVALID_FRU_DATA else IVFRU_RET_SUCCESS.

(** Return code and the updated [*result] (which is or-ed). *)
Definition ivfru_bia_validate (b : list Z) (bia : Z) (old_format : bool) (result : Z)
    (ignore : bool) : option (ivfru_ret * Z) :=
  res ← ivfru_bia_validate_res b bia old_format ignore;
  Some (ret_of_res res, Z.lor result res).

(** [ivfru_validate]: the return code and the flags stored through [result]. *)
Definition ivfru_validate (b : list Z) (ignore : bool) : option (ivfru_ret * Z) :=
  fru_old_format ← fru_is_old_format b;
  let bia_part (res : Z) : option Z :=
    if Z.land res VAL_RES_CH_INVALID_BIA_OFFSET =? 0 then
      '(_, res) ← ivfru_bia_validate b sizeof_CH fru_old_format res ignore; Some res
    else Some res in
  res ← (if negb fru_old_format then
           v ← ld b CH_format_version;
           check ignore (negb (v =? 0x01)) VAL_RES_CH_INVALID_FORMAT_VERSION VAL_RES_SUCCESS (fun res =>
           checksum ← fru_calculate_checksum b 0 7;
           c ← ld b CH_checksum;
           check ignore (negb (checksum =? c)) VAL_RES_CH_INVALID_CHECKSUM res (fun res =>
           o ← ld b CH_board_info_area;
           check ignore (negb (o =? 0x01)) VAL_RES_CH_INVALID_BIA_OFFSET res bia_part))
         else bia_part VAL_RES_SUCCESS);
  Some (ret_of_res res, res).

(** One output of [ivfru_get_bia_predefined_fields]: address and length. *)
Definition predef_at (b : list Z) (address : Z) : option (Z * Z * Z) :=
  l ← fru_tl_get_length b address;
  next ← fru_next b address;
  Some (address + 1, l, next).

(** [ivfru_get_bia_predefined_fields] with every output pointer given: the
    (address, length) pairs of product name, serial number and part number. *)
Definition ivfru_get_bia_predefined_fields (b : list Z)
    : option ((Z * Z) * (Z * Z) * (Z * Z)) :=
  address ← fru_next b (sizeof_CH + BIA_variable);
  '(product, product_len, address) ← predef_at b address;
  '(sn, sn_len, address) ← predef_at b address;
  '(pn, pn_len, address) ← predef_at b address;
  Some ((product, product_len), (sn, sn_len), (pn, pn_len)).

(** ** The images the validator recognises *)

(** The contents of a board info area: manufacturing date, the four pre-defined
    fields, the custom fields that follow the (empty) FRU File ID, and the number
    of padding bytes. *)
Record bia_image := BiaImage {
  bi_date : list Z;
  bi_predef : list field;
  bi_custom : list field;
  bi_pad : nat
}.

Definition bia_ok (im : bia_image) : Prop :=
  zlen (bi_date im) = 3 /\ Forall is_byte (bi_date im) /\
  length (bi_predef im) = 4%nat /\ Forall field_ok (bi_predef im) /\ Forall field_ok (bi_custom im).

(** The bytes before the padding, with the given length byte. *)
Definition bia_head (len : Z) (im : bia_image) : list Z :=
  [0x01; len; 0x00] ++ bi_date im ++ render_fields (bi_predef im).
Definition bia_body (len : Z) (im : bia_image) : list Z :=
  bia_head len im ++ 0 :: render_fields (bi_custom im) ++ FRU_END_MARKER :: replicate (bi_pad im) 0.
Definition render_bia (len : Z) (im : bia_image) : list Z :=
  bia_body len im ++ [cksum (bia_body len im)].

(** Size of the area in bytes. *)
Definition bia_total (im : bia_image) : Z :=
  9 + zlen (render_fields (bi_predef im)) + zlen (render_fields (bi_custom im)) + Z.of_nat (bi_pad im).

Lemma zlen_bia_body len im : bia_ok im -> zlen (bia_body len im) = bia_total im - 1.
Proof. intros (Hd & _). unfold bia_body, bia_head, bia_total. zl. Qed.

Lemma zlen_render_bia len im : bia_ok im -> zlen (render_bia len im) = bia_total im.
Proof.
  intros Hok. unfold render_bia. autorewrite with zlen. rewrite zlen_bia_body by done. zl.
Qed.

(** The FRU File ID field is an empty field: custom fields start there. *)
Definition file_id_field : field := Field 0 [].
Lemma file_id_ok : field_ok file_id_field.
Proof. repeat split; cbn; try lia; [done|constructor]. Qed.

(** ** Lemmas: the scanning loops *)

Lemma predef_run fs : forall b a rem idx fuel,
  Forall field_ok fs -> seg b a (render_fields fs) -> a + zlen (render_fields fs) < zlen b ->
  idx + zlen fs = 4 -> zlen (render_fields fs) <= rem -> (length fs < fuel)%nat ->
  predef_loop fuel b a rem idx = Some (a + zlen (render_fields fs), rem - zlen (render_fields fs), 4).
Proof.
  induction fs as [|f fs IH]; intros b a rem idx fuel Hok Hs Hend Hidx Hrem Hfuel;
    (destruct fuel as [|fuel]; [lia|]); cbn [predef_loop].
  - apply seg_bounds in Hs as Hb. zl. destruct (ld_total b a) as [c ->]; [lia|]. cbn.
    rewrite (proj2 (Z.ltb_ge idx 4)), andb_false_r by lia. cbn.
    res_lia.
  - inversion Hok as [|? ? Hf Hfs]; subst.
    change (render_fields (f :: fs)) with (render_field f ++ render_fields fs) in *.
    apply seg_app in Hs as [Hs1 Hs2]. pose proof Hf as (_ & Hm & _ & _).
    pose proof Hs1 as [Hc _]%seg_cons. rewrite Hc. zl.
    cbn [mbind option_bind]. rewrite (proj2 (Z.eqb_neq _ _) Hm).
    rewrite (proj2 (Z.ltb_lt idx 4)), (proj2 (Z.ltb_lt 0 rem)) by lia. cbn [negb andb].
    rewrite (tl_get_length_field _ _ f), (fru_next_field _ _ f) by done. cbn [mbind option_bind].
    rewrite IH by (first [done | cbn [length] in *; zl; done]). zl. res_lia.
Qed.

Lemma predef_sound fuel : forall b a rem idx a' rem' idx',
  Forall is_byte b -> predef_loop fuel b a rem idx = Some (a', rem', idx') -> a' <= zlen b -> idx <= 4 ->
  exists fs, Forall field_ok fs /\ seg b a (render_fields fs) /\ a' = a + zlen (render_fields fs) /\
    rem' = rem - zlen (render_fields fs) /\ idx' = idx + zlen fs /\ idx' <= 4.
Proof.
  induction fuel as [|fuel IH]; intros b a rem idx a' rem' idx' Hb; cbn [predef_loop]; [done|].
  destruct (ld b a) as [c|] eqn:Hc; cbn [mbind option_bind]; [|done].
  pose proof (ld_bounds _ _ _ Hc). intros Hl Ha' Hidx. case_if_in Hl.
  - destruct (fru_tl_get_length b a) as [l|] eqn:Hlen; cbn [mbind option_bind] in Hl; [|done].
    rewrite fru_next_eq, Hlen in Hl. cbn [fmap option_fmap option_map mbind option_bind] in Hl.
    apply tl_get_length_inv in Hlen as (c' & Hc' & -> & Hl64).
    assert (c' = c) as -> by congruence.
    rewrite (proj2 (Z.eqb_neq _ _)) in Hl, Hl64 by done.
    apply IH in Hl as (fs & Hfs & Hsg & -> & -> & -> & ?); [|done..|lia].
    pose proof (zlen_nonneg (render_fields fs)).
    destruct (field_at b a c) as (f & Hf & Htl & Hs & Hfl); [done..|lia|].
    exists (f :: fs). change (render_fields (f :: fs)) with (render_field f ++ render_fields fs).
    split_and!; zl; [by constructor|].
    apply seg_app. split; [done|]. rewrite zlen_render_field. by replace (a + (1 + zlen (f_data f))) with (a + 1 + Z.land c 0x3F) by lia.
  - simplify_eq. exists []. split_and!; zl; [constructor|]. apply seg_nil. lia.
Qed.

Lemma custom_run fs : forall b a rem fuel,
  Forall field_ok fs -> seg b a (render_fields fs ++ [FRU_END_MARKER]) ->
  zlen (render_fields fs) <= rem -> (length fs < fuel)%nat ->
  custom_loop fuel b a rem = Some (a + zlen (render_fields fs), rem - zlen (render_fields fs)).
Proof.
  induction fs as [|f fs IH]; intros b a rem fuel Hok Hs Hrem Hfuel;
    (destruct fuel as [|fuel]; [lia|]); cbn [custom_loop].
  - cbn in Hs. apply seg_cons in Hs as [Hc _]. rewrite Hc. cbn. zl. res_lia.
  - inversion Hok as [|? ? Hf Hfs]; subst.
    change (render_fields (f :: fs)) with (render_field f ++ render_fields fs) in *.
    rewrite <- (assoc_L (++)) in Hs.
    apply seg_app in Hs as [Hs1 Hs2]. pose proof Hf as (_ & Hm & _ & _).
    pose proof Hs1 as [Hc _]%seg_cons. rewrite Hc. zl.
    cbn [mbind option_bind]. rewrite (proj2 (Z.eqb_neq _ _) Hm).
    rewrite (proj2 (Z.ltb_lt 0 rem)) by lia. cbn [negb andb].
    rewrite (tl_get_length_field _ _ f), (fru_next_field _ _ f) by done. cbn [mbind option_bind].
    rewrite IH by (first [done | cbn [length] in *; zl; done]). zl. res_lia.
Qed.

Lemma custom_sound fuel : forall b a rem a' rem',
  Forall is_byte b -> custom_loop fuel b a rem = Some (a', rem') -> a' <= zlen b ->
  exists fs, Forall field_ok fs /\ seg b a (render_fields fs) /\ a' = a + zlen (render_fields fs) /\
    rem' = rem - zlen (render_fields fs).
Proof.
  induction fuel as [|fuel IH]; intros b a rem a' rem' Hb; cbn [custom_loop]; [done|].
  destruct (ld b a) as [c|] eqn:Hc; cbn [mbind option_bind]; [|done].
  pose proof (ld_bounds _ _ _ Hc). intros Hl Ha'. case_if_in Hl.
  - destruct (fru_tl_get_length b a) as [l|] eqn:Hlen; cbn [mbind option_bind] in Hl; [|done].
    rewrite fru_next_eq, Hlen in Hl. cbn [fmap option_fmap option_map mbind option_bind] in Hl.
    apply tl_get_length_inv in Hlen as (c' & Hc' & -> & Hl64).
    assert (c' = c) as -> by congruence.
    rewrite (proj2 (Z.eqb_neq _ _)) in Hl, Hl64 by done.
    apply IH in Hl as (fs & Hfs & Hsg & -> & ->); [|done..].
    pose proof (zlen_nonneg (render_fields fs)).
    destruct (field_at b a c) as (f & Hf & Htl & Hs & Hfl); [done..|lia|].
    exists (f :: fs). change (render_fields (f :: fs)) with (render_field f ++ render_fields fs).
    split_and!; zl; [by constructor|].
    apply seg_app. split; [done|]. rewrite zlen_render_field. by replace (a + (1 + zlen (f_data f))) with (a + 1 + Z.land c 0x3F) by lia.
  - simplify_eq. exists []. split_and!; zl; [constructor|]. apply seg_nil. lia.
Qed.

Lemma padding_run n : forall b a fuel,
  seg b a (replicate n 0) -> a + Z.of_nat n < zlen b -> (n < fuel)%nat ->
  padding_loop fuel b a (1 + Z.of_nat n) = Some (a + Z.of_nat n, 1).
Proof.
  induction n as [|n IH]; intros b a fuel Hs Hb Hf; (destruct fuel as [|fuel]; [lia|]); cbn [padding_loop].
  - apply seg_bounds in Hs. destruct (ld_total b a) as [c ->]; [lia|]. cbn.
    rewrite andb_false_r. res_lia.
  - cbn [replicate] in Hs. apply seg_cons in Hs as [-> Hs]. cbn [mbind option_bind].
    rewrite (proj2 (Z.ltb_lt 1 _)) by lia. cbn [Z.eqb andb].
    replace (1 + Z.of_nat (S n) - 1) with (1 + Z.of_nat n) by lia.
    rewrite IH by (done || lia). res_lia.
Qed.

Lemma padding_sound fuel : forall b a rem a' rem',
  padding_loop fuel b a rem = Some (a', rem') ->
  exists n, seg b a (replicate n 0) /\ a' = a + Z.of_nat n /\ rem' = rem - Z.of_nat n /\
    ((0 < n)%nat -> 1 <= rem').
Proof.
  induction fuel as [|fuel IH]; intros b a rem a' rem'; cbn [padding_loop]; [done|].
  destruct (ld b a) as [c|] eqn:Hc; cbn [mbind option_bind]; [|done].
  pose proof (ld_bounds _ _ _ Hc). intros Hl. case_if_in Hl.
  - apply IH in Hl as (n & Hs & -> & -> & Hn). exists (S n). subst c. split_and!; try lia.
    cbn [replicate]. by apply seg_cons.
  - simplify_eq. exists O. split_and!; try lia. apply seg_nil. lia.
Qed.

(** ** Lemmas: acceptance *)

Lemma check_accept bad bit k :
  bit <> 0 -> check false bad bit VAL_RES_SUCCESS k = Some VAL_RES_SUCCESS ->
  bad = false /\ k VAL_RES_SUCCESS = Some VAL_RES_SUCCESS.
Proof. unfold check, VAL_RES_SUCCESS. destruct bad; cbn [negb]; rewrite ?Z.lor_0_l; [congruence|done]. Qed.

(** One step of inversion of an accepting run of the validator. *)
Ltac accept_in H :=
  match type of H with
  | check false _ _ _ _ = _ =>
      let Hc := fresh "Hc" in
      apply check_accept in H as [Hc H]; [|discriminate]; cbv beta in H; bool_to_prop
  | context [?m ≫= _] =>
      let E := fresh "E" in destruct m eqn:E; cbn [mbind option_bind] in H; [|discriminate H]
  end.

Lemma file_id_first b a fs :
  Forall field_ok fs -> seg b a (render_fields fs) ->
  ld b a = Some 0 -> ld b (a + zlen (render_fields fs)) = Some FRU_END_MARKER ->
  exists fs', fs = file_id_field :: fs' /\ Forall field_ok fs'.
Proof.
  intros Hok Hs H0 He. destruct fs as [|f fs].
  - change (zlen (render_fields [])) with 0 in He. rewrite Z.add_0_r, H0 in He. discriminate.
  - inversion Hok as [|? ? Hf Hfs]; subst. exists fs. split; [|done].
    rewrite render_fields_cons in Hs. apply seg_cons in Hs as [Hc _].
    destruct f as [tl d]. cbn in *. assert (tl = 0) as -> by congruence.
    destruct Hf as (_ & _ & Hl & _). cbn in Hl. unfold file_id_field.
    change (Z.land 0 63) with 0 in Hl. destruct d; [done|zl].
Qed.

Lemma bia_validate_sound b bia old :
  Forall is_byte b -> 0 <= bia ->
  ivfru_bia_validate_res b bia old false = Some VAL_RES_SUCCESS ->
  exists len im, bia_ok im /\ ld b (bia + BIA_length) = Some len /\
    bia_total im = (if old then len else len * 8) /\ seg b bia (render_bia len im).
Proof.
  unfold ivfru_bia_validate_res, BIA_length, BIA_format_version, BIA_language_code, BIA_variable, sizeof_BIA.
  intros Hb Hbia H. accept_in H. rename z into len.
  set (total := if negb old then len * 8 else len) in *.
  repeat accept_in H. rename z0 into lang. subst z lang.
  destruct p as [[a1 rem1] idx]. repeat accept_in H. subst b0. rename z into c1. subst c1.
  destruct p as [a2 rem2]. repeat accept_in H. rename z into c2. subst c2.
  destruct p as [a3 rem3]. repeat accept_in H. rename z into ck, z0 into c3. subst c3. clear H.
  pose proof (ld_bounds _ _ _ E4). pose proof (ld_bounds _ _ _ E6). pose proof (ld_bounds _ _ _ E9).
  apply predef_sound in E2 as (fs1 & Hfs1 & Hs1 & -> & -> & -> & Hidx); [|done|lia|lia].
  apply custom_sound in E5 as (fs2 & Hfs2 & Hs2 & -> & ->); [|done|lia].
  apply padding_sound in E7 as (n & Hs3 & -> & -> & Hn).
  destruct (seg_exists b (bia + 3) 3) as (date & Hdate & Hdl);
    [lia..| pose proof (zlen_nonneg (render_fields fs1)); lia |].
  pose proof Hs2 as Hs2'. apply file_id_first in Hs2' as (fs3 & -> & Hfs3); [|done..].
  change (render_fields (file_id_field :: fs3)) with (0 :: render_fields fs3) in *.
  apply seg_cons in Hs2 as [_ Hs2].
  exists len, (BiaImage date fs1 fs3 n).
  assert (Hbody : seg b bia (bia_body len (BiaImage date fs1 fs3 n))).
  { unfold bia_body, bia_head. cbn [bi_date bi_predef bi_custom bi_pad]. seg_solve. }
  assert (Hlen4 : length fs1 = 4%nat).
  { destruct ((0 + zlen fs1 <? 4) || _) eqn:E5; [done|]. bool_to_prop. unfold zlen in *. lia. }
  assert (Htot : zlen (bia_body len (BiaImage date fs1 fs3 n)) = total - 1).
  { unfold bia_body, bia_head. cbn [bi_date bi_predef bi_custom bi_pad]. zl. }
  rewrite (checksum_seg _ _ _ _ Hbody) in E8 by done. injection E8 as <-.
  split_and!; try done.
  - split_and!; cbn; eauto with fru.
  - unfold bia_total. cbn [bi_date bi_predef bi_custom bi_pad]. subst total. destruct old; cbn [negb] in *; zl.
  - unfold render_bia. apply seg_app. split; [done|]. rewrite Htot.
    apply seg_cons. split; [eapply ld_at; [eassumption|zl]|]. apply seg_nil. zl.
Qed.

Lemma check_pass ignore bad bit res k : bad = false -> check ignore bad bit res k = k res.
Proof. by intros ->. Qed.

(** Splits every segment hypothesis into its loads and parts. *)
Ltac seg_split :=
  repeat match goal with
  | H : seg _ _ (_ :: _) |- _ => apply seg_cons in H as [? ?]
  | H : seg _ _ (_ ++ _) |- _ => apply seg_app in H as [? ?]
  | H : seg _ _ [] |- _ => clear H
  end.

(** The segments of a rendered area. *)
Lemma render_bia_parts b bia len im :
  bia_ok im -> seg b bia (render_bia len im) ->
  let e1 := bia + 6 + zlen (render_fields (bi_predef im)) in
  let e2 := e1 + 1 + zlen (render_fields (bi_custom im)) in
  ld b (bia + 0) = Some 1 /\ ld b (bia + 1) = Some len /\ ld b (bia + 2) = Some 0 /\
  seg b (bia + 3) (bi_date im) /\ seg b (bia + 6) (render_fields (bi_predef im)) /\
  seg b e1 (render_fields (file_id_field :: bi_custom im) ++ [FRU_END_MARKER]) /\
  ld b e1 = Some 0 /\ seg b (e1 + 1) (render_fields (bi_custom im)) /\
  ld b e2 = Some FRU_END_MARKER /\ seg b (e2 + 1) (replicate (bi_pad im) 0) /\
  ld b (e2 + 1 + Z.of_nat (bi_pad im)) = Some (cksum (bia_body len im)) /\
  seg b bia (bia_body len im).
Proof.
  intros Hok Hs e1 e2. pose proof Hok as (Hd & _).
  change (render_fields (file_id_field :: bi_custom im)) with (0 :: render_fields (bi_custom im)).
  unfold render_bia in Hs. apply seg_app in Hs as [Hb Hck]. pose proof Hb as Hb'.
  rewrite zlen_bia_body in Hck by done.
  unfold bia_body, bia_head in Hb'. seg_split. unfold bia_total in *. unfold e1, e2. zl.
  split_and!; solve [seg_solve | done].
Qed.

Lemma zlen_fields_le fs : zlen fs <= zlen (render_fields fs).
Proof.
  induction fs as [|f fs IH]; [reflexivity|].
  change (render_fields (f :: fs)) with (render_field f ++ render_fields fs). zl.
Qed.

Lemma bia_validate_complete b bia (old ignore : bool) len im :
  bia_ok im -> seg b bia (render_bia len im) -> bia_total im = (if old then len else len * 8) ->
  ivfru_bia_validate_res b bia old ignore = Some VAL_RES_SUCCESS.
Proof.
  intros Hok Hs Htot. pose proof (seg_bounds _ _ _ Hs) as [_ Hbnd]. rewrite zlen_render_bia in Hbnd by done.
  destruct (render_bia_parts _ _ _ _ Hok Hs) as (H0 & H1 & H2 & H3 & H4 & H5 & H6 & H7 & H8 & H9 & H10 & H11).
  assert (Hbody : zlen (bia_body len im) = bia_total im - 1).
  { by apply zlen_bia_body. }
  destruct Hok as (_ & _ & Hn4 & Hf & Hfc).
  unfold bia_total in *. set (p := zlen (render_fields (bi_predef im))) in *.
  set (q := zlen (render_fields (bi_custom im))) in *.
  assert (0 <= p /\ 0 <= q) as [??] by (subst p q; split; apply zlen_nonneg).
  unfold ivfru_bia_validate_res, BIA_length, BIA_format_version, BIA_language_code, BIA_variable, sizeof_BIA.
  rewrite H1. cbn [mbind option_bind].
  replace (if negb old then len * 8 else len) with (9 + p + q + Z.of_nat (bi_pad im)) by (destruct old; cbn; lia).
  rewrite check_pass by lia. rewrite H0. cbn [mbind option_bind]. rewrite check_pass by done.
  rewrite H2. cbn [mbind option_bind]. rewrite check_pass by done.
  rewrite (predef_run (bi_predef im)) by (first [done | unfold zlen in *; lia]). fold p. cbn [mbind option_bind].
  rewrite (proj2 (Z.ltb_ge _ 3)) by lia. cbn [Z.ltb orb Z.compare Pos.compare Pos.compare_cont].
  rewrite H6. cbn [mbind option_bind]. rewrite check_pass by done. cbv beta. rewrite check_pass by done.
  assert (Hz : zlen (render_fields (file_id_field :: bi_custom im)) = 1 + q) by zl.
  rewrite (custom_run (file_id_field :: bi_custom im)); [|by constructor; [apply file_id_ok|]|done|lia|].
  2:{ pose proof (zlen_fields_le (bi_custom im)) as Hl. unfold loop_fuel, zlen in *. cbn [length]. subst q. lia. }
  rewrite Hz. cbn [mbind option_bind].
  rewrite (ld_at _ _ _ _ H8) by lia. cbn [mbind option_bind].
  rewrite check_pass by (rewrite (proj2 (Z.ltb_ge _ _)); [done|lia]).
  replace (9 + p + q + Z.of_nat (bi_pad im) - 6 - p - (1 + q) - 1) with (1 + Z.of_nat (bi_pad im)) by lia.
  rewrite (padding_run (bi_pad im)).
  2:{ eapply seg_at; [done|lia]. }
  2:{ lia. }
  2:{ unfold loop_fuel. lia. }
  cbn [mbind option_bind]. rewrite check_pass by done. rewrite check_pass by done.
  rewrite (checksum_seg _ _ _ _ H11) by lia. cbn [mbind option_bind].
  rewrite (ld_at _ _ _ _ H10) by lia. cbn [mbind option_bind].
  rewrite check_pass; [done|]. by rewrite Z.eqb_refl.
Qed.

(** ** Whole images *)

(** The common headers that pass: the old header, or a new one with any of the
    other area offsets and a matching checksum. *)
Definition new_ch (internal chassis product multi pad : Z) : list Z :=
  let h := [0x01; internal; chassis; 0x01; product; multi; pad] in h ++ [cksum h].

Definition ch_ok (old : bool) (h : list Z) : Prop :=
  if old then h = CH_OLD
  else exists internal chassis product multi pad, h = new_ch internal chassis product multi pad.

(** [b] starts with an image: a common header followed by the area rendered from
    [im], whose length byte [len] counts bytes in the old format and groups of
    eight bytes in the new one. *)
Definition fru_image (b : list Z) (old : bool) (len : Z) (im : bia_image) : Prop :=
  (exists h, ch_ok old h /\ seg b 0 h) /\ bia_ok im /\ seg b sizeof_CH (render_bia len im) /\
  bia_total im = (if old then len else len * 8).

Lemma old_format_inv b o : fru_is_old_format b = Some o -> exists h, seg b 0 h /\ zlen h = 8 /\ o = bool_decide (h = CH_OLD).
Proof.
  unfold fru_is_old_format. destruct (rd_range b 0 sizeof_CH) as [h|] eqn:Hr; cbn; [|done].
  apply rd_seg in Hr as [Hs Hl]. intros [= <-]. by exists h.
Qed.

Lemma old_format_seg b h : seg b 0 h -> zlen h = 8 -> fru_is_old_format b = Some (bool_decide (h = CH_OLD)).
Proof. intros Hs Hl. unfold fru_is_old_format. by rewrite (seg_rd _ _ _ _ Hs). Qed.

Lemma zlen_ch old h : ch_ok old h -> zlen h = 8.
Proof. destruct old; [by intros ->|]. by intros (? & ? & ? & ? & ? & ->). Qed.

Lemma new_ch_not_old a b c d e : new_ch a b c d e <> CH_OLD.
Proof. unfold new_ch, CH_OLD. cbn. congruence. Qed.

Lemma image_old_format b old len im : fru_image b old len im -> fru_is_old_format b = Some old.
Proof.
  intros [(h & Hch & Hs) _]. rewrite (old_format_seg _ _ Hs) by by eapply zlen_ch.
  f_equal. destruct old; cbn in Hch.
  - by apply bool_decide_true.
  - destruct Hch as (? & ? & ? & ? & ? & ->). apply bool_decide_false, new_ch_not_old.
Qed.

Lemma ret_of_success res : ret_of_res res = IVFRU_RET_SUCCESS <-> res = VAL_RES_SUCCESS.
Proof.
  unfold ret_of_res. destruct (Z.eqb_spec res VAL_RES_SUCCESS); cbn; split; congruence.
Qed.

Lemma validate_accept b old len im ignore :
  fru_image b old len im -> ivfru_validate b ignore = Some (IVFRU_RET_SUCCESS, VAL_RES_SUCCESS).
Proof.
  intros Him. pose proof Him as [(h & Hch & Hs) (Hok & Hb & Ht)].
  unfold ivfru_validate. rewrite (image_old_format _ _ _ _ Him). cbn [mbind option_bind].
  assert (Hbia : ivfru_bia_validate b sizeof_CH old VAL_RES_SUCCESS ignore =
                 Some (IVFRU_RET_SUCCESS, VAL_RES_SUCCESS)).
  { unfold ivfru_bia_validate. by rewrite (bia_validate_complete b _ old ignore len im). }
  destruct old; cbn [negb].
  - cbn [Z.land VAL_RES_SUCCESS Z.eqb]. rewrite Hbia. done.
  - destruct Hch as (i & c & p & m & pd & ->).
    set (h7 := [1; i; c; 1; p; m; pd]) in *.
    assert (Hck : fru_calculate_checksum b 0 7 = Some (cksum h7)).
    { apply (checksum_seg _ _ h7); [|done]. eapply seg_app. exact Hs. }
    unfold new_ch in Hs. fold h7 in Hs. cbn [app] in Hs. unfold h7 in Hs at 1. cbn [app] in Hs. seg_split.
    unfold CH_format_version, CH_checksum, CH_board_info_area.
    repeat match goal with H : ld b ?a = Some ?v |- context [ld b ?a'] =>
      rewrite (ld_at b a a' v H) by lia end.
    rewrite Hck. cbn [mbind option_bind].
    rewrite !check_pass by (done || (by rewrite Z.eqb_refl)).
    cbn [Z.land VAL_RES_SUCCESS Z.eqb]. rewrite Hbia. done.
Qed.

Lemma bia_result_inv b old res' r :
  ivfru_bia_validate b sizeof_CH old VAL_RES_SUCCESS false = Some (r, res') ->
  res' = VAL_RES_SUCCESS -> ivfru_bia_validate_res b sizeof_CH old false = Some VAL_RES_SUCCESS.
Proof.
  unfold ivfru_bia_validate. destruct (ivfru_bia_validate_res _ _ _ _) as [res|]; cbn; [|done].
  intros [= _ <-] Hr. rewrite Z.lor_0_l in Hr. by f_equal.
Qed.

(** The eight bytes of an accepted new-format header. *)
Lemma new_header_inv b h :
  seg b 0 h -> zlen h = 8 -> ld b 0 = Some 1 -> ld b 3 = Some 1 ->
  (ck ← fru_calculate_checksum b 0 7; Some ck) = ld b 7 -> ch_ok false h.
Proof.
  intros Hs Hl H0 H3 Hck.
  do 8 (destruct h as [|? h]; [cbn in Hl; zl|]). destruct h; [|zl]. clear Hl.
  erewrite (checksum_seg b 0 [z; z0; z1; z2; z3; z4; z5]) in Hck;
    [|apply (seg_app _ _ _ [z6]); exact Hs|done].
  seg_split. change (0 + 1 + 1 + 1) with 3 in *. change (3 + 1 + 1 + 1 + 1) with 7 in *.
  assert (z = 1) as -> by congruence. assert (z2 = 1) as -> by congruence.
  exists z0, z1, z3, z4, z5. unfold new_ch. cbn [app]. do 7 f_equal.
  cbn [mbind option_bind] in Hck. congruence.
Qed.

Lemma validate_inv b :
  Forall is_byte b -> ivfru_validate b false = Some (IVFRU_RET_SUCCESS, VAL_RES_SUCCESS) ->
  exists old len im, fru_image b old len im.
Proof.
  intros Hb H. unfold ivfru_validate in H. accept_in H. rename b0 into old.
  apply old_format_inv in E as (h & Hs & Hl & ->). accept_in H. injection H as Hz ->.
  assert (Hbia : forall r, (Z.land 0 VAL_RES_CH_INVALID_BIA_OFFSET =? 0) = true ->
    ('(_, res) ← ivfru_bia_validate b sizeof_CH (bool_decide (h = CH_OLD)) VAL_RES_SUCCESS false; Some res) = Some r ->
    r = VAL_RES_SUCCESS -> ch_ok (bool_decide (h = CH_OLD)) h -> exists old len im, fru_image b old len im).
  { intros r _ Hr Hr0 Hch. accept_in Hr. destruct p as [r1 r2]. injection Hr as ->.
    apply bia_result_inv in E0; [|done].
    apply bia_validate_sound in E0 as (len & im & Hok & _ & Ht & Hsb); [|done|done].
    exists (bool_decide (h = CH_OLD)), len, im. split; [by exists h|done]. }
  case_bool_decide; cbn [negb] in E.
  - by apply (Hbia VAL_RES_SUCCESS).
  - unfold CH_format_version, CH_checksum, CH_board_info_area in E. accept_in E. accept_in E. subst z.
    repeat accept_in E. subst z. subst z1.
    apply (Hbia VAL_RES_SUCCESS); [done|done|done|].
    apply (new_header_inv b); try done. by rewrite E1.
Qed.

(** ** Lemmas: the loops stay inside a large enough buffer and terminate

    The bound [B] on the addresses read is preserved because an iteration needs
    [rem > 0] and moves by at most 64. *)

Lemma predef_total fuel : forall b a rem idx B,
  0 <= a <= B -> a + rem + 63 <= B -> B < zlen b -> (4 - idx < Z.of_nat fuel) -> idx <= 4 ->
  exists a' rem' idx', predef_loop fuel b a rem idx = Some (a', rem', idx') /\
    0 <= a' <= B /\ a' + rem' = a + rem.
Proof.
  induction fuel as [|fuel IH]; intros b a rem idx B Ha Hr HB Hf Hi; [lia|]. cbn [predef_loop].
  destruct (ld_total b a) as [c ->]; [lia|]. cbn [mbind option_bind]. case_if; [|repeat eexists; lia].
  destruct (tl_get_length_total b a) as (l & Hl & Hl64); [lia|].
  rewrite fru_next_eq, Hl. cbn [fmap option_fmap option_map mbind option_bind].
  destruct (IH b (a + 1 + l) (rem - (1 + l)) (idx + 1) B) as (a' & rem' & idx' & -> & ? & ?); [lia..|].
  repeat eexists; lia.
Qed.

Lemma custom_total fuel : forall b a rem B,
  0 <= a <= B -> a + rem + 63 <= B -> B < zlen b -> (Z.to_nat rem < fuel)%nat ->
  exists a' rem', custom_loop fuel b a rem = Some (a', rem') /\ 0 <= a' <= B /\ a' + rem' = a + rem.
Proof.
  induction fuel as [|fuel IH]; intros b a rem B Ha Hr HB Hf; [lia|]. cbn [custom_loop].
  destruct (ld_total b a) as [c ->]; [lia|]. cbn [mbind option_bind]. case_if; [|repeat eexists; lia].
  destruct (tl_get_length_total b a) as (l & Hl & Hl64); [lia|].
  rewrite fru_next_eq, Hl. cbn [fmap option_fmap option_map mbind option_bind].
  destruct (IH b (a + 1 + l) (rem - (1 + l)) B) as (a' & rem' & -> & ? & ?); [lia..|].
  repeat eexists; lia.
Qed.

Lemma padding_total fuel : forall b a rem B,
  0 <= a <= B -> a + rem <= B -> B < zlen b -> (Z.to_nat rem < fuel)%nat ->
  exists a' rem', padding_loop fuel b a rem = Some (a', rem') /\ 0 <= a' <= B.
Proof.
  induction fuel as [|fuel IH]; intros b a rem B Ha Hr HB Hf; [lia|]. cbn [padding_loop].
  destruct (ld_total b a) as [c ->]; [lia|]. cbn [mbind option_bind]. case_if; [|repeat eexists; lia].
  destruct (IH b (a + 1) (rem - 1) B) as (a' & rem' & -> & ?); [lia..|]. repeat eexists; lia.
Qed.

Lemma checksum_total b a n : 0 <= a -> 0 <= n -> a + n <= zlen b -> exists ck, fru_calculate_checksum b a n = Some ck.
Proof.
  intros ? ? ?. destruct (seg_exists b a n) as (m & Hm & Hl); [done..|].
  eexists. by apply (checksum_seg _ _ m).
Qed.

Lemma check_total ignore bad bit res k :
  (forall res, exists r, k res = Some r) -> exists r, check ignore bad bit res k = Some r.
Proof. intros Hk. unfold check. destruct bad; [destruct ignore|]; cbn; eauto. Qed.

(** One step of a totality proof: a load in range, or a check. *)
Ltac total_step :=
  cbv beta iota; cbn [mbind option_bind];
  match goal with
  | |- exists r, check _ _ _ _ _ = Some r => apply check_total; intros ?
  | |- context [ld ?b ?a] => destruct (ld_total b a) as [? ->]; [lia|]
  end.

Lemma bia_validate_total b bia (old ignore : bool) len :
  0 <= bia -> ld b (bia + BIA_length) = Some len -> 0 <= len ->
  bia + (if old then len else len * 8) + 65 <= zlen b -> ignore = false \/ 0 < len ->
  exists r, ivfru_bia_validate_res b bia old ignore = Some r.
Proof.
  unfold BIA_length. intros Hb Hl Hlen Hz Hig.
  unfold ivfru_bia_validate_res, BIA_length, BIA_format_version, BIA_language_code, BIA_variable, sizeof_BIA.
  rewrite Hl. cbn [mbind option_bind].
  set (L := if negb old then len * 8 else len).
  assert (HL : 0 <= L /\ bia + L + 65 <= zlen b /\ (0 < len -> 0 < L)) by (subst L; destruct old; cbn; lia).
  clearbody L. destruct (decide (0 < L)) as [Hpos|Hz0].
  2:{ unfold check at 1. rewrite (proj2 (Z.ltb_lt L 6)) by lia.
      destruct Hig as [->|]; [cbn; eauto|lia]. }
  do 5 total_step. cbv beta iota.
  destruct (predef_total 5 b (bia + 6) (L - 6) 0 (bia + L + 63)) as (a1 & r1 & i1 & -> & ? & ?); [lia..|].
  cbn [mbind option_bind].
  destruct (ld_total b a1) as [c1 Hc1]; [lia|]. rewrite Hc1. cbn [mbind option_bind].
  destruct ((i1 <? 4) || (r1 <? 3)); do 3 (total_step || idtac).
  all: destruct (custom_total (loop_fuel r1) b a1 r1 (bia + L + 63)) as (a2 & r2 & -> & ? & ?);
    [lia|lia|lia|unfold loop_fuel; lia|]; do 2 total_step.
  all: destruct (padding_total (loop_fuel (r2 - 1)) b (a2 + 1) (r2 - 1) (bia + L + 64)) as (a3 & r3 & -> & ?);
    [lia|lia|lia|unfold loop_fuel; lia|]; do 2 total_step.
  all: destruct (checksum_total b bia (L - 1)) as [ck ->]; [lia..|]; do 2 total_step; by eexists.
Qed.

Lemma validate_total b ignore len :
  ld b (sizeof_CH + BIA_length) = Some len -> 0 <= len -> sizeof_CH + len * 8 + 65 <= zlen b ->
  ignore = false \/ 0 < len -> exists r, ivfru_validate b ignore = Some r.
Proof.
  unfold sizeof_CH. intros Hl Hlen Hz Hig.
  destruct (seg_exists b 0 8) as (h & Hs & Hh); [lia..|].
  unfold ivfru_validate. rewrite (old_format_seg _ _ Hs Hh). cbn [mbind option_bind].
  set (old := bool_decide _). clearbody old.
  assert (Hbia : forall res, exists r,
    (if Z.land res VAL_RES_CH_INVALID_BIA_OFFSET =? 0 then
       '(_, res) ← ivfru_bia_validate b sizeof_CH old res ignore; Some res else Some res) = Some r).
  { intros res. destruct (_ =? 0); [|by eexists].
    destruct (bia_validate_total b 8 old ignore len) as [r Hr]; [done..|destruct old; lia|done|].
    unfold ivfru_bia_validate, sizeof_CH. rewrite Hr. by eexists. }
  assert (Hres : exists r, (if negb old then
      v ← ld b CH_format_version;
      check ignore (negb (v =? 0x01)) VAL_RES_CH_INVALID_FORMAT_VERSION VAL_RES_SUCCESS (fun res =>
      checksum ← fru_calculate_checksum b 0 7;
      c ← ld b CH_checksum;
      check ignore (negb (checksum =? c)) VAL_RES_CH_INVALID_CHECKSUM res (fun res =>
      o ← ld b CH_board_info_area;
      check ignore (negb (o =? 0x01)) VAL_RES_CH_INVALID_BIA_OFFSET res (fun res =>
        if Z.land res VAL_RES_CH_INVALID_BIA_OFFSET =? 0 then
          '(_, res) ← ivfru_bia_validate b sizeof_CH old res ignore; Some res else Some res)))
    else if Z.land VAL_RES_SUCCESS VAL_RES_CH_INVALID_BIA_OFFSET =? 0 then
          '(_, res) ← ivfru_bia_validate b sizeof_CH old VAL_RES_SUCCESS ignore; Some res
         else Some VAL_RES_SUCCESS) = Some r).
  { destruct old; cbn [negb]; [apply Hbia|].
    unfold CH_format_version, CH_checksum, CH_board_info_area.
    do 2 total_step. destruct (checksum_total b 0 7) as [ck ->]; [lia..|].
    do 4 total_step. apply Hbia. }
  destruct Hres as [r Hr]. cbv zeta. rewrite Hr. by eexists.
Qed.

(** ** Lemmas: the pre-defined fields *)

Lemma predef_at_field b a f :
  field_ok f -> seg b a (render_field f) ->
  predef_at b a = Some (a + 1, zlen (f_data f), a + zlen (render_field f)).
Proof.
  intros Hok Hs. unfold predef_at.
  by rewrite (tl_get_length_field _ _ f), (fru_next_field _ _ f).
Qed.

Lemma predefined_fields_run b old len im f1 f2 f3 f4 :
  fru_image b old len im -> bi_predef im = [f1; f2; f3; f4] ->
  let a2 := 14 + zlen (render_field f1) in
  let a3 := a2 + zlen (render_field f2) in
  let a4 := a3 + zlen (render_field f3) in
  ivfru_get_bia_predefined_fields b =
    Some ((a2 + 1, zlen (f_data f2)), (a3 + 1, zlen (f_data f3)), (a4 + 1, zlen (f_data f4))) /\
  seg b (a2 + 1) (f_data f2) /\ seg b (a3 + 1) (f_data f3) /\ seg b (a4 + 1) (f_data f4).
Proof.
  intros (_ & Hok & Hs & _) Hp a2 a3 a4. unfold sizeof_CH in Hs.
  destruct (render_bia_parts _ _ _ _ Hok Hs) as (_ & _ & _ & _ & H & _).
  destruct Hok as (_ & _ & _ & Hf & _). rewrite Hp in H, Hf.
  change (render_fields [f1; f2; f3; f4])
    with (render_field f1 ++ render_field f2 ++ render_field f3 ++ render_field f4 ++ []) in H.
  apply seg_app in H as [H1 H]. apply seg_app in H as [H2 H]. apply seg_app in H as [H3 H].
  apply seg_app in H as [H4 _]. change (8 + 6) with 14 in *.
  fold a2 a3 a4 in H2, H3, H4. fold a3 in H3, H4. fold a4 in H4.
  inversion_clear Hf as [|? ? Hf1 Hf']. inversion_clear Hf' as [|? ? Hf2 Hf''].
  inversion_clear Hf'' as [|? ? Hf3 Hf4]. inversion_clear Hf4 as [|? ? Hf4' _].
  split.
  - unfold ivfru_get_bia_predefined_fields, sizeof_CH, BIA_variable. change (8 + 6) with 14.
    rewrite (fru_next_field _ _ f1) by done. cbn [mbind option_bind]. fold a2.
    rewrite (predef_at_field _ _ f2) by done. cbn [mbind option_bind]. fold a3.
    rewrite (predef_at_field _ _ f3) by done. cbn [mbind option_bind]. fold a4.
    by rewrite (predef_at_field _ _ f4).
  - apply seg_cons in H2 as [_ ?]. apply seg_cons in H3 as [_ ?]. apply seg_cons in H4 as [_ ?]. done.
Qed.

(** ** Lemmas: the effect of one changed byte *)

Lemma seg_lookup b a m k : seg b a m -> (k < length m)%nat -> m !! k = b !! (Z.to_nat a + k)%nat.
Proof.
  intros (pre & post & -> & <-) Hk. rewrite to_nat_zlen, lookup_app_r by lia.
  replace (length pre + k - length pre)%nat with k by lia. by rewrite lookup_app_l.
Qed.

Lemma zsum_insert l k x y : l !! k = Some y -> zsum (<[k := x]> l) = zsum l + x - y.
Proof.
  intros Hk. rewrite <- (take_drop_middle _ _ _ Hk) at 2. apply lookup_lt_Some in Hk as Hl.
  rewrite insert_take_drop by done. rewrite !zsum_app. unfold zsum. cbn [foldr]. lia.
Qed.

(** A segment after one byte of the buffer was changed. *)
Lemma seg_change b i x y a m m' :
  b !! i = Some y -> seg b a m -> seg (<[i := x]> b) a m' -> zlen m = zlen m' ->
  (m' = m /\ ~ a <= Z.of_nat i < a + zlen m) \/ (a <= Z.of_nat i < a + zlen m /\ zsum m' = zsum m + x - y).
Proof.
  intros Hi Hs Hs' Hl. pose proof (seg_bounds _ _ _ Hs) as [Ha _].
  assert (Hlen : length m = length m') by (unfold zlen in Hl; lia).
  assert (Hk : forall k, (k < length m)%nat -> m' !! k = (<[i := x]> b) !! (Z.to_nat a + k)%nat).
  { intros k ?. apply (seg_lookup _ _ _ _ Hs'). lia. }
  destruct (decide (a <= Z.of_nat i < a + zlen m)) as [Hin|Hout]; [right|left].
  - split; [done|]. replace m' with (<[(i - Z.to_nat a)%nat := x]> m).
    + apply zsum_insert. rewrite (seg_lookup b a) by (done || (unfold zlen in Hin; lia)).
      replace (Z.to_nat a + (i - Z.to_nat a))%nat with i by lia. done.
    + apply list_eq_same_length with (length m'); [done|by rewrite length_insert|].
      intros k c d Hkl Hc Hd. rewrite Hk in Hd by lia. destruct (decide (k = i - Z.to_nat a)%nat) as [->|Hne].
      * rewrite list_lookup_insert_eq in Hc by lia.
        replace (Z.to_nat a + (i - Z.to_nat a))%nat with i in Hd by lia.
        rewrite list_lookup_insert_eq in Hd by by eapply lookup_lt_Some. congruence.
      * rewrite list_lookup_insert_ne in Hc by done. rewrite list_lookup_insert_ne in Hd by lia.
        rewrite (seg_lookup b a m k Hs) in Hc by lia. congruence.
  - split; [|done]. apply list_eq_same_length with (length m); [done..|].
    intros k c d Hkl Hc Hd. rewrite Hk in Hc by lia. rewrite list_lookup_insert_ne in Hc by (unfold zlen in Hout; lia).
    rewrite (seg_lookup b a m k Hs) in Hd by lia. congruence.
Qed.

Lemma cksum_zero l : zsum (l ++ [cksum l]) `mod` 256 = 0.
Proof. rewrite zsum_app. unfold cksum, u8. cbn. rewrite Z.add_0_r, Z.add_mod_idemp_r, Z.add_opp_diag_r by lia. done. Qed.

(** Both checksums of an image, and what fixes its extent. *)
Lemma image_sums b old len im :
  fru_image b old len im -> exists h a, seg b 0 h /\ zlen h = 8 /\ zsum h `mod` 256 = 0 /\
    seg b sizeof_CH a /\ zlen a = (if old then len else len * 8) /\ zsum a `mod` 256 = 0 /\
    ld b (sizeof_CH + BIA_length) = Some len /\ old = bool_decide (h = CH_OLD).
Proof.
  intros Him. pose proof Him as [(h & Hch & Hh) (Hok & Hs & Ht)].
  destruct (render_bia_parts _ _ _ _ Hok Hs) as (_ & Hl & _).
  exists h, (render_bia len im). split_and!; [done|by eapply zlen_ch| |done| |apply cksum_zero|done|].
  - destruct old; cbn in Hch; [by subst|]. destruct Hch as (i & c & p & m & pd & ->). apply (cksum_zero [1; i; c; 1; p; m; pd]).
  - by rewrite zlen_render_bia.
  - destruct old; symmetry; [by apply bool_decide_true|apply bool_decide_false].
    destruct Hch as (? & ? & ? & ? & ? & ->). apply new_ch_not_old.
Qed.

Lemma byte_sum_differs s x y : is_byte x -> is_byte y -> x <> y -> s `mod` 256 = 0 -> (s + x - y) `mod` 256 <> 0.
Proof. unfold is_byte. intros. mlia. Qed.

(** ** Lemmas: refused buffers *)

Lemma validate_result b ignore r flags : ivfru_validate b ignore = Some (r, flags) -> r = ret_of_res flags.
Proof. unfold ivfru_validate. intros H. bind_in H. bind_in H. by injection H as <- <-. Qed.

(** The result of the validation of a buffer that is not an image. *)
Lemma no_image_refused b r flags :
  Forall is_byte b -> (~ exists old len im, fru_image b old len im) -> ivfru_validate b false = Some (r, flags) ->
  r = IVFRU_RET_INVALID_FRU_DATA /\ flags <> VAL_RES_SUCCESS.
Proof.
  intros Hb Hno Hv. pose proof (validate_result _ _ _ _ Hv) as Hr. unfold ret_of_res in Hr.
  destruct (Z.eqb_spec flags VAL_RES_SUCCESS) as [->|]; cbn in Hr; subst r; [|done].
  destruct Hno. by apply validate_inv.
Qed.

Lemma image_length_byte b old len im : fru_image b old len im -> ld b (sizeof_CH + BIA_length) = Some len /\ 0 <= len.
Proof.
  intros (_ & Hok & Hs & Ht). destruct (render_bia_parts _ _ _ _ Hok Hs) as (_ & Hl & _). split; [done|].
  unfold bia_total in Ht. pose proof (zlen_nonneg (render_fields (bi_predef im))).
  pose proof (zlen_nonneg (render_fields (bi_custom im))). destruct old; lia.
Qed.

Lemma ld_insert_ne b i x a : a <> Z.of_nat i -> ld (<[i := x]> b) a = ld b a.
Proof. intros Ha. unfold ld. case_if; [done|]. rewrite list_lookup_insert_ne by lia. done. Qed.

(** An image with one byte changed, the length byte apart, is no image. *)
Lemma corruption_no_image b old len im i x y :
  Forall is_byte b -> fru_image b old len im -> b !! i = Some y -> is_byte x -> x <> y ->
  Z.of_nat i < sizeof_CH + bia_total im -> Z.of_nat i <> sizeof_CH + BIA_length ->
  forall old' len' im', ~ fru_image (<[i := x]> b) old' len' im'.
Proof.
  intros Hb Him Hi Hx Hxy Hin Hne old' len' im' Him'. pose proof (Forall_lookup_1 _ _ _ _ Hb Hi) as Hy.
  destruct (image_sums _ _ _ _ Him) as (h & a & Hh & Hhl & Hhs & Ha & Hal & Has & Hlen & Hold).
  destruct (image_sums _ _ _ _ Him') as (h' & a' & Hh' & Hhl' & Hhs' & Ha' & Hal' & Has' & Hlen' & Hold').
  destruct (seg_change _ _ x _ _ _ _ Hi Hh Hh') as [[-> Hn1]|[_ Hz]]; [lia| |].
  2:{ rewrite Hz in Hhs'. by destruct (byte_sum_differs (zsum h) x y Hx Hy Hxy Hhs). }
  rewrite <- Hold in Hold'. subst old'.
  assert (len' = len) as ->.
  { unfold ld in Hlen, Hlen'. cbn [Z.ltb Z.add Z.compare Pos.add Pos.compare] in Hlen, Hlen'.
    unfold sizeof_CH, BIA_length in *. rewrite list_lookup_insert_ne in Hlen' by lia.
    destruct (_ <? _); congruence. }
  destruct (seg_change _ _ x _ _ _ _ Hi Ha Ha') as [[-> Hn2]|[_ Hz]]; [congruence| |].
  2:{ rewrite Hz in Has'. by destruct (byte_sum_differs (zsum a) x y Hx Hy Hxy Has). }
  assert (zlen a = bia_total im) as Hat by (destruct Him as (_ & _ & _ & ->); done).
  unfold sizeof_CH in *. lia.
Qed.

(** ** Properties *)

(** C1: the validator accepts a buffer exactly when it starts with an image of the
    grammar: a common header of either format followed by the rendering of some
    area contents whose size agrees with the length byte. *)
Theorem validate_exact b :
  Forall is_byte b ->
  ivfru_validate b false = Some (IVFRU_RET_SUCCESS, VAL_RES_SUCCESS) <->
  exists old len im, fru_image b old len im.
Proof.
  intros Hb. split; [by apply validate_inv|]. intros (old & len & im & Him). by eapply validate_accept.
Qed.

(** The smallest area: four empty fields and three bytes of padding. *)
Definition sample_area : bia_image := BiaImage [128; 81; 1] (replicate 4 (Field 0xC0 [])) [] 3.
Definition sample_image : list Z := CH_DEFAULT ++ render_bia 2 sample_area.

Lemma sample_bytes : Forall is_byte sample_image.
Proof. vm_compute. repeat constructor; discriminate. Qed.
Lemma sample_area_ok : bia_ok sample_area.
Proof. repeat (split || constructor); cbn; try done. Qed.

Lemma validate_exact_witness :
  ivfru_validate sample_image false = Some (IVFRU_RET_SUCCESS, VAL_RES_SUCCESS) /\
  exists old len im, fru_image sample_image old len im.
Proof. split; [reflexivity|]. apply (validate_exact sample_image sample_bytes). reflexivity. Defined.

(** C31: changing one byte of a valid image other than the length byte of the area
    to another value is always noticed: the changed buffer is reported as invalid,
    with a flag that says why, unless the validator runs out of a buffer that does not
    extend 65 bytes past the area its length byte announces.  The length byte is
    excluded because a change of it can go unnoticed ([length_byte_unnoticed]). *)
Theorem validate_detects_corruption b old len im i x y :
  Forall is_byte b -> fru_image b old len im -> b !! i = Some y -> is_byte x -> x <> y ->
  Z.of_nat i < sizeof_CH + bia_total im -> Z.of_nat i <> sizeof_CH + BIA_length ->
  match ivfru_validate (<[i := x]> b) false with
  | Some (r, flags) => r = IVFRU_RET_INVALID_FRU_DATA /\ flags <> VAL_RES_SUCCESS
  | None => zlen b < sizeof_CH + len * 8 + 65
  end.
Proof.
  intros Hb Him Hi Hx Hxy Hin Hne.
  assert (Hno : ~ exists old len im, fru_image (<[i := x]> b) old len im).
  { intros (? & ? & ? & Him'). by apply (corruption_no_image _ _ _ _ _ _ _ Hb Him Hi Hx Hxy Hin Hne _ _ _ Him'). }
  assert (Hb' : Forall is_byte (<[i := x]> b)) by by apply Forall_insert.
  destruct (ivfru_validate (<[i := x]> b) false) as [[r flags]|] eqn:Hv; [by apply (no_image_refused _ _ _ Hb' Hno)|].
  apply Z.nle_gt. intros Hroom. pose proof (image_length_byte _ _ _ _ Him) as [Hl Hlen].
  destruct (validate_total (<[i := x]> b) false len) as [r Hr]; [|done| |by left|congruence].
  - rewrite ld_insert_ne by lia. done.
  - unfold zlen. rewrite length_insert. exact Hroom.
Qed.

Lemma validate_detects_corruption_witness :
  let b := sample_image ++ replicate 65 0 in
  match ivfru_validate (<[11%nat := 129]> b) false with
  | Some (r, flags) => r = IVFRU_RET_INVALID_FRU_DATA /\ flags <> VAL_RES_SUCCESS
  | None => zlen b < sizeof_CH + 2 * 8 + 65
  end.
Proof.
  apply (validate_detects_corruption _ false 2 sample_area 11 129 128);
    [apply Forall_app; split; [apply sample_bytes|vm_compute; repeat constructor; discriminate]
    | |done|split; discriminate || reflexivity|discriminate|reflexivity|discriminate].
  split_and!; [exists CH_DEFAULT; split; [by exists 0, 0, 0, 0, 0|by exists [], (render_bia 2 sample_area ++ replicate 65 0)]
    |apply sample_area_ok|by exists CH_DEFAULT, (replicate 65 0)|reflexivity].
Defined.

(** A buffer that holds a valid image of two groups of eight bytes, and a valid image
    of three groups once its length byte is changed. *)
Definition two_lengths : list Z :=
  CH_DEFAULT ++ [1; 2; 0; 60; 0; 0; 0xC0; 0xC0; 0xC0; 0xC0; 0; FRU_END_MARKER; 0; 0; 0; 0] ++ [0; 0; 0; 0; 0; 0; 0; 255].

Example length_byte_unnoticed :
  ivfru_validate two_lengths false = Some (IVFRU_RET_SUCCESS, VAL_RES_SUCCESS) /\
  ivfru_validate (<[9%nat := 3]> two_lengths) false = Some (IVFRU_RET_SUCCESS, VAL_RES_SUCCESS).
Proof. by vm_compute. Qed.

(** the validator never reads outside a buffer that extends 65 bytes past the
    area its length byte announces, and always terminates there; with errors
    ignored this needs a length byte that is not zero. *)
Theorem validate_in_bounds b ignore len :
  ld b (sizeof_CH + BIA_length) = Some len -> 0 <= len -> sizeof_CH + len * 8 + 65 <= zlen b ->
  ignore = false \/ 0 < len -> exists r flags, ivfru_validate b ignore = Some (r, flags).
Proof. intros Hl Hp Hz Hi. destruct (validate_total b ignore len Hl Hp Hz Hi) as [[r f] Hr]. by exists r, f. Qed.

Lemma validate_in_bounds_witness : exists r flags, ivfru_validate (replicate 90 1) true = Some (r, flags).
Proof. apply (validate_in_bounds _ true 1); [reflexivity|discriminate|discriminate|by right]. Defined.

(** On every image the three (address, length) pairs returned by
    [ivfru_get_bia_predefined_fields] delimit the data of the product name, serial
    number and part number fields. *)
Theorem predefined_fields_exact b old len im f1 f2 f3 f4 :
  fru_image b old len im -> bi_predef im = [f1; f2; f3; f4] ->
  exists p s n, ivfru_get_bia_predefined_fields b =
      Some ((p, zlen (f_data f2)), (s, zlen (f_data f3)), (n, zlen (f_data f4))) /\
    seg b p (f_data f2) /\ seg b s (f_data f3) /\ seg b n (f_data f4).
Proof.
  intros Him Hp. destruct (predefined_fields_run _ _ _ _ _ _ _ _ Him Hp) as (Hr & ? & ? & ?).
  rewrite Hr. do 3 eexists. done.
Qed.

Lemma predefined_fields_exact_witness :
  exists p s n, ivfru_get_bia_predefined_fields sample_image = Some ((p, 0), (s, 0), (n, 0)) /\
    seg sample_image p [] /\ seg sample_image s [] /\ seg sample_image n [].
Proof.
  apply (predefined_fields_exact sample_image false 2 sample_area (Field 0xC0 []) (Field 0xC0 []) (Field 0xC0 []) (Field 0xC0 []));
    [|reflexivity].
  split_and!; [exists CH_DEFAULT; split; [by exists 0, 0, 0, 0, 0|by exists [], (render_bia 2 sample_area)]
    |apply sample_area_ok|by exists CH_DEFAULT, []|reflexivity].
Defined.
