(* ===== verification/FruDate.v ===== *)
(** * Dates of [ivfru_common.c]

    [date2dmy] (text to day, month, year), [date_to_ipmi_time] and
    [ipmi_time_to_date] (minutes since 1996-01-01 00:00 in three little-endian
    bytes). *)
From S2P Require Import Prelude FruField.

Definition MIN_YEAR : Z := 1996.
Definition MINUTES_PER_DAY : Z := 1440.

(** The tables [days_per_month] and [days_in_month] (the same values in the three
    functions that declare them). *)
Definition days_per_month : list Z := [0; 31; 28; 31; 30; 31; 30; 31; 31; 30; 31; 30; 31].

(** The two spellings of the leap-year test. *)
Definition is_leap_year (year : Z) : bool :=
  (Z.rem year 400 =? 0) || ((Z.rem year 4 =? 0) && negb (Z.rem year 100 =? 0)).
Definition isLeapYear (i : Z) : bool :=
  (Z.rem i 4 =? 0) && (negb (Z.rem i 100 =? 0) || (Z.rem i 400 =? 0)).

(** ** [date2dmy]

    A C string is the list of its characters; reading at its end yields NUL. *)
Definition is_digit (c : Z) : bool := (48 <=? c) && (c <=? 57).

(** One [while( *date && *date >= '0' && *date <= '9')] loop; [int] overflow of the
    accumulated number is a fault. *)
Fixpoint digits_loop (s : list Z) (acc : Z) : option (Z * list Z) :=
  match s with
  | [] => Some (acc, [])
  | c :: s' =>
    if is_digit c then
      t ← i32 (acc * 10); v ← i32 (t + (c - 48)); digits_loop s' v
    else Some (acc, s)
  end.

(** [if( *date != '-') return ...; date++;] *)
Definition skip_dash (s : list Z) : option (list Z) :=
  match s with
  | c :: s => if c =? 45 then Some s else None
  | [] => None
  end.

(** [date2dmy]: an error code, or day, month and year. *)
Definition date2dmy (date : list Z) : option (ivfru_ret + (Z * Z * Z)) :=
  '(day, date) ← digits_loop date 0;
  match skip_dash date with
  | None => Some (inl IVFRU_RET_INVALID_ARGUMENT)
  | Some date =>
  if (day <? 1) || (31 <? day) then Some (inl IVFRU_RET_INVALID_ARGUMENT) else
  '(month, date) ← digits_loop date 0;
  match skip_dash date with
  | None => Some (inl IVFRU_RET_INVALID_ARGUMENT)
  | Some date =>
  if (month <? 1) || (12 <? month) then Some (inl IVFRU_RET_INVALID_ARGUMENT) else
  '(year, _) ← digits_loop date 0;
  if year <? MIN_YEAR then Some (inl IVFRU_RET_INVALID_ARGUMENT) else
  if negb (month =? 2) then
    dpm ← ld days_per_month month;
    if dpm <? day then Some (inl IVFRU_RET_INVALID_ARGUMENT) else Some (inr (day, month, year))
  else if is_leap_year year && (29 <? day) then Some (inl IVFRU_RET_INVALID_ARGUMENT)
  else if negb (is_leap_year year) && (28 <? day) then Some (inl IVFRU_RET_INVALID_ARGUMENT)
  else Some (inr (day, month, year))
  end end.

(** ** [date_to_ipmi_time] *)

(** [for (int i = 1996; i < year;)], [n] iterations from [i]. *)
Fixpoint year_loop (n : nat) (i minutes : Z) (leap : bool) : Z * bool :=
  match n with
  | O => (minutes, leap)
  | S n =>
    let minutes := u32 (minutes + (if leap then 366 else 365) * MINUTES_PER_DAY) in
    let i := i + 1 in
    year_loop n i minutes (isLeapYear i)
  end.

(** [for (int i = 1; i < month; i++)], [n] iterations from [i]. *)
Fixpoint mon_loop (n : nat) (i minutes : Z) : option Z :=
  match n with
  | O => Some minutes
  | S n =>
    d ← ld days_per_month i;
    mon_loop n (i + 1) (u32 (minutes + d * MINUTES_PER_DAY))
  end.

(** The error code, or the three bytes stored through [time]. *)
Definition date_to_ipmi_time (day month year : Z) : option (ivfru_ret + list Z) :=
  if year <? MIN_YEAR then Some (inl IVFRU_RET_INVALID_ARGUMENT)
  else
    let '(minutes, leap) := year_loop (Z.to_nat (year - 1996)) 1996 0 true in
    minutes ← mon_loop (Z.to_nat (month - 1)) 1 minutes;
    let minutes := if (2 <? month) && leap then u32 (minutes + MINUTES_PER_DAY) else minutes in
    let minutes := u32 (minutes + (day - 1) * MINUTES_PER_DAY) in
    if Z.land minutes 0xFFFFFF =? 0 then Some (inl IVFRU_RET_INVALID_ARGUMENT)
    else Some (inr [Z.land minutes 0xFF; Z.land (Z.shiftr minutes 8) 0xFF;
                    Z.land (Z.shiftr (Z.shiftr minutes 8) 8) 0xFF]).

(** ** [ipmi_time_to_date] *)

Definition days_of_month (month : Z) (leap : bool) : option Z :=
  d ← ld days_per_month month; Some (d + (if leap && (month =? 2) then 1 else 0)).

(** The [while (total_days >= ...)] loop. *)
Fixpoint month_loop (fuel : nat) (total_days year month : Z) (leap : bool) : option (Z * Z * Z) :=
  match fuel with
  | O => None
  | S fuel =>
    d ← days_of_month month leap;
    if d <=? total_days then
      let total_days := total_days - d in
      let month := month + 1 in
      if 12 <? month then month_loop fuel total_days (year + 1) 1 (is_leap_year (year + 1))
      else month_loop fuel total_days year month leap
    else Some (total_days, year, month)
  end.

(** 24-bit minutes are at most 11650 days, and every month takes at least 28. *)
Definition month_fuel : nat := 420.

Definition ipmi_time_to_date (t0 t1 t2 : Z) : option (Z * Z * Z) :=
  let minutes := t2 in
  let minutes := u32 (Z.shiftl minutes 8) in
  let minutes := u32 (minutes + t1) in
  let minutes := u32 (Z.shiftl minutes 8) in
  let minutes := u32 (minutes + t0) in
  let total_days := minutes `div` 1440 in
  '(total_days, year, month) ← month_loop month_fuel total_days 1996 1 (is_leap_year 1996);
  Some (1 + total_days, month, year).

(** ** The calendar these functions implement *)

Definition leap (y : Z) : bool := is_leap_year y.
Definition mlen (y m : Z) : Z :=
  (if m =? 2 then if leap y then 29 else 28
   else if bool_decide (m ∈ [4; 6; 9; 11]) then 30 else 31).

(** Days from 1996-01-01 to the first day of year [y]. *)
Definition ylen (y : Z) : Z := if leap y then 366 else 365.
Fixpoint days_before_years (n : nat) (y : Z) : Z :=
  match n with O => 0 | S n => ylen y + days_before_years n (y + 1) end.
(** Days of the [n] months from month [m] of year [y] on (inside the year). *)
Fixpoint days_before_months (n : nat) (y m : Z) : Z :=
  match n with O => 0 | S n => mlen y m + days_before_months n y (m + 1) end.

Definition day_number (d m y : Z) : Z :=
  days_before_years (Z.to_nat (y - 1996)) 1996 + days_before_months (Z.to_nat (m - 1)) y 1 + (d - 1).

Definition valid_date (d m y : Z) : Prop :=
  1996 <= y /\ 1 <= m <= 12 /\ 1 <= d <= mlen y m.

Example leap_day_1996 : date_to_ipmi_time 1 3 1996 = Some (inr [128; 81; 1]).
Proof. reflexivity. Qed.
Example back : ipmi_time_to_date 128 81 1 = Some (1, 3, 1996).
Proof. reflexivity. Qed.

(** ** Lemmas: the two leap-year tests agree, and so do the month tables *)

Lemma mod_400_4 y : y `mod` 400 = 0 -> y `mod` 4 = 0.
Proof. intros. mlia. Qed.

Lemma isLeapYear_eq y : 0 <= y -> isLeapYear y = leap y.
Proof.
  intros Hy. unfold isLeapYear, leap, is_leap_year. rewrite !Z.rem_mod_nonneg by lia.
  destruct (Z.eqb_spec (y `mod` 4) 0), (Z.eqb_spec (y `mod` 100) 0), (Z.eqb_spec (y `mod` 400) 0);
    cbn; try reflexivity; exfalso; eauto using mod_400_4.
Qed.

Lemma month_cases m : 1 <= m <= 12 ->
  m = 1 \/ m = 2 \/ m = 3 \/ m = 4 \/ m = 5 \/ m = 6 \/ m = 7 \/ m = 8 \/ m = 9 \/ m = 10 \/ m = 11 \/ m = 12.
Proof. lia. Qed.

Ltac by_month m H := destruct (month_cases m H) as [->|[->|[->|[->|[->|[->|[->|[->|[->|[->|[->| ->]]]]]]]]]]].

Lemma days_of_month_eq m y : 1 <= m <= 12 -> days_of_month m (leap y) = Some (mlen y m).
Proof. intros H. unfold mlen, leap. by_month m H; destruct (is_leap_year y); reflexivity. Qed.

Lemma mlen_bounds y m : 1 <= m <= 12 -> 28 <= mlen y m <= 31.
Proof. intros H. unfold mlen. by_month m H; destruct (leap y); vm_compute; split; discriminate. Qed.

Lemma year_months y : days_before_months 12 y 1 = ylen y.
Proof. cbn. unfold mlen, ylen. destruct (leap y); reflexivity. Qed.

Lemma days_before_months_app a b y m :
  days_before_months (a + b) y m = days_before_months a y m + days_before_months b y (m + Z.of_nat a).
Proof.
  revert m. induction a as [|a IH]; intros m; cbn [Nat.add days_before_months].
  - by rewrite Z.add_0_r.
  - rewrite IH. replace (m + 1 + Z.of_nat a) with (m + Z.of_nat (S a)) by lia. lia.
Qed.

Lemma days_before_months_nonneg n y m :
  1 <= m -> m + Z.of_nat n <= 13 -> 0 <= days_before_months n y m.
Proof.
  revert m. induction n as [|n IH]; intros m Hm Hn; cbn [days_before_months]; [lia|].
  pose proof (mlen_bounds y m). specialize (IH (m + 1)). lia.
Qed.

Lemma days_before_years_nonneg n y : 0 <= days_before_years n y.
Proof.
  revert y. induction n as [|n IH]; intros y; cbn [days_before_years]; [lia|].
  specialize (IH (y + 1)). unfold ylen. destruct (leap y); lia.
Qed.

(** ** Lemmas: decoding *)

(** The loop consumes whole months, then whole years. *)
Lemma month_loop_months n : forall fuel T y m,
  0 <= T -> 1 <= m -> m + Z.of_nat n <= 12 ->
  month_loop (n + fuel) (days_before_months n y m + T) y m (leap y) =
  month_loop fuel T y (m + Z.of_nat n) (leap y).
Proof.
  induction n as [|n IH]; intros fuel T y m HT Hm Hn; cbn [days_before_months Nat.add].
  - do 2 f_equal. lia.
  - cbn [month_loop]. rewrite days_of_month_eq by lia. cbn [mbind option_bind].
    pose proof (days_before_months_nonneg n y (m + 1)).
    rewrite (proj2 (Z.leb_le _ _)) by lia. rewrite (proj2 (Z.ltb_ge 12 _)) by lia.
    replace (mlen y m + days_before_months n y (m + 1) + T - mlen y m)
      with (days_before_months n y (m + 1) + T) by lia.
    rewrite IH by lia. f_equal. lia.
Qed.

Lemma month_loop_year fuel T y :
  0 <= T -> month_loop (12 + fuel) (ylen y + T) y 1 (leap y) = month_loop fuel T (y + 1) 1 (leap (y + 1)).
Proof.
  intros HT. rewrite <- year_months.
  change 12%nat with (11 + 1)%nat. rewrite days_before_months_app, <- Z.add_assoc.
  change (1 + Z.of_nat 11) with 12.
  replace (days_before_months 1 y 12) with (mlen y 12) by (unfold days_before_months; lia).
  change (11 + 1 + fuel)%nat with (11 + S fuel)%nat.
  pose proof (mlen_bounds y 12). rewrite month_loop_months by lia.
  cbn [month_loop]. change (1 + Z.of_nat 11) with 12. rewrite days_of_month_eq by lia. cbn [mbind option_bind].
  rewrite (proj2 (Z.leb_le _ _)) by lia. cbn [Z.add Pos.add Pos.succ Z.ltb Z.compare Pos.compare Pos.compare_cont].
  f_equal. lia.
Qed.

Lemma month_loop_years n : forall fuel T y,
  0 <= T ->
  month_loop (12 * n + fuel) (days_before_years n y + T) y 1 (leap y) =
  month_loop fuel T (y + Z.of_nat n) 1 (leap (y + Z.of_nat n)).
Proof.
  induction n as [|n IH]; intros fuel T y HT; cbn [days_before_years].
  - by rewrite Z.add_0_r.
  - assert (0 <= days_before_years n (y + 1)).
    { apply days_before_years_nonneg. }
    replace (12 * S n + fuel)%nat with (12 + (12 * n + fuel))%nat by lia.
    rewrite <- Z.add_assoc, month_loop_year by lia. rewrite IH by done.
    replace (y + 1 + Z.of_nat n) with (y + Z.of_nat (S n)) by lia. done.
Qed.

Lemma month_loop_decode fuel T y m :
  1996 <= y -> 1 <= m <= 12 -> 0 <= T < mlen y m ->
  12 * (y - 1996) + m <= Z.of_nat fuel ->
  month_loop fuel (days_before_years (Z.to_nat (y - 1996)) 1996 +
                   days_before_months (Z.to_nat (m - 1)) y 1 + T) 1996 1 (leap 1996) = Some (T, y, m).
Proof.
  intros Hy Hm HT Hf. pose proof (days_before_months_nonneg (Z.to_nat (m - 1)) y 1).
  rewrite <- Z.add_assoc.
  replace fuel with (12 * Z.to_nat (y - 1996) + (Z.to_nat (m - 1) + S (fuel - 12 * Z.to_nat (y - 1996) - Z.to_nat m)))%nat by lia.
  rewrite month_loop_years by lia. replace (1996 + Z.of_nat (Z.to_nat (y - 1996))) with y by lia.
  rewrite month_loop_months by lia. replace (1 + Z.of_nat (Z.to_nat (m - 1))) with m by lia.
  cbn [month_loop]. rewrite days_of_month_eq by lia. cbn [mbind option_bind].
  by rewrite (proj2 (Z.leb_gt _ _)) by lia.
Qed.

Lemma days_before_years_ge n y : 365 * Z.of_nat n <= days_before_years n y.
Proof.
  revert y. induction n as [|n IH]; intros y; cbn [days_before_years]; [lia|].
  specialize (IH (y + 1)). unfold ylen. destruct (leap y); lia.
Qed.

(** ** Lemmas: encoding *)

Lemma u32_add_l a b : u32 (u32 a + b) = u32 (a + b).
Proof. unfold u32. apply Z.add_mod_idemp_l. lia. Qed.

Lemma year_loop_eq n : forall i x,
  0 <= i -> year_loop n i (u32 x) (leap i) = (u32 (x + 1440 * days_before_years n i), leap (i + Z.of_nat n)).
Proof.
  induction n as [|n IH]; intros i x Hi; cbn [year_loop days_before_years].
  - f_equal; f_equal; lia.
  - rewrite isLeapYear_eq, u32_add_l, IH by lia. unfold ylen, MINUTES_PER_DAY.
    f_equal; [|f_equal; lia]. f_equal. destruct (leap i); lia.
Qed.

(** Table days of [n] months from month [i] on, February counted 28. *)
Fixpoint table_days (n : nat) (i : Z) : Z :=
  match n with
  | O => 0
  | S n => default 0 (ld days_per_month i) + table_days n (i + 1)
  end.

Lemma mon_loop_eq n : forall i x,
  1 <= i -> i + Z.of_nat n <= 13 -> mon_loop n i (u32 x) = Some (u32 (x + 1440 * table_days n i)).
Proof.
  induction n as [|n IH]; intros i x Hi Hn; cbn [mon_loop table_days].
  - res_lia || (do 2 f_equal; lia).
  - destruct (ld_total days_per_month i) as [d ->]; [cbn; unfold zlen; cbn; lia|].
    cbn [mbind option_bind default]. rewrite u32_add_l, IH by lia.
    do 2 f_equal. unfold MINUTES_PER_DAY. cbn. lia.
Qed.

Lemma table_days_eq y m :
  1 <= m <= 12 ->
  days_before_months (Z.to_nat (m - 1)) y 1 =
  table_days (Z.to_nat (m - 1)) 1 + (if (2 <? m) && leap y then 1 else 0).
Proof. intros H. unfold leap. by_month m H; cbv -[is_leap_year]; destruct (is_leap_year y); reflexivity. Qed.

Lemma u32_if (c : bool) x a : (if c then u32 (u32 x + a) else u32 x) = u32 (x + if c then a else 0).
Proof. destruct c; [apply u32_add_l|]. f_equal. lia. Qed.

(** The three bytes of a 32-bit count. *)
Definition time_bytes (x : Z) : list Z := [x `mod` 256; (x `div` 256) `mod` 256; (x `div` 65536) `mod` 256].

Lemma time_bytes_eq x :
  [Z.land x 0xFF; Z.land (Z.shiftr x 8) 0xFF; Z.land (Z.shiftr (Z.shiftr x 8) 8) 0xFF] = time_bytes x.
Proof.
  change 0xFF with (Z.ones 8). rewrite !Z.land_ones, !Z.shiftr_div_pow2 by lia.
  change (2 ^ 8) with 256. unfold time_bytes. rewrite Z.div_div by lia. done.
Qed.

Lemma date_to_ipmi_time_eq d m y :
  1996 <= y -> 1 <= m <= 12 ->
  date_to_ipmi_time d m y =
  let x := u32 (1440 * day_number d m y) in
  if x `mod` 2 ^ 24 =? 0 then Some (inl IVFRU_RET_INVALID_ARGUMENT) else Some (inr (time_bytes x)).
Proof.
  intros Hy Hm. unfold date_to_ipmi_time, MIN_YEAR. rewrite (proj2 (Z.ltb_ge _ _)) by lia.
  change true with (leap 1996). change 0 with (u32 0) at 1. rewrite year_loop_eq by lia.
  replace (1996 + Z.of_nat (Z.to_nat (y - 1996))) with y by lia.
  rewrite mon_loop_eq by lia. cbn [mbind option_bind].
  rewrite u32_if, u32_add_l, time_bytes_eq. change 0xFFFFFF with (Z.ones 24). rewrite Z.land_ones by lia.
  cbv zeta. unfold day_number. rewrite table_days_eq by lia. unfold MINUTES_PER_DAY.
  assert (forall A B T x, 0 + 1440 * A + 1440 * T + (if x : bool then 1440 else 0) + (d - 1) * 1440 = B ->
    B = 1440 * (A + (T + (if x then 1 else 0)) + (d - 1))) as Hr.
  { intros A B T x <-. destruct x; lia. }
  by rewrite (Hr _ _ _ _ eq_refl).
Qed.

Lemma ipmi_time_to_date_eq t0 t1 t2 :
  is_byte t0 -> is_byte t1 -> is_byte t2 ->
  ipmi_time_to_date t0 t1 t2 =
  ('(T, y, m) ← month_loop month_fuel ((t0 + 256 * t1 + 65536 * t2) `div` 1440) 1996 1 (leap 1996); Some (1 + T, m, y)).
Proof.
  unfold is_byte. intros H0 H1 H2. unfold ipmi_time_to_date.
  rewrite !Z.shiftl_mul_pow2 by lia. change (2 ^ 8) with 256.
  rewrite (u32_small (t2 * 256)) by lia. rewrite (u32_small (t2 * 256 + t1)) by lia.
  rewrite (u32_small ((t2 * 256 + t1) * 256)), (u32_small ((t2 * 256 + t1) * 256 + t0)) by lia.
  replace ((t2 * 256 + t1) * 256 + t0) with (t0 + 256 * t1 + 65536 * t2) by lia. done.
Qed.

Lemma time_bytes_value x :
  0 <= x -> x `mod` 256 + 256 * ((x `div` 256) `mod` 256) + 65536 * ((x `div` 65536) `mod` 256) = x `mod` 2 ^ 24.
Proof.
  intros Hx. change (2 ^ 24) with (256 * (256 * 256)). rewrite !Z.rem_mul_r by lia.
  rewrite Z.div_div by lia. change (256 * 256) with 65536. lia.
Qed.

Lemma date_roundtrip d m y :
  valid_date d m y -> 0 < 1440 * day_number d m y < 2 ^ 24 ->
  exists t0 t1 t2, date_to_ipmi_time d m y = Some (inr [t0; t1; t2]) /\
    ipmi_time_to_date t0 t1 t2 = Some (d, m, y).
Proof.
  intros (Hy & Hm & Hd) Hr. rewrite date_to_ipmi_time_eq by lia. cbv zeta.
  rewrite u32_small by lia. rewrite Z.mod_small by lia. rewrite (proj2 (Z.eqb_neq _ _)) by lia.
  do 3 eexists. split; [reflexivity|].
  rewrite ipmi_time_to_date_eq by (unfold is_byte; apply Z.mod_pos_bound; lia).
  rewrite time_bytes_value, Z.mod_small by lia. rewrite (Z.mul_comm 1440), Z.div_mul by lia.
  unfold day_number. rewrite month_loop_decode; [cbn; res_lia|lia|lia|lia|].
  pose proof (days_before_years_ge (Z.to_nat (y - 1996)) 1996).
  pose proof (days_before_months_nonneg (Z.to_nat (m - 1)) y 1).
  unfold day_number in Hr. unfold month_fuel. lia.
Qed.

(** ** Lemmas: every encoding decodes to a date *)

(** Days from 1996-01-01 to the first of a month. *)
Definition month_start (y m : Z) : Z :=
  days_before_years (Z.to_nat (y - 1996)) 1996 + days_before_months (Z.to_nat (m - 1)) y 1.

Lemma days_before_years_app a b y :
  days_before_years (a + b) y = days_before_years a y + days_before_years b (y + Z.of_nat a).
Proof.
  revert y. induction a as [|a IH]; intros y; cbn [Nat.add days_before_years].
  - by rewrite Z.add_0_r.
  - rewrite IH. replace (y + 1 + Z.of_nat a) with (y + Z.of_nat (S a)) by lia. lia.
Qed.

Lemma month_start_next y m : 1 <= m <= 11 -> month_start y (m + 1) = month_start y m + mlen y m.
Proof.
  intros H. unfold month_start. replace (Z.to_nat (m + 1 - 1)) with (Z.to_nat (m - 1) + 1)%nat by lia.
  rewrite days_before_months_app. replace (1 + Z.of_nat (Z.to_nat (m - 1))) with m by lia.
  unfold days_before_months at 2. lia.
Qed.

Lemma month_start_year y : 1996 <= y -> month_start (y + 1) 1 = month_start y 12 + mlen y 12.
Proof.
  intros H. unfold month_start. replace (Z.to_nat (y + 1 - 1996)) with (Z.to_nat (y - 1996) + 1)%nat by lia.
  rewrite days_before_years_app. replace (1996 + Z.of_nat (Z.to_nat (y - 1996))) with y by lia.
  change (Z.to_nat (1 - 1)) with 0%nat. change (Z.to_nat (12 - 1)) with 11%nat.
  pose proof (days_before_months_app 11 1 y 1) as Ha. change (11 + 1)%nat with 12%nat in Ha. rewrite year_months in Ha.
  change (1 + Z.of_nat 11) with 12 in Ha.
  assert (forall x, days_before_months 1 y x = mlen y x) as Hm by (intros x; unfold days_before_months; lia).
  rewrite Hm in Ha. unfold days_before_years at 2. cbn [days_before_months] in Ha |- *. lia.
Qed.

Lemma month_loop_total fuel : forall T y m,
  0 <= T < 28 * Z.of_nat fuel -> 1996 <= y -> 1 <= m <= 12 ->
  exists T' y' m', month_loop fuel T y m (leap y) = Some (T', y', m') /\
    1996 <= y' /\ 1 <= m' <= 12 /\ 0 <= T' < mlen y' m' /\ month_start y' m' + T' = month_start y m + T.
Proof.
  induction fuel as [|fuel IH]; intros T y m HT Hy Hm; [lia|]. cbn [month_loop].
  rewrite days_of_month_eq by done. cbn [mbind option_bind]. pose proof (mlen_bounds y m Hm).
  case_if; [|exists T, y, m; repeat split; lia].
  destruct (Z.ltb_spec 12 (m + 1)).
  - assert (m = 12) as -> by lia. fold (leap (y + 1)).
    destruct (IH (T - mlen y 12) (y + 1) 1) as (T' & y' & m' & -> & ? & ? & ? & He); [lia..|].
    exists T', y', m'. rewrite He, month_start_year by lia. repeat split; lia.
  - destruct (IH (T - mlen y m) y (m + 1)) as (T' & y' & m' & -> & ? & ? & ? & He); [lia..|].
    exists T', y', m'. rewrite He, month_start_next by lia. repeat split; lia.
Qed.

Lemma ipmi_time_decodes t0 t1 t2 :
  is_byte t0 -> is_byte t1 -> is_byte t2 ->
  exists d m y, ipmi_time_to_date t0 t1 t2 = Some (d, m, y) /\ valid_date d m y /\
    day_number d m y = (t0 + 256 * t1 + 65536 * t2) `div` 1440.
Proof.
  intros H0 H1 H2. rewrite ipmi_time_to_date_eq by done. unfold is_byte in *.
  destruct (month_loop_total month_fuel ((t0 + 256 * t1 + 65536 * t2) `div` 1440) 1996 1)
    as (T & y & m & -> & Hy & Hm & HT & He); [unfold month_fuel; mlia|lia|lia|].
  exists (1 + T), m, y. change (month_start 1996 1) with 0 in He. unfold month_start in He.
  split; [done|]. unfold valid_date, day_number. lia.
Qed.

Lemma day_number_nonneg d m y : valid_date d m y -> 0 <= day_number d m y.
Proof.
  intros (Hy & Hm & Hd). unfold day_number. pose proof (days_before_years_nonneg (Z.to_nat (y - 1996)) 1996).
  pose proof (days_before_months_nonneg (Z.to_nat (m - 1)) y 1). lia.
Qed.

Lemma u32_mod24 x : u32 x `mod` 2 ^ 24 = x `mod` 2 ^ 24.
Proof. unfold u32. change (2 ^ 32) with (2 ^ 24 * 2 ^ 8). rewrite Z.rem_mul_r by lia. mlia. Qed.

(** ** Lemmas: parsing *)

Definition decimal (acc : Z) (s : list Z) : Z := foldl (fun a c => a * 10 + (c - 48)) acc s.

Lemma is_digit_bounds c : is_digit c = true -> 48 <= c <= 57.
Proof. unfold is_digit. intros. bool_to_prop. lia. Qed.

Lemma decimal_ge s : forall acc, 0 <= acc -> forallb is_digit s = true -> acc <= decimal acc s.
Proof.
  induction s as [|c s IH]; intros acc Ha Hs; cbn in *; [lia|].
  apply andb_prop in Hs as [Hc Hs]. apply is_digit_bounds in Hc.
  transitivity (acc * 10 + (c - 48)); [lia|]. apply IH; [lia|done].
Qed.

Lemma i32_ok z : - 2 ^ 31 <= z < 2 ^ 31 -> i32 z = Some z.
Proof.
  intros. unfold i32. by rewrite (proj2 (Z.leb_le _ _)), (proj2 (Z.ltb_lt _ _)) by lia.
Qed.

Lemma digits_loop_run s rest : forall acc,
  0 <= acc -> forallb is_digit s = true -> decimal acc s < 2 ^ 31 ->
  (if rest is c :: _ then is_digit c else false) = false ->
  digits_loop (s ++ rest) acc = Some (decimal acc s, rest).
Proof.
  induction s as [|c s IH]; intros acc Ha Hs Hd Hr; cbn [app].
  - destruct rest as [|c rest]; [done|]. cbn [digits_loop decimal foldl]. by rewrite Hr.
  - cbn [digits_loop forallb] in *. apply andb_prop in Hs as [Hc Hs]. rewrite Hc.
    apply is_digit_bounds in Hc. cbn [decimal foldl] in Hd.
    pose proof (decimal_ge s (acc * 10 + (c - 48)) ltac:(lia) Hs). unfold decimal in *.
    rewrite i32_ok by lia. cbn [mbind option_bind]. rewrite i32_ok by lia. cbn [mbind option_bind].
    apply IH; [lia|done..].
Qed.

Lemma i32_inv z v : i32 z = Some v -> v = z.
Proof. unfold i32. case_if; congruence. Qed.

Lemma days_per_month_mlen m y : 1 <= m <= 12 -> m <> 2 -> ld days_per_month m = Some (mlen y m).
Proof. intros H Hn. unfold mlen. by_month m H; try done. Qed.

Lemma mlen_feb y : mlen y 2 = if leap y then 29 else 28.
Proof. reflexivity. Qed.

Lemma date2dmy_sound s d m y : date2dmy s = Some (inr (d, m, y)) -> valid_date d m y.
Proof.
  unfold date2dmy, MIN_YEAR. intros H. bind_in H. destruct p as [d' s1].
  destruct (skip_dash s1) as [s2|]; [|discriminate]. case_if_in H; [discriminate|].
  bind_in H. destruct p as [m' s3]. destruct (skip_dash s3) as [s4|]; [|discriminate].
  case_if_in H; [discriminate|]. bind_in H. destruct p as [y' s5].
  case_if_in H; [discriminate|]. unfold valid_date. case_if_in H.
  - rewrite (days_per_month_mlen m' y') in H by lia. cbn [mbind option_bind] in H.
    case_if_in H; [discriminate|]. simplify_eq. lia.
  - case_if_in H; [discriminate|]. case_if_in H; [discriminate|]. simplify_eq.
    rewrite mlen_feb. unfold leap. destruct (is_leap_year y); cbn in *; bool_to_prop; lia.
Qed.

Lemma date2dmy_complete ds ms ys d m y :
  forallb is_digit ds = true -> forallb is_digit ms = true -> forallb is_digit ys = true ->
  decimal 0 ds = d -> decimal 0 ms = m -> decimal 0 ys = y -> y < 2 ^ 31 -> valid_date d m y ->
  date2dmy (ds ++ 45 :: ms ++ 45 :: ys) = Some (inr (d, m, y)).
Proof.
  intros Hds Hms Hys Hd Hm Hy Hb (Hy1 & Hm1 & Hd1). pose proof (mlen_bounds y m Hm1).
  unfold date2dmy, MIN_YEAR. rewrite digits_loop_run by (done || lia). rewrite Hd. cbn [mbind option_bind skip_dash Z.eqb Pos.eqb].
  rewrite (proj2 (Z.ltb_ge d 1)), (proj2 (Z.ltb_ge 31 d)) by lia. cbn [orb].
  rewrite digits_loop_run by (done || lia). rewrite Hm. cbn [mbind option_bind skip_dash Z.eqb Pos.eqb].
  rewrite (proj2 (Z.ltb_ge m 1)), (proj2 (Z.ltb_ge 12 m)) by lia. cbn [orb].
  rewrite <- (app_nil_r ys), digits_loop_run by (done || lia). rewrite Hy. cbn [mbind option_bind].
  rewrite (proj2 (Z.ltb_ge y 1996)) by lia. destruct (Z.eqb_spec m 2) as [->|Hn]; cbn [negb].
  - rewrite mlen_feb in Hd1. unfold leap in Hd1.
    destruct (is_leap_year y); cbn [andb negb]; rewrite (proj2 (Z.ltb_ge _ d)) by lia; reflexivity.
  - rewrite (days_per_month_mlen m y) by lia. cbn [mbind option_bind].
    by rewrite (proj2 (Z.ltb_ge (mlen y m) d)) by lia.
Qed.

(** ** Properties *)

(** C35: what the encoding of a date stands for, on every date of the calendar from 1996
    on.  A date whose number of minutes is a multiple of 2^24 (1 January 1996, and then
    none before the year 3431) is refused; any other is encoded in three bytes that decode
    to the date [minutes mod 2^24] stands for.  That is the date itself exactly up to
    24 November 2027: later dates read back as earlier ones. *)
Theorem date_time_roundtrip d m y :
  valid_date d m y ->
  let minutes := 1440 * day_number d m y in
  if minutes `mod` 2 ^ 24 =? 0 then date_to_ipmi_time d m y = Some (inl IVFRU_RET_INVALID_ARGUMENT)
  else exists t0 t1 t2 d' m' y',
    date_to_ipmi_time d m y = Some (inr [t0; t1; t2]) /\ Forall is_byte [t0; t1; t2] /\
    ipmi_time_to_date t0 t1 t2 = Some (d', m', y') /\ valid_date d' m' y' /\
    day_number d' m' y' = (minutes `mod` 2 ^ 24) `div` 1440 /\
    ((d', m', y') = (d, m, y) <-> day_number d m y <= day_number 24 11 2027).
Proof.
  intros Hv minutes. pose proof Hv as (Hy & Hm & Hd). pose proof (day_number_nonneg d m y Hv) as Hn.
  pose proof (date_to_ipmi_time_eq d m y Hy Hm) as He. cbv zeta in He. fold minutes in He. rewrite u32_mod24 in He.
  destruct (Z.eqb_spec (minutes `mod` 2 ^ 24) 0) as [H0|H0]; [done|].
  set (x := u32 minutes) in *. assert (Hx : x `mod` 2 ^ 24 = minutes `mod` 2 ^ 24) by apply u32_mod24.
  assert (0 <= x) by (apply Z.mod_pos_bound; lia). change (day_number 24 11 2027) with 11650.
  destruct (ipmi_time_decodes (x `mod` 256) ((x `div` 256) `mod` 256) ((x `div` 65536) `mod` 256))
    as (d' & m' & y' & Hdec & Hv' & Hn'); [unfold is_byte; apply Z.mod_pos_bound; lia..|].
  rewrite time_bytes_value, Hx in Hn' by done. unfold time_bytes in He.
  do 3 eexists. exists d', m', y'. split_and!; [exact He| |exact Hdec|done|done|].
  - repeat constructor; unfold is_byte; apply Z.mod_pos_bound; lia.
  - split; [intros [= -> -> ->]; pose proof (Z.mod_pos_bound minutes (2 ^ 24) ltac:(lia)); mlia|].
    intros Hle. destruct (date_roundtrip d m y Hv) as (t0 & t1 & t2 & He2 & Hd2).
    { fold minutes. destruct (decide (minutes = 0)) as [Hz|]; [by rewrite Hz in H0|lia]. }
    rewrite He in He2. injection He2 as <- <- <-. congruence.
Qed.

(** A date that survives, the first that is refused, and the first that reads back as another. *)
Lemma date_time_roundtrip_witness :
  (exists t0 t1 t2, date_to_ipmi_time 29 2 2024 = Some (inr [t0; t1; t2]) /\
    ipmi_time_to_date t0 t1 t2 = Some (29, 2, 2024)) /\
  date_to_ipmi_time 1 1 1996 = Some (inl IVFRU_RET_INVALID_ARGUMENT) /\
  (exists t0 t1 t2 d' m' y', date_to_ipmi_time 25 11 2027 = Some (inr [t0; t1; t2]) /\
    ipmi_time_to_date t0 t1 t2 = Some (d', m', y') /\ day_number d' m' y' = 0).
Proof.
  split_and!.
  - destruct (date_time_roundtrip 29 2 2024 ltac:(repeat split; discriminate)) as (t0 & t1 & t2 & d' & m' & y' & He & _ & Hd & _ & _ & Hs).
    exists t0, t1, t2. split; [exact He|]. rewrite Hd. f_equal. apply Hs. by vm_compute.
  - exact (date_time_roundtrip 1 1 1996 ltac:(repeat split; discriminate)).
  - destruct (date_time_roundtrip 25 11 2027 ltac:(repeat split; discriminate)) as (t0 & t1 & t2 & d' & m' & y' & He & _ & Hd & _ & Hn & _).
    exists t0, t1, t2, d', m', y'. split_and!; [exact He|exact Hd|exact Hn].
Defined.

(** Decoding is total on three bytes: it yields the valid calendar date whose
    day number is the encoded number of minutes divided by 1440. *)
Theorem ipmi_time_total t0 t1 t2 :
  is_byte t0 -> is_byte t1 -> is_byte t2 ->
  exists d m y, ipmi_time_to_date t0 t1 t2 = Some (d, m, y) /\ valid_date d m y /\
    day_number d m y = (t0 + 256 * t1 + 65536 * t2) `div` 1440.
Proof. apply ipmi_time_decodes. Qed.

Lemma ipmi_time_total_witness :
  exists d m y, ipmi_time_to_date 255 255 255 = Some (d, m, y) /\ valid_date d m y /\
    day_number d m y = (255 + 256 * 255 + 65536 * 255) `div` 1440.
Proof. apply (ipmi_time_total 255 255 255); split; discriminate || reflexivity. Defined.

(** A date given as three groups of digits separated by dashes is accepted
    exactly when it is a day of the calendar from 1996 on, and then parsed as
    written. *)
Theorem date2dmy_exact ds ms ys :
  forallb is_digit ds = true -> forallb is_digit ms = true -> forallb is_digit ys = true ->
  decimal 0 ys < 2 ^ 31 ->
  date2dmy (ds ++ 45 :: ms ++ 45 :: ys) = Some (inr (decimal 0 ds, decimal 0 ms, decimal 0 ys)) <->
  valid_date (decimal 0 ds) (decimal 0 ms) (decimal 0 ys).
Proof.
  intros Hds Hms Hys Hb. split; [apply date2dmy_sound|]. intros Hv. by apply date2dmy_complete.
Qed.

(** "29-02-2024" *)
Lemma date2dmy_exact_witness :
  date2dmy ([50; 57] ++ 45 :: [48; 50] ++ 45 :: [50; 48; 50; 52]) = Some (inr (29, 2, 2024)) <-> valid_date 29 2 2024.
Proof. apply (date2dmy_exact [50; 57] [48; 50] [50; 48; 50; 52]); reflexivity. Defined.

(** A date whose minutes do not fit 24 bits is still encoded (unless its low 24
    bits are zero), and the encoding stands for an earlier date. *)
Theorem date_to_ipmi_time_wraps d m y t0 t1 t2 :
  valid_date d m y -> 2 ^ 24 <= 1440 * day_number d m y < 2 ^ 32 ->
  date_to_ipmi_time d m y = Some (inr [t0; t1; t2]) ->
  exists d' m' y', ipmi_time_to_date t0 t1 t2 = Some (d', m', y') /\ valid_date d' m' y' /\
    day_number d' m' y' < day_number d m y.
Proof.
  intros (Hy & Hm & Hd) Hr. rewrite date_to_ipmi_time_eq by lia. cbv zeta. rewrite u32_small by lia.
  set (x := 1440 * day_number d m y) in *. case_if; [done|]. intros [= <- <- <-].
  destruct (ipmi_time_decodes (x `mod` 256) ((x `div` 256) `mod` 256) ((x `div` 65536) `mod` 256))
    as (d' & m' & y' & He & Hv & Hn); [unfold is_byte; apply Z.mod_pos_bound; lia..|].
  exists d', m', y'. split_and!; [done..|]. rewrite Hn, time_bytes_value by lia.
  apply Z.div_lt_upper_bound; [lia|]. pose proof (Z.mod_pos_bound x (2 ^ 24)). unfold x in *. lia.
Qed.

(** 25 November 2027, the first such date, reads back as 1 January 1996. *)
Lemma date_to_ipmi_time_wraps_witness :
  ipmi_time_to_date 224 0 0 = Some (1, 1, 1996) /\
  exists d' m' y', ipmi_time_to_date 224 0 0 = Some (d', m', y') /\ valid_date d' m' y' /\
    day_number d' m' y' < day_number 25 11 2027.
Proof.
  split; [reflexivity|].
  apply (date_to_ipmi_time_wraps 25 11 2027 224 0 0); [repeat split; discriminate|split; reflexivity || discriminate|reflexivity].
Defined.
