(* ===== verification/FruPlat.v ===== *)
(** * The platform under the FRU commands

    The interface [ivfru_plat.h] as a class of operations over a machine state
    [W], the heap blocks its buffers live in, and the instance of
    [recipes-bsp/ivfru/files/ivfru_plat.c] (Linux) for the static buffer and the
    file locations.  Reading and writing the board storage are a class of their own,
    which [FruBoard] implements. *)
From S2P Require Import Prelude FruField.

(** A pointer to the first byte of a heap block. *)
Abbreviation block := nat.
Abbreviation heap := (gmap nat (list Z)).

(** ** The interface

    [ivfru_plat_read_from_board] returns its code and the bytes it has stored
    through [mem]. *)
Class FruPlat (W : Type) := {
  plat_heap : W -> heap;
  plat_set_heap : heap -> W -> W;
  ivfru_plat_read_from_board : ivfru_board -> Z -> Z -> bool -> M W (ivfru_ret * list Z);
  ivfru_plat_write_to_board : ivfru_board -> list Z -> M W ivfru_ret;
  ivfru_plat_read_from_location : string -> M W ivfru_ret;
  ivfru_plat_write_to_location : string -> M W ivfru_ret;
  ivfru_plat_get_buffer : M W (option block);
  ivfru_plat_reserve_memory : Z -> M W ivfru_ret;
  ivfru_plat_set_image_size : Z -> M W ivfru_ret
}.

(** Access to a block: a fault when it is not live. *)
Definition mem_get {W} `{FruPlat W} (p : block) : M W (list Z) :=
  fun w => match plat_heap w !! p with Some b => Some (b, w) | None => None end.

Definition mem_put {W} `{FruPlat W} (p : block) (b : list Z) : M W unit :=
  fun w => match plat_heap w !! p with
           | Some _ => Some (tt, plat_set_heap (<[p := b]> (plat_heap w)) w)
           | None => None end.

(** Runs a function of the block's bytes that may update them. *)
Definition mem_upd {W A} `{FruPlat W} (p : block) (f : list Z -> option (A * list Z)) : M W A :=
  b ← mem_get p; '(a, b') ← lift (f b); _ ← mem_put p b'; mret a.

(** The accesses through the interface behave as accesses to one heap. *)
Class FruPlatHeap (W : Type) `{FruPlat W} := {
  get_set_heap : forall h w, plat_heap (plat_set_heap h w) = h;
  set_set_heap : forall h1 h2 w, plat_set_heap h1 (plat_set_heap h2 w) = plat_set_heap h1 w
}.

(** ** Linux *)

(** The statics of [ivfru_plat.c], the heap of the process, the file system, and the
    shell commands the process has run, each with its input, oldest first. *)
Record linux := Linux {
  lx_heap : heap;
  lx_image_buffer : option block;
  lx_buffer_size : Z;
  lx_image_size : Z;
  lx_files : gmap string (list Z);
  lx_shell : list (string * list Z)
}.

Definition lx_with_heap (h : heap) (w : linux) : linux :=
  Linux h (lx_image_buffer w) (lx_buffer_size w) (lx_image_size w) (lx_files w) (lx_shell w).
Definition lx_with_buffer (p : option block) (n : Z) (w : linux) : linux :=
  Linux (lx_heap w) p n (lx_image_size w) (lx_files w) (lx_shell w).
Definition lx_with_image_size (n : Z) (w : linux) : linux :=
  Linux (lx_heap w) (lx_image_buffer w) (lx_buffer_size w) n (lx_files w) (lx_shell w).
Definition lx_with_files (f : gmap string (list Z)) (w : linux) : linux :=
  Linux (lx_heap w) (lx_image_buffer w) (lx_buffer_size w) (lx_image_size w) f (lx_shell w).

(** The C library and the system under it: which sizes the allocator can serve,
    whether a [realloc] from one size to another moves the block, what
    uninitialised bytes hold, and which paths can be opened for writing. *)
Class Libc := {
  alloc_ok : Z -> bool;
  realloc_moves : Z -> Z -> bool;
  junk : nat -> Z;
  can_write : string -> bool
}.

Section linux.
Context `{Libc}.

Definition fresh_block (h : heap) : block := fresh (dom h).

(** The uninitialised bytes from index [i] on. *)
Definition junk_bytes (i n : nat) : list Z := (fun k => u8 (junk k)) <$> seq i n.

(** The contents of a block resized to [n] bytes. *)
Definition resize_bytes (b : list Z) (n : Z) : list Z :=
  let n := Z.to_nat n in take n b ++ junk_bytes (length b) (n - length b).

Definition malloc (n : Z) (h : heap) : option (block * heap) :=
  if (0 <=? n) && alloc_ok n then
    let p := fresh_block h in Some (p, <[p := resize_bytes [] n]> h)
  else None.

(** [realloc(p, n)]: the new pointer ([None] for NULL) and the heap; glibc frees
    the block for [n = 0]; a fault when [p] is not a live block. *)
Definition realloc (p : block) (n : Z) (h : heap) : option (option block * heap) :=
  match h !! p with
  | None => None
  | Some b =>
    if n =? 0 then Some (None, delete p h)
    else if (0 <? n) && alloc_ok n then
      if realloc_moves (zlen b) n then
        let q := fresh_block h in Some (Some q, <[q := resize_bytes b n]> (delete p h))
      else Some (Some p, <[p := resize_bytes b n]> h)
    else Some (None, h)
  end.

Definition lx_get_buffer : M linux (option block) :=
  fun w => Some (if lx_buffer_size w =? 0 then None else lx_image_buffer w, w).

Definition lx_set_buffer (buffer : option block) : M linux ivfru_ret :=
  fun w => Some (IVFRU_RET_SUCCESS, lx_with_buffer buffer (lx_buffer_size w) w).

Definition lx_reserve_memory (size : Z) : M linux ivfru_ret :=
  fun w =>
  match lx_image_buffer w with
  | None =>
    match malloc size (lx_heap w) with
    | None => Some (IVFRU_RET_MEM_ERROR, w)
    | Some (p, h) => Some (IVFRU_RET_SUCCESS, lx_with_buffer (Some p) size (lx_with_heap h w))
    end
  | Some p =>
    match realloc p size (lx_heap w) with
    | None => None
    | Some (None, h) => Some (IVFRU_RET_MEM_ERROR, lx_with_heap h w)
    | Some (Some q, h) => Some (IVFRU_RET_SUCCESS, lx_with_buffer (Some q) size (lx_with_heap h w))
    end
  end.

Definition lx_set_image_size (size : Z) : M linux ivfru_ret :=
  fun w => Some (IVFRU_RET_SUCCESS, lx_with_image_size size w).

Definition lx_get_image_size : M linux Z := fun w => Some (lx_image_size w, w).

(** [fread(mem, size, 1, file) != 1] reads one item of [size] bytes; for
    [size = 0] it reads none and returns 0.  The [long] size is converted to the [int]
    of the reservation. *)
Definition lx_read_from_location (location : string) : M linux ivfru_ret :=
  fun w =>
  match lx_files w !! location with
  | None => Some (IVFRU_RET_IO_ERROR, w)
  | Some content =>
    let size := zlen content in
    match lx_reserve_memory (to_i32 size) w with
    | None => None
    | Some (IVFRU_RET_SUCCESS, w) =>
      match (if lx_buffer_size w =? 0 then None else lx_image_buffer w) with
      | None => Some (IVFRU_RET_MEM_ERROR, w)
      | Some mem =>
        match lx_heap w !! mem ≫= fun b => wr_range b 0 content with
        | None => None
        | Some b =>
          let w := lx_with_heap (<[mem := b]> (lx_heap w)) w in
          Some (if size =? 0 then IVFRU_RET_IO_ERROR else IVFRU_RET_SUCCESS, w)
        end
      end
    | Some (_, w) => Some (IVFRU_RET_MEM_ERROR, w)
    end
  end.

(** [fopen(path, "wb")] truncates the file before the buffer is looked at; a
    negative image size converts to a huge [size_t] and overruns the block. *)
Definition lx_write_to_location (location : string) : M linux ivfru_ret :=
  fun w =>
  if negb (can_write location) then Some (IVFRU_RET_IO_ERROR, w) else
  let w := lx_with_files (<[location := []]> (lx_files w)) w in
  match (if lx_buffer_size w =? 0 then None else lx_image_buffer w) with
  | None => Some (IVFRU_RET_MEM_ERROR, w)
  | Some mem =>
    match lx_heap w !! mem ≫= fun b => rd_range b 0 (lx_image_size w) with
    | None => None
    | Some data => Some (IVFRU_RET_SUCCESS, lx_with_files (<[location := data]> (lx_files w)) w)
    end
  end.

(** The board storage; [FruBoard] has the one of Linux. *)
Class BoardIO := {
  board_read : ivfru_board -> Z -> Z -> bool -> M linux (ivfru_ret * list Z);
  board_write : ivfru_board -> list Z -> M linux ivfru_ret
}.

#[export] Instance linux_plat `{BoardIO} : FruPlat linux := {
  plat_heap := lx_heap;
  plat_set_heap := lx_with_heap;
  ivfru_plat_read_from_board := board_read;
  ivfru_plat_write_to_board := board_write;
  ivfru_plat_read_from_location := lx_read_from_location;
  ivfru_plat_write_to_location := lx_write_to_location;
  ivfru_plat_get_buffer := lx_get_buffer;
  ivfru_plat_reserve_memory := lx_reserve_memory;
  ivfru_plat_set_image_size := lx_set_image_size
}.

#[export] Instance linux_plat_heap `{BoardIO} : FruPlatHeap linux.
Proof. split; reflexivity. Qed.

End linux.
