(* ===== verification/FruOps.v ===== *)
(** * The FRU commands of [ivfru_common.c] *)
From S2P Require Import Prelude FruField FruValidate FruDate FruPlat.

(** ** Work on the bytes of the image *)

Definition CH_SIZE : Z := sizeof_CH.

(** [ivfru_fix] from the header patch to the area checksum: the image size and
    the patched buffer. *)
Definition fix_mem (b : list Z) : option (Z * list Z) :=
  b ← st b CH_board_info_area 0x01;
  ck ← fru_calculate_checksum b 0 (sizeof_CH - 1);
  b ← st b CH_checksum ck;
  bia_len ← ld b (sizeof_CH + BIA_length);
  b ← st b (sizeof_CH + BIA_length) (bia_len `quot` 8);
  ck ← fru_calculate_checksum b sizeof_CH (bia_len - 1);
  b ← st b (sizeof_CH + bia_len - 1) ck;
  Some (bia_len + sizeof_CH, b).

(** A string argument: the characters before its NUL ([None] for NULL). *)
Abbreviation cstring := (list Z).

(** The rows of the tables [field_str], [field_type] and [field_len]. *)
Record frow := Frow { fr_str : option cstring; fr_type : ivfru_tlb_type; fr_len : Z }.

Definition fixed_rows (mfr product sn pn : cstring) (mfr_len product_len sn_len pn_len : Z) : list frow :=
  [ Frow (Some mfr) IVFRU_TLB_TYPE_11 mfr_len;
    Frow (Some product) IVFRU_TLB_TYPE_11 product_len;
    Frow (Some sn) IVFRU_TLB_TYPE_11 sn_len;
    Frow (Some pn) IVFRU_TLB_TYPE_11 pn_len;
    Frow (Some []) IVFRU_TLB_TYPE_UNSPECIFIED 0;
    Frow None IVFRU_TLB_TYPE_11 0 ].

(** The loop that resolves negative lengths and rejects strings that are longer
    than their field; [None] is the rejection. *)
Fixpoint resolve_lengths (rows : list frow) : option (list frow) :=
  match rows with
  | [] => Some []
  | r :: rows =>
    match fr_str r with
    | Some s =>
      let slen := zlen s in
      if fr_len r <? 0 then
        rows ← resolve_lengths rows; Some (Frow (Some s) (fr_type r) slen :: rows)
      else if fr_len r <? slen then None
      else rows ← resolve_lengths rows; Some (r :: rows)
    | None => rows ← resolve_lengths rows; Some (Frow None (fr_type r) 0 :: rows)
    end
  end.

(** [for(...) total_size += 1 + field_len[i];] with [int] overflow a fault. *)
Fixpoint sum_lengths (rows : list frow) (total_size : Z) : option Z :=
  match rows with
  | [] => Some total_size
  | r :: rows =>
    t ← i32 (1 + fr_len r); total_size ← i32 (total_size + t); sum_lengths rows total_size
  end.

(** The loop that formats the fields: return code, buffer and [address].  A field
    of positive length is its string padded with spaces; the call in the other
    branch passes [field_type[i]] as the length and 0 as the type. *)
Fixpoint format_rows (b : list Z) (address : Z) (rows : list frow) : option (ivfru_ret * list Z * Z) :=
  match rows with
  | [] => Some (IVFRU_RET_SUCCESS, b, address)
  | r :: rows =>
    '(ret, b, address) ←
      (if 0 <? fr_len r then
         let s := default [] (fr_str r) in
         field ← wr_range (replicate (Z.to_nat (fr_len r)) 32) 0 s;
         fru_area_format_field b address (Some field) (fr_len r) (fr_type r)
       else
         fru_area_format_field b address ((fun s => s ++ [0]) <$> fr_str r)
           (tlb_code (fr_type r)) IVFRU_TLB_TYPE_UNSPECIFIED);
    match ret with
    | IVFRU_RET_SUCCESS => format_rows b address rows
    | _ => Some (IVFRU_RET_INVALID_ARGUMENT, b, address)
    end
  end.

(** [ivfru_xcreate] from the header copy to the area checksum, on the reserved
    memory. *)
Definition xcreate_mem (rows : list frow) (day month year total_size pad_len : Z) (b : list Z)
    : option (ivfru_ret * list Z) :=
  b ← wr_range b 0 CH_DEFAULT;
  let bia_len := total_size - sizeof_CH in
  b ← st b (sizeof_CH + BIA_format_version) 0x01;
  b ← st b (sizeof_CH + BIA_length) (bia_len `quot` 8);
  b ← st b (sizeof_CH + BIA_language_code) 0x00;
  time ← date_to_ipmi_time day month year;
  b ← (match time with
       | inr bytes => wr_range b (sizeof_CH + BIA_mfg_date_time) bytes
       | inl _ => Some b end);
  '(ret, b, address) ← format_rows b (sizeof_CH + BIA_variable) rows;
  match ret with
  | IVFRU_RET_SUCCESS =>
    b ← memset b address 0 pad_len;
    let address := address + pad_len in
    ck ← fru_calculate_checksum b sizeof_CH (bia_len - 1);
    b ← st b address ck;
    Some (IVFRU_RET_SUCCESS, b)
  | _ => Some (IVFRU_RET_INVALID_ARGUMENT, b)
  end.

(** Skips [n] fields from [address]. *)
Fixpoint skip_fields (n : nat) (b : list Z) (address : Z) : option Z :=
  match n with
  | O => Some address
  | S n => next ← fru_next b address; skip_fields n b next
  end.

(** [while( *address != FRU_END_MARKER && index > 0)]: address and remaining index. *)
Fixpoint goto_loop (fuel : nat) (b : list Z) (address index : Z) : option (Z * Z) :=
  match fuel with
  | O => None
  | S fuel =>
    c ← ld b address;
    if negb (c =? FRU_END_MARKER) && (0 <? index) then
      next ← fru_next b address; goto_loop fuel b next (index - 1)
    else Some (address, index)
  end.

(** [while( *end != FRU_END_MARKER)]. *)
Fixpoint end_loop (fuel : nat) (b : list Z) (address : Z) : option Z :=
  match fuel with
  | O => None
  | S fuel =>
    c ← ld b address;
    if negb (c =? FRU_END_MARKER) then next ← fru_next b address; end_loop fuel b next
    else Some address
  end.

(** Every iteration of the two loops advances the address, and reading past the
    buffer is a fault: one iteration per byte is enough. *)
Definition scan_fuel (b : list Z) : nat := S (length b).

(** The descending copy that makes room for a new field: [n] iterations from
    [temp] down. *)
Fixpoint shift_loop (n : nat) (b : list Z) (temp field_len : Z) : option (list Z) :=
  match n with
  | O => Some b
  | S n =>
    c ← ld b temp; b ← st b (temp + field_len) c; shift_loop n b (temp - 1) field_len
  end.

(** [memcpy(b + dst, b + src, n)] inside one object.  Its behaviour is undefined when
    the two areas overlap. *)
Definition disjoint_areas (dst src n : Z) : bool := (n =? 0) || (dst + n <=? src) || (src + n <=? dst).
Definition memcpy (b : list Z) (dst src n : Z) : option (list Z) :=
  if disjoint_areas dst src n then data ← rd_range b src n; wr_range b dst data else None.

(** [((x + 7) / 8) * 8] *)
Definition round8 (x : Z) : Z := ((x + 7) `quot` 8) * 8.

(** [ivfru_add] between the validation and the reservation: the formatted field
    (or [None] when the formatter rejects it), the insertion address, the address
    after the end marker and the remaining index. *)
Definition add_locate (b : list Z) (index : Z) (data : list Z) (len : Z)
    : option (option (list Z * Z * Z * Z)) :=
  '(ret, field, _) ← fru_area_format_field (replicate (Z.to_nat (len + 1)) 0) 0 (Some data) len IVFRU_TLB_TYPE_11;
  match ret with
  | IVFRU_RET_SUCCESS =>
    address ← skip_fields 5 b (sizeof_CH + BIA_variable);
    '(address, index) ← goto_loop (scan_fuel b) b address index;
    last ← end_loop (scan_fuel b) b address;
    Some (Some (field, address, last + 1, index))
  | _ => Some None
  end.

(** Making room, copying the field and clearing the padding, through the pointers
    [address] and [end_]. *)
Definition add_insert (field : list Z) (address end_ pad_len : Z) (b : list Z) : option (list Z) :=
  let field_len := zlen field in
  b ← shift_loop (Z.to_nat (end_ - address)) b (end_ - 1) field_len;
  b ← wr_range b address field;
  memset b (end_ + field_len) 0 pad_len.

(** [ivfru_rm] after the validation: the image size and the buffer, or [None]
    when there is no custom field at [index]. *)
Definition rm_mem (index : Z) (b : list Z) : option (option Z * list Z) :=
  address ← skip_fields 5 b (sizeof_CH + BIA_variable);
  '(address, index) ← goto_loop (scan_fuel b) b address index;
  if negb (index =? 0) then Some (None, b) else
  c ← ld b address;
  if c =? FRU_END_MARKER then Some (None, b) else
  l ← fru_tl_get_length b address;
  let rlen := l + 1 in
  last ← end_loop (scan_fuel b) b address;
  let end_ := last + 1 in
  b ← memcpy b address (address + rlen) (end_ - address - rlen);
  let end_ := end_ - rlen in
  let used := end_ - sizeof_CH + 1 in
  let bia_len := round8 used in
  let pad_len := bia_len - used in
  b ← memset b end_ 0 pad_len;
  let end_ := end_ + pad_len in
  b ← st b (sizeof_CH + BIA_length) (bia_len `quot` 8);
  ck ← fru_calculate_checksum b sizeof_CH (bia_len - 1);
  b ← st b end_ ck;
  Some (Some (bia_len + sizeof_CH), b).

(** ** Board names *)

Definition ivfru_board_str : list string := ["mb"; "io"; "bp"]%string.

(** The enumerator's integer value, and the enumerator with a value of the range. *)
Definition board_code (board : ivfru_board) : Z :=
  match board with
  | IVFRU_BOARD_MB => 0 | IVFRU_BOARD_IO => 1 | IVFRU_BOARD_BP => 2 | MAX_IVFRU_BOARD => 3
  end.
Definition board_of_code (i : Z) : ivfru_board :=
  if i =? 0 then IVFRU_BOARD_MB else if i =? 1 then IVFRU_BOARD_IO
  else if i =? 2 then IVFRU_BOARD_BP else MAX_IVFRU_BOARD.

Definition ivfru_board2str (board : ivfru_board) : option string :=
  let i := board_code board in
  if (0 <=? i) && (i <? zlen ivfru_board_str) then ivfru_board_str !! Z.to_nat i else None.

(** The loop over the table, from index [i]. *)
Fixpoint str2board_loop (names : list string) (i : Z) (str : string) : ivfru_board :=
  match names with
  | [] => MAX_IVFRU_BOARD
  | name :: names =>
    if bool_decide (str = name) then board_of_code i else str2board_loop names (i + 1) str
  end.
Definition ivfru_str2board (str : string) : ivfru_board := str2board_loop ivfru_board_str 0 str.

(** ** The commands over a platform *)

(** One line printed by [ivfru_display].  The [Mfg Date] line is printed through a
    format with a single conversion, so it shows the day only. *)
Inductive display_line :=
  | LineError (flag : Z)
  | LineBiaLength (bia_len_in_bytes : Z)
  | LineBiaVersion (format_version : Z)
  | LineLangCode (language_code : Z)
  | LineMfgDate (day : Z)
  | LineFixed (i : Z) (data : list Z)
  | LineFileIdLen (flen : Z)
  | LineField (i : Z) (data : list Z)
  | LineBiaValid (valid : bool)
  | LineAreaExists (area : Z).

(** [display_validation_errors]: one line per flag that is set, in this order. *)
Definition display_validation_errors (res : Z) : list display_line :=
  LineError <$> filter (fun flag => Z.land res flag <> 0)
    [ VAL_RES_CH_INVALID_FORMAT_VERSION; VAL_RES_CH_INVALID_BIA_OFFSET; VAL_RES_CH_INVALID_CHECKSUM;
      VAL_RES_BIA_INVALID_FORMAT_VERSION; VAL_RES_BIA_INVALID_LANGUAGE_CODE;
      VAL_RES_BIA_PREDEF_FIELDS_MISSING; VAL_RES_BIA_INVALID_FRU_FILE_ID;
      VAL_RES_BIA_MISSING_END_OF_FIELDS; VAL_RES_BIA_INVALID_PADDING; VAL_RES_BIA_MISSING_CHECKSUM;
      VAL_RES_BIA_INCORRECT_CHECKSUM ].

(** The loop over the four named fields ([n] left, [i] done). *)
Fixpoint display_fixed (n : nat) (b : list Z) (i address length : Z)
    : option (list display_line * Z * Z) :=
  match n with
  | O => Some ([], address, length)
  | S n =>
    if 0 <? length then
      l ← fru_tl_get_length b address;
      let flen := 1 + l in
      '(data, address) ← fru_area_get_field_at_address b address (Some flen);
      '(lines, address, length) ← display_fixed n b (i + 1) address (length - flen);
      Some (LineFixed i data :: lines, address, length)
    else Some ([], address, length)
  end.

(** The loop over the custom fields. *)
Fixpoint display_custom (fuel : nat) (b : list Z) (i address length : Z)
    : option (list display_line) :=
  match fuel with
  | O => None
  | S fuel =>
    if 0 <? length then
      c ← ld b address;
      if negb (c =? FRU_END_MARKER) then
        l ← fru_tl_get_length b address;
        let flen := 1 + l in
        '(data, address) ← fru_area_get_field_at_address b address (Some flen);
        lines ← display_custom fuel b (i + 1) address (length - flen);
        Some (LineField i data :: lines)
      else Some []
    else Some []
  end.

(** The lines printed for the image in [b]. *)
Definition display_mem (b : list Z) : option (list display_line) :=
  '(_, valres) ← ivfru_validate b true;
  len ← ld b (sizeof_CH + BIA_length);
  old ← fru_is_old_format b;
  let length := if negb old then len * 8 else len in
  v ← ld b (sizeof_CH + BIA_format_version);
  lang ← (if 2 <? length then
            l ← ld b (sizeof_CH + BIA_language_code); Some [LineLangCode l]
          else Some []);
  date ← (if 3 <? length then
            t0 ← ld b (sizeof_CH + BIA_mfg_date_time);
            t1 ← ld b (sizeof_CH + BIA_mfg_date_time + 1);
            t2 ← ld b (sizeof_CH + BIA_mfg_date_time + 2);
            '(day, _, _) ← ipmi_time_to_date t0 t1 t2; Some [LineMfgDate day]
          else Some []);
  '(fixed, address, rem) ← display_fixed 4 b 0 (sizeof_CH + BIA_variable) (length - sizeof_BIA);
  '(fileid, address, rem) ←
    (if 0 <? rem then
       flen ← fru_tl_get_length b address;
       next ← fru_next b address;
       Some ([LineFileIdLen flen], next, rem - (1 + flen))
     else Some ([], address, rem));
  custom ← display_custom (loop_fuel rem) b 1 address rem;
  let valid := Z.land valres VAL_RES_BIA_MASK =? VAL_RES_SUCCESS in
  internal ← ld b CH_internal_use_area;
  chassis ← ld b CH_chassis_info_area;
  product ← ld b CH_product_info_area;
  multi ← ld b CH_multirecord_area;
  let area (offset id : Z) := if negb (offset =? 0) then [LineAreaExists id] else [] in
  Some (display_validation_errors valres ++ [LineBiaLength length; LineBiaVersion v] ++ lang ++ date ++ fixed ++ fileid ++ custom ++
        [LineBiaValid valid] ++
        area internal CH_internal_use_area ++ area chassis CH_chassis_info_area ++
        area product CH_product_info_area ++ area multi CH_multirecord_area).

Section commands.
Context {W : Type} `{FruPlat W}.

(** [if(f(...) != IVFRU_RET_SUCCESS) return err;] followed by [k]. *)
Definition or_return {A} (m : M W ivfru_ret) (err : A) (k : M W A) : M W A :=
  r ← m; if bool_decide (r = IVFRU_RET_SUCCESS) then k else mret err.

(** [mem = ivfru_plat_get_buffer(); if(mem == NULL) return err;] followed by [k]. *)
Definition with_buffer {A} (err : A) (k : block -> M W A) : M W A :=
  mem ← ivfru_plat_get_buffer; match mem with Some p => k p | None => mret err end.

(** Reads from the board straight into the block [p] at [off]. *)
Definition read_board_into (board : ivfru_board) (p : block) (off offset size : Z) (quiet : bool)
    : M W ivfru_ret :=
  '(r, bytes) ← ivfru_plat_read_from_board board offset size quiet;
  _ ← mem_upd p (fun b => b ← wr_range b off bytes; Some (tt, b));
  mret r.

(** [ivfru_get_size_from_storage]: return code and [*size].  The two local
    structures are the bytes the platform returns for them. *)
Definition ivfru_get_size_from_storage (board : ivfru_board) : M W (ivfru_ret * Z) :=
  '(err, ch) ← ivfru_plat_read_from_board board 0 sizeof_CH true;
  if negb (bool_decide (err = IVFRU_RET_SUCCESS)) then mret (IVFRU_RET_IO_ERROR, 0) else
  o ← lift (ld ch CH_board_info_area);
  if o =? 0x00 then mret (IVFRU_RET_SUCCESS, sizeof_CH) else
  '(err, bia) ← ivfru_plat_read_from_board board sizeof_CH sizeof_BIA true;
  if negb (bool_decide (err = IVFRU_RET_SUCCESS)) then mret (IVFRU_RET_IO_ERROR, sizeof_CH) else
  l ← lift (ld bia BIA_length);
  mret (IVFRU_RET_SUCCESS, sizeof_CH + l * 8).

Definition ivfru_read (board : ivfru_board) (location : string) (quiet : bool) : M W ivfru_ret :=
  let read_len := sizeof_CH + sizeof_BIA in
  or_return (ivfru_plat_reserve_memory read_len) IVFRU_RET_MEM_ERROR (
  with_buffer IVFRU_RET_MEM_ERROR (fun mem =>
  or_return (read_board_into board mem 0 0 read_len quiet) IVFRU_RET_IO_ERROR (
  b ← mem_get mem;
  l ← lift (ld b (sizeof_CH + BIA_length));
  let rem_offset := sizeof_CH + sizeof_BIA in
  let rem_size := (if negb (l =? 0x40) then l * 8 else l) - sizeof_BIA in
  let read_len := read_len + rem_size in
  or_return (ivfru_plat_reserve_memory read_len) IVFRU_RET_MEM_ERROR (
  with_buffer IVFRU_RET_MEM_ERROR (fun mem =>
  or_return (read_board_into board mem rem_offset rem_offset rem_size quiet) IVFRU_RET_IO_ERROR (
  or_return (if negb quiet then ivfru_plat_set_image_size read_len else mret IVFRU_RET_SUCCESS)
    IVFRU_RET_MEM_ERROR (
  or_return (ivfru_plat_write_to_location location) IVFRU_RET_IO_ERROR (
  mret IVFRU_RET_SUCCESS)))))))).

Definition ivfru_write (board : ivfru_board) (location : string) : M W ivfru_ret :=
  or_return (ivfru_plat_read_from_location location) IVFRU_RET_IO_ERROR (
  with_buffer IVFRU_RET_MEM_ERROR (fun mem =>
  b ← mem_get mem;
  old ← lift (fru_is_old_format b);
  if (old : bool) then mret IVFRU_RET_FRU_OLD_FORMAT else
  '(v, _) ← lift (ivfru_validate b false);
  if negb (bool_decide (v = IVFRU_RET_SUCCESS)) then mret IVFRU_RET_INVALID_FRU_DATA else
  length ← lift (fru_get_total_length b);
  data ← lift (rd_range b 0 length);
  or_return (ivfru_plat_write_to_board board data) IVFRU_RET_IO_ERROR (
  or_return (ivfru_plat_set_image_size length) IVFRU_RET_MEM_ERROR (
  mret IVFRU_RET_SUCCESS)))).

(** The return code and the printed lines; the image size set is the area's. *)
Definition ivfru_display (location : string) : M W (ivfru_ret * list display_line) :=
  or_return (ivfru_plat_read_from_location location) (IVFRU_RET_IO_ERROR, []) (
  with_buffer (IVFRU_RET_MEM_ERROR, []) (fun mem =>
  b ← mem_get mem;
  _ ← lift (ivfru_validate b true);
  len ← lift (ld b (sizeof_CH + BIA_length));
  old ← lift (fru_is_old_format b);
  _ ← ivfru_plat_set_image_size (if negb old then len * 8 else len);
  lines ← lift (display_mem b);
  mret (IVFRU_RET_SUCCESS, lines))).

Definition ivfru_fix (location : string) : M W ivfru_ret :=
  or_return (ivfru_plat_read_from_location location) IVFRU_RET_IO_ERROR (
  with_buffer IVFRU_RET_MEM_ERROR (fun mem =>
  b ← mem_get mem;
  old ← lift (fru_is_old_format b);
  if negb old then mret IVFRU_RET_FRU_NEW_FORMAT else
  length ← mem_upd mem fix_mem;
  or_return (ivfru_plat_set_image_size length) IVFRU_RET_MEM_ERROR (
  or_return (ivfru_plat_write_to_location location) IVFRU_RET_IO_ERROR (
  mret IVFRU_RET_SUCCESS)))).

(** ["iVeia"] *)
Definition mfr_default : cstring := [105; 86; 101; 105; 97].

(** The total size before padding: both headers, the rows and the checksum. *)
Definition unpadded_size (rows : list frow) : option Z :=
  t ← sum_lengths rows (sizeof_CH + sizeof_BIA); i32 (t + 1).

Definition ivfru_xcreate (location : string) (mfgdate product : option cstring) (product_len : Z)
    (sn : option cstring) (sn_len : Z) (pn : option cstring) (pn_len : Z)
    (mfr : option cstring) (mfr_len : Z) : M W ivfru_ret :=
  match mfgdate, product, sn, pn with
  | Some mfgdate, Some product, Some sn, Some pn =>
    date ← lift (date2dmy mfgdate);
    match date with
    | inl _ => mret IVFRU_RET_INVALID_ARGUMENT
    | inr (day, month, year) =>
      let '(mfr, mfr_len) := match mfr with Some m => (m, mfr_len) | None => (mfr_default, 10) end in
      match resolve_lengths (fixed_rows mfr product sn pn mfr_len product_len sn_len pn_len) with
      | None => mret IVFRU_RET_INVALID_ARGUMENT
      | Some rows =>
        unpadded ← lift (unpadded_size rows);
        _ ← lift (i32 (unpadded + 7));
        let total_size := round8 unpadded in
        let pad_len := total_size - unpadded in
        or_return (ivfru_plat_reserve_memory total_size) IVFRU_RET_MEM_ERROR (
        with_buffer IVFRU_RET_MEM_ERROR (fun mem =>
        ret ← mem_upd mem (xcreate_mem rows day month year total_size pad_len);
        or_return (mret ret) IVFRU_RET_INVALID_ARGUMENT (
        or_return (ivfru_plat_set_image_size total_size) IVFRU_RET_MEM_ERROR (
        or_return (ivfru_plat_write_to_location location) IVFRU_RET_IO_ERROR (
        mret IVFRU_RET_SUCCESS)))))
      end
    end
  | _, _, _, _ => mret IVFRU_RET_INVALID_ARGUMENT
  end.

Definition ivfru_create (location : string) (mfgdate product sn pn mfr : option cstring) : M W ivfru_ret :=
  ivfru_xcreate location mfgdate product 16 sn 10 pn 15 mfr 10.

(** [ivfru_add].  [mem0] is the buffer before the reservation and [mem] the one
    after it; the pointers [address] and [end] are not recomputed and still point
    into [mem0]. *)
Definition ivfru_add (location : string) (index : Z) (data : list Z) (len : Z) : M W ivfru_ret :=
  or_return (ivfru_plat_read_from_location location) IVFRU_RET_IO_ERROR (
  with_buffer IVFRU_RET_MEM_ERROR (fun mem0 =>
  b ← mem_get mem0;
  old ← lift (fru_is_old_format b);
  if (old : bool) then mret IVFRU_RET_FRU_OLD_FORMAT else
  '(v, _) ← lift (ivfru_validate b false);
  if negb (bool_decide (v = IVFRU_RET_SUCCESS)) then mret IVFRU_RET_INVALID_FRU_DATA else
  located ← lift (add_locate b index data len);
  match located with
  | None => mret IVFRU_RET_INVALID_ARGUMENT
  | Some (field, address, end_, index) =>
    let used := (end_ - sizeof_CH) + zlen field + 1 in
    let bia_len := round8 used in
    or_return (ivfru_plat_reserve_memory (sizeof_CH + bia_len)) IVFRU_RET_MEM_ERROR (
    with_buffer IVFRU_RET_MEM_ERROR (fun mem =>
    let pad_len := bia_len - used in
    let address := if index <? 0 then end_ - 1 else address in
    _ ← mem_upd mem0 (fun b => b ← add_insert field address end_ pad_len b; Some (tt, b));
    let end_ := end_ + zlen field + pad_len in
    _ ← mem_upd mem (fun b => b ← st b (sizeof_CH + BIA_length) (bia_len `quot` 8); Some (tt, b));
    b ← mem_get mem;
    ck ← lift (fru_calculate_checksum b sizeof_CH (bia_len - 1));
    _ ← mem_upd mem0 (fun b => b ← st b end_ ck; Some (tt, b));
    or_return (ivfru_plat_set_image_size (bia_len + sizeof_CH)) IVFRU_RET_MEM_ERROR (
    or_return (ivfru_plat_write_to_location location) IVFRU_RET_IO_ERROR (
    mret IVFRU_RET_SUCCESS))))
  end)).

Definition ivfru_rm (location : string) (index : Z) : M W ivfru_ret :=
  or_return (ivfru_plat_read_from_location location) IVFRU_RET_IO_ERROR (
  with_buffer IVFRU_RET_MEM_ERROR (fun mem =>
  b ← mem_get mem;
  old ← lift (fru_is_old_format b);
  if (old : bool) then mret IVFRU_RET_FRU_OLD_FORMAT else
  '(v, _) ← lift (ivfru_validate b false);
  if negb (bool_decide (v = IVFRU_RET_SUCCESS)) then mret IVFRU_RET_INVALID_FRU_DATA else
  total_size ← mem_upd mem (rm_mem index);
  match total_size with
  | None => mret IVFRU_RET_INVALID_ARGUMENT
  | Some total_size =>
    or_return (ivfru_plat_set_image_size total_size) IVFRU_RET_MEM_ERROR (
    or_return (ivfru_plat_write_to_location location) IVFRU_RET_IO_ERROR (
    mret IVFRU_RET_SUCCESS))
  end)).

End commands.
