(* ===== verification/FruEdit.v ===== *)
(** * Adding and removing custom fields

    The in-memory parts of [ivfru_add] and [ivfru_rm] against the grammar of
    images: inserting and deleting one field of the list of custom fields. *)
From S2P Require Import Prelude FruField FruValidate FruPlat FruOps.

(** ** Specification *)

(** The field [ivfru_add] encodes from [data]. *)
Definition custom_field (data : list Z) : field := Field (0xC0 + zlen data) data.

(** Lengths the type-length byte can carry, and that do not make it the end marker. *)
Definition custom_len_ok (n : Z) : Prop := 0 <= n <= 63 /\ n <> 1.

(** Insertion at an index; a negative one, or one past the end, appends. *)
Definition insert_field (index : Z) (f : field) (fs : list field) : list field :=
  if index <? 0 then fs ++ [f]
  else take (Z.to_nat index) fs ++ f :: drop (Z.to_nat index) fs.

Definition delete_field (index : Z) (fs : list field) : list field :=
  take (Z.to_nat index) fs ++ drop (S (Z.to_nat index)) fs.

(** What follows the field at an index up to the end marker is longer than the field:
    the copy that removes it moves an area over itself. *)
Definition rm_overlaps (index : Z) (fs : list field) : bool :=
  match fs !! Z.to_nat index with
  | Some f => zlen (render_field f) <? zlen (render_fields (drop (S (Z.to_nat index)) fs)) + 1
  | None => false
  end.

(** Number of padding bytes that complete [n] bytes to a multiple of eight. *)
Definition pad8 (n : Z) : Z := round8 n - n.

Definition with_custom (fs : list field) (im : bia_image) : bia_image :=
  let size := 9 + zlen (render_fields (bi_predef im)) + zlen (render_fields fs) in
  BiaImage (bi_date im) (bi_predef im) fs (Z.to_nat (pad8 size)).

Lemma round8_spec n : 0 <= n -> n <= round8 n < n + 8 /\ round8 n `mod` 8 = 0.
Proof. intros. unfold round8. rewrite Z.quot_div_nonneg by lia. split; mlia. Qed.

Lemma pad8_bounds n : 0 <= n -> 0 <= pad8 n < 8.
Proof. intros Hn%round8_spec. unfold pad8. lia. Qed.

(** ** Lemmas: scanning *)

Lemma skip_fields_run fs : forall b a,
  Forall field_ok fs -> seg b a (render_fields fs) ->
  skip_fields (length fs) b a = Some (a + zlen (render_fields fs)).
Proof.
  induction fs as [|f fs IH]; intros b a Hok Hs; cbn [length skip_fields].
  - change (zlen (render_fields [])) with 0. res_lia.
  - inversion_clear Hok as [|? ? Hf Hfs].
    change (render_fields (f :: fs)) with (render_field f ++ render_fields fs) in *.
    apply seg_app in Hs as [Hs1 Hs2]. rewrite (fru_next_field _ _ f) by done. cbn [mbind option_bind].
    rewrite IH by done. zl. res_lia.
Qed.

Lemma goto_run fs : forall b a idx fuel c,
  Forall field_ok fs -> seg b a (render_fields fs) -> ld b (a + zlen (render_fields fs)) = Some c ->
  zlen fs <= idx \/ fs = [] -> c = FRU_END_MARKER \/ idx <= zlen fs -> (length fs < fuel)%nat ->
  goto_loop fuel b a idx = Some (a + zlen (render_fields fs), idx - zlen fs).
Proof.
  induction fs as [|f fs IH]; intros b a idx fuel c Hok Hs Hc Hi Hstop Hfuel;
    (destruct fuel as [|fuel]; [lia|]); cbn [goto_loop].
  - change (zlen (render_fields [])) with 0 in *. rewrite (ld_at _ _ _ _ Hc) by lia. cbn [mbind option_bind].
    rewrite (@zlen_nil field) in *. replace (negb (c =? FRU_END_MARKER) && (0 <? idx)) with false; [zl; res_lia|].
    destruct Hstop as [-> | Hle]; [done|]. rewrite (proj2 (Z.ltb_ge 0 idx)) by lia. by destruct (negb _).
  - inversion_clear Hok as [|? ? Hf Hfs]. destruct Hi as [Hi|]; [|done].
    change (render_fields (f :: fs)) with (render_field f ++ render_fields fs) in *.
    apply seg_app in Hs as [Hs1 Hs2]. pose proof Hf as (_ & Hm & _ & _).
    pose proof Hs1 as [Hc0 _]%seg_cons. rewrite Hc0. cbn [mbind option_bind]. zl.
    rewrite (proj2 (Z.eqb_neq _ _) Hm), (proj2 (Z.ltb_lt 0 idx)) by lia. cbn [negb andb].
    rewrite (fru_next_field _ _ f) by done. cbn [mbind option_bind].
    rewrite <- zlen_render_field in *. rewrite (IH _ _ _ _ c).
    + zl. res_lia.
    + done.
    + done.
    + eapply ld_at; [done|zl].
    + left. lia.
    + destruct Hstop; [by left|right; lia].
    + cbn [length] in Hfuel. lia.
Qed.

Lemma end_run fs : forall b a fuel,
  Forall field_ok fs -> seg b a (render_fields fs) -> ld b (a + zlen (render_fields fs)) = Some FRU_END_MARKER ->
  (length fs < fuel)%nat -> end_loop fuel b a = Some (a + zlen (render_fields fs)).
Proof.
  induction fs as [|f fs IH]; intros b a fuel Hok Hs Hc Hfuel;
    (destruct fuel as [|fuel]; [lia|]); cbn [end_loop].
  - change (zlen (render_fields [])) with 0 in *. rewrite (ld_at _ _ _ _ Hc) by lia. cbn. res_lia.
  - inversion_clear Hok as [|? ? Hf Hfs].
    change (render_fields (f :: fs)) with (render_field f ++ render_fields fs) in *.
    apply seg_app in Hs as [Hs1 Hs2]. pose proof Hf as (_ & Hm & _ & _).
    pose proof Hs1 as [Hc0 _]%seg_cons. rewrite Hc0. cbn [mbind option_bind].
    rewrite (proj2 (Z.eqb_neq _ _) Hm). cbn [negb].
    rewrite (fru_next_field _ _ f) by done. cbn [mbind option_bind].
    rewrite IH; [zl; res_lia|done|done|eapply ld_at; [done|zl]|cbn [length] in Hfuel; lia].
Qed.

Lemma scan_fuel_ok b a fs : seg b a (render_fields fs) -> (length fs < scan_fuel b)%nat.
Proof.
  intros [? Hb]%seg_bounds. pose proof (zlen_fields_le fs). unfold scan_fuel, zlen in *. lia.
Qed.

(** ** Lemmas: moving bytes *)

Lemma insert_mid {A} (pre : list A) x y post n :
  n = length pre -> <[n := y]> (pre ++ x :: post) = pre ++ y :: post.
Proof.
  intros ->. replace (length pre) with (length pre + 0)%nat by lia. by rewrite insert_app_r.
Qed.

Lemma shift_run mid : forall pre gap post t,
  Forall is_byte mid -> t = zlen pre + zlen mid - 1 ->
  exists g, zlen g = zlen gap /\
    shift_loop (length mid) (pre ++ mid ++ gap ++ post) t (zlen gap) = Some (pre ++ g ++ mid ++ post).
Proof.
  induction mid as [|x mid IH] using rev_ind; intros pre gap post t Hb ->.
  - exists gap. done.
  - apply Forall_app in Hb as [Hb Hx]. apply Forall_inv in Hx.
    rewrite length_app, Nat.add_comm. cbn [length Nat.add shift_loop].
    rewrite <- (assoc_L (++) mid), (assoc_L (++) pre mid). cbn [app].
    rewrite ld_mid by zl. cbn [mbind option_bind].
    assert (exists h y, x :: gap = h ++ [y] /\ zlen h = zlen gap) as (h & y & Hh & Hl).
    { destruct (exists_last (l := x :: gap)) as (h & y & Hh); [done|]. exists h, y. split; [done|].
      apply (f_equal zlen) in Hh. zl. }
    replace ((pre ++ mid) ++ x :: gap ++ post) with ((pre ++ mid ++ h) ++ y :: post).
    2:{ change (x :: gap ++ post) with ((x :: gap) ++ post). rewrite Hh.
        by rewrite <- !(assoc_L (++)). }
    rewrite st_mid by zl. cbn [mbind option_bind]. rewrite (u8_id x) by done.
    destruct (IH pre h (x :: post) (zlen pre + zlen (mid ++ [x]) - 1 - 1)) as (g & Hg & Hrun); [done|zl|].
    exists g. split; [lia|]. rewrite <- Hl, <- !(assoc_L (++)), Hrun. cbn [app]. done.
Qed.

(** A copy between disjoint areas moves a block down into the gap before it. *)
Lemma memcpy_run pre gap mid post d s n :
  d = zlen pre -> s = zlen pre + zlen gap -> n = zlen mid -> zlen mid <= zlen gap ->
  exists g, zlen g = zlen gap /\
    memcpy (pre ++ gap ++ mid ++ post) d s n = Some (pre ++ mid ++ g ++ post).
Proof.
  intros -> -> -> Hle. pose proof (zlen_nonneg mid).
  unfold memcpy. replace (disjoint_areas _ _ _) with true by (unfold disjoint_areas; lia).
  rewrite (assoc_L (++) pre gap), (rd_mid (pre ++ gap) mid post) by zl. cbn [mbind option_bind].
  destruct (split_at gap (zlen mid)) as (g1 & g2 & -> & Hg1); [lia|].
  exists (g2 ++ mid). split; [zl|].
  replace ((pre ++ g1 ++ g2) ++ mid ++ post) with (pre ++ g1 ++ (g2 ++ mid ++ post)) by by rewrite <- !(assoc_L (++)).
  rewrite wr_mid by (done || lia). by rewrite <- !(assoc_L (++)).
Qed.

Lemma memcpy_overlap b d s n : 0 < n -> d < s < d + n -> memcpy b d s n = None.
Proof. intros. unfold memcpy. by replace (disjoint_areas _ _ _) with false by (unfold disjoint_areas; lia). Qed.

(** ** Lemmas: images as concatenations *)

Lemma seg_0 b m : seg b 0 m -> exists tail, b = m ++ tail.
Proof. intros (pre & post & -> & Hl). destruct pre; [by exists post|zl]. Qed.

Lemma image_split b old len im :
  fru_image b old len im -> exists h tail, ch_ok old h /\ zlen h = 8 /\ b = h ++ render_bia len im ++ tail.
Proof.
  intros [(h & Hch & Hh) (Hok & Hs & Ht)]. pose proof (zlen_ch _ _ Hch) as Hl.
  assert (seg b 0 (h ++ render_bia len im)) as [tail ->]%seg_0.
  { apply seg_app. split; [done|]. by rewrite Hl. }
  exists h, tail. by rewrite <- (assoc_L (++)).
Qed.

Lemma image_join h old len im tail :
  ch_ok old h -> bia_ok im -> bia_total im = (if old then len else len * 8) ->
  fru_image (h ++ render_bia len im ++ tail) old len im.
Proof.
  intros Hch Hok Ht. pose proof (zlen_ch _ _ Hch) as Hl. split_and!; [|done| |done].
  - exists h. split; [done|]. by exists [], (render_bia len im ++ tail).
  - exists h, tail. done.
Qed.

(** The step that ends the three commands: length byte, then checksum. *)
Lemma finish_image h len im c tail len' n e :
  zlen h = 8 -> bia_ok im -> bia_total im = n -> e = 7 + n ->
  (b ← st (h ++ bia_body len im ++ c :: tail) (sizeof_CH + BIA_length) len';
   ck ← fru_calculate_checksum b sizeof_CH (n - 1);
   st b e ck) = Some (h ++ render_bia (u8 len') im ++ tail).
Proof.
  intros Hh Hok <- ->. pose proof (zlen_bia_body (u8 len') im Hok) as Hl.
  unfold sizeof_CH, BIA_length.
  replace (h ++ bia_body len im ++ c :: tail) with ((h ++ [1]) ++ len :: (drop 2 (bia_body len im) ++ c :: tail))
    by by rewrite <- (assoc_L (++)).
  rewrite st_mid by zl. cbn [mbind option_bind].
  replace ((h ++ [1]) ++ u8 len' :: (drop 2 (bia_body len im) ++ c :: tail))
    with (h ++ bia_body (u8 len') im ++ c :: tail) by by rewrite <- (assoc_L (++)).
  rewrite (checksum_seg _ _ (bia_body (u8 len') im)); [|by exists h, (c :: tail)|lia]. cbn [mbind option_bind].
  rewrite (assoc_L (++)), st_mid by zl. unfold cksum at 1.
  rewrite (u8_id (u8 _)) by apply u8_byte. unfold render_bia. by rewrite <- !(assoc_L (++)).
Qed.

(** ** Lemmas: the inserted field *)

Lemma tl_byte_type_11 n : custom_len_ok n -> fru_make_tl_byte n IVFRU_TLB_TYPE_11 = inr (0xC0 + n).
Proof.
  intros [Hn H1]. unfold fru_make_tl_byte.
  rewrite (proj2 (Z.ltb_ge 63 n)), (proj2 (Z.eqb_neq n 1)) by lia. f_equal.
  change (u8 (Z.shiftl (tlb_code IVFRU_TLB_TYPE_11) 6)) with (3 * 2 ^ 6).
  assert (Z.lor (3 * 2 ^ 6) n = 3 * 2 ^ 6 + n) as ->; [|apply u8_id; unfold is_byte; lia].
  rewrite <- (Z.add_0_r (Z.lor _ _)), <- (Z.add_lor_land (3 * 2 ^ 6) n). f_equal. symmetry.
  rewrite <- (Z.mod_small n (2 ^ 6)) by lia. rewrite <- Z.land_ones, (Z.land_comm n), Z.land_assoc by lia.
  rewrite Z.land_ones by lia. by rewrite Z.mod_mul.
Qed.

Lemma custom_field_ok data :
  custom_len_ok (zlen data) -> Forall is_byte data -> field_ok (custom_field data).
Proof.
  intros [Hn H1] Hb. unfold field_ok, custom_field, FRU_END_MARKER, is_byte. cbn [f_tl f_data].
  change 0x3F with (Z.ones 6). rewrite Z.land_ones by lia. change (2 ^ 6) with 64. split_and!; [lia|lia|lia|mlia|done].
Qed.

Lemma format_custom data :
  custom_len_ok (zlen data) ->
  fru_area_format_field (replicate (Z.to_nat (zlen data + 1)) 0) 0 (Some data) (zlen data) IVFRU_TLB_TYPE_11 =
    Some (IVFRU_RET_SUCCESS, render_field (custom_field data), 1 + zlen data).
Proof.
  intros Hok. pose proof Hok as [Hn _]. unfold fru_area_format_field. rewrite tl_byte_type_11 by done.
  replace (Z.to_nat (zlen data + 1)) with (S (length data)) by (unfold zlen; lia). cbn [replicate].
  pose proof (st_mid [] 0 (replicate (length data) 0) 0 (0xC0 + zlen data) eq_refl) as Hst.
  cbn [app] in Hst. rewrite Hst. cbn [mbind option_bind]. rewrite (u8_id (0xC0 + zlen data)) by (unfold is_byte; lia).
  replace (rd_range data 0 (zlen data)) with (Some data).
  2:{ symmetry. rewrite <- (app_nil_r data) at 1. by apply (rd_mid []). }
  cbn [mbind option_bind]. rewrite <- (app_nil_r (replicate _ _)).
  pose proof (wr_mid [0xC0 + zlen data] (replicate (length data) 0) [] (0 + 1) data) as Hwr.
  cbn [app] in Hwr. rewrite Hwr by (first [done | zl; unfold zlen; lia]).
  cbn [mbind option_bind]. rewrite app_nil_r. done.
Qed.

(** ** Lemmas: locating a custom field *)

Lemma zlen_firstn {A} (l : list A) n : zlen (take n l) = Z.min (Z.of_nat n) (zlen l).
Proof. unfold zlen. rewrite length_take. lia. Qed.

Definition custom_start (im : bia_image) : Z := 15 + zlen (render_fields (bi_predef im)).

Lemma render_take_drop n fs :
  render_fields fs = render_fields (take n fs) ++ render_fields (drop n fs).
Proof. by rewrite <- render_fields_app, take_drop. Qed.

(** The end of the scan of an area: where each loop stops. *)
Lemma scan_area b len im index :
  bia_ok im -> seg b sizeof_CH (render_bia len im) ->
  let fs1 := take (Z.to_nat index) (bi_custom im) in
  let a1 := custom_start im + zlen (render_fields fs1) in
  skip_fields 5 b (sizeof_CH + BIA_variable) = Some (custom_start im) /\
  goto_loop (scan_fuel b) b (custom_start im) index = Some (a1, index - zlen fs1) /\
  end_loop (scan_fuel b) b a1 = Some (custom_start im + zlen (render_fields (bi_custom im))).
Proof.
  intros Hok Hs fs1 a1. unfold sizeof_CH in Hs.
  destruct (render_bia_parts _ _ _ _ Hok Hs) as (_ & _ & _ & _ & Hp & _ & H0 & Hc & He & _).
  destruct Hok as (_ & _ & H4 & Hfp & Hfc).
  assert (Hc' : seg b (custom_start im) (render_fields (bi_custom im))).
  { eapply seg_at; [done|]. unfold custom_start. lia. }
  pose proof Hc' as Hsp. rewrite (render_take_drop (Z.to_nat index)) in Hsp. apply seg_app in Hsp as [Hs1 Hs2].
  fold fs1 in Hs1, Hs2. fold a1 in Hs2. set (fs2 := drop (Z.to_nat index) (bi_custom im)) in *.
  assert (Hfs : zlen (render_fields (bi_custom im)) = zlen (render_fields fs1) + zlen (render_fields fs2)).
  { rewrite (render_take_drop (Z.to_nat index) (bi_custom im)). fold fs1 fs2. zl. }
  assert (Hend : ld b (a1 + zlen (render_fields fs2)) = Some FRU_END_MARKER).
  { eapply ld_at; [exact He|]. unfold a1, custom_start. lia. }
  assert (Hfs1 : Forall field_ok fs1) by by apply Forall_take.
  assert (Hfs2 : Forall field_ok fs2) by by apply Forall_drop.
  split_and!.
  - change 5%nat with (4 + 1)%nat. rewrite <- H4.
    replace (length (bi_predef im) + 1)%nat with (length (bi_predef im ++ [file_id_field]))
      by by rewrite length_app.
    rewrite skip_fields_run.
    + unfold custom_start, sizeof_CH, BIA_variable. zl. change (zlen (f_data file_id_field)) with 0. change (zlen (render_fields [])) with 0. res_lia.
    + apply Forall_app. split; [done|]. constructor; [apply file_id_ok|done].
    + rewrite render_fields_app. apply seg_app. split; [done|]. apply seg_cons.
      split; [eapply ld_at; [exact H0|]; unfold sizeof_CH, BIA_variable; lia|].
      apply seg_nil. apply seg_bounds in Hc. unfold sizeof_CH, BIA_variable. zl.
  - destruct (ld_total b a1) as [c Hcc].
    { apply ld_bounds in Hend. apply seg_bounds in Hs2. zl. }
    apply (goto_run _ _ _ _ _ c); try done.
    + destruct (decide (index < 0)) as [Hn|Hn].
      * right. unfold fs1. by rewrite Z2Nat.nonpos by lia.
      * left. unfold fs1. rewrite zlen_firstn. lia.
    + destruct (decide (index <= zlen fs1)) as [Hle|Hgt]; [by right|left].
      assert (fs2 = []) as Hnil.
      { apply drop_ge. unfold fs1 in Hgt. rewrite zlen_firstn in Hgt. unfold zlen in Hgt. lia. }
      rewrite Hnil in Hend. rewrite (ld_at _ _ a1 _ Hend) in Hcc by (cbn; zl). congruence.
    + by eapply scan_fuel_ok.
  - rewrite (end_run fs2); [|done..|by eapply scan_fuel_ok]. unfold a1. res_lia.
Qed.

Lemma scan_custom b len im index :
  fru_image b false len im ->
  let fs1 := take (Z.to_nat index) (bi_custom im) in
  let a1 := custom_start im + zlen (render_fields fs1) in
  skip_fields 5 b (sizeof_CH + BIA_variable) = Some (custom_start im) /\
  goto_loop (scan_fuel b) b (custom_start im) index = Some (a1, index - zlen fs1) /\
  end_loop (scan_fuel b) b a1 = Some (custom_start im + zlen (render_fields (bi_custom im))).
Proof. intros (_ & Hok & Hs & _). by apply (scan_area _ len). Qed.

(** Two areas read from the same bytes have fields of the same size. *)
Lemma area_fields_size b len1 im1 len2 im2 :
  bia_ok im1 -> seg b sizeof_CH (render_bia len1 im1) -> bia_ok im2 -> seg b sizeof_CH (render_bia len2 im2) ->
  zlen (render_fields (bi_predef im1)) + zlen (render_fields (bi_custom im1)) =
  zlen (render_fields (bi_predef im2)) + zlen (render_fields (bi_custom im2)) /\ len1 = len2.
Proof.
  intros Hok1 Hs1 Hok2 Hs2.
  destruct (scan_area b len1 im1 0 Hok1 Hs1) as (Hk1 & _ & He1), (scan_area b len2 im2 0 Hok2 Hs2) as (Hk2 & _ & He2).
  rewrite Hk1 in Hk2. injection Hk2 as Hk2. change (Z.to_nat 0) with 0%nat in He1, He2. cbv zeta in He1, He2. rewrite !take_0 in He1, He2. rewrite Hk2, He2 in He1.
  destruct (render_bia_parts _ _ _ _ Hok1 Hs1) as (_ & Hl1 & _), (render_bia_parts _ _ _ _ Hok2 Hs2) as (_ & Hl2 & _).
  rewrite Hl1 in Hl2. unfold custom_start in *. split; [|congruence]. injection He1. lia.
Qed.

(** An area of more than 2040 bytes does not fit its length byte: its bytes are no
    image at all. *)
Lemma long_area_no_image h len im tail :
  ch_ok false h -> bia_ok im -> is_byte len ->
  2040 < 9 + zlen (render_fields (bi_predef im)) + zlen (render_fields (bi_custom im)) ->
  forall old len2 im2, ~ fru_image (h ++ render_bia len im ++ tail) old len2 im2.
Proof.
  intros Hch Hok Hb Hlong old len2 im2 [(h2 & Hch2 & Hs2) (Hok2 & Hs & Ht)].
  pose proof (zlen_ch _ _ Hch) as Hl. pose proof (zlen_ch _ _ Hch2) as Hl2.
  assert (h2 = h) as ->.
  { apply (seg_inj _ _ _ _ Hs2); [by exists [], (render_bia len im ++ tail)|lia]. }
  destruct old.
  { destruct Hch as (i & c & p & m & pd & ->). cbn in Hch2. discriminate. }
  assert (Hs1 : seg (h ++ render_bia len im ++ tail) sizeof_CH (render_bia len im)) by by exists h, tail.
  destruct (area_fields_size _ _ _ _ _ Hok Hs1 Hok2 Hs) as [Hz <-].
  unfold bia_total in Ht. unfold is_byte in Hb. lia.
Qed.

(** ** Lemmas: insertion *)

Lemma insert_field_split index f fs :
  exists fs1 fs2, fs = fs1 ++ fs2 /\ insert_field index f fs = fs1 ++ f :: fs2 /\
    fs1 = if index <? 0 then fs else take (Z.to_nat index) fs.
Proof.
  unfold insert_field. destruct (index <? 0).
  - exists fs, []. by rewrite app_nil_r.
  - eexists _, _. split_and!; [symmetry; apply take_drop|done|done].
Qed.

(** Room is made by moving the tail up, and the padding follows it. *)
Lemma add_insert_run pre mid rest fb pad address end_ :
  Forall is_byte mid -> address = zlen pre -> end_ = zlen pre + zlen mid -> 0 <= pad ->
  zlen fb + pad <= zlen rest ->
  exists tail, add_insert fb address end_ pad (pre ++ mid ++ rest) =
    Some (pre ++ fb ++ mid ++ replicate (Z.to_nat pad) 0 ++ tail) /\
    zlen tail = zlen rest - zlen fb - pad.
Proof.
  intros Hb -> -> Hp Hr. pose proof (zlen_nonneg fb).
  destruct (split_at rest (zlen fb)) as (gap & r1 & -> & Hg); [lia|].
  destruct (split_at r1 pad) as (padr & tail & -> & Hpl); [zl|].
  exists tail. split; [|zl]. unfold add_insert. rewrite <- Hg.
  replace (Z.to_nat (zlen pre + zlen mid - zlen pre)) with (length mid) by (unfold zlen; lia).
  destruct (shift_run mid pre gap (padr ++ tail) (zlen pre + zlen mid - 1)) as (g & Hgl & ->); [done..|].
  cbn [mbind option_bind]. rewrite wr_mid by (done || lia). cbn [mbind option_bind].
  replace (pre ++ fb ++ mid ++ padr ++ tail) with ((pre ++ fb ++ mid) ++ padr ++ tail)
    by by rewrite <- !(assoc_L (++)).
  rewrite memset_mid by zl. by rewrite <- !(assoc_L (++)).
Qed.

Lemma render_fields_bytes fs : Forall field_ok fs -> Forall is_byte (render_fields fs).
Proof.
  intros Hfs. induction Hfs as [|f fs Hf _ IH]; [constructor|].
  rewrite render_fields_cons. destruct Hf as (? & _ & _ & ?).
  constructor; [done|]. by apply Forall_app.
Qed.

Lemma with_custom_total fs im :
  bia_total (with_custom fs im) =
  round8 (9 + zlen (render_fields (bi_predef im)) + zlen (render_fields fs)).
Proof.
  unfold bia_total, with_custom. cbn [bi_predef bi_custom bi_pad].
  pose proof (zlen_nonneg (render_fields (bi_predef im))). pose proof (zlen_nonneg (render_fields fs)).
  pose proof (pad8_bounds (9 + zlen (render_fields (bi_predef im)) + zlen (render_fields fs)) ltac:(lia)).
  unfold pad8 in *. lia.
Qed.

Lemma render_bia_bytes len im : is_byte len -> bia_ok im -> Forall is_byte (render_bia len im).
Proof.
  intros Hl (_ & Hd & _ & Hp & Hc). unfold render_bia, bia_body, bia_head.
  apply Forall_app. split; [|constructor; [apply u8_byte|done]].
  assert (Hm : Forall is_byte [FRU_END_MARKER]) by by repeat constructor.
  assert (H0 : is_byte 0) by done. assert (H1 : is_byte 1) by done.
  repeat first [apply Forall_app_2|apply Forall_cons_2|apply Forall_nil_2|apply Forall_replicate|done|by apply render_fields_bytes].
Qed.

Lemma with_custom_ok fs im : bia_ok im -> Forall field_ok fs -> bia_ok (with_custom fs im).
Proof. intros (? & ? & ? & ? & ?) ?. done. Qed.

(** The length byte the commands compute. *)
Definition new_len (im : bia_image) : Z := bia_total im `quot` 8.

Lemma with_custom_len fs im :
  bia_total (with_custom fs im) <= 2040 ->
  is_byte (new_len (with_custom fs im)) /\
  bia_total (with_custom fs im) = new_len (with_custom fs im) * 8.
Proof.
  unfold new_len, is_byte. rewrite with_custom_total.
  pose proof (zlen_nonneg (render_fields (bi_predef im))). pose proof (zlen_nonneg (render_fields fs)).
  destruct (round8_spec (9 + zlen (render_fields (bi_predef im)) + zlen (render_fields fs))) as [? Hm]; [lia|].
  intros ?. rewrite Z.quot_div_nonneg by lia. split; mlia.
Qed.

(** The image up to its end marker. *)
Definition bia_core (len : Z) (im : bia_image) : list Z :=
  bia_head len im ++ 0 :: render_fields (bi_custom im) ++ [FRU_END_MARKER].

Lemma bia_body_core len im : bia_body len im = bia_core len im ++ replicate (bi_pad im) 0.
Proof. unfold bia_body, bia_core. repeat (rewrite <- (assoc_L (++)) || cbn [app]). done. Qed.

Lemma zlen_bia_core len im :
  bia_ok im -> zlen (bia_core len im) = 8 + zlen (render_fields (bi_predef im)) + zlen (render_fields (bi_custom im)).
Proof. intros (Hd & _). unfold bia_core, bia_head. zl. Qed.

(** [ivfru_add] on memory, when the block has not moved. *)
Lemma add_run h len im data index rest address end_ pad :
  let f := custom_field data in
  let im' := with_custom (insert_field index f (bi_custom im)) im in
  zlen h = 8 -> bia_ok im -> custom_len_ok (zlen data) -> Forall is_byte data ->
  bia_total im' <= zlen (bia_core len im ++ rest) ->
  end_ = 8 + zlen (bia_core len im) ->
  address = (if index <? 0 then end_ - 1
             else custom_start im + zlen (render_fields (take (Z.to_nat index) (bi_custom im)))) ->
  pad = bia_total im' - (zlen (bia_core len im) + zlen (render_field f) + 1) ->
  exists tail,
    (b ← add_insert (render_field f) address end_ pad (h ++ bia_core len im ++ rest);
     b ← st b (sizeof_CH + BIA_length) (new_len im');
     ck ← fru_calculate_checksum b sizeof_CH (bia_total im' - 1);
     st b (end_ + zlen (render_field f) + pad) ck) = Some (h ++ render_bia (u8 (new_len im')) im' ++ tail) /\
    zlen tail = zlen (bia_core len im ++ rest) - bia_total im'.
Proof.
  intros f im' Hh Hok Hlen Hd Hroom Hend Hadr Hpad.
  destruct (insert_field_split index f (bi_custom im)) as (fs1 & fs2 & Hfs & Hins & Hfs1).
  pose proof Hok as (_ & _ & _ & Hfp & Hfc). rewrite Hfs in Hfc. apply Forall_app in Hfc as [Hf1 Hf2].
  pose proof (custom_field_ok data Hlen Hd : field_ok f) as Hf.
  assert (Hok' : bia_ok im').
  { apply with_custom_ok; [done|]. rewrite Hins. apply Forall_app. split; [done|by constructor]. }
  set (mid := render_fields fs2 ++ [FRU_END_MARKER]).
  set (pre := h ++ bia_head len im ++ 0 :: render_fields fs1).
  assert (Hcore : h ++ bia_core len im ++ rest = pre ++ mid ++ rest).
  { unfold pre, mid, bia_core. rewrite Hfs, render_fields_app. repeat (rewrite <- (assoc_L (++)) || cbn [app]). done. }
  assert (Hpre : zlen pre = 8 + zlen (bia_core len im) - zlen mid).
  { rewrite zlen_bia_core by done. rewrite Hfs. unfold pre, mid, bia_head. destruct Hok as (Hdl & _). zl. }
  pose proof (zlen_bia_core len im Hok) as Hcl.
  assert (Hp8 : pad = Z.of_nat (bi_pad im')).
  { subst pad. unfold im' at 1. rewrite with_custom_total, Hcl.
    unfold im', with_custom. cbn [bi_pad]. rewrite Hins, Hfs.
    pose proof (zlen_nonneg (render_fields (bi_predef im))). pose proof (zlen_nonneg (render_fields (fs1 ++ f :: fs2))) as Hn.
    pose proof (pad8_bounds (9 + zlen (render_fields (bi_predef im)) + zlen (render_fields (fs1 ++ f :: fs2))) ltac:(lia)).
    unfold pad8 in *. rewrite Z2Nat.id by lia. zl. }
  destruct (add_insert_run pre mid rest (render_field f) pad address end_) as (tail & Hrun & Htail).
  - apply Forall_app. split; [by apply render_fields_bytes|]. by repeat constructor.
  - rewrite Hadr, Hend. destruct (Z.ltb_spec index 0); rewrite Hpre, Hcl; unfold mid.
    + rewrite Hfs1 in Hfs. rewrite <- (app_nil_r (bi_custom im)) in Hfs at 1.
      apply app_inv_head in Hfs as <-. change (render_fields []) with (@nil Z). zl.
    + rewrite <- Hfs1, Hfs. unfold custom_start. zl.
  - lia.
  - lia.
  - zl.
  - rewrite Hcore, Hrun. cbn [mbind option_bind].
    destruct tail as [|c tail].
    { exfalso. zl. }
    exists tail. split; [|zl].
    replace (pre ++ render_field f ++ mid ++ replicate (Z.to_nat pad) 0 ++ c :: tail)
      with (h ++ bia_body len im' ++ c :: tail).
    2:{ replace (Z.to_nat pad) with (bi_pad im') by lia. unfold pre, mid, bia_body, bia_head.
        change (bi_date im') with (bi_date im). change (bi_predef im') with (bi_predef im).
        replace (bi_custom im') with (fs1 ++ f :: fs2) by (symmetry; exact Hins).
        rewrite render_fields_app, render_fields_cons. unfold render_field.
        repeat (rewrite <- (assoc_L (++)) || cbn [app]). done. }
    apply finish_image; [done|done|done|]. lia.
Qed.

(** ** Lemmas: removal *)

Lemma delete_field_total index im len :
  bia_total im = len * 8 -> bia_total (with_custom (delete_field index (bi_custom im)) im) <= bia_total im.
Proof.
  intros Ht. rewrite with_custom_total. unfold delete_field. rewrite render_fields_app.
  set (k := Z.to_nat index).
  assert (zlen (render_fields (take k (bi_custom im)) ++ render_fields (drop (S k) (bi_custom im)))
          <= zlen (render_fields (bi_custom im))).
  { rewrite (render_take_drop k (bi_custom im)). replace (S k) with (k + 1)%nat by lia.
    rewrite <- drop_drop, (render_take_drop 1 (drop k (bi_custom im))). zl. }
  pose proof (zlen_nonneg (render_fields (bi_predef im))).
  set (x := zlen (_ ++ _)) in *. assert (0 <= x) by apply zlen_nonneg.
  unfold bia_total in *. set (n := 9 + zlen (render_fields (bi_predef im)) + x).
  destruct (round8_spec n); [lia|]. mlia.
Qed.

(** An image up to its end marker, and what follows. *)
Lemma image_core b len im :
  fru_image b false len im ->
  exists h rest, ch_ok false h /\ zlen h = 8 /\ b = h ++ bia_core len im ++ rest /\
    Z.of_nat (bi_pad im) + 1 <= zlen rest.
Proof.
  intros (h & tail & Hch & Hh & ->)%image_split.
  exists h, (replicate (bi_pad im) 0 ++ cksum (bia_body len im) :: tail). split_and!; [done..| |zl].
  unfold render_bia. rewrite bia_body_core at 1. by rewrite <- !(assoc_L (++)).
Qed.

(** The bytes around the field at [index]. *)
Lemma core_split_field len im index f h rest :
  bi_custom im !! Z.to_nat index = Some f ->
  h ++ bia_core len im ++ rest =
    (h ++ bia_head len im ++ 0 :: render_fields (take (Z.to_nat index) (bi_custom im))) ++ render_field f ++
    (render_fields (drop (S (Z.to_nat index)) (bi_custom im)) ++ [FRU_END_MARKER]) ++ rest.
Proof.
  intros Hf. unfold bia_core. rewrite <- (take_drop_middle _ _ _ Hf) at 1.
  rewrite render_fields_app, render_fields_cons. unfold render_field.
  repeat (rewrite <- (assoc_L (++)) || cbn [app]). done.
Qed.

(** Sizes around a removed field. *)
Lemma rm_sizes h len im index f :
  zlen h = 8 -> zlen (bi_date im) = 3 -> bi_custom im !! Z.to_nat index = Some f ->
  let pre := h ++ bia_head len im ++ 0 :: render_fields (take (Z.to_nat index) (bi_custom im)) in
  let mid := render_fields (drop (S (Z.to_nat index)) (bi_custom im)) ++ [FRU_END_MARKER] in
  let left := zlen (render_fields (delete_field index (bi_custom im))) in
  zlen pre = custom_start im + zlen (render_fields (take (Z.to_nat index) (bi_custom im))) /\
  zlen pre + zlen mid = 16 + zlen (render_fields (bi_predef im)) + left /\
  zlen (render_fields (bi_custom im)) = left + zlen (render_field f).
Proof.
  intros Hh Hd Hf pre mid left. pose proof (take_drop_middle _ _ _ Hf) as Hsp.
  assert (Hpre : zlen pre = custom_start im + zlen (render_fields (take (Z.to_nat index) (bi_custom im)))).
  { unfold pre, bia_head, custom_start. zl. }
  split; [done|]. unfold left. split.
  - rewrite Hpre. unfold custom_start, mid, delete_field. zl.
  - rewrite <- Hsp at 1. unfold delete_field. zl.
Qed.

(** Moving the tail down, clearing the padding and finishing the area. *)
Lemma rm_tail_run h len im index f rest :
  let pre := h ++ bia_head len im ++ 0 :: render_fields (take (Z.to_nat index) (bi_custom im)) in
  let mid := render_fields (drop (S (Z.to_nat index)) (bi_custom im)) ++ [FRU_END_MARKER] in
  let im' := with_custom (delete_field index (bi_custom im)) im in
  let pad := Z.of_nat (bi_pad im') in
  zlen h = 8 -> bia_ok im' -> is_byte (new_len im') -> zlen mid <= zlen (render_field f) ->
  zlen pre + zlen mid = 16 + zlen (render_fields (bi_predef im)) + zlen (render_fields (bi_custom im')) ->
  pad + 1 <= zlen (render_field f) + zlen rest ->
  exists tail,
    (b ← memcpy (pre ++ render_field f ++ mid ++ rest) (zlen pre) (zlen pre + zlen (render_field f)) (zlen mid);
     b ← memset b (zlen pre + zlen mid) 0 pad;
     b ← st b (sizeof_CH + BIA_length) (new_len im');
     ck ← fru_calculate_checksum b sizeof_CH (bia_total im' - 1);
     st b (zlen pre + zlen mid + pad) ck) = Some (h ++ render_bia (new_len im') im' ++ tail).
Proof.
  intros pre mid im' pad Hh Hok' Hby Hmid Hpm Hpad.
  destruct (memcpy_run pre (render_field f) mid rest (zlen pre) (zlen pre + zlen (render_field f)) (zlen mid))
    as (g & Hg & ->); [done..|]. cbn [mbind option_bind].
  destruct (split_at (g ++ rest) pad) as (padr & r & Hr & Hpl); [zl|]. rewrite Hr.
  assert (0 < zlen r) as Hrl. { apply (f_equal zlen) in Hr. zl. }
  destruct r as [|c tail]; [zl|]. exists tail.
  rewrite (assoc_L (++)), memset_mid by zl. cbn [mbind option_bind].
  replace ((pre ++ mid) ++ replicate (Z.to_nat pad) (u8 0) ++ c :: tail) with (h ++ bia_body len im' ++ c :: tail).
  2:{ unfold pad. rewrite Nat2Z.id. unfold pre, mid, bia_body, bia_head.
      change (bi_date im') with (bi_date im). change (bi_predef im') with (bi_predef im).
      change (bi_custom im') with (delete_field index (bi_custom im)). unfold delete_field.
      rewrite render_fields_app. repeat (rewrite <- (assoc_L (++)) || cbn [app]). done. }
  rewrite <- (u8_id (new_len im')) at 2 by done. apply finish_image; try done. rewrite Hpm. unfold bia_total.
  change (bi_predef im') with (bi_predef im). lia.
Qed.

(** Removal up to the copy: the field at [index] is found. *)
Lemma rm_located b len im index f :
  fru_image b false len im -> 0 <= index -> bi_custom im !! Z.to_nat index = Some f ->
  let a := custom_start im + zlen (render_fields (take (Z.to_nat index) (bi_custom im))) in
  let n := zlen (render_field f) in
  let e := custom_start im + zlen (render_fields (bi_custom im)) + 1 in
  let bia_len := round8 (e - n - sizeof_CH + 1) in
  let pad_len := bia_len - (e - n - sizeof_CH + 1) in
  rm_mem index b =
    (b ← memcpy b a (a + n) (e - a - n);
     b ← memset b (e - n) 0 pad_len;
     b ← st b (sizeof_CH + BIA_length) (bia_len `quot` 8);
     ck ← fru_calculate_checksum b sizeof_CH (bia_len - 1);
     b ← st b (e - n + pad_len) ck;
     Some (Some (bia_len + sizeof_CH), b)).
Proof.
  intros Him Hi Hf a n e bia_len pad_len. destruct (scan_custom b len im index Him) as (Hskip & Hgoto & Hend).
  destruct (image_core _ _ _ Him) as (h & rest & Hch & Hh & Hb & Hrest).
  pose proof Him as (_ & Hok & _ & _). pose proof Hok as (Hdl & _ & _ & _ & Hfc).
  rewrite (core_split_field len im index f h rest Hf) in Hb.
  destruct (rm_sizes h len im index f Hh Hdl Hf) as (Hpre & _ & _).
  assert (Hfo : field_ok f) by by eapply Forall_lookup_1. pose proof Hfo as (_ & Hm & _ & _).
  assert (Hseg : seg b a (render_field f)) by (rewrite Hb; by eexists _, _).
  apply lookup_lt_Some in Hf.
  assert (Hidx : zlen (take (Z.to_nat index) (bi_custom im)) = index) by (rewrite zlen_firstn; unfold zlen; lia).
  rewrite Hidx, Z.sub_diag in Hgoto. pose proof Hseg as [Hc _]%seg_cons. fold a in Hgoto, Hend.
  unfold rm_mem. rewrite Hskip. cbn [mbind option_bind]. rewrite Hgoto. cbn [mbind option_bind Z.eqb negb].
  rewrite Hc. cbn [mbind option_bind]. rewrite (proj2 (Z.eqb_neq _ _) Hm).
  rewrite (tl_get_length_field _ _ f) by done. cbn [mbind option_bind]. rewrite Hend. cbn [mbind option_bind].
  replace (zlen (f_data f) + 1) with n by (unfold n; zl). done.
Qed.

(** The bytes the removal copies, and the room they are copied over. *)
Lemma rm_room im index f :
  bi_custom im !! Z.to_nat index = Some f ->
  let fs := bi_custom im in
  let tail := zlen (render_fields (drop (S (Z.to_nat index)) fs)) + 1 in
  custom_start im + zlen (render_fields fs) + 1 -
    (custom_start im + zlen (render_fields (take (Z.to_nat index) fs))) - zlen (render_field f) = tail /\
  rm_overlaps index fs = (zlen (render_field f) <? tail).
Proof.
  intros Hf fs tail. split; [|unfold rm_overlaps, fs; by rewrite Hf].
  assert (zlen (render_fields fs) = zlen (render_fields (take (Z.to_nat index) fs)) + zlen (render_field f) + tail - 1) as ->; [|lia].
  unfold tail. rewrite <- (take_drop_middle fs _ _ Hf) at 1. zl.
Qed.

(** A removal that copies an area over itself is undefined. *)
Lemma rm_overlap_run b len im index :
  fru_image b false len im -> 0 <= index -> rm_overlaps index (bi_custom im) = true -> rm_mem index b = None.
Proof.
  intros Him Hi Ho. pose proof Ho as Ho'. unfold rm_overlaps in Ho'.
  destruct (bi_custom im !! Z.to_nat index) as [f|] eqn:Hf; [|done].
  rewrite (rm_located b len im index f) by done. destruct (rm_room im index f Hf) as [-> Hov].
  rewrite memcpy_overlap; [done|pose proof (zlen_nonneg (render_fields (drop (S (Z.to_nat index)) (bi_custom im)))); lia|].
  split; [zl|lia].
Qed.

Lemma rm_run b len im index :
  fru_image b false len im -> is_byte len -> 0 <= index < zlen (bi_custom im) ->
  rm_overlaps index (bi_custom im) = false ->
  let im' := with_custom (delete_field index (bi_custom im)) im in
  exists h tail, ch_ok false h /\ seg b 0 h /\
    rm_mem index b = Some (Some (8 + bia_total im'), h ++ render_bia (new_len im') im' ++ tail) /\
    bia_ok im' /\ bia_total im' = new_len im' * 8 /\ is_byte (new_len im').
Proof.
  intros Him Hby Hi Ho im'. destruct (image_core _ _ _ Him) as (h & rest & Hch & Hh & Hb & Hrest).
  pose proof Him as (_ & Hok & _ & Ht). pose proof Hok as (Hdl & _ & _ & _ & Hfc).
  destruct (lookup_lt_is_Some_2 (bi_custom im) (Z.to_nat index)) as [f Hf]; [unfold zlen in Hi; lia|].
  pose proof Hb as Hb'. rewrite (core_split_field len im index f h rest Hf) in Hb.
  assert (Hok' : bia_ok im').
  { apply with_custom_ok; [done|]. apply Forall_app. split; [by apply Forall_take|by apply Forall_drop]. }
  assert (Hle : bia_total im' <= bia_total im) by by eapply delete_field_total.
  assert (Hmax : bia_total im' <= 2040) by (unfold is_byte in Hby; lia).
  pose proof (with_custom_len _ _ Hmax) as [Hby' Hmul]. fold im' in Hby', Hmul.
  destruct (rm_sizes h len im index f Hh Hdl Hf) as (Hpre & Hpm & Hsz). destruct (rm_room im index f Hf) as [Hroom Hov].
  pose proof (rm_tail_run h len im index f rest Hh Hok' Hby') as Hrun. cbv zeta in Hrun. fold im' in Hrun.
  change (delete_field index (bi_custom im)) with (bi_custom im') in Hpm, Hsz.
  exists h. rewrite (rm_located b len im index f) by (done || lia). rewrite Hroom.
  set (p := zlen (render_fields (bi_predef im))) in *.
  set (pre := h ++ bia_head len im ++ 0 :: render_fields (take (Z.to_nat index) (bi_custom im))) in *.
  set (mid := render_fields (drop (S (Z.to_nat index)) (bi_custom im)) ++ [FRU_END_MARKER]) in *.
  assert (Hm : zlen (render_fields (drop (S (Z.to_nat index)) (bi_custom im))) + 1 = zlen mid) by (unfold mid; zl).
  rewrite Hov in Ho. rewrite Hm in *. destruct Hrun as [tail Hrun]; [lia|done| |].
  { unfold bia_total in *. change (bi_predef im') with (bi_predef im) in *. fold p in Hle. lia. }
  exists tail. split; [done|]. split; [rewrite Hb'; by exists [], (bia_core len im ++ rest)|]. split; [|done].
  rewrite <- Hpre. set (e := custom_start im + zlen (render_fields (bi_custom im)) + 1).
  assert (He : e - zlen (render_field f) = zlen pre + zlen mid) by (unfold e, custom_start; fold p; lia).
  rewrite He. replace (zlen pre + zlen mid - sizeof_CH + 1) with (9 + p + zlen (render_fields (bi_custom im')))
    by (unfold sizeof_CH; lia).
  replace (round8 (9 + p + zlen (render_fields (bi_custom im')))) with (bia_total im')
    by exact (with_custom_total _ _).
  replace (bia_total im' - (9 + p + zlen (render_fields (bi_custom im')))) with (Z.of_nat (bi_pad im'))
    by (unfold bia_total; change (bi_predef im') with (bi_predef im); fold p; lia).
  change (bia_total im' `quot` 8) with (new_len im'). subst b.
  repeat (bind_in Hrun; cbn [mbind option_bind]). rewrite Hrun. cbn [mbind option_bind].
  do 3 f_equal. unfold sizeof_CH. lia.
Qed.

(** An index without a custom field leaves the image alone. *)
Lemma rm_bad_index b len im index :
  fru_image b false len im -> ~ 0 <= index < zlen (bi_custom im) -> rm_mem index b = Some (None, b).
Proof.
  intros Him Hi. destruct (scan_custom b len im index Him) as (Hskip & Hgoto & _).
  unfold rm_mem. rewrite Hskip. cbn [mbind option_bind]. rewrite Hgoto. cbn [mbind option_bind].
  rewrite zlen_firstn. destruct (Z.eqb_spec (index - Z.of_nat (Z.to_nat index) `min` zlen (bi_custom im)) 0) as [E|]; [|done].
  cbn [negb]. pose proof (zlen_nonneg (bi_custom im)).
  assert (index = zlen (bi_custom im)) as -> by lia.
  rewrite firstn_all2 by (unfold zlen; lia).
  destruct Him as (_ & Hok & Hs & _). destruct (render_bia_parts _ _ _ _ Hok Hs) as (_ & _ & _ & _ & _ & _ & _ & _ & He & _).
  rewrite (ld_at _ _ _ _ He) by (unfold custom_start, sizeof_CH; lia). done.
Qed.

Lemma add_locate_run b len im index data :
  fru_image b false len im -> custom_len_ok (zlen data) ->
  let fs1 := take (Z.to_nat index) (bi_custom im) in
  add_locate b index data (zlen data) =
    Some (Some (render_field (custom_field data), custom_start im + zlen (render_fields fs1),
                8 + zlen (bia_core len im), index - zlen fs1)).
Proof.
  intros Him Hd fs1. destruct (scan_custom b len im index Him) as (Hskip & Hgoto & Hend).
  unfold add_locate. rewrite format_custom by done. cbn [mbind option_bind].
  rewrite Hskip. cbn [mbind option_bind]. rewrite Hgoto. cbn [mbind option_bind]. rewrite Hend. cbn [mbind option_bind].
  destruct Him as (_ & Hok & _). rewrite zlen_bia_core by done. unfold custom_start. fold fs1.
  do 2 f_equal. f_equal. f_equal. lia.
Qed.

(** Removing what was inserted gives the fields back. *)
Lemma delete_insert_field index f fs :
  0 <= index <= zlen fs -> delete_field index (insert_field index f fs) = fs.
Proof.
  intros H. unfold delete_field, insert_field. rewrite (proj2 (Z.ltb_ge index 0)) by lia.
  set (n := Z.to_nat index). assert (length (take n fs) = n) by (rewrite length_take; unfold zlen in H; lia).
  rewrite take_app_length' by done.
  replace (take n fs ++ f :: drop n fs) with ((take n fs ++ [f]) ++ drop n fs) by by rewrite <- (assoc_L (++)).
  rewrite drop_app_length'; [apply take_drop|]. rewrite length_app. cbn. lia.
Qed.
