(* ===== verification/FruCreate.v ===== *)
(** * Creating and converting images

    The in-memory parts of [ivfru_xcreate] and [ivfru_fix] against the grammar of
    images: what they build is an image of the new format. *)
From S2P Require Import Prelude FruField FruValidate FruDate FruPlat FruOps FruEdit.

(** ** Specification *)

(** A string in a field of [n] characters. *)
Definition space_pad (s : list Z) (n : Z) : list Z := s ++ replicate (Z.to_nat (n - zlen s)) 32.

(** A named field: its string and its resolved length. *)
Definition named_ok (p : list Z * Z) : Prop :=
  custom_len_ok (snd p) /\ 0 < snd p /\ zlen (fst p) <= snd p /\ Forall is_byte (fst p).

Definition named_row (p : list Z * Z) : frow := Frow (Some (fst p)) IVFRU_TLB_TYPE_11 (snd p).
Definition named_field (p : list Z * Z) : field := custom_field (space_pad (fst p) (snd p)).

(** The rows [ivfru_xcreate] formats for its four named fields. *)
Definition create_rows (named : list (list Z * Z)) : list frow :=
  (named_row <$> named) ++ [Frow (Some []) IVFRU_TLB_TYPE_UNSPECIFIED 0; Frow None IVFRU_TLB_TYPE_11 0].

Definition created (date : list Z) (named : list (list Z * Z)) : bia_image :=
  with_custom [] (BiaImage date (named_field <$> named) [] 0).

(** ** Lemmas: appending to the initialised part of a buffer *)

Lemma st_app d rest v a :
  a = zlen d -> 0 < zlen rest ->
  exists rest', st (d ++ rest) a v = Some ((d ++ [u8 v]) ++ rest') /\ zlen rest' = zlen rest - 1.
Proof.
  intros -> Hr. destruct rest as [|x rest]; [zl|]. exists rest.
  rewrite st_mid by done. split; [by rewrite <- (assoc_L (++))|zl].
Qed.

Lemma wr_app d rest src a :
  a = zlen d -> zlen src <= zlen rest ->
  exists rest', wr_range (d ++ rest) a src = Some ((d ++ src) ++ rest') /\ zlen rest' = zlen rest - zlen src.
Proof.
  intros -> Hr. pose proof (zlen_nonneg src). destruct (split_at rest (zlen src)) as (gap & r & -> & Hg); [lia|].
  exists r. rewrite wr_mid by done. split; [by rewrite <- (assoc_L (++))|zl].
Qed.

Lemma memset_app d rest n a :
  a = zlen d -> 0 <= n <= zlen rest ->
  exists rest', memset (d ++ rest) a 0 n = Some ((d ++ replicate (Z.to_nat n) 0) ++ rest') /\
    zlen rest' = zlen rest - n.
Proof.
  intros -> Hn. destruct (split_at rest n) as (gap & r & -> & Hg); [lia|].
  exists r. rewrite memset_mid by done. split; [by rewrite <- (assoc_L (++))|zl].
Qed.

(** ** Lemmas: formatting *)

Lemma zlen_space_pad s n : zlen s <= n -> zlen (space_pad s n) = n.
Proof. intros H. unfold space_pad. zl. Qed.

Lemma space_pad_bytes s n : Forall is_byte s -> Forall is_byte (space_pad s n).
Proof.
  intros H. apply Forall_app. split; [done|]. apply Forall_replicate. unfold is_byte. lia.
Qed.

Lemma named_field_ok p : named_ok p -> field_ok (named_field p).
Proof.
  intros (Hl & _ & Hs & Hb). apply custom_field_ok; [by rewrite zlen_space_pad|by apply space_pad_bytes].
Qed.

Lemma zlen_named p : named_ok p -> zlen (render_field (named_field p)) = 1 + snd p.
Proof. intros (_ & _ & Hs & _). zl. cbn. by rewrite zlen_space_pad. Qed.

(** The field built on the stack. *)
Lemma stack_field s n : zlen s <= n -> wr_range (replicate (Z.to_nat n) 32) 0 s = Some (space_pad s n).
Proof.
  intros H. pose proof (zlen_nonneg s). unfold space_pad.
  replace (Z.to_nat n) with (length s + Z.to_nat (n - zlen s))%nat by (unfold zlen in *; lia).
  rewrite replicate_add. apply (wr_mid []); [done|]. by zl.
Qed.

Lemma format_named d rest p a :
  named_ok p -> a = zlen d -> 1 + snd p <= zlen rest ->
  exists rest', fru_area_format_field (d ++ rest) a (Some (space_pad (fst p) (snd p))) (snd p) IVFRU_TLB_TYPE_11 =
      Some (IVFRU_RET_SUCCESS, (d ++ render_field (named_field p)) ++ rest', a + 1 + snd p) /\
    zlen rest' = zlen rest - (1 + snd p).
Proof.
  intros (Hl & Hpos & Hs & Hb) Ha Hr. pose proof (zlen_space_pad _ _ Hs) as Hz.
  unfold fru_area_format_field. rewrite tl_byte_type_11 by done.
  destruct (st_app d rest (0xC0 + snd p) a) as (r1 & -> & H1); [done|lia|]. cbn [mbind option_bind].
  replace (rd_range (space_pad (fst p) (snd p)) 0 (snd p)) with (Some (space_pad (fst p) (snd p))).
  2:{ symmetry. rewrite <- (app_nil_r (space_pad _ _)) at 1. by apply (rd_mid []). }
  cbn [mbind option_bind].
  destruct (wr_app (d ++ [u8 (0xC0 + snd p)]) r1 (space_pad (fst p) (snd p)) (a + 1)) as (r2 & -> & H2);
    [zl|lia|]. cbn [mbind option_bind].
  exists r2. split; [|lia]. do 4 f_equal. rewrite <- (assoc_L (++)). unfold render_field, named_field, custom_field.
  cbn [f_tl f_data app]. rewrite Hz, u8_id; [done|]. destruct Hl. unfold is_byte. lia.
Qed.

Lemma format_named_rows named : forall d rest a rows,
  Forall named_ok named -> a = zlen d -> zlen (render_fields (named_field <$> named)) <= zlen rest ->
  exists rest',
    format_rows (d ++ rest) a ((named_row <$> named) ++ rows) =
      format_rows ((d ++ render_fields (named_field <$> named)) ++ rest')
        (a + zlen (render_fields (named_field <$> named))) rows /\
    zlen rest' = zlen rest - zlen (render_fields (named_field <$> named)).
Proof.
  induction named as [|p named IH]; intros d rest a rows Hok Ha Hr.
  - exists rest. change (render_fields _) with (@nil Z). rewrite zlen_nil, app_nil_r, Z.add_0_r. split; [done|lia].
  - inversion_clear Hok as [|? ? Hp Hps].
    change (render_fields (named_field <$> p :: named))
      with (render_field (named_field p) ++ render_fields (named_field <$> named)) in *.
    rewrite zlen_app, zlen_named in * by done.
    pose proof (zlen_nonneg (render_fields (named_field <$> named))).
    destruct (format_named d rest p a) as (r1 & Hf & H1); [done..|lia|].
    cbn [fmap list_fmap app format_rows fr_len fr_str fr_type named_row default].
    pose proof Hp as (_ & Hpos & Hs & _). rewrite (proj2 (Z.ltb_lt _ _) Hpos), stack_field by done.
    cbn [mbind option_bind]. unfold id. rewrite Hf. cbn [mbind option_bind].
    destruct (IH (d ++ render_field (named_field p)) r1 (a + 1 + snd p) rows) as (r2 & -> & H2);
      [done| rewrite zlen_app, zlen_named by done; lia|lia|].
    exists r2. rewrite (assoc_L (++)). split; [|lia]. f_equal. lia.
Qed.

(** The empty FRU File ID and the end marker. *)
Lemma format_tail d rest a :
  a = zlen d -> 2 <= zlen rest ->
  exists rest',
    format_rows (d ++ rest) a [Frow (Some []) IVFRU_TLB_TYPE_UNSPECIFIED 0; Frow None IVFRU_TLB_TYPE_11 0] =
      Some (IVFRU_RET_SUCCESS, (d ++ [0; FRU_END_MARKER]) ++ rest', a + 2) /\
    zlen rest' = zlen rest - 2.
Proof.
  intros Ha Hr. destruct rest as [|x [|y rest]]; [zl..|]. exists rest.
  cbn [format_rows fr_len fr_str fr_type Z.ltb Z.compare fmap option_fmap option_map app].
  unfold fru_area_format_field. cbn [tlb_code].
  change (fru_make_tl_byte 3 IVFRU_TLB_TYPE_UNSPECIFIED) with (@inr ivfru_ret Z 3).
  change (fru_make_tl_byte 0 IVFRU_TLB_TYPE_UNSPECIFIED) with (@inr ivfru_ret Z 0).
  cbv beta iota. rewrite st_mid by done. cbn [mbind option_bind]. change (u8 0) with 0.
  change (rd_range [0] 0 0) with (Some (@nil Z)). cbn [mbind option_bind].
  change (d ++ 0 :: y :: rest) with (d ++ [0] ++ [] ++ y :: rest). rewrite (assoc_L (++)).
  rewrite wr_mid by (first [done | zl]). cbn [mbind option_bind app].
  rewrite st_mid by zl. cbn [mbind option_bind]. change (u8 FRU_END_MARKER) with FRU_END_MARKER.
  split; [|zl]. res_lia || (rewrite <- !(assoc_L (++)); do 2 f_equal; lia).
Qed.

(** ** Lemmas: the whole image *)

Lemma date_bytes d m y t : date_to_ipmi_time d m y = Some (inr t) -> zlen t = 3 /\ Forall is_byte t.
Proof.
  unfold date_to_ipmi_time. case_if; [done|]. destruct (year_loop _ _ _ _) as [x l].
  intros H. bind_in H. case_if_in H; [done|]. injection H as <-. rewrite time_bytes_eq.
  split; [done|]. repeat constructor; apply Z.mod_pos_bound; lia.
Qed.

Lemma round8_add8 x : 0 <= x -> round8 (x + 8) = round8 x + 8.
Proof. intros H. unfold round8. rewrite !Z.quot_div_nonneg by lia. mlia. Qed.

Lemma created_ok t named :
  zlen t = 3 -> Forall is_byte t -> length named = 4%nat -> Forall named_ok named -> bia_ok (created t named).
Proof.
  intros Ht Hb Hn Hok. apply with_custom_ok; [|constructor].
  split_and!; cbn; [done..|by rewrite length_fmap| |constructor].
  apply Forall_fmap. eapply Forall_impl; [done|]. apply named_field_ok.
Qed.

Lemma named_size named :
  Forall named_ok named -> zlen (render_fields (named_field <$> named)) <= 64 * zlen named.
Proof.
  intros Hok. induction Hok as [|p named Hp _ IH]; [reflexivity|].
  change (render_fields (named_field <$> p :: named))
    with (render_field (named_field p) ++ render_fields (named_field <$> named)).
  rewrite zlen_app, zlen_named, zlen_cons by done. destruct Hp as ((Hl & _) & _). lia.
Qed.

Lemma sum_named named : forall rows t,
  Forall named_ok named -> 0 <= t -> t + 64 * zlen named < 2 ^ 31 ->
  sum_lengths ((named_row <$> named) ++ rows) t =
  sum_lengths rows (t + zlen (render_fields (named_field <$> named))).
Proof.
  induction named as [|p named IH]; intros rows t Hok Ht Hr.
  - change (zlen (render_fields _)) with 0. by rewrite Z.add_0_r.
  - inversion_clear Hok as [|? ? Hp Hps]. pose proof Hp as ((Hl & _) & _). rewrite zlen_cons in Hr.
    pose proof (zlen_nonneg named).
    change (render_fields (named_field <$> p :: named))
      with (render_field (named_field p) ++ render_fields (named_field <$> named)).
    rewrite zlen_app, zlen_named by done.
    cbn [fmap list_fmap app sum_lengths fr_len named_row].
    rewrite i32_ok by lia. cbn [mbind option_bind]. rewrite i32_ok by lia. cbn [mbind option_bind].
    rewrite IH by (done || lia). f_equal. lia.
Qed.

(** The size for the default lengths. *)
Lemma created_default_total t mfr product sn pn :
  let named := [(mfr, 10); (product, 16); (sn, 10); (pn, 15)] in
  Forall named_ok named -> bia_total (created t named) = 64.
Proof.
  intros named Hok. unfold created. rewrite with_custom_total. cbn [bi_predef]. unfold named in *. rewrite !Forall_cons in Hok.
  destruct Hok as (H1 & H2 & H3 & H4 & _).
  change (render_fields (named_field <$> [(mfr, 10); (product, 16); (sn, 10); (pn, 15)])) with
    (render_field (named_field (mfr, 10)) ++ render_field (named_field (product, 16)) ++ render_field (named_field (sn, 10)) ++ render_field (named_field (pn, 15)) ++ []).
  by rewrite !zlen_app, !zlen_named.
Qed.

Lemma created_size t named :
  length named = 4%nat -> Forall named_ok named ->
  let n := zlen (render_fields (named_field <$> named)) in
  unpadded_size (create_rows named) = Some (17 + n) /\
  round8 (17 + n) = 8 + bia_total (created t named) /\
  round8 (17 + n) - (17 + n) = Z.of_nat (bi_pad (created t named)) /\
  bia_total (created t named) <= 2040 /\ 0 <= n <= 256.
Proof.
  intros Hn Hok n. pose proof (named_size named Hok) as Hsz. fold n in Hsz.
  assert (Hz : zlen named = 4) by (unfold zlen; lia). rewrite Hz in Hsz.
  assert (0 <= n) by apply zlen_nonneg.
  pose proof (with_custom_total [] (BiaImage t (named_field <$> named) [] 0)) as Htot. fold (created t named) in Htot.
  cbn [bi_predef] in Htot. fold n in Htot. change (zlen (render_fields [])) with 0 in Htot. rewrite Z.add_0_r in Htot.
  destruct (round8_spec (9 + n)) as [Hr _]; [lia|]. pose proof (round8_add8 (9 + n)) as H8.
  replace (9 + n + 8) with (17 + n) in H8 by lia. split_and!; [|lia| |lia|lia|lia].
  - unfold unpadded_size, create_rows. rewrite sum_named by (done || (unfold sizeof_CH, sizeof_BIA; lia)). fold n.
    cbn [sum_lengths fr_len]. change (i32 (1 + 0)) with (Some 1). cbn [mbind option_bind].
    unfold sizeof_CH, sizeof_BIA. rewrite !i32_ok by lia. cbn [mbind option_bind].
    rewrite !i32_ok by lia. cbn [mbind option_bind]. rewrite i32_ok by lia. f_equal. lia.
  - pose proof Htot as Ht. unfold bia_total in Ht. cbn [created with_custom bi_predef bi_custom] in Ht.
    fold n in Ht. change (zlen (render_fields [])) with 0 in Ht. fold (created t named) in Ht.
    cbn [created with_custom bi_pad bi_predef]. fold n. change (zlen (render_fields [])) with 0.
    rewrite Z.add_0_r. pose proof (pad8_bounds (9 + n)). unfold pad8 in *. lia.
Qed.

Lemma default_ch_ok : ch_ok false CH_DEFAULT.
Proof. exists 0, 0, 0, 0, 0. reflexivity. Qed.

(** Opens one initialising write of the goal, with its remaining room. *)
Ltac fill_step lem :=
  let r := fresh "r" in let Hr := fresh "Hr" in
  edestruct lem as (r & -> & Hr); [solve [zl]| try solve [zl]|]; cbn [mbind option_bind].

Lemma xcreate_room named d m y t b :
  let im := created t named in
  length named = 4%nat -> Forall named_ok named -> date_to_ipmi_time d m y = Some (inr t) ->
  8 + bia_total im <= zlen b ->
  exists tail, xcreate_mem (create_rows named) d m y (8 + bia_total im) (Z.of_nat (bi_pad im)) b =
    Some (IVFRU_RET_SUCCESS, CH_DEFAULT ++ render_bia (new_len im) im ++ tail) /\
    zlen tail = zlen b - (8 + bia_total im).
Proof.
  intros im Hn Hok Hd Hb. destruct (date_bytes _ _ _ _ Hd) as [Ht Htb].
  destruct (created_size t named Hn Hok) as (_ & Hr8 & Hpad & Hmax & Hnn). fold im in Hr8, Hpad, Hmax.
  set (n := zlen (render_fields (named_field <$> named))) in *.
  assert (Hbok : bia_ok im) by by apply created_ok.
  assert (Htot : bia_total im = 9 + n + Z.of_nat (bi_pad im)) by lia.
  destruct (with_custom_len [] (BiaImage t (named_field <$> named) [] 0) Hmax) as [Hby Hmul].
  fold im in Hmul. fold (created t named) in Hby. fold im in Hby.
  unfold xcreate_mem. rewrite Hd.
  destruct (wr_app [] b CH_DEFAULT 0) as (r0 & Hw & H0); [done|unfold zlen at 1; cbn; lia|].
  cbn [app] in Hw. rewrite Hw. cbn [mbind option_bind]. change (zlen CH_DEFAULT) with 8 in H0.
  assert (H8 : zlen CH_DEFAULT = 8) by done.
  unfold sizeof_CH, BIA_format_version, BIA_length, BIA_language_code, BIA_mfg_date_time, BIA_variable.
  do 3 fill_step st_app. rewrite (u8_id ((8 + bia_total im - 8) `quot` 8)).
  2:{ replace (8 + bia_total im - 8) with (bia_total im) by lia. done. }
  fill_step wr_app. 
  destruct (format_named_rows named ((((CH_DEFAULT ++ [u8 1]) ++ [(8 + bia_total im - 8) `quot` 8]) ++ [u8 0]) ++ t) r3 (8 + 6)
    [Frow (Some []) IVFRU_TLB_TYPE_UNSPECIFIED 0; Frow None IVFRU_TLB_TYPE_11 0]) as (r4 & Hf & H4);
    [done|zl|fold n; zl|]. fold n in Hf, H4. unfold create_rows. rewrite Hf.
  edestruct format_tail as (r5 & -> & H5); [zl; fold n; zl|zl|]. cbn [mbind option_bind].
  fill_step memset_app.

  change (zlen [0; FRU_END_MARKER]) with 2 in *.
  destruct r6 as [|c r6]; [exfalso; zl; fold n in *; lia|].
  exists r6. split; [|zl; fold n in *; lia].
  replace (8 + bia_total im - 8) with (bia_total im) by lia. change (bia_total im `quot` 8) with (new_len im).
  match goal with |- context [fru_calculate_checksum (?l ++ c :: r6)] =>
    replace l with (CH_DEFAULT ++ bia_body (new_len im) im)
  end.
  2:{ rewrite Nat2Z.id. unfold bia_body, bia_head, im, created. cbn [with_custom bi_date bi_predef bi_custom bi_pad].
      change (render_fields []) with (@nil Z).
      repeat (rewrite <- (assoc_L (++)) || cbn [app]). done. }
  pose proof (zlen_bia_body (new_len im) im Hbok) as Hbl.
  rewrite (checksum_seg _ _ (bia_body (new_len im) im)); [| |lia].
  2:{ exists CH_DEFAULT, (c :: r6). by rewrite <- (assoc_L (++)). }
  cbn [mbind option_bind]. rewrite st_mid by (rewrite zlen_app; lia). cbn [mbind option_bind].
  rewrite (u8_id (cksum _)) by apply u8_byte. unfold render_bia. by rewrite <- !(assoc_L (++)).
Qed.

(** On a block of exactly the size. *)
Lemma xcreate_run named d m y t b :
  let im := created t named in
  length named = 4%nat -> Forall named_ok named -> date_to_ipmi_time d m y = Some (inr t) ->
  zlen b = 8 + bia_total im ->
  xcreate_mem (create_rows named) d m y (8 + bia_total im) (Z.of_nat (bi_pad im)) b =
    Some (IVFRU_RET_SUCCESS, CH_DEFAULT ++ render_bia (new_len im) im).
Proof.
  intros im Hn Hok Hd Hb. destruct (xcreate_room named d m y t b Hn Hok Hd) as (tail & Hrun & Ht); [fold im; lia|].
  fold im in Hrun, Ht. destruct tail; [|zl]. by rewrite app_nil_r in Hrun.
Qed.

(** ** Lemmas: conversion from the old format *)

Lemma fix_run b len im :
  fru_image b true len im -> is_byte len -> len `mod` 8 = 0 ->
  exists tail, b = CH_OLD ++ render_bia len im ++ tail /\
    fix_mem b = Some (len + 8, CH_DEFAULT ++ render_bia (len `quot` 8) im ++ tail).
Proof.
  intros Him Hby Hm. destruct (image_split _ _ _ _ Him) as (h & tail & Hch & _ & ->).
  cbn in Hch. subst h. destruct Him as (_ & Hok & _ & Ht). exists tail. split; [done|].
  pose proof (zlen_bia_body len im Hok) as Hbl. pose proof (zlen_render_bia len im Hok) as Hrl.
  unfold fix_mem, CH_board_info_area, CH_checksum.
  change (CH_OLD ++ render_bia len im ++ tail)
    with ([1; 0; 0] ++ 8 :: ([0; 0; 0; 0xF7] ++ render_bia len im ++ tail)) at 1.
  rewrite st_mid by done. cbn [mbind option_bind]. change (u8 1) with 1.
  rewrite (checksum_seg _ _ [1; 0; 0; 1; 0; 0; 0]); [|by exists [], (0xF7 :: render_bia len im ++ tail)|done].
  cbn [mbind option_bind]. change (cksum [1; 0; 0; 1; 0; 0; 0]) with 0xFE.
  change ([1; 0; 0] ++ 1 :: ([0; 0; 0; 0xF7] ++ render_bia len im ++ tail))
    with ([1; 0; 0; 1; 0; 0; 0] ++ 0xF7 :: (render_bia len im ++ tail)).
  rewrite st_mid by done. cbn [mbind option_bind]. change (u8 0xFE) with 0xFE.
  change ([1; 0; 0; 1; 0; 0; 0] ++ 0xFE :: (render_bia len im ++ tail))
    with (CH_DEFAULT ++ render_bia len im ++ tail).
  assert (Hl : ld (CH_DEFAULT ++ render_bia len im ++ tail) (sizeof_CH + BIA_length) = Some len).
  { apply (ld_mid (CH_DEFAULT ++ [1])). done. }
  rewrite Hl. cbn [mbind option_bind].
  assert (Hq : is_byte (len `quot` 8)).
  { unfold is_byte in *. rewrite Z.quot_div_nonneg by lia. mlia. }
  pose proof (finish_image CH_DEFAULT len im (cksum (bia_body len im)) tail (len `quot` 8) len (sizeof_CH + len - 1)) as Hf.
  replace (CH_DEFAULT ++ render_bia len im ++ tail)
    with (CH_DEFAULT ++ bia_body len im ++ cksum (bia_body len im) :: tail)
    by (unfold render_bia; by rewrite <- (assoc_L (++))).
  specialize (Hf eq_refl Hok Ht ltac:(unfold sizeof_CH; lia)). rewrite (u8_id _ Hq) in Hf.
  repeat (bind_in Hf; cbn [mbind option_bind]). rewrite Hf. done.
Qed.
