(* ===== verification/FruCommands.v ===== *)
(** * The FRU commands end to end on Linux

    [ivfru_create], [ivfru_add], [ivfru_rm], [ivfru_fix], [ivfru_display] and
    [ivfru_write] run from a freshly started process over the platform of
    [ivfru_plat.c], for any C library and any board storage. *)
From S2P Require Import Prelude FruField FruValidate FruDate FruPlat FruOps FruEdit FruCreate.

(** ** Lemmas: stepping through a command *)

Section step.
Context {W : Type} `{FruPlatHeap W}.

Lemma or_return_run {A} (m : M W ivfru_ret) err (k : M W A) w w' :
  m w = Some (IVFRU_RET_SUCCESS, w') -> or_return m err k w = k w'.
Proof. intros Hm. unfold or_return. by rewrite (bind_run _ _ _ _ _ Hm). Qed.

Lemma with_buffer_run {A} (err : A) k w p w' :
  ivfru_plat_get_buffer w = Some (Some p, w') -> with_buffer err k w = k p w'.
Proof. intros Hm. unfold with_buffer. by rewrite (bind_run _ _ _ _ _ Hm). Qed.

Lemma mem_get_run {A} p (k : list Z -> M W A) w b :
  plat_heap w !! p = Some b -> (mem_get p ≫= k) w = k b w.
Proof. intros Hp. apply bind_run. unfold mem_get. by rewrite Hp. Qed.

Lemma mem_upd_run {A B} p (f : list Z -> option (A * list Z)) (k : A -> M W B) w b a b' :
  plat_heap w !! p = Some b -> f b = Some (a, b') ->
  (mem_upd p f ≫= k) w = k a (plat_set_heap (<[p := b']> (plat_heap w)) w).
Proof.
  intros Hp Hf. apply bind_run. unfold mem_upd. rewrite (mem_get_run _ _ _ _ Hp).
  rewrite (lift_run _ _ _ _ Hf). unfold mem_put, mbind, M_bind. by rewrite Hp.
Qed.
End step.

(** ** Lemmas: the Linux platform *)

(** A process that has just started. *)
Definition boot (files : gmap string (list Z)) (shell : list (string * list Z)) : linux :=
  Linux ∅ None 0 0 files shell.

(** A process holding one image buffer. *)
Definition running (p : block) (b : list Z) (image_size : Z) (files : gmap string (list Z))
    (shell : list (string * list Z)) : linux :=
  Linux {[p := b]} (Some p) (zlen b) image_size files shell.

(** The first block a process allocates. *)
Definition block0 : block := fresh_block ∅.

Section linux.
Context `{Libc} `{BoardIO}.

Lemma zlen_resize b n : 0 <= n -> zlen (resize_bytes b n) = n.
Proof.
  intros Hn. unfold resize_bytes, junk_bytes, zlen. rewrite length_app, length_take, length_fmap, length_seq. lia.
Qed.

Lemma resize_prefix b n : zlen b <= n -> exists tail, resize_bytes b n = b ++ tail.
Proof.
  intros Hn. unfold resize_bytes. rewrite take_ge by (unfold zlen in Hn; lia). by eexists.
Qed.

Lemma lx_reserve_boot n files shell :
  0 < n -> alloc_ok n = true ->
  lx_reserve_memory n (boot files shell) =
    Some (IVFRU_RET_SUCCESS, running block0 (resize_bytes [] n) 0 files shell).
Proof.
  intros Hn Ha. unfold lx_reserve_memory, boot, malloc. cbn [lx_image_buffer lx_heap].
  rewrite (proj2 (Z.leb_le 0 n)), Ha by lia. cbn [andb]. unfold running.
  rewrite zlen_resize by lia. done.
Qed.

Lemma lx_reserve_running n p b sz files shell :
  0 < n -> alloc_ok n = true -> realloc_moves (zlen b) n = false ->
  lx_reserve_memory n (running p b sz files shell) =
    Some (IVFRU_RET_SUCCESS, running p (resize_bytes b n) sz files shell).
Proof.
  intros Hn Ha Hm. unfold lx_reserve_memory, running, realloc. cbn [lx_image_buffer lx_heap].
  rewrite lookup_singleton_eq. rewrite (proj2 (Z.eqb_neq n 0)), (proj2 (Z.ltb_lt 0 n)), Ha, Hm by lia. cbn [andb].
  rewrite insert_singleton_eq, zlen_resize by lia. done.
Qed.

Lemma lx_get_running p b sz files shell :
  0 < zlen b -> lx_get_buffer (running p b sz files shell) = Some (Some p, running p b sz files shell).
Proof. intros Hb. unfold lx_get_buffer, running. cbn. by rewrite (proj2 (Z.eqb_neq _ 0)) by lia. Qed.

Lemma lx_read_boot loc files shell content :
  files !! loc = Some content -> 0 < zlen content < 2 ^ 31 -> alloc_ok (zlen content) = true ->
  lx_read_from_location loc (boot files shell) =
    Some (IVFRU_RET_SUCCESS, running block0 content 0 files shell).
Proof.
  intros Hf Hl Ha. unfold lx_read_from_location, boot at 1. cbn [lx_files]. rewrite Hf.
  rewrite to_i32_small by lia. rewrite lx_reserve_boot by (done || lia). pose proof (zlen_resize [] (zlen content) ltac:(lia)) as Hz.
  unfold running. cbn [lx_buffer_size lx_image_buffer lx_heap].
  rewrite Hz, (proj2 (Z.eqb_neq _ 0)) by lia. rewrite lookup_singleton_eq. cbn [mbind option_bind].
  pose proof (wr_mid [] (resize_bytes [] (zlen content)) [] 0 content eq_refl (eq_sym Hz)) as Hw.
  cbn [app] in Hw. rewrite !app_nil_r in Hw. rewrite Hw. unfold lx_with_heap. cbn. by rewrite insert_singleton_eq.
Qed.

Lemma lx_write_running loc p b sz files shell data :
  can_write loc = true -> 0 < zlen b -> rd_range b 0 sz = Some data ->
  lx_write_to_location loc (running p b sz files shell) =
    Some (IVFRU_RET_SUCCESS, running p b sz (<[loc := data]> files) shell).
Proof.
  intros Hc Hb Hr. unfold lx_write_to_location. rewrite Hc. unfold running, lx_with_files. cbn.
  rewrite (proj2 (Z.eqb_neq _ 0)) by lia. rewrite lookup_singleton_eq. cbn. rewrite Hr.
  by rewrite insert_insert_eq.
Qed.

Lemma running_update p b b' sz files shell :
  zlen b' = zlen b ->
  plat_set_heap (<[p := b']> (plat_heap (running p b sz files shell))) (running p b sz files shell) =
  running p b' sz files shell.
Proof. intros Hl. unfold running. cbn. unfold lx_with_heap. cbn. by rewrite insert_singleton_eq, Hl. Qed.

Lemma running_lookup p b sz files shell : plat_heap (running p b sz files shell) !! p = Some b.
Proof. apply lookup_singleton_eq. Qed.

(** One step of a command in a running process. *)
Lemma with_buffer_lx {A} (err : A) k p b sz files shell :
  0 < zlen b -> with_buffer err k (running p b sz files shell) = k p (running p b sz files shell).
Proof. intros Hb. by apply with_buffer_run, lx_get_running. Qed.

Lemma reserve_lx {A} err (k : M linux A) n p b sz files shell :
  0 < n -> alloc_ok n = true -> realloc_moves (zlen b) n = false ->
  or_return (ivfru_plat_reserve_memory n) err k (running p b sz files shell) =
  k (running p (resize_bytes b n) sz files shell).
Proof. intros ? ? ?. by apply or_return_run, lx_reserve_running. Qed.

Lemma get_lx {A} (k : list Z -> M linux A) p b sz files shell :
  (mem_get p ≫= k) (running p b sz files shell) = k b (running p b sz files shell).
Proof. apply mem_get_run, running_lookup. Qed.

Lemma upd_lx {A B} (f : list Z -> option (A * list Z)) (k : A -> M linux B) p b a b' sz files shell :
  f b = Some (a, b') -> zlen b' = zlen b ->
  (mem_upd p f ≫= k) (running p b sz files shell) = k a (running p b' sz files shell).
Proof.
  intros Hf Hl. rewrite (mem_upd_run _ _ _ _ _ _ _ (running_lookup _ _ _ _ _) Hf).
  by rewrite running_update.
Qed.

Lemma upd_none_lx {A B} (f : list Z -> option (A * list Z)) (k : A -> M linux B) p b sz files shell :
  f b = None -> (mem_upd p f ≫= k) (running p b sz files shell) = None.
Proof.
  intros Hf. unfold mem_upd, mbind, M_bind, mem_get. by rewrite running_lookup, Hf.
Qed.

Lemma set_size_lx {A} err (k : M linux A) n p b sz files shell :
  or_return (ivfru_plat_set_image_size n) err k (running p b sz files shell) =
  k (running p b n files shell).
Proof. by apply or_return_run. Qed.

Lemma write_lx {A} err (k : M linux A) loc p b sz files shell data :
  can_write loc = true -> 0 < zlen b -> rd_range b 0 sz = Some data ->
  or_return (ivfru_plat_write_to_location loc) err k (running p b sz files shell) =
  k (running p b sz (<[loc := data]> files) shell).
Proof. intros ? ? ?. by apply or_return_run, lx_write_running. Qed.

End linux.

(** ** Lemmas: the byte operations keep the size of the buffer *)

Lemma zlen_st b a v b' : st b a v = Some b' -> zlen b' = zlen b.
Proof. unfold st. case_if; [|done]. intros [= <-]. unfold zlen. by rewrite length_insert. Qed.

Lemma zlen_wr b a src b' : wr_range b a src = Some b' -> zlen b' = zlen b.
Proof.
  unfold wr_range. case_if; [|done]. intros [= <-]. unfold zlen in *.
  rewrite !length_app, length_take, length_drop. lia.
Qed.

Lemma zlen_memset b a v n b' : memset b a v n = Some b' -> zlen b' = zlen b.
Proof. unfold memset. case_if; [done|]. apply zlen_wr. Qed.

Lemma zlen_shift n : forall b t l b', shift_loop n b t l = Some b' -> zlen b' = zlen b.
Proof.
  induction n as [|n IH]; intros b t l b' H; cbn [shift_loop] in H; [congruence|].
  bind_in H. bind_in H. apply IH in H. by apply zlen_st in E0 as <-.
Qed.

Lemma zlen_add_insert f a e n b b' : add_insert f a e n b = Some b' -> zlen b' = zlen b.
Proof.
  unfold add_insert. intros H. bind_in H. bind_in H.
  apply zlen_memset in H as ->. apply zlen_wr in E0 as ->. by apply zlen_shift in E as ->.
Qed.

Lemma zlen_memcpy b d s n b' : memcpy b d s n = Some b' -> zlen b' = zlen b.
Proof. unfold memcpy. case_if; [|done]. intros H. bind_in H. by apply zlen_wr in H. Qed.

Lemma zlen_rm_mem index b n b' : rm_mem index b = Some (n, b') -> zlen b' = zlen b.
Proof.
  unfold rm_mem. intros H. bind_in H. bind_in H. destruct p as [a i]. case_if_in H; [congruence|].
  bind_in H. case_if_in H; [congruence|]. do 6 bind_in H. bind_in H. simplify_eq.
  repeat match goal with
  | E : st _ _ _ = Some _ |- _ => apply zlen_st in E
  | E : memset _ _ _ _ = Some _ |- _ => apply zlen_memset in E
  | E : memcpy _ _ _ _ = Some _ |- _ => apply zlen_memcpy in E
  end. congruence.
Qed.

(** ** Lemmas: the image across a reservation *)

Lemma resize_keeps `{Libc} x y n :
  zlen x <= n -> exists rest, resize_bytes (x ++ y) n = x ++ rest /\ zlen rest = n - zlen x.
Proof.
  intros Hn. pose proof (zlen_nonneg x). pose proof (zlen_resize (x ++ y) n ltac:(lia)) as Hz. unfold resize_bytes in *.
  rewrite take_app, take_ge in Hz |- * by (unfold zlen in Hn; lia).
  rewrite <- (assoc_L (++)) in Hz |- *. eexists. split; [done|]. zl.
Qed.

Lemma insert_field_size index f fs :
  zlen (render_fields (insert_field index f fs)) = zlen (render_fields fs) + zlen (render_field f).
Proof.
  destruct (insert_field_split index f fs) as (fs1 & fs2 & -> & -> & _). zl.
Qed.

Lemma insert_field_ok index f fs : Forall field_ok fs -> field_ok f -> Forall field_ok (insert_field index f fs).
Proof.
  destruct (insert_field_split index f fs) as (fs1 & fs2 & -> & -> & _). intros [? ?]%Forall_app ?.
  apply Forall_app. split; [done|by constructor].
Qed.

Lemma with_custom_bound fs im :
  9 + zlen (render_fields (bi_predef im)) + zlen (render_fields fs) <= bia_total (with_custom fs im).
Proof.
  rewrite with_custom_total. pose proof (zlen_nonneg (render_fields (bi_predef im))).
  pose proof (zlen_nonneg (render_fields fs)). destruct (round8_spec (9 + zlen (render_fields (bi_predef im)) + zlen (render_fields fs))) as [Hr _]; [lia|]. apply Hr.
Qed.

Lemma image_nonempty b old len im : fru_image b old len im -> 8 < zlen b.
Proof.
  intros (_ & Hok & Hs & _). apply seg_bounds in Hs. rewrite zlen_render_bia in Hs by done.
  unfold bia_total, sizeof_CH in Hs. pose proof (zlen_nonneg (render_fields (bi_predef im))).
  pose proof (zlen_nonneg (render_fields (bi_custom im))). lia.
Qed.

(** What the commands write to the file: the first [8 + n] bytes of the buffer. *)
Lemma written_image h len im tail n :
  zlen h = 8 -> bia_ok im -> n = 8 + bia_total im ->
  rd_range (h ++ render_bia len im ++ tail) 0 n = Some (h ++ render_bia len im).
Proof.
  intros Hh Hok ->. rewrite (assoc_L (++)). apply (rd_mid []); [done|].
  rewrite zlen_app, zlen_render_bia by done. lia.
Qed.

(** ** Adding and removing fields *)

Section edit.
Context `{Libc} `{BoardIO}.
Context (loc : string) (files : gmap string (list Z)) (shell : list (string * list Z)).
Context (content : list Z) (len : Z) (im : bia_image).
Context (Hfile : files !! loc = Some content) (Hsmall : zlen content < 2 ^ 31) (Himage : fru_image content false len im).
Context (Hwrite : can_write loc = true) (Halloc : forall n, 0 < n < 2 ^ 31 -> alloc_ok n = true).

(** The part all the editing commands share: load, take the buffer, check the format. *)
Lemma load_run {A} (err1 err2 : A) k :
  or_return (ivfru_plat_read_from_location loc) err1 (with_buffer err2 k) (boot files shell) =
  k block0 (running block0 content 0 files shell).
Proof.
  pose proof (image_nonempty _ _ _ _ Himage). assert (Hpos : 0 < zlen content < 2 ^ 31) by lia.
  rewrite (or_return_run _ _ _ _ _ (lx_read_boot loc files shell content Hfile Hpos (Halloc _ Hpos))).
  apply with_buffer_run, lx_get_running. lia.
Qed.

(** The checks of the editing commands pass on a valid image. *)
Lemma checks_run {A} (err1 err2 k : M linux A) w :
  (old ← lift (fru_is_old_format content);
   if (old : bool) then err1 else
   '(v, _) ← lift (ivfru_validate content false);
   if negb (bool_decide (v = IVFRU_RET_SUCCESS)) then err2 else k) w = k w.
Proof.
  rewrite (lift_run _ _ _ _ (image_old_format _ _ _ _ Himage)).
  rewrite (lift_run _ _ _ _ (validate_accept _ _ _ _ false Himage)). by rewrite bool_decide_true by done.
Qed.

(** The size of an area after the addition of a field. *)
Lemma added_total index data :
  let im' := with_custom (insert_field index (custom_field data) (bi_custom im)) im in
  is_byte len -> custom_len_ok (zlen data) -> 0 < bia_total im' < 2120.
Proof.
  intros im' Hby [Hlen _]. destruct Himage as (_ & _ & _ & Ht). unfold im'. rewrite with_custom_total, insert_field_size.
  pose proof (zlen_nonneg (render_fields (bi_predef im))). pose proof (zlen_nonneg (render_fields (bi_custom im))).
  assert (Hf : zlen (render_field (custom_field data)) = 1 + zlen data) by (unfold render_field, custom_field; cbn [f_tl f_data]; zl).
  unfold bia_total, is_byte in *. rewrite Hf. destruct (round8_spec (9 + zlen (render_fields (bi_predef im)) + (zlen (render_fields (bi_custom im)) + (1 + zlen data)))) as [Hr _]; [lia|]. pose proof (zlen_nonneg data). lia.
Qed.

(** [ivfru_add] when the block stays in place. *)
Lemma add_end index data :
  let im' := with_custom (insert_field index (custom_field data) (bi_custom im)) im in
  is_byte len -> custom_len_ok (zlen data) -> Forall is_byte data ->
  realloc_moves (zlen content) (8 + bia_total im') = false ->
  exists h w', ch_ok false h /\ seg content 0 h /\
    ivfru_add loc index data (zlen data) (boot files shell) = Some (IVFRU_RET_SUCCESS, w') /\
    lx_files w' = <[loc := h ++ render_bia (u8 (new_len im')) im']> files /\ lx_shell w' = shell.
Proof.
  intros im' Hby Hlen Hd Hmove. pose proof Himage as (_ & Hok & _ & _).
  pose proof (added_total index data Hby Hlen) as Hmax. fold im' in Hmax.
  destruct (image_core _ _ _ Himage) as (h & rest & Hch & Hh & Hc & Hrest).
  pose proof (with_custom_bound (insert_field index (custom_field data) (bi_custom im)) im) as Hlow.
  fold im' in Hlow. rewrite insert_field_size in Hlow. pose proof (zlen_bia_core len im Hok) as Hcl.
  pose proof (zlen_nonneg (render_field (custom_field data))).
  pose proof (zlen_nonneg (render_fields (bi_predef im))). pose proof (zlen_nonneg (render_fields (bi_custom im))).
  destruct (resize_keeps (h ++ bia_core len im) rest (8 + bia_total im')) as (rest' & Hrs & Hrl); [zl|].
  rewrite <- (assoc_L (++)), <- Hc in Hrs.
  set (f := custom_field data) in *.
  set (address := if index <? 0 then 8 + zlen (bia_core len im) - 1
      else custom_start im + zlen (render_fields (take (Z.to_nat index) (bi_custom im)))).
  set (used := zlen (bia_core len im) + zlen (render_field f) + 1).
  destruct (add_run h len im data index rest' address (8 + zlen (bia_core len im)) (bia_total im' - used))
    as (tail & Hrun & Htail); try done; try reflexivity.
  { fold f im'. zl. }
  fold f im' in Hrun. fold im' in Htail.
  assert (Hused : round8 used = bia_total im').
  { unfold im', used. rewrite with_custom_total, insert_field_size. f_equal. fold f. lia. }
  unfold ivfru_add. rewrite load_run. rewrite (mem_get_run _ _ _ _ (running_lookup _ _ _ _ _)).
  rewrite checks_run.
  rewrite (lift_run _ _ _ _ (add_locate_run _ _ _ index _ Himage Hlen)). fold f. cbv zeta beta iota.
  assert (Hu : 8 + zlen (bia_core len im) - sizeof_CH + zlen (render_field f) + 1 = used) by (unfold used, sizeof_CH; lia).
  rewrite Hu, Hused. change sizeof_CH with 8 at 1.
  assert (Hpos : 0 < 8 + bia_total im' < 2 ^ 31) by lia.
  rewrite reserve_lx by (auto; lia). rewrite Hrs, <- (assoc_L (++)). set (b1 := h ++ bia_core len im ++ rest') in *.
  assert (Hb1 : zlen b1 = 8 + bia_total im') by (unfold b1; zl).
  rewrite with_buffer_lx by lia.
  replace (if index - zlen (take (Z.to_nat index) (bi_custom im)) <? 0 then 8 + zlen (bia_core len im) - 1 else _) with address.
  2:{ unfold address. rewrite zlen_firstn. pose proof (zlen_nonneg (bi_custom im)).
      destruct (Z.ltb_spec index 0), (Z.ltb_spec (index - Z.of_nat (Z.to_nat index) `min` zlen (bi_custom im)) 0); done || lia. }
  bind_in Hrun. rename l into b2. bind_in Hrun. rename l into b3. bind_in Hrun. rename z into ck.
  pose proof (zlen_add_insert _ _ _ _ _ _ E) as L2. pose proof (zlen_st _ _ _ _ E0) as L3.
  pose proof (zlen_st _ _ _ _ Hrun) as L4.
  rewrite (upd_lx _ _ _ b1 tt b2) by (done || by rewrite E). change (bia_total im' `quot` 8) with (new_len im').
  rewrite (upd_lx _ _ _ b2 tt b3) by (done || by rewrite E0). rewrite get_lx.
  rewrite (lift_run _ _ _ _ E1). rewrite (upd_lx _ _ _ b3 tt _) by (done || by rewrite Hrun).
  rewrite set_size_lx. assert (Hok' : bia_ok im').
  { apply with_custom_ok; [done|]. by apply insert_field_ok; [apply Hok|apply custom_field_ok]. }
  rewrite (write_lx _ _ _ _ _ _ _ _ (h ++ render_bia (u8 (new_len im')) im')); [|done|lia|].
  2:{ apply written_image; [done..|]. unfold sizeof_CH. lia. }
  exists h. eexists. split_and!; [done|rewrite Hc; by exists [], (bia_core len im ++ rest)|reflexivity|reflexivity|reflexivity].
Qed.

(** When [realloc] moves the block, [ivfru_add] goes on through pointers into the
    block that has been freed. *)
Lemma add_moved_end index data :
  let im' := with_custom (insert_field index (custom_field data) (bi_custom im)) im in
  is_byte len -> custom_len_ok (zlen data) -> realloc_moves (zlen content) (8 + bia_total im') = true ->
  ivfru_add loc index data (zlen data) (boot files shell) = None.
Proof.
  intros im' Hby Hlen Hmove. pose proof Himage as (_ & Hok & _ & _).
  pose proof (added_total index data Hby Hlen) as Hint. fold im' in Hint.
  pose proof (with_custom_bound (insert_field index (custom_field data) (bi_custom im)) im) as Hlow.
  fold im' in Hlow. rewrite insert_field_size in Hlow. pose proof (zlen_bia_core len im Hok) as Hcl.
  pose proof (zlen_nonneg (render_field (custom_field data))).
  pose proof (zlen_nonneg (render_fields (bi_predef im))). pose proof (zlen_nonneg (render_fields (bi_custom im))).
  set (f := custom_field data) in *. set (used := zlen (bia_core len im) + zlen (render_field f) + 1).
  assert (Hused : round8 used = bia_total im').
  { unfold im', used. rewrite with_custom_total, insert_field_size. f_equal. fold f. lia. }
  unfold ivfru_add. rewrite load_run. rewrite (mem_get_run _ _ _ _ (running_lookup _ _ _ _ _)).
  rewrite checks_run.
  rewrite (lift_run _ _ _ _ (add_locate_run _ _ _ index _ Himage Hlen)). fold f. cbv zeta beta iota.
  assert (Hu : 8 + zlen (bia_core len im) - sizeof_CH + zlen (render_field f) + 1 = used) by (unfold used, sizeof_CH; lia).
  rewrite Hu, Hused. change sizeof_CH with 8 at 1. assert (Hpos : 0 < 8 + bia_total im') by lia.
  assert (exists q h, h !! block0 = None /\
    lx_reserve_memory (8 + bia_total im') (running block0 content 0 files shell) =
    Some (IVFRU_RET_SUCCESS, Linux h (Some q) (8 + bia_total im') 0 files shell)) as (q & hp & Hnone & Hres).
  { unfold lx_reserve_memory, running, realloc. cbn [lx_image_buffer lx_heap]. rewrite lookup_singleton_eq.
    rewrite (proj2 (Z.eqb_neq _ 0)), (proj2 (Z.ltb_lt 0 _)), Halloc, Hmove by lia. cbn [andb].
    eexists _, _. split; [|reflexivity]. cbn [lx_heap lx_with_heap].
    rewrite lookup_insert_ne; [by rewrite lookup_delete_eq|].
    intros Hq. apply (is_fresh (dom ({[block0 := content]} : heap))). unfold fresh_block in Hq. rewrite Hq.
    apply elem_of_dom. by rewrite lookup_singleton_eq. }
  rewrite (or_return_run _ _ _ _ _ Hres). rewrite (with_buffer_run _ _ _ q (Linux hp (Some q) (8 + bia_total im') 0 files shell)).
  2:{ cbn [ivfru_plat_get_buffer linux_plat]. unfold lx_get_buffer. cbn [lx_buffer_size lx_image_buffer]. by rewrite (proj2 (Z.eqb_neq _ 0)) by lia. }
  unfold mbind at 1, M_bind, mem_upd at 1, mbind at 1, M_bind, mem_get. cbn [plat_heap linux_plat lx_heap]. by rewrite Hnone.
Qed.

(** A field of one byte, or of more than 63, cannot be formatted. *)
Lemma add_bad_length_end index data :
  1 = zlen data \/ 63 < zlen data ->
  exists w', ivfru_add loc index data (zlen data) (boot files shell) = Some (IVFRU_RET_INVALID_ARGUMENT, w') /\
    lx_files w' = files /\ lx_shell w' = shell.
Proof.
  intros Hlen. unfold ivfru_add. rewrite load_run. rewrite (mem_get_run _ _ _ _ (running_lookup _ _ _ _ _)).
  rewrite checks_run.
  rewrite (lift_run _ _ _ None).
  - eexists. split_and!; reflexivity.
  - unfold add_locate, fru_area_format_field, fru_make_tl_byte.
    destruct (Z.ltb_spec 63 (zlen data)); [done|]. by replace (zlen data =? 1) with true by lia.
Qed.

(** [ivfru_rm] at the index of a field. *)
Lemma rm_end index :
  let im' := with_custom (delete_field index (bi_custom im)) im in
  is_byte len -> 0 <= index < zlen (bi_custom im) -> rm_overlaps index (bi_custom im) = false ->
  exists h w', ch_ok false h /\ seg content 0 h /\
    ivfru_rm loc index (boot files shell) = Some (IVFRU_RET_SUCCESS, w') /\
    lx_files w' = <[loc := h ++ render_bia (new_len im') im']> files /\ lx_shell w' = shell.
Proof.
  intros im' Hby Hi Ho. destruct (rm_run content len im index Himage Hby Hi Ho) as (h & tail & Hch & Hseg & Hrm & Hok' & Ht & _).
  fold im' in Hrm, Hok', Ht. unfold ivfru_rm. rewrite load_run, get_lx.
  rewrite checks_run.
  pose proof (zlen_rm_mem _ _ _ _ Hrm) as Hl. pose proof (image_nonempty _ _ _ _ Himage).
  rewrite (upd_lx _ _ _ _ _ _ _ _ _ Hrm Hl), set_size_lx.
  rewrite (write_lx _ _ _ _ _ _ _ _ (h ++ render_bia (new_len im') im')); [|done|lia|].
  2:{ apply written_image; [by eapply zlen_ch|done|done]. }
  exists h. eexists. split_and!; [done|done|reflexivity|reflexivity|reflexivity].
Qed.

(** A removal that copies an area over itself. *)
Lemma rm_overlap_end index :
  0 <= index -> rm_overlaps index (bi_custom im) = true -> ivfru_rm loc index (boot files shell) = None.
Proof.
  intros Hi Ho. unfold ivfru_rm. rewrite load_run, get_lx.
  rewrite checks_run.
  pose proof (rm_overlap_run _ _ _ _ Himage Hi Ho) as Hrm.
  by apply upd_none_lx.
Qed.

(** An index without a custom field is reported and the file stays as it is. *)
Lemma rm_bad_index_end index :
  ~ 0 <= index < zlen (bi_custom im) ->
  exists w', ivfru_rm loc index (boot files shell) = Some (IVFRU_RET_INVALID_ARGUMENT, w') /\
    lx_files w' = files /\ lx_shell w' = shell.
Proof.
  intros Hi. pose proof (rm_bad_index _ _ _ _ Himage Hi) as Hrm. unfold ivfru_rm. rewrite load_run, get_lx.
  rewrite checks_run.
  rewrite (upd_lx _ _ _ _ _ _ _ _ _ Hrm) by done. eexists. split_and!; reflexivity.
Qed.

(** The area [ivfru_add] builds, and the file it writes. *)
Lemma added_ok index data :
  custom_len_ok (zlen data) -> Forall is_byte data ->
  bia_ok (with_custom (insert_field index (custom_field data) (bi_custom im)) im).
Proof.
  intros Hlen Hd. pose proof Himage as (_ & Hok & _). apply with_custom_ok; [done|].
  by apply insert_field_ok; [apply Hok|apply custom_field_ok].
Qed.

Lemma added_image h index data :
  let im' := with_custom (insert_field index (custom_field data) (bi_custom im)) im in
  let image := h ++ render_bia (u8 (new_len im')) im' in
  ch_ok false h -> custom_len_ok (zlen data) -> Forall is_byte data ->
  if bia_total im' <=? 2040 then fru_image image false (new_len im') im'
  else forall old len2 im2, ~ fru_image image old len2 im2.
Proof.
  intros im' image Hch Hlen Hd. pose proof (added_ok index data Hlen Hd : bia_ok im') as Hok.
  unfold image. rewrite <- (app_nil_r (render_bia _ _)). destruct (Z.leb_spec (bia_total im') 2040) as [Hle|Hgt].
  - destruct (with_custom_len _ _ Hle) as [Hby Hmul]. rewrite (u8_id (new_len _)) by done. by apply image_join.
  - apply long_area_no_image; [done|done|apply u8_byte|].
    unfold im' in *. rewrite with_custom_total in Hgt. cbn [with_custom bi_predef bi_custom].
    unfold round8 in Hgt. rewrite Z.quot_div_nonneg in Hgt; [mlia| |lia].
    pose proof (zlen_nonneg (render_fields (bi_predef im))).
    pose proof (zlen_nonneg (render_fields (insert_field index (custom_field data) (bi_custom im)))). lia.
Qed.

Lemma header_take (c h : list Z) : ch_ok false h -> seg c 0 h -> h = take 8 c.
Proof.
  intros Hch [tail ->]%seg_0. pose proof (zlen_ch _ _ Hch) as Hl. symmetry. apply take_app_length'.
  unfold zlen in Hl. lia.
Qed.

(** What a successful addition says of the file. *)
Lemma add_success_inv index data w1 :
  let im' := with_custom (insert_field index (custom_field data) (bi_custom im)) im in
  is_byte len -> Forall is_byte data ->
  ivfru_add loc index data (zlen data) (boot files shell) = Some (IVFRU_RET_SUCCESS, w1) ->
  ch_ok false (take 8 content) /\ custom_len_ok (zlen data) /\
  lx_files w1 = <[loc := take 8 content ++ render_bia (u8 (new_len im')) im']> files.
Proof.
  intros im' Hby Hd Hadd.
  destruct (decide (1 = zlen data \/ 63 < zlen data)) as [Hbad|Hgood].
  { destruct (add_bad_length_end index data Hbad) as (w' & Hrun & _). rewrite Hrun in Hadd. discriminate. }
  assert (Hlen : custom_len_ok (zlen data)) by (pose proof (zlen_nonneg data); split; lia).
  destruct (realloc_moves (zlen content) (8 + bia_total im')) eqn:Hmove.
  { rewrite (add_moved_end index data Hby Hlen Hmove) in Hadd. discriminate. }
  destruct (add_end index data Hby Hlen Hd Hmove) as (h & w' & Hch & Hs & Hrun & Hf & _).
  rewrite Hrun in Hadd. injection Hadd as <-. by rewrite <- (header_take content h).
Qed.

(** A file that is no image is refused. *)
Lemma rm_refuses index image h rest l :
  files !! loc = Some image -> zlen image < 2 ^ 31 -> ch_ok false h -> image = h ++ rest ->
  Forall is_byte image -> (forall old len im, ~ fru_image image old len im) ->
  ld image (sizeof_CH + BIA_length) = Some l -> 0 <= l -> sizeof_CH + l * 8 + 65 <= zlen image ->
  exists w', ivfru_rm loc index (boot files shell) = Some (IVFRU_RET_INVALID_FRU_DATA, w') /\ lx_files w' = files.
Proof.
  intros Hf Hsm Hch Hi Hb Hno Hl Hl0 Hroom. unfold sizeof_CH in Hroom. assert (Hpos : 0 < zlen image < 2 ^ 31) by lia.
  destruct (validate_total image false l Hl Hl0 ltac:(unfold sizeof_CH; lia) (or_introl eq_refl)) as [[r flags] Hv].
  destruct (no_image_refused _ _ _ Hb ltac:(intros (? & ? & ? & ?); by eapply Hno) Hv) as [-> _].
  assert (Hold : fru_is_old_format image = Some false).
  { rewrite (old_format_seg _ h); [|rewrite Hi; by exists [], rest|by eapply zlen_ch].
    destruct Hch as (? & ? & ? & ? & ? & ->). by rewrite bool_decide_false by apply new_ch_not_old. }
  unfold ivfru_rm. rewrite (or_return_run _ _ _ _ _ (lx_read_boot loc files shell image Hf Hpos (Halloc _ Hpos))).
  rewrite with_buffer_lx, get_lx by lia. rewrite (lift_run _ _ _ _ Hold), (lift_run _ _ _ _ Hv).
  rewrite bool_decide_false by done. by eexists.
Qed.

(** C7: [ivfru_add] on a file holding a valid image, when memory is available and the
    file can be written, on every branch: a field of one byte or of more than 63 is
    refused and the file stays as it is; when [realloc] moves the buffer, the command
    goes on through pointers into the freed block, which is a fault; when the buffer
    stays in place the command succeeds and the file is exactly the area with the
    field inserted at the index (at the end for a negative index or one past the
    end), the other fields, the date and the common header kept, its length byte
    the low byte of the number of eight-byte groups.  That file is a valid image when
    the new area has at most 2040 bytes, and no image at all when it is longer. *)
Theorem ivfru_add_inserts index data :
  let im' := with_custom (insert_field index (custom_field data) (bi_custom im)) im in
  is_byte len -> Forall is_byte data ->
  if (zlen data =? 1) || (63 <? zlen data) then
    exists w', ivfru_add loc index data (zlen data) (boot files shell) = Some (IVFRU_RET_INVALID_ARGUMENT, w') /\
      lx_files w' = files /\ lx_shell w' = shell
  else if realloc_moves (zlen content) (8 + bia_total im') then
    ivfru_add loc index data (zlen data) (boot files shell) = None
  else
    exists h w', let image := h ++ render_bia (u8 (new_len im')) im' in
      ch_ok false h /\ seg content 0 h /\
      ivfru_add loc index data (zlen data) (boot files shell) = Some (IVFRU_RET_SUCCESS, w') /\
      lx_files w' = <[loc := image]> files /\ lx_shell w' = shell /\
      if bia_total im' <=? 2040 then fru_image image false (new_len im') im'
      else forall old len2 im2, ~ fru_image image old len2 im2.
Proof.
  intros im' Hby Hd. destruct (_ || _) eqn:Hbad; [apply add_bad_length_end; lia|].
  assert (Hlen : custom_len_ok (zlen data)) by (pose proof (zlen_nonneg data); split; lia).
  destruct (realloc_moves _ _) eqn:Hmove; [by apply add_moved_end|].
  destruct (add_end index data Hby Hlen Hd Hmove) as (h & w' & Hch & Hs & Hrun & Hf & Hsh).
  exists h, w'. fold im' in Hf |- *. split_and!; try done. by apply added_image.
Qed.

(** C8: [ivfru_rm] on a file holding a valid image, when memory is available and the
    file can be written, on every index: at the index of a custom field that is at
    least as long as all that follows it up to the end marker, the command succeeds
    and the file is exactly the image without that field; when more bytes follow the
    field, the [memcpy] that removes it copies an area over itself, which is
    undefined; any index without a custom field, negative ones included, is reported
    and the file stays as it is. *)
Theorem ivfru_rm_removes index :
  let im' := with_custom (delete_field index (bi_custom im)) im in
  is_byte len ->
  if (0 <=? index) && (index <? zlen (bi_custom im)) then
    if rm_overlaps index (bi_custom im) then ivfru_rm loc index (boot files shell) = None
    else exists h w', let image := h ++ render_bia (new_len im') im' in
      ch_ok false h /\ seg content 0 h /\
      ivfru_rm loc index (boot files shell) = Some (IVFRU_RET_SUCCESS, w') /\
      lx_files w' = <[loc := image]> files /\ lx_shell w' = shell /\ fru_image image false (new_len im') im'
  else
    exists w', ivfru_rm loc index (boot files shell) = Some (IVFRU_RET_INVALID_ARGUMENT, w') /\
      lx_files w' = files /\ lx_shell w' = shell.
Proof.
  intros im' Hb. destruct (_ && _) eqn:Hi; [|apply rm_bad_index_end; lia].
  destruct (rm_overlaps _ _) eqn:Ho; [apply rm_overlap_end; lia || done|].
  destruct (rm_end index Hb ltac:(lia) Ho) as (h & w' & Hch & Hs & Hrun & Hf & Hsh). exists h, w'.
  split_and!; try done.
  destruct (rm_run _ _ _ index Himage Hb ltac:(lia) Ho) as (_ & _ & _ & _ & _ & Hok' & Ht & _).
  rewrite <- (app_nil_r (render_bia _ _)). by apply image_join.
Qed.

End edit.

Section undo.
Context `{Libc} `{BoardIO}.
Context (loc : string) (files : gmap string (list Z)) (shell : list (string * list Z)).
Context (content : list Z) (len : Z) (im : bia_image).
Context (Hfile : files !! loc = Some content) (Hsmall : zlen content < 2 ^ 31) (Himage : fru_image content false len im).
Context (Hwrite : can_write loc = true) (Halloc : forall n, 0 < n < 2 ^ 31 -> alloc_ok n = true).

(** The second process refuses an image whose area does not fit its length byte. *)
Lemma rm_long_refused files1 shell1 index h im' :
  let image := h ++ render_bia (u8 (new_len im')) im' in
  files1 !! loc = Some image -> ch_ok false h -> Forall is_byte h -> bia_ok im' -> 2040 < bia_total im' < 2120 -> bia_total im' `mod` 8 = 0 ->
  (forall old len im, ~ fru_image image old len im) ->
  exists w', ivfru_rm loc index (boot files1 shell1) = Some (IVFRU_RET_INVALID_FRU_DATA, w') /\ lx_files w' = files1.
Proof.
  intros image Hf Hch Hhb Hok Htot Hm8 Hno. pose proof (zlen_ch _ _ Hch) as Hh.
  assert (Hz : zlen image = 8 + bia_total im') by (unfold image; rewrite zlen_app, Hh, zlen_render_bia; done).
  assert (Hs : seg image sizeof_CH (render_bia (u8 (new_len im')) im')).
  { exists h, []. by rewrite app_nil_r. }
  destruct (render_bia_parts _ _ _ _ Hok Hs) as (_ & Hl & _).
  apply (rm_refuses loc files1 shell1 Halloc index image h (render_bia (u8 (new_len im')) im') (u8 (new_len im'))); try done; [lia| | |].
  - apply Forall_app_2; [done|]. apply render_bia_bytes; [apply u8_byte|done].
  - apply u8_byte.
  - rewrite Hz. unfold sizeof_CH, u8, new_len. rewrite Z.quot_div_nonneg by lia. mlia.
Qed.

(** A file that is exactly an image with minimal padding. *)
Lemma minimal_image :
  let im0 := with_custom (bi_custom im) im in
  zlen content = 8 + bia_total im -> (bi_pad im < 8)%nat -> content = take 8 content ++ render_bia (new_len im0) im0.
Proof.
  intros im0 Hz Hpad. destruct (image_split _ _ _ _ Himage) as (h & tail & Hch & Hh & Hc). pose proof Himage as (_ & Hok & _ & Ht).
  assert (tail = []) as ->.
  { apply (f_equal zlen) in Hc. rewrite !zlen_app, zlen_render_bia in Hc by done. destruct tail; [done|]. zl. }
  assert (Hpe : pad8 (9 + zlen (render_fields (bi_predef im)) + zlen (render_fields (bi_custom im))) = Z.of_nat (bi_pad im)).
  { unfold pad8, round8, bia_total in *. pose proof (zlen_nonneg (render_fields (bi_predef im))).
    pose proof (zlen_nonneg (render_fields (bi_custom im))). rewrite Z.quot_div_nonneg by lia. mlia. }
  assert (Him0 : im0 = im).
  { unfold im0, with_custom. rewrite Hpe, Nat2Z.id. by destruct im. }
  rewrite Him0. unfold new_len. rewrite Ht, Z.quot_mul by lia. rewrite Hc, app_nil_r at 1.
  f_equal. rewrite Hc. symmetry. apply take_app_length'. unfold zlen in Hh. lia.
Qed.

(** C16: after a successful [ivfru_add], [ivfru_rm] at the index of the new field in
    a second process: when the image with the field has at most 2040 bytes of area
    and the field is at least as long as what follows it, the file becomes the image
    with its original fields and minimal padding, that is, the original file byte for
    byte when that file ended with the image and had minimal padding itself; when more
    follows the field, the removal is undefined; when the area exceeds 2040 bytes, the
    second process refuses the file and leaves it. *)
Theorem ivfru_rm_undoes_add index data w1 :
  let im' := with_custom (insert_field index (custom_field data) (bi_custom im)) im in
  let im0 := with_custom (bi_custom im) im in
  is_byte len -> Forall is_byte content -> Forall is_byte data -> 0 <= index <= zlen (bi_custom im) ->
  ivfru_add loc index data (zlen data) (boot files shell) = Some (IVFRU_RET_SUCCESS, w1) ->
  if 2040 <? bia_total im' then
    exists w2, ivfru_rm loc index (boot (lx_files w1) shell) = Some (IVFRU_RET_INVALID_FRU_DATA, w2) /\
      lx_files w2 = lx_files w1
  else if rm_overlaps index (bi_custom im') then ivfru_rm loc index (boot (lx_files w1) shell) = None
  else
    exists w2, ivfru_rm loc index (boot (lx_files w1) shell) = Some (IVFRU_RET_SUCCESS, w2) /\
      lx_files w2 = <[loc := take 8 content ++ render_bia (new_len im0) im0]> files /\
      (zlen content = 8 + bia_total im -> (bi_pad im < 8)%nat -> lx_files w2 = files).
Proof.
  intros im' im0 Hby Hcb Hd Hi Hadd.
  destruct (add_success_inv loc files shell content len im Hfile Hsmall Himage Hwrite Halloc index data w1 Hby Hd Hadd)
    as (Hch & Hlen & Hf). fold im' in Hf. set (h := take 8 content) in *. pose proof (zlen_ch _ _ Hch) as Hh.
  pose proof (added_image content len im Himage h index data Hch Hlen Hd) as Himg. cbv zeta in Himg. fold im' in Himg.
  pose proof (added_total content len im Himage index data Hby Hlen) as Htot. fold im' in Htot.
  pose proof (added_ok content len im Himage index data Hlen Hd : bia_ok im') as Hok'.
  set (image := h ++ render_bia (u8 (new_len im')) im') in *.
  assert (Hfile1 : lx_files w1 !! loc = Some image) by (rewrite Hf; apply lookup_insert_eq).
  assert (Hsm : zlen image = 8 + bia_total im') by (unfold image; rewrite zlen_app, Hh, zlen_render_bia; done).
  destruct (Z.ltb_spec 2040 (bia_total im')) as [Hlong|Hshort].
  { rewrite (proj2 (Z.leb_gt _ _)) in Himg by lia.
    apply (rm_long_refused (lx_files w1) shell index h im'); try done; [by apply Forall_take|lia|].
    unfold im'. rewrite with_custom_total. apply round8_spec.
    pose proof (zlen_nonneg (render_fields (bi_predef im))).
    pose proof (zlen_nonneg (render_fields (insert_field index (custom_field data) (bi_custom im)))). lia. }
  rewrite (proj2 (Z.leb_le _ _)) in Himg by lia. destruct (with_custom_len _ _ Hshort) as [Hby' _].
  assert (Hsz : zlen (bi_custom im') = 1 + zlen (bi_custom im)).
  { unfold im', with_custom. cbn [bi_custom].
    destruct (insert_field_split index (custom_field data) (bi_custom im)) as (fs1 & fs2 & -> & -> & _). zl. }
  destruct (rm_overlaps index (bi_custom im')) eqn:Ho.
  { apply (rm_overlap_end loc (lx_files w1) shell image (new_len im') im'); try done; lia. }
  destruct (rm_end loc (lx_files w1) shell image (new_len im') im' Hfile1 ltac:(lia) Himg Hwrite Halloc index Hby' ltac:(lia) Ho)
    as (h2 & w2 & Hch2 & Hs2 & Hrm & Hf2 & _).
  rewrite (header_take image h2 Hch2 Hs2) in Hf2. unfold image in Hf2 at 1. rewrite take_app_length' in Hf2 by (unfold zlen in Hh; lia).
  rewrite Hf, insert_insert_eq in Hf2. unfold im' in Hf2. cbn [with_custom bi_custom] in Hf2. rewrite delete_insert_field in Hf2 by done.
  exists w2. split_and!; [done|exact Hf2|]. intros Hz Hpad. rewrite Hf2. apply insert_id. rewrite Hfile. f_equal.
  by eapply minimal_image.
Qed.

End undo.

(** ** Creating, converting and writing images *)

Lemma resolve_named named rows rows' :
  Forall named_ok named -> resolve_lengths rows = Some rows' ->
  resolve_lengths ((named_row <$> named) ++ rows) = Some ((named_row <$> named) ++ rows').
Proof.
  intros Hok Hr. induction Hok as [|p named Hp _ IH]; [done|].
  cbn [fmap list_fmap app resolve_lengths fr_str fr_len named_row] in *. rewrite IH.
  destruct Hp as (_ & Hpos & Hs & _).
  by rewrite (proj2 (Z.ltb_ge (snd p) 0)), (proj2 (Z.ltb_ge (snd p) (zlen (fst p)))) by lia.
Qed.

Section create.
Context `{Libc} `{BoardIO}.
Context (loc : string) (files : gmap string (list Z)) (shell : list (string * list Z)).
Context (Hwrite : can_write loc = true) (Halloc : forall n, 0 < n < 2 ^ 31 -> alloc_ok n = true).

(** The command after its argument checks. *)
Lemma xcreate_end mfgdate d m y t mfr product sn pn mfr_len product_len sn_len pn_len :
  let named := [(mfr, mfr_len); (product, product_len); (sn, sn_len); (pn, pn_len)] in
  date2dmy mfgdate = Some (inr (d, m, y)) -> date_to_ipmi_time d m y = Some (inr t) ->
  Forall named_ok named ->
  exists w', ivfru_xcreate loc (Some mfgdate) (Some product) product_len (Some sn) sn_len (Some pn) pn_len
      (Some mfr) mfr_len (boot files shell) = Some (IVFRU_RET_SUCCESS, w') /\
    lx_files w' = <[loc := CH_DEFAULT ++ render_bia (new_len (created t named)) (created t named)]> files /\
    lx_shell w' = shell.
Proof.
  intros named Hd Ht Hok. destruct (created_size t named eq_refl Hok) as (Hun & Hr8 & Hpad & Hmax & Hn).
  set (n := zlen (render_fields (named_field <$> named))) in *. set (im := created t named) in *.
  assert (Hrows : resolve_lengths (fixed_rows mfr product sn pn mfr_len product_len sn_len pn_len) = Some (create_rows named)).
  { by apply (resolve_named named [Frow (Some []) IVFRU_TLB_TYPE_UNSPECIFIED 0; Frow None IVFRU_TLB_TYPE_11 0]). }
  unfold ivfru_xcreate. rewrite (lift_run _ _ _ _ Hd), Hrows, (lift_run _ _ _ _ Hun).
  rewrite (lift_run _ _ _ (17 + n + 7)) by (apply i32_ok; lia). rewrite Hr8.
  replace (8 + bia_total im - (17 + n)) with (Z.of_nat (bi_pad im)) by lia.
  destruct (round8_spec (17 + n)) as [Hge _]; [lia|]. assert (Hpos : 0 < 8 + bia_total im < 2 ^ 31) by lia.
  rewrite (or_return_run _ _ _ _ _ (lx_reserve_boot _ files shell (proj1 Hpos) (Halloc _ Hpos))).
  pose proof (zlen_resize [] (8 + bia_total im) ltac:(lia)) as Hz.
  rewrite with_buffer_lx by lia.
  pose proof (xcreate_run named d m y t _ eq_refl Hok Ht Hz) as Hrun. fold im in Hrun.
  destruct (date_bytes _ _ _ _ Ht) as [Ht3 Htb]. pose proof (created_ok t named Ht3 Htb eq_refl Hok : bia_ok im) as Hbok.
  assert (Hlen : zlen (CH_DEFAULT ++ render_bia (new_len im) im) = zlen (resize_bytes [] (8 + bia_total im))).
  { rewrite zlen_app, zlen_render_bia, Hz by done. done. }
  rewrite (upd_lx _ _ _ _ _ _ _ _ _ Hrun Hlen). rewrite (or_return_run _ _ _ _ _ eq_refl), set_size_lx.
  rewrite (write_lx _ _ _ _ _ _ _ _ (CH_DEFAULT ++ render_bia (new_len im) im)); [|done|rewrite Hlen; lia|].
  2:{ rewrite <- (app_nil_r (render_bia _ _)) at 1. by apply written_image. }
  eexists. split_and!; reflexivity.
Qed.

(** [ivfru_create] on well-formed arguments. *)
Lemma ivfru_create_end mfgdate d m y t product sn pn mfr :
  let named := [(default mfr_default mfr, 10); (product, 16); (sn, 10); (pn, 15)] in
  date2dmy mfgdate = Some (inr (d, m, y)) -> date_to_ipmi_time d m y = Some (inr t) ->
  Forall named_ok named ->
  exists w', ivfru_create loc (Some mfgdate) (Some product) (Some sn) (Some pn) mfr (boot files shell) =
      Some (IVFRU_RET_SUCCESS, w') /\
    lx_files w' = <[loc := CH_DEFAULT ++ render_bia (new_len (created t named)) (created t named)]> files /\
    fru_image (CH_DEFAULT ++ render_bia (new_len (created t named)) (created t named)) false
      (new_len (created t named)) (created t named).
Proof.
  intros named Hd Ht Hok.
  destruct (xcreate_end mfgdate d m y t (default mfr_default mfr) product sn pn 10 16 10 15 Hd Ht Hok)
    as (w' & Hrun & Hf & _).
  exists w'. split_and!; [destruct mfr; exact Hrun|exact Hf|].
  destruct (date_bytes _ _ _ _ Ht) as [Ht3 Htb]. destruct (created_size t named eq_refl Hok) as (_ & _ & _ & Hmax & _).
  rewrite <- (app_nil_r (render_bia _ _)). apply image_join.
  - apply default_ch_ok.
  - by apply created_ok.
  - apply (with_custom_len [] (BiaImage t (named_field <$> named) [] 0) Hmax).
Qed.

(** C6: [ivfru_create] writes a valid image: the default header, the encoded date and
    the four strings padded with spaces to 10, 16, 10 and 15 characters. *)
Theorem ivfru_create_builds mfgdate d m y t product sn pn mfr :
  let named := [(default mfr_default mfr, 10); (product, 16); (sn, 10); (pn, 15)] in
  date2dmy mfgdate = Some (inr (d, m, y)) -> date_to_ipmi_time d m y = Some (inr t) ->
  Forall named_ok named ->
  exists w', ivfru_create loc (Some mfgdate) (Some product) (Some sn) (Some pn) mfr (boot files shell) =
      Some (IVFRU_RET_SUCCESS, w') /\
    lx_files w' = <[loc := CH_DEFAULT ++ render_bia (new_len (created t named)) (created t named)]> files /\
    fru_image (CH_DEFAULT ++ render_bia (new_len (created t named)) (created t named)) false
      (new_len (created t named)) (created t named).
Proof. apply ivfru_create_end. Qed.

(** C39: [ivfru_fix] turns an old-format image whose length is a multiple of eight into
    a valid new-format image with the same contents. *)
Theorem ivfru_fix_converts content len im :
  files !! loc = Some content -> zlen content < 2 ^ 31 -> fru_image content true len im -> is_byte len -> len `mod` 8 = 0 ->
  exists w', ivfru_fix loc (boot files shell) = Some (IVFRU_RET_SUCCESS, w') /\
    lx_files w' = <[loc := CH_DEFAULT ++ render_bia (len `quot` 8) im]> files /\
    fru_image (CH_DEFAULT ++ render_bia (len `quot` 8) im) false (len `quot` 8) im.
Proof.
  intros Hfile Hsm Him Hby Hm. destruct (fix_run content len im Him Hby Hm) as (tail & Hc & Hfix).
  pose proof Him as (_ & Hok & _ & Ht). pose proof (image_nonempty _ _ _ _ Him) as Hne.
  assert (Hpos : 0 < zlen content < 2 ^ 31) by lia.
  assert (Hlen : zlen (CH_DEFAULT ++ render_bia (len `quot` 8) im ++ tail) = zlen content).
  { rewrite Hc, !zlen_app, !zlen_render_bia by done. done. }
  unfold ivfru_fix.
  rewrite (or_return_run _ _ _ _ _ (lx_read_boot loc files shell content Hfile Hpos (Halloc _ Hpos))).
  rewrite with_buffer_lx, get_lx by lia. rewrite (lift_run _ _ _ _ (image_old_format _ _ _ _ Him)). cbn [negb].
  rewrite (upd_lx _ _ _ _ _ _ _ _ _ Hfix Hlen), set_size_lx.
  rewrite (write_lx _ _ _ _ _ _ _ _ (CH_DEFAULT ++ render_bia (len `quot` 8) im)); [|done|lia|].
  2:{ apply written_image; [done..|]. lia. }
  eexists. split_and!; [reflexivity..|].
  rewrite <- (app_nil_r (render_bia _ _)). apply image_join; [apply default_ch_ok|done|].
  unfold is_byte in Hby. rewrite Ht, Z.quot_div_nonneg by lia. mlia.
Qed.

(** A file that holds an image. *)
Lemma write_valid board content len im :
  files !! loc = Some content -> zlen content < 2 ^ 31 -> fru_image content false len im ->
  exists data rest, content = data ++ rest /\ zlen data = 8 + bia_total im /\
    ivfru_write board loc (boot files shell) =
      or_return (board_write board data) IVFRU_RET_IO_ERROR
        (or_return (ivfru_plat_set_image_size (zlen data)) IVFRU_RET_MEM_ERROR (mret IVFRU_RET_SUCCESS))
        (running block0 content 0 files shell).
Proof.
  intros Hfile Hsm Him. destruct (image_split _ _ _ _ Him) as (h & tail & Hch & Hh & Hc).
  pose proof Him as (_ & Hok & Hs & Ht). pose proof (image_nonempty _ _ _ _ Him) as Hne.
  assert (Hpos : 0 < zlen content < 2 ^ 31) by lia.
  exists (h ++ render_bia len im), tail.
  assert (Hz : zlen (h ++ render_bia len im) = 8 + bia_total im) by (rewrite zlen_app, zlen_render_bia by done; lia).
  split_and!; [by rewrite <- (assoc_L (++))|done|].
  unfold ivfru_write.
  rewrite (or_return_run _ _ _ _ _ (lx_read_boot loc files shell content Hfile Hpos (Halloc _ Hpos))).
  rewrite with_buffer_lx, get_lx by lia. rewrite (lift_run _ _ _ _ (image_old_format _ _ _ _ Him)).
  rewrite (lift_run _ _ _ _ (validate_accept _ _ _ _ false Him)). rewrite bool_decide_true by done. cbn [negb].
  rewrite (lift_run _ _ _ (8 + bia_total im)).
  2:{ destruct Hch as (i & c & p & mr & pd & ->). unfold fru_get_total_length.
      rewrite Hc. cbn [app new_ch]. change (ld (1 :: i :: c :: 1 :: ?l) CH_format_version) with (Some 1).
      cbn [mbind option_bind negb Z.eqb Pos.eqb]. change (ld (1 :: i :: c :: 1 :: ?l) CH_board_info_area) with (Some 1).
      cbn [mbind option_bind negb Z.eqb Pos.eqb]. rewrite Ht.
      destruct (render_bia_parts _ _ _ _ Hok Hs) as (_ & H1 & _). rewrite Hc in H1. unfold new_ch in H1. cbn [app] in H1.
      unfold BIA_length. rewrite H1. done. }
  rewrite (lift_run _ _ _ (h ++ render_bia len im)).
  2:{ rewrite Hc. by apply written_image. }
  by rewrite Hz.
Qed.

(** A file in the old format, or one that fails the validation. *)
Lemma write_rejects board content old r flags :
  files !! loc = Some content -> 0 < zlen content < 2 ^ 31 ->
  fru_is_old_format content = Some old -> ivfru_validate content false = Some (r, flags) ->
  old = true \/ r <> IVFRU_RET_SUCCESS ->
  ivfru_write board loc (boot files shell) =
    Some (if old then IVFRU_RET_FRU_OLD_FORMAT else IVFRU_RET_INVALID_FRU_DATA, running block0 content 0 files shell).
Proof.
  intros Hfile Hpos Hold Hval Hbad. unfold ivfru_write.
  rewrite (or_return_run _ _ _ _ _ (lx_read_boot loc files shell content Hfile Hpos (Halloc _ Hpos))).
  rewrite with_buffer_lx, get_lx by lia. rewrite (lift_run _ _ _ _ Hold).
  destruct old; [done|]. rewrite (lift_run _ _ _ _ Hval).
  destruct Hbad as [|Hr]; [done|]. by rewrite bool_decide_false by done.
Qed.

(** C32: [ivfru_write], when memory is available, on a file of any content: when it starts
    with a valid image, the board driver gets exactly the bytes of the image, without what
    follows it, and its failure is an I/O error; when it is in the old format or fails the
    validation, nothing reaches the board -- the process keeps the state it had after
    reading the file -- and the result says which of the two. *)
Theorem ivfru_write_exact board content :
  files !! loc = Some content -> 0 < zlen content < 2 ^ 31 ->
  (forall len im, fru_image content false len im ->
     exists data rest, content = data ++ rest /\ zlen data = 8 + bia_total im /\
       ivfru_write board loc (boot files shell) =
         or_return (board_write board data) IVFRU_RET_IO_ERROR
           (or_return (ivfru_plat_set_image_size (zlen data)) IVFRU_RET_MEM_ERROR (mret IVFRU_RET_SUCCESS))
           (running block0 content 0 files shell)) /\
  (forall old r flags, fru_is_old_format content = Some old -> ivfru_validate content false = Some (r, flags) ->
     old = true \/ r <> IVFRU_RET_SUCCESS ->
     ivfru_write board loc (boot files shell) =
       Some (if old then IVFRU_RET_FRU_OLD_FORMAT else IVFRU_RET_INVALID_FRU_DATA,
             running block0 content 0 files shell)).
Proof.
  intros Hfile Hpos. split; [intros len im; apply write_valid; [done|lia]|].
  intros old r flags. by apply write_rejects.
Qed.

End create.

(** ** Witnesses *)

(** A C library whose allocations succeed and whose [realloc] moves a block that
    grows past [limit], and a board storage that is never written. *)
Definition sample_libc (limit : Z) : Libc :=
  {| alloc_ok := fun _ => true; realloc_moves := fun _ n => limit <? n; junk := fun _ => 0; can_write := fun _ => true |}.
Definition sample_board : BoardIO :=
  {| board_read := fun _ _ _ _ w => Some ((IVFRU_RET_IO_ERROR, []), w);
     board_write := fun _ _ w => Some (IVFRU_RET_SUCCESS, w) |}.

Definition sample_files : gmap string (list Z) := {["f"%string := sample_image]}.

Lemma sample_is_image : fru_image sample_image false 2 sample_area.
Proof.
  unfold sample_image. rewrite <- (app_nil_r (render_bia _ _)).
  apply image_join; [apply default_ch_ok|apply sample_area_ok|reflexivity].
Qed.

(** An image with one custom field, and an old-format image. *)
Definition sample_area1 : bia_image := with_custom [custom_field [65; 66]] sample_area.
Definition sample_image1 : list Z := CH_DEFAULT ++ render_bia 2 sample_area1.
Definition sample_files1 : gmap string (list Z) := {["f"%string := sample_image1]}.
Lemma sample1_is_image : fru_image sample_image1 false 2 sample_area1.
Proof.
  unfold sample_image1. rewrite <- (app_nil_r (render_bia _ _)).
  apply image_join; [apply default_ch_ok| |reflexivity].
  repeat (split || constructor); cbn; try done.
Qed.

Definition sample_old : list Z := CH_OLD ++ render_bia 16 sample_area.
Definition sample_files_old : gmap string (list Z) := {["f"%string := sample_old]}.
Lemma sample_old_is_image : fru_image sample_old true 16 sample_area.
Proof.
  unfold sample_old. rewrite <- (app_nil_r (render_bia _ _)).
  apply image_join; [done|apply sample_area_ok|reflexivity].
Qed.

(** An image of 2000 bytes of area: 31 custom fields of 63 bytes. *)
Definition big_area : bia_image := with_custom (replicate 31 (custom_field (replicate 63 65))) sample_area.
Definition big_image : list Z := CH_DEFAULT ++ render_bia 250 big_area.
Definition big_files : gmap string (list Z) := {["f"%string := big_image]}.
Lemma big_is_image : fru_image big_image false 250 big_area.
Proof.
  unfold big_image. rewrite <- (app_nil_r (render_bia _ _)).
  apply image_join; [apply default_ch_ok| |reflexivity].
  apply with_custom_ok; [apply sample_area_ok|]. apply Forall_replicate, custom_field_ok; [by split|].
  by apply Forall_replicate.
Qed.

(** In place, moved, a field of one byte, and an area that becomes too long. *)
Lemma ivfru_add_inserts_witness :
  (exists h w', let image := h ++ render_bia 2 sample_area1 in ch_ok false h /\ seg sample_image 0 h /\
    @ivfru_add linux (@linux_plat (sample_libc 100) sample_board) "f" (-1) [65; 66] 2 (boot sample_files []) =
      Some (IVFRU_RET_SUCCESS, w') /\
    lx_files w' = <["f"%string := image]> sample_files /\ lx_shell w' = [] /\ fru_image image false 2 sample_area1) /\
  @ivfru_add linux (@linux_plat (sample_libc 10) sample_board) "f" (-1) [65; 66] 2 (boot sample_files []) = None /\
  (exists w', @ivfru_add linux (@linux_plat (sample_libc 10) sample_board) "f" 0 [65] 1 (boot sample_files []) =
      Some (IVFRU_RET_INVALID_ARGUMENT, w') /\ lx_files w' = sample_files /\ lx_shell w' = []) /\
  exists h w', ch_ok false h /\
    @ivfru_add linux (@linux_plat (sample_libc 5000) sample_board) "f" 0 (replicate 63 66) 63 (boot big_files []) =
      Some (IVFRU_RET_SUCCESS, w') /\
    (forall image old len2 im2, lx_files w' !! "f"%string = Some image -> ~ fru_image image old len2 im2).
Proof.
  split_and!.
  - refine (@ivfru_add_inserts (sample_libc 100) sample_board "f" sample_files [] sample_image 2 sample_area
      _ _ sample_is_image _ _ (-1) [65; 66] _ _); [done..|by repeat constructor].
  - refine (@ivfru_add_inserts (sample_libc 10) sample_board "f" sample_files [] sample_image 2 sample_area
      _ _ sample_is_image _ _ (-1) [65; 66] _ _); [done..|by repeat constructor].
  - refine (@ivfru_add_inserts (sample_libc 10) sample_board "f" sample_files [] sample_image 2 sample_area
      _ _ sample_is_image _ _ 0 [65] _ _); [done..|by repeat constructor].
  - pose proof (@ivfru_add_inserts (sample_libc 5000) sample_board "f" big_files [] big_image 250 big_area
      eq_refl ltac:(by vm_compute) big_is_image eq_refl (fun _ _ => eq_refl) 0 (replicate 63 66) ltac:(done)
      ltac:(by apply Forall_replicate)) as Hadd. cbv zeta in Hadd.
    set (im' := with_custom _ _) in Hadd. replace (_ || _) with false in Hadd by by vm_compute.
    replace (realloc_moves _ _) with false in Hadd by by vm_compute.
    destruct Hadd as (h & w' & Hch & _ & Hrun & Hf & _ & Hno).
    replace (_ <=? 2040) with false in Hno by by vm_compute.
    exists h, w'. split_and!; [exact Hch|exact Hrun|]. intros image old len2 im2 Hi.
    rewrite Hf, lookup_insert_eq in Hi. injection Hi as <-. apply Hno.
Defined.

(** Two custom fields: the last one can be removed, the first one is followed by more
    bytes than it has. *)
Definition sample_area2 : bia_image := with_custom [custom_field []; custom_field [65; 66; 67]] sample_area.
Definition sample_image2 : list Z := CH_DEFAULT ++ render_bia 3 sample_area2.
Definition sample_files2 : gmap string (list Z) := {["f"%string := sample_image2]}.
Lemma sample2_is_image : fru_image sample_image2 false 3 sample_area2.
Proof.
  unfold sample_image2. rewrite <- (app_nil_r (render_bia _ _)).
  apply image_join; [apply default_ch_ok| |reflexivity].
  repeat (split || constructor); cbn; try done.
Qed.

Lemma ivfru_rm_removes_witness :
  (exists h w', let image := h ++ render_bia 2 sample_area in ch_ok false h /\ seg sample_image1 0 h /\
    @ivfru_rm linux (@linux_plat (sample_libc 100) sample_board) "f" 0 (boot sample_files1 []) =
      Some (IVFRU_RET_SUCCESS, w') /\
    lx_files w' = <["f"%string := image]> sample_files1 /\ lx_shell w' = [] /\ fru_image image false 2 sample_area) /\
  @ivfru_rm linux (@linux_plat (sample_libc 100) sample_board) "f" 0 (boot sample_files2 []) = None /\
  (exists w', @ivfru_rm linux (@linux_plat (sample_libc 100) sample_board) "f" 3 (boot sample_files1 []) =
      Some (IVFRU_RET_INVALID_ARGUMENT, w') /\
    lx_files w' = sample_files1 /\ lx_shell w' = []).
Proof.
  split_and!.
  - refine (@ivfru_rm_removes (sample_libc 100) sample_board "f" sample_files1 [] sample_image1 2 sample_area1
      _ _ sample1_is_image _ _ 0 _); [done|done|done|done|split; done].
  - refine (@ivfru_rm_removes (sample_libc 100) sample_board "f" sample_files2 [] sample_image2 3 sample_area2
      _ _ sample2_is_image _ _ 0 _); [done|done|done|done|split; done].
  - refine (@ivfru_rm_removes (sample_libc 100) sample_board "f" sample_files1 [] sample_image1 2 sample_area1
      _ _ sample1_is_image _ _ 3 _); [done|done|done|done|split; done].
Defined.

(** The original file comes back byte for byte. *)
Lemma ivfru_rm_undoes_add_witness :
  exists w1 w2,
    @ivfru_add linux (@linux_plat (sample_libc 100) sample_board) "f" 0 [65; 66] 2 (boot sample_files []) =
      Some (IVFRU_RET_SUCCESS, w1) /\
    @ivfru_rm linux (@linux_plat (sample_libc 100) sample_board) "f" 0 (boot (lx_files w1) []) =
      Some (IVFRU_RET_SUCCESS, w2) /\
    lx_files w2 = sample_files.
Proof.
  destruct (@ivfru_add linux (@linux_plat (sample_libc 100) sample_board) "f" 0 [65; 66] 2 (boot sample_files []))
    as [[r w1]|] eqn:Hadd; [|vm_compute in Hadd; discriminate].
  assert (r = IVFRU_RET_SUCCESS) as -> by (vm_compute in Hadd; congruence).
  destruct (@ivfru_rm_undoes_add (sample_libc 100) sample_board "f" sample_files [] sample_image 2 sample_area
    eq_refl eq_refl sample_is_image eq_refl (fun _ _ => eq_refl) 0 [65; 66] w1 ltac:(done) sample_bytes
    ltac:(by repeat constructor) ltac:(split; discriminate) Hadd) as (w2 & Hrm & _ & Hsame).
  exists w1, w2. split_and!; [done|exact Hrm|]. apply Hsame; [reflexivity|vm_compute; lia].
Defined.

(** The date 1-3-1996 and the strings "p", "s", "n". *)
Lemma ivfru_create_builds_witness :
  let named := [(mfr_default, 10); ([112], 16); ([115], 10); ([110], 15)] in
  exists w', @ivfru_create linux (@linux_plat (sample_libc 1000) sample_board) "f" (Some [49; 45; 51; 45; 49; 57; 57; 54])
      (Some [112]) (Some [115]) (Some [110]) None (boot ∅ []) = Some (IVFRU_RET_SUCCESS, w') /\
    lx_files w' = <["f"%string := CH_DEFAULT ++ render_bia (new_len (created [128; 81; 1] named)) (created [128; 81; 1] named)]> ∅ /\
    fru_image (CH_DEFAULT ++ render_bia (new_len (created [128; 81; 1] named)) (created [128; 81; 1] named)) false
      (new_len (created [128; 81; 1] named)) (created [128; 81; 1] named).
Proof.
  refine (@ivfru_create_builds (sample_libc 1000) sample_board "f" ∅ [] _ _
    [49; 45; 51; 45; 49; 57; 57; 54] 1 3 1996 [128; 81; 1] [112] [115] [110] None _ _ _); [done|done|reflexivity|reflexivity|].
  repeat constructor; discriminate || done.
Defined.

Lemma ivfru_fix_converts_witness :
  exists w', @ivfru_fix linux (@linux_plat (sample_libc 100) sample_board) "f" (boot sample_files_old []) =
      Some (IVFRU_RET_SUCCESS, w') /\
    lx_files w' = <["f"%string := CH_DEFAULT ++ render_bia 2 sample_area]> sample_files_old /\
    fru_image (CH_DEFAULT ++ render_bia 2 sample_area) false 2 sample_area.
Proof.
  refine (@ivfru_fix_converts (sample_libc 100) sample_board "f" sample_files_old [] _ _
    sample_old 16 sample_area _ _ sample_old_is_image _ _); [done|done|done|done|split; done|done].
Defined.

Lemma ivfru_write_exact_witness :
  (exists data rest, sample_image = data ++ rest /\ zlen data = 8 + bia_total sample_area /\
    @ivfru_write linux (@linux_plat (sample_libc 100) sample_board) IVFRU_BOARD_MB "f" (boot sample_files []) =
      or_return
        (@board_write sample_board IVFRU_BOARD_MB data) IVFRU_RET_IO_ERROR
        (or_return (lx_set_image_size (zlen data)) IVFRU_RET_MEM_ERROR
          (mret IVFRU_RET_SUCCESS))
        (running block0 sample_image 0 sample_files [])) /\
  @ivfru_write linux (@linux_plat (sample_libc 100) sample_board) IVFRU_BOARD_MB "f" (boot sample_files_old []) =
    Some (IVFRU_RET_FRU_OLD_FORMAT, running block0 sample_old 0 sample_files_old []).
Proof.
  split.
  - refine (proj1 (@ivfru_write_exact (sample_libc 100) sample_board "f" sample_files [] _
      IVFRU_BOARD_MB sample_image _ _) 2 sample_area sample_is_image); [done..|split; done].
  - refine (proj2 (@ivfru_write_exact (sample_libc 100) sample_board "f" sample_files_old [] _
      IVFRU_BOARD_MB sample_old _ _) true IVFRU_RET_SUCCESS 0 _ _ _); try done. by left.
Defined.
