(* ===== verification/FruDisplay.v ===== *)
(** * Displaying an image

    What [ivfru_display] prints for a valid image of the new format. *)
From S2P Require Import Prelude FruField FruValidate FruDate FruPlat FruOps FruEdit FruCreate FruCommands.

(** ** Specification *)

(** The lines of consecutive fields, numbered from [i]; each datum is passed to
    [printf] with its terminating NUL. *)
Fixpoint field_lines (mk : Z -> list Z -> display_line) (i : Z) (fs : list field) : list display_line :=
  match fs with
  | [] => []
  | f :: fs => mk i (f_data f ++ [0]) :: field_lines mk (i + 1) fs
  end.

Definition area_line (offset id : Z) : list display_line := if negb (offset =? 0) then [LineAreaExists id] else [].

(** The lines for an area with the given day, under the header with these offsets. *)
Definition image_lines (day internal chassis product multi : Z) (im : bia_image) : list display_line :=
  [LineBiaLength (bia_total im); LineBiaVersion 1; LineLangCode 0; LineMfgDate day] ++
  field_lines LineFixed 0 (bi_predef im) ++ [LineFileIdLen 0] ++ field_lines LineField 1 (bi_custom im) ++
  [LineBiaValid true] ++
  area_line internal CH_internal_use_area ++ area_line chassis CH_chassis_info_area ++
  area_line product CH_product_info_area ++ area_line multi CH_multirecord_area.

(** ** Lemmas *)

Lemma get_field b a f :
  field_ok f -> seg b a (render_field f) ->
  fru_tl_get_length b a = Some (zlen (f_data f)) /\
  fru_area_get_field_at_address b a (Some (1 + zlen (f_data f))) =
    Some (f_data f ++ [0], a + zlen (render_field f)).
Proof.
  intros Hok Hs. pose proof (tl_get_length_field _ _ _ Hok Hs) as Hl. split; [done|].
  unfold fru_area_get_field_at_address. rewrite Hl. cbn [mbind option_bind].
  apply seg_cons in Hs as [_ Hd]. rewrite (seg_rd _ _ _ _ Hd) by done. cbn [mbind option_bind].
  rewrite (proj2 (Z.ltb_lt _ _)) by lia. rewrite zlen_render_field. res_lia.
Qed.

Lemma display_fixed_run fs : forall b i a rem,
  Forall field_ok fs -> seg b a (render_fields fs) -> zlen (render_fields fs) <= rem ->
  display_fixed (length fs) b i a rem =
    Some (field_lines LineFixed i fs, a + zlen (render_fields fs), rem - zlen (render_fields fs)).
Proof.
  induction fs as [|f fs IH]; intros b i a rem Hok Hs Hrem; cbn [length display_fixed field_lines].
  - change (zlen (render_fields [])) with 0. res_lia.
  - inversion_clear Hok as [|? ? Hf Hfs].
    change (render_fields (f :: fs)) with (render_field f ++ render_fields fs) in *.
    apply seg_app in Hs as [Hs1 Hs2]. destruct (get_field _ _ _ Hf Hs1) as [Hl Hg].
    rewrite zlen_app in Hrem |- *. pose proof (zlen_nonneg (render_fields fs)). pose proof (zlen_nonneg (f_data f)).
    pose proof (zlen_render_field f). rewrite (proj2 (Z.ltb_lt 0 rem)) by lia.
    rewrite Hl. cbn [mbind option_bind]. rewrite Hg. cbn [mbind option_bind].
    rewrite IH by (done || lia). cbn [mbind option_bind]. res_lia.
Qed.

Lemma display_custom_run fs : forall b i a rem fuel,
  Forall field_ok fs -> seg b a (render_fields fs) -> ld b (a + zlen (render_fields fs)) = Some FRU_END_MARKER ->
  zlen (render_fields fs) < rem -> (length fs < fuel)%nat ->
  display_custom fuel b i a rem = Some (field_lines LineField i fs).
Proof.
  induction fs as [|f fs IH]; intros b i a rem fuel Hok Hs He Hrem Hfuel;
    (destruct fuel as [|fuel]; [lia|]); cbn [length display_custom field_lines].
  - change (zlen (render_fields [])) with 0 in *. rewrite (proj2 (Z.ltb_lt 0 rem)) by lia.
    rewrite (ld_at _ _ _ _ He) by lia. done.
  - inversion_clear Hok as [|? ? Hf Hfs].
    change (render_fields (f :: fs)) with (render_field f ++ render_fields fs) in *.
    apply seg_app in Hs as [Hs1 Hs2]. destruct (get_field _ _ _ Hf Hs1) as [Hl Hg].
    rewrite zlen_app in Hrem, He. pose proof (zlen_nonneg (render_fields fs)). pose proof (zlen_nonneg (f_data f)).
    pose proof (zlen_render_field f). rewrite (proj2 (Z.ltb_lt 0 rem)) by lia.
    pose proof Hs1 as [Hc _]%seg_cons. destruct Hf as (_ & Hm & _ & _). rewrite Hc. cbn [mbind option_bind].
    rewrite (proj2 (Z.eqb_neq _ _) Hm). cbn [negb]. rewrite Hl. cbn [mbind option_bind]. rewrite Hg. cbn [mbind option_bind].
    rewrite IH; [done|done|done|by rewrite <- Z.add_assoc|lia|cbn [length] in Hfuel; lia].
Qed.

Lemma no_errors : display_validation_errors VAL_RES_SUCCESS = [].
Proof. reflexivity. Qed.
Lemma valid_verdict : (Z.land VAL_RES_SUCCESS VAL_RES_BIA_MASK =? VAL_RES_SUCCESS) = true.
Proof. reflexivity. Qed.

(** The bytes of a new-format header. *)
Lemma new_header_bytes b i c p m pd :
  seg b 0 (new_ch i c p m pd) ->
  ld b CH_internal_use_area = Some i /\ ld b CH_chassis_info_area = Some c /\
  ld b CH_product_info_area = Some p /\ ld b CH_multirecord_area = Some m.
Proof. unfold new_ch. cbn [app]. intros Hs. seg_split. done. Qed.

Lemma display_mem_run b len im i c p m pd t0 t1 t2 :
  seg b 0 (new_ch i c p m pd) -> fru_image b false len im -> bi_date im = [t0; t1; t2] ->
  exists day month year, ipmi_time_to_date t0 t1 t2 = Some (day, month, year) /\
    display_mem b = Some (image_lines day i c p m im).
Proof.
  intros Hh Him Hdate. pose proof Him as (_ & Hok & Hs & Ht).
  destruct (new_header_bytes _ _ _ _ _ _ Hh) as (Hi & Hc & Hp & Hm). unfold sizeof_CH in Hs.
  destruct (render_bia_parts _ _ _ _ Hok Hs) as (H0 & H1 & H2 & H3 & H4 & _ & H6 & H7 & H8 & _).
  pose proof Hok as (_ & Hdb & Hn4 & Hfp & Hfc). rewrite Hdate in H3, Hdb.
  inversion_clear Hdb as [|? ? Hb0 Hdb']. inversion_clear Hdb' as [|? ? Hb1 Hdb'']. inversion_clear Hdb'' as [|? ? Hb2 _].
  destruct (ipmi_time_decodes t0 t1 t2 Hb0 Hb1 Hb2) as (day & month & year & Hdec & _).
  exists day, month, year. split; [done|].
  apply seg_cons in H3 as [Ht0 H3]. apply seg_cons in H3 as [Ht1 H3]. apply seg_cons in H3 as [Ht2 _].
  pose proof (zlen_nonneg (render_fields (bi_predef im))). pose proof (zlen_nonneg (render_fields (bi_custom im))).
  pose proof Ht as Ht'. unfold bia_total in Ht'. set (np := zlen (render_fields (bi_predef im))) in *.
  set (nc := zlen (render_fields (bi_custom im))) in *.
  assert (Hid : seg b (8 + 6 + np) (render_field file_id_field)).
  { apply seg_cons. split; [done|]. apply seg_nil. apply seg_bounds in H7. zl. }
  assert (E1 : ld b (sizeof_CH + BIA_length) = Some len) by exact H1.
  assert (E0 : ld b (sizeof_CH + BIA_format_version) = Some 1) by exact H0.
  assert (E2 : ld b (sizeof_CH + BIA_language_code) = Some 0) by exact H2.
  assert (E3 : ld b (sizeof_CH + BIA_mfg_date_time) = Some t0) by exact Ht0.
  assert (E4 : ld b (sizeof_CH + BIA_mfg_date_time + 1) = Some t1) by exact Ht1.
  assert (E5 : ld b (sizeof_CH + BIA_mfg_date_time + 2) = Some t2) by exact (ld_at _ _ (8 + 3 + 2) _ Ht2 eq_refl).
  assert (E6 : display_fixed 4 b 0 (sizeof_CH + BIA_variable) (len * 8 - sizeof_BIA) =
    Some (field_lines LineFixed 0 (bi_predef im), 8 + 6 + np, len * 8 - sizeof_BIA - np)).
  { rewrite <- Hn4. unfold sizeof_BIA. apply display_fixed_run; [done|done|fold np; lia]. }
  assert (E7 : fru_tl_get_length b (8 + 6 + np) = Some 0) by exact (tl_get_length_field _ _ _ file_id_ok Hid).
  assert (E8 : fru_next b (8 + 6 + np) = Some (8 + 6 + np + 1)) by exact (fru_next_field _ _ _ file_id_ok Hid).
  assert (E9 : display_custom (loop_fuel (len * 8 - sizeof_BIA - np - (1 + 0))) b 1 (8 + 6 + np + 1)
      (len * 8 - sizeof_BIA - np - (1 + 0)) = Some (field_lines LineField 1 (bi_custom im))).
  { unfold sizeof_BIA. apply display_custom_run; [done|done|exact H8|fold nc; lia|].
    pose proof (zlen_fields_le (bi_custom im)) as Hle. unfold loop_fuel. fold nc in Hle. unfold zlen in Hle. lia. }
  assert (B2 : (2 <? len * 8) = true) by (apply Z.ltb_lt; lia).
  assert (B3 : (3 <? len * 8) = true) by (apply Z.ltb_lt; lia).
  assert (B0 : (0 <? len * 8 - sizeof_BIA - np) = true) by (unfold sizeof_BIA; apply Z.ltb_lt; lia).
  unfold display_mem.
  obind (validate_accept _ _ _ _ true Him). obind E1. obind (image_old_format _ _ _ _ Him). cbv zeta. cbn [negb].
  obind E0. eapply obind_some; [rewrite B2; obind E2; reflexivity|cbv beta].
  eapply obind_some; [rewrite B3; obind E3; obind E4; obind E5; obind Hdec; reflexivity|cbv beta].
  obind E6. eapply obind_some; [rewrite B0; obind E7; obind E8; reflexivity|cbv beta iota].
  obind E9. obind Hi. obind Hc. obind Hp. obind Hm.
  rewrite <- Ht, no_errors, valid_verdict. reflexivity.
Qed.

(** ** Properties *)

Section display.
Context `{Libc} `{BoardIO}.

(** Displaying a file that holds a valid new-format image succeeds, changes no
    file and prints exactly the length, version, language and day, the four named
    fields, the empty File ID, the custom fields numbered from 1, the verdict and
    the other areas the header announces. *)
Theorem ivfru_display_prints loc files shell content len im i c p m pd t0 t1 t2 :
  files !! loc = Some content -> zlen content < 2 ^ 31 -> alloc_ok (zlen content) = true ->
  seg content 0 (new_ch i c p m pd) -> fru_image content false len im -> bi_date im = [t0; t1; t2] ->
  exists day month year w', ipmi_time_to_date t0 t1 t2 = Some (day, month, year) /\
    ivfru_display loc (boot files shell) = Some ((IVFRU_RET_SUCCESS, image_lines day i c p m im), w') /\
    lx_files w' = files /\ lx_shell w' = shell.
Proof.
  intros Hf Hsm Ha Hh Him Hd. destruct (display_mem_run _ _ _ _ _ _ _ _ _ _ _ Hh Him Hd) as (day & month & year & Hdec & Hrun).
  pose proof (image_nonempty _ _ _ _ Him) as Hne. assert (Hpos : 0 < zlen content < 2 ^ 31) by lia.
  exists day, month, year. eexists. split; [done|]. split.
  - unfold ivfru_display. rewrite (or_return_run _ _ _ _ _ (lx_read_boot loc files shell content Hf Hpos Ha)).
    rewrite with_buffer_lx, get_lx by lia.
    rewrite (lift_run _ _ _ _ (validate_accept _ _ _ _ true Him)).
    destruct Him as (Hch & Hok & Hs & Ht). destruct (render_bia_parts _ _ _ _ Hok Hs) as (_ & H1 & _).
    unfold BIA_length. rewrite (lift_run _ _ _ _ H1).
    rewrite (lift_run _ _ _ _ (image_old_format content false len im (conj Hch (conj Hok (conj Hs Ht))))).
    erewrite bind_run by reflexivity. rewrite (lift_run _ _ _ _ Hrun). reflexivity.
  - done.
Qed.

End display.

Lemma ivfru_display_prints_witness :
  exists day month year w', ipmi_time_to_date 128 81 1 = Some (day, month, year) /\
    @ivfru_display linux (@linux_plat (sample_libc 100) sample_board) "f" (boot sample_files1 []) =
      Some ((IVFRU_RET_SUCCESS, image_lines day 0 0 0 0 sample_area1), w') /\
    lx_files w' = sample_files1 /\ lx_shell w' = [].
Proof.
  refine (@ivfru_display_prints (sample_libc 100) sample_board "f" sample_files1 [] sample_image1 2 sample_area1
    0 0 0 0 0 128 81 1 _ _ _ _ sample1_is_image _); [done|done|done|by exists [], (render_bia 2 sample_area1)|done].
Defined.
