(* ===== verification/FruBoard.v ===== *)
(** * Board storage on Linux ([recipes-bsp/ivfru/files/ivfru_plat.c])

    Where the identity of a board is stored (the device tree under /proc), how it is
    read and written (the tool eeprog for an EEPROM on an I2C bus, an MTD partition and
    the tool flashcp for QSPI flash) and the write-protect pin.  Device-tree properties,
    sysfs attributes and MTD devices are files of [lx_files]. *)
From S2P Require Import Prelude CString FruField FruPlat FruOps.

#[local] Open Scope string_scope.
#[local] Open Scope list_scope.
#[local] Open Scope Z_scope.

Abbreviation files := (gmap string (list Z)).

(** ** The system *)

(** What the process gets from the kernel, the shell and its tools.  [sh] runs a
    command on an input: its exit status, its output and the files afterwards;
    [pipe_takes] and [disk_takes] say how many bytes of a write get through. *)
Class LinuxIO := {
  vla_slack : Z;
  stack_ok : Z -> bool;
  can_open : string -> bool;
  can_popen : string -> bool;
  sh : string -> list Z -> files -> Z * list Z * files;
  pipe_takes : string -> Z -> Z;
  disk_takes : string -> Z -> Z;
  opendir : files -> string -> option (list string);
  readlink : files -> string -> option string;
  past_name : string -> list Z;
  mkstemp : files -> option string;
  can_remove : string -> bool
}.

Definition lx_add_shell (cmd : string) (input : list Z) (f : files) (w : linux) : linux :=
  Linux (lx_heap w) (lx_image_buffer w) (lx_buffer_size w) (lx_image_size w) f (lx_shell w ++ [(cmd, input)]).

Section board.
Context `{LinuxIO}.

(** Strings built in a variable-length array: the bytes its alignment leaves unused
    after it can be written without harm. *)
Definition vla_str (size : Z) (parts : list string) : option string := strbuild (size + vla_slack) parts.

Definition run_shell (cmd : string) (input : list Z) : M linux (Z * list Z) :=
  fun w => let '(status, out, f) := sh cmd input (lx_files w) in
           Some ((status, out), lx_add_shell cmd input f w).
Definition system (cmd : string) : M linux Z := '(status, _) ← run_shell cmd []; mret status.

Definition get_files : M linux files := fun w => Some (lx_files w, w).
Definition readable (path : string) : M linux bool := fun w => Some (bool_decide (is_Some (lx_files w !! path)), w).
Definition open_read (path : string) : M linux (option (list Z)) :=
  fun w => Some (if can_open path then lx_files w !! path else None, w).
Definition set_file (path : string) (content : list Z) : M linux unit :=
  fun w => Some (tt, lx_with_files (<[path := content]> (lx_files w)) w).
Definition dir_entries (path : string) : M linux (option (list string)) :=
  fun w => Some (opendir (lx_files w) path, w).

(** ** The device tree *)

Definition IPMI_DT_PATH : string := "/proc/device-tree/iv_ipmi/".
Definition BOARD_PREFIX : string := "iv_".
Definition ZYNQMP_GPIO_OFNODE : string := "/axi/gpio@ff0a0000".
Definition MAX_QSPI_PART_LABEL_LEN : Z := 100.
Definition MAX_MTD_FILE_PATH : Z := 256.

(** [n] reads of four bytes and [ntohl] of each; [None] when one is short. *)
Fixpoint read_words (n : nat) (content : list Z) : option (list Z) :=
  match n with
  | O => Some []
  | S n =>
    match content with
    | a :: b :: c :: d :: rest =>
      ws ← read_words n rest; Some (Z.shiftl a 24 + Z.shiftl b 16 + Z.shiftl c 8 + d :: ws)
    | _ => None
    end
  end.

(** Bus, address and offset. *)
Definition get_i2c_info_from_dt (board : ivfru_board) : M linux (ivfru_ret + Z * Z * Z) :=
  match ivfru_board2str board with
  | None => mret (inl IVFRU_RET_INVALID_ARGUMENT)
  | Some board_str =>
    let path_len := strlen IPMI_DT_PATH + strlen BOARD_PREFIX + strlen board_str + 1 + 4 + 1 in
    path ← lift (vla_str path_len [IPMI_DT_PATH; BOARD_PREFIX; board_str; "/i2c"]);
    acc ← readable path;
    if negb acc then mret (inl IVFRU_RET_INVALID_DEVICE_TREE) else
    fd ← open_read path;
    match fd with
    | None => mret (inl IVFRU_RET_IO_ERROR)
    | Some content =>
      match read_words 3 content with
      | Some [bus; addr; ipmi_offset] => mret (inr (bus, addr, ipmi_offset))
      | _ => mret (inl IVFRU_RET_IO_ERROR)
      end
    end
  end.

(** [strtoul(entry->d_name + 8, &end, 10)] and the test of [end]; a name of fewer than
    eight characters is read beyond its end. *)
Definition name_base (name : string) : option Z :=
  let s := if strlen name <? 8 then past_name name else drop 8 (bytes name) in
  match strtoul 10 s with (v, []) => if 0 <? zlen s then Some (to_i32 v) else None | _ => None end.

(** The loop over the entries of the expander's directory: [base]. *)
Fixpoint i2c_gpio_base (entries : list string) : Z :=
  match entries with
  | [] => -1
  | name :: entries => match name_base name with Some base => base | None => i2c_gpio_base entries end
  end.

(** The comparison of the end of [ofpath]; shorter links are read before their start,
    and one that fills the array is terminated after its end. *)
Definition is_zynqmp_gpio (ofpath : string) : option bool :=
  if (1000 <=? strlen ofpath) || (strlen ofpath <? strlen ZYNQMP_GPIO_OFNODE) then None
  else Some (bool_decide (String.substring (Z.to_nat (strlen ofpath - strlen ZYNQMP_GPIO_OFNODE))
                            (String.length ZYNQMP_GPIO_OFNODE) ofpath = ZYNQMP_GPIO_OFNODE)).

(** The loop over /sys/class/gpio/. *)
Fixpoint gpiochip_base (f : files) (entries : list string) : option Z :=
  match entries with
  | [] => Some (-1)
  | name :: entries =>
    if negb (String.prefix "gpiochip" name) then gpiochip_base f entries else
    match readlink f (snprintf 99 ("/sys/class/gpio/" +:+ name +:+ "/device/of_node")) with
    | None => gpiochip_base f entries
    | Some ofpath =>
      if strlen ofpath <? 1 then gpiochip_base f entries else
      same ← is_zynqmp_gpio ofpath;
      if negb same then gpiochip_base f entries else
      match name_base name with Some base => Some base | None => gpiochip_base f entries end
    end
  end.

(** The pin and its active level. *)
Definition get_wp_info_from_dt (board : ivfru_board) : M linux (ivfru_ret + Z * Z) :=
  match ivfru_board2str board with
  | None => mret (inl IVFRU_RET_INVALID_ARGUMENT)
  | Some board_str =>
    let path_len := strlen IPMI_DT_PATH + strlen BOARD_PREFIX + strlen board_str + 1 + 2 + 1 + 8 + 1 in
    path_gpio ← lift (vla_str path_len [IPMI_DT_PATH; BOARD_PREFIX; board_str; "/wp/"; "/gpio"]);
    path_i2c_gpio ← lift (vla_str path_len [IPMI_DT_PATH; BOARD_PREFIX; board_str; "/wp/"; "/i2c_gpio"]);
    acc_i2c ← readable path_i2c_gpio;
    acc ← readable path_gpio;
    if (acc_i2c : bool) then
      fd ← open_read path_i2c_gpio;
      match fd with
      | None => mret (inl IVFRU_RET_IO_ERROR)
      | Some content =>
        match read_words 4 content with
        | Some [bus; addr; gpio; active] =>
          dir ← dir_entries (snprintf 99 ("/sys/bus/i2c/devices/" +:+ pretty (to_i32 bus) +:+ "-00" +:+ hex2 addr +:+ "/gpio/"));
          match dir with
          | None => mret (inl IVFRU_RET_IO_ERROR)
          | Some entries =>
            let base := i2c_gpio_base entries in
            if base =? -1 then mret (inl IVFRU_RET_INVALID_DEVICE_TREE) else mret (inr (u32 (gpio + base), active))
          end
        | _ => mret (inl IVFRU_RET_IO_ERROR)
        end
      end
    else if (acc : bool) then
      fd ← open_read path_gpio;
      match fd with
      | None => mret (inl IVFRU_RET_IO_ERROR)
      | Some content =>
        match read_words 2 content with
        | Some [gpio; active] =>
          dir ← dir_entries "/sys/class/gpio/";
          match dir with
          | None => mret (inl IVFRU_RET_IO_ERROR)
          | Some entries =>
            f ← get_files; base ← lift (gpiochip_base f entries);
            if base =? -1 then mret (inl IVFRU_RET_INVALID_DEVICE_TREE) else mret (inr (u32 (gpio + base), active))
          end
        | _ => mret (inl IVFRU_RET_IO_ERROR)
        end
      end
    else mret (inl IVFRU_RET_INVALID_DEVICE_TREE)
  end.

(** The label of the partition and the offset in it. *)
Definition get_qspi_info_from_dt (board : ivfru_board) : M linux (ivfru_ret + list Z * Z) :=
  match ivfru_board2str board with
  | None => mret (inl IVFRU_RET_INVALID_ARGUMENT)
  | Some board_str =>
    let path_len := strlen IPMI_DT_PATH + strlen BOARD_PREFIX + strlen board_str + 1 + 11 + 1 in
    path ← lift (vla_str path_len [IPMI_DT_PATH; BOARD_PREFIX; board_str; "/qspi"]);
    acc ← readable path;
    if negb acc then mret (inl IVFRU_RET_INVALID_DEVICE_TREE) else
    fd ← open_read path;
    match fd with
    | None => mret (inl IVFRU_RET_IO_ERROR)
    | Some content =>
      let len := zlen content in
      if MAX_QSPI_PART_LABEL_LEN <? len then mret (inl IVFRU_RET_INVALID_DEVICE_TREE) else
      let ipmi_label := cstr content in
      path ← lift (vla_str path_len [path; "_offset"]);
      acc ← readable path;
      if negb acc then mret (inr (ipmi_label, 0)) else
      fd ← open_read path;
      match fd with
      | None => mret (inl IVFRU_RET_IO_ERROR)
      | Some content =>
        match read_words 1 content with
        | Some [qspi_offset] => mret (inr (ipmi_label, qspi_offset))
        | _ => mret (inl IVFRU_RET_IO_ERROR)
        end
      end
    end
  end.

(** [fgets] of the first line, without its end. *)
Fixpoint line_end (l : list Z) : list Z :=
  match l with
  | [] => []
  | c :: l => if (c =? 0) || (c =? 10) || (c =? 13) then [] else c :: line_end l
  end.
Definition first_line (content : list Z) : list Z := line_end (take (Z.to_nat (MAX_MTD_FILE_PATH - 1)) content).

(** The loop over /sys/class/mtd/: the device of the first partition with that name. *)
Fixpoint mtd_loop (f : files) (ipmi_label : list Z) (entries : list string) : option (ivfru_ret + string) :=
  match entries with
  | [] => Some (inl IVFRU_RET_INVALID_DEVICE_TREE)
  | name :: entries =>
    let path := snprintf MAX_MTD_FILE_PATH ("/sys/class/mtd/" +:+ name +:+ "/name") in
    match (if can_open path then f !! path else None) with
    | Some (c :: content) =>
      if bool_decide (first_line (c :: content) = ipmi_label) then
        mtd ← strbuild MAX_MTD_FILE_PATH ["/dev/"; name]; Some (inr mtd)
      else mtd_loop f ipmi_label entries
    | _ => mtd_loop f ipmi_label entries
    end
  end.
Definition get_mtd_info_from_label (ipmi_label : list Z) : M linux (ivfru_ret + string) :=
  dir ← dir_entries "/sys/class/mtd/";
  match dir with
  | None => mret (inl IVFRU_RET_IO_ERROR)
  | Some entries => f ← get_files; lift (mtd_loop f ipmi_label entries)
  end.

(** ** EEPROM *)

Definition i2c_bus (bus : Z) : string := snprintf 19 ("/dev/i2c-" +:+ pretty bus).

(** [while(read < size) { ret = fread(...); ... read += ret; }] on the output of the
    tool; at its end [fread] returns 0. *)
Fixpoint read_loop (fuel : nat) (out : list Z) (read size : Z) : option (list Z) :=
  if read <? size then
    match fuel with
    | O => None
    | S fuel =>
      let got := take (Z.to_nat (size - read)) out in
      rest ← read_loop fuel (drop (length got) out) (read + zlen got) size; Some (got ++ rest)
    end
  else Some [].

Definition eeprog_read_cmd (bus addr offset size : Z) : string :=
  snprintf 100 ("eeprog " +:+ i2c_bus bus +:+ " 0x" +:+ hex2 (u32 addr) +:+ " -q -f -16 -r " +:+
                pretty offset +:+ ":" +:+ pretty size).
Definition eeprog_write_cmd (bus addr offset : Z) : string :=
  snprintf 100 ("eeprog " +:+ i2c_bus bus +:+ " 0x" +:+ hex2 (u32 addr) +:+ " -q -f -16 -w " +:+ pretty offset).

(** The code and the bytes stored.  Every iteration that reads something reads at
    least a byte, and one that does not is repeated for ever. *)
Definition ivfru_read_i2c (bus addr offset size : Z) : M linux (ivfru_ret * list Z) :=
  let cmd := eeprog_read_cmd bus addr offset size in
  if negb (can_popen cmd) then mret (IVFRU_RET_IO_ERROR, []) else
  '(_, out) ← run_shell cmd [];
  data ← lift (read_loop (S (Z.to_nat size)) out 0 size);
  mret (IVFRU_RET_SUCCESS, data).

Definition ivfru_write_i2c (bus addr offset : Z) (data : list Z) : M linux ivfru_ret :=
  let cmd := eeprog_write_cmd bus addr offset in
  if negb (can_popen cmd) then mret IVFRU_RET_IO_ERROR else
  let n := pipe_takes cmd (zlen data) in
  _ ← run_shell cmd (take (Z.to_nat n) data);
  if negb (n =? zlen data) then mret IVFRU_RET_IO_ERROR else mret IVFRU_RET_SUCCESS.

(** ** QSPI flash *)

(** [lseek] of a device: it cannot be left. *)
Definition lseek (content : list Z) (offset : Z) : Z :=
  if (offset <? 0) || (zlen content <? offset) then -1 else offset.

Definition ivfru_read_qspi (mtd_path : string) (offset size : Z) : M linux (ivfru_ret * list Z) :=
  fd ← open_read mtd_path;
  match fd with
  | None => mret (IVFRU_RET_IO_ERROR, [])
  | Some content =>
    if negb (lseek content offset =? offset) then mret (IVFRU_RET_IO_ERROR, []) else
    let data := take (Z.to_nat size) (drop (Z.to_nat offset) content) in
    let read := if size <? 0 then -1 else zlen data in
    if negb (read =? size) then mret (IVFRU_RET_IO_ERROR, data) else mret (IVFRU_RET_SUCCESS, data)
  end.

(** [write] to the temporary file: whether all of it got through. *)
Definition append_temp (temp_file : string) (data : list Z) : M linux bool :=
  fun w =>
  let n := disk_takes temp_file (zlen data) in
  let content := default [] (lx_files w !! temp_file) in
  Some (n =? zlen data, lx_with_files (<[temp_file := content ++ take (Z.to_nat n) data]> (lx_files w)) w).

Definition remove_file (path : string) : M linux unit :=
  fun w => Some (tt, if can_remove path then lx_with_files (delete path (lx_files w)) w else w).

Definition flashcp_cmd (temp_file mtd_path : string) : string :=
  snprintf 100 ("flashcp -v " +:+ temp_file +:+ " " +:+ mtd_path).

Definition ivfru_write_qspi (mtd_path : string) (qspi_offset : Z) (data : list Z) : M linux ivfru_ret :=
  f ← get_files;
  match mkstemp f with
  | None => mret IVFRU_RET_IO_ERROR
  | Some temp_file =>
    _ ← set_file temp_file [];
    ret ← (if 0 <? qspi_offset then
             if negb (stack_ok qspi_offset) then lift None else
             '(ret, temp) ← ivfru_read_qspi mtd_path 0 (to_i32 qspi_offset);
             if negb (bool_decide (ret = IVFRU_RET_SUCCESS)) then mret ret else
             ok ← append_temp temp_file temp;
             mret (if (ok : bool) then IVFRU_RET_SUCCESS else IVFRU_RET_IO_ERROR)
           else mret IVFRU_RET_SUCCESS);
    if negb (bool_decide (ret = IVFRU_RET_SUCCESS)) then mret ret else
    ok ← append_temp temp_file data;
    if negb (ok : bool) then mret IVFRU_RET_IO_ERROR else
    status ← system (flashcp_cmd temp_file mtd_path);
    if negb (status =? 0) then mret IVFRU_RET_IO_ERROR else
    _ ← remove_file temp_file;
    mret IVFRU_RET_SUCCESS
  end.

(** ** The interface *)

Definition ivfru_plat_read_from_board (board : ivfru_board) (offset size : Z) (quiet : bool)
    : M linux (ivfru_ret * list Z) :=
  i2c ← get_i2c_info_from_dt board;
  match i2c with
  | inr (bus, addr, ipmi_offset) =>
    '(r, data) ← ivfru_read_i2c (to_i32 bus) (to_i32 addr) (to_i32 (u32 (ipmi_offset + offset))) size;
    if negb (bool_decide (r = IVFRU_RET_SUCCESS)) then mret (IVFRU_RET_IO_ERROR, data)
    else mret (IVFRU_RET_SUCCESS, data)
  | inl _ =>
    qspi ← get_qspi_info_from_dt board;
    match qspi with
    | inr (ipmi_label, qspi_offset) =>
      mtd ← get_mtd_info_from_label ipmi_label;
      match mtd with
      | inl _ => mret (IVFRU_RET_INVALID_DEVICE_TREE, [])
      | inr mtd_path =>
        '(r, data) ← ivfru_read_qspi mtd_path (to_i32 (u32 (qspi_offset + offset))) size;
        if negb (bool_decide (r = IVFRU_RET_SUCCESS)) then mret (IVFRU_RET_IO_ERROR, data)
        else mret (IVFRU_RET_SUCCESS, data)
      end
    | inl _ => mret (IVFRU_RET_INVALID_DEVICE_TREE, [])
    end
  end.

(** The commands that drive the write-protect pin. *)
Definition gpio_export (gpio : Z) : string := "echo " +:+ pretty gpio +:+ " > /sys/class/gpio/export".
Definition gpio_out (gpio : Z) : string := "echo out > /sys/class/gpio/gpio" +:+ pretty gpio +:+ "/direction".
Definition gpio_value (value gpio : Z) : string :=
  "echo " +:+ pretty value +:+ " > /sys/class/gpio/gpio" +:+ pretty gpio +:+ "/value".
Definition gpio_unexport (gpio : Z) : string := "echo " +:+ pretty gpio +:+ " > /sys/class/gpio/unexport".

Definition ivfru_plat_write_to_board (board : ivfru_board) (mem : list Z) : M linux ivfru_ret :=
  i2c ← get_i2c_info_from_dt board;
  match i2c with
  | inr (bus, addr, ipmi_offset) =>
    gpioret ← get_wp_info_from_dt board;
    _ ← (match gpioret with
         | inr (gpio, active) =>
           let gpio := to_i32 gpio in let active := to_i32 active in
           _ ← system (gpio_export gpio);
           _ ← system (gpio_out gpio);
           _ ← system (gpio_value (if active =? 0 then 1 else 0) gpio); mret tt
         | inl _ => mret tt end);
    ret ← ivfru_write_i2c (to_i32 bus) (to_i32 addr) (to_i32 ipmi_offset) mem;
    _ ← (match gpioret with
         | inr (gpio, active) =>
           let gpio := to_i32 gpio in let active := to_i32 active in
           _ ← system (gpio_value active gpio);
           _ ← system (gpio_unexport gpio); mret tt
         | inl _ => mret tt end);
    if negb (bool_decide (ret = IVFRU_RET_SUCCESS)) then mret IVFRU_RET_IO_ERROR else mret IVFRU_RET_SUCCESS
  | inl _ =>
    qspi ← get_qspi_info_from_dt board;
    match qspi with
    | inr (ipmi_label, qspi_offset) =>
      mtd ← get_mtd_info_from_label ipmi_label;
      match mtd with
      | inl _ => mret IVFRU_RET_INVALID_DEVICE_TREE
      | inr mtd_path =>
        ret ← ivfru_write_qspi mtd_path qspi_offset mem;
        if negb (bool_decide (ret = IVFRU_RET_SUCCESS)) then mret IVFRU_RET_IO_ERROR else mret IVFRU_RET_SUCCESS
      end
    | inl _ => mret IVFRU_RET_INVALID_DEVICE_TREE
    end
  end.

#[export] Instance linux_board : BoardIO :=
  {| board_read := ivfru_plat_read_from_board; board_write := ivfru_plat_write_to_board |}.
End board.
