(* ===== verification/FruBoardProps.v ===== *)
(** * Board storage on Linux: properties

    What the device tree says about a board, the transfers to and from an EEPROM and a
    flash partition, the write-protect pin, and an image written to flash by one process
    and read back by another. *)
From S2P Require Import Prelude CString FruField FruValidate FruDate FruPlat FruOps FruEdit FruCreate FruCommands FruBoard.

#[local] Open Scope string_scope.
#[local] Open Scope list_scope.
#[local] Open Scope Z_scope.

(** ** Reading an image *)

Section read.
Context `{Libc} `{BoardIO}.

(** A reservation in a running process, whether the block moves or not. *)
Lemma lx_reserve_any n p b sz files log : 0 < n -> alloc_ok n = true ->
  exists q, lx_reserve_memory n (running p b sz files log) = Some (IVFRU_RET_SUCCESS, running q (resize_bytes b n) sz files log).
Proof.
  intros Hn Ha. destruct (realloc_moves (zlen b) n) eqn:Hm; [|exists p; by apply lx_reserve_running].
  unfold lx_reserve_memory, running, realloc. cbn [lx_image_buffer lx_heap]. rewrite lookup_singleton_eq.
  rewrite (proj2 (Z.eqb_neq n 0)), (proj2 (Z.ltb_lt 0 n)), Ha, Hm by lia. cbn [andb].
  eexists. rewrite delete_singleton_eq, zlen_resize by lia. reflexivity.
Qed.

Lemma read_into_lx board p b b' off offset size quiet bytes sz files log :
  board_read board offset size quiet (running p b sz files log) = Some ((IVFRU_RET_SUCCESS, bytes), running p b sz files log) ->
  wr_range b off bytes = Some b' ->
  read_board_into board p off offset size quiet (running p b sz files log) = Some (IVFRU_RET_SUCCESS, running p b' sz files log).
Proof.
  intros Hr Hw. unfold read_board_into. rewrite (bind_run _ _ _ _ _ Hr).
  assert (Hl : zlen b' = zlen b) by (by eapply zlen_wr).
  by rewrite (upd_lx _ _ _ b tt b') by (done || by rewrite Hw).
Qed.

Context (board : ivfru_board) (loc : string) (files : gmap string (list Z)) (log : list (string * list Z)) (img : list Z).
Context (Hread : forall offset size w, lx_files w = files -> 0 <= offset -> 0 <= size -> offset + size <= zlen img ->
  board_read board offset size false w = Some ((IVFRU_RET_SUCCESS, take (Z.to_nat size) (drop (Z.to_nat offset) img)), w)).
Context (Hwrite : can_write loc = true) (Halloc : forall n, 0 < n < 2 ^ 31 -> alloc_ok n = true).

(** [ivfru_read] keeps as much as the length byte says; the length 64 is taken for the
    old format. *)
Lemma ivfru_read_run l :
  let n := 8 + (if l =? 64 then 64 else l * 8) in
  ld img 9 = Some l -> is_byte l -> 2 <= l -> n <= zlen img ->
  exists w', ivfru_read board loc false (boot files log) = Some (IVFRU_RET_SUCCESS, w') /\
    lx_files w' = <[loc := take (Z.to_nat n) img]> files.
Proof using Hread Hwrite Halloc.
  intros n Hl Hby Hl2 Hn. unfold is_byte in Hby. assert (Hn14 : 24 <= n < 2 ^ 31) by (unfold n; case_match; bool_to_prop; lia).
  unfold ivfru_read. change (sizeof_CH + sizeof_BIA) with 14.
  rewrite (or_return_run _ _ _ _ _ (lx_reserve_boot 14 files log ltac:(lia) (Halloc 14 ltac:(lia)))).
  pose proof (zlen_resize [] 14 ltac:(lia)) as Hz. rewrite with_buffer_lx by lia.
  set (hd := take 14 img). assert (Hhd : zlen hd = 14) by (apply (zlen_take img 14); lia).
  erewrite or_return_run.
  2:{ apply (read_into_lx _ _ _ hd _ _ _ _ hd); [by apply (Hread 0 14); [|lia..]|].
      pose proof (wr_mid [] (resize_bytes [] 14) [] 0 hd eq_refl (eq_trans Hhd (eq_sym Hz))) as E. by rewrite !app_nil_l, !app_nil_r in E. }
  rewrite get_lx. assert (Hl' : ld hd 9 = Some l).
  { rewrite <- (take_drop 14 img), ld_app_l in Hl by (fold hd; lia). exact Hl. }
  change (sizeof_CH + BIA_length) with 9. rewrite (lift_run _ _ _ _ Hl').
  set (rem := (if negb (l =? 64) then l * 8 else l) - sizeof_BIA).
  assert (Hrem : 14 + rem = n).
  { unfold rem, n. change sizeof_BIA with 6. destruct (l =? 64) eqn:E; cbn [negb]; bool_to_prop; lia. }
  rewrite Hrem. destruct (lx_reserve_any n block0 hd 0 files log ltac:(lia) (Halloc n ltac:(lia))) as [q Hq].
  rewrite (or_return_run _ _ _ _ _ Hq). clear Hq.
  pose proof (resize_prefix hd n ltac:(lia)) as [tail Htail]. pose proof (zlen_resize hd n ltac:(lia)) as Hzn.
  rewrite with_buffer_lx by lia. rewrite Htail in *.
  set (rest := take (Z.to_nat rem) (drop 14 img)).
  assert (Hrest : zlen rest = rem) by (apply zlen_take; change 14%nat with (Z.to_nat 14); rewrite zlen_drop by lia; lia).
  assert (Hall : hd ++ rest = take (Z.to_nat n) img).
  { unfold hd, rest. rewrite take_take_drop. f_equal. lia. }
  erewrite or_return_run.
  2:{ apply (read_into_lx _ _ _ (hd ++ rest) _ _ _ _ rest); [apply (Hread 14 rem); [done|lia..]|].
      rewrite <- (app_nil_r (hd ++ tail)), <- (app_nil_r (hd ++ rest)), <- !(assoc_L (++)).
      apply wr_mid; [done|]. rewrite zlen_app in Hzn. lia. }
  cbn [negb]. rewrite set_size_lx. rewrite (write_lx _ _ _ _ _ _ _ _ (hd ++ rest)); [|done|zl|].
  2:{ rewrite <- (app_nil_r (hd ++ rest)) at 1. apply (rd_mid []); [done|]. zl. }
  eexists. split; [reflexivity|]. cbn. by rewrite Hall.
Qed.
End read.

(** ** The device tree *)

(** The directory of a board. *)
Definition board_dir (board : ivfru_board) : string :=
  IPMI_DT_PATH +:+ BOARD_PREFIX +:+ default "" (ivfru_board2str board).

Definition is_board (board : ivfru_board) : Prop := board <> MAX_IVFRU_BOARD.

(** A property of the board in the files. *)
Definition board_prop (f : files) (board : ivfru_board) (name : string) : option (list Z) :=
  f !! (board_dir board +:+ name).

Section board.
Context `{Libc} `{LinuxIO}.
Context (Hslack : 0 <= vla_slack) (Hopen : forall path, can_open path = true).

Lemma strlen_dir board : is_board board -> strlen (board_dir board) = 31.
Proof. intros Hb. by destruct board; [..|done]. Qed.

(** A path below the directory of a board fits its array, up to the slack after it. *)
Lemma board_path board s leaf size : is_board board -> ivfru_board2str board = Some s ->
  strlen leaf + 32 <= size + vla_slack ->
  vla_str size [IPMI_DT_PATH; BOARD_PREFIX; s; leaf] = Some (board_dir board +:+ leaf).
Proof.
  intros Hb Hs Hl.
  assert (E : foldr String.append "" [IPMI_DT_PATH; BOARD_PREFIX; s; leaf] = board_dir board +:+ leaf).
  { cbn [foldr]. unfold board_dir. rewrite Hs. cbn [default]. by rewrite <- !string_app_assoc, string_app_nil. }
  unfold vla_str. rewrite strbuild_ok; rewrite E; [done|].
  rewrite strlen_app, strlen_dir by done. lia.
Qed.

Lemma board_name board : is_board board -> exists s, ivfru_board2str board = Some s /\ strlen s = 2.
Proof. intros Hb. destruct board; [by eexists..|done]. Qed.

Lemma readable_run path w : readable path w = Some (bool_decide (is_Some (lx_files w !! path)), w).
Proof. done. Qed.
Lemma open_run path w : open_read path w = Some (lx_files w !! path, w).
Proof using Hopen. unfold open_read. by rewrite Hopen. Qed.

(** Case analysis on the presence of the file that is tested for. *)
Ltac present :=
  match goal with
  | |- context [bool_decide (is_Some (lx_files ?w !! ?p))] =>
      let c := fresh "content" in let E := fresh "E" in destruct (lx_files w !! p) as [c|] eqn:E;
      [rewrite bool_decide_true by done|rewrite bool_decide_false by (by intros [? ?])]; cbn [negb]
  end.

(** What the I2C property says. *)
Definition i2c_info (content : option (list Z)) : ivfru_ret + Z * Z * Z :=
  match content with
  | None => inl IVFRU_RET_INVALID_DEVICE_TREE
  | Some content =>
    match read_words 3 content with Some [bus; addr; off] => inr (bus, addr, off) | _ => inl IVFRU_RET_IO_ERROR end
  end.

Lemma get_i2c_run board w : is_board board ->
  get_i2c_info_from_dt board w = Some (i2c_info (board_prop (lx_files w) board "/i2c"), w).
Proof using Hslack Hopen.
  intros Hb. unfold get_i2c_info_from_dt, board_prop. destruct (board_name board Hb) as (s & Hs & Hl). rewrite Hs.
  erewrite lift_run by (apply (board_path board s "/i2c"); [done|done|rewrite Hl; change (4 + 32 <= 37 + vla_slack); lia]).
  rewrite (bind_run _ _ _ _ _ (readable_run _ _)). present; [|done].
  rewrite (bind_run _ _ _ _ _ (open_run _ _)), E. unfold i2c_info. by repeat case_match.
Qed.

(** What the QSPI properties say. *)
Definition qspi_info (content offset : option (list Z)) : ivfru_ret + list Z * Z :=
  match content with
  | None => inl IVFRU_RET_INVALID_DEVICE_TREE
  | Some content =>
    if MAX_QSPI_PART_LABEL_LEN <? zlen content then inl IVFRU_RET_INVALID_DEVICE_TREE else
    match offset with
    | None => inr (cstr content, 0)
    | Some offset =>
      match read_words 1 offset with Some [o] => inr (cstr content, o) | _ => inl IVFRU_RET_IO_ERROR end
    end
  end.

Lemma get_qspi_run board w : is_board board ->
  get_qspi_info_from_dt board w =
    Some (qspi_info (board_prop (lx_files w) board "/qspi") (board_prop (lx_files w) board "/qspi_offset"), w).
Proof using Hslack Hopen.
  intros Hb. unfold get_qspi_info_from_dt, board_prop. destruct (board_name board Hb) as (s & Hs & Hl). rewrite Hs.
  erewrite lift_run by (apply (board_path board s "/qspi"); [done|done|rewrite Hl; change (5 + 32 <= 44 + vla_slack); lia]).
  rewrite (bind_run _ _ _ _ _ (readable_run _ _)). present; [|done].
  rewrite (bind_run _ _ _ _ _ (open_run _ _)), E. unfold qspi_info. case_if; [done|].
  erewrite lift_run; [|apply strbuild_ok; rewrite Hl; cbn [foldr]; rewrite string_app_nil, !strlen_app, strlen_dir by done; change (31 + 5 + 7 + 1 <= 44 + vla_slack); lia].
  cbn [foldr]. rewrite string_app_nil, <- string_app_assoc. change ("/qspi" +:+ "_offset") with "/qspi_offset".
  rewrite (bind_run _ _ _ _ _ (readable_run _ _)). present; [|done].
  rewrite (bind_run _ _ _ _ _ (open_run _ _)), E0. by repeat case_match.
Qed.

(** What the write-protect properties say. *)
Definition wp_pin (gpio active base : Z) : ivfru_ret + Z * Z :=
  if base =? -1 then inl IVFRU_RET_INVALID_DEVICE_TREE else inr (u32 (gpio + base), active).
Definition wp_info (f : files) (i2c_gpio gpio : option (list Z)) : option (ivfru_ret + Z * Z) :=
  match i2c_gpio, gpio with
  | Some content, _ =>
    match read_words 4 content with
    | Some [bus; addr; gpio; active] =>
      match opendir f (snprintf 99 ("/sys/bus/i2c/devices/" +:+ pretty (to_i32 bus) +:+ "-00" +:+ hex2 addr +:+ "/gpio/")) with
      | None => Some (inl IVFRU_RET_IO_ERROR)
      | Some entries => Some (wp_pin gpio active (i2c_gpio_base entries))
      end
    | _ => Some (inl IVFRU_RET_IO_ERROR)
    end
  | None, Some content =>
    match read_words 2 content with
    | Some [gpio; active] =>
      match opendir f "/sys/class/gpio/" with
      | None => Some (inl IVFRU_RET_IO_ERROR)
      | Some entries => base ← gpiochip_base f entries; Some (wp_pin gpio active base)
      end
    | _ => Some (inl IVFRU_RET_IO_ERROR)
    end
  | None, None => Some (inl IVFRU_RET_INVALID_DEVICE_TREE)
  end.

Lemma get_wp_run board w : is_board board ->
  get_wp_info_from_dt board w =
    if vla_slack <? 1 then None
    else match wp_info (lx_files w) (board_prop (lx_files w) board "/wp//i2c_gpio") (board_prop (lx_files w) board "/wp//gpio") with
         | Some r => Some (r, w) | None => None end.
Proof using Hslack Hopen.
  intros Hb. unfold get_wp_info_from_dt, board_prop. destruct (board_name board Hb) as (s & Hs & Hl). rewrite Hs.
  change (vla_str ?n [IPMI_DT_PATH; BOARD_PREFIX; s; "/wp/"; "/gpio"]) with (vla_str n [IPMI_DT_PATH; BOARD_PREFIX; s; "/wp//gpio"]).
  change (vla_str ?n [IPMI_DT_PATH; BOARD_PREFIX; s; "/wp/"; "/i2c_gpio"]) with (vla_str n [IPMI_DT_PATH; BOARD_PREFIX; s; "/wp//i2c_gpio"]).
  erewrite lift_run by (apply (board_path board s "/wp//gpio"); [done|done|rewrite Hl; change (9 + 32 <= 44 + vla_slack); lia]).
  destruct (vla_slack <? 1) eqn:Es; bool_to_prop.
  { unfold vla_str, strbuild. cbn [foldr]. rewrite string_app_nil, !strlen_app, Hl.
    by rewrite (proj2 (Z.leb_gt _ _)) by (change (44 + vla_slack < 26 + (3 + (2 + 13)) + 1); lia). }
  erewrite lift_run by (apply (board_path board s "/wp//i2c_gpio"); [done|done|rewrite Hl; change (13 + 32 <= 44 + vla_slack); lia]).
  rewrite (bind_run _ _ _ _ _ (readable_run _ _)), (bind_run _ _ _ _ _ (readable_run _ _)).
  unfold wp_info, wp_pin. present.
  - rewrite (bind_run _ _ _ _ _ (open_run _ _)), E.
    destruct (read_words 4 _) as [[|bus [|addr [|gpio [|active [|]]]]]|]; try done.
    unfold mbind, M_bind, dir_entries, mret, M_ret. destruct (opendir _ _); [|done]. by case_if.
  - present; [|done]. rewrite (bind_run _ _ _ _ _ (open_run _ _)), E0.
    destruct (read_words 2 _) as [[|gpio [|active [|]]]|]; try done.
    unfold mbind, M_bind, dir_entries, mret, M_ret. destruct (opendir _ _) as [entries|]; [|done].
    unfold get_files, lift. cbn [option_bind]. destruct (gpiochip_base _ _) as [base|]; [|done]. cbn. by case_if.
Qed.

(** ** Commands *)

(** The system after [cmds] have run, one after the other. *)
Definition run_cmds (cmds : list (string * list Z)) (w : linux) : linux :=
  foldl (fun w c => lx_add_shell c.1 c.2 (sh c.1 c.2 (lx_files w)).2 w) w cmds.

Lemma run_cmds_app l1 l2 w : run_cmds (l1 ++ l2) w = run_cmds l2 (run_cmds l1 w).
Proof. apply foldl_app. Qed.

Lemma run_shell_run cmd input w : run_shell cmd input w = Some ((sh cmd input (lx_files w)).1, run_cmds [(cmd, input)] w).
Proof. unfold run_shell, run_cmds. cbn [foldl fst snd]. by destruct (sh cmd input _) as [[??]?]. Qed.

Lemma system_run {A} cmd (k : Z -> M linux A) w :
  (system cmd ≫= k) w = k (sh cmd [] (lx_files w)).1.1 (run_cmds [(cmd, [])] w).
Proof.
  apply bind_run. unfold system. rewrite (bind_run _ _ _ _ _ (run_shell_run _ _ _)). by destruct (sh cmd [] _).1.
Qed.

(** The commands that let the chip be written, and that protect it again. *)
Definition unprotect (wp : ivfru_ret + Z * Z) : list (string * list Z) :=
  match wp with
  | inl _ => []
  | inr (gpio, active) =>
    [(gpio_export (to_i32 gpio), []); (gpio_out (to_i32 gpio), []);
     (gpio_value (if to_i32 active =? 0 then 1 else 0) (to_i32 gpio), [])]
  end.
Definition protect (wp : ivfru_ret + Z * Z) : list (string * list Z) :=
  match wp with
  | inl _ => []
  | inr (gpio, active) => [(gpio_value (to_i32 active) (to_i32 gpio), []); (gpio_unexport (to_i32 gpio), [])]
  end.

Lemma write_i2c_run bus addr off data w :
  let cmd := eeprog_write_cmd bus addr off in
  let n := pipe_takes cmd (zlen data) in
  ivfru_write_i2c bus addr off data w =
    Some (if can_popen cmd && (n =? zlen data) then IVFRU_RET_SUCCESS else IVFRU_RET_IO_ERROR,
          run_cmds (if can_popen cmd then [(cmd, take (Z.to_nat n) data)] else []) w).
Proof.
  intros cmd n. unfold ivfru_write_i2c. fold cmd. destruct (can_popen cmd); cbn [negb andb]; [|done].
  fold n. rewrite (bind_run _ _ _ _ _ (run_shell_run _ _ _)). by destruct (n =? zlen data).
Qed.

(** The loop of [ivfru_read_i2c]: at the end of the output it makes no progress. *)
Lemma read_loop_short size fuel : forall out read, read + zlen out < size -> read_loop fuel out read size = None.
Proof.
  induction fuel as [|fuel IH]; intros out read Hs; cbn [read_loop]; pose proof (zlen_nonneg out);
    rewrite (proj2 (Z.ltb_lt _ _)) by lia; [done|].
  rewrite take_ge by (unfold zlen in *; lia). by rewrite IH by (rewrite drop_all; zl).
Qed.

Lemma read_loop_enough size fuel out : 0 <= size <= zlen out -> read_loop (S fuel) out 0 size = Some (take (Z.to_nat size) out).
Proof.
  intros Hs. cbn [read_loop]. case_if; [|by replace size with 0 by lia].
  rewrite Z.sub_0_r, zlen_take by lia. replace (0 + size) with size by lia.
  assert (E : forall out, read_loop fuel out size size = Some []) by (intros; destruct fuel; cbn [read_loop]; by rewrite Z.ltb_irrefl).
  rewrite E. cbn. by rewrite app_nil_r.
Qed.

Lemma read_i2c_run bus addr off size w :
  let cmd := eeprog_read_cmd bus addr off size in
  ivfru_read_i2c bus addr off size w =
    if negb (can_popen cmd) then Some ((IVFRU_RET_IO_ERROR, []), w)
    else match read_loop (S (Z.to_nat size)) (sh cmd [] (lx_files w)).1.2 0 size with
         | Some data => Some ((IVFRU_RET_SUCCESS, data), run_cmds [(cmd, [])] w)
         | None => None end.
Proof.
  intros cmd. unfold ivfru_read_i2c. fold cmd. destruct (can_popen cmd); cbn [negb]; [|done].
  rewrite (bind_run _ _ _ _ _ (run_shell_run _ _ _)). destruct (sh cmd [] _).1 as [status out]. cbn [snd].
  unfold mbind, M_bind, lift. by destruct (read_loop _ out 0 size).
Qed.

(** ** Flash *)

(** A board whose identity is in the partition [mtd], from [off] on. *)
Record flash_board (f : files) (board : ivfru_board) (label : list Z) (off : Z) (mtd : string) (dev : list Z) : Prop := {
  fb_i2c : exists e, i2c_info (board_prop f board "/i2c") = inl e;
  fb_qspi : qspi_info (board_prop f board "/qspi") (board_prop f board "/qspi_offset") = inr (label, off);
  fb_mtd : exists entries, opendir f "/sys/class/mtd/" = Some entries /\ mtd_loop f label entries = Some (inr mtd);
  fb_dev : f !! mtd = Some dev
}.

(** The tools: temporary files are new files in /tmp, the directory of partitions does
    not depend on other files, and flashcp writes a file to the beginning of a device
    and may erase what follows. *)
Record flash_tools : Prop := {
  ft_mkstemp : forall f tmp, mkstemp f = Some tmp -> exists x, tmp = "/tmp/temp_" +:+ x /\ strlen x = 6 /\ f !! tmp = None;
  ft_disk : forall path n, disk_takes path n = n;
  ft_opendir : forall f f', (forall y, f !! ("/sys/" +:+ y) = f' !! ("/sys/" +:+ y)) ->
    opendir f "/sys/class/mtd/" = opendir f' "/sys/class/mtd/";
  ft_flashcp : forall f tmp mtd content dev, f !! tmp = Some content -> f !! mtd = Some dev ->
    zlen content <= zlen dev -> strlen tmp = 16 -> strlen mtd <= 71 ->
    exists out tail, sh (flashcp_cmd tmp mtd) [] f = (0, out, <[mtd := content ++ tail]> f) /\
      zlen (content ++ tail) = zlen dev
}.

Lemma get_mtd_run f board label off mtd dev w : flash_board f board label off mtd dev -> lx_files w = f ->
  get_mtd_info_from_label label w = Some (inr mtd, w).
Proof.
  intros [_ _ (entries & Hd & Hl) _] <-. unfold get_mtd_info_from_label, mbind, M_bind, dir_entries, get_files, lift.
  by rewrite Hd, Hl.
Qed.

Lemma read_qspi_run mtd off size w dev : lx_files w !! mtd = Some dev -> 0 <= off -> 0 <= size -> off + size <= zlen dev ->
  ivfru_read_qspi mtd off size w = Some ((IVFRU_RET_SUCCESS, take (Z.to_nat size) (drop (Z.to_nat off) dev)), w).
Proof using Hopen.
  intros Hd Hz Hs Hl. unfold ivfru_read_qspi. rewrite (bind_run _ _ _ _ _ (open_run _ _)), Hd.
  assert (E : lseek dev off = off) by (unfold lseek; by rewrite (proj2 (Z.ltb_ge _ _)), (proj2 (Z.ltb_ge _ _)) by lia).
  rewrite E, Z.eqb_refl. cbn [negb]. rewrite (proj2 (Z.ltb_ge size 0)) by lia.
  rewrite zlen_take by (rewrite zlen_drop; lia). by rewrite Z.eqb_refl.
Qed.

Lemma flash_read_run w board label off mtd dev offset size quiet : is_board board ->
  flash_board (lx_files w) board label off mtd dev -> 0 <= off -> 0 <= offset -> 0 <= size -> off + offset < 2 ^ 31 ->
  off + offset + size <= zlen dev ->
  ivfru_plat_read_from_board board offset size quiet w =
    Some ((IVFRU_RET_SUCCESS, take (Z.to_nat size) (drop (Z.to_nat (off + offset)) dev)), w).
Proof using Hslack Hopen.
  intros Hb Hf Hz Ho Hs Hi Hl. unfold ivfru_plat_read_from_board. rewrite (bind_run _ _ _ _ _ (get_i2c_run board w Hb)).
  pose proof Hf as [[e ->] Hq _ Hd]. rewrite (bind_run _ _ _ _ _ (get_qspi_run board w Hb)), Hq.
  rewrite (bind_run _ _ _ _ _ (get_mtd_run _ _ _ _ _ _ w Hf eq_refl)).
  rewrite u32_small, to_i32_small by lia.
  by rewrite (bind_run _ _ _ _ _ (read_qspi_run mtd (off + offset) size w dev Hd ltac:(lia) Hs Hl)).
Qed.

(** Reading behind what is in front of the offset. *)
Lemma flash_read_back w board label off mtd pre img offset size quiet : is_board board ->
  flash_board (lx_files w) board label off mtd (pre ++ img) -> zlen pre = off -> zlen pre + zlen img < 2 ^ 31 ->
  0 <= offset -> 0 <= size -> offset + size <= zlen img ->
  ivfru_plat_read_from_board board offset size quiet w =
    Some ((IVFRU_RET_SUCCESS, take (Z.to_nat size) (drop (Z.to_nat offset) img)), w).
Proof using Hslack Hopen.
  intros Hb Hf Hp Hmax Ho Hs Hin. rewrite (flash_read_run w board label off mtd _ offset size quiet Hb Hf) by zl.
  do 3 f_equal. replace (Z.to_nat (off + offset)) with (Z.to_nat off + Z.to_nat offset)%nat by zl.
  by rewrite <- drop_drop, drop_app_length' by (unfold zlen in Hp; lia).
Qed.

Lemma append_temp_run tmp data content w : flash_tools -> lx_files w !! tmp = Some content ->
  append_temp tmp data w = Some (true, lx_with_files (<[tmp := content ++ data]> (lx_files w)) w).
Proof.
  intros Ht Hc. unfold append_temp. rewrite (ft_disk Ht), Z.eqb_refl, Hc. cbn [default].
  by rewrite to_nat_zlen, firstn_all.
Qed.

(** The file flashcp gets: what is in front of the offset, and the data. *)
Lemma write_qspi_run mtd off data w dev tmp : flash_tools -> mkstemp (lx_files w) = Some tmp -> lx_files w !! mtd = Some dev ->
  0 <= off < 2 ^ 31 -> off + zlen data <= zlen dev -> stack_ok off = true -> strlen mtd <= 71 ->
  exists tail w', ivfru_write_qspi mtd off data w = Some (IVFRU_RET_SUCCESS, w') /\
    zlen (take (Z.to_nat off) dev ++ data ++ tail) = zlen dev /\
    lx_files w' !! mtd = Some (take (Z.to_nat off) dev ++ data ++ tail) /\
    forall p, p <> mtd -> p <> tmp -> lx_files w' !! p = lx_files w !! p.
Proof using Hopen.
  intros Ht Etmp Hd Ho Hl Hst Hm. destruct (ft_mkstemp Ht _ _ Etmp) as (x & Ex & Hx & Hnew).
  assert (Hlt : strlen tmp = 16) by (by rewrite Ex, strlen_app, Hx).
  assert (Hne : tmp <> mtd) by congruence. pose proof (zlen_nonneg data) as Hdn.
  unfold ivfru_write_qspi. erewrite bind_run by reflexivity. rewrite Etmp. erewrite bind_run by reflexivity.
  set (w1 := lx_with_files (<[tmp := []]> (lx_files w)) w).
  set (w2 := lx_with_files (<[tmp := take (Z.to_nat off) dev]> (lx_files w)) w).
  erewrite (bind_run _ _ w1 IVFRU_RET_SUCCESS w2).
  2:{ destruct (0 <? off) eqn:E; bool_to_prop.
    - rewrite Hst. cbn [negb]. rewrite to_i32_small by lia. erewrite bind_run.
      2:{ apply (read_qspi_run mtd 0 off w1 dev); [|lia..]. unfold w1. cbn [lx_files lx_with_files]. by rewrite lookup_insert_ne. }
      cbv beta iota. rewrite bool_decide_true by done. cbn [negb]. cbn [Z.to_nat drop].
      erewrite bind_run by (apply append_temp_run; [done|apply lookup_insert_eq]).
      unfold w1, w2, lx_with_files. cbn [lx_files lx_heap lx_image_buffer lx_buffer_size lx_image_size lx_shell].
      by rewrite insert_insert_eq.
    - unfold w1, w2. by replace off with 0 by lia. }
  rewrite bool_decide_true by done. cbn [negb].
  erewrite bind_run by (apply append_temp_run; [done|apply lookup_insert_eq]). cbn [negb].
  set (pre := take (Z.to_nat off) dev) in *. assert (Hpl : zlen pre = off) by (apply zlen_take; lia).
  destruct (ft_flashcp Ht (<[tmp := pre ++ data]> (lx_files w)) tmp mtd (pre ++ data) dev) as (out & tail & Hsh & Hz);
    [apply lookup_insert_eq|by rewrite lookup_insert_ne|zl|done|done|].
  rewrite system_run. unfold w2, lx_with_files, run_cmds, lx_add_shell.
  cbn [foldl fst snd lx_files lx_heap lx_image_buffer lx_buffer_size lx_image_size lx_shell].
  rewrite insert_insert_eq, Hsh. cbn [fst snd Z.eqb negb].
  exists tail. eexists. split_and!; [by unfold remove_file, mbind, M_bind, mret, M_ret|by rewrite (assoc_L (++))| |].
  - case_match; cbn [lx_files lx_with_files]; [rewrite lookup_delete_ne by done|]; by rewrite lookup_insert_eq, (assoc_L (++)).
  - intros p Hpm Hpt. case_match; cbn [lx_files lx_with_files]; [rewrite lookup_delete_ne by done|]; by rewrite !lookup_insert_ne by done.
Qed.

Lemma mtd_name_path x : exists y, snprintf MAX_MTD_FILE_PATH ("/sys/class/mtd/" +:+ x) = "/sys/class/mtd/" +:+ y.
Proof.
  unfold snprintf. change (Z.to_nat (MAX_MTD_FILE_PATH - 1)) with (15 + 240)%nat.
  exists (String.substring 0 240 x). reflexivity.
Qed.

Lemma mtd_loop_agree f f' label entries : (forall y, f !! ("/sys/" +:+ y) = f' !! ("/sys/" +:+ y)) ->
  mtd_loop f label entries = mtd_loop f' label entries.
Proof.
  intros Hf. induction entries as [|name entries IH]; [done|]. cbn [mtd_loop]. 
  destruct (mtd_name_path (name +:+ "/name")) as [y ->].
  change ("/sys/class/mtd/" +:+ y) with ("/sys/" +:+ ("class/mtd/" +:+ y)). rewrite Hf, IH. done.
Qed.

Lemma mtd_loop_dev f label entries mtd : mtd_loop f label entries = Some (inr mtd) -> exists name, mtd = "/dev/" +:+ name.
Proof.
  induction entries as [|name entries IH]; cbn [mtd_loop]; [done|].
  destruct (if can_open _ then _ else _) as [[|c content]|]; [done| |done]. case_if; [|done].
  unfold strbuild. case_match; [|done]. intros [= <-]. by eexists.
Qed.

(** Writing the partition changes nothing of what finds it. *)
Lemma flash_board_after f f' board label off mtd dev dev' tmp : flash_tools -> is_board board -> mkstemp f = Some tmp ->
  flash_board f board label off mtd dev -> f' !! mtd = Some dev' ->
  (forall p, p <> mtd -> p <> tmp -> f' !! p = f !! p) ->
  flash_board f' board label off mtd dev'.
Proof.
  intros Ht Hb Etmp [Hi Hq (entries & Hd & Hl) _] Hm Hf. destruct (ft_mkstemp Ht _ _ Etmp) as (x & -> & _ & _). destruct (mtd_loop_dev _ _ _ _ Hl) as [name ->].
  assert (Hp : forall leaf, board_prop f' board leaf = board_prop f board leaf).
  { intros leaf. unfold board_prop. by apply Hf; destruct board. }
  assert (Hs : forall y, f !! ("/sys/" +:+ y) = f' !! ("/sys/" +:+ y)) by (intros y; by rewrite Hf).
  split; rewrite ?Hp; [done..| |done]. exists entries.
  by rewrite <- (ft_opendir Ht f f' Hs), <- (mtd_loop_agree f f' _ _ Hs).
Qed.

Lemma flash_write_run w board label off mtd dev data tmp : is_board board -> flash_tools -> mkstemp (lx_files w) = Some tmp ->
  flash_board (lx_files w) board label off mtd dev -> 0 <= off < 2 ^ 31 -> off + zlen data <= zlen dev ->
  stack_ok off = true -> strlen mtd <= 71 ->
  exists tail w', ivfru_plat_write_to_board board data w = Some (IVFRU_RET_SUCCESS, w') /\
    zlen (take (Z.to_nat off) dev ++ data ++ tail) = zlen dev /\
    flash_board (lx_files w') board label off mtd (take (Z.to_nat off) dev ++ data ++ tail) /\
    forall p, p <> mtd -> p <> tmp -> lx_files w' !! p = lx_files w !! p.
Proof using Hslack Hopen.
  intros Hb Ht Etmp Hf Ho Hl Hst Hm. pose proof Hf as [[e Ei] Hq _ Hd].
  destruct (write_qspi_run mtd off data w dev tmp Ht Etmp Hd Ho Hl Hst Hm) as (tail & w' & Hrun & Hz & Hdev & Hsame).
  exists tail, w'. split_and!; [|done|by eapply flash_board_after|done].
  unfold ivfru_plat_write_to_board. rewrite (bind_run _ _ _ _ _ (get_i2c_run board w Hb)), Ei.
  rewrite (bind_run _ _ _ _ _ (get_qspi_run board w Hb)), Hq.
  rewrite (bind_run _ _ _ _ _ (get_mtd_run _ _ _ _ _ _ w Hf eq_refl)). by rewrite (bind_run _ _ _ _ _ Hrun).
Qed.

(** ** Properties *)

(** Writing a board whose identity is in an EEPROM runs exactly these commands: the
    write-protect pin, when there is one, is exported, made an output and deasserted;
    the tool gets the data; and whatever became of that, the pin is asserted and
    unexported again.  The array for the path of the pin is a byte too short: without
    unused bytes after it the function has undefined behaviour on every board. *)
Theorem i2c_write_protects board w bus addr off wp data :
  is_board board -> i2c_info (board_prop (lx_files w) board "/i2c") = inr (bus, addr, off) ->
  wp_info (lx_files w) (board_prop (lx_files w) board "/wp//i2c_gpio") (board_prop (lx_files w) board "/wp//gpio") = Some wp ->
  let cmd := eeprog_write_cmd (to_i32 bus) (to_i32 addr) (to_i32 off) in
  let n := pipe_takes cmd (zlen data) in
  ivfru_plat_write_to_board board data w =
    if vla_slack <? 1 then None
    else Some (if can_popen cmd && (n =? zlen data) then IVFRU_RET_SUCCESS else IVFRU_RET_IO_ERROR,
               run_cmds (unprotect wp ++ (if can_popen cmd then [(cmd, take (Z.to_nat n) data)] else []) ++ protect wp) w).
Proof using Hslack Hopen.
  intros Hb Hi Hw cmd n. unfold ivfru_plat_write_to_board.
  rewrite (bind_run _ _ _ _ _ (get_i2c_run board w Hb)), Hi. pose proof (get_wp_run board w Hb) as Hwp. rewrite Hw in Hwp.
  destruct (vla_slack <? 1); [unfold mbind at 1, M_bind; by rewrite Hwp|].
  rewrite (bind_run _ _ _ _ _ Hwp). rewrite !run_cmds_app.
  erewrite (bind_run _ _ _ tt (run_cmds (unprotect wp) w)).
  2:{ destruct wp as [|[gpio active]]; [done|]. by rewrite !system_run. }
  rewrite (bind_run _ _ _ _ _ (write_i2c_run _ _ _ _ _)). fold cmd n.
  erewrite (bind_run _ _ _ tt (run_cmds (protect wp) _)).
  2:{ destruct wp as [|[gpio active]]; [done|]. by rewrite !system_run. }
  by destruct (can_popen cmd && (n =? zlen data)).
Qed.

(** Reading a board whose identity is in an EEPROM returns the first [size] bytes the
    tool prints; when it prints fewer, the loop goes on for ever, however often it is
    repeated. *)
Theorem i2c_read_exact board w bus addr off offset size quiet :
  is_board board -> i2c_info (board_prop (lx_files w) board "/i2c") = inr (bus, addr, off) -> 0 <= size ->
  let cmd := eeprog_read_cmd (to_i32 bus) (to_i32 addr) (to_i32 (u32 (off + offset))) size in
  let out := (sh cmd [] (lx_files w)).1.2 in
  let result := ivfru_plat_read_from_board board offset size quiet w in
  if negb (can_popen cmd) then result = Some ((IVFRU_RET_IO_ERROR, []), w)
  else if size <=? zlen out then
    result = Some ((IVFRU_RET_SUCCESS, take (Z.to_nat size) out), run_cmds [(cmd, [])] w)
  else result = None /\ forall fuel, read_loop fuel out 0 size = None.
Proof using Hslack Hopen.
  intros Hb Hi Hs cmd out result. unfold result, ivfru_plat_read_from_board.
  rewrite (bind_run _ _ _ _ _ (get_i2c_run board w Hb)), Hi.
  unfold mbind, M_bind. rewrite read_i2c_run. fold cmd. destruct (can_popen cmd); cbn [negb]; [|done]. fold out.
  case_if; [by rewrite read_loop_enough by lia|].
  by split; [rewrite read_loop_short by lia|intros fuel; apply read_loop_short; lia].
Qed.

(** Writing a board whose identity is in a flash partition puts the data at the
    offset of the device tree, keeps what is in front of it, and changes no file but the
    partition and the temporary file; reading any part of it back gives what was
    written. *)
Theorem flash_write_read w board label off mtd dev data tmp offset size quiet :
  is_board board -> flash_tools -> mkstemp (lx_files w) = Some tmp -> flash_board (lx_files w) board label off mtd dev ->
  0 <= off -> zlen dev < 2 ^ 31 -> off + zlen data <= zlen dev -> stack_ok off = true -> strlen mtd <= 71 ->
  0 <= offset -> 0 <= size -> offset + size <= zlen data -> 0 < zlen data ->
  exists tail w', ivfru_plat_write_to_board board data w = Some (IVFRU_RET_SUCCESS, w') /\
    lx_files w' !! mtd = Some (take (Z.to_nat off) dev ++ data ++ tail) /\
    (forall p, p <> mtd -> p <> tmp -> lx_files w' !! p = lx_files w !! p) /\
    ivfru_plat_read_from_board board offset size quiet w' =
      Some ((IVFRU_RET_SUCCESS, take (Z.to_nat size) (drop (Z.to_nat offset) data)), w').
Proof using Hslack Hopen.
  intros Hb Ht Etmp Hf Ho Hmax Hl Hst Hm Hoff Hs Hin Hpos.
  destruct (flash_write_run w board label off mtd dev data tmp) as (tail & w' & Hrun & Hz & Hf' & Hsame); [done..|lia|done|done|done|].
  exists tail, w'. split_and!; [done|apply Hf'|done|].
  rewrite zlen_app in Hz. rewrite (flash_read_back w' board label off mtd _ (data ++ tail) offset size quiet Hb Hf');
    [|apply zlen_take; lia|lia|done|done|rewrite zlen_app; pose proof (zlen_nonneg tail); lia].
  do 3 f_equal. rewrite drop_app_le, take_app_le; [done|rewrite length_drop|]; unfold zlen in *; lia.
Qed.

(** C14: an image file written to a flash board by [ivfru_write] and read back in another
    process by [ivfru_read] is the image; only an area of 512 bytes comes back cut to 64,
    because its length byte, 64, is taken for the old format. *)
Theorem flash_image_round_trip board label off mtd dev tmp loc loc2 files log content len im :
  is_board board -> flash_tools -> mkstemp files = Some tmp -> flash_board files board label off mtd dev ->
  0 <= off -> zlen dev < 2 ^ 31 -> stack_ok off = true -> strlen mtd <= 71 ->
  files !! loc = Some content -> zlen content < 2 ^ 31 -> fru_image content false len im -> is_byte len ->
  off + 8 + bia_total im <= zlen dev ->
  can_write loc2 = true -> (forall n, 0 < n < 2 ^ 31 -> alloc_ok n = true) ->
  exists data rest w1 w2, content = data ++ rest /\ zlen data = 8 + bia_total im /\
    ivfru_write board loc (boot files log) = Some (IVFRU_RET_SUCCESS, w1) /\
    ivfru_read board loc2 false (boot (lx_files w1) (lx_shell w1)) = Some (IVFRU_RET_SUCCESS, w2) /\
    lx_files w2 !! loc2 = Some (if len =? 64 then take 72 data else data).
Proof using Hslack Hopen.
  intros Hb Ht Etmp Hf Ho Hmax Hst Hm Hfile Hsm Him Hby Hfit Hw2 Halloc.
  destruct (write_valid loc files log Halloc board content len im Hfile Hsm Him) as (data & rest & Hc & Hz & Hwr).
  pose proof (zlen_nonneg data).
  destruct (flash_write_run (running block0 content 0 files log) board label off mtd dev data tmp)
    as (tail & w' & Hrun & Hzd & Hf' & _); [done..|lia|lia|done|done|].
  assert (Hwr' : ivfru_write board loc (boot files log) = Some (IVFRU_RET_SUCCESS, lx_with_image_size (zlen data) w')).
  { rewrite Hwr. by rewrite (or_return_run _ _ _ _ _ Hrun). }
  set (pre := take (Z.to_nat off) dev) in *. assert (Hpre : zlen pre = off) by (apply zlen_take; lia).
  rewrite zlen_app in Hzd.
  pose proof Him as (_ & Hok & Hseg & Htot). destruct (render_bia_parts _ _ _ _ Hok Hseg) as (_ & Hlen & _).
  assert (Hge : 9 <= bia_total im).
  { unfold bia_total. pose proof (zlen_nonneg (render_fields (bi_predef im))). pose proof (zlen_nonneg (render_fields (bi_custom im))). lia. }
  rewrite Hc, ld_app_l in Hlen by (unfold sizeof_CH; lia). change (sizeof_CH + 1) with 9 in Hlen.
  destruct (ivfru_read_run board loc2 (lx_files w') (lx_shell w') (data ++ tail)) with (l := len) as (w2 & Hrd & Hf2); try done.
  - intros offset size w Hw Hof Hsi Hin.
    rewrite <- Hw in Hf'. cbn [board_read linux_board].
    apply (flash_read_back w board label off mtd pre (data ++ tail)); done || lia.
  - rewrite ld_app_l by lia. done.
  - lia.
  - zl. case_if; lia.
  - exists data, rest, (lx_with_image_size (zlen data) w'), w2. split_and!; [done..|exact Hrd|].
    rewrite Hf2, lookup_insert_eq. f_equal. case_match; bool_to_prop.
    + rewrite take_app_le; [done|]. unfold zlen in *; lia.
    + replace (8 + len * 8) with (zlen data) by lia. by rewrite to_nat_zlen, take_app_length.
Qed.
End board.

(** ** Concrete inputs *)

(** A shell whose flashcp keeps the rest of the partition, and whose other commands print
    four bytes; one file name for temporary files. *)
Definition sample_sh (cmd : string) (input : list Z) (f : files) : Z * list Z * files :=
  if String.prefix "flashcp -v " cmd then
    let tmp := String.substring 11 16 cmd in
    let mtd := String.substring 28 71 cmd in
    match f !! tmp, f !! mtd with
    | Some content, Some dev => (0, [], <[mtd := content ++ drop (length content) dev]> f)
    | _, _ => (1, [], f)
    end
  else (0, [1; 2; 3; 4], f).

Definition sample_io (slack : Z) : LinuxIO :=
  {| vla_slack := slack; stack_ok := fun _ => true; can_open := fun _ => true; can_popen := fun _ => true; sh := sample_sh;
     pipe_takes := fun _ n => n; disk_takes := fun _ n => n;
     opendir := fun _ path => if bool_decide (path = "/sys/class/mtd/") then Some ["."; ".."; "mtd0"; "mtd1"]
                              else if bool_decide (path = "/sys/class/gpio/") then Some ["."; "gpiochip338"] else None;
     readlink := fun _ _ => Some "../../firmware/devicetree/base/axi/gpio@ff0a0000"; past_name := fun _ => [];
     mkstemp := fun f => match f !! "/tmp/temp_aaaaaa" with None => Some "/tmp/temp_aaaaaa" | Some _ => None end;
     can_remove := fun _ => true |}.

Lemma sample_flashcp tmp mtd : strlen tmp = 16 -> strlen mtd <= 71 ->
  exists cmd, flashcp_cmd tmp mtd = cmd /\ String.prefix "flashcp -v " cmd = true /\
    String.substring 11 16 cmd = tmp /\ String.substring 28 71 cmd = mtd.
Proof.
  intros Ht Hm. eexists. split; [reflexivity|]. unfold flashcp_cmd, snprintf.
  rewrite substring_all.
  2:{ assert (Hl : strlen ("flashcp -v " +:+ tmp +:+ " " +:+ mtd) <= 99).
      { rewrite !strlen_app, Ht. change (11 + (16 + (1 + strlen mtd)) <= 99). lia. }
      unfold strlen in Hl. change (Z.to_nat (100 - 1)) with 99%nat. lia. }
  assert (Htl : String.length tmp = 16%nat) by (unfold strlen in Ht; lia). split_and!.
  - apply prefix_app.
  - etransitivity; [exact (substring_skip "flashcp -v " (tmp +:+ " " +:+ mtd) 0 16)|]. rewrite <- Htl. apply substring_take.
  - etransitivity; [exact (substring_skip "flashcp -v " (tmp +:+ " " +:+ mtd) 17 71)|].
    pose proof (substring_skip tmp (" " +:+ mtd) 1 71) as E. rewrite Htl in E. etransitivity; [exact E|].
    etransitivity; [exact (substring_skip " " mtd 0 71)|]. apply substring_all.
    unfold strlen in Hm. lia.
Qed.

Lemma sample_flash_tools slack : @flash_tools (sample_io slack).
Proof.
  split; cbn [mkstemp disk_takes opendir sh sample_io]; [|done|done|].
  - intros f tmp Hf. destruct (f !! "/tmp/temp_aaaaaa") eqn:E; [done|]. injection Hf as <-. by exists "aaaaaa".
  - intros f tmp mtd content dev Ht Hm Hl Hlt Hlm. destruct (sample_flashcp tmp mtd Hlt Hlm) as (cmd & -> & Hp & H1 & H2).
    unfold sample_sh. rewrite Hp, H1, H2, Ht, Hm. exists [], (drop (length content) dev). split; [done|].
    unfold zlen in *. rewrite length_app, length_drop. lia.
Qed.

(** A board with its identity in the second partition, four bytes in. *)
Definition flash_files : files :=
  list_to_map [("/proc/device-tree/iv_ipmi/iv_mb/qspi", bytes "ipmi" ++ [0]);
    ("/proc/device-tree/iv_ipmi/iv_mb/qspi_offset", [0; 0; 0; 4]);
    ("/sys/class/mtd/mtd0/name", bytes "boot" ++ [10]); ("/sys/class/mtd/mtd1/name", bytes "ipmi" ++ [10]);
    ("/dev/mtd1", replicate 64 255); ("f", sample_image)].

Lemma flash_files_board slack : @flash_board (sample_io slack) flash_files IVFRU_BOARD_MB (bytes "ipmi") 4 "/dev/mtd1" (replicate 64 255).
Proof.
  split; [by eexists|reflexivity| |reflexivity]. exists ["."; ".."; "mtd0"; "mtd1"]. split; reflexivity.
Qed.

Lemma flash_write_read_witness :
  let w := boot flash_files [] in
  exists tail w', @ivfru_plat_write_to_board (sample_io 0) IVFRU_BOARD_MB [1; 2; 3] w = Some (IVFRU_RET_SUCCESS, w') /\
    lx_files w' !! "/dev/mtd1" = Some ([255; 255; 255; 255] ++ [1; 2; 3] ++ tail) /\
    (forall p, p <> "/dev/mtd1" -> p <> "/tmp/temp_aaaaaa" -> lx_files w' !! p = lx_files w !! p) /\
    @ivfru_plat_read_from_board (sample_io 0) IVFRU_BOARD_MB 1 2 false w' = Some ((IVFRU_RET_SUCCESS, [2; 3]), w').
Proof.
  refine (@flash_write_read (sample_io 0) _ _ (boot flash_files []) IVFRU_BOARD_MB (bytes "ipmi") 4 "/dev/mtd1" (replicate 64 255)
    [1; 2; 3] "/tmp/temp_aaaaaa" 1 2 false _ (sample_flash_tools 0) _ (flash_files_board 0) _ _ _ _ _ _ _ _ _); done.
Defined.

Lemma flash_image_round_trip_witness :
  exists data rest w1 w2, sample_image = data ++ rest /\ zlen data = 24 /\
    @ivfru_write linux (@linux_plat (sample_libc 10) (@linux_board (sample_io 0))) IVFRU_BOARD_MB "f" (boot flash_files []) =
      Some (IVFRU_RET_SUCCESS, w1) /\
    @ivfru_read linux (@linux_plat (sample_libc 10) (@linux_board (sample_io 0))) IVFRU_BOARD_MB "g" false
      (boot (lx_files w1) (lx_shell w1)) = Some (IVFRU_RET_SUCCESS, w2) /\
    lx_files w2 !! "g" = Some data.
Proof.
  refine (@flash_image_round_trip (sample_libc 10) (sample_io 0) _ _ IVFRU_BOARD_MB (bytes "ipmi") 4 "/dev/mtd1" (replicate 64 255)
    "/tmp/temp_aaaaaa" "f" "g" flash_files [] sample_image 2 sample_area _ (sample_flash_tools 0) _ (flash_files_board 0)
    _ _ _ _ _ _ sample_is_image _ _ _ _); done.
Defined.

(** A board with its identity in an EEPROM, protected by pin 5 of the first chip. *)
Definition eeprom_files : files :=
  list_to_map [("/proc/device-tree/iv_ipmi/iv_io/i2c", [0; 0; 0; 1; 0; 0; 0; 0x52; 0; 0; 0; 0]);
    ("/proc/device-tree/iv_ipmi/iv_io/wp//gpio", [0; 0; 0; 5; 0; 0; 0; 1])].

Lemma i2c_write_protects_witness :
  @ivfru_plat_write_to_board (sample_io 0) IVFRU_BOARD_IO [7; 8] (boot eeprom_files []) = None /\
  exists w', @ivfru_plat_write_to_board (sample_io 3) IVFRU_BOARD_IO [7; 8] (boot eeprom_files []) = Some (IVFRU_RET_SUCCESS, w') /\
    lx_shell w' = [("echo 343 > /sys/class/gpio/export", []); ("echo out > /sys/class/gpio/gpio343/direction", []);
      ("echo 0 > /sys/class/gpio/gpio343/value", []); ("eeprog /dev/i2c-1 0x52 -q -f -16 -w 0", [7; 8]);
      ("echo 1 > /sys/class/gpio/gpio343/value", []); ("echo 343 > /sys/class/gpio/unexport", [])].
Proof.
  split.
  - apply (@i2c_write_protects (sample_io 0) ltac:(done) ltac:(done) IVFRU_BOARD_IO (boot eeprom_files []) 1 0x52 0 (inr (343, 1)) [7; 8]); done.
  - eexists. split; [apply (@i2c_write_protects (sample_io 3) ltac:(done) ltac:(done) IVFRU_BOARD_IO (boot eeprom_files []) 1 0x52 0 (inr (343, 1)) [7; 8]); done|].
    vm_compute. reflexivity.
Defined.

Lemma i2c_read_exact_witness :
  (exists w', @ivfru_plat_read_from_board (sample_io 3) IVFRU_BOARD_IO 8 3 false (boot eeprom_files []) =
    Some ((IVFRU_RET_SUCCESS, [1; 2; 3]), w')) /\
  @ivfru_plat_read_from_board (sample_io 3) IVFRU_BOARD_IO 8 5 false (boot eeprom_files []) = None.
Proof.
  split.
  - eexists. refine (@i2c_read_exact (sample_io 3) _ _ IVFRU_BOARD_IO (boot eeprom_files []) 1 0x52 0 8 3 false _ _ _); done.
  - refine (proj1 (@i2c_read_exact (sample_io 3) _ _ IVFRU_BOARD_IO (boot eeprom_files []) 1 0x52 0 8 5 false _ _ _)); done.
Defined.
