(* ===== verification/FruCli.v ===== *)
(** * The command line of the Linux tool ([recipes-bsp/ivfru/files/ivfru.c])

    [main] finds the subcommand in a table, checks the number of arguments and runs its
    function on the arguments without the program's name; messages other than what
    [ivfru_display] prints are left out. *)
From S2P Require Import Prelude CString FruField FruPlat FruOps.

#[local] Open Scope string_scope.
#[local] Open Scope list_scope.
#[local] Open Scope Z_scope.

Inductive CommandRet := CMD_RET_SUCCESS | CMD_RET_FAILURE | CMD_RET_USAGE.
#[export] Instance CommandRet_eq_dec : EqDecision CommandRet.
Proof. solve_decision. Defined.

Section cli.
Context {W : Type} `{FruPlat W}.

(** [argv[i]]; the entry after the last argument is NULL, which every use of it here
    dereferences. *)
Definition arg (argv : list string) (i : nat) : M W string := lift (argv !! i).
Definition argc (argv : list string) : Z := zlen argv.

(** [n = strtol(s, &end, 10); if(end != s + strlen(s)) return CMD_RET_USAGE;] followed
    by [k]. *)
Definition int_arg {A} (s : string) (usage : A) (k : Z -> M W A) : M W A :=
  let '(n, end_) := strtol 10 (bytes s) in
  if negb (bool_decide (end_ = [])) then mret usage else k (to_i32 n).

(** The exit code, and the lines printed. *)
Abbreviation command := (list string -> M W (CommandRet * list display_line)).

Definition exit_code (err : ivfru_ret) : CommandRet :=
  if bool_decide (err = IVFRU_RET_SUCCESS) then CMD_RET_SUCCESS else CMD_RET_FAILURE.
(** An invalid argument counts as wrong usage. *)
Definition exit_code_usage (err : ivfru_ret) : CommandRet :=
  if bool_decide (err = IVFRU_RET_SUCCESS) then CMD_RET_SUCCESS
  else if bool_decide (err = IVFRU_RET_INVALID_ARGUMENT) then CMD_RET_USAGE else CMD_RET_FAILURE.

Definition do_ivfru_read : command := fun argv =>
  if argc argv <? 3 then mret (CMD_RET_USAGE, []) else
  name ← arg argv 1;
  let board := ivfru_str2board name in
  if bool_decide (board = MAX_IVFRU_BOARD) then mret (CMD_RET_USAGE, []) else
  location ← arg argv 2;
  err ← ivfru_read board location false;
  mret (exit_code err, []).

Definition do_ivfru_write : command := fun argv =>
  if argc argv <? 3 then mret (CMD_RET_USAGE, []) else
  name ← arg argv 1;
  let board := ivfru_str2board name in
  if bool_decide (board = MAX_IVFRU_BOARD) then mret (CMD_RET_USAGE, []) else
  location ← arg argv 2;
  err ← ivfru_write board location;
  mret (exit_code err, []).

Definition do_ivfru_display : command := fun argv =>
  if argc argv <? 2 then mret (CMD_RET_USAGE, []) else
  location ← arg argv 1;
  '(_, lines) ← ivfru_display location;
  mret (CMD_RET_SUCCESS, lines).

Definition do_ivfru_fix : command := fun argv =>
  if argc argv <? 2 then mret (CMD_RET_USAGE, []) else
  location ← arg argv 1;
  _ ← ivfru_fix location;
  mret (CMD_RET_SUCCESS, []).

Definition do_ivfru_create : command := fun argv =>
  if argc argv <? 6 then mret (CMD_RET_USAGE, []) else
  location ← arg argv 1; mfgdate ← arg argv 2; product ← arg argv 3; sn ← arg argv 4; pn ← arg argv 5;
  mfr ← (if 6 <? argc argv then m ← arg argv 6; mret (Some (bytes m)) else mret None);
  err ← ivfru_create location (Some (bytes mfgdate)) (Some (bytes product)) (Some (bytes sn)) (Some (bytes pn)) mfr;
  mret (exit_code_usage err, []).

Definition do_ivfru_xcreate : command := fun argv =>
  if (argc argv <? 9) || (argc argv =? 10) then mret (CMD_RET_USAGE, []) else
  location ← arg argv 1; mfgdate ← arg argv 2; product ← arg argv 3;
  s ← arg argv 4; int_arg s (CMD_RET_USAGE, []) (fun product_len =>
  sn ← arg argv 5;
  s ← arg argv 6; int_arg s (CMD_RET_USAGE, []) (fun sn_len =>
  pn ← arg argv 7;
  s ← arg argv 8; int_arg s (CMD_RET_USAGE, []) (fun pn_len =>
  let run := fun mfr mfr_len =>
    err ← ivfru_xcreate location (Some (bytes mfgdate)) (Some (bytes product)) product_len (Some (bytes sn)) sn_len
            (Some (bytes pn)) pn_len mfr mfr_len;
    mret (exit_code_usage err, []) in
  if 9 <? argc argv then
    mfr ← arg argv 9;
    s ← arg argv 10; int_arg s (CMD_RET_USAGE, []) (fun mfr_len => run (Some (bytes mfr)) mfr_len)
  else run None 0))).

(** The loop over the hexadecimal digits, two at a time ([len] iterations): the bytes, or
    [None] when a pair is not a number of two characters. *)
Fixpoint hex_loop (len : nat) (s : list Z) : option (list Z) :=
  match len, s with
  | S len, c1 :: c2 :: s =>
    match strtoul 16 [c1; c2] with
    | (v, []) => data ← hex_loop len s; Some (u8 v :: data)
    | _ => None
    end
  | _, _ => Some []
  end.

Definition do_ivfru_add : command := fun argv =>
  if argc argv <? 4 then mret (CMD_RET_USAGE, []) else
  location ← arg argv 1;
  s ← arg argv 2; int_arg s (CMD_RET_USAGE, []) (fun index =>
  hex ← arg argv 3;
  let len := strlen hex `quot` 2 in
  match hex_loop (Z.to_nat len) (bytes hex) with
  | None => mret (CMD_RET_USAGE, [])
  | Some data => err ← ivfru_add location index data len; mret (exit_code_usage err, [])
  end).

Definition do_ivfru_rm : command := fun argv =>
  if argc argv <? 3 then mret (CMD_RET_USAGE, []) else
  location ← arg argv 1;
  s ← arg argv 2; int_arg s (CMD_RET_USAGE, []) (fun index =>
  err ← ivfru_rm location index;
  mret (exit_code_usage err, [])).

Record CommandArgs := { subcommand : string; do_function : command; min_args : Z; max_args : Z }.

Definition command_args : list CommandArgs :=
  [ {| subcommand := "read"; do_function := do_ivfru_read; min_args := 3; max_args := 3 |};
    {| subcommand := "write"; do_function := do_ivfru_write; min_args := 3; max_args := 3 |};
    {| subcommand := "display"; do_function := do_ivfru_display; min_args := 2; max_args := 2 |};
    {| subcommand := "fix"; do_function := do_ivfru_fix; min_args := 2; max_args := 2 |};
    {| subcommand := "create"; do_function := do_ivfru_create; min_args := 6; max_args := 7 |};
    {| subcommand := "xcreate"; do_function := do_ivfru_xcreate; min_args := 9; max_args := 11 |};
    {| subcommand := "add"; do_function := do_ivfru_add; min_args := 4; max_args := 4 |};
    {| subcommand := "rm"; do_function := do_ivfru_rm; min_args := 3; max_args := 3 |} ].

(** The loop over the table. *)
Fixpoint command_loop (table : list CommandArgs) (argv : list string) (name : string) : M W (CommandRet * list display_line) :=
  match table with
  | [] => mret (CMD_RET_USAGE, [])
  | c :: table =>
    if bool_decide (subcommand c = name) then
      if (argc argv <? min_args c) || (max_args c <? argc argv) then mret (CMD_RET_USAGE, [])
      else do_function c argv
    else command_loop table argv name
  end.

Definition main (argv : list string) : M W (CommandRet * list display_line) :=
  if argc argv <? 2 then mret (CMD_RET_USAGE, []) else
  let argv := drop 1 argv in
  name ← arg argv 0;
  command_loop command_args argv name.
End cli.
