(* ===== verification/FruCliProps.v ===== *)
(** * The command line: properties

    A field given as hexadecimal digits ends up in the image; wrong invocations change
    nothing; which library errors the exit code shows. *)
From S2P Require Import Prelude CString FruField FruValidate FruDate FruPlat FruOps FruEdit FruCreate FruCommands FruCli.

#[local] Open Scope string_scope.
#[local] Open Scope list_scope.
#[local] Open Scope Z_scope.

(** ** Hexadecimal arguments *)

(** The digits of [data], as a user types them. *)
Definition hex_string (data : list Z) : string := foldr (fun b s => hex2 b +:+ s) "" data.

Lemma strlen_hex data : Forall is_byte data -> strlen (hex_string data) = 2 * zlen data.
Proof.
  induction 1 as [|b data Hb _ IH]; [done|]. cbn [hex_string foldr]. fold (hex_string data).
  rewrite strlen_app, (proj2 (hex2_byte b Hb)), IH. zl.
Qed.

Lemma hex_loop_string data : Forall is_byte data -> hex_loop (length data) (bytes (hex_string data)) = Some data.
Proof.
  induction 1 as [|b data Hb _ IH]; [done|]. cbn [hex_string foldr length]. fold (hex_string data). rewrite bytes_app.
  destruct (hex2_byte b Hb) as [Hr Hl]. rewrite <- zlen_bytes in Hl.
  destruct (bytes (hex2 b)) as [|c1 [|c2 [|]]]; [done|done| |by rewrite !zlen_cons in Hl; zl].
  cbn [app hex_loop]. rewrite Hr, IH. cbn. by rewrite u8_id.
Qed.

Section cli.
Context `{Libc} `{BoardIO}.

Lemma int_arg_run {A} s n (usage : A) (k : Z -> M linux A) w : strtol 10 (bytes s) = (n, []) -> int_arg s usage k w = k (to_i32 n) w.
Proof. intros Hs. unfold int_arg. rewrite Hs. by rewrite bool_decide_true. Qed.

(** ** Properties *)

(** [ivfru add file index hex] inserts the field whose bytes are written as
    hexadecimal digits, at the index written in decimal, into the image in the file, and
    exits with 0, when [realloc] leaves the buffer in place. *)
Theorem main_add_inserts prog loc sidx n files log content len im data :
  let im' := with_custom (insert_field (to_i32 n) (custom_field data) (bi_custom im)) im in
  strtol 10 (bytes sidx) = (n, []) -> Forall is_byte data ->
  files !! loc = Some content -> zlen content < 2 ^ 31 -> fru_image content false len im ->
  can_write loc = true -> (forall n, 0 < n < 2 ^ 31 -> alloc_ok n = true) ->
  is_byte len -> custom_len_ok (zlen data) -> realloc_moves (zlen content) (8 + bia_total im') = false ->
  exists h w', ch_ok false h /\
    main [prog; "add"; loc; sidx; hex_string data] (boot files log) = Some ((CMD_RET_SUCCESS, []), w') /\
    lx_files w' = <[loc := h ++ render_bia (u8 (new_len im')) im']> files /\ lx_shell w' = log.
Proof.
  intros im' Hs Hd Hfile Hsm Him Hwrite Halloc Hby Hlen Hmove.
  destruct (add_end loc files log content len im Hfile Hsm Him Hwrite Halloc (to_i32 n) data Hby Hlen Hd Hmove)
    as (h & w' & Hch & _ & Hadd & Hrest).
  exists h, w'. split; [done|]. split; [|done].
  change (main [prog; "add"; loc; sidx; hex_string data]) with (do_ivfru_add (W := linux) ["add"; loc; sidx; hex_string data]).
  unfold do_ivfru_add. change (argc _ <? 4) with false. cbv iota. erewrite bind_run by reflexivity. erewrite bind_run by reflexivity.
  rewrite (int_arg_run _ n) by done. erewrite bind_run by reflexivity.
  rewrite (strlen_hex data Hd). replace ((2 * zlen data) `quot` 2) with (zlen data) by (rewrite Z.mul_comm, Z.quot_mul; lia).
  rewrite to_nat_zlen, (hex_loop_string data Hd). by rewrite (bind_run _ _ _ _ _ Hadd).
Qed.

(** What [main] does when it knows the subcommand. *)
Definition known (name : string) : option CommandArgs :=
  snd <$> list_find (fun c => subcommand c = name) command_args.

(** Without a subcommand, with one that is not in the table, or with a number of
    arguments outside its range, [main] exits with CMD_RET_USAGE and changes nothing. *)
Theorem main_rejects (argv : list string) (w : linux) :
  match argv with
  | _ :: name :: args =>
    match known name with
    | Some c => argc (name :: args) < min_args c \/ max_args c < argc (name :: args)
    | None => True
    end
  | _ => True
  end -> main argv w = Some ((CMD_RET_USAGE, []), w).
Proof.
  destruct argv as [|prog [|name args]]; [done..|]. intros Hbad. unfold main. cbn [drop].
  rewrite (proj2 (Z.ltb_ge _ _)) by (unfold argc; zl). erewrite bind_run by reflexivity.
  unfold known in Hbad. induction command_args as [|c table IH]; [done|]. cbn [list_find command_loop] in *.
  destruct (decide (subcommand c = name)) as [Hc|Hc]; [rewrite bool_decide_true by done|rewrite bool_decide_false by done].
  - cbn [fmap option_fmap option_map snd] in Hbad. destruct Hbad as [Hb|Hb].
    + by rewrite (proj2 (Z.ltb_lt _ _)).
    + by rewrite (proj2 (Z.ltb_lt (max_args c) _)), orb_true_r.
  - apply IH. by destruct (list_find _ table) as [[]|].
Qed.

(** The exit code of each subcommand on well-formed arguments: success and failure
    of the library function are told apart, an invalid argument of [rm] and [create]
    counts as wrong usage; but [display] and [fix] exit with 0 whatever happened. *)
Theorem main_exit_codes prog name board loc sidx n date product sn pn w :
  ivfru_str2board name = board -> board <> MAX_IVFRU_BOARD -> strtol 10 (bytes sidx) = (n, []) ->
  (forall r w', ivfru_read board loc false w = Some (r, w') ->
     main [prog; "read"; name; loc] w = Some ((exit_code r, []), w')) /\
  (forall r w', ivfru_write board loc w = Some (r, w') ->
     main [prog; "write"; name; loc] w = Some ((exit_code r, []), w')) /\
  (forall r w', ivfru_rm loc (to_i32 n) w = Some (r, w') ->
     main [prog; "rm"; loc; sidx] w = Some ((exit_code_usage r, []), w')) /\
  (forall r w', ivfru_create loc (Some (bytes date)) (Some (bytes product)) (Some (bytes sn)) (Some (bytes pn)) None w = Some (r, w') ->
     main [prog; "create"; loc; date; product; sn; pn] w = Some ((exit_code_usage r, []), w')) /\
  (forall r lines w', ivfru_display loc w = Some ((r, lines), w') ->
     main [prog; "display"; loc] w = Some ((CMD_RET_SUCCESS, lines), w')) /\
  (forall r w', ivfru_fix loc w = Some (r, w') -> main [prog; "fix"; loc] w = Some ((CMD_RET_SUCCESS, []), w')).
Proof.
  intros Hn Hb Hs. split_and!.
  - intros r w' E. change (main [prog; "read"; name; loc]) with (do_ivfru_read (W := linux) ["read"; name; loc]).
    unfold do_ivfru_read. change (argc _ <? 3) with false. cbv iota. erewrite bind_run by reflexivity.
    rewrite Hn, bool_decide_false by done. erewrite bind_run by reflexivity. by rewrite (bind_run _ _ _ _ _ E).
  - intros r w' E. change (main [prog; "write"; name; loc]) with (do_ivfru_write (W := linux) ["write"; name; loc]).
    unfold do_ivfru_write. change (argc _ <? 3) with false. cbv iota. erewrite bind_run by reflexivity.
    rewrite Hn, bool_decide_false by done. erewrite bind_run by reflexivity. by rewrite (bind_run _ _ _ _ _ E).
  - intros r w' E. change (main [prog; "rm"; loc; sidx]) with (do_ivfru_rm (W := linux) ["rm"; loc; sidx]).
    unfold do_ivfru_rm. change (argc _ <? 3) with false. cbv iota. erewrite bind_run by reflexivity.
    erewrite bind_run by reflexivity. rewrite (int_arg_run _ n) by done. by rewrite (bind_run _ _ _ _ _ E).
  - intros r w' E. change (main [prog; "create"; loc; date; product; sn; pn])
      with (do_ivfru_create (W := linux) ["create"; loc; date; product; sn; pn]).
    unfold do_ivfru_create. change (argc _ <? 6) with false. cbv iota. do 5 (erewrite bind_run by reflexivity).
    change (6 <? argc _) with false. cbv iota. erewrite bind_run by reflexivity. by rewrite (bind_run _ _ _ _ _ E).
  - intros r lines w' E. change (main [prog; "display"; loc]) with (do_ivfru_display (W := linux) ["display"; loc]).
    unfold do_ivfru_display. change (argc _ <? 2) with false. cbv iota. erewrite bind_run by reflexivity. by rewrite (bind_run _ _ _ _ _ E).
  - intros r w' E. change (main [prog; "fix"; loc]) with (do_ivfru_fix (W := linux) ["fix"; loc]).
    unfold do_ivfru_fix. change (argc _ <? 2) with false. cbv iota. erewrite bind_run by reflexivity. by rewrite (bind_run _ _ _ _ _ E).
Qed.
End cli.

(** ** Concrete inputs *)

Lemma main_add_inserts_witness :
  exists h w', ch_ok false h /\
    @main linux (@linux_plat (sample_libc 100) sample_board) ["ivfru"; "add"; "f"; "-1"; "4142"] (boot sample_files []) =
      Some ((CMD_RET_SUCCESS, []), w') /\
    lx_files w' = <["f"%string := h ++ render_bia 2 sample_area1]> sample_files /\ lx_shell w' = [].
Proof.
  refine (@main_add_inserts (sample_libc 100) sample_board "ivfru" "f" "-1" (-1) sample_files [] sample_image 2 sample_area
    [65; 66] _ _ _ _ sample_is_image _ _ _ _ _); [reflexivity|by repeat constructor|done|done|done|done|done|by split|done].
Defined.

Lemma main_rejects_witness :
  @main linux (@linux_plat (sample_libc 100) sample_board) ["ivfru"; "rm"; "f"] (boot sample_files []) =
    Some ((CMD_RET_USAGE, []), boot sample_files []).
Proof. apply (@main_rejects (sample_libc 100) sample_board ["ivfru"; "rm"; "f"] (boot sample_files [])). by left. Defined.

Lemma main_exit_codes_witness :
  exists w', @main linux (@linux_plat (sample_libc 100) sample_board) ["ivfru"; "fix"; "missing"] (boot sample_files []) =
    Some ((CMD_RET_SUCCESS, []), w').
Proof.
  eexists. eapply (@main_exit_codes (sample_libc 100) sample_board "ivfru" "mb" IVFRU_BOARD_MB "missing" "0" 0 "" "" "" "" (boot sample_files []));
    [reflexivity|done|reflexivity|]. vm_compute. reflexivity.
Defined.
