(* ===== verification/Uboot.v ===== *)
(** * The platform of the FRU commands in U-Boot ([recipes-bsp/u-boot/files/ivfru_plat.c])

    The buffer is memory the caller owns and is never moved; "files" are that memory, so
    the transfers to and from a location do nothing; boards are found in the flattened
    device tree and read and written through the I2C and SPI drivers. *)
From S2P Require Import Prelude CString FruField FruPlat FruOps.

#[local] Open Scope string_scope.
#[local] Open Scope list_scope.
#[local] Open Scope Z_scope.

(** ** State *)

(** What the code does to the write-protect pin. *)
Inductive gpio_event :=
  | GpioRequest (gpio : Z)
  | GpioDirectionOutput (gpio value : Z)
  | GpioSetValue (gpio value : Z)
  | GpioFree (gpio : Z).

(** Live memory, the static of the file, the environment and the properties of /chosen
    (values without the NUL), the chips by bus and address, the flashes by bus and chip
    select, the flash [sf probe] has selected, the pin events, oldest first, and what the
    board initialisation has printed. *)
Record uboot := Uboot {
  ub_heap : heap;
  ub_image_buffer : option block;
  ub_env : gmap string (list Z);
  ub_chosen : gmap string (list Z);
  ub_i2c : gmap (Z * Z) (list Z);
  ub_flash : gmap (Z * Z) (list Z);
  ub_sf : option (Z * Z);
  ub_gpio : list gpio_event;
  ub_console : list Z
}.

Definition ub_with_heap (h : heap) (w : uboot) : uboot :=
  Uboot h (ub_image_buffer w) (ub_env w) (ub_chosen w) (ub_i2c w) (ub_flash w) (ub_sf w) (ub_gpio w) (ub_console w).
Definition ub_with_buffer (p : option block) (w : uboot) : uboot :=
  Uboot (ub_heap w) p (ub_env w) (ub_chosen w) (ub_i2c w) (ub_flash w) (ub_sf w) (ub_gpio w) (ub_console w).
Definition ub_with_env (e : gmap string (list Z)) (w : uboot) : uboot :=
  Uboot (ub_heap w) (ub_image_buffer w) e (ub_chosen w) (ub_i2c w) (ub_flash w) (ub_sf w) (ub_gpio w) (ub_console w).
Definition ub_with_chosen (c : gmap string (list Z)) (w : uboot) : uboot :=
  Uboot (ub_heap w) (ub_image_buffer w) (ub_env w) c (ub_i2c w) (ub_flash w) (ub_sf w) (ub_gpio w) (ub_console w).
Definition ub_with_i2c (c : gmap (Z * Z) (list Z)) (w : uboot) : uboot :=
  Uboot (ub_heap w) (ub_image_buffer w) (ub_env w) (ub_chosen w) c (ub_flash w) (ub_sf w) (ub_gpio w) (ub_console w).
Definition ub_with_flash (f : gmap (Z * Z) (list Z)) (w : uboot) : uboot :=
  Uboot (ub_heap w) (ub_image_buffer w) (ub_env w) (ub_chosen w) (ub_i2c w) f (ub_sf w) (ub_gpio w) (ub_console w).
Definition ub_with_sf (s : option (Z * Z)) (w : uboot) : uboot :=
  Uboot (ub_heap w) (ub_image_buffer w) (ub_env w) (ub_chosen w) (ub_i2c w) (ub_flash w) s (ub_gpio w) (ub_console w).
Definition ub_add_gpio (e : gpio_event) (w : uboot) : uboot :=
  Uboot (ub_heap w) (ub_image_buffer w) (ub_env w) (ub_chosen w) (ub_i2c w) (ub_flash w) (ub_sf w) (ub_gpio w ++ [e]) (ub_console w).
Definition ub_add_console (t : list Z) (w : uboot) : uboot :=
  Uboot (ub_heap w) (ub_image_buffer w) (ub_env w) (ub_chosen w) (ub_i2c w) (ub_flash w) (ub_sf w) (ub_gpio w) (ub_console w ++ t).

(** ** U-Boot around the code *)

(** A SPI flash: its node and the nodes below it, and the two numbers of its bus. *)
Record flash_dev := FlashDev { fd_ofnode : Z; fd_subnodes : list Z; fd_seq : Z; fd_req_seq : Z }.

(** The device tree by node, the drivers' answers, and the library.  [i2c_error] and
    [spi_error] tell the transfers that fail, besides those outside a chip; [sf_update] gives the flash after the
    command, [None] when it fails. *)
Class UbootIO := {
  fdt_node_offset_by_compatible : string -> option Z;
  fdt_subnode_offset : Z -> string -> option Z;
  fdt_get_name : Z -> string;
  fdt_getprop : Z -> string -> option (list Z);
  flash_devs : option (list flash_dev);
  i2c_chip_ok : Z -> Z -> bool;
  i2c_error : Z -> Z -> Z -> Z -> bool;
  spi_probe_ok : Z -> Z -> bool;
  spi_error : Z -> Z -> bool;
  sf_update : list Z -> Z -> list Z -> option (list Z);
  stack_room : Z -> bool;
  gpio_get_number : Z -> Z -> Z -> Z;
  gpio_lookup_name : string -> option Z;
  gpio_error : gpio_event -> bool
}.

Section uboot.
Context `{UbootIO}.

Definition IPMI_NODE_STR : string := "iv,ipmi".
Definition MAX_FRU_FIELD_SIZE : Z := 2048.

(** [fdt32_to_cpu( *(val + i))], outside the property a fault. *)
Definition fdt32 (val : list Z) (i : nat) : option Z :=
  match drop (4 * i) val with
  | a :: b :: c :: d :: _ => Some (Z.shiftl a 24 + Z.shiftl b 16 + Z.shiftl c 8 + d)
  | _ => None
  end.
Definition fdt_int (val : list Z) (i : nat) : option Z := to_i32 <$> fdt32 val i.

(** ** SPI flash *)

(** The three results of [get_qspi_info_from_label]; what a partition changes of them. *)
Abbreviation qspi_info := (Z * Z * Z)%type.

(** The body of the loop over the partitions of [flashdev]. *)
Definition scan_partition (ipmi_label : list Z) (flashdev : flash_dev) (part_ofnode : Z) (info : qspi_info) : option qspi_info :=
  let '(bus, cs, part_offset) := info in
  if negb (String.prefix "partition" (fdt_get_name part_ofnode)) then Some info else
  match fdt_getprop part_ofnode "label" with
  | None => Some info
  | Some label =>
    if negb (bool_decide (ipmi_label = cstr label)) then Some info else
    let bus := if fd_seq flashdev <? 0 then fd_req_seq flashdev else fd_seq flashdev in
    if bus <? 0 then Some (bus, cs, part_offset) else
    match fdt_getprop (fd_ofnode flashdev) "reg" with
    | None => Some (bus, cs, part_offset)
    | Some val =>
      cs ← fdt_int val 0;
      match fdt_getprop part_ofnode "reg" with
      | None => Some (bus, cs, part_offset)
      | Some val => part_offset ← fdt_int val 0; Some (bus, cs, part_offset)
      end
    end
  end.

Fixpoint scan_partitions (ipmi_label : list Z) (flashdev : flash_dev) (nodes : list Z) (info : qspi_info) : option qspi_info :=
  match nodes with
  | [] => Some info
  | n :: nodes => info ← scan_partition ipmi_label flashdev n info; scan_partitions ipmi_label flashdev nodes info
  end.

Fixpoint scan_flashes (ipmi_label : list Z) (devs : list flash_dev) (info : qspi_info) : option qspi_info :=
  match devs with
  | [] => Some info
  | d :: devs => info ← scan_partitions ipmi_label d (fd_subnodes d) info; scan_flashes ipmi_label devs info
  end.

Definition get_qspi_info_from_label (ipmi_label : list Z) : option (ivfru_ret + qspi_info) :=
  match flash_devs with
  | None => Some (inl IVFRU_RET_INVALID_DEVICE_TREE)
  | Some devs =>
    '(bus, cs, part_offset) ← scan_flashes ipmi_label devs (-1, -1, -1);
    Some (if part_offset <? 0 then inl IVFRU_RET_INVALID_DEVICE_TREE else inr (bus, cs, part_offset))
  end.

(** ** Transfers *)

(** The code, and the bytes stored. *)
Definition ivfru_read_i2c (bus addr offset size : Z) : M uboot (ivfru_ret * list Z) :=
  if (size <? 0) || (MAX_FRU_FIELD_SIZE <? size) then mret (IVFRU_RET_INVALID_ARGUMENT, []) else
  if negb (i2c_chip_ok bus addr) then mret (IVFRU_RET_IO_ERROR, []) else
  if i2c_error bus addr offset size then mret (IVFRU_RET_IO_ERROR, []) else
  fun w => Some (match ub_i2c w !! (bus, addr) ≫= fun chip => rd_range chip offset size with
                 | Some data => (IVFRU_RET_SUCCESS, data) | None => (IVFRU_RET_IO_ERROR, []) end, w).

(** [while(size--)]: one byte at a time. *)
Fixpoint write_loop (bus addr offset : Z) (data : list Z) : M uboot ivfru_ret :=
  match data with
  | [] => mret IVFRU_RET_SUCCESS
  | b :: data =>
    if i2c_error bus addr offset 1 then mret IVFRU_RET_IO_ERROR else
    ok ← (fun w => Some (match ub_i2c w !! (bus, addr) ≫= fun chip => st chip offset b with
                         | Some chip => (true, ub_with_i2c (<[(bus, addr) := chip]> (ub_i2c w)) w)
                         | None => (false, w) end));
    if negb (ok : bool) then mret IVFRU_RET_IO_ERROR else
    offset ← lift (i32 (offset + 1));
    write_loop bus addr offset data
  end.
Definition ivfru_write_i2c (bus addr offset : Z) (data : list Z) : M uboot ivfru_ret :=
  if negb (i2c_chip_ok bus addr) then mret IVFRU_RET_IO_ERROR else write_loop bus addr offset data.

Definition ivfru_read_qspi (bus cs offset size : Z) : M uboot (ivfru_ret * list Z) :=
  if negb (spi_probe_ok bus cs) then mret (IVFRU_RET_IO_ERROR, []) else
  if spi_error offset size then mret (IVFRU_RET_IO_ERROR, []) else
  fun w => Some (match ub_flash w !! (bus, cs) ≫= fun flash => rd_range flash offset size with
                 | Some data => (IVFRU_RET_SUCCESS, data) | None => (IVFRU_RET_IO_ERROR, []) end, w).

(** The commands [sf probe], [sf read] and [sf update], run through [run_command]; the
    last two work on the flash that was probed last. *)
Definition run_sf_probe (bus cs : Z) : M uboot bool :=
  fun w => Some (spi_probe_ok bus cs, if spi_probe_ok bus cs then ub_with_sf (Some (bus, cs)) w else w).
Definition run_sf_read (offset size : Z) : M uboot (option (list Z)) :=
  fun w =>
  dev ← ub_sf w; flash ← ub_flash w !! dev;
  Some (if spi_error offset size then None else rd_range flash offset size, w).
Definition run_sf_update (data : list Z) (offset : Z) : M uboot bool :=
  fun w =>
  dev ← ub_sf w; flash ← ub_flash w !! dev;
  Some (match sf_update flash offset data with
        | Some flash => (true, ub_with_flash (<[dev := flash]> (ub_flash w)) w)
        | None => (false, w) end).

Definition ivfru_write_qspi (bus cs part_offset fru_offset : Z) (data : list Z) : M uboot ivfru_ret :=
  ok ← run_sf_probe bus cs;
  if negb (ok : bool) then mret IVFRU_RET_IO_ERROR else
  total ← lift (i32 (fru_offset + zlen data));
  if (fru_offset <? 0) || (total <? 0) || negb (stack_room total) then lift None else
  pre ← (if 0 <? fru_offset then run_sf_read part_offset fru_offset else mret (Some []));
  match pre with
  | None => mret IVFRU_RET_IO_ERROR
  | Some pre =>
    ok ← run_sf_update (pre ++ data) part_offset;
    if negb (ok : bool) then mret IVFRU_RET_IO_ERROR else mret IVFRU_RET_SUCCESS
  end.

(** ** Board storage *)

(** The node of a board, or the code to return. *)
Definition board_node (board : ivfru_board) : ivfru_ret + Z :=
  match fdt_node_offset_by_compatible IPMI_NODE_STR with
  | None => inl IVFRU_RET_INVALID_DEVICE_TREE
  | Some ipmi_node =>
    match ivfru_board2str board with
    | None => inl IVFRU_RET_INVALID_ARGUMENT
    | Some board_str =>
      match fdt_subnode_offset ipmi_node ("iv_" +:+ board_str) with
      | None => inl IVFRU_RET_INVALID_DEVICE_TREE
      | Some class_node => inr class_node
      end
    end
  end.

(** The property "qspi_offset", zero when there is none. *)
Definition qspi_offset (class_node : Z) : option Z :=
  match fdt_getprop class_node "qspi_offset" with Some val => fdt32 val 0 | None => Some 0 end.

Definition ivfru_plat_read_from_board (board : ivfru_board) (offset size : Z) (quiet : bool)
    : M uboot (ivfru_ret * list Z) :=
  match board_node board with
  | inl r => mret (r, [])
  | inr class_node =>
    match fdt_getprop class_node "i2c" with
    | Some val =>
      bus ← lift (fdt_int val 0); addr ← lift (fdt_int val 1); ipmi_offset ← lift (fdt_int val 2);
      start ← lift (i32 (ipmi_offset + offset));
      '(r, data) ← ivfru_read_i2c bus addr start size;
      if negb (bool_decide (r = IVFRU_RET_SUCCESS)) then mret (IVFRU_RET_IO_ERROR, data)
      else mret (IVFRU_RET_SUCCESS, data)
    | None =>
      match fdt_getprop class_node "qspi" with
      | Some ipmi_label =>
        fru_offset ← lift (qspi_offset class_node);
        info ← lift (get_qspi_info_from_label (cstr ipmi_label));
        match info with
        | inl _ => mret (IVFRU_RET_INVALID_DEVICE_TREE, [])
        | inr (bus, cs, ipmi_offset) =>
          '(r, data) ← ivfru_read_qspi bus cs (to_i32 (u32 (ipmi_offset + fru_offset + offset))) size;
          if negb (bool_decide (r = IVFRU_RET_SUCCESS)) then mret (IVFRU_RET_IO_ERROR, data)
          else mret (IVFRU_RET_SUCCESS, data)
        end
      | None => mret (IVFRU_RET_INVALID_DEVICE_TREE, [])
      end
    end
  end.

(** One call of the GPIO driver: whether it succeeded. *)
Definition gpio_call (e : gpio_event) : M uboot bool :=
  fun w => Some (negb (gpio_error e), if gpio_error e then w else ub_add_gpio e w).

(** The write-protect pin: its number in the property ([-1] without one), its global
    number and its active level, or the code to return.  The global number is unsigned,
    so the tests for a negative one never succeed; the digits of the pin are printed into
    an array of five bytes. *)
Definition wp_gpio_info (class_node : Z) : option (ivfru_ret + Z * Z * Z) :=
  match fdt_subnode_offset class_node "wp" with
  | None => Some (inr (-1, u32 (-1), -1))
  | Some wp_node =>
    match fdt_getprop wp_node "i2c_gpio" with
    | Some val2 =>
      wp_bus ← fdt_int val2 0; wp_addr ← fdt_int val2 1; wp_gpio ← fdt_int val2 2; wp_active ← fdt_int val2 3;
      if negb (i2c_chip_ok wp_bus wp_addr) then Some (inl IVFRU_RET_IO_ERROR)
      else Some (inr (wp_gpio, u32 (gpio_get_number wp_bus wp_addr wp_gpio), wp_active))
    | None =>
      match fdt_getprop wp_node "gpio" with
      | Some val2 =>
        wp_gpio ← fdt_int val2 0; wp_active ← fdt_int val2 1;
        let gpio_str := pretty wp_gpio in
        if 5 <=? strlen gpio_str then None
        else Some (inr (wp_gpio, match gpio_lookup_name gpio_str with Some n => u32 n | None => u32 (-1) end, wp_active))
      | None => Some (inr (-1, u32 (-1), -1))
      end
    end
  end.

Definition ivfru_plat_write_to_board (board : ivfru_board) (mem : list Z) : M uboot ivfru_ret :=
  match board_node board with
  | inl r => mret r
  | inr class_node =>
    match fdt_getprop class_node "i2c" with
    | Some val =>
      bus ← lift (fdt_int val 0); addr ← lift (fdt_int val 1); ipmi_offset ← lift (fdt_int val 2);
      wp ← lift (wp_gpio_info class_node);
      match wp with
      | inl r => mret r
      | inr (wp_gpio, wp_gpio_global, wp_active) =>
        ok ← (if 0 <=? wp_gpio then
                ok ← gpio_call (GpioRequest wp_gpio_global);
                if negb (ok : bool) then mret false
                else gpio_call (GpioDirectionOutput wp_gpio_global (if wp_active =? 0 then 1 else 0))
              else mret true);
        if negb (ok : bool) then mret IVFRU_RET_IO_ERROR else
        err ← ivfru_write_i2c bus addr ipmi_offset mem;
        ok ← (if 0 <=? wp_gpio then
                ok ← gpio_call (GpioSetValue wp_gpio_global wp_active);
                if negb (ok : bool) then mret false else gpio_call (GpioFree wp_gpio_global)
              else mret true);
        if negb (ok : bool) then mret IVFRU_RET_IO_ERROR else
        if negb (bool_decide (err = IVFRU_RET_SUCCESS)) then mret IVFRU_RET_IO_ERROR else mret IVFRU_RET_SUCCESS
      end
    | None =>
      match fdt_getprop class_node "qspi" with
      | Some ipmi_label =>
        fru_offset ← lift (qspi_offset class_node);
        info ← lift (get_qspi_info_from_label (cstr ipmi_label));
        match info with
        | inl _ => mret IVFRU_RET_INVALID_DEVICE_TREE
        | inr (bus, cs, ipmi_offset) =>
          r ← ivfru_write_qspi bus cs ipmi_offset (to_i32 fru_offset) mem;
          if negb (bool_decide (r = IVFRU_RET_SUCCESS)) then mret IVFRU_RET_IO_ERROR else mret IVFRU_RET_SUCCESS
        end
      | None => mret IVFRU_RET_INVALID_DEVICE_TREE
      end
    end
  end.

(** ** The buffer *)

Definition ivfru_plat_set_buffer (buffer : option block) : M uboot ivfru_ret :=
  fun w => Some (IVFRU_RET_SUCCESS, ub_with_buffer buffer w).
Definition ub_get_buffer : M uboot (option block) := fun w => Some (ub_image_buffer w, w).
Definition ub_reserve_memory (size : Z) : M uboot ivfru_ret := mret IVFRU_RET_SUCCESS.
Definition ub_read_from_location (location : string) : M uboot ivfru_ret := mret IVFRU_RET_SUCCESS.
Definition ub_write_to_location (location : string) : M uboot ivfru_ret := mret IVFRU_RET_SUCCESS.

Definition env_get (name : string) : M uboot (option (list Z)) := fun w => Some (ub_env w !! name, w).
(** [env_set(name, value)]; NULL or an empty string removes the variable. *)
Definition env_set (name : string) (value : option (list Z)) : M uboot unit :=
  fun w => Some (tt, ub_with_env (match value with
                                  | Some (c :: v) => <[name := c :: v]> (ub_env w)
                                  | _ => delete name (ub_env w) end) w).

Definition ub_set_image_size (size : Z) : M uboot ivfru_ret :=
  _ ← env_set "filesize" (Some (bytes (pretty size))); mret IVFRU_RET_SUCCESS.
Definition ivfru_plat_get_image_size : M uboot Z := mret 0.

#[export] Instance uboot_plat : FruPlat uboot := {
  plat_heap := ub_heap;
  plat_set_heap := ub_with_heap;
  FruPlat.ivfru_plat_read_from_board := ivfru_plat_read_from_board;
  FruPlat.ivfru_plat_write_to_board := ivfru_plat_write_to_board;
  ivfru_plat_read_from_location := ub_read_from_location;
  ivfru_plat_write_to_location := ub_write_to_location;
  ivfru_plat_get_buffer := ub_get_buffer;
  ivfru_plat_reserve_memory := ub_reserve_memory;
  ivfru_plat_set_image_size := ub_set_image_size
}.

#[export] Instance uboot_plat_heap : FruPlatHeap uboot.
Proof. split; reflexivity. Qed.
End uboot.
