(* ===== verification/UbootProps.v ===== *)
(** * The FRU library under U-Boot: properties

    The commands give the same bytes on both platforms; what the transfers do to an
    EEPROM, its write-protect pin and a flash. *)
From S2P Require Import Prelude CString FruField FruValidate FruDate FruPlat FruOps FruEdit FruCreate FruCommands Uboot.

#[local] Open Scope string_scope.
#[local] Open Scope list_scope.
#[local] Open Scope Z_scope.

(** A printed number is not empty. *)
Lemma pretty_N_go_length x : forall s, (String.length s <= String.length (pretty_N_go x s))%nat.
Proof.
  induction (N.lt_wf_0 x) as [x _ IH]; intros s. destruct (decide (x = 0%N)) as [->|Hx]; [by rewrite pretty_N_go_0|].
  rewrite pretty_N_go_step by lia. etransitivity; [|apply IH; apply N.div_lt; lia]. cbn. lia.
Qed.
Lemma pretty_nonempty (z : Z) : bytes (pretty z) <> [].
Proof.
  assert (HN : forall n : N, String.length (pretty n) <> 0%nat).
  { intros n. unfold pretty, pretty_N. case_decide; [done|]. rewrite pretty_N_go_step by lia.
    pose proof (pretty_N_go_length (n `div` 10) (String (pretty_N_char (n `mod` 10)) "")) as Hl.
    change (String.length (String _ "")) with 1%nat in Hl. lia. }
  intros E. assert (Hl : String.length (pretty z) = 0%nat).
  { pose proof (zlen_bytes (pretty z)) as Hz. rewrite E in Hz. unfold strlen in Hz. change (zlen (@nil Z)) with 0 in Hz. lia. }
  destruct z as [|p|p]; [done|by apply (HN (N.pos p))|done].
Qed.

(** An image keeps its meaning when more bytes follow. *)
Lemma fru_image_app b rest old len im : fru_image b old len im -> fru_image (b ++ rest) old len im.
Proof.
  intros Him. pose proof Him as (_ & Hok & _ & Ht). apply image_split in Him as Hs. destruct Hs as (h & tail & Hch & _ & ->).
  rewrite <- !(assoc_L (++)). by apply image_join.
Qed.

(** ** Commands on memory *)

Section commands.
Context `{UbootIO}.

(** The machine with [b] in the block of the buffer. *)
Definition holding (p : block) (b : list Z) (w : uboot) : uboot := ub_with_heap (<[p := b]> (ub_heap w)) w.

(** The state a command leaves: the bytes [b], and [n] in "filesize". *)
Definition stored (p : block) (b : list Z) (n : Z) (w : uboot) : uboot :=
  ub_with_env (<["filesize" := bytes (pretty n)]> (ub_env w)) (holding p b w).

Lemma holding_lookup p b w : plat_heap (holding p b w) !! p = Some b.
Proof. apply lookup_insert_eq. Qed.
Lemma holding_holding p b b' w : holding p b' (holding p b w) = holding p b' w.
Proof. unfold holding. cbn. by rewrite insert_insert_eq. Qed.
Lemma holding_id p b w : ub_heap w !! p = Some b -> holding p b w = w.
Proof. intros Hp. unfold holding. rewrite insert_id by done. by destruct w. Qed.

Lemma with_buffer_ub {A} (err : A) k p w : ub_image_buffer w = Some p -> with_buffer err k w = k p w.
Proof. intros Hp. apply with_buffer_run. cbn. unfold ub_get_buffer. by rewrite Hp. Qed.
Lemma load_ub {A} (err1 err2 : A) loc k p b w : ub_image_buffer w = Some p -> ub_heap w !! p = Some b ->
  or_return (ivfru_plat_read_from_location loc) err1 (with_buffer err2 k) w = k p (holding p b w).
Proof. intros Hp Hb. rewrite (or_return_run _ _ _ w w), holding_id by done. by apply with_buffer_ub. Qed.
Lemma get_ub {A} (k : list Z -> M uboot A) p b w : (mem_get p ≫= k) (holding p b w) = k b (holding p b w).
Proof. apply mem_get_run, holding_lookup. Qed.
Lemma upd_ub {A B} (f : list Z -> option (A * list Z)) (k : A -> M uboot B) p b a b' w :
  f b = Some (a, b') -> (mem_upd p f ≫= k) (holding p b w) = k a (holding p b' w).
Proof.
  intros Hf. rewrite (mem_upd_run p f k _ b a b' (holding_lookup p b w) Hf). f_equal.
  exact (holding_holding p b b' w).
Qed.
Lemma reserve_ub {A} err (k : M uboot A) n w p : ub_image_buffer w = Some p ->
  or_return (ivfru_plat_reserve_memory n) err k w = k w.
Proof. done. Qed.

(** The end all the editing commands share. *)
Lemma finish_ub n loc p b w :
  or_return (ivfru_plat_set_image_size n) IVFRU_RET_MEM_ERROR
    (or_return (ivfru_plat_write_to_location loc) IVFRU_RET_IO_ERROR (mret IVFRU_RET_SUCCESS)) (holding p b w) =
  Some (IVFRU_RET_SUCCESS, stored p b n w).
Proof.
  unfold or_return, ivfru_plat_set_image_size, uboot_plat, ub_set_image_size, env_set, mbind, M_bind, mret, M_ret.
  pose proof (pretty_nonempty n). destruct (bytes (pretty n)) as [|c v] eqn:E; [done|].
  cbn. unfold stored. by rewrite E.
Qed.

Section image.
Context (loc : string) (p : block) (w : uboot) (Hp : ub_image_buffer w = Some p).
Context (b : list Z) (Hb : ub_heap w !! p = Some b) (len : Z) (im : bia_image) (Him : fru_image b false len im).

Lemma ub_add_end index data :
  let im' := with_custom (insert_field index (custom_field data) (bi_custom im)) im in
  custom_len_ok (zlen data) -> Forall is_byte data -> bia_total im' <= 2040 -> 8 + bia_total im' <= zlen b ->
  exists h tail, ch_ok false h /\ seg b 0 h /\
    ivfru_add loc index data (zlen data) w =
      Some (IVFRU_RET_SUCCESS, stored p (h ++ render_bia (new_len im') im' ++ tail) (8 + bia_total im') w).
Proof.
  intros im' Hlen Hd Hmax Hroom. pose proof Him as (_ & Hok & _ & _).
  destruct (image_core _ _ _ Him) as (h & rest & Hch & Hh & Hc & Hrest).
  pose proof (zlen_bia_core len im Hok) as Hcl. set (f := custom_field data) in *.
  set (address := if index <? 0 then 8 + zlen (bia_core len im) - 1
      else custom_start im + zlen (render_fields (take (Z.to_nat index) (bi_custom im)))).
  set (used := zlen (bia_core len im) + zlen (render_field f) + 1).
  destruct (add_run h len im data index rest address (8 + zlen (bia_core len im)) (bia_total im' - used))
    as (tail & Hrun & Htail); try done; try reflexivity.
  { fold f im'. rewrite Hc in Hroom. zl. }
  fold f im' in Hrun. fold im' in Htail.
  assert (Hused : round8 used = bia_total im').
  { unfold im', used. rewrite with_custom_total, insert_field_size. f_equal. fold f. lia. }
  unfold ivfru_add. rewrite (load_ub _ _ _ _ _ _ _ Hp Hb), get_ub.
  rewrite (lift_run _ _ _ _ (image_old_format _ _ _ _ Him)).
  rewrite (lift_run _ _ _ _ (validate_accept _ _ _ _ false Him)). rewrite bool_decide_true by done. cbn [negb].
  rewrite (lift_run _ _ _ _ (add_locate_run _ _ _ index _ Him Hlen)). fold f. cbv zeta beta iota.
  assert (Hu : 8 + zlen (bia_core len im) - sizeof_CH + zlen (render_field f) + 1 = used) by (unfold used, sizeof_CH; lia).
  rewrite Hu, Hused, (reserve_ub _ _ _ _ p) by done. rewrite (with_buffer_ub _ _ p) by done.
  replace (if index - zlen (take (Z.to_nat index) (bi_custom im)) <? 0 then 8 + zlen (bia_core len im) - 1 else _) with address.
  2:{ unfold address. rewrite zlen_firstn. pose proof (zlen_nonneg (bi_custom im)).
      destruct (Z.ltb_spec index 0), (Z.ltb_spec (index - Z.of_nat (Z.to_nat index) `min` zlen (bi_custom im)) 0); done || lia. }
  rewrite (u8_id (new_len im')) in Hrun by by apply with_custom_len.
  rewrite <- Hc in Hrun. bind_in Hrun. rename l into b2. bind_in Hrun. rename l into b3. bind_in Hrun. rename z into ck.
  rewrite (upd_ub _ _ p b tt b2) by by rewrite E. change (bia_total im' `quot` 8) with (new_len im').
  rewrite (upd_ub _ _ p b2 tt b3) by by rewrite E0. rewrite get_ub, (lift_run _ _ _ _ E1).
  rewrite (upd_ub _ _ p b3 tt (h ++ render_bia (new_len im') im' ++ tail)) by by rewrite Hrun.
  exists h, tail. split; [done|]. split; [rewrite Hc; by exists [], (bia_core len im ++ rest)|].
  rewrite finish_ub. do 3 f_equal. unfold sizeof_CH. lia.
Qed.

Lemma ub_rm_end index :
  let im' := with_custom (delete_field index (bi_custom im)) im in
  is_byte len -> 0 <= index < zlen (bi_custom im) -> rm_overlaps index (bi_custom im) = false ->
  exists h tail, ch_ok false h /\ seg b 0 h /\
    ivfru_rm loc index w = Some (IVFRU_RET_SUCCESS, stored p (h ++ render_bia (new_len im') im' ++ tail) (8 + bia_total im') w).
Proof.
  intros im' Hby Hi Ho. destruct (rm_run b len im index Him Hby Hi Ho) as (h & tail & Hch & Hs & Hrm & _).
  fold im' in Hrm. exists h, tail. split; [done|]. split; [done|].
  unfold ivfru_rm. rewrite (load_ub _ _ _ _ _ _ _ Hp Hb), get_ub.
  rewrite (lift_run _ _ _ _ (image_old_format _ _ _ _ Him)).
  rewrite (lift_run _ _ _ _ (validate_accept _ _ _ _ false Him)). rewrite bool_decide_true by done. cbn [negb].
  rewrite (upd_ub _ _ _ _ _ _ _ Hrm). apply finish_ub.
Qed.
End image.

Lemma ub_create_end loc p w b mfgdate d m y t product sn pn mfr :
  let named := [(default mfr_default mfr, 10); (product, 16); (sn, 10); (pn, 15)] in
  let im := created t named in
  ub_image_buffer w = Some p -> ub_heap w !! p = Some b ->
  date2dmy mfgdate = Some (inr (d, m, y)) -> date_to_ipmi_time d m y = Some (inr t) ->
  Forall named_ok named -> 8 + bia_total im <= zlen b ->
  exists tail, ivfru_create loc (Some mfgdate) (Some product) (Some sn) (Some pn) mfr w =
    Some (IVFRU_RET_SUCCESS, stored p (CH_DEFAULT ++ render_bia (new_len im) im ++ tail) (8 + bia_total im) w).
Proof.
  intros named im Hp Hb Hd Ht Hok Hroom. destruct (created_size t named eq_refl Hok) as (Hun & Hr8 & Hpad & Hmax & Hn).
  set (n := zlen (render_fields (named_field <$> named))) in *. fold im in Hr8, Hpad, Hmax.
  destruct (xcreate_room named d m y t b eq_refl Hok Ht Hroom) as (tail & Hrun & _). fold im in Hrun. exists tail.
  transitivity (ivfru_xcreate loc (Some mfgdate) (Some product) 16 (Some sn) 10 (Some pn) 15 (Some (default mfr_default mfr)) 10 w);
    [by destruct mfr|].
  assert (Hrows : resolve_lengths (fixed_rows (default mfr_default mfr) product sn pn 10 16 10 15) = Some (create_rows named)).
  { by apply (resolve_named named [Frow (Some []) IVFRU_TLB_TYPE_UNSPECIFIED 0; Frow None IVFRU_TLB_TYPE_11 0]). }
  unfold ivfru_xcreate. rewrite (lift_run _ _ _ _ Hd), Hrows, (lift_run _ _ _ _ Hun).
  rewrite (lift_run _ _ _ (17 + n + 7)) by (apply i32_ok; lia). rewrite Hr8.
  replace (8 + bia_total im - (17 + n)) with (Z.of_nat (bi_pad im)) by lia.
  rewrite (reserve_ub _ _ _ _ p) by done. rewrite (with_buffer_ub _ _ p) by done.
  pose proof (holding_id p b w Hb) as Hw. rewrite <- Hw at 1. rewrite (upd_ub _ _ _ _ _ _ _ Hrun).
  rewrite (or_return_run _ _ _ _ _ eq_refl). apply finish_ub.
Qed.
End commands.

(** ** Both platforms *)

(** The commands that edit an image. *)
Inductive edit_command :=
  | CmdAdd (index : Z) (data : list Z)
  | CmdRm (index : Z)
  | CmdCreate (mfgdate product sn pn : list Z) (mfr : option (list Z)).

Definition run_command {W} `{FruPlat W} (loc : string) (c : edit_command) : M W ivfru_ret :=
  match c with
  | CmdAdd index data => ivfru_add loc index data (zlen data)
  | CmdRm index => ivfru_rm loc index
  | CmdCreate mfgdate product sn pn mfr => ivfru_create loc (Some mfgdate) (Some product) (Some sn) (Some pn) mfr
  end.

(** [c] can be run on the image in [content] and makes [im] of it; a removal must not
    copy an area over itself. *)
Inductive edits (content : list Z) : edit_command -> bia_image -> Prop :=
  | edits_add len im index data :
    fru_image content false len im -> is_byte len -> custom_len_ok (zlen data) -> Forall is_byte data ->
    edits content (CmdAdd index data) (with_custom (insert_field index (custom_field data) (bi_custom im)) im)
  | edits_rm len im index :
    fru_image content false len im -> is_byte len -> 0 <= index < zlen (bi_custom im) ->
    rm_overlaps index (bi_custom im) = false ->
    edits content (CmdRm index) (with_custom (delete_field index (bi_custom im)) im)
  | edits_create mfgdate d m y t product sn pn mfr :
    let named := [(default mfr_default mfr, 10); (product, 16); (sn, 10); (pn, 15)] in
    date2dmy mfgdate = Some (inr (d, m, y)) -> date_to_ipmi_time d m y = Some (inr t) -> Forall named_ok named ->
    edits content (CmdCreate mfgdate product sn pn mfr) (created t named).

Section agree.
Context `{Libc} `{BoardIO} `{UbootIO}.

(** On Linux an addition reallocates the buffer, which may move; U-Boot works in place. *)
Definition buffer_moves (content : list Z) (c : edit_command) (im : bia_image) : bool :=
  match c with CmdAdd _ _ => realloc_moves (zlen content) (8 + bia_total im) | _ => false end.

(** The same command on the same image in U-Boot, where it is in memory, and on Linux,
    where it is in a file: U-Boot succeeds; Linux faults when the buffer moves, and
    otherwise succeeds with the file holding what the memory holds at its start, a valid
    image of the length U-Boot leaves in "filesize". *)
Theorem platforms_agree loc addr files log content rest p w c im :
  files !! loc = Some content -> zlen content < 2 ^ 31 -> can_write loc = true ->
  (forall n, 0 < n < 2 ^ 31 -> alloc_ok n = true) ->
  ub_image_buffer w = Some p -> ub_heap w !! p = Some (content ++ rest) ->
  edits content c im -> bia_total im <= 2040 -> 8 + bia_total im <= zlen (content ++ rest) ->
  exists out tail,
    run_command addr c w = Some (IVFRU_RET_SUCCESS, stored p (out ++ tail) (zlen out) w) /\
    fru_image out false (new_len im) im /\
    if buffer_moves content c im then run_command loc c (boot files log) = None
    else exists w1, run_command loc c (boot files log) = Some (IVFRU_RET_SUCCESS, w1) /\ lx_files w1 = <[loc := out]> files.
Proof.
  intros Hfile Hsm Hw Ha Hp Hb Hc Hmax Hroom.
  assert (Hdone : forall h, ch_ok false h -> bia_ok im -> bia_total im = new_len im * 8 ->
    zlen (h ++ render_bia (new_len im) im) = 8 + bia_total im /\
    fru_image (h ++ render_bia (new_len im) im) false (new_len im) im).
  { intros h Hch Hok Ht. split; [by rewrite zlen_app, (zlen_ch _ _ Hch), zlen_render_bia|].
    rewrite <- (app_nil_r (render_bia _ _)). by apply image_join. }
  assert (Hhd : forall h h2, ch_ok false h -> ch_ok false h2 -> seg content 0 h -> seg (content ++ rest) 0 h2 -> h2 = h).
  { intros h h2 Hch Hch2 (pre & post & -> & Hpre) Hs2. apply (seg_inj _ _ _ _ Hs2); [|by rewrite !(zlen_ch false)].
    exists pre, (post ++ rest). by rewrite <- !(assoc_L (++)). }
  destruct Hc as [len im0 index data Him Hby Hlen Hd|len im0 index Him Hby Hi Ho|mfgdate d m y t product sn pn mfr named Hd Ht Hok];
    cbn [run_command buffer_moves].
  - destruct (ub_add_end addr p w Hp _ Hb len im0 (fru_image_app _ rest _ _ _ Him) index data Hlen Hd Hmax Hroom)
      as (h & tail & Hch & Hs & Hrun2).
    destruct (Hdone h Hch) as [Hl Hi].
    { destruct Him as (_ & Hok & _). apply with_custom_ok; [done|]. apply insert_field_ok; [apply Hok|by apply custom_field_ok]. }
    { by apply (with_custom_len _ _ Hmax). }
    eexists _, tail. rewrite Hl, <- (assoc_L (++)). split_and!; [done..|].
    destruct (realloc_moves _ _) eqn:Hm; [by apply (add_moved_end loc files log content len im0)|].
    destruct (add_end loc files log content len im0 Hfile Hsm Him Hw Ha index data Hby Hlen Hd Hm) as (h2 & w1 & Hch2 & Hs2 & Hrun & Hf & _).
    rewrite u8_id in Hf by by apply with_custom_len. rewrite (Hhd h2 h) by done. by exists w1.
  - destruct (rm_end loc files log content len im0 Hfile Hsm Him Hw Ha index Hby Hi Ho) as (h & w1 & Hch & Hs & Hrun & Hf & _).
    destruct (ub_rm_end addr p w Hp _ Hb len im0 (fru_image_app _ rest _ _ _ Him) index Hby Hi Ho) as (h2 & tail & Hch2 & Hs2 & Hrun2).
    rewrite (Hhd h h2) in Hrun2 by done. destruct (rm_run content len im0 index Him Hby Hi Ho) as (_ & _ & _ & _ & _ & Hok & Ht & _).
    destruct (Hdone h Hch Hok Ht) as [Hl Him']. eexists _, tail. rewrite Hl, <- (assoc_L (++)). split_and!; [done..|by exists w1].
  - destruct (ivfru_create_end loc files log Hw Ha mfgdate d m y t product sn pn mfr Hd Ht Hok) as (w1 & Hrun & Hf & Him).
    destruct (ub_create_end addr p w _ mfgdate d m y t product sn pn mfr Hp Hb Hd Ht Hok Hroom) as (tail & Hrun2).
    fold named in Hrun, Hf, Him, Hrun2. destruct (Hdone CH_DEFAULT default_ch_ok) as [Hl _]; [apply Him..|].
    eexists _, tail. rewrite Hl, <- (assoc_L (++)). split_and!; [done..|by exists w1].
Qed.
End agree.

(** ** Transfers *)

Section transfers.
Context `{UbootIO}.

Definition with_chip (bus addr : Z) (chip : list Z) (w : uboot) : uboot :=
  ub_with_i2c (<[(bus, addr) := chip]> (ub_i2c w)) w.

(** The loop stores bytes until one fails. *)
Lemma write_loop_run bus addr rest : forall data pre old post off w,
  ub_i2c w !! (bus, addr) = Some (pre ++ old ++ post) -> zlen old = zlen data -> off = zlen pre -> Forall is_byte data ->
  off + zlen data < 2 ^ 31 ->
  (forall k, off <= k < off + zlen data -> i2c_error bus addr k 1 = false) ->
  (rest <> [] -> i2c_error bus addr (off + zlen data) 1 = true) ->
  write_loop bus addr off (data ++ rest) w =
    Some (match rest with [] => IVFRU_RET_SUCCESS | _ => IVFRU_RET_IO_ERROR end, with_chip bus addr (pre ++ data ++ post) w).
Proof.
  induction data as [|d data IH]; intros pre old post off w Hc Hl -> Hby Hmax Hok Hbad.
  - destruct old; [|zl]. assert (with_chip bus addr (pre ++ [] ++ post) w = w) as ->.
    { unfold with_chip. rewrite insert_id by done. by destruct w. }
    destruct rest as [|r rest]; [done|]. cbn [app write_loop]. change (zlen (@nil Z)) with 0 in Hbad.
    rewrite Z.add_0_r in Hbad. by rewrite Hbad.
  - destruct old as [|o old]; [zl|]. cbn [app write_loop]. rewrite (Hok (zlen pre)) by zl.
    inversion_clear Hby as [|? ? Hd Hby'].
    rewrite (bind_run _ _ _ true (with_chip bus addr (pre ++ d :: old ++ post) w)).
    2:{ rewrite Hc. cbn [mbind option_bind app]. rewrite st_mid, (u8_id d) by done. done. }
    cbn [negb]. rewrite zlen_cons in *. pose proof (zlen_nonneg data). pose proof (zlen_nonneg pre).
    rewrite (lift_run _ _ _ (zlen pre + 1)) by (apply i32_ok; lia).
    rewrite (IH (pre ++ [d]) old post).
    + unfold with_chip. cbn. rewrite insert_insert_eq, <- !(assoc_L (++)). done.
    + cbn. rewrite lookup_insert_eq, <- !(assoc_L (++)). done.
    + rewrite !zlen_cons in Hl; lia.
    + zl.
    + done.
    + lia.
    + intros k Hk. apply Hok. lia.
    + intros Hr. rewrite <- (Hbad Hr). f_equal. lia.
Qed.

(** The pin, and what a write does to it. *)
Definition wp_events (pin active : Z) : list gpio_event :=
  [GpioRequest pin; GpioDirectionOutput pin (if active =? 0 then 1 else 0); GpioSetValue pin active; GpioFree pin].

Lemma gpio_call_run {A} e (k : bool -> M uboot A) w : gpio_error e = false -> (gpio_call e ≫= k) w = k true (ub_add_gpio e w).
Proof. intros He. apply bind_run. unfold gpio_call. by rewrite He. Qed.

Context (board : ivfru_board) (node bus addr off : Z) (words : list Z).
Context (Hnode : board_node board = inr node) (Hwords : fdt_getprop node "i2c" = Some words).
Context (Hbus : fdt_int words 0 = Some bus) (Haddr : fdt_int words 1 = Some addr) (Hoff : fdt_int words 2 = Some off).
Context (Hchip : i2c_chip_ok bus addr = true).

(** Reading what the chip holds at the board's offset. *)
Lemma i2c_read_run pre data post w :
  ub_i2c w !! (bus, addr) = Some (pre ++ data ++ post) -> zlen pre = off -> off + zlen data < 2 ^ 31 ->
  forall quiet i n, 0 <= i -> 0 <= n <= 2048 -> i + n <= zlen data -> i2c_error bus addr (off + i) n = false ->
    ivfru_plat_read_from_board board i n quiet w =
      Some ((IVFRU_RET_SUCCESS, take (Z.to_nat n) (drop (Z.to_nat i) data)), w).
Proof using Hnode Hwords Hbus Haddr Hoff Hchip.
  intros Hw Hpre Hmax quiet i n Hi Hn Hin Her. unfold ivfru_plat_read_from_board. rewrite Hnode, Hwords.
  rewrite (lift_run _ _ _ _ Hbus), (lift_run _ _ _ _ Haddr), (lift_run _ _ _ _ Hoff).
  pose proof (zlen_nonneg pre). rewrite (lift_run _ _ _ (off + i)) by (apply i32_ok; lia).
  rewrite (bind_run _ _ _ (IVFRU_RET_SUCCESS, take (Z.to_nat n) (drop (Z.to_nat i) data)) w); [done|].
  unfold ivfru_read_i2c, MAX_FRU_FIELD_SIZE. rewrite (proj2 (Z.ltb_ge n 0)), (proj2 (Z.ltb_ge 2048 n)), Hchip, Her by lia.
  cbn [orb negb]. rewrite Hw. cbn [mbind option_bind].
  rewrite (seg_rd _ _ (take (Z.to_nat n) (drop (Z.to_nat i) data))); [done| |].
  - rewrite <- Hpre. exists (pre ++ take (Z.to_nat i) data), (drop (Z.to_nat n) (drop (Z.to_nat i) data) ++ post).
    split; [|rewrite zlen_app, zlen_take; lia].
    rewrite <- (take_drop (Z.to_nat i) data) at 1. rewrite <- (take_drop (Z.to_nat n) (drop (Z.to_nat i) data)) at 1.
    by rewrite <- !(assoc_L (++)).
  - rewrite zlen_take; [done|]. rewrite zlen_drop; lia.
Qed.

(** C15: writing to an EEPROM behind a write-protect pin: the pin is made an output that
    lifts the protection, bytes are stored up to the first that fails, and the pin protects
    the chip again and is given back whether or not all were stored; the code says whether
    they were.  Then what was stored can be read back. *)
Theorem ub_i2c_write_read gpio pin active pre old post data rest w :
  wp_gpio_info node = Some (inr (gpio, pin, active)) -> 0 <= gpio -> (forall e, gpio_error e = false) ->
  ub_i2c w !! (bus, addr) = Some (pre ++ old ++ post) -> zlen old = zlen data -> zlen pre = off -> Forall is_byte data ->
  off + zlen data < 2 ^ 31 ->
  (forall k, off <= k < off + zlen data -> i2c_error bus addr k 1 = false) ->
  (rest <> [] -> i2c_error bus addr (off + zlen data) 1 = true) ->
  exists w', ivfru_plat_write_to_board board (data ++ rest) w =
      Some (match rest with [] => IVFRU_RET_SUCCESS | _ => IVFRU_RET_IO_ERROR end, w') /\
    ub_gpio w' = ub_gpio w ++ wp_events pin active /\
    ub_i2c w' = <[(bus, addr) := pre ++ data ++ post]> (ub_i2c w) /\
    forall quiet i n, 0 <= i -> 0 <= n <= 2048 -> i + n <= zlen data -> i2c_error bus addr (off + i) n = false ->
      ivfru_plat_read_from_board board i n quiet w' =
        Some ((IVFRU_RET_SUCCESS, take (Z.to_nat n) (drop (Z.to_nat i) data)), w').
Proof using Hnode Hwords Hbus Haddr Hoff Hchip.
  intros Hwp Hg Hge Hc Hl Hpre Hby Hmax Hok Hbad.
  unfold ivfru_plat_write_to_board. rewrite Hnode, Hwords.
  rewrite (lift_run _ _ _ _ Hbus), (lift_run _ _ _ _ Haddr), (lift_run _ _ _ _ Hoff), (lift_run _ _ _ _ Hwp).
  rewrite (proj2 (Z.leb_le 0 gpio)) by done.
  set (w1 := ub_add_gpio (GpioDirectionOutput pin (if active =? 0 then 1 else 0)) (ub_add_gpio (GpioRequest pin) w)).
  rewrite (bind_run _ _ w true w1).
  2:{ rewrite gpio_call_run by done. cbn [negb]. unfold gpio_call. by rewrite Hge. }
  set (r := match rest with [] => IVFRU_RET_SUCCESS | _ => IVFRU_RET_IO_ERROR end).
  cbn [negb]. rewrite (bind_run _ _ w1 r (with_chip bus addr (pre ++ data ++ post) w1)).
  2:{ unfold ivfru_write_i2c. rewrite Hchip. cbn [negb]. by apply (write_loop_run bus addr rest data pre old post). }
  set (w2 := with_chip bus addr (pre ++ data ++ post) w1).
  rewrite (bind_run _ _ w2 true (ub_add_gpio (GpioFree pin) (ub_add_gpio (GpioSetValue pin active) w2))).
  2:{ rewrite gpio_call_run by done. cbn [negb]. unfold gpio_call. by rewrite Hge. }
  cbn [negb]. eexists. split; [unfold r; by destruct rest|]. split_and!.
  - cbn. by rewrite <- !(assoc_L (++)).
  - done.
  - apply (i2c_read_run pre data post); [cbn; apply lookup_insert_eq|done..].
Qed.
End transfers.

Section flash.
Context `{UbootIO}.
Context (board : ivfru_board) (node bus cs part : Z) (label : list Z).
Context (Hnode : board_node board = inr node) (Hnoi2c : fdt_getprop node "i2c" = None) (Hlabel : fdt_getprop node "qspi" = Some label).
Context (Hpart : get_qspi_info_from_label (cstr label) = Some (inr (bus, cs, part))).
Context (Hprobe : spi_probe_ok bus cs = true) (Hok : forall o n, spi_error o n = false) (Hstack : forall n, stack_room n = true).

(** [sf update] puts the bytes in the flash and keeps what is in front of them. *)
Definition sf_updates : Prop := forall flash off data, 0 <= off -> off + zlen data <= zlen flash ->
  exists tail, sf_update flash off data = Some (take (Z.to_nat off) flash ++ data ++ tail) /\
    zlen tail = zlen flash - off - zlen data.

(** Reading what the flash holds at the board's offset in its partition. *)
Lemma ub_flash_read pre img post off w i n quiet :
  qspi_offset node = Some off -> 0 <= off -> 0 <= part -> ub_flash w !! (bus, cs) = Some (pre ++ img ++ post) ->
  zlen pre = part + off -> part + off + zlen img < 2 ^ 31 -> 0 <= i -> 0 <= n -> i + n <= zlen img ->
  ivfru_plat_read_from_board board i n quiet w =
    Some ((IVFRU_RET_SUCCESS, take (Z.to_nat n) (drop (Z.to_nat i) img)), w).
Proof using Hnode Hnoi2c Hlabel Hpart Hprobe Hok.
  intros Hoff Ho Hpa Hf Hpre Hmax Hi Hn Hin.
  unfold ivfru_plat_read_from_board. rewrite Hnode, Hnoi2c, Hlabel, (lift_run _ _ _ _ Hoff), (lift_run _ _ _ _ Hpart).
  rewrite (u32_small (part + off + i)), to_i32_small by lia.
  rewrite (bind_run _ _ _ (IVFRU_RET_SUCCESS, take (Z.to_nat n) (drop (Z.to_nat i) img)) w); [done|].
  unfold ivfru_read_qspi. rewrite Hprobe, Hok. cbn [negb]. cbv beta. rewrite Hf. cbn [mbind option_bind].
  rewrite (seg_rd _ _ (take (Z.to_nat n) (drop (Z.to_nat i) img))); [done| |].
  - exists (pre ++ take (Z.to_nat i) img), (drop (Z.to_nat n) (drop (Z.to_nat i) img) ++ post).
    split; [|rewrite zlen_app, !zlen_take; lia].
    rewrite <- (take_drop (Z.to_nat i) img) at 1. rewrite <- (take_drop (Z.to_nat n) (drop (Z.to_nat i) img)) at 1.
    by rewrite <- !(assoc_L (++)).
  - rewrite zlen_take; [done|]. rewrite zlen_drop; lia.
Qed.

(** Writing to a flash partition keeps the bytes in front of the image's offset, in
    the partition and before it, and reading gives the written bytes back. *)
Theorem ub_flash_write_read flash off data w i n quiet :
  sf_updates -> qspi_offset node = Some off -> 0 <= off -> 0 <= part -> part + off + zlen data < 2 ^ 31 ->
  ub_flash w !! (bus, cs) = Some flash -> part + off + zlen data <= zlen flash ->
  0 <= i -> 0 <= n -> i + n <= zlen data ->
  exists w' tail, ivfru_plat_write_to_board board data w = Some (IVFRU_RET_SUCCESS, w') /\
    ub_flash w' = <[(bus, cs) := take (Z.to_nat (part + off)) flash ++ data ++ tail]> (ub_flash w) /\
    ivfru_plat_read_from_board board i n quiet w' =
      Some ((IVFRU_RET_SUCCESS, take (Z.to_nat n) (drop (Z.to_nat i) data)), w').
Proof using Hnode Hnoi2c Hlabel Hpart Hprobe Hok Hstack.
  intros Hsf Hoff Ho Hpa Hmax Hf Hroom Hi Hn Hin. pose proof (zlen_nonneg data).
  set (pre := take (Z.to_nat off) (drop (Z.to_nat part) flash)).
  assert (Hpre : zlen pre = off) by (apply zlen_take; rewrite zlen_drop; lia).
  destruct (Hsf flash part (pre ++ data)) as (tail & Hup & Htl); [lia|rewrite zlen_app; lia|].
  rewrite <- (assoc_L (++)), (assoc_L (++) _ pre) in Hup. unfold pre in Hup. rewrite take_take_drop in Hup. fold pre in Hup.
  rewrite <- Z2Nat.inj_add in Hup by lia.
  set (w1 := ub_with_sf (Some (bus, cs)) w). set (flash' := take (Z.to_nat (part + off)) flash ++ data ++ tail) in *.
  exists (ub_with_flash (<[(bus, cs) := flash']> (ub_flash w1)) w1), tail. split_and!; [|done|].
  - unfold ivfru_plat_write_to_board. rewrite Hnode, Hnoi2c, Hlabel, (lift_run _ _ _ _ Hoff), (lift_run _ _ _ _ Hpart).
    rewrite (to_i32_small off) by lia.
    rewrite (bind_run _ _ _ IVFRU_RET_SUCCESS (ub_with_flash (<[(bus, cs) := flash']> (ub_flash w1)) w1)); [done|].
    unfold ivfru_write_qspi. rewrite (bind_run _ _ _ true w1) by (unfold run_sf_probe; by rewrite Hprobe). cbn [negb].
    rewrite (lift_run _ _ _ (off + zlen data)) by (apply i32_ok; lia).
    rewrite (proj2 (Z.ltb_ge off 0)), (proj2 (Z.ltb_ge _ 0)), Hstack by lia. cbn [orb negb].
    rewrite (bind_run _ _ _ (Some pre) w1).
    2:{ destruct (0 <? off) eqn:E; bool_to_prop; [|assert (off = 0) as E0 by lia; unfold pre; by rewrite E0].
        unfold run_sf_read. cbn [ub_sf w1 ub_with_sf mbind option_bind ub_flash]. rewrite Hf, Hok. cbn [mbind option_bind].
        do 3 f_equal. apply seg_rd; [|done]. exists (take (Z.to_nat part) flash), (drop (Z.to_nat off) (drop (Z.to_nat part) flash)).
        split; [|apply zlen_take; lia]. unfold pre. by rewrite !take_drop. }
    rewrite (bind_run _ _ _ true (ub_with_flash (<[(bus, cs) := flash']> (ub_flash w1)) w1)); [done|].
    unfold run_sf_update. cbn [ub_sf w1 ub_with_sf mbind option_bind ub_flash]. rewrite Hf. cbn [mbind option_bind].
    by rewrite Hup.
  - apply (ub_flash_read (take (Z.to_nat (part + off)) flash) data tail off); try done; [unfold ub_with_flash; cbn [ub_flash]; apply lookup_insert_eq|].
    apply zlen_take. lia.
Qed.
End flash.

(** ** Concrete inputs *)

(** The main board's identity is in an EEPROM behind pin 3 of an expander, at offset 2; the
    I/O board's is in the second partition of a flash, 4 bytes in.  Transfers from offset
    [bad] of the EEPROM on fail. *)
Definition sample_getprop (node : Z) (name : string) : option (list Z) :=
  match node with
  | 11 => if bool_decide (name = "i2c") then Some [0; 0; 0; 1; 0; 0; 0; 0x52; 0; 0; 0; 2] else None
  | 12 => if bool_decide (name = "qspi") then Some (bytes "ipmi" ++ [0])
          else if bool_decide (name = "qspi_offset") then Some [0; 0; 0; 4] else None
  | 13 => if bool_decide (name = "i2c_gpio") then Some [0; 0; 0; 0; 0; 0; 0; 0x20; 0; 0; 0; 3; 0; 0; 0; 1] else None
  | 20 => if bool_decide (name = "reg") then Some [0; 0; 0; 0] else None
  | 21 => if bool_decide (name = "label") then Some (bytes "boot" ++ [0])
          else if bool_decide (name = "reg") then Some [0; 0; 0; 0; 0; 0; 0; 8] else None
  | 22 => if bool_decide (name = "label") then Some (bytes "ipmi" ++ [0])
          else if bool_decide (name = "reg") then Some [0; 0; 0; 8; 0; 0; 0; 128] else None
  | _ => None
  end.
Definition sample_uboot (bad : Z) : UbootIO :=
  {| fdt_node_offset_by_compatible := fun _ => Some 10;
     fdt_subnode_offset := fun node name =>
       if bool_decide (name = "iv_mb") then Some 11 else if bool_decide (name = "iv_io") then Some 12
       else if bool_decide (name = "wp") && (node =? 11) then Some 13 else None;
     fdt_get_name := fun _ => "partition@0"; fdt_getprop := sample_getprop;
     flash_devs := Some [FlashDev 20 [21; 22] 0 0]; i2c_chip_ok := fun _ _ => true;
     i2c_error := fun _ _ off n => bad <=? off; spi_probe_ok := fun _ _ => true; spi_error := fun _ _ => false;
     sf_update := fun flash off data => Some (take (Z.to_nat off) flash ++ data ++ drop (Z.to_nat off + length data) flash);
     stack_room := fun _ => true; gpio_get_number := fun _ _ pin => 338 + pin; gpio_lookup_name := fun _ => None;
     gpio_error := fun _ => false |}.

(** A machine with one block of memory, an EEPROM and a flash. *)
Definition sample_machine (b chip flash : list Z) : uboot :=
  Uboot {[0%nat := b]} (Some 0%nat) ∅ ∅ {[(1, 0x52) := chip]} {[(0, 0) := flash]} None [] [].

Lemma platforms_agree_witness :
  let w := sample_machine (sample_image ++ replicate 16 7) [] [] in
  exists out tail,
    @run_command uboot (@uboot_plat (sample_uboot 99)) "f" (CmdAdd (-1) [65; 66]) w =
      Some (IVFRU_RET_SUCCESS, stored 0%nat (out ++ tail) (zlen out) w) /\
    fru_image out false 2 sample_area1 /\
    exists w1, @run_command linux (@linux_plat (sample_libc 1000) sample_board) "f" (CmdAdd (-1) [65; 66]) (boot sample_files []) =
      Some (IVFRU_RET_SUCCESS, w1) /\
    lx_files w1 = <["f"%string := out]> sample_files.
Proof.
  refine (@platforms_agree (sample_libc 1000)
    sample_board (sample_uboot 99) "f" "f" sample_files [] sample_image (replicate 16 7) 0%nat
    (sample_machine (sample_image ++ replicate 16 7) [] []) (CmdAdd (-1) [65; 66]) sample_area1 _ _ _ _ _ _ _ _ _); try done.
  apply (edits_add sample_image 2 sample_area (-1) [65; 66] sample_is_image); [done|by split|by repeat constructor].
Defined.

Lemma ub_i2c_write_read_witness :
  exists w', @ivfru_plat_write_to_board (sample_uboot 5) IVFRU_BOARD_MB ([65; 66; 67] ++ [68]) (sample_machine [] (replicate 9 255) []) =
      Some (IVFRU_RET_IO_ERROR, w') /\
    ub_gpio w' = [GpioRequest 341; GpioDirectionOutput 341 0; GpioSetValue 341 1; GpioFree 341] /\
    ub_i2c w' = {[(1, 0x52) := [255; 255; 65; 66; 67; 255; 255; 255; 255]]} /\
    @ivfru_plat_read_from_board (sample_uboot 5) IVFRU_BOARD_MB 1 2 true w' = Some ((IVFRU_RET_SUCCESS, [66; 67]), w').
Proof.
  destruct (@ub_i2c_write_read (sample_uboot 5) IVFRU_BOARD_MB 11 1 0x52 2 _ eq_refl eq_refl eq_refl eq_refl eq_refl eq_refl
    3 341 1 [255; 255] [255; 255; 255] [255; 255; 255; 255] [65; 66; 67] [68] (sample_machine [] (replicate 9 255) []))
    as (w' & Hw & Hg & Hc & Hr); try done.
  - by repeat constructor.
  - intros k Hk. cbn. apply Z.leb_gt. change (zlen [65; 66; 67]) with 3 in Hk. lia.
  - exists w'. split_and!; [exact Hw|exact Hg|by rewrite Hc|]. by apply (Hr true 1 2).
Defined.

Lemma ub_flash_write_read_witness :
  let flash := replicate 72 255 in
  exists w' tail, @ivfru_plat_write_to_board (sample_uboot 5) IVFRU_BOARD_IO [65; 66; 67] (sample_machine [] [] flash) = Some (IVFRU_RET_SUCCESS, w') /\
    ub_flash w' = <[(0, 0) := replicate 12 255 ++ [65; 66; 67] ++ tail]> {[(0, 0) := flash]} /\
    @ivfru_plat_read_from_board (sample_uboot 5) IVFRU_BOARD_IO 1 2 true w' = Some ((IVFRU_RET_SUCCESS, [66; 67]), w').
Proof.
  refine (@ub_flash_write_read (sample_uboot 5) IVFRU_BOARD_IO 12 0 0 8 _ _ _ _ _ _ _ _ (replicate 72 255) 4 [65; 66; 67]
    (sample_machine [] [] (replicate 72 255)) 1 2 true _ _ _ _ _ _ _ _ _ _); try done.
  intros flash off data Ho Hl. eexists. split; [reflexivity|]. unfold zlen in *. rewrite length_drop. lia.
Defined.
