(* ===== verification/UbootCli.v ===== *)
(** * The U-Boot command ([recipes-bsp/u-boot/files/ivfru.c])

    The same subcommands as the Linux tool; a location is the address of the image in
    memory, which becomes the static buffer of the platform before the library runs. *)
From S2P Require Import Prelude CString FruField FruPlat FruOps FruCli Uboot.

#[local] Open Scope string_scope.
#[local] Open Scope list_scope.
#[local] Open Scope Z_scope.

(** U-Boot's own reading of numbers (the value and what is left), its search for a
    subcommand among names, and the memory an address is the start of: [None] is NULL. *)
Class UbootShell := {
  simple_strtoul : Z -> list Z -> Z * list Z;
  simple_strtol : Z -> list Z -> Z * list Z;
  find_cmd_tbl : string -> list string -> option nat;
  region : Z -> option block
}.

Section cli.
Context `{UbootIO} `{UbootShell}.

Abbreviation command := (list string -> M uboot (CommandRet * list display_line)).
Abbreviation usage := (CMD_RET_USAGE, @nil display_line).

(** [location = simple_strtoul(s, &end, 16); if(end != s + strlen(s)) return
    CMD_RET_USAGE; ivfru_plat_set_buffer(location);] followed by [k]. *)
Definition at_location (s : string) (k : M uboot (CommandRet * list display_line)) : M uboot (CommandRet * list display_line) :=
  let '(address, end_) := simple_strtoul 16 (bytes s) in
  if negb (bool_decide (end_ = [])) then mret usage else
  _ ← ivfru_plat_set_buffer (region address); k.

(** [n = simple_strtol(s, &end, 10)], tested in the same way. *)
Definition ub_int_arg (s : string) (k : Z -> M uboot (CommandRet * list display_line)) : M uboot (CommandRet * list display_line) :=
  let '(n, end_) := simple_strtol 10 (bytes s) in
  if negb (bool_decide (end_ = [])) then mret usage else k (to_i32 n).

Definition ub_do_ivfru_read : command := fun argv =>
  if argc argv <? 3 then mret usage else
  name ← arg argv 1;
  let board := ivfru_str2board name in
  if bool_decide (board = MAX_IVFRU_BOARD) then mret usage else
  location ← arg argv 2;
  at_location location (err ← ivfru_read board location false; mret (exit_code err, [])).

Definition ub_do_ivfru_write : command := fun argv =>
  if argc argv <? 3 then mret usage else
  name ← arg argv 1;
  let board := ivfru_str2board name in
  if bool_decide (board = MAX_IVFRU_BOARD) then mret usage else
  location ← arg argv 2;
  at_location location (err ← ivfru_write board location; mret (exit_code err, [])).

Definition ub_do_ivfru_display : command := fun argv =>
  if argc argv <? 2 then mret usage else
  location ← arg argv 1;
  at_location location ('(_, lines) ← ivfru_display location; mret (CMD_RET_SUCCESS, lines)).

Definition ub_do_ivfru_fix : command := fun argv =>
  if argc argv <? 2 then mret usage else
  location ← arg argv 1;
  at_location location (_ ← ivfru_fix location; mret (CMD_RET_SUCCESS, [])).

Definition ub_do_ivfru_create : command := fun argv =>
  if argc argv <? 6 then mret usage else
  location ← arg argv 1;
  at_location location (
  mfgdate ← arg argv 2; product ← arg argv 3; sn ← arg argv 4; pn ← arg argv 5;
  mfr ← (if 6 <? argc argv then m ← arg argv 6; mret (Some (bytes m)) else mret None);
  err ← ivfru_create location (Some (bytes mfgdate)) (Some (bytes product)) (Some (bytes sn)) (Some (bytes pn)) mfr;
  mret (exit_code_usage err, [])).

Definition ub_do_ivfru_xcreate : command := fun argv =>
  if (argc argv <? 9) || (argc argv =? 10) then mret usage else
  location ← arg argv 1;
  at_location location (
  mfgdate ← arg argv 2; product ← arg argv 3;
  s ← arg argv 4; ub_int_arg s (fun product_len =>
  sn ← arg argv 5;
  s ← arg argv 6; ub_int_arg s (fun sn_len =>
  pn ← arg argv 7;
  s ← arg argv 8; ub_int_arg s (fun pn_len =>
  let run := fun mfr mfr_len =>
    err ← ivfru_xcreate location (Some (bytes mfgdate)) (Some (bytes product)) product_len (Some (bytes sn)) sn_len
            (Some (bytes pn)) pn_len mfr mfr_len;
    mret (exit_code_usage err, []) in
  if 9 <? argc argv then
    mfr ← arg argv 9;
    s ← arg argv 10; ub_int_arg s (fun mfr_len => run (Some (bytes mfr)) mfr_len)
  else run None 0)))).

(** The loop over the hexadecimal digits ([len] iterations), two at a time. *)
Fixpoint ub_hex_loop (len : nat) (s : list Z) : option (list Z) :=
  match len, s with
  | S len, c1 :: c2 :: s =>
    match simple_strtoul 16 [c1; c2] with
    | (v, []) => data ← ub_hex_loop len s; Some (u8 v :: data)
    | _ => None
    end
  | _, _ => Some []
  end.

Definition ub_do_ivfru_add : command := fun argv =>
  if argc argv <? 4 then mret usage else
  location ← arg argv 1;
  at_location location (
  s ← arg argv 2; ub_int_arg s (fun index =>
  hex ← arg argv 3;
  let len := strlen hex `quot` 2 in
  match ub_hex_loop (Z.to_nat len) (bytes hex) with
  | None => mret usage
  | Some data => err ← ivfru_add location index data len; mret (exit_code_usage err, [])
  end)).

Definition ub_do_ivfru_rm : command := fun argv =>
  if argc argv <? 3 then mret usage else
  location ← arg argv 1;
  at_location location (
  s ← arg argv 2; ub_int_arg s (fun index =>
  err ← ivfru_rm location index;
  mret (exit_code_usage err, []))).

Definition cmd_ivfru_sub : list (string * command) :=
  [ ("read", ub_do_ivfru_read); ("write", ub_do_ivfru_write); ("display", ub_do_ivfru_display); ("fix", ub_do_ivfru_fix);
    ("create", ub_do_ivfru_create); ("xcreate", ub_do_ivfru_xcreate); ("add", ub_do_ivfru_add); ("rm", ub_do_ivfru_rm) ].

Definition do_ivfru : command := fun argv =>
  let argv := drop 1 argv in
  match argv with
  | [] => mret usage
  | name :: _ =>
    match find_cmd_tbl name (fst <$> cmd_ivfru_sub) ≫= fun i => cmd_ivfru_sub !! i with
    | Some (_, cmd) => cmd argv
    | None => mret usage
    end
  end.
End cli.
