(* ===== verification/UbootCliProps.v ===== *)
(** * Both command lines: properties

    The tool on Linux and the command of U-Boot, given the same arguments apart from the
    location of the image, exit with success and leave the same image. *)
From S2P Require Import Prelude CString FruField FruValidate FruDate FruPlat FruOps FruEdit FruCreate FruCommands FruCli FruCliProps.
From S2P Require Import Uboot UbootProps UbootCli.

#[local] Open Scope string_scope.
#[local] Open Scope list_scope.
#[local] Open Scope Z_scope.

(** The arguments that ask for an edit: its name, and what follows the location. *)
Inductive edit_args : edit_command -> string -> list string -> Prop :=
  | args_add sidx n data :
    numeral (bytes sidx) n -> edit_args (CmdAdd n data) "add" [sidx; hex_string data]
  | args_rm sidx n : numeral (bytes sidx) n -> edit_args (CmdRm n) "rm" [sidx]
  | args_create date product sn pn :
    edit_args (CmdCreate (bytes date) (bytes product) (bytes sn) (bytes pn) None) "create" [date; product; sn; pn]
  | args_create_mfr date product sn pn mfr :
    edit_args (CmdCreate (bytes date) (bytes product) (bytes sn) (bytes pn) (Some (bytes mfr))) "create" [date; product; sn; pn; mfr].

Section agree.
Context `{Libc} `{BoardIO} `{UbootIO} `{UbootShell}.

(** U-Boot's reading of numbers where it is the one of the C library: the numerals of an [int], and
    two hexadecimal digits; and its search for a whole name. *)
Class ShellLaws := {
  decimal_law : forall s n, numeral s n -> simple_strtol 10 s = (n, []);
  hex_law : forall b, is_byte b -> simple_strtoul 16 (bytes (hex2 b)) = (b, []);
  find_law : forall names k name, NoDup names -> names !! k = Some name -> find_cmd_tbl name names = Some k
}.
Context `{ShellLaws}.

Lemma numeral_int s n : numeral s n -> to_i32 n = n.
Proof. intros (? & ? & _ & _ & _ & _ & Hn). by apply to_i32_small. Qed.

(** The end of a subcommand. *)
Lemma command_end {A} (m : M linux ivfru_ret) (k : ivfru_ret -> M linux A) w (res : option linux) (a : A) :
  m w = pair IVFRU_RET_SUCCESS <$> res -> (forall w1, k IVFRU_RET_SUCCESS w1 = Some (a, w1)) ->
  (m ≫= k) w = pair a <$> res.
Proof.
  intros Hm Hk. destruct res as [w1|]; cbn in Hm |- *; [|by apply bind_none].
  by rewrite (bind_run _ _ _ _ _ Hm).
Qed.

(** The tool runs the edit its arguments ask for, and faults when it does. *)
Lemma main_edit prog loc c name args (w : linux) (res : option linux) :
  edit_args c name args -> (forall index data, c = CmdAdd index data -> Forall is_byte data) ->
  run_command loc c w = pair IVFRU_RET_SUCCESS <$> res ->
  main ([prog; name; loc] ++ args) w = pair (CMD_RET_SUCCESS, []) <$> res.
Proof.
  intros Ha Hd Hrun.
  destruct Ha as [sidx n data Hs|sidx n Hs|date product sn pn|date product sn pn mfr]; cbn [run_command] in Hrun.
  - specialize (Hd _ _ eq_refl).
    change (main (W := linux) _) with (do_ivfru_add (W := linux) ["add"; loc; sidx; hex_string data]).
    unfold do_ivfru_add. change (argc _ <? 4) with false. cbv iota. erewrite bind_run by reflexivity. erewrite bind_run by reflexivity.
    rewrite (int_arg_run _ n) by by apply strtol_numeral. rewrite (numeral_int _ _ Hs). erewrite bind_run by reflexivity.
    rewrite (strlen_hex data Hd). replace ((2 * zlen data) `quot` 2) with (zlen data) by (rewrite Z.mul_comm, Z.quot_mul; lia).
    rewrite to_nat_zlen, (hex_loop_string data Hd). by apply command_end.
  - change (main (W := linux) _) with (do_ivfru_rm (W := linux) ["rm"; loc; sidx]).
    unfold do_ivfru_rm. change (argc _ <? 3) with false. cbv iota. erewrite bind_run by reflexivity. erewrite bind_run by reflexivity.
    rewrite (int_arg_run _ n) by by apply strtol_numeral. rewrite (numeral_int _ _ Hs). by apply command_end.
  - change (main (W := linux) _) with (do_ivfru_create (W := linux) ["create"; loc; date; product; sn; pn]).
    unfold do_ivfru_create. change (argc _ <? 6) with false. cbv iota. do 6 erewrite bind_run by reflexivity.
    by apply command_end.
  - change (main (W := linux) _) with (do_ivfru_create (W := linux) ["create"; loc; date; product; sn; pn; mfr]).
    unfold do_ivfru_create. change (argc _ <? 6) with false. cbv iota. do 6 erewrite bind_run by reflexivity.
    by apply command_end.
Qed.

(** ** In U-Boot *)

Lemma ub_hex_loop_string data : Forall is_byte data -> ub_hex_loop (length data) (bytes (hex_string data)) = Some data.
Proof.
  induction 1 as [|b data Hb _ IH]; [done|]. cbn [hex_string foldr length]. fold (hex_string data). rewrite bytes_app.
  destruct (hex2_byte b Hb) as [_ Hl]. rewrite <- zlen_bytes in Hl. pose proof (hex_law b Hb) as Hr.
  destruct (bytes (hex2 b)) as [|c1 [|c2 [|]]]; [done|done| |by rewrite !zlen_cons in Hl; zl].
  cbn [app ub_hex_loop]. rewrite Hr, IH. cbn. by rewrite u8_id.
Qed.

(** The machine with [p] as the image buffer. *)
Definition pointed (p : block) (w : uboot) : uboot := ub_with_buffer (Some p) w.

Lemma at_location_run s a p k w :
  simple_strtoul 16 (bytes s) = (a, []) -> region a = Some p -> at_location s k w = k (pointed p w).
Proof. intros Hs Hr. unfold at_location. rewrite Hs. rewrite bool_decide_true by done. cbn [negb]. unfold mbind, M_bind. by rewrite Hr. Qed.
Lemma ub_int_arg_run s n k w : numeral (bytes s) n -> ub_int_arg s k w = k n w.
Proof.
  intros Hs. unfold ub_int_arg. rewrite (decimal_law _ _ Hs). rewrite bool_decide_true by done. by rewrite (numeral_int _ _ Hs).
Qed.

Lemma do_ivfru_run name args k (cmd : list string -> M uboot (CommandRet * list display_line)) w :
  cmd_ivfru_sub !! k = Some (name, cmd) -> do_ivfru ("ivfru" :: name :: args) w = cmd (name :: args) w.
Proof.
  intros Hk. unfold do_ivfru. cbn [drop].
  rewrite (find_law _ k name); [unfold mbind, option_bind; by rewrite Hk| |by rewrite list_lookup_fmap, Hk].
  apply (bool_decide_unpack _). exact I.
Qed.

Lemma ub_edit addr a p c name args (w w1 : uboot) :
  edit_args c name args -> (forall index data, c = CmdAdd index data -> Forall is_byte data) ->
  simple_strtoul 16 (bytes addr) = (a, []) -> region a = Some p ->
  run_command addr c (pointed p w) = Some (IVFRU_RET_SUCCESS, w1) ->
  do_ivfru (["ivfru"; name; addr] ++ args) w = Some ((CMD_RET_SUCCESS, []), w1).
Proof.
  intros Ha Hd Hs Hr Hrun. cbn [app].
  destruct Ha as [sidx n data Hi|sidx n Hi|date product sn pn|date product sn pn mfr]; cbn [run_command] in Hrun.
  - specialize (Hd _ _ eq_refl). rewrite (do_ivfru_run _ _ 6 ub_do_ivfru_add) by done.
    unfold ub_do_ivfru_add. change (argc _ <? 4) with false. cbv iota. erewrite bind_run by reflexivity.
    rewrite (at_location_run _ a p) by done. erewrite bind_run by reflexivity. rewrite (ub_int_arg_run _ n) by done.
    erewrite bind_run by reflexivity.
    rewrite (strlen_hex data Hd). replace ((2 * zlen data) `quot` 2) with (zlen data) by (rewrite Z.mul_comm, Z.quot_mul; lia).
    rewrite to_nat_zlen, (ub_hex_loop_string data Hd). by rewrite (bind_run _ _ _ _ _ Hrun).
  - rewrite (do_ivfru_run _ _ 7 ub_do_ivfru_rm) by done.
    unfold ub_do_ivfru_rm. change (argc _ <? 3) with false. cbv iota. erewrite bind_run by reflexivity.
    rewrite (at_location_run _ a p) by done. erewrite bind_run by reflexivity. rewrite (ub_int_arg_run _ n) by done.
    by rewrite (bind_run _ _ _ _ _ Hrun).
  - rewrite (do_ivfru_run _ _ 4 ub_do_ivfru_create) by done.
    unfold ub_do_ivfru_create. change (argc _ <? 6) with false. cbv iota. erewrite bind_run by reflexivity.
    rewrite (at_location_run _ a p) by done. do 5 erewrite bind_run by reflexivity.
    by rewrite (bind_run _ _ _ _ _ Hrun).
  - rewrite (do_ivfru_run _ _ 4 ub_do_ivfru_create) by done.
    unfold ub_do_ivfru_create. change (argc _ <? 6) with false. cbv iota. erewrite bind_run by reflexivity.
    rewrite (at_location_run _ a p) by done. do 5 erewrite bind_run by reflexivity.
    by rewrite (bind_run _ _ _ _ _ Hrun).
Qed.

(** C9: the tool and the U-Boot command agree: with the same arguments to [add], [rm] or
    [create], for the same image in a file and in memory, when the area of the result has
    at most 2040 bytes and, for [rm], the field removed is at least as long as what follows
    it: the U-Boot command exits with success, the memory starts with a valid image of the
    length left in "filesize", and nothing else of U-Boot's state changes but the buffer
    pointer; the tool faults when it adds a field and [realloc] moves its buffer, and
    otherwise exits with success too, with the same bytes in the file. *)
Theorem command_lines_agree prog loc addr a files log content rest p w c name args im :
  edit_args c name args ->
  files !! loc = Some content -> zlen content < 2 ^ 31 -> can_write loc = true ->
  (forall n, 0 < n < 2 ^ 31 -> alloc_ok n = true) ->
  simple_strtoul 16 (bytes addr) = (a, []) -> region a = Some p -> ub_heap w !! p = Some (content ++ rest) ->
  edits content c im -> bia_total im <= 2040 -> 8 + bia_total im <= zlen (content ++ rest) ->
  exists out tail,
    do_ivfru (["ivfru"; name; addr] ++ args) w =
      Some ((CMD_RET_SUCCESS, []), stored p (out ++ tail) (zlen out) (pointed p w)) /\
    fru_image out false (new_len im) im /\
    if buffer_moves content c im then main ([prog; name; loc] ++ args) (boot files log) = None
    else exists w1, main ([prog; name; loc] ++ args) (boot files log) = Some ((CMD_RET_SUCCESS, []), w1) /\
      lx_files w1 = <[loc := out]> files.
Proof.
  intros Ha Hfile Hsm Hw Hal Hs Hr Hb Hc Hmax Hroom.
  assert (Hd : forall index data, c = CmdAdd index data -> Forall is_byte data) by (intros ? ? ->; by inversion Hc).
  destruct (platforms_agree loc addr files log content rest p (pointed p w) c im) as (out & tail & Hrun2 & Him & Hrun1); try done.
  exists out, tail. split; [by eapply ub_edit|]. split; [done|].
  destruct (buffer_moves content c im); [by apply (main_edit prog loc c name args _ None)|].
  destruct Hrun1 as (w1 & Hrun1 & Hf). exists w1. split; [|done]. by apply (main_edit prog loc c name args _ (Some w1)).
Qed.
End agree.

(** ** A shell *)

#[local] Instance sample_shell : UbootShell := {|
  simple_strtoul := strtoul; simple_strtol := strtol;
  find_cmd_tbl := fun name names => fst <$> list_find (fun n => n = name) names;
  region := fun a => if a =? 0x100 then Some 0%nat else None |}.

#[local] Instance sample_laws : ShellLaws.
Proof.
  split.
  - exact strtol_numeral.
  - intros b Hb. apply (proj1 (hex2_byte b Hb)).
  - intros names k name Hnd Hk. unfold find_cmd_tbl. cbn.
    rewrite (proj2 (list_find_Some (fun n => n = name) names k name)); [done|].
    split_and!; [done|done|]. intros j y Hj Hlt ->. pose proof (NoDup_lookup _ _ _ _ Hnd Hj Hk). lia.
Qed.

(** The machine with an image in memory; the tool with a C library that moves a buffer
    when it grows past [limit]. *)
Lemma command_lines_agree_witness :
  let w := sample_machine (sample_image ++ replicate 16 7) [] [] in
  (exists out tail,
    @do_ivfru (sample_uboot 99) sample_shell ["ivfru"; "add"; "100"; "-1"; "4142"] w =
      Some ((CMD_RET_SUCCESS, []), stored 0%nat (out ++ tail) (zlen out) (pointed 0%nat w)) /\
    fru_image out false 2 sample_area1 /\
    exists w1, @main linux (@linux_plat (sample_libc 100) sample_board) ["ivfru"; "add"; "f"; "-1"; "4142"] (boot sample_files []) =
      Some ((CMD_RET_SUCCESS, []), w1) /\
    lx_files w1 = <["f"%string := out]> sample_files) /\
  (exists out tail,
    @do_ivfru (sample_uboot 99) sample_shell ["ivfru"; "add"; "100"; "-1"; "4142"] w =
      Some ((CMD_RET_SUCCESS, []), stored 0%nat (out ++ tail) (zlen out) (pointed 0%nat w)) /\
    fru_image out false 2 sample_area1 /\
    @main linux (@linux_plat (sample_libc 10) sample_board) ["ivfru"; "add"; "f"; "-1"; "4142"] (boot sample_files []) = None).
Proof.
  split.
  - refine (@command_lines_agree (sample_libc 100)
    sample_board (sample_uboot 99) sample_shell sample_laws "ivfru" "f" "100" 0x100 sample_files [] sample_image (replicate 16 7) 0%nat
    (sample_machine (sample_image ++ replicate 16 7) [] []) (CmdAdd (-1) [65; 66]) "add" ["-1"; "4142"] sample_area1 _ _ _ _ _ _ _ _ _ _ _); try done.
    + apply (args_add "-1" (-1) [65; 66]). exists true, [49]. split_and!; try done. by repeat constructor.
    + apply (edits_add sample_image 2 sample_area (-1) [65; 66] sample_is_image); [done|by split|by repeat constructor].
  - refine (@command_lines_agree (sample_libc 10)
    sample_board (sample_uboot 99) sample_shell sample_laws "ivfru" "f" "100" 0x100 sample_files [] sample_image (replicate 16 7) 0%nat
    (sample_machine (sample_image ++ replicate 16 7) [] []) (CmdAdd (-1) [65; 66]) "add" ["-1"; "4142"] sample_area1 _ _ _ _ _ _ _ _ _ _ _); try done.
    + apply (args_add "-1" (-1) [65; 66]). exists true, [49]. split_and!; try done. by repeat constructor.
    + apply (edits_add sample_image 2 sample_area (-1) [65; 66] sample_is_image); [done|by split|by repeat constructor].
Defined.
