(* ===== verification/BoardInit.v ===== *)
(** * Identity of the boards in U-Boot ([recipes-bsp/u-boot/files/iveia-init.c])

    During start-up U-Boot reads the FRU images of the boards, publishes part number,
    serial number and name in the environment, and derives the addresses of the network
    ports from the serial numbers. *)
From S2P Require Import Prelude CString FruField FruValidate FruPlat FruOps Uboot.

#[local] Open Scope string_scope.
#[local] Open Scope list_scope.
#[local] Open Scope Z_scope.

Definition CHARMAP : list Z := bytes "ABCDEFGHJKLMNPQRSTUVWXYZ23456789".
Definition SN_LEN : Z := 5.
Definition MAC_LEN : nat := 6.
Definition NIC_SPECIFIC_LEN : Z := 3.
Definition IVEIA_OUI : Z := 0x002168.
Definition MAX_KERN_CMDLINE_FIELD_LEN : Z := 64.
Definition DEFAULT_IPMI_STRING : list Z := bytes "none,none,Unknown".
Definition EIO : Z := 5.
Definition EBADMSG : Z := 74.
Definition ENODEV : Z := 19.

Inductive IV_BOARD_CLASS := IV_BOARD_CLASS_NONE | IV_BOARD_CLASS_MB | IV_BOARD_CLASS_IO | IV_BOARD_CLASS_BP.
Inductive IV_BOARD_FIELD := IV_BOARD_FIELD_NONE | IV_BOARD_FIELD_PN | IV_BOARD_FIELD_SN | IV_BOARD_FIELD_NAME.
Inductive IV_BOARD_SUBFIELD :=
  IV_BOARD_SUBFIELD_NONE | IV_BOARD_SUBFIELD_PN_ORDINAL | IV_BOARD_SUBFIELD_PN_VARIANT | IV_BOARD_SUBFIELD_PN_REVISION.

Definition class2string (class : IV_BOARD_CLASS) : option string :=
  match class with
  | IV_BOARD_CLASS_MB => Some "iv_mb" | IV_BOARD_CLASS_IO => Some "iv_io" | IV_BOARD_CLASS_BP => Some "iv_bp"
  | IV_BOARD_CLASS_NONE => None
  end.

(** ** Fields of the board strings *)

(** [strsep(&s, d)]: the token and what [s] points to afterwards. *)
Fixpoint split_at_char (d : Z) (l : list Z) : list Z * option (list Z) :=
  match l with
  | [] => ([], None)
  | c :: l => if c =? d then ([], Some l) else let '(t, rest) := split_at_char d l in (c :: t, rest)
  end.
Definition strsep (d : Z) (s : option (list Z)) : option (list Z) * option (list Z) :=
  match s with
  | None => (None, None)
  | Some l => let '(t, rest) := split_at_char d l in (Some t, rest)
  end.

(** The field of the string [s] (a copy of the variable): [None] is NULL. *)
Definition get_field (s : list Z) (field : IV_BOARD_FIELD) (subfield : IV_BOARD_SUBFIELD) : option (list Z) :=
  match field with
  | IV_BOARD_FIELD_NONE => Some s
  | _ =>
    let '(pfield, s) := strsep 44 (Some s) in
    match field with
    | IV_BOARD_FIELD_PN =>
      let s := pfield in
      let '(p1, s1) := strsep 45 s in
      let '(p2, s2) := strsep 45 s1 in
      let '(p3, s3) := strsep 45 s2 in
      let '(p4, s4) := strsep 45 s3 in
      match subfield with
      | IV_BOARD_SUBFIELD_NONE => s
      | IV_BOARD_SUBFIELD_PN_ORDINAL => p2
      | IV_BOARD_SUBFIELD_PN_VARIANT => p3
      | IV_BOARD_SUBFIELD_PN_REVISION => p4
      end
    | _ =>
      let '(pfield, s) := strsep 44 s in
      match field with
      | IV_BOARD_FIELD_SN => pfield
      | _ => let '(pfield, s) := strsep 44 s in pfield
      end
    end
  end.

(** ** Serial numbers and addresses *)

Definition toupper (c : Z) : Z := if (97 <=? c) && (c <=? 122) then c - 32 else c.

(** The loop over [CHARMAP]: the index, or its length. *)
Fixpoint char_index (c : Z) (map : list Z) : Z :=
  match map with [] => 0 | m :: map => if c =? m then 0 else 1 + char_index c map end.

(** The loop over the characters; [None] is the return of 0. *)
Fixpoint sn_loop (sn : list Z) (numeric_sn : Z) : option Z :=
  match sn with
  | [] => Some numeric_sn
  | c :: sn =>
    let j := char_index (toupper c) CHARMAP in
    if zlen CHARMAP <=? j then None else sn_loop sn (u64 (u64 (Z.shiftl numeric_sn SN_LEN) + j))
  end.

Definition sn_to_mac (sn : list Z) : Z :=
  if negb (zlen sn =? SN_LEN) then 0 else
  match sn_loop sn 0 with
  | None => 0
  | Some numeric_sn =>
    let numeric_sn := u64 (Z.shiftl numeric_sn 1) in
    if 0xFFFFFF <? numeric_sn then 0
    else Z.lor (Z.shiftl IVEIA_OUI (8 * NIC_SPECIFIC_LEN)) numeric_sn
  end.

Definition sn_to_mac_unittests : bool :=
  (sn_to_mac (bytes "C6J36") =? 0x0021685C4678) && (sn_to_mac (bytes "B9LYW") =? 0x0021683F55A8) &&
  (sn_to_mac (bytes "AAAAA") =? 0x002168000000) && (sn_to_mac (bytes "H9999") =? 0x002168FFFFFE) &&
  (sn_to_mac (bytes "JAAAA") =? 0) && (sn_to_mac (bytes "ABCDE") =? sn_to_mac (bytes "abcde")) &&
  (sn_to_mac (bytes "AA0AA") =? 0) && (sn_to_mac (bytes "AA#AA") =? 0).

(** The four addresses, zero where there is none. *)
Definition port_macs (zynq : bool) (mb_mac io_mac : Z) : list Z :=
  if zynq then
    if negb (mb_mac =? 0) then [mb_mac; u64 (mb_mac + 1); 0; 0]
    else if negb (io_mac =? 0) then [io_mac; u64 (io_mac + 1); 0; 0] else [0; 0; 0; 0]
  else if negb (mb_mac =? 0) && negb (io_mac =? 0) then [mb_mac; u64 (mb_mac + 1); io_mac; u64 (io_mac + 1)]
  else if negb (mb_mac =? 0) then [0; 0; mb_mac; u64 (mb_mac + 1)]
  else if negb (io_mac =? 0) then [0; 0; io_mac; u64 (io_mac + 1)] else [0; 0; 0; 0].

(** The bytes of an address, most significant first: [n] iterations from the last. *)
Fixpoint macbytes (n : nat) (mac : Z) (done : list Z) : list Z :=
  match n with O => done | S n => macbytes n (Z.shiftr mac 8) (Z.land mac 0xFF :: done) end.

(** ** Fields of an image *)

(** [dest[i] = '\0'] for the spaces at the end, from the last character on. *)
Fixpoint drop_spaces (rev_src : list Z) : list Z :=
  match rev_src with c :: l => if c =? 32 then drop_spaces l else rev_src | [] => [] end.

(** [strcpy_ipmi_field] into an array of [MAX_KERN_CMDLINE_FIELD_LEN] bytes: the string. *)
Definition strcpy_ipmi_field (src : list Z) : option (list Z) :=
  if MAX_KERN_CMDLINE_FIELD_LEN <=? zlen src then None
  else Some ((fun c => if c =? 95 then 45 else if c =? 32 then 95 else if c =? 44 then 47 else c)
             <$> cstr (rev (drop_spaces (rev src)))).

(** What the initialisation needs of U-Boot: its [isprint], the text [printf] gives for
    NULL, the name of the board family in the configuration, the text of an address, and
    the node /chosen; the stack's old contents; the strings of the generated
    [iveia_version.h], with the name and the commit of layer [n] if there is one. *)
Class InitEnv := {
  isprint : Z -> bool;
  null_text : list Z;
  CONFIG_SYS_BOARD : string;
  enetaddr_text : list Z -> list Z;
  chosen_node : Z;
  stack_junk : Z -> list Z;
  IVEIA_MACHINE : list Z;
  IVEIA_SRC_BUILD_HASH : list Z;
  IVEIA_META_LAYER : Z -> option (list Z * list Z)
}.

Section init.
Context `{UbootIO} `{InitEnv}.

(** [printf], with the text already formatted, and a line of it. *)
Definition printf (text : list Z) : M uboot unit := fun w => Some (tt, ub_add_console text w).
Definition line (text : list Z) : list Z := text ++ [10].

(** The loop that checks the board string: the string with its spaces replaced, the
    number of spaces, of commas and of characters that cannot be printed. *)
Fixpoint check_string (s : list Z) : list Z * Z * Z * Z :=
  match s with
  | [] => ([], 0, 0, 0)
  | c :: s =>
    let is_space := c =? 32 in
    let c := if is_space then 95 else c in
    let '(s, space, commas, nonprintable) := check_string s in
    (c :: s, (if is_space then 1 else 0) + space, (if c =? 44 then 1 else 0) + commas,
     (if isprint c then 0 else 1) + nonprintable)
  end.

Definition iv_board_get_field (class : IV_BOARD_CLASS) (field : IV_BOARD_FIELD) (subfield : IV_BOARD_SUBFIELD)
    : M uboot (option (list Z)) :=
  match class2string class with
  | None => mret None
  | Some board =>
    p ← env_get board;
    mret (get_field (take (Z.to_nat (MAX_KERN_CMDLINE_FIELD_LEN - 1)) (default [] p)) field subfield)
  end.

Definition iv_board_match (class : IV_BOARD_CLASS) (field : IV_BOARD_FIELD) (subfield : IV_BOARD_SUBFIELD) (s : list Z)
    : M uboot bool :=
  p ← iv_board_get_field class field subfield; mret (bool_decide (p = Some s)).
Definition iv_mb_board_ord_match : list Z -> M uboot bool :=
  iv_board_match IV_BOARD_CLASS_MB IV_BOARD_FIELD_PN IV_BOARD_SUBFIELD_PN_ORDINAL.
Definition iv_io_board_ord_match : list Z -> M uboot bool :=
  iv_board_match IV_BOARD_CLASS_IO IV_BOARD_FIELD_PN IV_BOARD_SUBFIELD_PN_ORDINAL.

(** What the check prints. *)
Definition check_messages (varname : string) (ipmi_string : list Z) (space commas nonprintable : Z) : M uboot unit :=
  _ ← (if 0 <? space then
         printf (line (bytes "iVeia Board string contains spaces, they've been converted to underscores.")) else mret tt);
  _ ← (if 0 <? nonprintable then printf (line (bytes "iVeia Board string contains non-printable characters.")) else mret tt);
  _ ← (if negb (commas =? 2) then
         printf (line (bytes "iVeia Board string '" ++ ipmi_string ++ bytes "' is invalid (needs exactly 2 commas).")) else mret tt);
  if (0 <? nonprintable) || negb (commas =? 2) then
    printf (line (bytes "ERROR: Using hardcoded defaults for " ++ bytes varname ++ bytes " board information."))
  else mret tt.

(** The fields are joined in an array of [MAX_KERN_CMDLINE_FIELD_LEN] bytes without a
    check.  A forced string is changed where it is stored. *)
Definition set_ipmi_env (varname : string) (class : IV_BOARD_CLASS) (product_raw sn_raw pn_raw : list Z) : M uboot unit :=
  _ ← env_set varname None;
  let forced_varname := varname +:+ "_forced" in
  forced ← env_get forced_varname;
  ipmi_string ←
    (match forced with
     | Some (c :: s) =>
       _ ← printf (line (bytes "Using 'forced' values for board information."));
       let '(s', _, _, _) := check_string (c :: s) in
       _ ← ((fun w => Some (tt, ub_with_env (<[forced_varname := s']> (ub_env w)) w)) : M uboot unit);
       mret (c :: s)
     | _ =>
       pn ← lift (strcpy_ipmi_field pn_raw);
       sn ← lift (strcpy_ipmi_field sn_raw);
       name ← lift (strcpy_ipmi_field product_raw);
       let s := pn ++ [44] ++ sn ++ [44] ++ name in
       if MAX_KERN_CMDLINE_FIELD_LEN <=? zlen s then lift None else mret s
     end);
  let '(ipmi_string, space, commas, nonprintable) := check_string ipmi_string in
  _ ← check_messages varname ipmi_string space commas nonprintable;
  let invalid := (0 <? nonprintable) || negb (commas =? 2) in
  _ ← env_set varname (Some (if invalid then DEFAULT_IPMI_STRING else ipmi_string));
  p ← iv_board_get_field class IV_BOARD_FIELD_PN IV_BOARD_SUBFIELD_PN_ORDINAL;
  match p with
  | Some ord =>
    if zlen ord + strlen varname <? MAX_KERN_CMDLINE_FIELD_LEN then env_set (varname +:+ "_ord") (Some ord) else mret tt
  | None => mret tt
  end.

(** The loop over the ports from [m] on. *)
Fixpoint set_addrs (m : Z) (macs : list Z) : M uboot unit :=
  match macs with
  | [] => mret tt
  | mac :: macs =>
    _ ← (if mac =? 0 then mret tt
         else
           let var := if m =? 0 then "ethaddr" else "eth" +:+ pretty m +:+ "addr" in
           old ← env_get var;
           match old with
           | None => env_set var (Some (enetaddr_text (macbytes MAC_LEN mac [])))
           | Some _ => mret tt
           end);
    set_addrs (m + 1) macs
  end.

Definition set_mac_addrs : M uboot unit :=
  mb_sn ← iv_board_get_field IV_BOARD_CLASS_MB IV_BOARD_FIELD_SN IV_BOARD_SUBFIELD_NONE;
  let mb_mac := match mb_sn with Some sn => sn_to_mac sn | None => 0 end in
  io_sn ← iv_board_get_field IV_BOARD_CLASS_IO IV_BOARD_FIELD_SN IV_BOARD_SUBFIELD_NONE;
  let io_mac := match io_sn with Some sn => sn_to_mac sn | None => 0 end in
  set_addrs 0 (port_macs (bool_decide (CONFIG_SYS_BOARD = "zynq")) mb_mac io_mac).

Definition get_board_name_from_class (class : IV_BOARD_CLASS) : list Z :=
  match class with
  | IV_BOARD_CLASS_MB => bytes "Main Board"
  | IV_BOARD_CLASS_IO => bytes "IO Board"
  | IV_BOARD_CLASS_BP => bytes "BP Board"
  | IV_BOARD_CLASS_NONE => bytes "Unknown Board"
  end.

(** One line with a field of the board's variable. *)
Definition print_field (label : string) (class : IV_BOARD_CLASS) (field : IV_BOARD_FIELD) : M uboot unit :=
  s ← iv_board_get_field class field IV_BOARD_SUBFIELD_NONE;
  printf (line (9 :: bytes label ++ default null_text s)).
Definition print_board_info (class : IV_BOARD_CLASS) : M uboot unit :=
  _ ← printf (line (get_board_name_from_class class ++ bytes ":"));
  _ ← print_field "Part Name:     " class IV_BOARD_FIELD_NAME;
  _ ← print_field "Part Number:   " class IV_BOARD_FIELD_PN;
  print_field "Serial Number: " class IV_BOARD_FIELD_SN.

Definition boardclass2board (brd_class : IV_BOARD_CLASS) : option ivfru_board :=
  match brd_class with
  | IV_BOARD_CLASS_MB => Some IVFRU_BOARD_MB | IV_BOARD_CLASS_IO => Some IVFRU_BOARD_IO | IV_BOARD_CLASS_BP => Some IVFRU_BOARD_BP
  | IV_BOARD_CLASS_NONE => None
  end.

(** The array [iv_ipmi] of the function: live memory while it runs. *)
Definition stack_array {A} (size : Z) (k : block -> M uboot A) : M uboot A :=
  fun w =>
  let p := fresh (dom (ub_heap w)) in
  match k p (ub_with_heap (<[p := take (Z.to_nat size) (stack_junk size ++ replicate (Z.to_nat size) 0)]> (ub_heap w)) w) with
  | Some (a, w) => Some (a, ub_with_heap (delete p (ub_heap w)) w)
  | None => None
  end.

Definition board_scan_ipmi (brd_class : IV_BOARD_CLASS) : M uboot Z :=
  board ← lift (boardclass2board brd_class);
  varname ← lift (class2string brd_class);
  '(_, ivfru_len) ← ivfru_get_size_from_storage board;
  stack_array ivfru_len (fun iv_ipmi =>
  _ ← ivfru_plat_set_buffer (Some iv_ipmi);
  r ← ivfru_read board "" true;
  if negb (bool_decide (r = IVFRU_RET_SUCCESS)) then
    _ ← printf (line (bytes "WARNING: Unable to read FRU for " ++ get_board_name_from_class brd_class)); mret (- EIO)
  else
  b ← mem_get iv_ipmi;
  '(v, _) ← lift (ivfru_validate b false);
  if negb (bool_decide (v = IVFRU_RET_SUCCESS)) then
    _ ← printf (line (bytes "WARNING: Unable to validate FRU for " ++ get_board_name_from_class brd_class)); mret (- EBADMSG)
  else
  '(product, sn, pn) ← lift (ivfru_get_bia_predefined_fields b);
  product_raw ← lift (rd_range b (fst product) (snd product));
  sn_raw ← lift (rd_range b (fst sn) (snd sn));
  pn_raw ← lift (rd_range b (fst pn) (snd pn));
  _ ← set_ipmi_env varname brd_class product_raw sn_raw pn_raw;
  _ ← print_board_info brd_class;
  mret 0).

(** [iv_ipmi_chosen]: the variables are copied in this order; the third pair repeats the
    first. *)
Fixpoint copy_vars (varnames : list string) : M uboot unit :=
  match varnames with
  | [] => mret tt
  | name :: varnames =>
    value ← env_get name;
    _ ← (match value with
         | Some v => fun w => Some (tt, ub_with_chosen (<[name := v]> (ub_chosen w)) w)
         | None => mret tt end);
    copy_vars varnames
  end.
Definition iv_ipmi_chosen : M uboot Z :=
  if chosen_node <=? 0 then mret (- ENODEV) else
  _ ← copy_vars ["iv_mb"; "iv_mb_ord"; "iv_io"; "iv_io_ord"; "iv_mb"; "iv_mb_ord"];
  mret 0.

Definition iv_ipmi_scan : M uboot Z :=
  _ ← board_scan_ipmi IV_BOARD_CLASS_MB;
  _ ← board_scan_ipmi IV_BOARD_CLASS_IO;
  _ ← (if sn_to_mac_unittests then set_mac_addrs
       else printf (line (bytes "WARNING: MAC addr algorithm failed, MACs will be unassigned/random")));
  mret 0.

(** The lines about the build: the conditional parts for the layers 1 to 4. *)
Definition layer_line (n : Z) : list Z :=
  match IVEIA_META_LAYER n with
  | Some (name, hash) => line (bytes "Layer (" ++ name ++ bytes ") commit: " ++ hash)
  | None => if n =? 1 then line (bytes "Layer commit: unknown") else []
  end.
Definition print_build_info : M uboot unit :=
  _ ← printf (line (bytes "Machine:     iVeia " ++ IVEIA_MACHINE));
  _ ← printf (line (bytes "Src commit:  " ++ IVEIA_SRC_BUILD_HASH));
  _ ← printf (layer_line 1);
  _ ← printf (layer_line 2);
  _ ← printf (layer_line 3);
  printf (layer_line 4).

Definition misc_init_r : M uboot Z := _ ← print_build_info; _ ← iv_ipmi_scan; mret 0.
End init.
