(* ===== verification/BoardInitProps.v ===== *)
(** * Identity of the boards: properties

    What the identity record of a board becomes in the environment, and the addresses of
    the network ports. *)
From S2P Require Import Prelude CString FruField FruValidate FruDate FruPlat FruOps FruEdit FruCreate FruCommands Uboot UbootProps BoardInit.

#[local] Open Scope string_scope.
#[local] Open Scope list_scope.
#[local] Open Scope Z_scope.

(** ** Serial numbers *)

Lemma zlen_CHARMAP : zlen CHARMAP = 32.
Proof. reflexivity. Qed.
#[local] Opaque CHARMAP.

(** The value of a character of a serial number. *)
Definition char_digit (c : Z) : option Z :=
  let j := char_index (toupper c) CHARMAP in if j <? 32 then Some j else None.

(** A serial number as a number in base 32, most significant character first. *)
Definition base32 (ds : list Z) : Z := foldl (fun v d => v * 32 + d) 0 ds.

Lemma char_index_bounds c map : 0 <= char_index c map <= zlen map.
Proof. induction map as [|m map IH]; cbn [char_index]; [done|]. rewrite zlen_cons. case_if; lia. Qed.
Lemma char_index_lookup c map : char_index c map < zlen map -> map !! Z.to_nat (char_index c map) = Some c.
Proof.
  induction map as [|m map IH]; cbn [char_index]; [zl|]. rewrite zlen_cons. case_if; [intros _; by subst|].
  intros Hl. pose proof (char_index_bounds c map). replace (Z.to_nat (1 + char_index c map)) with (S (Z.to_nat (char_index c map))) by lia.
  apply IH. lia.
Qed.

Lemma char_digit_bounds c d : char_digit c = Some d -> 0 <= d < 32.
Proof. unfold char_digit. cbv zeta. destruct (Z.ltb_spec (char_index (toupper c) CHARMAP) 32); [|done]. intros [= <-]. pose proof (char_index_bounds (toupper c) CHARMAP). lia. Qed.
Lemma char_digit_upper c d : char_digit c = Some d -> CHARMAP !! Z.to_nat d = Some (toupper c).
Proof. unfold char_digit. cbv zeta. destruct (Z.ltb_spec (char_index (toupper c) CHARMAP) 32); [|done]. intros [= <-]. apply char_index_lookup. by rewrite zlen_CHARMAP. Qed.

Lemma foldl_base32 ds v : foldl (fun v d => v * 32 + d) v ds = v * 32 ^ zlen ds + base32 ds.
Proof.
  unfold base32. revert v. assert (Hg : forall ds v, foldl (fun v d => v * 32 + d) v ds = v * 32 ^ zlen ds + foldl (fun v d => v * 32 + d) 0 ds).
  { clear. induction ds as [|d ds IH]; intros v; cbn [foldl]; [change (32 ^ zlen (@nil Z)) with 1; lia|].
    rewrite (IH (v * 32 + d)), (IH (0 * 32 + d)), zlen_cons, Z.pow_add_r by zl. lia. }
  apply Hg.
Qed.

Lemma base32_cons d ds : base32 (d :: ds) = d * 32 ^ zlen ds + base32 ds.
Proof. unfold base32 at 1. cbn [foldl]. rewrite foldl_base32. lia. Qed.

Lemma base32_bounds ds : Forall (fun d => 0 <= d < 32) ds -> 0 <= base32 ds < 32 ^ zlen ds.
Proof.
  induction 1 as [|d ds Hd _ IH]; [done|]. rewrite base32_cons, zlen_cons, Z.pow_add_r by zl.
  assert (0 < 32 ^ zlen ds) by (apply Z.pow_pos_nonneg; zl). nia.
Qed.

Lemma base32_inj ds1 : forall ds2, Forall (fun d => 0 <= d < 32) ds1 -> Forall (fun d => 0 <= d < 32) ds2 ->
  zlen ds1 = zlen ds2 -> base32 ds1 = base32 ds2 -> ds1 = ds2.
Proof.
  induction ds1 as [|d1 ds1 IH]; intros [|d2 ds2] H1 H2 Hl He; [done|zl|zl|].
  rewrite !zlen_cons in Hl. rewrite !base32_cons in He. inversion_clear H1 as [|? ? Hd1 Hds1]. inversion_clear H2 as [|? ? Hd2 Hds2].
  pose proof (base32_bounds _ Hds1). pose proof (base32_bounds _ Hds2). assert (Hz : zlen ds2 = zlen ds1) by lia. rewrite Hz in *.
  set (P := 32 ^ zlen ds1) in *.
  assert (d1 = d2) as <- by (destruct (Z.lt_trichotomy d1 d2) as [?|[?|?]]; [exfalso; nia|done|exfalso; nia]). f_equal. apply IH; [done..|lia|lia].
Qed.

Lemma digits_bounds sn ds : mapM char_digit sn = Some ds -> Forall (fun d => 0 <= d < 32) ds /\ zlen ds = zlen sn.
Proof.
  rewrite mapM_Some. induction 1 as [|c d sn ds Hc _ [IH1 IH2]]; [done|]. rewrite !zlen_cons.
  split; [|lia]. constructor; [by eapply char_digit_bounds|done].
Qed.

Lemma sn_loop_run sn : forall v, 0 <= v -> (v + 1) * 32 ^ zlen sn <= 2 ^ 64 ->
  sn_loop sn v = (fun ds => v * 32 ^ zlen sn + base32 ds) <$> mapM char_digit sn.
Proof.
  induction sn as [|c sn IH]; intros v Hv Hm; [cbn; f_equal; change (32 ^ zlen (@nil Z)) with 1; unfold base32; cbn; lia|].
  cbn [sn_loop mapM]. rewrite zlen_CHARMAP.
  pose proof (char_index_bounds (toupper c) CHARMAP) as Hj. assert (Hc : char_digit c = if char_index (toupper c) CHARMAP <? 32 then Some (char_index (toupper c) CHARMAP) else None) by done.
  rewrite Hc. set (j := char_index (toupper c) CHARMAP) in *. clearbody j.
  rewrite zlen_cons, Z.pow_add_r in Hm by zl. assert (0 < 32 ^ zlen sn) by (apply Z.pow_pos_nonneg; zl).
  destruct (Z.leb_spec 32 j); [by rewrite (proj2 (Z.ltb_ge j 32)) by lia|]. rewrite (proj2 (Z.ltb_lt j 32)) by lia.
  unfold SN_LEN. rewrite Z.shiftl_mul_pow2 by lia. change (2 ^ 5) with 32.
  rewrite (u64_small (v * 32)), u64_small by nia. rewrite IH by nia. cbn [mbind option_bind].
  destruct (mapM char_digit sn) as [ds|] eqn:Hds; [|done]. cbn [fmap option_fmap option_map mbind option_bind mret option_ret]. f_equal.
  destruct (digits_bounds _ _ Hds) as [_ Hl]. rewrite base32_cons, zlen_cons, Hl, Z.pow_add_r by zl. lia.
Qed.

(** The address of a serial number. *)
Lemma sn_to_mac_value sn :
  sn_to_mac sn =
  match mapM char_digit sn with
  | Some ds => if (zlen sn =? 5) && (base32 ds <? 2 ^ 23) then 0x002168000000 + 2 * base32 ds else 0
  | None => 0
  end.
Proof.
  unfold sn_to_mac, SN_LEN. destruct (zlen sn =? 5) eqn:Hl; cbn [negb andb]; bool_to_prop; [|by destruct (mapM _ _)].
  rewrite sn_loop_run by (rewrite ?Hl; done || lia). destruct (mapM char_digit sn) as [ds|] eqn:Hds; [|done]. cbn [fmap option_fmap option_map].
  destruct (digits_bounds _ _ Hds) as [Hb Hz]. pose proof (base32_bounds _ Hb) as Hv. rewrite Hz, Hl in Hv. change (32 ^ 5) with (2 ^ 25) in Hv.
  rewrite Z.mul_0_l, Z.add_0_l, Z.shiftl_mul_pow2 by lia. change (2 ^ 1) with 2. rewrite u64_small by lia.
  destruct (Z.ltb_spec (base32 ds) (2 ^ 23)).
  - rewrite (proj2 (Z.ltb_ge _ _)) by lia. change (Z.shiftl IVEIA_OUI (8 * NIC_SPECIFIC_LEN)) with (0x2168 * 2 ^ 24).
    assert (Hd : Z.land (0x2168 * 2 ^ 24) (base32 ds * 2) = 0).
    { apply Z.bits_inj'. intros n Hn. rewrite Z.land_spec, Z.bits_0. destruct (Z.lt_ge_cases n 24).
      - rewrite Z.mul_pow2_bits_low by lia. done.
      - rewrite (Z.bits_above_log2 (base32 ds * 2)); [apply andb_false_r|lia|].
        destruct (Z.eq_dec (base32 ds) 0) as [->|]; [change (Z.log2 (0 * 2)) with 0; lia|]. apply Z.log2_lt_pow2; [lia|].
        apply Z.lt_le_trans with (2 ^ 24); [lia|]. apply Z.pow_le_mono_r; lia. }
    rewrite <- Z.lxor_lor, <- Z.add_nocarry_lxor by done. change (0x2168 * 2 ^ 24) with 0x002168000000. lia.
  - by rewrite (proj2 (Z.ltb_lt _ _)) by lia.
Qed.

(** C18: the address of a serial number: five characters of the 32 in the map, in either
    case, below 2^23 as a number in base 32, give the vendor prefix followed by twice the
    number; everything else gives 0. *)
Theorem sn_to_mac_exact sn :
  sn_to_mac sn =
  match mapM char_digit sn with
  | Some ds => if (zlen sn =? 5) && (base32 ds <? 2 ^ 23) then 0x002168000000 + 2 * base32 ds else 0
  | None => 0
  end.
Proof. apply sn_to_mac_value. Qed.

Lemma mac_inv sn : sn_to_mac sn <> 0 ->
  exists ds, mapM char_digit sn = Some ds /\ zlen ds = 5 /\ Forall (fun d => 0 <= d < 32) ds /\ base32 ds < 2 ^ 23 /\
    sn_to_mac sn = 0x002168000000 + 2 * base32 ds.
Proof.
  rewrite sn_to_mac_value. destruct (mapM char_digit sn) as [ds|] eqn:Hds; [|done]. destruct (digits_bounds _ _ Hds) as [Hb Hz].
  case_if; [|done]. intros _. exists ds. split_and!; [done|lia|done..].
Qed.

Lemma upper_digits sn1 : forall sn2 ds, mapM char_digit sn1 = Some ds -> mapM char_digit sn2 = Some ds -> toupper <$> sn1 = toupper <$> sn2.
Proof.
  induction sn1 as [|c1 sn1 IH]; intros sn2 ds H1 H2.
  - injection H1 as <-. by apply mapM_Some, Forall2_nil_inv_r in H2 as ->.
  - apply mapM_Some, Forall2_cons_inv_l in H1 as (d & ds' & Hc1 & H1 & ->).
    apply mapM_Some, Forall2_cons_inv_r in H2 as (c2 & sn2' & Hc2 & H2 & ->). cbn [fmap list_fmap]. f_equal.
    + apply char_digit_upper in Hc1, Hc2. congruence.
    + by apply (IH _ ds'); apply mapM_Some.
Qed.

Lemma macs_apart a b : sn_to_mac a <> 0 -> sn_to_mac b <> 0 -> -1 <= sn_to_mac a - sn_to_mac b <= 1 -> toupper <$> a = toupper <$> b.
Proof.
  intros Ha Hb. destruct (mac_inv a Ha) as (d1 & Hd1 & Hl1 & Hf1 & _ & ->). destruct (mac_inv b Hb) as (d2 & Hd2 & Hl2 & Hf2 & _ & ->).
  intros Hd. assert (d1 = d2) as <- by (apply base32_inj; done || lia). by eapply upper_digits.
Qed.

Lemma mac_range sn : sn_to_mac sn <> 0 -> 0x002168000000 <= sn_to_mac sn /\ sn_to_mac sn + 1 < 0x002169000000.
Proof. intros Hs. destruct (mac_inv sn Hs) as (ds & _ & Hl & Hf & Hv & ->). pose proof (base32_bounds _ Hf). lia. Qed.

(** C17: boards with different serial numbers never share an address: the addresses given to
    the ports are pairwise distinct and carry the vendor prefix. *)
Theorem ports_distinct zynq mb io :
  toupper <$> mb <> toupper <$> io ->
  let macs := filter (fun mac => mac <> 0) (port_macs zynq (sn_to_mac mb) (sn_to_mac io)) in
  NoDup macs /\ Forall (fun mac => mac / 2 ^ 24 = IVEIA_OUI) macs.
Proof.
  intros Hd. pose proof (mac_range mb) as Hm. pose proof (mac_range io) as Hi. pose proof (macs_apart mb io) as Ha.
  unfold port_macs. set (m := sn_to_mac mb) in *. set (i := sn_to_mac io) in *. clearbody m i.
  assert (Hap : m <> 0 -> i <> 0 -> m - i < -1 \/ 1 < m - i).
  { intros Hm0 Hi0. destruct (Z.lt_ge_cases (m - i) (-1)); [by left|]. destruct (Z.lt_ge_cases 1 (m - i)); [by right|].
    exfalso. apply Hd, Ha; done || lia. }
  assert (Hpair : forall x, 0x002168000000 <= x /\ x + 1 < 0x002169000000 ->
    u64 (x + 1) = x + 1 /\ x / 2 ^ 24 = IVEIA_OUI /\ (x + 1) / 2 ^ 24 = IVEIA_OUI).
  { intros x Hx. unfold IVEIA_OUI. split_and!; [apply u64_small; lia|mlia..]. }
  destruct (Z.eqb_spec m 0) as [Em|Em], (Z.eqb_spec i 0) as [Ei|Ei]; cbn [negb andb];
    try (destruct (Hpair m) as (? & ? & ?); [by auto|]); try (destruct (Hpair i) as (? & ? & ?); [by auto|]);
    repeat match goal with E : u64 _ = _ |- _ => rewrite E; clear E end; destruct zynq;
    repeat match goal with
    | |- context [filter _ (?x :: _)] => first [rewrite filter_cons_True by lia | rewrite filter_cons_False by lia]
    end; rewrite ?filter_nil; (split; [|repeat (apply Forall_cons; split; [done|]); by apply Forall_nil]);
    repeat (apply NoDup_cons; split; [set_unfold; intros; lia|]); try apply NoDup_nil_2.
Qed.

(** ** Addresses in the environment *)

(** Six bytes, most significant first, with the value [mac]. *)
Definition octets (mac : Z) (bs : list Z) : Prop :=
  length bs = 6%nat /\ Forall is_byte bs /\ foldl (fun v b => v * 256 + b) 0 bs = mac.

Lemma foldl_octets bs v : foldl (fun v b => v * 256 + b) v bs = v * 256 ^ zlen bs + foldl (fun v b => v * 256 + b) 0 bs.
Proof.
  revert v. induction bs as [|b bs IH]; intros v; cbn [foldl]; [change (256 ^ zlen (@nil Z)) with 1; lia|].
  rewrite (IH (v * 256 + b)), (IH (0 * 256 + b)), zlen_cons, Z.pow_add_r by zl. lia.
Qed.

Lemma macbytes_octets mac : 0 <= mac < 2 ^ 48 -> octets mac (macbytes MAC_LEN mac []).
Proof.
  intros Hm.
  assert (Hg : forall n mac done_, 0 <= mac -> Forall is_byte done_ ->
    length (macbytes n mac done_) = (n + length done_)%nat /\ Forall is_byte (macbytes n mac done_) /\
    foldl (fun v b => v * 256 + b) 0 (macbytes n mac done_) =
      (mac mod 256 ^ Z.of_nat n) * 256 ^ zlen done_ + foldl (fun v b => v * 256 + b) 0 done_).
  { clear. induction n as [|n IH]; intros mac done_ Hm Hd; cbn [macbytes].
    - split; [done|]. split; [done|]. change (256 ^ Z.of_nat 0) with 1. rewrite Z.mod_1_r. lia.
    - change 0xFF with (Z.ones 8). rewrite Z.land_ones, Z.shiftr_div_pow2 by lia. change (2 ^ 8) with 256.
      destruct (IH (mac / 256) (mac mod 256 :: done_)) as (Hl & Hb & Hf); [apply Z.div_pos; lia|constructor; [unfold is_byte; mlia|done]|].
      split; [rewrite Hl; cbn; lia|]. split; [done|]. rewrite Hf. cbn [foldl]. rewrite (foldl_octets done_ (0 * 256 + mac mod 256)), zlen_cons.
      rewrite Nat2Z.inj_succ, <- Z.add_1_l, !Z.pow_add_r by zl. change (256 ^ 1) with 256.
      rewrite (Z.rem_mul_r mac 256 (256 ^ Z.of_nat n)) by lia. lia. }
  destruct (Hg 6%nat mac [] (proj1 Hm) ltac:(by constructor)) as (Hl & Hb & Hf). split; [done|]. split; [done|].
  unfold MAC_LEN. rewrite Hf. change (256 ^ Z.of_nat 6) with (2 ^ 48). rewrite Z.mod_small by done. change (256 ^ zlen (@nil Z)) with 1. cbn. lia.
Qed.

Section env.
Context `{UbootIO} `{InitEnv}.

(** What one port's address does to the environment. *)
Definition assign (var : string) (mac : Z) (env : gmap string (list Z)) : gmap string (list Z) :=
  if mac =? 0 then env
  else match env !! var with
       | None => <[var := enetaddr_text (macbytes MAC_LEN mac [])]> env
       | Some _ => env
       end.

Lemma assign_eq var mac env :
  assign var mac env !! var =
    match env !! var with
    | Some v => Some v
    | None => if mac =? 0 then None else Some (enetaddr_text (macbytes MAC_LEN mac []))
    end.
Proof. unfold assign. destruct (mac =? 0), (env !! var) eqn:E; rewrite ?lookup_insert_eq; done. Qed.
Lemma assign_ne var mac env v : v <> var -> assign var mac env !! v = env !! v.
Proof. intros Hv. unfold assign. destruct (mac =? 0), (env !! var); rewrite ?lookup_insert_ne; done. Qed.

(** The address derived from the serial number in a variable. *)
Definition board_mac (var : string) (w : uboot) : Z :=
  match get_field (take 63 (default [] (ub_env w !! var))) IV_BOARD_FIELD_SN IV_BOARD_SUBFIELD_NONE with
  | Some sn => sn_to_mac sn
  | None => 0
  end.

Definition ports : list string := ["ethaddr"; "eth1addr"; "eth2addr"; "eth3addr"].

(** Every port whose variable is not set gets its address, if it has one, written from
    six bytes, most significant first; variables that are set are kept, as is every other
    variable. *)
Theorem set_mac_addrs_exact w :
  (forall bs, enetaddr_text bs <> []) ->
  let macs := port_macs (bool_decide (CONFIG_SYS_BOARD = "zynq")) (board_mac "iv_mb" w) (board_mac "iv_io" w) in
  exists env, set_mac_addrs w = Some (tt, ub_with_env env w) /\
    (forall v, v ∉ ports -> env !! v = ub_env w !! v) /\
    (forall m var mac, ports !! m = Some var -> macs !! m = Some mac ->
       match ub_env w !! var with
       | Some v => env !! var = Some v
       | None => if mac =? 0 then env !! var = None else exists bs, octets mac bs /\ env !! var = Some (enetaddr_text bs)
       end).
Proof.
  intros Htext macs.
  assert (Hmac : forall var, board_mac var w = 0 \/ 0x002168000000 <= board_mac var w < 2 ^ 48 - 1).
  { intros var. unfold board_mac. destruct (get_field _ _ _) as [sn|]; [|by left].
    destruct (Z.eq_dec (sn_to_mac sn) 0); [by left|right]. pose proof (mac_range sn). lia. }
  assert (Hall : exists a b c d, macs = [a; b; c; d] /\ Forall (fun mac => 0 <= mac < 2 ^ 48) [a; b; c; d]).
  { unfold macs, port_macs. pose proof (Hmac "iv_mb") as Hm. pose proof (Hmac "iv_io") as Hi.
    set (m := board_mac "iv_mb" w) in *. set (i := board_mac "iv_io" w) in *. clearbody m i.
    assert (Hu : forall x, x = 0 \/ 0x002168000000 <= x < 2 ^ 48 - 1 -> 0 <= x < 2 ^ 48 /\ 0 <= u64 (x + 1) < 2 ^ 48).
    { intros x Hx. rewrite u64_small by lia. lia. }
    destruct (Hu m Hm), (Hu i Hi). destruct (bool_decide _), (m =? 0), (i =? 0); cbn [negb andb]; do 4 eexists; (split; [reflexivity|]);
      repeat (apply Forall_cons; split; [done|]); by apply Forall_nil. }
  destruct Hall as (a & b & c & d & Hmacs & Hb).
  assert (Hstep : forall m var mac rest w, (if m =? 0 then "ethaddr" else "eth" +:+ pretty m +:+ "addr") = var ->
    set_addrs m (mac :: rest) w = set_addrs (m + 1) rest (ub_with_env (assign var mac (ub_env w)) w)).
  { clear -Htext. intros m var mac rest w Hv. cbn [set_addrs]. unfold assign. destruct (mac =? 0).
    { unfold mbind, M_bind, mret, M_ret. f_equal. by destruct w. }
    rewrite Hv. unfold mbind, M_bind, env_get. destruct (ub_env w !! var) eqn:E; [unfold mret, M_ret; f_equal; by destruct w|].
    unfold env_set. specialize (Htext (macbytes MAC_LEN mac [])). by destruct (enetaddr_text _). }
  assert (Hfield : forall class var, class2string class = Some var ->
    iv_board_get_field class IV_BOARD_FIELD_SN IV_BOARD_SUBFIELD_NONE w =
      Some (get_field (take 63 (default [] (ub_env w !! var))) IV_BOARD_FIELD_SN IV_BOARD_SUBFIELD_NONE, w)).
  { intros class var Hv. unfold iv_board_get_field. by rewrite Hv. }
  exists (assign "eth3addr" d (assign "eth2addr" c (assign "eth1addr" b (assign "ethaddr" a (ub_env w))))). split_and!.
  - unfold set_mac_addrs. rewrite (bind_run _ _ _ _ _ (Hfield IV_BOARD_CLASS_MB "iv_mb" eq_refl)). cbv zeta.
    rewrite (bind_run _ _ _ _ _ (Hfield IV_BOARD_CLASS_IO "iv_io" eq_refl)). cbv zeta.
    fold (board_mac "iv_mb" w). fold (board_mac "iv_io" w). fold macs. rewrite Hmacs.
    rewrite (Hstep 0 "ethaddr") by done. rewrite (Hstep 1 "eth1addr") by done. rewrite (Hstep 2 "eth2addr") by done.
    by rewrite (Hstep 3 "eth3addr") by done.
  - intros v Hv. unfold ports in Hv. rewrite !not_elem_of_cons in Hv. destruct Hv as (? & ? & ? & ? & _). by rewrite !assign_ne.
  - rewrite Hmacs. intros m var mac Hvar Hm'.
    assert (Hlk : forall e, assign var mac e !! var =
      match e !! var with Some v => Some v | None => if mac =? 0 then None else Some (enetaddr_text (macbytes MAC_LEN mac [])) end)
      by (intros; apply assign_eq).
    assert (Hbm : 0 <= mac < 2 ^ 48) by by eapply (Forall_lookup_1 _ _ _ _ Hb).
    assert (Hgoal : assign "eth3addr" d (assign "eth2addr" c (assign "eth1addr" b (assign "ethaddr" a (ub_env w)))) !! var =
      match ub_env w !! var with Some v => Some v | None => if mac =? 0 then None else Some (enetaddr_text (macbytes MAC_LEN mac [])) end).
    { do 4 (destruct m as [|m]; [injection Hvar as <-; injection Hm' as <-;
        repeat (rewrite assign_ne by done); rewrite Hlk; repeat (rewrite assign_ne by done); done|]). done. }
    rewrite Hgoal. destruct (ub_env w !! var); [done|]. destruct (mac =? 0); [done|]. eexists. split; [|reflexivity].
    by apply macbytes_octets.
Qed.
End env.

(** ** Fields of a board string *)

(** What [strcpy_ipmi_field] stores. *)
Definition clean (src : list Z) : list Z :=
  (fun c => if c =? 95 then 45 else if c =? 32 then 95 else if c =? 44 then 47 else c) <$> cstr (rev (drop_spaces (rev src))).

Definition board_string (pn sn name : list Z) : list Z := clean pn ++ [44] ++ clean sn ++ [44] ++ clean name.

(** The second part of a part number. *)
Definition ordinal (pn : list Z) : option (list Z) := fst (strsep 45 (snd (strsep 45 (Some pn)))).

Lemma zlen_drop_spaces l : zlen (drop_spaces l) <= zlen l.
Proof. induction l as [|c l IH]; cbn [drop_spaces]; [done|]. case_if; zl. Qed.
Lemma zlen_rev l : zlen (rev l : list Z) = zlen l.
Proof. unfold zlen. by rewrite length_rev. Qed.
Lemma zlen_cstr l : zlen (cstr l) <= zlen l.
Proof. induction l as [|c l IH]; cbn [cstr]; [done|]. case_if; zl. Qed.
Lemma zlen_clean src : zlen (clean src) <= zlen src.
Proof.
  unfold clean. unfold zlen at 1. rewrite length_fmap. fold (zlen (cstr (rev (drop_spaces (rev src))))).
  etransitivity; [apply zlen_cstr|]. rewrite zlen_rev. etransitivity; [apply zlen_drop_spaces|]. by rewrite zlen_rev.
Qed.
Lemma clean_chars src c : c ∈ clean src -> c <> 44 /\ c <> 32.
Proof. unfold clean. intros (x & -> & _)%list_elem_of_fmap. repeat case_if; lia. Qed.

Lemma strcpy_clean src : zlen src < 64 -> strcpy_ipmi_field src = Some (clean src).
Proof. intros Hs. unfold strcpy_ipmi_field, MAX_KERN_CMDLINE_FIELD_LEN. by rewrite (proj2 (Z.leb_gt 64 _)). Qed.

Lemma split_at_char_app d a b : d ∉ a -> split_at_char d (a ++ d :: b) = (a, Some b).
Proof.
  induction a as [|x a IH]; cbn [app split_at_char]; [by rewrite Z.eqb_refl|]. intros Ha. rewrite not_elem_of_cons in Ha.
  rewrite (proj2 (Z.eqb_neq _ _)) by (symmetry; apply Ha). by rewrite IH by apply Ha.
Qed.
Lemma split_at_char_end d a : d ∉ a -> split_at_char d a = (a, None).
Proof.
  induction a as [|x a IH]; cbn [app split_at_char]; [done|]. intros Ha. rewrite not_elem_of_cons in Ha.
  rewrite (proj2 (Z.eqb_neq _ _)) by (symmetry; apply Ha). by rewrite IH by apply Ha.
Qed.

(** The three fields come back, and the ordinal of the part number. *)
Lemma get_field_board_string pn sn name :
  let s := board_string pn sn name in
  get_field s IV_BOARD_FIELD_PN IV_BOARD_SUBFIELD_NONE = Some (clean pn) /\
  get_field s IV_BOARD_FIELD_SN IV_BOARD_SUBFIELD_NONE = Some (clean sn) /\
  get_field s IV_BOARD_FIELD_NAME IV_BOARD_SUBFIELD_NONE = Some (clean name) /\
  get_field s IV_BOARD_FIELD_PN IV_BOARD_SUBFIELD_PN_ORDINAL = ordinal (clean pn).
Proof.
  intros s. assert (Hno : forall x, 44 ∉ clean x) by (intros x Hx; by destruct (clean_chars _ _ Hx)).
  unfold s, board_string. cbn [app]. unfold get_field. cbn [strsep]. rewrite split_at_char_app by done. cbn [strsep].
  split_and!.
  - repeat match goal with |- context [let '(_, _) := ?x in _] => destruct x end. done.
  - rewrite split_at_char_app by done. done.
  - rewrite split_at_char_app by done. cbn [strsep]. by rewrite split_at_char_end.
  - unfold ordinal. cbn [strsep]. destruct (split_at_char 45 (clean pn)) as [t1 s1]. cbn [snd].
    destruct (strsep 45 s1) as [p2 s2]. destruct (strsep 45 s2) as [p3 s3]. by destruct (strsep 45 s3).
Qed.

Section publish.
Context `{UbootIO} `{InitEnv}.

Lemma check_string_clean s : Forall (fun c => c <> 32 /\ isprint c = true) s ->
  check_string s = (s, 0, zlen (filter (.= 44) s), 0).
Proof.
  induction 1 as [|c s [Hc Hp] _ IH]; [done|]. cbn [check_string]. cbv zeta. rewrite (proj2 (Z.eqb_neq _ _)) by done. rewrite IH, Hp.
  destruct (Z.eqb_spec c 44); [rewrite filter_cons_True, zlen_cons by done|rewrite filter_cons_False by done]; f_equal; f_equal; lia.
Qed.

Lemma board_string_commas pn sn name : zlen (filter (.= 44) (board_string pn sn name)) = 2.
Proof.
  assert (Hno : forall x, filter (.= 44) (clean x) = []).
  { intros x. destruct (filter (.= 44) (clean x)) as [|c l] eqn:E; [done|]. exfalso.
    assert (Hc : c ∈ filter (.= 44) (clean x)) by (rewrite E; apply list_elem_of_here).
    apply list_elem_of_filter in Hc as [-> Hc]. by destruct (clean_chars _ _ Hc). }
  unfold board_string. rewrite !filter_app, !Hno. done.
Qed.

(** What the ordinal of the part number does to the environment. *)
Definition publish_ordinal (varname : string) (ord : option (list Z)) (env : gmap string (list Z)) : gmap string (list Z) :=
  match ord with
  | Some (c :: o) => if zlen (c :: o) + strlen varname <? 64 then <[varname +:+ "_ord" := c :: o]> env else env
  | Some [] => delete (varname +:+ "_ord") env
  | None => env
  end.

Lemma board_vars class varname : class2string class = Some varname ->
  varname +:+ "_forced" <> varname /\ varname +:+ "_ord" <> varname /\ strlen varname = 5.
Proof. destruct class; [done|..]; by intros [= <-]. Qed.

(** Without a forced string. *)
(** Reading a field of the published string. *)
Lemma iv_board_get_field_run class varname s field sub w :
  class2string class = Some varname -> ub_env w !! varname = Some s -> zlen s < 64 ->
  iv_board_get_field class field sub w = Some (get_field s field sub, w).
Proof.
  intros Hv Hw Hlt. unfold iv_board_get_field. rewrite Hv, (bind_run _ _ _ (Some s) w) by (unfold env_get; by rewrite Hw).
  change (default [] (Some s)) with s. change (Z.to_nat (MAX_KERN_CMDLINE_FIELD_LEN - 1)) with 63%nat.
  by rewrite take_ge by (unfold zlen in Hlt; lia).
Qed.

(** The string that is published when none is forced. *)
Lemma ipmi_string_run (forced : option (list Z)) varname product sn pn w (k : list Z -> M uboot unit) :
  (forall c l, forced <> Some (c :: l)) -> zlen product < 64 -> zlen sn < 64 -> zlen pn < 64 ->
  ((match forced with
    | Some (c :: l) =>
        _ ← printf (line (bytes "Using 'forced' values for board information."));
        let '(s', _, _, _) := check_string (c :: l) in
        _ ← ((fun w => Some (tt, ub_with_env (<[varname +:+ "_forced" := s']> (ub_env w)) w)) : M uboot unit); mret (c :: l)
    | _ => pn0 ← lift (strcpy_ipmi_field pn); sn0 ← lift (strcpy_ipmi_field sn); name ← lift (strcpy_ipmi_field product);
        let s := pn0 ++ [44] ++ sn0 ++ [44] ++ name in
        if MAX_KERN_CMDLINE_FIELD_LEN <=? zlen s then lift None else mret s
    end) ≫= k) w = if 64 <=? zlen (board_string pn sn product) then None else k (board_string pn sn product) w.
Proof.
  intros Hforced Hp Hs Hn. set (s := board_string pn sn product).
  assert (Hjoin : (pn0 ← lift (strcpy_ipmi_field pn); sn0 ← lift (strcpy_ipmi_field sn); name ← lift (strcpy_ipmi_field product);
      let s := pn0 ++ [44] ++ sn0 ++ [44] ++ name in
      if MAX_KERN_CMDLINE_FIELD_LEN <=? zlen s then lift None else mret s) w = if 64 <=? zlen s then None else Some (s, w)).
  { rewrite !strcpy_clean by done. rewrite !(lift_run _ _ _ _ eq_refl). cbv zeta. fold (board_string pn sn product). fold s. unfold MAX_KERN_CMDLINE_FIELD_LEN.
    by destruct (64 <=? zlen s). }
  destruct forced as [[|c l]|]; [|by destruct (Hforced c l)|];
    (match goal with |- (?m ≫= _) _ = _ => transitivity (match m w with Some (a, w') => k a w' | None => None end) end);
    [done|rewrite Hjoin; by destruct (64 <=? zlen s)|done|rewrite Hjoin; by destruct (64 <=? zlen s)].
Qed.

Lemma set_ipmi_env_run class varname product sn pn w :
  class2string class = Some varname -> (forall c l, ub_env w !! (varname +:+ "_forced") <> Some (c :: l)) ->
  zlen product < 64 -> zlen sn < 64 -> zlen pn < 64 -> Forall (fun c => isprint c = true) (board_string pn sn product) ->
  set_ipmi_env varname class product sn pn w =
    if 64 <=? zlen (board_string pn sn product) then None
    else Some (tt, ub_with_env (publish_ordinal varname (ordinal (clean pn)) (<[varname := board_string pn sn product]> (ub_env w))) w).
Proof.
  intros Hv Hforced Hp Hs Hn Hprint. destruct (board_vars _ _ Hv) as (Hf & Ho & Hl). set (s := board_string pn sn product).
  unfold set_ipmi_env. erewrite bind_run by reflexivity. set (w1 := ub_with_env (delete varname (ub_env w)) w).
  assert (Hgf : forall k : option (list Z) -> M uboot unit, (env_get (varname +:+ "_forced") ≫= k) w1 = k (ub_env w !! (varname +:+ "_forced")) w1).
  { intros k. unfold mbind, M_bind, env_get. cbn. by rewrite lookup_delete_ne by done. }
  rewrite Hgf. clear Hgf.
  rewrite ipmi_string_run by done. fold s. destruct (Z.leb_spec 64 (zlen s)) as [|Hlt]; [done|].
  assert (Hcm : zlen (filter (.= 44) s) = 2) by apply board_string_commas.
  rewrite check_string_clean, Hcm.
  2:{ apply Forall_forall. intros c Hc. split; [|by eapply Forall_forall in Hprint].
      unfold s, board_string in Hc. rewrite !elem_of_app, !list_elem_of_singleton in Hc.
      destruct Hc as [Hc|[->|[Hc|[->|Hc]]]]; try done; by apply (clean_chars _ _ Hc). }
  rewrite (bind_run _ _ w1 tt w1) by done. change ((0 <? 0) || negb (2 =? 2)) with false. cbv iota.
  assert (Hne : exists c l, s = c :: l).
  { clearbody s. destruct s as [|c l]; [done|by exists c, l]. }
  set (w2 := ub_with_env (<[varname := s]> (ub_env w)) w).
  rewrite (bind_run _ _ w1 tt w2).
  2:{ destruct Hne as (c & l & E). unfold env_set. rewrite E. cbn. rewrite insert_delete_eq, <- E. done. }
  destruct (get_field_board_string pn sn product) as (_ & _ & _ & Hgo). fold s in Hgo.
  erewrite bind_run by (apply (iv_board_get_field_run class varname s); [done|unfold w2; cbn [ub_env ub_with_env]; apply lookup_insert_eq|done]).
  rewrite Hgo.
  unfold publish_ordinal, MAX_KERN_CMDLINE_FIELD_LEN. destruct (ordinal (clean pn)) as [[|c o]|] eqn:Eo.
  - rewrite Hl. done.
  - by destruct (zlen (c :: o) + strlen varname <? 64).
  - done.
Qed.

Lemma publish_ordinal_var class varname ord env :
  class2string class = Some varname -> publish_ordinal varname ord env !! varname = env !! varname.
Proof.
  intros Hv. destruct (board_vars _ _ Hv) as (_ & Ho & _).
  unfold publish_ordinal. destruct ord as [[|c o]|]; [|case_if|]; by rewrite ?lookup_insert_ne, ?lookup_delete_ne by done.
Qed.

(** What is printed for a board. *)
Definition board_text (class : IV_BOARD_CLASS) (pn sn name : list Z) : list Z :=
  line (get_board_name_from_class class ++ bytes ":") ++ line (9 :: bytes "Part Name:     " ++ name) ++
  line (9 :: bytes "Part Number:   " ++ pn) ++ line (9 :: bytes "Serial Number: " ++ sn).

Lemma console_app t1 t2 w : ub_add_console t2 (ub_add_console t1 w) = ub_add_console (t1 ++ t2) w.
Proof. unfold ub_add_console. cbn. by rewrite (assoc_L (++)). Qed.

Lemma print_board_info_run class varname pn sn name w :
  class2string class = Some varname -> ub_env w !! varname = Some (board_string pn sn name) -> zlen (board_string pn sn name) < 64 ->
  print_board_info class w = Some (tt, ub_add_console (board_text class (clean pn) (clean sn) (clean name)) w).
Proof.
  intros Hv Hw Hlt. destruct (get_field_board_string pn sn name) as (G1 & G2 & G3 & _).
  assert (Hfield : forall label field f t w1, ub_env w1 = ub_env w ->
    get_field (board_string pn sn name) field IV_BOARD_SUBFIELD_NONE = Some f -> t = line (9 :: bytes label ++ f) ->
    print_field label class field w1 = Some (tt, ub_add_console t w1)).
  { intros label field f t w1 He Hf ->. unfold print_field. rewrite <- He in Hw.
    by rewrite (bind_run _ _ _ _ _ (iv_board_get_field_run class varname _ field _ w1 Hv Hw Hlt)), Hf. }
  unfold print_board_info, board_text. erewrite bind_run by reflexivity.
  erewrite bind_run by (apply (Hfield _ _ (clean name)); [done|exact G3|reflexivity]).
  erewrite bind_run by (apply (Hfield _ _ (clean pn)); [done|exact G1|reflexivity]).
  erewrite (Hfield _ _ (clean sn)); [|done|exact G2|reflexivity]. by rewrite !console_app.
Qed.
End publish.

(** ** Scanning a board *)

Section scan.
Context `{UbootIO} `{InitEnv}.

(** The storage of [board] holds [img]. *)
Definition board_holds (board : ivfru_board) (img : list Z) (w : uboot) : Prop :=
  forall offset size quiet w', ub_i2c w' = ub_i2c w -> ub_flash w' = ub_flash w ->
    0 <= offset -> 0 <= size <= 2048 -> offset + size <= zlen img ->
    ivfru_plat_read_from_board board offset size quiet w' =
      Some ((IVFRU_RET_SUCCESS, take (Z.to_nat size) (drop (Z.to_nat offset) img)), w').

(** An EEPROM that holds it at the board's offset. *)
Lemma i2c_board_holds board node words bus addr off pre img post w :
  board_node board = inr node -> fdt_getprop node "i2c" = Some words ->
  fdt_int words 0 = Some bus -> fdt_int words 1 = Some addr -> fdt_int words 2 = Some off ->
  i2c_chip_ok bus addr = true -> (forall o n, off <= o -> 0 <= n -> o + n <= off + zlen img -> i2c_error bus addr o n = false) ->
  ub_i2c w !! (bus, addr) = Some (pre ++ img ++ post) -> zlen pre = off -> off + zlen img < 2 ^ 31 ->
  board_holds board img w.
Proof.
  intros ? ? ? ? ? ? Her Hc ? ? offset size quiet w' Hi2c _ ? ? ?. rewrite <- Hi2c in Hc.
  eapply i2c_read_run; eauto. apply Her; lia.
Qed.

(** A flash that holds it at the board's offset in its partition. *)
Lemma flash_board_holds board node bus cs part off label pre img post w :
  board_node board = inr node -> fdt_getprop node "i2c" = None -> fdt_getprop node "qspi" = Some label ->
  get_qspi_info_from_label (cstr label) = Some (inr (bus, cs, part)) -> qspi_offset node = Some off ->
  spi_probe_ok bus cs = true -> (forall o n, spi_error o n = false) -> 0 <= off -> 0 <= part ->
  ub_flash w !! (bus, cs) = Some (pre ++ img ++ post) -> zlen pre = part + off -> part + off + zlen img < 2 ^ 31 ->
  board_holds board img w.
Proof.
  intros ? ? ? ? ? ? ? ? ? Hf ? ? offset size quiet w' _ Hfl ? ? ?. rewrite <- Hfl in Hf.
  eapply ub_flash_read; eauto. lia.
Qed.

(** The size of what [ivfru_read] reads, for the length byte [l]. *)
Definition read_size (l : Z) : Z := 8 + (if l =? 64 then 64 else l * 8).

Lemma size_from_storage board img w old len im l :
  board_holds board img w -> fru_image img old len im -> ld img 9 = Some l -> 14 <= zlen img ->
  ivfru_get_size_from_storage board w = Some ((IVFRU_RET_SUCCESS, 8 + l * 8), w).
Proof.
  intros Hh Him Hl Hz. unfold ivfru_get_size_from_storage.
  rewrite (bind_run _ _ _ _ _ (Hh 0 sizeof_CH true w eq_refl eq_refl ltac:(done) ltac:(unfold sizeof_CH; lia) ltac:(unfold sizeof_CH; lia))).
  rewrite bool_decide_true by done. cbn [negb]. apply image_split in Him as (h & tail & Hch & Hh8 & Heq).
  assert (Hhd : take (Z.to_nat sizeof_CH) (drop (Z.to_nat 0) img) = h).
  { change (drop (Z.to_nat 0) img) with img. rewrite Heq. unfold zlen in Hh8. apply take_app_length'. unfold sizeof_CH. lia. }
  rewrite Hhd. assert (Ho : exists o, ld h CH_board_info_area = Some o /\ o <> 0).
  { clear -Hch. destruct old; hnf in Hch; [rewrite Hch; by exists 8|]. destruct Hch as (? & ? & ? & ? & ? & ->). by exists 1. }
  destruct Ho as (o & Ho & Hne). rewrite (lift_run _ _ _ _ Ho), (proj2 (Z.eqb_neq o 0)) by done.
  rewrite (bind_run _ _ _ _ _ (Hh sizeof_CH sizeof_BIA true w eq_refl eq_refl ltac:(done) ltac:(unfold sizeof_BIA; lia) ltac:(unfold sizeof_CH, sizeof_BIA; lia))).
  rewrite bool_decide_true by done. cbn [negb].
  rewrite (lift_run _ _ _ l); [done|].
  rewrite <- (take_drop (Z.to_nat sizeof_CH) img), ld_app_r in Hl.
  2:{ rewrite zlen_take; unfold sizeof_CH; lia. }
  rewrite zlen_take in Hl by (unfold sizeof_CH; lia).
  rewrite <- (take_drop (Z.to_nat sizeof_BIA) (drop _ img)), ld_app_l in Hl; [exact Hl|].
  rewrite zlen_take; [done|]. rewrite zlen_drop; unfold sizeof_CH, sizeof_BIA; lia.
Qed.

(** [ivfru_read] into a block of that size. *)
Lemma ub_read_run board img w p b l loc :
  board_holds board img w -> ub_image_buffer w = Some p -> ld img 9 = Some l -> 2 <= l < 256 -> read_size l <= zlen img ->
  zlen b = 8 + l * 8 ->
  exists tail, ivfru_read board loc true (holding p b w) =
    Some (IVFRU_RET_SUCCESS, holding p (take (Z.to_nat (read_size l)) img ++ tail) w).
Proof.
  intros Hh Hp Hl Hl2 Hz Hb. assert (Hn : 24 <= read_size l <= 8 + l * 8) by (unfold read_size; case_if; lia).
  unfold ivfru_read. rewrite (reserve_ub _ _ _ _ p) by done. rewrite (with_buffer_ub _ _ p) by done.
  change (sizeof_CH + sizeof_BIA) with 14. set (hd := take 14 img). assert (Hhd : zlen hd = 14) by (apply (zlen_take img 14); lia).
  assert (Hread : forall b off offset size b', 0 <= offset -> 0 <= size <= 2048 -> offset + size <= zlen img ->
    wr_range b off (take (Z.to_nat size) (drop (Z.to_nat offset) img)) = Some b' ->
    read_board_into board p off offset size true (holding p b w) = Some (IVFRU_RET_SUCCESS, holding p b' w)).
  { intros b1 off offset size b' Ho Hs Hin Hw. unfold read_board_into.
    rewrite (bind_run _ _ _ _ _ (Hh offset size true (holding p b1 w) eq_refl eq_refl Ho Hs Hin)).
    by rewrite (upd_ub _ _ p b1 tt b') by by rewrite Hw. }
  destruct (split_at b 14) as (b1 & b2 & -> & Hb1); [lia|]. rewrite zlen_app in Hb.
  pose proof (wr_mid [] b1 b2 0 hd eq_refl (eq_trans Hhd (eq_sym Hb1))) as Hw1. cbn [app] in Hw1.
  rewrite (or_return_run _ _ _ _ _ (Hread _ 0 0 14 _ ltac:(lia) ltac:(lia) ltac:(lia) Hw1)). rewrite get_ub.
  assert (Hl' : ld (hd ++ b2) (sizeof_CH + BIA_length) = Some l).
  { change (sizeof_CH + BIA_length) with 9. rewrite ld_app_l by lia.
    rewrite <- (take_drop 14 img), ld_app_l in Hl by (fold hd; lia). exact Hl. }
  rewrite (lift_run _ _ _ _ Hl'). set (rem := (if negb (l =? 64) then l * 8 else l) - sizeof_BIA).
  assert (Hrem : 14 + rem = read_size l) by (unfold rem, read_size, sizeof_BIA; destruct (l =? 64) eqn:E; cbn [negb]; bool_to_prop; lia).
  rewrite (reserve_ub _ _ _ _ p) by done. rewrite (with_buffer_ub _ _ p) by done.
  destruct (split_at b2 rem) as (m & tail & -> & Hm); [lia|].
  set (rest := take (Z.to_nat rem) (drop (Z.to_nat 14) img)).
  assert (Hrest : zlen rest = rem) by (apply zlen_take; rewrite zlen_drop; lia).
  pose proof (wr_mid hd m tail 14 rest (eq_sym Hhd) (eq_trans Hrest (eq_sym Hm))) as Hw2.
  rewrite (or_return_run _ _ _ _ _ (Hread _ 14 14 rem _ ltac:(lia) ltac:(lia) ltac:(lia) Hw2)). cbn [negb].
  exists tail. rewrite (or_return_run _ _ _ _ _ eq_refl), (or_return_run _ _ _ _ _ eq_refl).
  assert (Hall : hd ++ rest = take (Z.to_nat (read_size l)) img).
  { unfold hd, rest. change 14%nat with (Z.to_nat 14). rewrite take_take_drop. f_equal. lia. }
  by rewrite <- Hall, <- (assoc_L (++)).
Qed.

(** The image is within what is read, but for an area of 512 bytes in the new format. *)
Lemma image_read img old len im l tail :
  fru_image img old len im -> ld img 9 = Some l -> is_byte l -> (old = false -> l <> 64) ->
  l = len /\ fru_image (take (Z.to_nat (read_size l)) img ++ tail) old len im.
Proof.
  intros Him Hl Hby Hne. pose proof Him as (_ & Hok & Hs & Ht). destruct (render_bia_parts _ _ _ _ Hok Hs) as (_ & Hlen & _).
  change (sizeof_CH + 1) with 9 in Hlen. assert (l = len) as -> by congruence. split; [done|].
  apply image_split in Him as (h & t & Hch & Hh & ->).
  assert (Htot : zlen (h ++ render_bia len im) = 8 + bia_total im) by (rewrite zlen_app, zlen_render_bia by done; lia).
  assert (Hge : 8 + bia_total im <= read_size len).
  { unfold read_size. unfold is_byte in Hby. rewrite Ht. destruct old, (Z.eqb_spec len 64); try lia; by destruct Hne. }
  rewrite (assoc_L (++)), take_app, <- !(assoc_L (++)).
  rewrite take_ge by (unfold zlen in *; lia). rewrite <- !(assoc_L (++)). by apply image_join.
Qed.

(** [board_scan_ipmi] on a board that holds an image. *)
Lemma board_scan_run class board varname img old len im f1 product sn pn l w :
  boardclass2board class = Some board -> class2string class = Some varname ->
  board_holds board img w -> fru_image img old len im -> bi_predef im = [f1; product; sn; pn] ->
  ld img 9 = Some l -> 2 <= l < 256 -> read_size l <= zlen img -> (old = false -> l <> 64) ->
  (forall c v, ub_env w !! (varname +:+ "_forced") <> Some (c :: v)) ->
  Forall (fun c => isprint c = true) (board_string (f_data pn) (f_data sn) (f_data product)) ->
  board_scan_ipmi class w =
    if 64 <=? zlen (board_string (f_data pn) (f_data sn) (f_data product)) then None
    else Some (0, ub_add_console (board_text class (clean (f_data pn)) (clean (f_data sn)) (clean (f_data product)))
                    (ub_with_env (publish_ordinal varname (ordinal (clean (f_data pn)))
                       (<[varname := board_string (f_data pn) (f_data sn) (f_data product)]> (ub_env w)))
                       (ub_with_buffer (Some (fresh (dom (ub_heap w)))) w))).
Proof.
  intros Hb Hv Hh Him Hpre Hl Hl2 Hz Hne Hforced Hprint.
  assert (Hz14 : 14 <= zlen img) by (unfold read_size in Hz; case_if_in Hz; lia).
  unfold board_scan_ipmi. rewrite (lift_run _ _ _ _ Hb), (lift_run _ _ _ _ Hv).
  rewrite (bind_run _ _ _ _ _ (size_from_storage _ _ _ _ _ _ _ Hh Him Hl Hz14)).
  unfold stack_array. set (p := fresh (dom (ub_heap w))).
  set (b0 := take _ (stack_junk _ ++ _)).
  assert (Hb0 : zlen b0 = 8 + l * 8).
  { unfold b0. apply zlen_take. rewrite zlen_app, zlen_replicate. pose proof (zlen_nonneg (stack_junk (8 + l * 8))). lia. }
  change (ub_with_heap (<[p := b0]> (ub_heap w)) w) with (holding p b0 w).
  set (wb := ub_with_buffer (Some p) w). rewrite (bind_run _ _ _ IVFRU_RET_SUCCESS (holding p b0 wb)) by done.
  destruct (ub_read_run board img wb p b0 l "") as [tail Hread]; [exact Hh|done..|].
  rewrite (bind_run _ _ _ _ _ Hread). rewrite bool_decide_true by done. cbn [negb]. rewrite get_ub.
  destruct (image_read img old len im l tail Him Hl ltac:(unfold is_byte; lia) Hne) as [-> Him'].
  set (b := take _ img ++ tail) in *. rewrite (lift_run _ _ _ _ (validate_accept _ _ _ _ false Him')).
  rewrite bool_decide_true by done. cbn [negb].
  destruct (predefined_fields_run _ _ _ _ _ _ _ _ Him' Hpre) as (Hf & Hs1 & Hs2 & Hs3). rewrite (lift_run _ _ _ _ Hf). cbn [fst snd].
  rewrite (lift_run _ _ _ _ (seg_rd _ _ _ _ Hs1 eq_refl)), (lift_run _ _ _ _ (seg_rd _ _ _ _ Hs2 eq_refl)), (lift_run _ _ _ _ (seg_rd _ _ _ _ Hs3 eq_refl)).
  destruct Him' as (_ & (_ & _ & _ & Hfo & _) & _). rewrite Hpre in Hfo.
  assert (Hflen : forall f, field_ok f -> zlen (f_data f) < 64).
  { intros f (_ & _ & -> & _). change 0x3F with (Z.ones 6). rewrite Z.land_ones by lia. apply Z.mod_pos_bound. done. }
  rewrite !Forall_cons in Hfo. destruct Hfo as (_ & Hfp & Hfs & Hfn & _).
  pose proof (set_ipmi_env_run class varname (f_data product) (f_data sn) (f_data pn) (holding p b wb) Hv Hforced
    (Hflen _ Hfp) (Hflen _ Hfs) (Hflen _ Hfn) Hprint) as Hset.
  destruct (Z.leb_spec 64 (zlen (board_string (f_data pn) (f_data sn) (f_data product)))) as [|Hlt];
    [unfold mbind, M_bind; by rewrite Hset|]. rewrite (bind_run _ _ _ _ _ Hset).
  match type of Hset with _ = Some (_, ?w') => assert (Hvar : ub_env w' !! varname = Some (board_string (f_data pn) (f_data sn) (f_data product))) end.
  { cbn [ub_env ub_with_env]. rewrite (publish_ordinal_var class) by done. apply lookup_insert_eq. }
  rewrite (bind_run _ _ _ _ _ (print_board_info_run class varname _ _ _ _ Hv Hvar Hlt)).
  unfold mret, M_ret. do 2 f_equal. unfold ub_with_heap, ub_with_env, ub_add_console, holding, wb, ub_with_buffer. cbn.
  rewrite delete_insert_id; [done|]. apply not_elem_of_dom, is_fresh.
Qed.

(** C10: start-up publishes the identity of a board: when its storage holds an image, in
    either format, whose part number, serial number and name fit the array with two commas
    and are printable, the variable of the board gets them in this order, without spaces
    and commas of their own, the variable of the ordinal gets the second part of the part
    number, no other variable changes, and the fields read back from the variable are the
    ones of the image.  The static buffer pointer is left on memory that is gone. *)
Theorem board_scan_publishes class board varname img old len im f1 product sn pn l w :
  boardclass2board class = Some board -> class2string class = Some varname ->
  board_holds board img w -> fru_image img old len im -> bi_predef im = [f1; product; sn; pn] ->
  ld img 9 = Some l -> 2 <= l < 256 -> read_size l <= zlen img -> (old = false -> l <> 64) ->
  (forall c v, ub_env w !! (varname +:+ "_forced") <> Some (c :: v)) ->
  let s := board_string (f_data pn) (f_data sn) (f_data product) in
  Forall (fun c => isprint c = true) s -> zlen s < 64 ->
  exists w' p, board_scan_ipmi class w = Some (0, w') /\
    ub_env w' = publish_ordinal varname (ordinal (clean (f_data pn))) (<[varname := s]> (ub_env w)) /\
    iv_board_get_field class IV_BOARD_FIELD_PN IV_BOARD_SUBFIELD_NONE w' = Some (Some (clean (f_data pn)), w') /\
    iv_board_get_field class IV_BOARD_FIELD_SN IV_BOARD_SUBFIELD_NONE w' = Some (Some (clean (f_data sn)), w') /\
    iv_board_get_field class IV_BOARD_FIELD_NAME IV_BOARD_SUBFIELD_NONE w' = Some (Some (clean (f_data product)), w') /\
    ub_console w' = ub_console w ++ board_text class (clean (f_data pn)) (clean (f_data sn)) (clean (f_data product)) /\
    ub_i2c w' = ub_i2c w /\ ub_flash w' = ub_flash w /\ ub_heap w' = ub_heap w /\
    ub_image_buffer w' = Some p /\ ub_heap w' !! p = None.
Proof.
  intros Hb Hv Hh Him Hpre Hl Hl2 Hz Hne Hforced s Hprint Hlt.
  rewrite (board_scan_run class board varname img old len im f1 product sn pn l w) by done.
  fold s. rewrite (proj2 (Z.leb_gt 64 _)) by done. eexists _, _. split; [reflexivity|]. split; [done|].
  destruct (get_field_board_string (f_data pn) (f_data sn) (f_data product)) as (G1 & G2 & G3 & _). fold s in G1, G2, G3.
  assert (Hs : forall ord env, publish_ordinal varname ord (<[varname := s]> env) !! varname = Some s).
  { intros ord env. rewrite (publish_ordinal_var class) by done. apply lookup_insert_eq. }
  assert (Hget : forall field r w', get_field s field IV_BOARD_SUBFIELD_NONE = r -> ub_env w' !! varname = Some s ->
    iv_board_get_field class field IV_BOARD_SUBFIELD_NONE w' = Some (r, w')).
  { intros field r w' <- Hw'. by apply (iv_board_get_field_run class varname). }
  split_and!; try (apply Hget; [done|apply Hs]); try done. apply not_elem_of_dom. cbn. apply is_fresh.
Qed.

(** C40: two overruns of arrays on the stack during the scan: of [ipmi_string_buf], when the
    three fields with their commas need 64 characters or more; and of [iv_ipmi], when the
    header says there is no board area, which makes it eight bytes long. *)
Theorem board_scan_overruns class board varname img w :
  boardclass2board class = Some board -> class2string class = Some varname -> board_holds board img w ->
  (forall old len im f1 product sn pn l,
     fru_image img old len im -> bi_predef im = [f1; product; sn; pn] ->
     ld img 9 = Some l -> 2 <= l < 256 -> read_size l <= zlen img -> (old = false -> l <> 64) ->
     (forall c v, ub_env w !! (varname +:+ "_forced") <> Some (c :: v)) ->
     Forall (fun c => isprint c = true) (board_string (f_data pn) (f_data sn) (f_data product)) ->
     64 <= zlen (board_string (f_data pn) (f_data sn) (f_data product)) ->
     board_scan_ipmi class w = None) /\
  (14 <= zlen img -> ld img CH_board_info_area = Some 0 -> board_scan_ipmi class w = None).
Proof.
  intros Hb Hv Hh. split.
  - intros old len im f1 product sn pn l Him Hpre Hl Hl2 Hz Hne Hforced Hprint Hlt.
    rewrite (board_scan_run class board varname img old len im f1 product sn pn l w) by done.
    by rewrite (proj2 (Z.leb_le 64 _)).
  - intros Hz Ho. unfold board_scan_ipmi. rewrite (lift_run _ _ _ _ Hb), (lift_run _ _ _ _ Hv).
    assert (Hsize : ivfru_get_size_from_storage board w = Some ((IVFRU_RET_SUCCESS, 8), w)).
    { unfold ivfru_get_size_from_storage.
      rewrite (bind_run _ _ _ _ _ (Hh 0 sizeof_CH true w eq_refl eq_refl ltac:(done) ltac:(unfold sizeof_CH; lia) ltac:(unfold sizeof_CH; lia))).
      rewrite bool_decide_true by done. cbn [negb]. rewrite (lift_run _ _ _ 0); [done|].
      change (drop (Z.to_nat 0) img) with img. rewrite <- (take_drop (Z.to_nat sizeof_CH) img), ld_app_l in Ho; [exact Ho|].
      rewrite zlen_take; unfold sizeof_CH, CH_board_info_area; lia. }
    rewrite (bind_run _ _ _ _ _ Hsize). unfold stack_array. set (p := fresh (dom (ub_heap w))).
    set (b0 := take _ (stack_junk _ ++ _)).
    assert (Hb0 : zlen b0 = 8).
    { unfold b0. apply zlen_take. rewrite zlen_app, zlen_replicate. pose proof (zlen_nonneg (stack_junk 8)). lia. }
    change (ub_with_heap (<[p := b0]> (ub_heap w)) w) with (holding p b0 w).
    set (wb := ub_with_buffer (Some p) w). rewrite (bind_run _ _ _ IVFRU_RET_SUCCESS (holding p b0 wb)) by done.
    assert (Hread : ivfru_read board "" true (holding p b0 wb) = None); [|unfold mbind, M_bind; by rewrite Hread].
    unfold ivfru_read. rewrite (reserve_ub _ _ _ _ p) by done. rewrite (with_buffer_ub _ _ p) by done.
    change (sizeof_CH + sizeof_BIA) with 14. unfold or_return at 1.
    assert (Hr : read_board_into board p 0 0 14 true (holding p b0 wb) = None); [|unfold mbind, M_bind; by rewrite Hr].
    unfold read_board_into. rewrite (bind_run _ _ _ _ _ (Hh 0 14 true (holding p b0 wb) eq_refl eq_refl ltac:(lia) ltac:(lia) ltac:(lia))).
    assert (Hw : wr_range b0 0 (take (Z.to_nat 14) (drop (Z.to_nat 0) img)) = None).
    { unfold wr_range. change (drop (Z.to_nat 0) img) with img. rewrite zlen_take, Hb0 by lia. done. }
    unfold mem_upd, mbind at 1, M_bind at 1, mbind at 1, M_bind at 1, mem_get. cbn [plat_heap uboot_plat holding ub_heap ub_with_heap].
    rewrite lookup_insert_eq. unfold mbind, M_bind, lift. by rewrite Hw.
Qed.
End scan.

(** ** Concrete inputs *)

Definition sample_init : InitEnv :=
  {| isprint := fun c => (32 <=? c) && (c <? 127); null_text := bytes "<NULL>"; IVEIA_MACHINE := bytes "atlas-ii-z8";
     IVEIA_SRC_BUILD_HASH := bytes "0"; IVEIA_META_LAYER := fun _ => None; CONFIG_SYS_BOARD := "zynqmp";
     enetaddr_text := fun bs => 1 :: bs; chosen_node := 4; stack_junk := fun _ => [] |}.

Lemma ports_distinct_witness :
  toupper <$> bytes "C6J36" <> toupper <$> bytes "B9LYW" /\
  NoDup (filter (fun mac => mac <> 0) (port_macs false (sn_to_mac (bytes "C6J36")) (sn_to_mac (bytes "B9LYW")))).
Proof.
  assert (Hd : toupper <$> bytes "C6J36" <> toupper <$> bytes "B9LYW") by done.
  split; [exact Hd|]. apply (ports_distinct false _ _ Hd).
Defined.

(** The main board's serial number is published, and the last port has an address. *)
Definition sample_env : uboot :=
  Uboot ∅ None {["iv_mb" := bytes "205-00130-01-A,C6J36,Atlas"; "eth3addr" := [9]]} ∅ ∅ ∅ None [] [].
Lemma set_mac_addrs_exact_witness :
  exists env, @set_mac_addrs sample_init sample_env = Some (tt, ub_with_env env sample_env) /\
    env !! "eth3addr" = Some [9] /\ env !! "ethaddr" = None /\
    exists bs, octets 0x0021685C4678 bs /\ env !! "eth2addr" = Some (1 :: bs).
Proof.
  destruct (@set_mac_addrs_exact sample_init sample_env ltac:(done)) as (env & Hrun & _ & Hp).
  exists env. split; [exact Hrun|].
  split_and!; [exact (Hp 3%nat "eth3addr" _ eq_refl eq_refl)|exact (Hp 0%nat "ethaddr" _ eq_refl eq_refl)|exact (Hp 2%nat "eth2addr" _ eq_refl eq_refl)].
Defined.

(** A board created with the default lengths, at offset 2 of its EEPROM. *)
Definition board_fields : list (list Z * Z) :=
  [(mfr_default, 10); (bytes "Atlas, Z8", 16); (bytes "C6J36", 10); (bytes "205-00130-01-A", 15)].
Definition board_area : bia_image := created [128; 81; 1] board_fields.
Definition board_image : list Z := CH_DEFAULT ++ render_bia 8 board_area.

Lemma board_image_ok : fru_image board_image false 8 board_area.
Proof.
  unfold board_image. rewrite <- (app_nil_r (render_bia _ _)). apply image_join; [apply default_ch_ok| |reflexivity].
  apply created_ok; [done|by repeat constructor|done|]. repeat constructor; discriminate || done.
Qed.
Lemma board_image_held img : zlen img <= 2048 -> @board_holds (sample_uboot 9999) IVFRU_BOARD_MB img (sample_machine [] ([255; 255] ++ img ++ []) []).
Proof.
  intros Hz. eapply (@i2c_board_holds (sample_uboot 9999) IVFRU_BOARD_MB 11 _ 1 0x52 2 [255; 255] img []);
    [reflexivity..| |reflexivity|reflexivity|lia].
  intros o n Ho Hn0 Hn. cbn. apply Z.leb_gt. lia.
Qed.

Lemma board_scan_publishes_witness :
  let w := sample_machine [] ([255; 255] ++ board_image ++ []) [] in
  exists w' p, @board_scan_ipmi (sample_uboot 9999) sample_init IV_BOARD_CLASS_MB w = Some (0, w') /\
    ub_env w' = <["iv_mb_ord" := bytes "00130"]> (<["iv_mb" := bytes "205-00130-01-A,C6J36,Atlas/_Z8"]> ∅) /\
    @iv_board_get_field IV_BOARD_CLASS_MB IV_BOARD_FIELD_SN IV_BOARD_SUBFIELD_NONE w' = Some (Some (bytes "C6J36"), w') /\
    ub_image_buffer w' = Some p /\ ub_heap w' !! p = None.
Proof.
  assert (Hh := board_image_held board_image ltac:(vm_compute; discriminate)).
  destruct (@board_scan_publishes (sample_uboot 9999) sample_init IV_BOARD_CLASS_MB IVFRU_BOARD_MB "iv_mb" board_image false 8 board_area
    (named_field (mfr_default, 10)) (named_field (bytes "Atlas, Z8", 16)) (named_field (bytes "C6J36", 10)) (named_field (bytes "205-00130-01-A", 15)) 8
    (sample_machine [] ([255; 255] ++ board_image ++ []) []) eq_refl eq_refl Hh board_image_ok eq_refl)
    as (w' & p & Hrun & Henv & _ & Hsn & _ & _ & _ & _ & _ & Hp & Hn).
  - reflexivity.
  - done.
  - by vm_compute.
  - done.
  - done.
  - by repeat constructor.
  - by vm_compute.
  - exists w', p. split_and!; [exact Hrun|rewrite Henv; vm_compute; reflexivity| |exact Hp|exact Hn].
    replace (bytes "C6J36") with (clean (f_data (named_field (bytes "C6J36", 10)))) by by vm_compute. exact Hsn.
Defined.

(** A board with long names, and one without a board area. *)
Definition long_fields : list (list Z * Z) :=
  [(mfr_default, 10); (replicate 30 65, 30); (bytes "C6J36", 10); (replicate 30 66, 30)].
Definition long_area : bia_image := created [128; 81; 1] long_fields.
Definition long_image : list Z := CH_DEFAULT ++ render_bia 12 long_area.

Lemma board_scan_overruns_witness :
  @board_scan_ipmi (sample_uboot 9999) sample_init IV_BOARD_CLASS_MB (sample_machine [] ([255; 255] ++ long_image ++ []) []) = None /\
  @board_scan_ipmi (sample_uboot 9999) sample_init IV_BOARD_CLASS_MB
    (sample_machine [] ([255; 255] ++ (([1; 0; 0; 0; 0; 0; 0; 255] ++ replicate 8 0)) ++ []) []) = None.
Proof.
  assert (Hh := board_image_held long_image ltac:(vm_compute; discriminate)).
  assert (Hh2 := board_image_held ([1; 0; 0; 0; 0; 0; 0; 255] ++ replicate 8 0) ltac:(vm_compute; discriminate)).
  split.
  - refine (proj1 (@board_scan_overruns (sample_uboot 9999) sample_init IV_BOARD_CLASS_MB IVFRU_BOARD_MB "iv_mb" long_image _ eq_refl eq_refl Hh)
      false 12 long_area (named_field (mfr_default, 10)) (named_field (replicate 30 65, 30)) (named_field (bytes "C6J36", 10))
      (named_field (replicate 30 66, 30)) 12 _ eq_refl _ _ _ _ _ _ _).
    + unfold long_image. rewrite <- (app_nil_r (render_bia _ _)). apply image_join; [apply default_ch_ok| |reflexivity].
      apply created_ok; [done|by repeat constructor|done|]. repeat constructor; discriminate || done.
    + reflexivity.
    + done.
    + by vm_compute.
    + done.
    + done.
    + by repeat constructor.
    + by vm_compute.
  - refine (proj2 (@board_scan_overruns (sample_uboot 9999) sample_init IV_BOARD_CLASS_MB IVFRU_BOARD_MB "iv_mb" _ _ eq_refl eq_refl Hh2) _ _); done.
Defined.
