(* ===== verification/Provision.v ===== *)
(** * From the command line on Linux to the start-up of U-Boot

    An identity created and written to a flash board by the tool, in two processes on
    Linux, is the one U-Boot publishes when it starts on the same flash: [FruCli],
    [FruOps] and [FruBoard] composed with [Uboot] and [BoardInit]. *)
From S2P Require Import Prelude CString FruField FruValidate FruDate FruPlat FruOps FruEdit FruCreate FruCommands FruBoard FruBoardProps FruCli Uboot UbootProps BoardInit BoardInitProps.

#[local] Open Scope string_scope.
#[local] Open Scope list_scope.
#[local] Open Scope Z_scope.

(** ** Specification *)

(** The image the tool creates for an identity, with its encoded date. *)
Definition identity_fields (product sn pn : list Z) : list (list Z * Z) :=
  [(mfr_default, 10); (product, 16); (sn, 10); (pn, 15)].
Definition identity_area (t product sn pn : list Z) : bia_image := created t (identity_fields product sn pn).
Definition identity_image (t product sn pn : list Z) : list Z :=
  CH_DEFAULT ++ render_bia (new_len (identity_area t product sn pn)) (identity_area t product sn pn).

(** A string that reaches the environment as it is: no space, comma or underscore. *)
Definition plain `{InitEnv} (s : list Z) : Prop :=
  Forall (fun c => c <> 0 /\ c <> 32 /\ c <> 44 /\ c <> 95 /\ isprint c = true) s.

(** U-Boot finds the identity of [board] in a partition of a flash, from [off] on, and
    the partition holds [c]. *)
Definition sees_partition `{UbootIO} (board : ivfru_board) (off : Z) (c : list Z) (w : uboot) : Prop :=
  exists node label bus cs part before after,
    board_node board = inr node /\ fdt_getprop node "i2c" = None /\ fdt_getprop node "qspi" = Some label /\
    qspi_offset node = Some off /\ get_qspi_info_from_label (cstr label) = Some (inr (bus, cs, part)) /\
    spi_probe_ok bus cs = true /\ (forall o n, spi_error o n = false) /\
    0 <= part /\ zlen before = part /\ part + zlen c < 2 ^ 31 /\ ub_flash w !! (bus, cs) = Some (before ++ c ++ after).

(** A file of the user: neither of the device tree nor of the kernel. *)
Definition user_file (path : string) : Prop := forall y, path <> "/proc/" +:+ y /\ path <> "/sys/" +:+ y.

(** ** Lemmas: strings *)

Lemma drop_spaces_pad n s : drop_spaces (replicate n 32 ++ s) = drop_spaces s.
Proof. by induction n. Qed.

Lemma drop_spaces_plain s : 32 ∉ s -> drop_spaces s = s.
Proof. destruct s as [|c s]; [done|]. rewrite not_elem_of_cons. intros [Hc _]. cbn [drop_spaces]. by rewrite (proj2 (Z.eqb_neq c 32)). Qed.

(** The padding is taken off again. *)
Lemma clean_space_pad s n : clean (space_pad s n) = clean s.
Proof.
  unfold clean, space_pad. set (k := Z.to_nat _). rewrite rev_app_distr.
  assert (E : rev (replicate k 32) = replicate k 32) by (rewrite rev_alt; apply reverse_replicate).
  by rewrite E, drop_spaces_pad.
Qed.

Lemma clean_plain `{InitEnv} s : plain s -> clean s = s.
Proof.
  intros Hs. assert (H32 : 32 ∉ s) by (intros Hin; eapply Forall_forall in Hin; [|exact Hs]; by destruct Hin as (_ & ? & _)).
  unfold clean. rewrite drop_spaces_plain by by rewrite list_elem_of_In, <- in_rev, <- list_elem_of_In. rewrite rev_involutive.
  induction Hs as [|c s (H0 & H1 & H2 & H3 & _) Hs IH]; [done|]. cbn [cstr].
  rewrite (proj2 (Z.eqb_neq c 0)) by done. cbn [fmap list_fmap]. rewrite not_elem_of_cons in H32.
  rewrite !(proj2 (Z.eqb_neq c _)) by done. f_equal. apply IH, H32.
Qed.

Lemma identity_image_ok t d m y product sn pn :
  date_to_ipmi_time d m y = Some (inr t) -> Forall named_ok (identity_fields product sn pn) ->
  let img := identity_image t product sn pn in
  fru_image img false 8 (identity_area t product sn pn) /\ zlen img = 72 /\ ld img 9 = Some 8.
Proof.
  intros Ht Hok img. destruct (date_bytes _ _ _ _ Ht) as [Ht3 Htb].
  assert (Htot : bia_total (identity_area t product sn pn) = 64) by by apply created_default_total.
  assert (Hbok : bia_ok (identity_area t product sn pn)) by by apply created_ok.
  assert (Hl : new_len (identity_area t product sn pn) = 8) by (unfold new_len; by rewrite Htot).
  assert (Him : fru_image img false 8 (identity_area t product sn pn)).
  { unfold img, identity_image. rewrite Hl, <- (app_nil_r (render_bia _ _)). apply image_join; [apply default_ch_ok|done|by rewrite Htot]. }
  split; [done|]. split; [unfold img, identity_image; rewrite zlen_app, zlen_render_bia, Htot by done; reflexivity|].
  pose proof Him as (_ & _ & Hs & _). apply (render_bia_parts _ _ _ _ Hbok Hs).
Qed.

Lemma plain_string `{InitEnv} pn sn name : isprint 44 = true -> plain pn -> plain sn -> plain name ->
  let s := pn ++ [44] ++ sn ++ [44] ++ name in
  board_string pn sn name = s /\ Forall (fun c => isprint c = true) s.
Proof.
  intros H44 Hp Hs Hn s. unfold board_string. rewrite !clean_plain by done. split; [done|].
  assert (Hpr : forall x, plain x -> Forall (fun c => isprint c = true) x) by (intros x Hx; eapply Forall_impl; [exact Hx|]; intros c Hc; apply Hc).
  unfold s. rewrite !Forall_app. split_and!; try (by apply Hpr); by repeat constructor.
Qed.

(** ** Lemmas: the commands *)

Section provision.
Context `{Libc} `{LinuxIO} `{UbootIO} `{InitEnv}.
Context (Hslack : 0 <= vla_slack) (Hopen : forall path, can_open path = true) (Htools : flash_tools).
Context (Halloc : forall n, 0 < n < 2 ^ 31 -> alloc_ok n = true).

(** Storing a file of the user does not change the board. *)
Lemma flash_board_user f board label off mtd dev loc content :
  user_file loc -> loc <> mtd -> is_board board ->
  flash_board f board label off mtd dev -> flash_board (<[loc := content]> f) board label off mtd dev.
Proof using Htools.
  intros Hu Hne Hb [Hi Hq (entries & Hd & Hl) Hdev].
  assert (Hp : forall leaf, board_prop (<[loc := content]> f) board leaf = board_prop f board leaf).
  { intros leaf. assert (exists y, board_dir board +:+ leaf = "/proc/" +:+ y) as [y E] by (by destruct board; eexists).
    unfold board_prop. rewrite E. apply lookup_insert_ne, Hu. }
  assert (Hs : forall y, f !! ("/sys/" +:+ y) = <[loc := content]> f !! ("/sys/" +:+ y)).
  { intros y. rewrite lookup_insert_ne; [done|]. apply Hu. }
  split; rewrite ?Hp; [done..| |by rewrite lookup_insert_ne]. exists entries.
  by rewrite <- (ft_opendir Htools f _ Hs), <- (mtd_loop_agree f _ _ _ Hs).
Qed.

Lemma main_create prog loc date product sn pn (w w1 : linux) :
  ivfru_create loc (Some (bytes date)) (Some (bytes product)) (Some (bytes sn)) (Some (bytes pn)) None w = Some (IVFRU_RET_SUCCESS, w1) ->
  main [prog; "create"; loc; date; product; sn; pn] w = Some ((CMD_RET_SUCCESS, []), w1).
Proof.
  intros Hrun. change (main (W := linux) _) with (do_ivfru_create (W := linux) ["create"; loc; date; product; sn; pn]).
  unfold do_ivfru_create. change (argc _ <? 6) with false. cbv iota. do 6 erewrite bind_run by reflexivity.
  by rewrite (bind_run _ _ _ _ _ Hrun).
Qed.

Lemma main_write prog name board loc (w w1 : linux) :
  is_board board -> ivfru_board2str board = Some name ->
  ivfru_write board loc w = Some (IVFRU_RET_SUCCESS, w1) ->
  main [prog; "write"; name; loc] w = Some ((CMD_RET_SUCCESS, []), w1).
Proof.
  intros Hb Hn Hrun. change (main (W := linux) _) with (do_ivfru_write (W := linux) ["write"; name; loc]).
  unfold do_ivfru_write. change (argc _ <? 3) with false. cbv iota. erewrite bind_run by reflexivity.
  assert (ivfru_str2board name = board) as -> by (destruct board; [vm_compute in Hn; injection Hn as <-; reflexivity..|done]).
  rewrite bool_decide_false by done. erewrite bind_run by reflexivity. by rewrite (bind_run _ _ _ _ _ Hrun).
Qed.

(** Writing the created image. *)
Lemma write_identity board label off mtd dev tmp loc files log t d m y product sn pn :
  is_board board -> mkstemp files = Some tmp -> flash_board files board label off mtd dev ->
  0 <= off -> off + 72 <= zlen dev < 2 ^ 31 -> stack_ok off = true -> strlen mtd <= 71 ->
  date_to_ipmi_time d m y = Some (inr t) -> Forall named_ok (identity_fields product sn pn) ->
  files !! loc = Some (identity_image t product sn pn) ->
  exists tail w', ivfru_write board loc (boot files log) = Some (IVFRU_RET_SUCCESS, w') /\
    lx_files w' !! mtd = Some (take (Z.to_nat off) dev ++ identity_image t product sn pn ++ tail) /\
    zlen (take (Z.to_nat off) dev ++ identity_image t product sn pn ++ tail) = zlen dev.
Proof using Hslack Hopen Htools Halloc.
  intros Hb Etmp Hf Ho Hd Hst Hm Ht Hok Hfile. destruct (identity_image_ok t d m y product sn pn Ht Hok) as (Him & Hz & _).
  set (img := identity_image t product sn pn) in *.
  destruct (write_valid loc files log Halloc board img 8 _ Hfile ltac:(lia) Him) as (data & rest & Hc & Hdz & Hwr).
  assert (Htot : bia_total (identity_area t product sn pn) = 64) by by apply created_default_total.
  assert (rest = []) as -> by (rewrite Hc, zlen_app in Hz; pose proof (zlen_nonneg rest); apply nil_length_inv; unfold zlen in *; lia).
  rewrite app_nil_r in Hc. subst data.
  destruct (flash_write_run Hslack Hopen (running block0 img 0 files log) board label off mtd dev img tmp)
    as (tail & w' & Hrun & Hzd & Hf' & _); [done..|lia|lia|done|done|].
  exists tail, (lx_with_image_size (zlen img) w'). split_and!; [|apply Hf'|done].
  rewrite Hwr. by rewrite (or_return_run _ _ _ _ _ Hrun).
Qed.

(** Scanning a partition that holds it. *)
Lemma scan_identity class board varname off pre tail t d m y product sn pn w :
  boardclass2board class = Some board -> class2string class = Some varname ->
  date_to_ipmi_time d m y = Some (inr t) -> Forall named_ok (identity_fields product sn pn) ->
  isprint 44 = true -> plain pn -> plain sn -> plain product ->
  zlen pre = off -> sees_partition board off (pre ++ identity_image t product sn pn ++ tail) w ->
  (forall c v, ub_env w !! (varname +:+ "_forced") <> Some (c :: v)) ->
  exists w', board_scan_ipmi class w = Some (0, w') /\
    ub_env w' = publish_ordinal varname (ordinal pn) (<[varname := pn ++ [44] ++ sn ++ [44] ++ product]> (ub_env w)) /\
    ub_console w' = ub_console w ++ board_text class pn sn product.
Proof.
  intros Hb Hv Ht Hok H44 Hpn Hsn Hpr Hpre Hsee Hforced.
  destruct Hsee as (node & label & bus & cs & part & before & after & ? & ? & ? & ? & ? & ? & ? & Hpart & Hbef & Hmax & Hfl).
  destruct (identity_image_ok t d m y product sn pn Ht Hok) as (Him & Hz & Hl). set (img := identity_image t product sn pn) in *.
  assert (Hh : board_holds board img w).
  { apply (flash_board_holds board node bus cs part off label (before ++ pre) img (tail ++ after)); try done;
      rewrite ?zlen_app in *; pose proof (zlen_nonneg pre); pose proof (zlen_nonneg tail); [lia| |lia..].
    by rewrite Hfl, <- !(assoc_L (++)). }
  destruct (plain_string pn sn product H44 Hpn Hsn Hpr) as [Hs Hprint].
  assert (Hclean : forall s n, plain s -> clean (f_data (named_field (s, n))) = s).
  { intros s n Hp. change (f_data _) with (space_pad s n). by rewrite clean_space_pad, clean_plain. }
  assert (Hbs : board_string (f_data (named_field (pn, 15))) (f_data (named_field (sn, 10))) (f_data (named_field (product, 16))) =
    pn ++ [44] ++ sn ++ [44] ++ product) by (unfold board_string; by rewrite !Hclean).
  pose proof (board_scan_run class board varname img false 8 _ (named_field (mfr_default, 10)) (named_field (product, 16))
    (named_field (sn, 10)) (named_field (pn, 15)) 8 w Hb Hv Hh Him eq_refl Hl ltac:(lia) ltac:(by rewrite Hz) ltac:(done) Hforced) as Hrun.
  rewrite Hbs, !Hclean in Hrun by done. specialize (Hrun Hprint).
  rewrite (proj2 (Z.leb_gt 64 _)) in Hrun.
  2:{ unfold identity_fields in Hok. rewrite !Forall_cons in Hok. destruct Hok as (_ & (_ & _ & L1 & _) & (_ & _ & L2 & _) & (_ & _ & L3 & _) & _).
      cbn [fst snd] in *. zl. }
  eexists. split; [exact Hrun|]. by split.
Qed.

(** ** Property *)

(** C5: the identity given on the command line is the one U-Boot starts with.  A user
    runs [ivfru create file date product sn pn] and then, in another process,
    [ivfru write board file], for a board with its identity in a flash partition; both
    exit with 0.  When U-Boot later starts on a flash that holds the partition as the
    second process left it, the scan of the board succeeds, sets the variable of the
    board to part number, serial number and product with commas between them, and the
    variable of the ordinal to the second part of the part number, changes no other
    variable, and prints the three strings. *)
Theorem identity_reaches_start_up class board name varname label off mtd dev tmp prog loc files log date d m y t product sn pn :
  boardclass2board class = Some board -> ivfru_board2str board = Some name -> class2string class = Some varname ->
  user_file loc -> loc <> mtd -> can_write loc = true ->
  flash_board files board label off mtd dev -> 0 <= off -> off + 72 <= zlen dev < 2 ^ 31 -> stack_ok off = true -> strlen mtd <= 71 ->
  mkstemp (<[loc := identity_image t (bytes product) (bytes sn) (bytes pn)]> files) = Some tmp ->
  date2dmy (bytes date) = Some (inr (d, m, y)) -> date_to_ipmi_time d m y = Some (inr t) ->
  strlen product <= 16 -> strlen sn <= 10 -> strlen pn <= 15 ->
  isprint 44 = true -> plain (bytes product) -> plain (bytes sn) -> plain (bytes pn) ->
  exists w1 w2 c,
    main [prog; "create"; loc; date; product; sn; pn] (boot files log) = Some ((CMD_RET_SUCCESS, []), w1) /\
    main [prog; "write"; name; loc] (boot (lx_files w1) (lx_shell w1)) = Some ((CMD_RET_SUCCESS, []), w2) /\
    lx_files w2 !! mtd = Some c /\ zlen c = zlen dev /\ take (Z.to_nat off) c = take (Z.to_nat off) dev /\
    forall w, sees_partition board off c w -> (forall x v, ub_env w !! (varname +:+ "_forced") <> Some (x :: v)) ->
      exists w', board_scan_ipmi class w = Some (0, w') /\
        ub_env w' = publish_ordinal varname (ordinal (bytes pn))
                      (<[varname := bytes pn ++ [44] ++ bytes sn ++ [44] ++ bytes product]> (ub_env w)) /\
        ub_console w' = ub_console w ++ board_text class (bytes pn) (bytes sn) (bytes product).
Proof using Hslack Hopen Htools Halloc.
  intros Hcb Hn Hv Hu Hne Hw Hf Ho Hd Hst Hm Etmp Hdate Ht L1 L2 L3 H44 Hpr Hsn Hpn.
  assert (Hb : is_board board) by (destruct class; [done|injection Hcb as <-; done..]).
  assert (Hok : Forall named_ok (identity_fields (bytes product) (bytes sn) (bytes pn))).
  { assert (Hs : forall s n, strlen s <= n -> 1 < n < 64 -> named_ok (bytes s, n)).
    { intros s n Hl Hn'. split_and!; cbn [fst snd]; [split; lia|lia|by rewrite zlen_bytes|apply bytes_is_byte]. }
    unfold identity_fields. rewrite !Forall_cons. split_and!; [|apply Hs; [done|lia]..|done].
    repeat constructor; discriminate || done. }
  destruct (ivfru_create_end loc files log Hw Halloc (bytes date) d m y t (bytes product) (bytes sn) (bytes pn) None Hdate Ht Hok)
    as (w1 & Hcreate & Hf1 & _).
  pose proof (flash_board_user files board label off mtd dev loc (identity_image t (bytes product) (bytes sn) (bytes pn)) Hu Hne Hb Hf) as Hfb.
  change (lx_files w1 = <[loc := identity_image t (bytes product) (bytes sn) (bytes pn)]> files) in Hf1. rewrite <- Hf1 in Hfb, Etmp.
  destruct (write_identity board label off mtd dev tmp loc (lx_files w1) (lx_shell w1) t d m y (bytes product) (bytes sn) (bytes pn))
    as (tail & w2 & Hwrite & Hf2 & Hz); try done; [by rewrite Hf1, lookup_insert_eq|].
  assert (Hpre : zlen (take (Z.to_nat off) dev) = off) by (apply zlen_take; lia).
  exists w1, w2, (take (Z.to_nat off) dev ++ identity_image t (bytes product) (bytes sn) (bytes pn) ++ tail).
  split_and!; [by apply main_create|by apply (main_write prog name board)|exact Hf2|exact Hz| |].
  - apply take_app_length'. unfold zlen in Hpre. lia.
  - intros w Hsee Hforced. by apply (scan_identity class board varname off (take (Z.to_nat off) dev) tail t d m y).
Qed.
End provision.

(** ** Concrete inputs *)

(** The I/O board of the sample systems: on Linux its partition is /dev/mtd1, in U-Boot
    it starts at 8. *)
Definition io_files : files :=
  list_to_map [("/proc/device-tree/iv_ipmi/iv_io/qspi", bytes "ipmi" ++ [0]);
    ("/proc/device-tree/iv_ipmi/iv_io/qspi_offset", [0; 0; 0; 4]);
    ("/sys/class/mtd/mtd0/name", bytes "boot" ++ [10]); ("/sys/class/mtd/mtd1/name", bytes "ipmi" ++ [10]);
    ("/dev/mtd1", replicate 128 255)].

Lemma io_files_board : @flash_board (sample_io 0) io_files IVFRU_BOARD_IO (bytes "ipmi") 4 "/dev/mtd1" (replicate 128 255).
Proof.
  split; [by eexists|reflexivity| |reflexivity]. exists ["."; ".."; "mtd0"; "mtd1"]. split; reflexivity.
Qed.

Lemma io_sees_partition c : zlen c = 128 ->
  @sees_partition (sample_uboot 0) IVFRU_BOARD_IO 4 c (sample_machine [] [] (replicate 8 0 ++ c ++ [])).
Proof.
  intros Hc. exists 12, (bytes "ipmi" ++ [0]), 0, 0, 8, (replicate 8 0), []. split_and!; try done. lia.
Qed.

Lemma identity_reaches_start_up_witness :
  exists w1 w2 c w',
    @main linux (@linux_plat (sample_libc 1000) (@linux_board (sample_io 0))) ["ivfru"; "create"; "f"; "1-3-1996"; "IO-Z8"; "C6J36"; "205-00130-01-A"]
      (boot io_files []) = Some ((CMD_RET_SUCCESS, []), w1) /\
    @main linux (@linux_plat (sample_libc 1000) (@linux_board (sample_io 0))) ["ivfru"; "write"; "io"; "f"]
      (boot (lx_files w1) (lx_shell w1)) = Some ((CMD_RET_SUCCESS, []), w2) /\
    lx_files w2 !! "/dev/mtd1" = Some c /\
    @board_scan_ipmi (sample_uboot 0) sample_init IV_BOARD_CLASS_IO (sample_machine [] [] (replicate 8 0 ++ c ++ [])) = Some (0, w') /\
    ub_env w' = <["iv_io_ord" := bytes "00130"]> (<["iv_io" := bytes "205-00130-01-A,C6J36,IO-Z8"]> ∅).
Proof.
  destruct (@identity_reaches_start_up (sample_libc 1000) (sample_io 0) (sample_uboot 0) sample_init ltac:(done) ltac:(done)
    (sample_flash_tools 0) ltac:(done) IV_BOARD_CLASS_IO IVFRU_BOARD_IO "io" "iv_io" (bytes "ipmi") 4 "/dev/mtd1" (replicate 128 255)
    "/tmp/temp_aaaaaa" "ivfru" "f" io_files [] "1-3-1996" 1 3 1996 [128; 81; 1] "IO-Z8" "C6J36" "205-00130-01-A"
    eq_refl eq_refl eq_refl) as (w1 & w2 & c & Hc & Hw & Hm & Hz & _ & Hscan); try done;
    [apply io_files_board|by repeat constructor..|].
  - destruct (Hscan _ (io_sees_partition c Hz) ltac:(done)) as (w' & Hrun & Henv & _).
    exists w1, w2, c, w'. by split_and!.
Defined.
