(* ===== verification/BootScripts.v ===== *)
(** * The boot scripts of U-Boot ([recipes-bsp/u-boot/files/iveia-config.h])

    The default environment holds scripts for U-Boot's shell: [iv-bootseq] goes through
    the boot targets, loads an environment file from each and runs the boot command it
    defines.  A definition for each script, named after it, over the variables, the memory
    and the console; scripts that an imported file replaces are not followed. *)
From S2P Require Import Prelude CString.

#[local] Open Scope string_scope.
#[local] Open Scope list_scope.
#[local] Open Scope Z_scope.

(** ** The machine *)

Record shell := Shell {
  sh_env : gmap string (list Z);
  sh_mem : Z -> Z;             (* bytes *)
  sh_console : list (list Z)   (* lines *)
}.
Definition with_env (e : gmap string (list Z)) (s : shell) : shell := Shell e (sh_mem s) (sh_console s).
Definition with_mem (m : Z -> Z) (s : shell) : shell := Shell (sh_env s) m (sh_console s).

Definition mem_write (a : Z) (bs : list Z) (m : Z -> Z) : Z -> Z :=
  fun x => if (a <=? x) && (x <? a + zlen bs) then default 0 (bs !! Z.to_nat (x - a)) else m x.
Definition mem_read (a n : Z) (m : Z -> Z) : list Z := (fun k => m (a + Z.of_nat k)) <$> seq 0 (Z.to_nat n).
Definition mem_word (a : Z) (m : Z -> Z) : Z := m a + 2 ^ 8 * m (a + 1) + 2 ^ 16 * m (a + 2) + 2 ^ 24 * m (a + 3).

(** A script returns a status ([true] is success), or control goes to what it started. *)
Inductive outcome (A : Type) := Returns (x : A) (s : shell) | Started (s : shell).
Arguments Returns {A} x s.
Arguments Started {A} s.
Definition B (A : Type) : Type := shell -> outcome A.
#[global] Instance B_ret : MRet B := fun A x s => Returns x s.
#[global] Instance B_bind : MBind B := fun A C f m s => match m s with Returns x s => f x s | Started s => Started s end.

(** What the scripts need of U-Boot: the file [load] or [dhcp] fetches, with the
    variables it sets apart from "filesize"; the variables in the text [env import]
    reads; the bytes [crc32] stores; a script of the user; the status an [if] leaves
    whose condition failed. *)
Class BootCmds := {
  fetch : string -> list Z -> option (list Z * list (string * list Z));
  env_import : list Z -> option (list (string * list Z));
  crc32 : list Z -> list Z;
  run_text : list Z -> B bool;
  if_untaken : bool
}.

Section scripts.
Context `{BootCmds}.

(** ** Commands of the shell *)

Definition get (name : string) : B (list Z) := fun s => Returns (default [] (sh_env s !! name)) s.
Definition setenv (name : string) (v : list Z) : B unit := fun s => Returns tt (with_env (<[name := v]> (sh_env s)) s).
Definition delenv (name : string) : B unit := fun s => Returns tt (with_env (delete name (sh_env s)) s).
Definition setenvs (l : list (string * list Z)) : B unit :=
  fun s => Returns tt (with_env (foldl (fun e x => <[fst x := snd x]> e) (sh_env s) l) s).
Definition get_mem : B (Z -> Z) := fun s => Returns (sh_mem s) s.
Definition put_mem (a : Z) (bs : list Z) : B unit := fun s => Returns tt (with_mem (mem_write a bs (sh_mem s)) s).
Definition echo (l : list Z) : B unit := fun s => Returns tt (Shell (sh_env s) (sh_mem s) (sh_console s ++ [l])).
Definition number_of (l : list Z) : Z := fst (strtoul 16 l).
Definition hex (n : Z) : list Z := bytes (hex_digits 16 n "").

(** [setexpr name a - b] and [setexpr.l name *a]. *)
Definition setexpr_minus (name : string) (a b : Z) : B unit := setenv name (hex (u64 (a - b))).
Definition setexpr_word (name : string) (a : Z) : B unit := mem ← get_mem; setenv name (hex (mem_word a mem)).
(** [mw.l a 0 count]. *)
Definition mw_zero (a count : Z) : B unit := put_mem a (replicate (Z.to_nat (4 * count)) 0).
Definition run_var (name : string) : B bool :=
  fun s => match sh_env s !! name with None => Returns false s | Some text => run_text text s end.

(** [setexpr name gsub pattern replacement text], for a pattern of plain characters:
    [k] characters are still to be skipped. *)
Fixpoint gsub (pattern replacement : list Z) (k : nat) (s : list Z) : list Z :=
  match s with
  | [] => []
  | c :: s' =>
    match k with
    | S k => gsub pattern replacement k s'
    | O => if bool_decide (pattern `prefix_of` s) then replacement ++ gsub pattern replacement (length pattern - 1) s'
           else c :: gsub pattern replacement 0 s'
    end
  end.
(** [setexpr name sub ' .*' '' text]. *)
Fixpoint up_to_space (s : list Z) : list Z :=
  match s with [] => [] | c :: s => if c =? 32 then [] else c :: up_to_space s end.
(** The words of the list of a [for]. *)
Fixpoint words (s w : list Z) : list (list Z) :=
  let flush := match w with [] => [] | _ => [w] end in
  match s with
  | [] => flush
  | c :: s => if c =? 32 then flush ++ words s [] else words s (w ++ [c])
  end.

(** ** Loading *)

Definition load_from (dev : string) : B bool :=
  addr ← get "bootenv_addr"; path ← get "altpath"; file ← get "bootenv_file";
  match fetch dev (path ++ bytes "/" ++ file) with
  | None => mret false
  | Some (content, vars) =>
    _ ← setenvs vars;
    _ ← put_mem (number_of addr) content;
    _ ← setenv "filesize" (hex (zlen content)); mret true
  end.
Definition loadenv_mmc0 : B bool := load_from "load mmc 0".
Definition loadenv_mmc1 : B bool := load_from "load mmc 1".
Definition loadenv_dhcp : B bool := load_from "dhcp".

(** In front of a file put into memory by a debugger are four words: space for the
    checksum, a magic number, the size and the checksum. *)
Definition loadenv_jtag : B bool :=
  addr ← get "bootenv_addr";
  _ ← setexpr_minus "scratch_addr" (number_of addr) 0x10;
  _ ← setexpr_minus "magic_addr" (number_of addr) 0x0c; a ← get "magic_addr"; _ ← setexpr_word "magic" (number_of a);
  _ ← setexpr_minus "filesize_addr" (number_of addr) 0x08; a ← get "filesize_addr"; _ ← setexpr_word "fsize" (number_of a);
  _ ← setexpr_minus "crc32_addr" (number_of addr) 0x04; a ← get "crc32_addr"; _ ← setexpr_word "crc32" (number_of a);
  scratch ← get "scratch_addr"; _ ← mw_zero (number_of scratch) 4;
  _ ← setenv "filesize" (bytes "0");
  magic ← get "magic"; jtag_boot_magic ← get "jtag_boot_magic";
  if bool_decide (magic = jtag_boot_magic) then
    fsize ← get "fsize";
    mem ← get_mem; _ ← put_mem (number_of scratch) (crc32 (mem_read (number_of addr) (number_of fsize) mem));
    _ ← setexpr_word "crc32_calc" (number_of scratch);
    crc ← get "crc32"; crc32_calc ← get "crc32_calc";
    if bool_decide (crc = crc32_calc) then _ ← setenv "filesize" fsize; mret true else mret if_untaken
  else mret if_untaken.

Definition importenv : B bool :=
  addr ← get "bootenv_addr"; size ← get "filesize"; mem ← get_mem;
  match env_import (mem_read (number_of addr) (number_of size) mem) with
  | Some vars => _ ← setenvs vars; mret true
  | None => mret false
  end.

(** [run loadenv_${tgt}]. *)
Definition loadenv (tgt : list Z) : B bool :=
  if bool_decide (tgt = bytes "mmc0") then loadenv_mmc0
  else if bool_decide (tgt = bytes "mmc1") then loadenv_mmc1
  else if bool_decide (tgt = bytes "dhcp") then loadenv_dhcp
  else if bool_decide (tgt = bytes "jtag") then loadenv_jtag
  else run_var ("loadenv_" +:+ String.string_of_list_ascii ((fun c => Ascii.ascii_of_N (Z.to_N c)) <$> tgt)).

Definition loadtgt (tgt : list Z) : B bool :=
  ok ← loadenv tgt;
  if ok : bool then _ ← importenv; _ ← setenv "loadmode" tgt; mret true else mret if_untaken.
Definition load_mmc0 : B bool := _ ← setenv "tgt" (bytes "mmc0"); loadtgt (bytes "mmc0").
Definition load_mmc1 : B bool := _ ← setenv "tgt" (bytes "mmc1"); loadtgt (bytes "mmc1").
Definition load_dhcp : B bool := _ ← setenv "tgt" (bytes "dhcp"); loadtgt (bytes "dhcp").
Definition load_jtag : B bool := _ ← setenv "tgt" (bytes "jtag"); loadtgt (bytes "jtag").

(** ** The boot sequence *)

Definition zynq_test_forced_jtag : B unit :=
  addr ← get "zynq_forced_jtag_magic_addr"; _ ← setexpr_word "magic" (number_of addr);
  board ← get "board"; magic ← get "magic"; jtag_boot_magic ← get "jtag_boot_magic";
  if bool_decide (board = bytes "zynq") && bool_decide (magic = jtag_boot_magic) then
    _ ← mw_zero (number_of addr) 1;
    _ ← echo (bytes "JTAG Magic found - forcing JTAG boot");
    targets ← get "boot_targets"; setenv "boot_targets" (bytes "jtag " ++ targets)
  else mret tt.

(** The targets in the order of the loop: the first one, then the list without it. *)
Definition first_target (targets : list Z) : list Z := up_to_space (targets ++ [32]).
Definition other_targets (targets : list Z) : list Z :=
  gsub ([32] ++ first_target targets ++ [32]) [32] 0 ([32] ++ targets ++ [32]).

Fixpoint target_loop (tgts : list (list Z)) : B unit :=
  match tgts with
  | [] => mret tt
  | tgt :: tgts =>
    break ← get "break";
    _ ← match break with
        | [] =>
          path ← get "altpath"; file ← get "bootenv_file";
          _ ← echo (bytes "Attempting load of " ++ path ++ bytes "/" ++ file ++ bytes " from " ++ tgt ++ bytes "...");
          _ ← loadtgt tgt;
          cmd ← get "bootenv_cmd";
          match cmd with
          | [] => mret tt
          | _ =>
            _ ← run_var "bootenv_cmd";
            pause ← get "pauseboot_on";
            match pause with
            | [] => mret tt
            | _ => _ ← echo (bytes "Pausing boot."); setenv "break" (bytes "1")
            end
          end
        | _ => mret tt
        end;
    target_loop tgts
  end.

Definition iv_bootseq : B unit :=
  _ ← zynq_test_forced_jtag;
  targets ← get "boot_targets";
  _ ← setenv "first_target" (first_target targets);
  _ ← setenv "other_targets" (other_targets targets);
  _ ← delenv "break";
  _ ← target_loop (words (first_target targets ++ [32] ++ other_targets targets) []);
  echo (bytes "No boot images found. Aborting to prompt...").

(** [boot] runs the variable "bootcmd". *)
Definition pauseboot : B bool := _ ← setenv "pauseboot_on" (bytes "1"); run_var "bootcmd".
End scripts.

(** The variables that are not scripts. *)
Definition CONFIG_EXTRA_ENV_SETTINGS : gmap string (list Z) :=
  list_to_map [("bootenv_addr", bytes "0x600000"); ("bootenv_file", bytes "uEnv.txt"); ("boot_targets", bytes "mmc0 mmc1 dhcp");
    ("jtag_boot_magic", bytes "4a544147"); ("zynq_forced_jtag_magic_addr", bytes "0x500000")].
