(* ===== verification/BootScriptsProps.v ===== *)
(** * The boot scripts of U-Boot: properties

    The boot sequence tries the targets in their order, each once, and starts the first
    one that loads; a forced JTAG boot comes before all others; and a boot command that
    returns is run again for targets that load nothing. *)
From S2P Require Import Prelude CString BootScripts.

#[local] Open Scope string_scope.
#[local] Open Scope list_scope.
#[local] Open Scope Z_scope.

(** ** Lemmas: hexadecimal numbers *)

Lemma hex_char_value d : 0 <= d < 16 -> exists c, bytes (hex_char d) = [c] /\ digit_val 16 c = Some d.
Proof.
  intros Hd. assert (Hall : forallb (fun n => let d := Z.of_nat n in
    match bytes (hex_char d) with [c] => bool_decide (digit_val 16 c = Some d) | _ => false end) (seq 0 16) = true) by (vm_compute; reflexivity).
  rewrite forallb_forall in Hall. specialize (Hall (Z.to_nat d) ltac:(apply in_seq; lia)). rewrite Z2Nat.id in Hall by lia.
  cbv zeta in Hall. destruct (bytes (hex_char d)) as [|c [|]]; try done. exists c. by apply bool_decide_eq_true in Hall.
Qed.

Lemma hex_digits_value fuel : forall n acc, 0 <= n < 16 ^ Z.of_nat fuel -> fuel <> 0%nat ->
  digits 16 (bytes (hex_digits fuel n acc)) 0 = digits 16 (bytes acc) n.
Proof.
  induction fuel as [|fuel IH]; intros n acc Hn Hf; [done|]. cbn [hex_digits].
  assert (Hstep : forall d v, 0 <= d < 16 -> digits 16 (bytes (hex_char d +:+ acc)) v = digits 16 (bytes acc) (v * 16 + d)).
  { intros d v Hd. destruct (hex_char_value d Hd) as (c & Hc & Hv). rewrite bytes_app, Hc. cbn [app digits]. by rewrite Hv. }
  destruct (Z.ltb_spec n 16); [by rewrite Hstep by lia|].
  rewrite Nat2Z.inj_succ, Z.pow_succ_r in Hn by lia. rewrite IH, Hstep.
  - f_equal. mlia.
  - mlia.
  - split; [apply Z.div_pos; lia|apply Z.div_lt_upper_bound; lia].
  - intros ->. cbn in Hn. lia.
Qed.

Lemma hex_digits_all fuel : forall n acc, 0 <= n -> Forall (fun c => is_Some (digit_val 16 c)) (bytes acc) ->
  Forall (fun c => is_Some (digit_val 16 c)) (bytes (hex_digits fuel n acc)).
Proof.
  induction fuel as [|fuel IH]; intros n acc Hn Ha; [done|]. cbn [hex_digits].
  assert (Hc : forall d, 0 <= d < 16 -> Forall (fun c => is_Some (digit_val 16 c)) (bytes (hex_char d +:+ acc))).
  { intros d Hd. destruct (hex_char_value d Hd) as (c & Hc & Hv). rewrite bytes_app, Hc. by constructor. }
  destruct (Z.ltb_spec n 16); [apply Hc; lia|]. apply IH; [mlia|apply Hc; mlia].
Qed.

Lemma digit_range c : is_Some (digit_val 16 c) -> 48 <= c <= 102 /\ c <> 88.
Proof. intros [v Hv]. unfold digit_val in Hv. repeat case_if_in Hv; bool_to_prop; first [lia | done]. Qed.

Lemma number_of_digits l : l <> [] -> Forall (fun c => is_Some (digit_val 16 c)) l -> fst (digits 16 l 0) < 2 ^ 64 ->
  number_of l = fst (digits 16 l 0).
Proof.
  intros Hne Hall Hlt. destruct l as [|c l]; [done|]. pose proof (Forall_inv Hall) as Hc. pose proof (digit_range c Hc) as Hr.
  unfold number_of, strtoul, number. cbn [skip_space]. unfold is_space.
  replace (((9 <=? c) && (c <=? 13)) || (c =? 32)) with false by (symmetry; bool_to_prop; lia).
  rewrite (proj2 (Z.eqb_neq c 45)), (proj2 (Z.eqb_neq c 43)) by lia. destruct Hc as [v Hv]. rewrite Hv.
  assert (skip_0x 16 (c :: l) = c :: l) as ->.
  { unfold skip_0x. destruct l as [|x [|y l]]; [done..|]. rewrite Forall_cons in Hall. destruct Hall as [_ Hall].
    pose proof (digit_range x (Forall_inv Hall)). case_if; [bool_to_prop; lia|done]. }
  destruct (digits 16 (c :: l) 0) as [r rest]. cbn [fst] in *. by rewrite (proj2 (Z.leb_gt _ _)).
Qed.

Lemma hex_digits_nonempty fuel : forall n acc, fuel <> 0%nat \/ acc <> "" -> bytes (hex_digits fuel n acc) <> [].
Proof.
  induction fuel as [|fuel IH]; intros n acc Ha; [by destruct acc, Ha|]. cbn [hex_digits].
  case_if; [|apply IH; right]; unfold hex_char; discriminate.
Qed.

(** What is printed is read back. *)
Lemma number_of_hex n : 0 <= n < 2 ^ 64 -> number_of (hex n) = n.
Proof.
  intros Hn. unfold hex. assert (Hd : digits 16 (bytes (hex_digits 16 n "")) 0 = (n, [])).
  { rewrite hex_digits_value; [done| |done]. change (16 ^ Z.of_nat 16) with (2 ^ 64). done. }
  rewrite number_of_digits; rewrite ?Hd; cbn [fst]; [done| |apply hex_digits_all; [lia|constructor]|lia].
  apply hex_digits_nonempty. by left.
Qed.
Lemma hex_inj m n : 0 <= m < 2 ^ 64 -> 0 <= n < 2 ^ 64 -> hex m = hex n -> m = n.
Proof. intros Hm Hn E. by rewrite <- (number_of_hex m Hm), <- (number_of_hex n Hn), E. Qed.

(** ** Lemmas: the order of the targets *)

(** A list of words with spaces between them, and with a space after each. *)
Fixpoint unwords (ws : list (list Z)) : list Z :=
  match ws with [] => [] | [w] => w | w :: ws => w ++ 32 :: unwords ws end.
Definition spaced (ws : list (list Z)) : list Z := foldr (fun w s => w ++ 32 :: s) [] ws.
Definition word_ok (w : list Z) : Prop := w <> [] /\ 32 ∉ w.

Lemma unwords_spaced w ws : unwords (w :: ws) ++ [32] = spaced (w :: ws).
Proof.
  revert w. induction ws as [|v ws IH]; intros w; [done|].
  change (unwords (w :: v :: ws)) with (w ++ 32 :: unwords (v :: ws)). rewrite <- (assoc_L (++)). cbn [app]. by rewrite IH.
Qed.

Lemma up_to_space_word w s : 32 ∉ w -> up_to_space (w ++ 32 :: s) = w.
Proof.
  induction w as [|c w IH]; intros Hw; [done|]. rewrite not_elem_of_cons in Hw. cbn [app up_to_space].
  rewrite (proj2 (Z.eqb_neq c 32)) by (symmetry; apply Hw). by rewrite IH by apply Hw.
Qed.

Lemma same_word w : forall v s, 32 ∉ w -> 32 ∉ v -> (w ++ [32]) `prefix_of` (v ++ 32 :: s) -> w = v.
Proof.
  induction w as [|c w IH]; intros [|d v] s Hw Hv; rewrite ?not_elem_of_cons in *; cbn [app]; intros Hp; [done|..].
  - apply prefix_cons_inv_1 in Hp as <-. by destruct Hv.
  - apply prefix_cons_inv_1 in Hp as ->. by destruct Hw.
  - pose proof (prefix_cons_inv_1 _ _ _ _ Hp) as ->. apply prefix_cons_inv_2 in Hp. f_equal. apply (IH v s); [apply Hw|apply Hv|done].
Qed.

Lemma gsub_skip p r l s : gsub p r (length l) (l ++ s) = gsub p r 0 s.
Proof. by induction l. Qed.

Lemma gsub_none w r ws : word_ok w -> Forall word_ok ws -> w ∉ ws ->
  gsub ([32] ++ w ++ [32]) r 0 (spaced ws) = spaced ws.
Proof.
  intros [Hw0 Hw] Hws. induction Hws as [|v ws [_ Hv] Hws IH]; intros Hnin; [done|]. rewrite not_elem_of_cons in Hnin.
  change (spaced (v :: ws)) with (v ++ 32 :: spaced ws). destruct Hnin as [_ Hnin]. specialize (IH Hnin). change ([32] ++ w ++ [32]) with (32 :: w ++ [32]) in *.
  induction v as [|c v IHv]; cbn [app gsub].
  - rewrite bool_decide_false; [by rewrite IH|]. intros Hp. apply prefix_cons_inv_2 in Hp.
    destruct ws as [|u ws]; [destruct Hp as [? Hp]; by destruct w|]. rewrite not_elem_of_cons in Hnin.
    pose proof (Forall_inv Hws) as [_ Hu]. apply (same_word w u (spaced ws)) in Hp; [|done..]. by destruct Hnin.
  - rewrite not_elem_of_cons in Hv. rewrite bool_decide_false; [by rewrite IHv by apply Hv|].
    intros Hp. apply prefix_cons_inv_1 in Hp. by destruct Hv.
Qed.

Lemma other_targets_spaced w ws : Forall word_ok (w :: ws) -> NoDup (w :: ws) ->
  first_target (unwords (w :: ws)) = w /\ other_targets (unwords (w :: ws)) = 32 :: spaced ws.
Proof.
  intros Hok Hnd. pose proof (Forall_inv Hok) as Hw. pose proof (Forall_inv_tail Hok) as Hws. apply NoDup_cons in Hnd as [Hnin _].
  assert (Hf : first_target (unwords (w :: ws)) = w).
  { unfold first_target. rewrite unwords_spaced. apply up_to_space_word, Hw. }
  split; [exact Hf|]. unfold other_targets. rewrite Hf, unwords_spaced.
  change ([32] ++ spaced (w :: ws)) with (32 :: w ++ 32 :: spaced ws). cbn [gsub].
  set (p := [32] ++ w ++ [32]). change (32 :: w ++ 32 :: spaced ws) with ([32] ++ (w ++ [32] ++ spaced ws)).
  rewrite bool_decide_true by (exists (spaced ws); unfold p; by rewrite <- !(assoc_L (++))).
  change (32 :: spaced ws) with ([32] ++ spaced ws). f_equal.
  transitivity (gsub p [32] 0 (spaced ws)); [|by apply gsub_none].
  replace (length p - 1)%nat with (length (w ++ [32])) by (unfold p; cbn; lia).
  change (w ++ 32 :: spaced ws) with (w ++ [32] ++ spaced ws). rewrite (assoc_L (++)). apply gsub_skip.
Qed.

Lemma words_word w s : forall acc, 32 ∉ w -> acc ++ w <> [] -> words (w ++ 32 :: s) acc = (acc ++ w) :: words s [].
Proof.
  induction w as [|c w IH]; intros acc Hw Hne; cbn [app words].
  - rewrite app_nil_r in *. by destruct acc.
  - rewrite not_elem_of_cons in Hw. rewrite (proj2 (Z.eqb_neq c 32)) by (symmetry; apply Hw).
    rewrite IH; [by rewrite <- (assoc_L (++))|apply Hw|by destruct acc].
Qed.
Lemma words_spaced ws : Forall word_ok ws -> words (spaced ws) [] = ws.
Proof. induction 1 as [|w ws [Hne Hw] _ IH]; [done|]. cbn [spaced foldr]. rewrite words_word by done. by rewrite <- IH at 2. Qed.

(** The loop visits distinct targets in the order of the variable. *)
Lemma target_order ws : Forall word_ok ws -> NoDup ws ->
  words (first_target (unwords ws) ++ [32] ++ other_targets (unwords ws)) [] = ws.
Proof.
  destruct ws as [|w ws]; [done|]. intros Hok Hnd. destruct (other_targets_spaced w ws Hok Hnd) as [-> ->].
  pose proof (Forall_inv Hok) as [Hne Hw]. cbn [app]. rewrite words_word by done.
  cbn [app words]. by rewrite words_spaced by by apply Forall_inv_tail in Hok.
Qed.

(** ** Lemmas: the scripts *)

Lemma mem_read_part a o n bs m : 0 <= o -> 0 <= n -> o + n <= zlen bs ->
  mem_read (a + o) n (mem_write a bs m) = take (Z.to_nat n) (drop (Z.to_nat o) bs).
Proof.
  intros Ho Hn Hz. unfold mem_read. apply list_eq. intros k. rewrite list_lookup_fmap. destruct (decide (k < Z.to_nat n)%nat) as [Hk|Hk].
  - rewrite lookup_seq_lt by done. cbn [fmap option_fmap option_map]. unfold mem_write.
    rewrite (proj2 (Z.leb_le _ _)), (proj2 (Z.ltb_lt _ _)) by lia. cbn [andb Nat.add].
    rewrite lookup_take_lt, lookup_drop by done. replace (Z.to_nat (a + o + Z.of_nat k - a)) with (Z.to_nat o + k)%nat by lia.
    destruct (lookup_lt_is_Some_2 bs (Z.to_nat o + k)) as [x ->]; [unfold zlen in Hz; lia|done].
  - rewrite lookup_seq_ge by lia. symmetry. apply lookup_ge_None. rewrite length_take. lia.
Qed.
Lemma mem_read_write a bs m : mem_read a (zlen bs) (mem_write a bs m) = bs.
Proof.
  rewrite <- (Z.add_0_r a) at 1. rewrite mem_read_part by (try lia; apply zlen_nonneg). by rewrite to_nat_zlen, firstn_all.
Qed.
Lemma mem_read_elsewhere a n b bs m : a + n <= b \/ b + zlen bs <= a -> mem_read a n (mem_write b bs m) = mem_read a n m.
Proof.
  intros Hd. unfold mem_read. apply list_fmap_ext. intros k x Hx. apply lookup_seq in Hx as [-> Hk]. unfold mem_write.
  destruct (Z.leb_spec b (a + Z.of_nat (0 + k))), (Z.ltb_spec (a + Z.of_nat (0 + k)) (b + zlen bs)); cbn [andb]; lia || done.
Qed.
Lemma mem_word_read a m : mem_word a m = match mem_read a 4 m with [b0; b1; b2; b3] => b0 + 2 ^ 8 * b1 + 2 ^ 16 * b2 + 2 ^ 24 * b3 | _ => 0 end.
Proof.
  unfold mem_word, mem_read. change (seq 0 (Z.to_nat 4)) with [0; 1; 2; 3]%nat. cbn [fmap list_fmap].
  change (Z.of_nat 0) with 0. by rewrite Z.add_0_r.
Qed.

Definition var (name : string) (s : shell) : list Z := default [] (sh_env s !! name).
Definition assign (l : list (string * list Z)) (e : gmap string (list Z)) : gmap string (list Z) :=
  foldl (fun e x => <[fst x := snd x]> e) e l.

Lemma assign_other l name e : name ∉ l.*1 -> assign l e !! name = e !! name.
Proof.
  revert e. induction l as [|[n v] l IH]; intros e Hn; [done|]. cbn [fmap list_fmap fst] in Hn. rewrite not_elem_of_cons in Hn.
  unfold assign. cbn [foldl fst snd]. fold (assign l (<[n := v]> e)). rewrite IH by apply Hn. apply lookup_insert_ne. symmetry. apply Hn.
Qed.

Lemma assign_in l name e1 e2 : name ∈ l.*1 -> assign l e1 !! name = assign l e2 !! name.
Proof.
  induction l as [|[n v] l IH] using rev_ind; intros Hn; [by apply elem_of_nil in Hn|]. unfold assign. rewrite !foldl_app. cbn [foldl fst snd].
  destruct (decide (n = name)) as [->|Hne]; [by rewrite !lookup_insert_eq|]. rewrite !lookup_insert_ne by done. apply IH.
  rewrite fmap_app, elem_of_app in Hn. destruct Hn as [Hn|Hn]; [done|]. cbn in Hn. apply list_elem_of_singleton in Hn. congruence.
Qed.

Section boot.
Context `{BootCmds}.

Definition dev_of (t : list Z) : option string :=
  if bool_decide (t = bytes "mmc0") then Some "load mmc 0" else if bool_decide (t = bytes "mmc1") then Some "load mmc 1"
  else if bool_decide (t = bytes "dhcp") then Some "dhcp" else None.
Definition path_of (s : shell) : list Z := var "altpath" s ++ bytes "/" ++ var "bootenv_file" s.
Definition attempt (s : shell) (t : list Z) : list Z := bytes "Attempting load of " ++ path_of s ++ bytes " from " ++ t ++ bytes "...".
Definition say (l : list (list Z)) (s : shell) : shell := Shell (sh_env s) (sh_mem s) (sh_console s ++ l).

(** The machine after loading [content] from [t]. *)
Definition loaded (t content : list Z) (vars assigns : list (string * list Z)) (s : shell) : shell :=
  Shell (<["loadmode" := t]> (assign assigns (<["filesize" := hex (zlen content)]> (assign vars (sh_env s)))))
        (mem_write (number_of (var "bootenv_addr" s)) content (sh_mem s)) (sh_console s).

Lemma loadenv_dev t dev : dev_of t = Some dev -> loadenv t = load_from dev.
Proof. unfold dev_of, loadenv, loadenv_mmc0, loadenv_mmc1, loadenv_dhcp. repeat case_bool_decide; by intros [= <-]. Qed.

Lemma load_fails t dev s : dev_of t = Some dev -> fetch dev (path_of s) = None -> loadtgt t s = Returns if_untaken s.
Proof.
  intros Hd Hf. unfold loadtgt. rewrite (loadenv_dev t dev Hd).
  unfold load_from, mbind, B_bind, mret, B_ret, get. unfold path_of, var in Hf. by rewrite Hf.
Qed.

Lemma load_succeeds t dev content vars assigns s :
  dev_of t = Some dev -> fetch dev (path_of s) = Some (content, vars) -> "bootenv_addr" ∉ vars.*1 ->
  env_import content = Some assigns -> zlen content < 2 ^ 64 ->
  loadtgt t s = Returns true (loaded t content vars assigns s).
Proof.
  intros Hd Hf Hv Hi Hz. pose proof (zlen_nonneg content). unfold loadtgt. rewrite (loadenv_dev t dev Hd).
  set (s1 := Shell (<["filesize" := hex (zlen content)]> (assign vars (sh_env s)))
                   (mem_write (number_of (var "bootenv_addr" s)) content (sh_mem s)) (sh_console s)).
  assert (Hl : load_from dev s = Returns true s1).
  { unfold load_from, mbind, B_bind, mret, B_ret, get. unfold path_of, var in Hf. by rewrite Hf. }
  assert (Ha : var "bootenv_addr" s1 = var "bootenv_addr" s).
  { unfold var, s1. cbn [sh_env]. by rewrite lookup_insert_ne, assign_other by done. }
  assert (Hs : var "filesize" s1 = hex (zlen content)) by (unfold var, s1; cbn [sh_env]; by rewrite lookup_insert_eq).
  assert (Him : importenv s1 = Returns true (with_env (assign assigns (sh_env s1)) s1)).
  { unfold importenv, mbind, B_bind, mret, B_ret, get, get_mem. fold (var "bootenv_addr" s1) (var "filesize" s1).
    rewrite Ha, Hs, number_of_hex by done. unfold s1 at 1. cbn [sh_mem]. by rewrite mem_read_write, Hi. }
  unfold mbind, B_bind. rewrite Hl, Him. done.
Qed.

(** A target that does not load, when no boot command is known. *)
Lemma loop_fails t dev ts s : var "break" s = [] -> var "bootenv_cmd" s = [] ->
  dev_of t = Some dev -> fetch dev (path_of s) = None ->
  target_loop (t :: ts) s = target_loop ts (say [attempt s t] s).
Proof.
  intros Hb Hc Hd Hf. cbn [target_loop]. unfold mbind, B_bind, get. fold (var "break" s). rewrite Hb.
  unfold echo. fold (var "altpath" s) (var "bootenv_file" s).
  set (s1 := Shell _ _ _). assert (s1 = say [attempt s t] s) as -> by (unfold s1, say, attempt, path_of; by rewrite <- !(assoc_L (++))).
  set (s1 := say _ s). rewrite (load_fails t dev s1) by done. fold (var "bootenv_cmd" s1).
  change (var "bootenv_cmd" s1) with (var "bootenv_cmd" s). by rewrite Hc.
Qed.

(** A target whose boot command starts the system. *)
Lemma loop_starts t dev ts content vars assigns s s' : var "break" s = [] ->
  dev_of t = Some dev -> fetch dev (path_of s) = Some (content, vars) -> "bootenv_addr" ∉ vars.*1 ->
  env_import content = Some assigns -> zlen content < 2 ^ 64 ->
  let l := loaded t content vars assigns (say [attempt s t] s) in
  var "bootenv_cmd" l <> [] -> run_text (var "bootenv_cmd" l) l = Started s' ->
  target_loop (t :: ts) s = Started s'.
Proof.
  intros Hb Hd Hf Hv Hi Hz l Hc Hr. cbn [target_loop]. unfold mbind, B_bind, get. fold (var "break" s). rewrite Hb.
  unfold echo. fold (var "altpath" s) (var "bootenv_file" s).
  set (s1 := Shell _ _ _). assert (s1 = say [attempt s t] s) as -> by (unfold s1, say, attempt, path_of; by rewrite <- !(assoc_L (++))).
  rewrite (load_succeeds t dev content vars assigns) by done. fold l. unfold run_var. fold (var "bootenv_cmd" l).
  unfold var in Hc, Hr |- *. destruct (sh_env l !! "bootenv_cmd") as [[|c cmd]|] eqn:E; [done| |done].
  change (default [] (Some (c :: cmd))) with (c :: cmd) in *. cbv beta iota. by rewrite E, Hr.
Qed.

Lemma loop_skip before : forall ts s, var "break" s = [] -> var "bootenv_cmd" s = [] ->
  Forall (fun b => exists dev, dev_of b = Some dev /\ fetch dev (path_of s) = None) before ->
  target_loop (before ++ ts) s = target_loop ts (say (attempt s <$> before) s).
Proof.
  induction before as [|b before IH]; intros ts s Hb Hc Hf.
  - destruct s as [e m c]. unfold say. cbn. by rewrite app_nil_r.
  - inversion_clear Hf as [|? ? (dev & Hd & Hn) Hf']. cbn [app]. rewrite (loop_fails b dev) by done.
    rewrite IH by done. unfold say. cbn. by rewrite <- (assoc_L (++)).
Qed.

(** ** Lemmas: one command after the other *)

Definition setv (name : string) (v : list Z) (s : shell) : shell := with_env (<[name := v]> (sh_env s)) s.

Lemma get_bind {A} name (f : list Z -> B A) s : (get name ≫= f) s = f (var name s) s.
Proof. done. Qed.
Lemma setenv_bind {A} name v (f : unit -> B A) s : (setenv name v ≫= f) s = f tt (setv name v s).
Proof. done. Qed.
Lemma word_bind {A} name a (f : unit -> B A) s : (setexpr_word name a ≫= f) s = f tt (setv name (hex (mem_word a (sh_mem s))) s).
Proof. done. Qed.
Lemma minus_bind {A} name a b (f : unit -> B A) s : 0 <= a - b < 2 ^ 64 ->
  (setexpr_minus name a b ≫= f) s = f tt (setv name (hex (a - b)) s).
Proof. intros Hr. unfold setexpr_minus. by rewrite u64_small. Qed.
Lemma put_bind {A} a bs (f : unit -> B A) s : (put_mem a bs ≫= f) s = f tt (with_mem (mem_write a bs (sh_mem s)) s).
Proof. done. Qed.
Lemma get_mem_bind {A} (f : (Z -> Z) -> B A) s : (get_mem ≫= f) s = f (sh_mem s) s.
Proof. done. Qed.

Lemma var_same name v s : var name (setv name v s) = v.
Proof. unfold var, setv. cbn [sh_env with_env]. by rewrite lookup_insert_eq. Qed.
Lemma var_other name n v s : name <> n -> var name (setv n v s) = var name s.
Proof. intros Hn. unfold var, setv. cbn [sh_env with_env]. by rewrite lookup_insert_ne. Qed.
Lemma var_mem name m s : var name (with_mem m s) = var name s.
Proof. done. Qed.
Lemma mem_setv name v s : sh_mem (setv name v s) = sh_mem s.
Proof. done. Qed.

(** ** Properties *)

(** The start of the sequence without a forced JTAG boot. *)
Definition forced (s : shell) : Prop :=
  var "board" s = bytes "zynq" /\ hex (mem_word (number_of (var "zynq_forced_jtag_magic_addr" s)) (sh_mem s)) = var "jtag_boot_magic" s.
Definition prepared (s : shell) : shell :=
  let targets := var "boot_targets" s in
  with_env (delete "break" (<["other_targets" := other_targets targets]> (<["first_target" := first_target targets]>
    (<["magic" := hex (mem_word (number_of (var "zynq_forced_jtag_magic_addr" s)) (sh_mem s))]> (sh_env s))))) s.

Lemma bootseq_prepared ws s : ~ forced s -> var "boot_targets" s = unwords ws -> Forall word_ok ws -> NoDup ws ->
  iv_bootseq s = (target_loop ws ≫= fun _ => echo (bytes "No boot images found. Aborting to prompt...")) (prepared s).
Proof.
  intros Hnf Hw Hok Hnd. set (a := number_of (var "zynq_forced_jtag_magic_addr" s)). set (s1 := setv "magic" (hex (mem_word a (sh_mem s))) s).
  assert (Hz : zynq_test_forced_jtag s = Returns tt s1).
  { unfold zynq_test_forced_jtag. rewrite get_bind, word_bind, !get_bind. fold a s1. unfold forced in Hnf. fold a in Hnf.
    unfold s1. rewrite var_same, !var_other by done.
    repeat case_bool_decide; done || by destruct Hnf. }
  unfold iv_bootseq. unfold mbind at 1, B_bind at 1. rewrite Hz. rewrite get_bind, !setenv_bind.
  assert (var "boot_targets" s1 = var "boot_targets" s) as -> by by apply var_other.
  unfold prepared. fold a. by rewrite Hw, target_order.
Qed.

Lemma prepared_var name s : name ∉ ["break"; "other_targets"; "first_target"; "magic"] -> var name (prepared s) = var name s.
Proof.
  rewrite !not_elem_of_cons. intros (H1 & H2 & H3 & H4 & _). unfold var, prepared. cbn [sh_env with_env].
  by rewrite lookup_delete_ne, !lookup_insert_ne by congruence.
Qed.
Lemma prepared_break s : var "break" (prepared s) = [].
Proof. unfold var, prepared. cbn [sh_env with_env]. by rewrite lookup_delete_eq. Qed.
Lemma prepared_path s : path_of (prepared s) = path_of s.
Proof. unfold path_of. by rewrite !prepared_var by (by apply (bool_decide_unpack _)). Qed.

(** C11: the boot sequence starts the first target that loads.  When no JTAG boot is
    forced, [boot_targets] lists distinct targets, those before [t] offer no file, and
    the file of [t] defines a boot command that starts a system, [iv-bootseq] ends with
    that start.  The command runs with the file at the load address, the variables of
    the file imported and [loadmode] naming the target; the targets were attempted in
    the order of the list, each once, and none after [t]. *)
Theorem bootseq_starts_first before t after dev content vars assigns s s' :
  ~ forced s -> var "boot_targets" s = unwords (before ++ t :: after) ->
  Forall word_ok (before ++ t :: after) -> NoDup (before ++ t :: after) -> var "bootenv_cmd" s = [] ->
  Forall (fun b => exists dev, dev_of b = Some dev /\ fetch dev (path_of s) = None) before ->
  dev_of t = Some dev -> fetch dev (path_of s) = Some (content, vars) -> "bootenv_addr" ∉ vars.*1 ->
  env_import content = Some assigns -> zlen content < 2 ^ 64 ->
  let l := loaded t content vars assigns (say (attempt s <$> before ++ [t]) (prepared s)) in
  var "bootenv_cmd" l <> [] -> run_text (var "bootenv_cmd" l) l = Started s' ->
  iv_bootseq s = Started s' /\
  mem_read (number_of (var "bootenv_addr" s)) (zlen content) (sh_mem l) = content /\
  var "loadmode" l = t /\ (forall name, name <> "loadmode" -> name ∈ assigns.*1 -> var name l = default [] (assign assigns ∅ !! name)) /\
  sh_console l = sh_console s ++ (attempt s <$> before ++ [t]).
Proof.
  intros Hnf Htg Hok Hnd Hc Hf Hd Hfe Hv Hi Hz l Hcmd Hrun. set (p := prepared s) in *.
  assert (Hatt : forall x, attempt p x = attempt s x) by (intros x; unfold attempt, p; by rewrite prepared_path).
  assert (Hmap : forall b, attempt p <$> b = attempt s <$> b) by (intros b; apply list_fmap_ext; intros; apply Hatt).
  split_and!.
  - rewrite (bootseq_prepared (before ++ t :: after)) by done. fold p.
    unfold mbind at 1, B_bind at 1. rewrite loop_skip; [|apply prepared_break| |by unfold p; rewrite prepared_path].
    2:{ unfold p. rewrite prepared_var by (by apply (bool_decide_unpack _)). done. }
    rewrite Hmap. set (q := say (attempt s <$> before) p).
    assert (El : l = loaded t content vars assigns (say [attempt q t] q)).
    { unfold l. f_equal. change (attempt q t) with (attempt p t). rewrite Hatt. unfold q, say. cbn [sh_env sh_mem sh_console].
      by rewrite fmap_app, (assoc_L (++)). }
    rewrite El in Hcmd, Hrun. rewrite (loop_starts t dev after content vars assigns q s'); try done; [apply prepared_break|].
    change (path_of q) with (path_of p). unfold p. by rewrite prepared_path.
  - unfold l, loaded. cbn [sh_mem say]. change (var "bootenv_addr" (say _ p)) with (var "bootenv_addr" p).
    unfold p. rewrite prepared_var by (by apply (bool_decide_unpack _)). apply mem_read_write.
  - unfold var, l, loaded. cbn [sh_env]. by rewrite lookup_insert_eq.
  - intros name Hn Ha. unfold var, l, loaded. cbn [sh_env]. rewrite lookup_insert_ne by congruence. f_equal.
    by apply assign_in.
  - unfold l, loaded, say. cbn [sh_console]. done.
Qed.

(** A boot command that returns is run again for every later target, also for one that
    loads nothing: the sequence never clears [bootenv_cmd]. *)
Theorem stale_command_runs_again t dev ts s :
  var "break" s = [] -> dev_of t = Some dev -> fetch dev (path_of s) = None -> var "bootenv_cmd" s <> [] ->
  target_loop (t :: ts) s =
    match run_text (var "bootenv_cmd" s) (say [attempt s t] s) with
    | Started s' => Started s'
    | Returns _ s' => target_loop ts (if bool_decide (var "pauseboot_on" s' = []) then s'
                                      else setv "break" (bytes "1") (say [bytes "Pausing boot."] s'))
    end.
Proof.
  intros Hb Hd Hf Hc. cbn [target_loop]. unfold mbind, B_bind, get. fold (var "break" s). rewrite Hb.
  unfold echo. fold (var "altpath" s) (var "bootenv_file" s).
  set (s1 := Shell _ _ _). assert (s1 = say [attempt s t] s) as -> by (unfold s1, say, attempt, path_of; by rewrite <- !(assoc_L (++))).
  set (s1 := say _ s). rewrite (load_fails t dev s1) by done. fold (var "bootenv_cmd" s1).
  change (var "bootenv_cmd" s1) with (var "bootenv_cmd" s). unfold run_var.
  unfold var in Hc. assert (exists c cmd, sh_env s !! "bootenv_cmd" = Some (c :: cmd)) as (c & cmd & E).
  { destruct (sh_env s !! "bootenv_cmd") as [[|c cmd]|]; [done|by exists c, cmd|done]. }
  assert (E1 : sh_env s1 !! "bootenv_cmd" = Some (c :: cmd)) by done. unfold var. rewrite E.
  change (default [] (Some (c :: cmd))) with (c :: cmd). cbv beta iota. rewrite E1.
  destruct (run_text (c :: cmd) s1) as [x s2|s2]; [|done].
  by destruct (default [] (sh_env s2 !! "pauseboot_on")).
Qed.

(** ** The file a debugger has put into memory *)

Definition le_word (bs : list Z) : Z := match bs with [b0; b1; b2; b3] => b0 + 2 ^ 8 * b1 + 2 ^ 16 * b2 + 2 ^ 24 * b3 | _ => 0 end.

Lemma le_word_range bs : Forall is_byte bs -> 0 <= le_word bs < 2 ^ 32.
Proof.
  intros Hb. unfold le_word. destruct bs as [|b0 [|b1 [|b2 [|b3 [|]]]]]; try lia.
  rewrite !Forall_cons in Hb. unfold is_byte in Hb. lia.
Qed.
Lemma mem_word_le a m : mem_word a m = le_word (mem_read a 4 m).
Proof. apply mem_word_read. Qed.
Lemma mem_word_range a m : (forall x, is_byte (m x)) -> 0 <= mem_word a m < 2 ^ 32.
Proof. intros Hb. rewrite mem_word_le. apply le_word_range. unfold mem_read. apply Forall_fmap, Forall_true. intros k. apply Hb. Qed.
Lemma mem_word_write a bs m : zlen bs = 4 -> mem_word a (mem_write a bs m) = le_word bs.
Proof. intros Hz. rewrite mem_word_le, <- Hz. by rewrite mem_read_write. Qed.
Lemma mem_write_out a bs m x : x < a \/ a + zlen bs <= x -> mem_write a bs m x = m x.
Proof. intros Hx. unfold mem_write. destruct (Z.leb_spec a x), (Z.ltb_spec x (a + zlen bs)); cbn [andb]; lia || done. Qed.

(** a file a debugger has put into memory is taken once.  [loadenv_jtag] accepts it
    exactly when the word 12 bytes in front of it, printed, is the magic number and its
    checksum is the one stored there; [filesize] is then the stored size, and otherwise
    0.  Accepted or not, magic number, size and checksum are cleared, so that the next
    attempt finds nothing; the file itself and the rest of the memory are unchanged. *)
Theorem jtag_load_exact s :
  let a := number_of (var "bootenv_addr" s) in let m := sh_mem s in
  0x10 <= a < 2 ^ 63 -> (forall x, is_byte (m x)) -> (forall l, zlen (crc32 l) = 4 /\ Forall is_byte (crc32 l)) ->
  let size := mem_word (a - 8) m in
  let good := hex (mem_word (a - 12) m) = var "jtag_boot_magic" s /\ le_word (crc32 (mem_read a size m)) = mem_word (a - 4) m in
  exists s1, loadenv_jtag s = Returns (if bool_decide good then true else if_untaken) s1 /\
    var "filesize" s1 = (if bool_decide good then hex size else bytes "0") /\
    mem_read (a - 12) 12 (sh_mem s1) = replicate 12 0 /\
    (forall x, x < a - 16 \/ a <= x -> sh_mem s1 x = m x).
Proof.
  intros a m Ha Hm Hcrc size good. pose proof (mem_word_range (a - 8) m Hm) as Hsize. pose proof (mem_word_range (a - 12) m Hm).
  pose proof (mem_word_range (a - 4) m Hm) as Hword. fold size in Hsize.
  unfold loadenv_jtag. rewrite get_bind. fold a.
  do 3 (rewrite minus_bind by lia; try rewrite (minus_bind "magic_addr") by lia; rewrite get_bind, var_same, number_of_hex, word_bind by lia; rewrite !mem_setv).
  fold m size. rewrite get_bind. repeat first [rewrite var_same | rewrite var_other by done]. rewrite number_of_hex by lia.
  unfold mw_zero. rewrite put_bind, setenv_bind, !get_bind. repeat first [rewrite var_same | rewrite var_other by done | rewrite var_mem].
  rewrite !mem_setv. change (Z.to_nat (4 * 4)) with 16%nat. fold m.
  set (m1 := mem_write (a - 16) (replicate 16 0) m).
  assert (Hclear1 : mem_read (a - 12) 12 m1 = replicate 12 0).
  { replace (a - 12) with (a - 16 + 4) by lia. unfold m1. by rewrite mem_read_part. }
  assert (Hout : forall x, x < a - 16 \/ a <= x -> m1 x = m x).
  { intros x Hx. apply mem_write_out. change (zlen (replicate 16 0)) with 16. lia. }
  assert (Hfile : mem_read a size m1 = mem_read a size m).
  { apply mem_read_elsewhere. right. change (zlen (replicate 16 0)) with 16. lia. }
  set (s2 := setv "filesize" (bytes "0") _). unfold good.
  case_bool_decide as Hmagic; [|exists s2; rewrite bool_decide_false by tauto; split_and!; [done|unfold s2; apply var_same|done|done]].
  rewrite get_bind, get_mem_bind. change (sh_mem s2) with m1.
  assert (Hfs : var "fsize" s2 = hex size) by (unfold s2; by repeat first [rewrite var_same | rewrite var_other by done | rewrite var_mem]).
  rewrite Hfs, number_of_hex, Hfile by lia. destruct (Hcrc (mem_read a size m)) as [Hc4 Hcb]. set (bs := crc32 (mem_read a size m)) in *.
  rewrite put_bind, word_bind, !get_bind, var_same, var_other, var_mem by done. change (sh_mem (with_mem ?x s2)) with x.
  change (sh_mem s2) with m1. rewrite mem_word_write by done.
  assert (var "crc32" s2 = hex (mem_word (a - 4) m)) as -> by (unfold s2; by repeat first [rewrite var_same | rewrite var_other by done | rewrite var_mem]).
  pose proof (le_word_range bs Hcb). set (s3 := setv "crc32_calc" _ _).
  assert (Hm3 : mem_read (a - 12) 12 (sh_mem s3) = replicate 12 0 /\ (forall x, x < a - 16 \/ a <= x -> sh_mem s3 x = m x)).
  { change (sh_mem s3) with (mem_write (a - 16) bs m1). split; [by rewrite mem_read_elsewhere by lia|].
    intros x Hx. rewrite mem_write_out by lia. by apply Hout. }
  case_bool_decide as Heq.
  - apply hex_inj in Heq; [|lia..]. rewrite bool_decide_true by done. rewrite setenv_bind.
    exists (setv "filesize" (hex size) s3). split_and!; [done|apply var_same|apply Hm3..].
  - rewrite bool_decide_false by (intros [_ E]; by rewrite E in Heq). exists s3. split_and!; [done| |apply Hm3..].
    unfold s3. rewrite var_other, var_mem by done. apply var_same.
Qed.
End boot.

(** ** Concrete inputs *)

(** No card in the first slot; the file on the second one defines a boot command. *)
Definition sample_cmds : BootCmds :=
  {| fetch := fun dev _ => if bool_decide (dev = "load mmc 1") then Some ([1; 2; 3], []) else None;
     env_import := fun text => if bool_decide (text = [1; 2; 3]) then Some [("bootenv_cmd", bytes "bootm")] else None;
     crc32 := fun l => [zlen l `mod` 256; 0; 0; 0];
     run_text := fun cmd s => if bool_decide (cmd = bytes "bootm") then Started s else Returns false s;
     if_untaken := false |}.
Definition sample_shell (m : Z -> Z) : shell := Shell CONFIG_EXTRA_ENV_SETTINGS m [].

Lemma bootseq_starts_first_witness :
  exists s', @iv_bootseq sample_cmds (sample_shell (fun _ => 0)) = Started s' /\ var "loadmode" s' = bytes "mmc1" /\
    mem_read 0x600000 3 (sh_mem s') = [1; 2; 3] /\
    sh_console s' = [bytes "Attempting load of /uEnv.txt from mmc0..."; bytes "Attempting load of /uEnv.txt from mmc1..."].
Proof.
  set (s := sample_shell (fun _ => 0)).
  destruct (@bootseq_starts_first sample_cmds [bytes "mmc0"] (bytes "mmc1") [bytes "dhcp"] "load mmc 1" [1; 2; 3] []
    [("bootenv_cmd", bytes "bootm")] s
    (loaded (bytes "mmc1") [1; 2; 3] [] [("bootenv_cmd", bytes "bootm")] (say (attempt s <$> [bytes "mmc0"; bytes "mmc1"]) (prepared s))))
    as (H1 & H2 & H3 & _ & H5).
  - intros [Hb _]. by vm_compute in Hb.
  - by vm_compute.
  - apply (bool_decide_unpack _). by vm_compute.
  - apply (bool_decide_unpack _). by vm_compute.
  - by vm_compute.
  - constructor; [|done]. by exists "load mmc 0".
  - by vm_compute.
  - by vm_compute.
  - by apply not_elem_of_nil.
  - by vm_compute.
  - by vm_compute.
  - by vm_compute.
  - cbn [run_text sample_cmds]. by rewrite bool_decide_true by (by vm_compute).
  - eexists. split; [exact H1|]. split; [exact H3|]. split; [exact H2|]. etransitivity; [exact H5|]. by vm_compute.
Defined.

Lemma jtag_load_exact_witness :
  let m := mem_write (0x600000 - 12) [0x47; 0x41; 0x54; 0x4a; 2; 0; 0; 0; 2; 0; 0; 0; 7; 9] (fun _ => 0) in
  exists s1, @loadenv_jtag sample_cmds (sample_shell m) = Returns true s1 /\ var "filesize" s1 = bytes "2" /\
    mem_read (0x600000 - 12) 12 (sh_mem s1) = replicate 12 0.
Proof.
  intros m. destruct (@jtag_load_exact sample_cmds (sample_shell m)) as (s1 & Hr & Hf & Hc & _).
  - by vm_compute.
  - intros x. unfold sample_shell, m, mem_write. cbn [sh_mem]. case_match; [|done].
    destruct (_ !! _) as [b|] eqn:E; [|done]. revert b E. apply Forall_lookup. by repeat constructor.
  - intros l. split; [done|]. constructor; [apply Z.mod_pos_bound; lia|by repeat constructor].
  - exists s1. rewrite bool_decide_true in Hr, Hf by (split; vm_compute; reflexivity).
    split; [exact Hr|]. split; [rewrite Hf; by vm_compute|exact Hc].
Defined.
