(* ===== verification/SequenceBoot.v ===== *)
(** * The boot sequence of the first-stage loader
    ([recipes-bsp/fsbl-firmware/files/iv_z8_sequence_boot.c])

    Before it loads anything the first-stage loader of a Z8 board looks for a boot image in
    a list of devices, the file number on a device being set in the multi-boot register,
    and restarts from the first one found.  The number may come from the part number in the
    identity record, which is read here without the FRU library. *)
From S2P Require Import Prelude CString.

#[local] Open Scope string_scope.
#[local] Open Scope list_scope.
#[local] Open Scope Z_scope.

Inductive reg := CRL_APB_BOOT_MODE_USER | CSU_CSU_MULTI_BOOT | CRL_APB_RPLL_CTRL | CRL_APB_RESET_CTRL.
#[export] Instance reg_eq_dec : EqDecision reg.
Proof. solve_decision. Defined.

(** The register writes, oldest first. *)
Abbreviation fsbl := (list (reg * Z)).

(** The loader of the chip's vendor and its I2C driver: constants, the value of a register
    after the writes so far, whether a device can be started in a mode, and the transfers.
    What is received depends on what was sent before. *)
Class Xfsbl := {
  XFSBL_JTAG_BOOT_MODE : Z;
  XFSBL_QSPI24_BOOT_MODE : Z;
  XFSBL_QSPI32_BOOT_MODE : Z;
  XFSBL_SD0_BOOT_MODE : Z;
  XFSBL_SD1_BOOT_MODE : Z;
  XFSBL_SUCCESS : Z;
  XFSBL_ERROR_UNSUPPORTED_BOOT_MODE : Z;
  CRL_APB_BOOT_MODE_USER_BOOT_MODE_MASK : Z;
  CRL_APB_RPLL_CTRL_BYPASS_MASK : Z;
  CRL_APB_RESET_CTRL_SOFT_RESET_MASK : Z;
  xil_in32 : fsbl -> reg -> Z;
  XFsbl_SdInit : fsbl -> Z -> Z;
  XFsbl_Qspi24Init : fsbl -> Z -> Z;
  XFsbl_Qspi32Init : fsbl -> Z -> Z;
  XGetPSVersion_Info_is_1 : bool;
  XIicPs_LookupConfig : bool;
  XIicPs_CfgInitialize : bool;
  XIicPs_SelfTest : bool;
  XIicPs_MasterSendPolled : list Z -> Z -> bool;
  XIicPs_MasterRecvPolled : list Z -> Z -> Z -> option (list Z)
}.

Definition I2C_EEPROM_ADDR : Z := 0x52.
Definition CRL_APB_BOOT_MODE_USER_USE_ALT_MASK : Z := 0x00000100.
Definition CRL_APB_BOOT_MODE_USER_BOOT_MODE_SHIFT : Z := 0.
Definition CRL_APB_BOOT_MODE_USER_USE_ALT_SHIFT : Z := 8.
Definition CRL_APB_BOOT_MODE_USER_ALT_BOOT_MODE_SHIFT : Z := 12.
Definition MAX_MULTIBOOT_ATTEMPTS : Z := 30.

Record iv_boot_sequence_t := { bs_mode : Z; num_attempts : Z }.

(** ** The identity record

    [struct iv_ipmi] without its field names: the common header, the board area, and in it
    the format version and the part number. *)
Definition sizeof_iv_ipmi : Z := 72.
Definition sizeof_common_header : Z := 8.
Definition board_part_number_offset : Z := 54.
Definition BOARD_PART_NUMBER_FIELD_SIZE : Z := 15.

(** The loops that add bytes up in an [unsigned char]. *)
Definition sum8 (l : list Z) : Z := foldl (fun sum b => u8 (sum + b)) 0 l.

Definition validate_ipmi (ipmi : list Z) : option Z :=
  header ← rd_range ipmi 0 sizeof_common_header;
  area ← rd_range ipmi sizeof_common_header (sizeof_iv_ipmi - sizeof_common_header);
  format_version ← ld ipmi sizeof_common_header;
  Some (if negb (sum8 header =? 0) then -1
        else if negb (sum8 area =? 0) then -1
        else if negb (format_version =? 1) then -1 else 0).

(** [strchr]: from the character on. *)
Fixpoint strchr (c : Z) (s : list Z) : option (list Z) :=
  match s with [] => None | x :: s' => if x =? c then Some s else strchr c s' end.
Definition atoi (s : list Z) : Z := to_i32 (fst (strtol 10 s)).

Definition get_pn_ord (ipmi : list Z) : option Z :=
  field ← rd_range ipmi board_part_number_offset BOARD_PART_NUMBER_FIELD_SIZE;
  Some (match strchr 45 (cstr field) with
        | None => -1
        | Some pord => atoi (drop 1 pord)
        end).

Section boot.
Context `{Xfsbl}.

(** [read_ipmi]: the record, unless something fails. *)
Definition read_ipmi : option (option (list Z)) :=
  if negb XIicPs_LookupConfig then Some None else
  if negb XIicPs_CfgInitialize then Some None else
  if negb XIicPs_SelfTest then Some None else
  let sent := [0; 0] in
  if negb (XIicPs_MasterSendPolled sent I2C_EEPROM_ADDR) then Some None else
  match XIicPs_MasterRecvPolled sent sizeof_iv_ipmi I2C_EEPROM_ADDR with
  | None => Some None
  | Some ipmi =>
    err ← validate_ipmi ipmi;
    Some (if negb (err =? 0) then None else Some ipmi)
  end.

(** ** Registers *)

Definition Xil_In32 (r : reg) : M fsbl Z := fun w => Some (xil_in32 w r, w).
Definition Xil_Out32 (r : reg) (v : Z) : M fsbl unit := fun w => Some (tt, w ++ [(r, u32 v)]).

(** After the last write the system restarts: nothing follows. *)
Definition soft_reset : M fsbl unit :=
  _ ← (if XGetPSVersion_Info_is_1 then
         v ← Xil_In32 CRL_APB_RPLL_CTRL; Xil_Out32 CRL_APB_RPLL_CTRL (Z.lor v CRL_APB_RPLL_CTRL_BYPASS_MASK)
       else mret tt);
  v ← Xil_In32 CRL_APB_RESET_CTRL;
  Xil_Out32 CRL_APB_RESET_CTRL (Z.lor v CRL_APB_RESET_CTRL_SOFT_RESET_MASK).

(** The [switch] over the mode. *)
Definition device_init (mode : Z) : M fsbl Z :=
  fun w => Some (if (mode =? XFSBL_SD0_BOOT_MODE) || (mode =? XFSBL_SD1_BOOT_MODE) then XFsbl_SdInit w mode
                 else if mode =? XFSBL_QSPI24_BOOT_MODE then XFsbl_Qspi24Init w mode
                 else if mode =? XFSBL_QSPI32_BOOT_MODE then XFsbl_Qspi32Init w mode
                 else XFSBL_ERROR_UNSUPPORTED_BOOT_MODE, w).

(** ** The sequence *)

(** The loop over the attempts on one device, [fuel] of them left at most: whether the
    system was restarted. *)
Fixpoint attempt_loop (fuel : nat) (mode num_attempts boot_by_pn multi_boot : Z) : M fsbl bool :=
  match fuel with
  | O => lift None
  | S fuel =>
    if multi_boot <? num_attempts then
      let multi_boot := if negb (boot_by_pn =? 0) then boot_by_pn else multi_boot in
      _ ← Xil_Out32 CSU_CSU_MULTI_BOOT multi_boot;
      status ← device_init mode;
      if status =? XFSBL_SUCCESS then
        _ ← Xil_Out32 CRL_APB_BOOT_MODE_USER
              (Z.lor (u32 (Z.shiftl mode CRL_APB_BOOT_MODE_USER_ALT_BOOT_MODE_SHIFT)) (Z.shiftl 0x1 CRL_APB_BOOT_MODE_USER_USE_ALT_SHIFT));
        _ ← soft_reset;
        mret true
      else
        multi_boot ← lift (i32 (multi_boot + 1));
        attempt_loop fuel mode num_attempts boot_by_pn multi_boot
    else mret false
  end.

(** How often an entry is tried, and the number taken from the part number (0 without one). *)
Definition entry_attempts (e : iv_boot_sequence_t) : option (Z * Z) :=
  if MAX_MULTIBOOT_ATTEMPTS <? num_attempts e then Some (MAX_MULTIBOOT_ATTEMPTS, 0)
  else if num_attempts e <? 0 then
    ipmi ← read_ipmi;
    match ipmi with
    | None => Some (0, 0)
    | Some ipmi =>
      boot_by_pn ← get_pn_ord ipmi;
      Some (if 0 <? boot_by_pn then 1 else num_attempts e, boot_by_pn)
    end
  else Some (num_attempts e, 0).

Fixpoint boot_loop (boot_seq : list iv_boot_sequence_t) : M fsbl bool :=
  match boot_seq with
  | [] => mret false
  | e :: boot_seq =>
    '(attempts, boot_by_pn) ← lift (entry_attempts e);
    reset ← attempt_loop (S (Z.to_nat attempts)) (bs_mode e) attempts boot_by_pn 0;
    if (reset : bool) then mret true else boot_loop boot_seq
  end.

(** The code returned; [None] when the system was restarted instead. *)
Definition iv_sequence_boot (boot_seq : list iv_boot_sequence_t) : M fsbl (option Z) :=
  boot_mode_user_reg ← Xil_In32 CRL_APB_BOOT_MODE_USER;
  let boot_mode := Z.shiftr (Z.land boot_mode_user_reg CRL_APB_BOOT_MODE_USER_BOOT_MODE_MASK) CRL_APB_BOOT_MODE_USER_BOOT_MODE_SHIFT in
  let alt_boot := Z.shiftr (Z.land boot_mode_user_reg CRL_APB_BOOT_MODE_USER_USE_ALT_MASK) CRL_APB_BOOT_MODE_USER_USE_ALT_SHIFT in
  if negb (alt_boot =? 0) || (boot_mode =? XFSBL_JTAG_BOOT_MODE) then mret (Some XFSBL_SUCCESS) else
  reset ← boot_loop boot_seq;
  if (reset : bool) then mret None else
  _ ← Xil_Out32 CSU_CSU_MULTI_BOOT 0;
  mret (Some XFSBL_SUCCESS).

(** The list the layer itself configures. *)
Definition boot_seq : list iv_boot_sequence_t :=
  [ {| bs_mode := XFSBL_SD0_BOOT_MODE; num_attempts := 1 |};
    {| bs_mode := XFSBL_SD0_BOOT_MODE; num_attempts := -1 |};
    {| bs_mode := XFSBL_SD1_BOOT_MODE; num_attempts := 1 |};
    {| bs_mode := XFSBL_QSPI32_BOOT_MODE; num_attempts := 1 |} ].
End boot.
