(* ===== verification/SequenceBootProps.v ===== *)
(** * The boot sequence: properties

    Which image the board restarts from, and that the loader understands the records the
    FRU tool creates. *)
From S2P Require Import Prelude CString FruField FruValidate FruDate FruPlat FruOps FruEdit FruCreate FruCommands SequenceBoot.

#[local] Open Scope string_scope.
#[local] Open Scope list_scope.
#[local] Open Scope Z_scope.

(** ** The search *)

Section search.
Context `{Xfsbl}.

(** The (mode, number) pairs an entry stands for, in the order they are tried. *)
Definition entry_candidates (e : iv_boot_sequence_t) : option (list (Z * Z)) :=
  '(n, pn) ← entry_attempts e;
  Some (if n <=? 0 then [] else if pn =? 0 then (fun k => (bs_mode e, Z.of_nat k)) <$> seq 0 (Z.to_nat n) else [(bs_mode e, pn)]).
Definition candidates (boot_seq : list iv_boot_sequence_t) : option (list (Z * Z)) := mjoin <$> mapM entry_candidates boot_seq.

(** Devices whose initialisation depends on the mode and the number last set. *)
Context (found : Z -> Z -> bool).
Context (Hmedia : forall w mode mb, exists status,
  device_init mode (w ++ [(CSU_CSU_MULTI_BOOT, u32 mb)]) = Some (status, w ++ [(CSU_CSU_MULTI_BOOT, u32 mb)]) /\
  (status =? XFSBL_SUCCESS) = found mode mb).

Definition set_number (c : Z * Z) : reg * Z := (CSU_CSU_MULTI_BOOT, u32 (snd c)).

(** The writes of a restart in a mode. *)
Definition restart (mode : Z) (w : fsbl) : fsbl :=
  let w := w ++ [(CRL_APB_BOOT_MODE_USER, u32 (Z.lor (u32 (Z.shiftl mode 12)) 0x100))] in
  let w := if XGetPSVersion_Info_is_1
           then w ++ [(CRL_APB_RPLL_CTRL, u32 (Z.lor (xil_in32 w CRL_APB_RPLL_CTRL) CRL_APB_RPLL_CTRL_BYPASS_MASK))] else w in
  w ++ [(CRL_APB_RESET_CTRL, u32 (Z.lor (xil_in32 w CRL_APB_RESET_CTRL) CRL_APB_RESET_CTRL_SOFT_RESET_MASK))].

Definition is_found (c : Z * Z) : Prop := found (fst c) (snd c) = true.

(** What trying some candidates leaves: whether one was found, and the writes. *)
Definition search (cs : list (Z * Z)) (w : fsbl) : bool * fsbl :=
  match list_find is_found cs with
  | Some (k, c) => (true, restart (fst c) (w ++ (set_number <$> take (S k) cs)))
  | None => (false, w ++ (set_number <$> cs))
  end.

Lemma search_cons c cs w :
  search (c :: cs) w = if found (fst c) (snd c) then (true, restart (fst c) (w ++ [set_number c])) else search cs (w ++ [set_number c]).
Proof.
  unfold search. cbn [list_find]. unfold decide at 1, is_found. destruct (found (fst c) (snd c)) eqn:E; cbn; [done|].
  destruct (list_find _ cs) as [[k d]|]; cbn; by rewrite <- (assoc_L (++)).
Qed.

Lemma search_app cs1 cs2 w : search (cs1 ++ cs2) w = if fst (search cs1 w) then search cs1 w else search cs2 (snd (search cs1 w)).
Proof.
  revert w. induction cs1 as [|c cs1 IH]; intros w.
  - unfold search at 2 3. cbn. by rewrite app_nil_r.
  - cbn [app]. rewrite !search_cons. destruct (found (fst c) (snd c)); [done|apply IH].
Qed.

Lemma soft_reset_run w mode : (Xil_Out32 CRL_APB_BOOT_MODE_USER (Z.lor (u32 (Z.shiftl mode 12)) 0x100) ≫= fun _ => soft_reset ≫= fun _ => mret true) w =
  Some (true, restart mode w).
Proof. unfold soft_reset, restart, Xil_Out32, Xil_In32, mbind, M_bind, mret, M_ret. by destruct XGetPSVersion_Info_is_1. Qed.

(** One turn of the loop. *)
Lemma attempt_step fuel mode n pn mb w : mb < n ->
  let mb' := if negb (pn =? 0) then pn else mb in mb' < 2 ^ 31 - 1 -> 0 <= mb' ->
  attempt_loop (S fuel) mode n pn mb w =
    if found mode mb' then Some (true, restart mode (w ++ [set_number (mode, mb')]))
    else attempt_loop fuel mode n pn (mb' + 1) (w ++ [set_number (mode, mb')]).
Proof using Hmedia.
  intros Hn mb' Hmax Hge. cbn [attempt_loop]. rewrite (proj2 (Z.ltb_lt _ _)) by done. fold mb'. cbv zeta.
  rewrite (bind_run _ _ _ tt (w ++ [set_number (mode, mb')])) by done.
  destruct (Hmedia w mode mb') as (status & Hrun & Hf). rewrite (bind_run _ _ _ _ _ Hrun), Hf. fold (set_number (mode, mb')).
  destruct (found mode mb'); [apply soft_reset_run|]. by rewrite (lift_run _ _ _ (mb' + 1)) by (apply i32_ok; lia).
Qed.

Lemma attempt_numbers fuel mode n : forall k w, (fuel + k = S n)%nat -> (k <= n)%nat -> (n <= 30)%nat ->
  attempt_loop fuel mode (Z.of_nat n) 0 (Z.of_nat k) w = Some (search ((fun k => (mode, Z.of_nat k)) <$> seq k (n - k)) w).
Proof using Hmedia.
  induction fuel as [|fuel IH]; intros k w Hf Hk Hn; [lia|].
  destruct (decide (k = n)) as [->|Hne].
  - cbn [attempt_loop]. rewrite (proj2 (Z.ltb_ge _ _)), Nat.sub_diag by lia. cbn. by rewrite app_nil_r.
  - rewrite attempt_step by (cbn; lia). cbn [Z.eqb negb]. replace (n - k)%nat with (S (n - S k)) by lia.
    cbn [seq fmap list_fmap]. rewrite search_cons. cbn [fst snd]. destruct (found mode (Z.of_nat k)); [done|].
    replace (Z.of_nat k + 1) with (Z.of_nat (S k)) by lia. apply IH; lia.
Qed.

Lemma entry_run e cs n pn w : entry_attempts e = Some (n, pn) -> pn < 2 ^ 31 - 1 -> (n <= 0 \/ pn = 0 \/ (n = 1 /\ 0 < pn)) -> n <= 30 ->
  entry_candidates e = Some cs ->
  attempt_loop (S (Z.to_nat n)) (bs_mode e) n pn 0 w = Some (search cs w).
Proof using Hmedia.
  intros He Hmax Hn Hn30. unfold entry_candidates. rewrite He. cbn [mbind option_bind]. intros [= <-].
  destruct (Z.leb_spec n 0).
  { cbn [attempt_loop]. rewrite (proj2 (Z.ltb_ge 0 n)) by lia. unfold search. cbn. by rewrite app_nil_r. }
  destruct (Z.eqb_spec pn 0) as [->|Hpn].
  - rewrite <- (Z2Nat.id n) at 2 by lia. rewrite (attempt_numbers (S (Z.to_nat n)) (bs_mode e) (Z.to_nat n) 0) by lia. by rewrite Nat.sub_0_r.
  - destruct Hn as [?|[?|[-> Hp]]]; [lia|done|]. change (S (Z.to_nat 1)) with 2%nat.
    rewrite attempt_step by (rewrite ?(proj2 (Z.eqb_neq pn 0)) by done; cbn; lia).
    rewrite (proj2 (Z.eqb_neq pn 0)) by done. cbn [negb]. rewrite search_cons. cbn [fst snd].
    destruct (found (bs_mode e) pn); [done|]. cbn [attempt_loop]. rewrite (proj2 (Z.ltb_ge _ _)) by lia.
    unfold search. cbn. by rewrite app_nil_r.
Qed.

Lemma entry_attempts_inv e n pn : entry_attempts e = Some (n, pn) -> n <= 30 /\ (n <= 0 \/ pn = 0 \/ (n = 1 /\ 0 < pn)).
Proof.
  unfold entry_attempts, MAX_MULTIBOOT_ATTEMPTS. case_if; [intros [= <- <-]; lia|]. case_if; [|intros [= <- <-]; lia].
  intros E. bind_in E. destruct o as [ipmi|]; [|injection E as <- <-; lia]. bind_in E. injection E as <- <-.
  case_if; lia.
Qed.

Lemma boot_loop_run seq : forall cs w, candidates seq = Some cs -> Forall (fun c => snd c < 2 ^ 31 - 1) cs ->
  boot_loop seq w = Some (search cs w).
Proof using Hmedia.
  induction seq as [|e seq IH]; intros cs w Hc Hmax.
  { injection Hc as <-. cbn. unfold search. cbn. by rewrite app_nil_r. }
  unfold candidates in Hc. cbn [mapM] in Hc. destruct (entry_candidates e) as [c1|] eqn:E1; [|done]. cbn in Hc.
  destruct (mapM entry_candidates seq) as [cs2|] eqn:E2; [|done]. cbn in Hc. injection Hc as <-.
  apply Forall_app in Hmax as [Hm1 Hm2]. cbn [boot_loop]. unfold entry_candidates in E1.
  destruct (entry_attempts e) as [[n pn]|] eqn:E; [|done]. rewrite (lift_run _ _ _ _ eq_refl).
  destruct (entry_attempts_inv _ _ _ E) as [Hn30 Hn].
  assert (Hrun : attempt_loop (S (Z.to_nat n)) (bs_mode e) n pn 0 w = Some (search c1 w)).
  { destruct (Z.leb_spec n 0).
    { cbn in E1. rewrite (proj2 (Z.leb_le n 0)) in E1 by done. injection E1 as <-.
      cbn [attempt_loop]. rewrite (proj2 (Z.ltb_ge 0 n)) by lia. unfold search. cbn. by rewrite app_nil_r. }
    apply entry_run; [done| |done|done|unfold entry_candidates; by rewrite E].
    destruct Hn as [?|[->|[-> Hp]]]; [lia|lia|]. cbn in E1. rewrite (proj2 (Z.eqb_neq pn 0)) in E1 by lia. injection E1 as <-.
    by inversion_clear Hm1. }
  destruct (search c1 w) as [b w1] eqn:Es. rewrite (bind_run _ _ _ _ _ Hrun).
  change (mjoin (c1 :: cs2)) with (c1 ++ mjoin cs2). rewrite search_app, Es. cbn [fst snd].
  destruct b; [done|]. apply IH; [unfold candidates; by rewrite E2|done].
Qed.

(** C12: the loader restarts from the first image in the order of the list: on a cold start
    outside JTAG the numbers are set one after the other, a positive part number in place
    of a negative count, up to the first (mode, number) pair for which a device starts;
    then the mode is made the alternative boot mode and the system is reset.  Without any
    it goes on with number 0.  After the restart, or under JTAG, nothing is touched. *)
Theorem sequence_boot_first_image seq cs w :
  let r := xil_in32 w CRL_APB_BOOT_MODE_USER in
  candidates seq = Some cs -> Forall (fun c => snd c < 2 ^ 31 - 1) cs ->
  iv_sequence_boot seq w =
    if negb (Z.shiftr (Z.land r 0x100) 8 =? 0) || (Z.shiftr (Z.land r CRL_APB_BOOT_MODE_USER_BOOT_MODE_MASK) 0 =? XFSBL_JTAG_BOOT_MODE)
    then Some (Some XFSBL_SUCCESS, w)
    else match list_find is_found cs with
         | Some (k, c) => Some (None, restart (fst c) (w ++ (set_number <$> take (S k) cs)))
         | None => Some (Some XFSBL_SUCCESS, w ++ (set_number <$> cs) ++ [(CSU_CSU_MULTI_BOOT, 0)])
         end.
Proof using Hmedia.
  intros r Hc Hmax. unfold iv_sequence_boot. rewrite (bind_run _ _ _ r w) by done. cbv zeta.
  unfold CRL_APB_BOOT_MODE_USER_BOOT_MODE_SHIFT, CRL_APB_BOOT_MODE_USER_USE_ALT_SHIFT, CRL_APB_BOOT_MODE_USER_USE_ALT_MASK.
  case_match; [done|]. pose proof (boot_loop_run seq cs w Hc Hmax) as Hrun. unfold search in Hrun.
  destruct (list_find is_found cs) as [[k c]|]; rewrite (bind_run _ _ _ _ _ Hrun); [done|].
  rewrite (bind_run _ _ _ tt ((w ++ (set_number <$> cs)) ++ [(CSU_CSU_MULTI_BOOT, 0)])) by done. by rewrite <- (assoc_L (++)).
Qed.
End search.

(** ** Records of the FRU tool *)

Lemma sum8_zsum l : forall s, foldl (fun sum b => u8 (sum + b)) (s `mod` 256) l = (s + zsum l) `mod` 256.
Proof.
  induction l as [|b l IH]; intros s; cbn [foldl]; [by rewrite Z.add_0_r|].
  unfold u8. rewrite Zplus_mod_idemp_l, IH. f_equal. change (zsum (b :: l)) with (b + zsum l). lia.
Qed.
Lemma sum8_spec l : sum8 l = zsum l `mod` 256.
Proof. exact (sum8_zsum l 0). Qed.

Lemma atoi_decimal ds c rest : Forall dec_digit ds -> ds <> [] -> digit_val 10 c = None -> 0 <= dec_value ds < 2 ^ 31 ->
  atoi (ds ++ c :: rest) = dec_value ds.
Proof.
  intros Hds Hne Hc Hv. unfold atoi, strtol. pose proof (number_dec false ds (c :: rest) Hds Hne Hc) as Hn. cbn [app] in Hn. rewrite Hn.
  cbn [fst]. rewrite Z.min_r by lia. apply to_i32_small. lia.
Qed.

Lemma cstr_app l rest : 0 ∉ l -> cstr (l ++ rest) = l ++ cstr rest.
Proof.
  induction l as [|c l IH]; [done|]. intros Hl. rewrite not_elem_of_cons in Hl. cbn [app cstr].
  rewrite (proj2 (Z.eqb_neq c 0)) by (symmetry; apply Hl). by rewrite IH by apply Hl.
Qed.
Lemma strchr_app c l rest : c ∉ l -> strchr c (l ++ c :: rest) = Some (c :: rest).
Proof.
  induction l as [|x l IH]; cbn [app strchr]; [by rewrite Z.eqb_refl|]. intros Hl. rewrite not_elem_of_cons in Hl.
  rewrite (proj2 (Z.eqb_neq x c)) by (symmetry; apply Hl). by rewrite IH by apply Hl.
Qed.

(** C36: a record created by the FRU tool with its default lengths is valid for the loader,
    and the loader reads the number between the first two dashes of the part number. *)
Theorem loader_reads_created t mfr product sn pre ds rest :
  let pn := pre ++ [45] ++ ds ++ [45] ++ rest in
  let named := [(mfr, 10); (product, 16); (sn, 10); (pn, 15)] in
  let ipmi := CH_DEFAULT ++ render_bia (new_len (created t named)) (created t named) in
  zlen t = 3 -> Forall is_byte t -> Forall named_ok named ->
  45 ∉ pre -> 0 ∉ pre -> Forall dec_digit ds -> ds <> [] -> dec_value ds < 2 ^ 31 ->
  zlen ipmi = sizeof_iv_ipmi /\ validate_ipmi ipmi = Some 0 /\ get_pn_ord ipmi = Some (dec_value ds).
Proof.
  intros pn named ipmi Ht Htb Hok Hpre Hpre0 Hds Hne Hmax. set (im := created t named) in *.
  pose proof (created_ok t named Ht Htb eq_refl Hok : bia_ok im) as Hbok.
  assert (Hfields : forall p, named_ok p -> zlen (render_field (named_field p)) = 1 + snd p) by apply zlen_named.
  assert (Htot : bia_total im = 64) by by apply created_default_total.
  assert (Hlen : zlen ipmi = 72) by (unfold ipmi; rewrite zlen_app, zlen_render_bia by done; change (zlen CH_DEFAULT) with 8; lia).
  split; [done|].
  assert (Hseg : seg ipmi 8 (render_bia (new_len im) im)) by by exists CH_DEFAULT, []; rewrite app_nil_r.
  destruct (render_bia_parts _ _ _ _ Hbok Hseg) as (Hv & _ & _ & _ & Hp & _). split.
  - unfold validate_ipmi. rewrite (seg_rd ipmi 0 CH_DEFAULT) by (done || by exists [], (render_bia (new_len im) im)). cbn [mbind option_bind].
    rewrite (seg_rd _ _ _ _ Hseg) by by rewrite zlen_render_bia, Htot. cbn [mbind option_bind]. change (8 + 0) with sizeof_common_header in Hv.
    rewrite Hv. cbn [mbind option_bind]. rewrite !sum8_spec. unfold render_bia. by rewrite cksum_zero.
  - unfold get_pn_ord. assert (Hpn : seg ipmi board_part_number_offset (space_pad pn 15)).
    { change (bi_predef im) with (named_field <$> named) in Hp.
      change (render_fields (named_field <$> named)) with
        (render_field (named_field (mfr, 10)) ++ render_field (named_field (product, 16)) ++ render_field (named_field (sn, 10)) ++ (f_tl (named_field (pn, 15)) :: space_pad pn 15) ++ []) in Hp.
      apply seg_app in Hp as [_ Hp]. apply seg_app in Hp as [_ Hp]. apply seg_app in Hp as [_ Hp]. apply seg_app in Hp as [Hp _]. apply seg_cons in Hp as [_ Hp].
      eapply seg_at; [exact Hp|]. unfold named in Hok. rewrite !Forall_cons in Hok. destruct Hok as (H1 & H2 & H3 & _). rewrite !Hfields by done. done. }
    rewrite (seg_rd _ _ _ _ Hpn).
    2:{ symmetry. apply zlen_space_pad. unfold named in Hok. rewrite !Forall_cons in Hok. apply Hok. }
    cbn [mbind option_bind]. unfold space_pad, pn. rewrite <- !(assoc_L (++)). rewrite cstr_app by done. cbn [app].
    assert (Hd0 : 0 ∉ ds). { intros Hin. eapply Forall_forall in Hds; [|exact Hin]. unfold dec_digit in Hds. lia. }
    change (cstr (45 :: ds ++ 45 :: ?x)) with (45 :: cstr (ds ++ 45 :: x)). rewrite cstr_app by done.
    change (cstr (45 :: ?x)) with (45 :: cstr x). rewrite strchr_app by done. cbn [drop]. f_equal. apply atoi_decimal; [done..|].
    split; [|done]. unfold decimal. clear -Hds.
    assert (Hg : forall v, 0 <= v -> 0 <= foldl (fun v c => v * 10 + (c - 48)) v ds); [|by apply Hg].
    induction Hds as [|d ds Hd _ IH]; intros v Hv; cbn [foldl]; [done|]. apply IH. unfold dec_digit in Hd. lia.
Qed.

(** ** Concrete inputs *)

Definition loader_fields : list (list Z * Z) :=
  [(mfr_default, 10); (bytes "Atlas-II", 16); (bytes "C6J36", 10); (bytes "205-00130-01-A", 15)].
Definition loader_record : list Z := CH_DEFAULT ++ render_bia 8 (created [128; 81; 1] loader_fields).

Lemma loader_fields_ok : Forall named_ok loader_fields.
Proof. repeat constructor; discriminate || done. Qed.

(** The loader takes the area to be 64 bytes long: a record with one more field, valid
    for the FRU library, is invalid for the loader. *)
Theorem loader_rejects_added :
  let im := with_custom (insert_field (-1) (custom_field [65; 66]) []) (created [128; 81; 1] loader_fields) in
  let ipmi := CH_DEFAULT ++ render_bia (new_len im) im in
  fru_image ipmi false (new_len im) im /\ validate_ipmi ipmi = Some (-1).
Proof.
  intros im ipmi. split; [|by vm_compute]. unfold ipmi. rewrite <- (app_nil_r (render_bia _ _)).
  apply image_join; [apply default_ch_ok| |by vm_compute].
  apply with_custom_ok; [apply created_ok; [done|by repeat constructor|done|apply loader_fields_ok]|].
  apply insert_field_ok; [constructor|]. by apply custom_field_ok; [split|repeat constructor].
Qed.

(** A board of that record, booted from its QSPI flash, with one image on the SD card. *)
Definition sample_xfsbl (image : Z * Z) : Xfsbl :=
  {| XFSBL_JTAG_BOOT_MODE := 0; XFSBL_QSPI24_BOOT_MODE := 1; XFSBL_QSPI32_BOOT_MODE := 2; XFSBL_SD0_BOOT_MODE := 3; XFSBL_SD1_BOOT_MODE := 5;
     XFSBL_SUCCESS := 0; XFSBL_ERROR_UNSUPPORTED_BOOT_MODE := 7; CRL_APB_BOOT_MODE_USER_BOOT_MODE_MASK := 15;
     CRL_APB_RPLL_CTRL_BYPASS_MASK := 8; CRL_APB_RESET_CTRL_SOFT_RESET_MASK := 16;
     xil_in32 := fun _ _ => 1;
     XFsbl_SdInit := fun w mode => if bool_decide (last w = Some (CSU_CSU_MULTI_BOOT, snd image)) && (mode =? fst image) then 0 else 9;
     XFsbl_Qspi24Init := fun _ _ => 9; XFsbl_Qspi32Init := fun _ _ => 9; XGetPSVersion_Info_is_1 := false;
     XIicPs_LookupConfig := true; XIicPs_CfgInitialize := true; XIicPs_SelfTest := true;
     XIicPs_MasterSendPolled := fun _ _ => true; XIicPs_MasterRecvPolled := fun _ n _ => Some (take (Z.to_nat n) loader_record) |}.

Lemma sequence_boot_first_image_witness :
  @iv_sequence_boot (sample_xfsbl (3, 130)) (@boot_seq (sample_xfsbl (3, 130))) [] =
    Some (None, [(CSU_CSU_MULTI_BOOT, 0); (CSU_CSU_MULTI_BOOT, 130); (CRL_APB_BOOT_MODE_USER, 0x3100); (CRL_APB_RESET_CTRL, 17)]).
Proof.
  rewrite (@sequence_boot_first_image (sample_xfsbl (3, 130)) (fun mode mb => bool_decide (u32 mb = 130) && (mode =? 3)))
    with (cs := [(3, 0); (3, 130); (5, 0); (2, 0)]).
  - vm_compute. reflexivity.
  - intros w mode mb. eexists. split; [reflexivity|]. cbn -[u32 last]. rewrite last_snoc.
    destruct (Z.eqb_spec mode 3) as [->|Hm3].
    + cbn [Z.eqb Pos.eqb orb]. rewrite !andb_true_r. destruct (decide (u32 mb = 130)) as [E|E].
      * by rewrite !bool_decide_true by congruence.
      * by rewrite !bool_decide_false by congruence.
    + rewrite !andb_false_r. by destruct (mode =? 5), (mode =? 1), (mode =? 2).
  - vm_compute. reflexivity.
  - by repeat constructor.
Defined.

Lemma loader_reads_created_witness :
  zlen loader_record = 72 /\ validate_ipmi loader_record = Some 0 /\ get_pn_ord loader_record = Some 130.
Proof.
  destruct (loader_reads_created [128; 81; 1] mfr_default (bytes "Atlas-II") (bytes "C6J36") (bytes "205") (bytes "00130") (bytes "01-A"))
    as (H1 & H2 & H3).
  - done.
  - by repeat constructor.
  - exact loader_fields_ok.
  - by apply (bool_decide_unpack _).
  - by apply (bool_decide_unpack _).
  - by repeat constructor.
  - done.
  - done.
  - exact (conj H1 (conj H2 H3)).
Defined.
