(* ===== verification/AltIpmi.v ===== *)
(** * The record of the 00130 board ([recipes-bsp/u-boot/files/eeprom-ipmi-00130.c])

    Some boards carry another vendor's record, of fixed length with the serial number at a
    fixed place: U-Boot makes the board string from it. *)
From S2P Require Import Prelude CString FruField FruValidate FruDate FruPlat FruOps FruEdit FruCreate FruCommands SequenceBoot SequenceBootProps.

#[local] Open Scope string_scope.
#[local] Open Scope list_scope.
#[local] Open Scope Z_scope.

Definition BOARD_AREA_OFFSET : Z := 0x08.
Definition BOARD_AREA_LEN : Z := 72.
Definition FORMAT_VERSION_OFFSET : Z := 0.
Definition FORMAT_VERSION_EXPECTED : Z := 4.
Definition SN_OFFSET : Z := 0x37.
Definition ALT_SN_LEN : Z := 5.
Definition BOARD_PN_STR : list Z := bytes "205-00130-XX-XX".
Definition BOARD_NAME_STR : list Z := bytes "Atlas-II-Z8p-HD".
Definition IV_MB_ALT_I2C_BUS : Z := 0.
Definition IV_MB_EEPROM_ADDR : Z := 0x52.
Definition ALT_FIELD_LEN : Z := 64.

(** U-Boot's I2C: the bytes of a chip on a bus, [None] when the transfer fails. *)
Class I2cCompat := i2c_read : Z -> Z -> Z -> Z -> option (list Z).

Definition i2c_get_bus_num : M Z Z := fun bus => Some (bus, bus).
Definition i2c_set_bus_num (bus : Z) : M Z unit := fun _ => Some (tt, bus).
Definition read_area `{I2cCompat} : M Z (option (list Z)) :=
  fun bus => Some (i2c_read bus IV_MB_EEPROM_ADDR BOARD_AREA_OFFSET BOARD_AREA_LEN, bus).

(** The state is the number of the current bus.  The result is the string, [None] for NULL. *)
Definition read_alternate_ipmi `{I2cCompat} : M Z (option (list Z)) :=
  oldbus ← i2c_get_bus_num;
  _ ← i2c_set_bus_num IV_MB_ALT_I2C_BUS;
  area ← read_area;
  s ← (match area with
       | None => mret None
       | Some area =>
         version ← lift (ld area FORMAT_VERSION_OFFSET);
         if negb (version =? FORMAT_VERSION_EXPECTED) then mret None else
         if negb (sum8 area =? 0) then mret None else
         area ← lift (st area (SN_OFFSET + ALT_SN_LEN) 0);
         let s := BOARD_PN_STR ++ [44] ++ cstr (drop (Z.to_nat SN_OFFSET) area) ++ [44] ++ BOARD_NAME_STR in
         if ALT_FIELD_LEN <=? zlen s then mret None else mret (Some s)
       end);
  _ ← i2c_set_bus_num oldbus;
  mret s.

(** A record is used exactly when it can be read, has the format version and its bytes
    add up to zero; the string names the board and the five bytes of the serial number, cut
    at a NUL, and always fits; the current bus is what it was before on every path. *)
Theorem read_alternate_exact `{I2cCompat} bus area :
  i2c_read 0 IV_MB_EEPROM_ADDR BOARD_AREA_OFFSET BOARD_AREA_LEN = area ->
  (forall a, area = Some a -> zlen a = BOARD_AREA_LEN) ->
  read_alternate_ipmi bus =
    Some (match area with
          | Some a =>
            if bool_decide (ld a 0 = Some 4) && (zsum a `mod` 256 =? 0)
            then Some (BOARD_PN_STR ++ [44] ++ cstr (take 5 (drop 55 a)) ++ [44] ++ BOARD_NAME_STR) else None
          | None => None
          end, bus).
Proof.
  intros Hr Hlen. unfold read_alternate_ipmi. erewrite bind_run by reflexivity. erewrite bind_run by reflexivity.
  rewrite (bind_run _ _ _ area 0) by (unfold read_area, IV_MB_ALT_I2C_BUS; by rewrite Hr). destruct area as [a|]; [|done]. specialize (Hlen a eq_refl).
  unfold BOARD_AREA_LEN in Hlen. destruct (ld_total a 0) as [v Hv]; [lia|].
  set (r := if bool_decide (ld a 0 = Some 4) && (zsum a `mod` 256 =? 0)
            then Some (BOARD_PN_STR ++ [44] ++ cstr (take 5 (drop 55 a)) ++ [44] ++ BOARD_NAME_STR) else None).
  rewrite (bind_run _ _ _ r 0); [done|]. rewrite (lift_run _ _ _ _ Hv). unfold r, FORMAT_VERSION_EXPECTED. rewrite Hv, sum8_spec.
  destruct (Z.eqb_spec v 4) as [->|Hne]; cbn [negb]; [rewrite bool_decide_true by done|by rewrite bool_decide_false by congruence].
  cbn [andb]. destruct (Z.eqb_spec (zsum a `mod` 256) 0); cbn [negb]; [|done].
  assert (Hsplit : exists pre sn x post, a = pre ++ sn ++ x :: post /\ zlen pre = 55 /\ zlen sn = 5).
  { destruct (split_at a 55) as (pre & l & -> & Hp); [lia|]. rewrite zlen_app in Hlen.
    destruct (split_at l 5) as (sn & l' & -> & Hs); [lia|]. rewrite zlen_app in Hlen. destruct l' as [|x post]; [zl|]. by exists pre, sn, x, post. }
  destruct Hsplit as (pre & sn & x & post & -> & Hp & Hs).
  assert (Hst : st (pre ++ sn ++ x :: post) (SN_OFFSET + ALT_SN_LEN) 0 = Some ((pre ++ sn) ++ 0 :: post)).
  { rewrite (assoc_L (++)). apply st_mid. rewrite zlen_app, Hp, Hs. done. }
  rewrite (lift_run _ _ _ _ Hst). cbv zeta. unfold zlen in Hp, Hs.
  assert (Hd : forall rest, drop 55 (pre ++ sn ++ rest) = sn ++ rest) by (intros; apply drop_app_length'; lia).
  change (Z.to_nat SN_OFFSET) with 55%nat. rewrite <- (assoc_L (++)), !Hd, take_app_length' by lia.
  assert (Hc : cstr (sn ++ 0 :: post) = cstr sn).
  { clear. induction sn as [|c sn IH]; [done|]. cbn [app cstr]. by rewrite IH. }
  rewrite Hc. assert (Hcl : zlen (cstr sn) <= zlen sn).
  { clear. induction sn as [|c sn IH]; [done|]. cbn [cstr]. case_if; zl. }
  rewrite (proj2 (Z.leb_gt _ _)); [done|]. rewrite !zlen_app. change (zlen BOARD_PN_STR) with 15. change (zlen BOARD_NAME_STR) with 15.
  change (zlen [44]) with 1. unfold ALT_FIELD_LEN. unfold zlen in *. lia.
Qed.

(** ** A concrete input *)

Definition alt_record : list Z := [4] ++ replicate 54 0 ++ bytes "C6J36" ++ replicate 11 0 ++ [208].

Lemma read_alternate_exact_witness :
  @read_alternate_ipmi (fun _ _ _ _ => Some alt_record) 7 = Some (Some (bytes "205-00130-XX-XX,C6J36,Atlas-II-Z8p-HD"), 7).
Proof.
  rewrite (@read_alternate_exact (fun _ _ _ _ => Some alt_record) 7 (Some alt_record) eq_refl); [vm_compute; reflexivity|].
  by intros a [= <-].
Defined.
