(* ===== verification/ClkInit.v ===== *)
(** * Start-up of the clock generator ([recipes-bsp/fsbl-firmware/files/iv_z8_init.c])

    The first-stage loader of a Z8 board programs a Si5338 clock generator over I2C: a table
    of masked register writes, then the procedure that restarts its PLL.  The I2C controller
    is driven register by register. *)
From S2P Require Import Prelude.

#[local] Open Scope list_scope.
#[local] Open Scope Z_scope.

(** ** Registers of the processor *)

Inductive access := Rd (addr : Z) | Wr (addr value : Z).

(** The accesses so far, oldest first. *)
Abbreviation bus := (list access).

(** The hardware: what a register reads after the accesses so far. *)
Class Soc := soc_value : bus -> Z -> Z.

Definition ZYNQ_I2C_BASE : Z := 0xff030000.
Definition I2C_control : Z := ZYNQ_I2C_BASE + 0x00.
Definition I2C_address : Z := ZYNQ_I2C_BASE + 0x08.
Definition I2C_data : Z := ZYNQ_I2C_BASE + 0x0C.
Definition I2C_interrupt_status : Z := ZYNQ_I2C_BASE + 0x10.
Definition I2C_transfer_size : Z := ZYNQ_I2C_BASE + 0x14.

Definition ZYNQ_I2C_CONTROL_RW : Z := 0x00000001.
Definition ZYNQ_I2C_CONTROL_MS : Z := 0x00000002.
Definition ZYNQ_I2C_CONTROL_NEA : Z := 0x00000004.
Definition ZYNQ_I2C_CONTROL_ACKEN : Z := 0x00000008.
Definition ZYNQ_I2C_CONTROL_HOLD : Z := 0x00000010.
Definition ZYNQ_I2C_CONTROL_CLR_FIFO : Z := 0x00000040.
Definition ZYNQ_I2C_CONTROL_DIV_B_SHIFT : Z := 8.
Definition ZYNQ_I2C_CONTROL_DIV_A_SHIFT : Z := 14.
Definition ZYNQ_I2C_INTERRUPT_COMP : Z := 0x00000001.
Definition ZYNQ_I2C_INTERRUPT_DATA : Z := 0x00000002.
Definition ZYNQ_I2C_FIFO_DEPTH : Z := 16.
Definition ZYNQ_I2C_TRANSFERT_SIZE_MAX : Z := 255.
Definition EINVAL : Z := 1.
Definition ETIMEDOUT : Z := 2.

(** [~mask] of an [unsigned int]. *)
Definition not32 (mask : Z) : Z := 2 ^ 32 - 1 - u32 mask.

Section soc.
Context `{Soc}.

Definition readl (addr : Z) : M bus Z := fun w => Some (u32 (soc_value w addr), w ++ [Rd addr]).
Definition writel (data addr : Z) : M bus unit := fun w => Some (tt, w ++ [Wr addr (u32 data)]).

Definition PSU_Mask_Write (offset mask val : Z) : M bus unit :=
  RegVal ← readl offset;
  let RegVal := Z.land RegVal (not32 mask) in
  let RegVal := Z.lor RegVal (Z.land val mask) in
  writel RegVal offset.

Definition jsm_setbits_le32 (addr mask : Z) : M bus unit := temp ← readl addr; writel (Z.lor temp mask) addr.
Definition jsm_clrbits_le32 (addr mask : Z) : M bus unit := temp ← readl addr; writel (Z.land temp (not32 mask)) addr.

(** ** The I2C controller *)

(** The polling loop, [n] iterations left, with the status read last. *)
Fixpoint wait_poll (n : nat) (mask int_status : Z) : M bus Z :=
  match n with
  | O => mret int_status
  | S n =>
    int_status ← readl I2C_interrupt_status;
    if negb (Z.land int_status mask =? 0) then mret int_status else wait_poll n mask int_status
  end.

Definition zynq_i2c_wait (mask : Z) : M bus Z :=
  int_status ← wait_poll 100 mask 0;
  _ ← writel (Z.land int_status mask) I2C_interrupt_status;
  mret (Z.land int_status mask).

(** [while (alen--) writel(addr >> (8 * alen), &data)]. *)
Fixpoint send_addr (alen : nat) (addr : Z) : M bus unit :=
  match alen with
  | O => mret tt
  | S alen => _ ← writel (Z.shiftr (u32 addr) (8 * Z.of_nat alen)) I2C_data; send_addr alen addr
  end.

(** The loop that empties the FIFO, into an array of [length] bytes: the bytes stored so
    far.  The comparison is unsigned. *)
Fixpoint drain_loop (fuel : nat) (length : Z) (data : list Z) : M bus (list Z) :=
  match fuel with
  | O => lift None
  | S fuel =>
    left ← readl I2C_transfer_size;
    if zlen data <? u32 (length - left) then
      b ← readl I2C_data;
      if zlen data <? length then drain_loop fuel length (data ++ [u8 b]) else lift None
    else mret data
  end.

(** The [do] loop, [fuel] iterations at most: the code and the bytes. *)
Fixpoint receive_loop (fuel : nat) (length : Z) (data : list Z) : M bus (Z * list Z) :=
  match fuel with
  | O => lift None
  | S fuel =>
    status ← zynq_i2c_wait (Z.lor ZYNQ_I2C_INTERRUPT_COMP ZYNQ_I2C_INTERRUPT_DATA);
    if status =? 0 then
      _ ← jsm_clrbits_le32 I2C_control ZYNQ_I2C_CONTROL_HOLD;
      mret (- ETIMEDOUT, data)
    else
      data ← drain_loop (S (S (Z.to_nat length))) length data;
      left ← readl I2C_transfer_size;
      if negb (left =? 0) then receive_loop fuel length data else mret (0, data)
  end.

Definition zynq_i2c_read (fuel : nat) (dev addr : Z) (alen : nat) (length : Z) : M bus (Z * list Z) :=
  if (length <? 0) || (ZYNQ_I2C_TRANSFERT_SIZE_MAX <? length) then mret (- EINVAL, []) else
  _ ← jsm_setbits_le32 I2C_control (Z.lor ZYNQ_I2C_CONTROL_CLR_FIFO ZYNQ_I2C_CONTROL_HOLD);
  _ ← jsm_clrbits_le32 I2C_control ZYNQ_I2C_CONTROL_HOLD;
  _ ← writel 0xFF I2C_interrupt_status;
  acked ← (match alen with
           | O => mret true
           | _ =>
             _ ← jsm_clrbits_le32 I2C_control ZYNQ_I2C_CONTROL_RW;
             _ ← writel dev I2C_address;
             _ ← send_addr alen addr;
             status ← zynq_i2c_wait ZYNQ_I2C_INTERRUPT_COMP;
             if status =? 0 then _ ← jsm_clrbits_le32 I2C_control ZYNQ_I2C_CONTROL_HOLD; mret false else mret true
           end);
  if negb (acked : bool) then mret (- ETIMEDOUT, []) else
  _ ← jsm_setbits_le32 I2C_control (Z.lor ZYNQ_I2C_CONTROL_CLR_FIFO ZYNQ_I2C_CONTROL_RW);
  _ ← writel dev I2C_address;
  _ ← writel length I2C_transfer_size;
  '(r, data) ← receive_loop fuel length [];
  if negb (r =? 0) then mret (r, data) else
  _ ← jsm_clrbits_le32 I2C_control ZYNQ_I2C_CONTROL_HOLD;
  mret (0, data).

(** The loop over the bytes: whether it was left by a timeout. *)
Fixpoint send_loop (data : list Z) : M bus bool :=
  match data with
  | [] => mret false
  | b :: data =>
    _ ← writel b I2C_data;
    left ← readl I2C_transfer_size;
    if left =? ZYNQ_I2C_FIFO_DEPTH then
      status ← zynq_i2c_wait ZYNQ_I2C_INTERRUPT_COMP;
      if status =? 0 then _ ← jsm_clrbits_le32 I2C_control ZYNQ_I2C_CONTROL_HOLD; mret true else send_loop data
    else send_loop data
  end.

Definition zynq_i2c_write (dev addr : Z) (alen : nat) (data : list Z) : M bus Z :=
  _ ← jsm_setbits_le32 I2C_control (Z.lor ZYNQ_I2C_CONTROL_CLR_FIFO ZYNQ_I2C_CONTROL_HOLD);
  _ ← jsm_clrbits_le32 I2C_control ZYNQ_I2C_CONTROL_RW;
  _ ← writel 0xFF I2C_interrupt_status;
  _ ← writel dev I2C_address;
  acked ← (match alen with
           | O => mret true
           | _ =>
             _ ← send_addr alen addr;
             status ← zynq_i2c_wait ZYNQ_I2C_INTERRUPT_COMP;
             if status =? 0 then _ ← jsm_clrbits_le32 I2C_control ZYNQ_I2C_CONTROL_HOLD; mret false else mret true
           end);
  if negb (acked : bool) then mret (- ETIMEDOUT) else
  timeout ← send_loop data;
  if (timeout : bool) then mret (- ETIMEDOUT) else
  _ ← jsm_clrbits_le32 I2C_control ZYNQ_I2C_CONTROL_HOLD;
  status ← zynq_i2c_wait ZYNQ_I2C_INTERRUPT_COMP;
  if status =? 0 then mret (- ETIMEDOUT) else mret 0.

Definition zynq_i2c_init : M bus unit :=
  _ ← writel (Z.lor (Z.shiftl 16 ZYNQ_I2C_CONTROL_DIV_B_SHIFT) (Z.shiftl 2 ZYNQ_I2C_CONTROL_DIV_A_SHIFT)) I2C_control;
  jsm_setbits_le32 I2C_control (Z.lor (Z.lor ZYNQ_I2C_CONTROL_MS ZYNQ_I2C_CONTROL_ACKEN) ZYNQ_I2C_CONTROL_NEA).
End soc.

(** ** The clock generator *)

(** What the procedures below need of a machine: starting the bus, and one register of a
    device: the code, and the value stored, if any. *)
Class ClockBus (W : Type) := {
  clock_bus_init : M W unit;
  ClockGenRead : Z -> Z -> M W (Z * option Z);
  ClockGenWrite : Z -> Z -> Z -> M W Z
}.

(** The controller as such a machine; [fuel] bounds the turns of a transfer. *)
#[export] Instance zynq_clock_bus `{Soc} (fuel : nat) : ClockBus bus := {
  clock_bus_init := zynq_i2c_init;
  ClockGenRead := fun nDev nReg => '(r, data) ← zynq_i2c_read fuel nDev nReg 1 1; mret (r, head data);
  ClockGenWrite := fun nDev nReg nVal => zynq_i2c_write nDev nReg 1 [nVal]
}.

Section clock.
Context {W : Type} `{ClockBus W}.

(** A read that is followed by [if (iRetVal) return iRetVal;] and the use of the value: a
    fault when none was stored. *)
Definition read_then (nDev nReg : Z) (k : Z -> M W Z) : M W Z :=
  '(r, v) ← ClockGenRead nDev nReg;
  if negb (r =? 0) then mret r else v ← lift v; k v.
(** [iRetVal = m; if (iRetVal) return iRetVal;] followed by [k]. *)
Definition or_code (m : M W Z) (k : M W Z) : M W Z := r ← m; if negb (r =? 0) then mret r else k.

Definition ClockGenWriteMasked (nDev nReg nVal nMask : Z) : M W Z :=
  read_then nDev nReg (fun data =>
  let data := Z.land data (255 - nMask) in
  let data := Z.lor data (Z.land nVal nMask) in
  ClockGenWrite nDev nReg data).

Definition PLL_TRIES : Z := 1000000.

(** The loop that waits for the PLL, [fuel] iterations left: the status read last. *)
Fixpoint pll_loop (fuel : nat) (nDev : Z) (k : Z -> M W Z) : M W Z :=
  match fuel with
  | O => lift None
  | S fuel =>
    read_then nDev 218 (fun ucTemp =>
    if negb (Z.land ucTemp 0x15 =? 0) && (0 <? Z.of_nat fuel) then pll_loop fuel nDev k else k ucTemp)
  end.

Definition IV_ResetSi5338Pll (nDev : Z) (bClkIn : bool) : M W Z :=
  or_code (ClockGenWriteMasked nDev 230 0x10 0x10) (
  or_code (ClockGenWriteMasked nDev 241 0x80 0x80) (
  or_code (ClockGenWriteMasked nDev 50 0xC0 0xC0) (
  read_then nDev 218 (fun ucTemp =>
  if negb (Z.land ucTemp 0x04 =? 0) && bClkIn then mret (-1) else
  if negb (Z.land ucTemp 0x08 =? 0) && negb bClkIn then mret (-2) else
  or_code (ClockGenWriteMasked nDev 49 0x00 0x80) (
  or_code (ClockGenWrite nDev 246 0x02) (
  or_code (ClockGenWriteMasked nDev 241 0x00 0x80) (
  or_code (ClockGenWrite nDev 241 0x65) (
  pll_loop (Z.to_nat PLL_TRIES) nDev (fun ucTemp =>
  if negb (Z.land ucTemp 0x15 =? 0) then mret (-3) else
  read_then nDev 237 (fun ucTemp =>
  let ucTemp := Z.lor (Z.land ucTemp 0x03) 0x14 in
  or_code (ClockGenWrite nDev 47 ucTemp) (
  read_then nDev 236 (fun ucTemp =>
  or_code (ClockGenWrite nDev 46 ucTemp) (
  read_then nDev 235 (fun ucTemp =>
  or_code (ClockGenWrite nDev 45 ucTemp) (
  or_code (ClockGenWriteMasked nDev 49 0x80 0x80) (
  or_code (ClockGenWriteMasked nDev 230 0x00 0x10) (
  mret 0))))))))))))))))).

(** A line of the table: register, value, mask. *)
Abbreviation Reg_Data := (Z * Z * Z)%type.

(** The loop over the table: 0, or the code of the write that failed. *)
Fixpoint table_loop (ucDev : Z) (table : list Reg_Data) : M W Z :=
  match table with
  | [] => mret 0
  | (addr, val, mask) :: table =>
    if negb (mask =? 0x00) then
      err ← ClockGenWriteMasked ucDev addr val mask;
      if negb (err =? 0) then mret err else table_loop ucDev table
    else table_loop ucDev table
  end.

(** The errors are only printed: what went wrong is the result here. *)
Definition init_gt_clks (ucDev : Z) (table : list Reg_Data) : M W Z :=
  _ ← clock_bus_init;
  err ← table_loop ucDev table;
  if negb (err =? 0) then mret err else IV_ResetSi5338Pll ucDev true.
End clock.

(** ** The whole of it *)

Definition IOU_SLCR_MIO_PIN_8_OFFSET : Z := 0xff180020.
Definition IOU_SLCR_MIO_PIN_9_OFFSET : Z := 0xff180024.

Section init.
Context `{Soc}.

Definition iv_z8_init_before_hook : M bus unit :=
  _ ← PSU_Mask_Write 0XFF180208 0x0003DFC3 0x00000082;
  _ ← PSU_Mask_Write 0XFF5E0238 0x00100000 0x00000000;
  _ ← PSU_Mask_Write 0XFF5E0238 0x00000600 0x00000000;
  _ ← PSU_Mask_Write IOU_SLCR_MIO_PIN_8_OFFSET 0x000000FE 0x00000040;
  _ ← PSU_Mask_Write IOU_SLCR_MIO_PIN_9_OFFSET 0x000000FE 0x00000040;
  jsm_clrbits_le32 0xff5e0238 (Z.shiftl 1 10).
Definition iv_z8_init_after_hook : M bus unit := mret tt.
Definition iv_z8_has_clock_chip : bool := true.

(** [clkinit_100_125_26_125.h]: registers 0 to 122 of page 0. *)
Definition Reg_Store_config : list (Z * Z * Z) :=
  [ (0,0,0); (1,0,0); (2,0,0); (3,0,0); (4,0,0); (5,0,0); (6,0,223); (7,0,0); (8,112,0); (9,15,0); (10,0,0);
    (11,0,0); (12,0,0); (13,0,0); (14,0,0); (15,0,0); (16,0,0); (17,0,0); (18,0,0); (19,0,0); (20,0,0); (21,0,0);
    (22,0,0); (23,0,0); (24,0,0); (25,0,0); (26,0,0); (27,112,128); (28,131,255); (29,66,255); (30,176,255);
    (31,192,255); (32,192,255); (33,192,255); (34,192,255); (35,170,255); (36,6,255); (37,6,255); (38,6,255);
    (39,6,255); (40,132,255); (41,16,255); (42,36,63); (43,0,0); (44,0,0); (45,0,0); (46,0,0); (47,60,60);
    (48,37,255); (49,0,127); (50,196,255); (51,7,247); (52,16,255); (53,128,255); (54,10,255); (55,0,255);
    (56,0,255); (57,0,255); (58,0,255); (59,1,255); (60,0,255); (61,0,255); (62,0,63); (63,16,255); (64,0,255);
    (65,8,255); (66,0,255); (67,0,255); (68,0,255); (69,0,255); (70,1,255); (71,0,255); (72,0,255); (73,0,63);
    (74,16,255); (75,19,255); (76,46,255); (77,36,255); (78,0,255); (79,0,255); (80,0,255); (81,13,255);
    (82,0,255); (83,0,255); (84,0,63); (85,16,255); (86,0,255); (87,8,255); (88,0,255); (89,0,255); (90,0,255);
    (91,0,255); (92,1,255); (93,0,255); (94,0,255); (95,0,63); (96,16,0); (97,0,255); (98,30,255); (99,0,255);
    (100,0,255); (101,0,255); (102,0,255); (103,1,255); (104,0,255); (105,0,255); (106,128,191); (107,0,255);
    (108,0,255); (109,0,255); (110,64,255); (111,0,255); (112,0,255); (113,0,255); (114,64,255); (115,0,255);
    (116,128,255); (117,0,255); (118,64,255); (119,0,255); (120,0,127); (121,0,255); (122,64,255) ].
(** [clkinit_100_125_26_125.h]: registers 123 to 254 of page 0. *)
Definition Reg_Store_steps : list (Z * Z * Z) :=
  [ (123,0,255); (124,0,255); (125,0,255); (126,0,255); (127,0,255); (128,0,255); (129,0,15); (130,0,127);
    (131,0,255); (132,0,255); (133,0,255); (134,0,255); (135,0,255); (136,0,255); (137,0,255); (138,0,255);
    (139,0,255); (140,0,255); (141,0,255); (142,0,255); (143,0,255); (144,0,255); (145,0,0); (146,255,0);
    (147,0,0); (148,0,0); (149,0,0); (150,0,0); (151,0,0); (152,0,255); (153,0,255); (154,0,255); (155,0,255);
    (156,0,255); (157,0,255); (158,0,255); (159,0,255); (160,0,255); (161,0,255); (162,0,255); (163,0,255);
    (164,0,255); (165,0,255); (166,0,255); (167,0,255); (168,0,255); (169,0,255); (170,0,255); (171,0,255);
    (172,0,255); (173,0,255); (174,0,255); (175,0,255); (176,0,255); (177,0,255); (178,0,255); (179,0,255);
    (180,0,255); (181,0,255); (182,0,255); (183,0,255); (184,0,255); (185,0,255); (186,0,255); (187,0,255);
    (188,0,255); (189,0,255); (190,0,255); (191,0,255); (192,0,255); (193,0,255); (194,0,255); (195,0,255);
    (196,0,255); (197,0,255); (198,0,255); (199,0,255); (200,0,255); (201,0,255); (202,0,255); (203,0,255);
    (204,0,255); (205,0,255); (206,0,255); (207,0,255); (208,0,255); (209,0,255); (210,0,255); (211,0,255);
    (212,0,255); (213,0,255); (214,0,255); (215,0,255); (216,0,255); (217,0,127); (218,0,0); (219,0,0); (220,0,0);
    (221,13,0); (222,0,0); (223,0,0); (224,244,0); (225,240,0); (226,0,0); (227,0,0); (228,0,0); (229,0,0);
    (230,0,0); (231,0,0); (232,0,0); (233,0,0); (234,0,0); (235,0,0); (236,0,0); (237,0,0); (238,20,0); (239,0,0);
    (240,0,0); (241,133,0); (242,2,0); (243,240,0); (244,0,0); (245,0,0); (246,0,0); (247,0,0); (248,0,0);
    (249,168,0); (250,0,0); (251,132,0); (252,0,0); (253,0,0); (254,0,0) ].
(** [clkinit_100_125_26_125.h]: page 1, and back to page 0. *)
Definition Reg_Store_page1 : list (Z * Z * Z) :=
  [ (255,1,255); (0,0,0); (1,0,0); (2,0,0); (3,0,0); (4,0,0); (5,0,0); (6,0,0); (7,0,0); (8,0,0); (9,0,0);
    (10,0,0); (11,0,0); (12,0,0); (13,0,0); (14,0,0); (15,0,0); (16,0,0); (17,1,0); (18,0,0); (19,0,0);
    (20,144,0); (21,49,0); (22,0,0); (23,0,0); (24,1,0); (25,0,0); (26,0,0); (27,0,0); (28,0,0); (29,0,0);
    (30,0,0); (31,0,255); (32,0,127); (33,1,255); (34,0,127); (35,0,255); (36,144,255); (37,49,255); (38,0,255);
    (39,0,127); (40,1,255); (41,0,127); (42,0,255); (43,0,255); (44,0,0); (45,0,0); (46,0,0); (47,0,255);
    (48,0,127); (49,1,255); (50,0,127); (51,0,255); (52,144,255); (53,49,255); (54,0,255); (55,0,127); (56,1,255);
    (57,0,127); (58,0,255); (59,0,255); (60,0,0); (61,0,0); (62,0,0); (63,0,255); (64,0,127); (65,1,255);
    (66,0,127); (67,0,255); (68,144,255); (69,49,255); (70,0,255); (71,0,127); (72,1,255); (73,0,127); (74,0,255);
    (75,0,255); (76,0,0); (77,0,0); (78,0,0); (79,0,255); (80,0,127); (81,0,255); (82,0,127); (83,0,255);
    (84,144,255); (85,49,255); (86,0,255); (87,0,127); (88,1,255); (89,0,127); (90,0,255); (91,0,255); (92,0,0);
    (93,0,0); (94,0,0); (255,0,255) ].
Definition Reg_Store : list (Z * Z * Z) :=
  Reg_Store_config ++ Reg_Store_steps ++ Reg_Store_page1.

(** The functions a board may replace, declared weak; [weak_hooks] are the ones above. *)
Record z8_hooks := Z8Hooks { before_hook : M bus unit; after_hook : M bus unit; has_clock_chip : bool }.
Definition weak_hooks : z8_hooks := Z8Hooks iv_z8_init_before_hook iv_z8_init_after_hook iv_z8_has_clock_chip.

(** [fuel] as in the instance. *)
Definition iv_z8_init (board : z8_hooks) (fuel : nat) : M bus unit :=
  _ ← before_hook board;
  _ ← (if has_clock_chip board then
         _ ← @init_gt_clks bus (zynq_clock_bus fuel) 0x70 Reg_Store; mret tt
       else mret tt);
  after_hook board.
End init.
