(* ===== verification/ClkInitProps.v ===== *)
(** * Start-up of the clock generator: properties

    The bus is released on every path, transfers end, and the table reaches the chip. *)
From S2P Require Import Prelude ClkInit.

#[local] Open Scope list_scope.
#[local] Open Scope Z_scope.

(** ** The bus *)

(** Accesses that leave the control register alone. *)
Definition not_control (a : access) : Prop := match a with Wr addr _ => addr <> I2C_control | Rd _ => True end.
Abbreviation quiet := (Forall not_control).

(** The last write to the control register lets go of the bus. *)
Definition released (w : bus) : Prop :=
  exists w1 v l, w = w1 ++ Wr I2C_control v :: l /\ quiet l /\ Z.land v ZYNQ_I2C_CONTROL_HOLD = 0.

Lemma released_quiet w l : released w -> quiet l -> released (w ++ l).
Proof.
  intros (w1 & v & l1 & -> & Hl1 & Hv) Hl. exists w1, v, (l1 ++ l). rewrite <- (assoc_L (++)). split; [done|].
  split; [by apply Forall_app|done].
Qed.

Lemma clear_hold t : Z.land (u32 (Z.land t (not32 ZYNQ_I2C_CONTROL_HOLD))) ZYNQ_I2C_CONTROL_HOLD = 0.
Proof.
  unfold u32. rewrite <- Z.land_ones by lia. rewrite <- !Z.land_assoc.
  change (Z.land (not32 ZYNQ_I2C_CONTROL_HOLD) (Z.land (Z.ones 32) ZYNQ_I2C_CONTROL_HOLD)) with 0. apply Z.land_0_r.
Qed.

Section bus.
Context `{Soc}.

(** [m] always ends, after accesses [l] that satisfy [P] with its result. *)
Definition ends {A} (m : M bus A) (P : A -> bus -> Prop) : Prop := forall w, exists a l, m w = Some (a, w ++ l) /\ P a l.

Lemma ends_weaken {A} (m : M bus A) (P Q : A -> bus -> Prop) : ends m P -> (forall a l, P a l -> Q a l) -> ends m Q.
Proof. intros Hm Hpq w. destruct (Hm w) as (a & l & ? & ?). exists a, l. auto. Qed.
Lemma ends_ret {A} (a : A) (P : A -> bus -> Prop) : P a [] -> ends (mret a) P.
Proof. intros Hp w. exists a, []. by rewrite app_nil_r. Qed.
Lemma ends_bind {A B} (m : M bus A) (k : A -> M bus B) P Q :
  ends m P -> (forall a l, P a l -> ends (k a) (fun b l' => Q b (l ++ l'))) -> ends (m ≫= k) Q.
Proof.
  intros Hm Hk w. destruct (Hm w) as (a & l & Hr & Hp). destruct (Hk a l Hp (w ++ l)) as (b & l' & Hr' & Hq).
  exists b, (l ++ l'). rewrite (bind_run _ _ _ _ _ Hr), Hr', <- (assoc_L (++)). done.
Qed.

Lemma ends_readl addr : ends (readl addr) (fun v l => l = [Rd addr]).
Proof. intros w. eexists _, _. done. Qed.
Lemma ends_writel data addr : ends (writel data addr) (fun _ l => l = [Wr addr (u32 data)]).
Proof. intros w. eexists _, _. done. Qed.

(** Quiet operations of at most [n] accesses. *)
Definition quietly {A} (n : Z) (m : M bus A) : Prop := ends m (fun _ l => quiet l /\ zlen l <= n).

Lemma quietly_bind {A B} n1 n2 (m : M bus A) (k : A -> M bus B) :
  quietly n1 m -> (forall a, quietly n2 (k a)) -> quietly (n1 + n2) (m ≫= k).
Proof.
  intros Hm Hk. eapply ends_bind; [exact Hm|]. intros a l [Hl Hn]. eapply ends_weaken; [apply Hk|]. intros b l' [Hl' Hn'].
  split; [by apply Forall_app|zl].
Qed.
Lemma quietly_ret {A} (a : A) : quietly 0 (mret a).
Proof. by apply ends_ret. Qed.
Lemma quietly_weaken {A} n1 n2 (m : M bus A) : quietly n1 m -> n1 <= n2 -> quietly n2 m.
Proof. intros Hm Hn. eapply ends_weaken; [exact Hm|]. intros a l [? ?]. split; [done|lia]. Qed.
Lemma quietly_readl addr : quietly 1 (readl addr).
Proof. eapply ends_weaken; [apply ends_readl|]. intros _ l ->. by split; [repeat constructor|]. Qed.
Lemma quietly_writel data addr : addr <> I2C_control -> quietly 1 (writel data addr).
Proof. intros Ha. eapply ends_weaken; [apply ends_writel|]. intros _ l ->. by split; [repeat constructor|]. Qed.

Lemma wait_poll_ends n mask s : quietly (Z.of_nat n) (wait_poll n mask s).
Proof.
  revert s. induction n as [|n IH]; intros s; cbn [wait_poll]; [apply quietly_ret|].
  replace (Z.of_nat (S n)) with (1 + Z.of_nat n) by lia. apply quietly_bind; [apply quietly_readl|]. intros v.
  case_match; [eapply quietly_weaken; [apply quietly_ret|lia]|apply IH].
Qed.
Lemma wait_ends mask : quietly 101 (zynq_i2c_wait mask).
Proof.
  unfold zynq_i2c_wait. change 101 with (Z.of_nat 100 + (1 + 0)). apply quietly_bind; [apply wait_poll_ends|]. intros s.
  apply quietly_bind; [by apply quietly_writel|]. intros _. apply quietly_ret.
Qed.
Lemma send_addr_ends n addr : quietly (Z.of_nat n) (send_addr n addr).
Proof.
  induction n as [|n IH]; cbn [send_addr]; [apply quietly_ret|]. replace (Z.of_nat (S n)) with (1 + Z.of_nat n) by lia.
  apply quietly_bind; [by apply quietly_writel|]. by intros _.
Qed.

(** Accesses of at most [n] that end with the bus released. *)
Definition frees {A} (n : Z) (m : M bus A) : Prop := ends m (fun _ l => released l /\ zlen l <= n).

Lemma release_ends : frees 2 (jsm_clrbits_le32 I2C_control ZYNQ_I2C_CONTROL_HOLD).
Proof.
  intros w. eexists _, _. split; [unfold jsm_clrbits_le32, mbind, M_bind, readl, writel; rewrite <- (assoc_L (++)); reflexivity|].
  split; [|done]. eexists [_], _, []. split; [reflexivity|]. split; [constructor|]. apply clear_hold.
Qed.
Lemma control_ends mask : ends (jsm_setbits_le32 I2C_control mask) (fun _ l => zlen l <= 2).
Proof. intros w. eexists _, _. split; [unfold jsm_setbits_le32, mbind, M_bind, readl, writel; rewrite <- (assoc_L (++)); reflexivity|done]. Qed.
Lemma clear_ends mask : ends (jsm_clrbits_le32 I2C_control mask) (fun _ l => zlen l <= 2).
Proof. intros w. eexists _, _. split; [unfold jsm_clrbits_le32, mbind, M_bind, readl, writel; rewrite <- (assoc_L (++)); reflexivity|done]. Qed.

Lemma released_app l1 l2 : released l2 -> released (l1 ++ l2).
Proof. intros (w1 & v & l & -> & ?). exists (l1 ++ w1), v, l. by rewrite <- (assoc_L (++)). Qed.

(** The loop over the bytes: a timeout frees the bus. *)
Lemma send_loop_ends data :
  ends (send_loop data) (fun timeout l => (if (timeout : bool) then released l else quiet l) /\ zlen l <= 103 * zlen data + 2).
Proof.
  induction data as [|b data IH]; cbn [send_loop]; [by apply ends_ret|]. rewrite zlen_cons.
  eapply ends_bind; [by apply (quietly_writel b I2C_data)|]. intros [] l1 [Hl1 Hn1]. cbv beta.
  eapply ends_bind; [apply (quietly_readl I2C_transfer_size)|]. intros left l2 [Hl2 Hn2]. cbv beta.
  assert (Hrest : ends (send_loop data) (fun timeout l => (if (timeout : bool) then released (l1 ++ l2 ++ l) else quiet (l1 ++ l2 ++ l)) /\
    zlen (l1 ++ l2 ++ l) <= 2 + 103 * zlen data + 2)).
  { eapply ends_weaken; [exact IH|]. intros t l [Hl Hn]. split; [|zl].
    destruct t; [by do 2 apply released_app|by rewrite !Forall_app]. }
  case_match; [|eapply ends_weaken; [exact Hrest|]; intros t l [? ?]; split; [done|lia]].
  eapply ends_bind; [apply wait_ends|]. intros status l3 [Hl3 Hn3]. cbv beta. case_match.
  - eapply ends_bind; [apply release_ends|]. intros [] l4 [Hl4 Hn4]. apply ends_ret. rewrite app_nil_r.
    split; [by do 3 apply released_app|zl].
  - eapply ends_weaken; [exact IH|]. intros t l [Hl Hn]. split; [|zl].
    destruct t; [by do 3 apply released_app|by rewrite !Forall_app].
Qed.

(** C37: a transfer to the clock chip always ends, whatever the hardware answers, after a
    bounded number of register accesses, with success or a timeout, and with the bus
    released on every path. *)
Theorem i2c_write_ends dev addr alen data w :
  exists r l, zynq_i2c_write dev addr alen data w = Some (r, w ++ l) /\ (r = 0 \/ r = - ETIMEDOUT) /\
    released (w ++ l) /\ zlen l <= 300 + Z.of_nat alen + 103 * zlen data.
Proof.
  assert (Hall : ends (zynq_i2c_write dev addr alen data)
    (fun r l => (r = 0 \/ r = - ETIMEDOUT) /\ released l /\ zlen l <= 300 + Z.of_nat alen + 103 * zlen data)).
  2:{ destruct (Hall w) as (r & l & Hr & ? & ? & ?). exists r, l. split_and!; [done..|by apply released_app|done]. }
  unfold zynq_i2c_write. pose proof (zlen_nonneg data).
  eapply ends_bind; [apply control_ends|]. intros [] l1 Hl1. eapply ends_bind; [apply clear_ends|]. intros [] l2 Hl2.
  eapply ends_bind; [by apply (quietly_writel 0xFF I2C_interrupt_status)|]. intros [] l3 [_ Hl3].
  eapply ends_bind; [by apply (quietly_writel dev I2C_address)|]. intros [] l4 [_ Hl4].
  eapply (ends_bind _ _ (fun acked l => ((acked : bool) = false -> released l) /\ zlen l <= Z.of_nat alen + 103)).
  { destruct alen as [|n]; [apply ends_ret; split; [done|zl]|].
    eapply ends_bind; [apply (send_addr_ends (S n) addr)|]. intros [] l5 [_ Hl5]. eapply ends_bind; [apply wait_ends|]. intros s l6 [_ Hl6].
    case_match; [|apply ends_ret; rewrite !app_nil_r; split; [done|zl]].
    eapply ends_bind; [apply release_ends|]. intros [] l7 [Hl7 Hn7]. apply ends_ret. rewrite app_nil_r.
    split; [intros _; by do 2 apply released_app|zl]. }
  intros acked l5 [Hrel Hl5]. destruct acked; cbn [negb].
  2:{ apply ends_ret. rewrite app_nil_r. split_and!; [by right|do 4 apply released_app; by apply Hrel|zl]. }
  eapply ends_bind; [apply send_loop_ends|]. intros t l6 [Ht Hl6]. destruct t.
  { apply ends_ret. rewrite app_nil_r. split_and!; [by right|by do 5 apply released_app|zl]. }
  eapply ends_bind; [apply release_ends|]. intros [] l7 [Hl7 Hn7]. eapply ends_bind; [apply wait_ends|]. intros s l8 [Hl8 Hn8].
  case_match; apply ends_ret; rewrite app_nil_r; (split; [by (left + right)|]);
    (split; [do 6 apply released_app; by apply released_quiet|zl]).
Qed.

Section read.
Context (length : Z) (Hlen : 0 <= length <= 255).
Context (Hts : forall w, u32 (soc_value w I2C_transfer_size) <= length).

(** The FIFO is emptied without leaving the array. *)
Lemma drain_ends fuel : forall data, zlen data <= length -> length - zlen data < Z.of_nat fuel ->
  ends (drain_loop fuel length data) (fun data' l => quiet l /\ 1 <= zlen l /\ zlen data' <= length).
Proof using Hlen Hts.
  induction fuel as [|fuel IH]; intros data Hd Hf; [lia|]. cbn [drain_loop].
  intros w. set (left := u32 (soc_value w I2C_transfer_size)).
  assert (Hl : 0 <= left <= length) by (split; [apply Z.mod_pos_bound; lia|apply Hts]).
  rewrite (bind_run _ _ _ left (w ++ [Rd I2C_transfer_size])) by done. rewrite (u32_small (length - left)) by lia.
  destruct (Z.ltb_spec (zlen data) (length - left)).
  - set (b := u32 (soc_value (w ++ [Rd I2C_transfer_size]) I2C_data)).
    rewrite (bind_run _ _ _ b ((w ++ [Rd I2C_transfer_size]) ++ [Rd I2C_data])) by done.
    rewrite (proj2 (Z.ltb_lt (zlen data) length)) by lia.
    destruct (IH (data ++ [u8 b]) ltac:(zl) ltac:(zl) ((w ++ [Rd I2C_transfer_size]) ++ [Rd I2C_data])) as (data' & l & Hr & Hq & _ & Hz).
    exists data', ([Rd I2C_transfer_size; Rd I2C_data] ++ l). rewrite Hr, <- !(assoc_L (++)). split; [done|].
    split; [by repeat constructor|]. split; [zl|done].
  - eexists data, [Rd I2C_transfer_size]. split; [done|]. split; [by repeat constructor|]. done.
Qed.

Context (N : Z) (Hdone : forall w, N <= zlen w -> u32 (soc_value w I2C_transfer_size) = 0).

Lemma receive_ends fuel : forall data w, zlen data <= length -> N - zlen w < Z.of_nat fuel -> (0 < fuel)%nat ->
  exists r data' l, receive_loop fuel length data w = Some ((r, data'), w ++ l) /\
    (r = 0 \/ r = - ETIMEDOUT /\ released l) /\ zlen data' <= length.
Proof using Hlen Hts Hdone.
  induction fuel as [|fuel IH]; intros data w Hd Hf Hpos; [lia|]. cbn [receive_loop].
  destruct (wait_ends (Z.lor ZYNQ_I2C_INTERRUPT_COMP ZYNQ_I2C_INTERRUPT_DATA) w) as (s & l1 & H1 & _ & _). rewrite (bind_run _ _ _ _ _ H1).
  case_match.
  { destruct (release_ends (w ++ l1)) as (u & l2 & H2 & Hrel & _). rewrite (bind_run _ _ _ _ _ H2). rewrite <- (assoc_L (++)).
    eexists _, _, _. split; [reflexivity|]. split; [right; split; [done|by apply released_app]|done]. }
  destruct (drain_ends (S (S (Z.to_nat length))) data Hd ltac:(pose proof (zlen_nonneg data); lia) (w ++ l1)) as (data' & l2 & H2 & _ & Hl2 & Hz).
  rewrite (bind_run _ _ _ _ _ H2). set (w2 := (w ++ l1) ++ l2).
  set (left := u32 (soc_value w2 I2C_transfer_size)). rewrite (bind_run _ _ _ left (w2 ++ [Rd I2C_transfer_size])) by done.
  destruct (Z.eqb_spec left 0) as [E|E]; cbn [negb].
  - eexists _, _, (l1 ++ l2 ++ [Rd I2C_transfer_size]). unfold w2. rewrite <- !(assoc_L (++)). split; [reflexivity|]. split; [by left|done].
  - assert (Hw2 : zlen w2 < N).
    { destruct (Z.lt_ge_cases (zlen w2) N); [done|]. exfalso. by apply E, Hdone. }
    assert (Hlw : zlen w + 2 <= zlen (w2 ++ [Rd I2C_transfer_size])) by (unfold w2; zl).
    assert (Hlw2 : zlen (w2 ++ [Rd I2C_transfer_size]) = zlen w2 + 1) by zl.
    destruct (IH data' (w2 ++ [Rd I2C_transfer_size])) as (r & d & l & Hr & Hc & Hdl); [done|lia|lia|].
    exists r, d, (l1 ++ l2 ++ [Rd I2C_transfer_size] ++ l). rewrite Hr. split; [unfold w2; by rewrite <- !(assoc_L (++))|].
    split; [|done]. destruct Hc as [|[? ?]]; [by left|right]. split; [done|]. by do 3 apply released_app.
Qed.

(** a read from the clock chip ends when the controller does not report more bytes
    left than were asked for and, from some time on, none: with enough turns it returns
    success or a timeout, has stored no more bytes than there is room for, and has released
    the bus. *)
Theorem i2c_read_ends dev addr alen w :
  exists fuel0, forall fuel, (fuel0 <= fuel)%nat ->
    exists r data l, zynq_i2c_read fuel dev addr alen length w = Some ((r, data), w ++ l) /\
      (r = 0 \/ r = - ETIMEDOUT) /\ released (w ++ l) /\ zlen data <= length.
Proof using Hlen Hts Hdone.
  exists (S (Z.to_nat N)). intros fuel Hfuel.
  assert (Hall : ends (zynq_i2c_read fuel dev addr alen length)
    (fun rd l => (fst rd = 0 \/ fst rd = - ETIMEDOUT) /\ released l /\ zlen (snd rd) <= length)).
  2:{ destruct (Hall w) as ([r data] & l & Hr & ? & ? & ?). exists r, data, l. split_and!; [done..|by apply released_app|done]. }
  unfold zynq_i2c_read. rewrite (proj2 (Z.ltb_ge length 0)), (proj2 (Z.ltb_ge _ length)) by (unfold ZYNQ_I2C_TRANSFERT_SIZE_MAX; lia).
  cbn [orb]. eapply ends_bind; [apply control_ends|]. intros [] l1 _. eapply ends_bind; [apply clear_ends|]. intros [] l2 _.
  eapply ends_bind; [by apply (quietly_writel 0xFF I2C_interrupt_status)|]. intros [] l3 _.
  eapply (ends_bind _ _ (fun acked l => (acked : bool) = false -> released l)).
  { destruct alen as [|n]; [by apply ends_ret|].
    eapply ends_bind; [apply clear_ends|]. intros [] l4 _. eapply ends_bind; [by apply (quietly_writel dev I2C_address)|]. intros [] l5 _.
    eapply ends_bind; [apply (send_addr_ends (S n) addr)|]. intros [] l6 _. eapply ends_bind; [apply wait_ends|]. intros s l7 _.
    case_match; [|by apply ends_ret]. eapply ends_bind; [apply release_ends|]. intros [] l8 [Hl8 _]. apply ends_ret. intros _.
    rewrite app_nil_r. by do 4 apply released_app. }
  intros acked l4 Hrel. destruct acked; cbn [negb].
  2:{ apply ends_ret. rewrite app_nil_r. split_and!; [by right|do 3 apply released_app; by apply Hrel|cbn [snd]; zl]. }
  eapply ends_bind; [apply control_ends|]. intros [] l5 _. eapply ends_bind; [by apply (quietly_writel dev I2C_address)|]. intros [] l6 _.
  eapply ends_bind; [by apply (quietly_writel length I2C_transfer_size)|]. intros [] l7 _.
  eapply (ends_bind _ _ (fun rd l => (fst rd = 0 \/ fst rd = - ETIMEDOUT /\ released l) /\ zlen (snd rd) <= length)).
  { intros w'. destruct (receive_ends fuel [] w') as (r & d & l & Hr & Hc & Hz);
      [change (zlen (@nil Z)) with 0; lia|pose proof (zlen_nonneg w'); lia|lia|]. by exists (r, d), l. }
  intros [r d] l8 [Hc Hz]. cbn [fst snd] in *. destruct (Z.eqb_spec r 0) as [->|Hr]; cbn [negb].
  - eapply ends_bind; [apply release_ends|]. intros [] l9 [Hl9 _]. apply ends_ret. rewrite app_nil_r.
    split_and!; [by left|by do 8 apply released_app|done].
  - apply ends_ret. rewrite app_nil_r. destruct Hc as [|[? ?]]; [done|]. split_and!; [by right|by do 7 apply released_app|done].
Qed.
End read.
End bus.

(** ** The chip *)

(** The place of a register among the registers of the chip by page: the page is the low
    bit of register 255, which is on every page. *)
Definition reg_file : Type := Z * Z -> Z.
Definition place (f : reg_file) (r : Z) : Z * Z := if r =? 255 then (0, 255) else (Z.land (f (0, 255)) 1, r).

(** The registers the chip sets itself: the status, the results of its calibration and the
    reset bits.  Nothing is known of what they hold. *)
Definition volatile (r : Z) : bool := bool_decide (r ∈ [218; 235; 236; 237; 246]).

(** A machine whose transfers succeed, with the registers of each device: the others hold
    what was written last. *)
Class ClockChip (W : Type) `{ClockBus W} := {
  chip_reg : W -> Z -> reg_file;
  chip_bytes : forall w dev l, is_byte (chip_reg w dev l);
  start_law : forall w, exists w', clock_bus_init w = Some (tt, w') /\ forall d l, chip_reg w' d l = chip_reg w d l;
  read_law : forall w dev r, exists v w', ClockGenRead dev r w = Some ((0, Some v), w') /\ is_byte v /\
    (volatile r = false -> v = chip_reg w dev (place (chip_reg w dev) r)) /\
    forall d l, chip_reg w' d l = chip_reg w d l;
  write_law : forall w dev r v, is_byte v -> exists w', ClockGenWrite dev r v w = Some (0, w') /\
    (volatile r = false -> chip_reg w' dev (place (chip_reg w dev) r) = v) /\
    forall d l, ~ (d = dev /\ l = place (chip_reg w dev) r) -> chip_reg w' d l = chip_reg w d l
}.

Definition merge (v val mask : Z) : Z := Z.lor (Z.land v (255 - mask)) (Z.land val mask).

(** What one line of the table means for the registers. *)
Definition apply_line (f : reg_file) (line : Z * Z * Z) : reg_file :=
  let '(addr, val, mask) := line in
  fun l => if (mask =? 0) || negb (bool_decide (l = place f addr)) then f l else merge (f l) val mask.

Definition line_ok (line : Z * Z * Z) : Prop :=
  let '(addr, val, mask) := line in is_byte val /\ is_byte mask /\ (mask = 0 \/ volatile addr = false).
Definition line_okb (line : Z * Z * Z) : bool :=
  let '(addr, val, mask) := line in
  (0 <=? val) && (val <? 256) && (0 <=? mask) && (mask <? 256) && ((mask =? 0) || negb (volatile addr)).
Lemma table_okb table : forallb line_okb table = true -> Forall line_ok table.
Proof.
  intros Hall. apply Forall_forall. intros [[a v] m] Hx. rewrite forallb_forall in Hall. apply list_elem_of_In in Hx. specialize (Hall _ Hx).
  cbn [line_okb] in Hall. unfold line_ok, is_byte.
  destruct (m =? 0) eqn:E, (volatile a); cbn [orb negb] in Hall; bool_to_prop; split_and!; (done || lia || by (left; lia) || by right).
Qed.

Lemma byte_testbit z : 0 <= z -> (forall n, 8 <= n -> Z.testbit z n = false) -> is_byte z.
Proof.
  intros Hz Hb. unfold is_byte. split; [done|]. destruct (Z.eq_dec z 0) as [->|]; [lia|]. change 256 with (2 ^ 8).
  apply Z.log2_lt_pow2; [lia|]. destruct (Z.lt_ge_cases (Z.log2 z) 8) as [|Hge]; [done|]. exfalso.
  specialize (Hb _ Hge). rewrite Z.bit_log2 in Hb by lia. done.
Qed.
Lemma testbit_byte z n : is_byte z -> 8 <= n -> Z.testbit z n = false.
Proof.
  intros Hz Hn. destruct (Z.eq_dec z 0) as [->|]; [apply Z.bits_0|]. apply Z.bits_above_log2; unfold is_byte in Hz; [lia|].
  apply Z.lt_le_trans with 8; [|done]. apply Z.log2_lt_pow2; [lia|]. apply Hz.
Qed.
Lemma merge_byte v val mask : is_byte v -> is_byte val -> is_byte mask -> is_byte (merge v val mask).
Proof.
  intros Hv Hl Hm. apply byte_testbit.
  - unfold merge, is_byte in *. apply Z.lor_nonneg. split; apply Z.land_nonneg; lia.
  - intros n Hn. unfold merge. rewrite Z.lor_spec, !Z.land_spec, (testbit_byte v), (testbit_byte val) by done. done.
Qed.

Lemma apply_line_ext f g line l : (forall l, f l = g l) -> apply_line f line l = apply_line g line l.
Proof. intros Hfg. destruct line as [[addr val] mask]. unfold apply_line, place. by rewrite !Hfg. Qed.
Lemma foldl_line_ext table : forall f g l, (forall l, f l = g l) -> foldl apply_line f table l = foldl apply_line g table l.
Proof. induction table as [|line table IH]; intros f g l Hfg; [apply Hfg|]. apply IH. intros l'. by apply apply_line_ext. Qed.

Section chip.
Context {W : Type} `{ClockChip W}.

Lemma write_masked_run dev addr val mask w : is_byte val -> is_byte mask -> mask <> 0 -> volatile addr = false ->
  exists w', ClockGenWriteMasked dev addr val mask w = Some (0, w') /\
    (forall l, chip_reg w' dev l = apply_line (chip_reg w dev) (addr, val, mask) l) /\
    (forall d l, d <> dev -> chip_reg w' d l = chip_reg w d l).
Proof.
  intros Hv Hm Hne Hvol. destruct (read_law w dev addr) as (v & w1 & Hr & _ & Hval & H1). rewrite (Hval Hvol) in Hr.
  set (l0 := place (chip_reg w dev) addr) in *.
  destruct (write_law w1 dev addr (merge (chip_reg w dev l0) val mask)) as (w2 & Hw & H2 & H3); [by apply merge_byte; [apply chip_bytes|..]|].
  assert (Hl0 : place (chip_reg w1 dev) addr = l0) by (unfold l0, place; by rewrite !H1). rewrite Hl0 in H2, H3.
  exists w2. split; [|split].
  - unfold ClockGenWriteMasked, read_then. rewrite (bind_run _ _ _ _ _ Hr). cbn [Z.eqb negb]. by rewrite (lift_run _ _ _ _ eq_refl).
  - intros l. unfold apply_line. fold l0. rewrite (proj2 (Z.eqb_neq mask 0)) by done. cbn [orb].
    destruct (decide (l = l0)) as [->|Hl].
    + rewrite bool_decide_true by done. by apply H2.
    + rewrite bool_decide_false by done. cbn [negb]. rewrite H3; [apply H1|]. by intros [_ ?].
  - intros d l Hd. rewrite H3; [apply H1|]. by intros [? _].
Qed.

Lemma table_run dev table : Forall line_ok table -> forall w,
  exists w', table_loop dev table w = Some (0, w') /\
    (forall l, chip_reg w' dev l = foldl apply_line (chip_reg w dev) table l) /\
    (forall d l, d <> dev -> chip_reg w' d l = chip_reg w d l).
Proof.
  induction 1 as [|[[addr val] mask] table (Hv & Hm & Hst) _ IH]; intros w; [by exists w|]. cbn [table_loop foldl].
  destruct (Z.eqb_spec mask 0) as [->|Hne]; cbn [negb].
  - destruct (IH w) as (w' & Hr & H1 & H2). exists w'. split; [done|]. split; [|done]. intros l. rewrite H1.
    by apply foldl_line_ext.
  - destruct Hst as [|Hst]; [done|]. destruct (write_masked_run dev addr val mask w Hv Hm Hne Hst) as (w1 & Hr1 & H1 & Ho1).
    destruct (IH w1) as (w2 & Hr2 & H2 & Ho2). exists w2. rewrite (bind_run _ _ _ _ _ Hr1). cbn [Z.eqb negb]. split; [done|]. split.
    + intros l. rewrite H2. apply foldl_line_ext. intros l'. by rewrite H1.
    + intros d l Hd. by rewrite Ho2, Ho1.
Qed.

(** C19: programming the chip from the table succeeds and leaves in every register, on both
    pages, what the lines of the table say, applied in their order under their masks; no
    other device changes, and page 0 is selected for what follows. *)
Theorem clock_table_applied dev w :
  exists w', table_loop dev Reg_Store w = Some (0, w') /\
    (forall l, chip_reg w' dev l = foldl apply_line (chip_reg w dev) Reg_Store l) /\
    (forall d l, d <> dev -> chip_reg w' d l = chip_reg w d l) /\
    (forall r, r <> 255 -> place (chip_reg w' dev) r = (0, r)).
Proof.
  destruct (table_run dev Reg_Store) with (w := w) as (w' & Hr & H1 & H2).
  { apply table_okb. vm_compute. reflexivity. }
  exists w'. split_and!; [done..|]. intros r Hr255. unfold place. rewrite (proj2 (Z.eqb_neq r 255)) by done. f_equal. rewrite H1.
  assert (Hsplit : exists table, Reg_Store = table ++ [(255, 0, 255)]).
  { exists (take 351 Reg_Store). vm_compute. reflexivity. }
  destruct Hsplit as [table ->]. rewrite foldl_app. cbn [foldl]. unfold apply_line at 1, place at 1. cbn [Z.eqb Pos.eqb orb].
  rewrite bool_decide_true by done. cbn [negb]. unfold merge. by rewrite Z.land_0_r.
Qed.
End chip.

(** The loop of a read ends when the controller has no byte left to receive, tested
    after the FIFO was emptied: a byte that arrives in between is never stored, and the
    read succeeds without it. *)
Theorem i2c_read_misses_byte :
  exists soc : Soc, (forall w, u32 (soc w I2C_transfer_size) <= 1) /\
    exists w', @zynq_i2c_read soc 1 0x70 218 1 1 [] = Some ((0, []), w').
Proof.
  exists (fun w a => if a =? I2C_transfer_size
                     then (if existsb (fun x => match x with Rd a => a =? I2C_transfer_size | _ => false end) w then 0 else 1) else 1).
  split; [intros w; cbn; by destruct (existsb _ w)|]. eexists. vm_compute. reflexivity.
Qed.

(** ** Concrete inputs *)

(** A controller that is done at once. *)
Definition sample_soc : Soc := fun _ a => if a =? I2C_transfer_size then 0 else 3.

Lemma i2c_read_ends_witness :
  exists fuel0, forall fuel, (fuel0 <= fuel)%nat ->
    exists r data l, @zynq_i2c_read sample_soc fuel 0x70 218 1 1 [] = Some ((r, data), l) /\
      (r = 0 \/ r = - ETIMEDOUT) /\ released l /\ zlen data <= 1.
Proof. exact (@i2c_read_ends sample_soc 1 ltac:(done) ltac:(done) 0 ltac:(done) 0x70 218 1%nat []). Defined.

(** Devices that are nothing but registers. *)
Definition registers : Type := Z -> reg_file.
#[export] Instance registers_bus : ClockBus registers := {
  clock_bus_init := mret tt;
  ClockGenRead := fun dev r w => Some ((0, Some (u8 (w dev (place (fun l => u8 (w dev l)) r)))), w);
  ClockGenWrite := fun dev r v w =>
    Some (0, fun d l => if decide (d = dev /\ l = place (fun l => u8 (w dev l)) r) then v else w d l)
}.
#[export] Instance registers_chip : ClockChip registers.
Proof.
  refine {| chip_reg := fun w dev l => u8 (w dev l) |}.
  - intros. apply u8_byte.
  - intros w. by eexists.
  - intros w dev r. eexists _, _. split; [reflexivity|]. split; [apply u8_byte|done].
  - intros w dev r v Hv. eexists. split; [reflexivity|]. cbn. split.
    + intros _. rewrite decide_True by done. by apply u8_id.
    + intros d l Hdl. by rewrite decide_False.
Defined.

Lemma clock_table_applied_witness :
  exists w', @table_loop registers _ 0x70 Reg_Store (fun _ _ => 1) = Some (0, w') /\ place (chip_reg w' 0x70) 45 = (0, 45).
Proof.
  destruct (clock_table_applied 0x70 (fun _ _ => 1 : Z)) as (w' & Hr & _ & _ & Hp). exists w'. split; [exact Hr|]. by apply Hp.
Defined.
