(* ===== verification/ClkTables.v ===== *)
(** * The clock tables of the first-stage loader
    ([recipes-bsp/fsbl-firmware/files/clkinit_*.h])

    Each header is a table for the Si5338 clock generator and is named after the frequencies
    of its four outputs.  [iv_z8_init.c] includes one of them ([ClkInit.Reg_Store]); the
    others replace it by a change of that line.  Here they are read back by the chip's
    register map, and the whole start of the generator is shown to leave it with the
    frequencies of the table, with its outputs on exactly when its PLL locked. *)
From S2P Require Import Prelude ClkInit ClkInitProps.

#[local] Open Scope list_scope.
#[local] Open Scope Z_scope.

(** ** The tables

    An array longer than its initialiser ([NUM_REGS_MAX] elements) ends in zeros. *)

(** [clkinit_108_125_26_125.h]: registers 0 to 122 of page 0. *)
Definition clkinit_108_125_26_125_config : list (Z * Z * Z) :=
  [ (0,0,0); (1,0,0); (2,0,0); (3,0,0); (4,0,0); (5,0,0); (6,8,29); (7,0,0); (8,112,0); (9,15,0); (10,0,0);
    (11,0,0); (12,0,0); (13,0,0); (14,0,0); (15,0,0); (16,0,0); (17,0,0); (18,0,0); (19,0,0); (20,0,0); (21,0,0);
    (22,0,0); (23,0,0); (24,0,0); (25,0,0); (26,0,0); (27,112,128); (28,3,255); (29,66,255); (30,176,255);
    (31,192,255); (32,192,255); (33,192,255); (34,192,255); (35,170,255); (36,6,31); (37,6,31); (38,6,31);
    (39,6,31); (40,132,255); (41,16,127); (42,36,63); (43,0,0); (44,0,0); (45,0,255); (46,0,255); (47,20,63);
    (48,29,255); (49,0,255); (50,194,255); (51,7,255); (52,16,255); (53,0,255); (54,11,255); (55,0,255);
    (56,0,255); (57,0,255); (58,0,255); (59,1,255); (60,0,255); (61,0,255); (62,0,63); (63,16,255); (64,59,255);
    (65,9,255); (66,196,255); (67,0,255); (68,0,255); (69,0,255); (70,125,255); (71,0,255); (72,0,255); (73,0,63);
    (74,16,255); (75,0,255); (76,52,255); (77,0,255); (78,0,255); (79,0,255); (80,0,255); (81,1,255); (82,0,255);
    (83,0,255); (84,0,63); (85,16,255); (86,59,255); (87,9,255); (88,196,255); (89,0,255); (90,0,255); (91,0,255);
    (92,125,255); (93,0,255); (94,0,255); (95,0,63); (96,16,0); (97,241,255); (98,33,255); (99,124,255);
    (100,2,255); (101,0,255); (102,0,255); (103,113,255); (104,2,255); (105,0,255); (106,128,191); (107,0,255);
    (108,0,255); (109,0,255); (110,64,255); (111,0,255); (112,0,255); (113,0,255); (114,64,255); (115,0,255);
    (116,128,255); (117,0,255); (118,64,255); (119,0,255); (120,0,255); (121,0,255); (122,64,255) ].
(** [clkinit_108_125_26_125.h]: registers 123 to 254 of page 0. *)
Definition clkinit_108_125_26_125_steps : list (Z * Z * Z) :=
  [ (123,0,255); (124,0,255); (125,0,255); (126,0,255); (127,0,255); (128,0,255); (129,0,15); (130,0,15);
    (131,0,255); (132,0,255); (133,0,255); (134,0,255); (135,0,255); (136,0,255); (137,0,255); (138,0,255);
    (139,0,255); (140,0,255); (141,0,255); (142,0,255); (143,0,255); (144,0,255); (145,0,0); (146,255,0);
    (147,0,0); (148,0,0); (149,0,0); (150,0,0); (151,0,0); (152,0,255); (153,0,255); (154,0,255); (155,0,255);
    (156,0,255); (157,0,255); (158,0,15); (159,0,15); (160,0,255); (161,0,255); (162,0,255); (163,0,255);
    (164,0,255); (165,0,255); (166,0,255); (167,0,255); (168,0,255); (169,0,255); (170,0,255); (171,0,255);
    (172,0,255); (173,0,255); (174,0,255); (175,0,255); (176,0,255); (177,0,255); (178,0,255); (179,0,255);
    (180,0,255); (181,0,15); (182,0,255); (183,0,255); (184,0,255); (185,0,255); (186,0,255); (187,0,255);
    (188,0,255); (189,0,255); (190,0,255); (191,0,255); (192,0,255); (193,0,255); (194,0,255); (195,0,255);
    (196,0,255); (197,0,255); (198,0,255); (199,0,255); (200,0,255); (201,0,255); (202,0,255); (203,0,15);
    (204,0,255); (205,0,255); (206,0,255); (207,0,255); (208,0,255); (209,0,255); (210,0,255); (211,0,255);
    (212,0,255); (213,0,255); (214,0,255); (215,0,255); (216,0,255); (217,0,255); (218,0,0); (219,0,0); (220,0,0);
    (221,13,0); (222,0,0); (223,0,0); (224,244,0); (225,240,0); (226,0,0); (227,0,0); (228,0,0); (229,0,0);
    (231,0,0); (232,0,0); (233,0,0); (234,0,0); (235,0,0); (236,0,0); (237,0,0); (238,20,0); (239,0,0); (240,0,0);
    (242,2,2); (243,240,0); (244,0,0); (245,0,0); (247,0,0); (248,0,0); (249,168,0); (250,0,0); (251,132,0);
    (252,0,0); (253,0,0); (254,0,0) ].
(** [clkinit_108_125_26_125.h]: page 1, and back to page 0. *)
Definition clkinit_108_125_26_125_page1 : list (Z * Z * Z) :=
  [ (255,1,255); (0,0,0); (1,0,0); (2,0,0); (3,0,0); (4,0,0); (5,0,0); (6,0,0); (7,0,0); (8,0,0); (9,0,0);
    (10,0,0); (11,0,0); (12,0,0); (13,0,0); (14,0,0); (15,0,0); (16,0,0); (17,1,0); (18,0,0); (19,0,0);
    (20,144,0); (21,49,0); (22,0,0); (23,0,0); (24,1,0); (25,0,0); (26,0,0); (27,0,0); (28,0,0); (29,0,0);
    (30,0,0); (31,0,255); (32,0,255); (33,1,255); (34,0,255); (35,0,255); (36,144,255); (37,49,255); (38,0,255);
    (39,0,255); (40,1,255); (41,0,255); (42,0,255); (43,0,15); (44,0,0); (45,0,0); (46,0,0); (47,0,255);
    (48,0,255); (49,1,255); (50,0,255); (51,0,255); (52,144,255); (53,49,255); (54,0,255); (55,0,255); (56,1,255);
    (57,0,255); (58,0,255); (59,0,15); (60,0,0); (61,0,0); (62,0,0); (63,0,255); (64,0,255); (65,1,255);
    (66,0,255); (67,0,255); (68,144,255); (69,49,255); (70,0,255); (71,0,255); (72,1,255); (73,0,255); (74,0,255);
    (75,0,15); (76,0,0); (77,0,0); (78,0,0); (79,0,255); (80,0,255); (81,0,255); (82,0,255); (83,0,255);
    (84,144,255); (85,49,255); (86,0,255); (87,0,255); (88,1,255); (89,0,255); (90,0,255); (91,0,15); (92,0,0);
    (93,0,0); (94,0,0); (255,0,255) ].
Definition clkinit_108_125_26_125 : list (Z * Z * Z) :=
  clkinit_108_125_26_125_config ++ clkinit_108_125_26_125_steps ++ clkinit_108_125_26_125_page1 ++ replicate 1 (0,0,0).

(** [clkinit_26_27_125_125.h]: registers 0 to 122 of page 0. *)
Definition clkinit_26_27_125_125_config : list (Z * Z * Z) :=
  [ (0,0,0); (1,0,0); (2,0,0); (3,0,0); (4,0,0); (5,0,0); (6,8,29); (7,0,0); (8,112,0); (9,15,0); (10,0,0);
    (11,0,0); (12,0,0); (13,0,0); (14,0,0); (15,0,0); (16,0,0); (17,0,0); (18,0,0); (19,0,0); (20,0,0); (21,0,0);
    (22,0,0); (23,0,0); (24,0,0); (25,0,0); (26,0,0); (27,112,128); (28,3,255); (29,66,255); (30,176,255);
    (31,192,255); (32,192,255); (33,192,255); (34,192,255); (35,170,255); (36,6,31); (37,6,31); (38,6,31);
    (39,6,31); (40,132,255); (41,16,127); (42,36,63); (43,0,0); (44,0,0); (45,0,255); (46,0,255); (47,20,63);
    (48,29,255); (49,0,255); (50,194,255); (51,7,255); (52,16,255); (53,0,255); (54,52,255); (55,0,255);
    (56,0,255); (57,0,255); (58,0,255); (59,1,255); (60,0,255); (61,0,255); (62,0,63); (63,16,255); (64,0,255);
    (65,50,255); (66,0,255); (67,0,255); (68,0,255); (69,0,255); (70,1,255); (71,0,255); (72,0,255); (73,0,63);
    (74,16,255); (75,59,255); (76,9,255); (77,196,255); (78,0,255); (79,0,255); (80,0,255); (81,125,255);
    (82,0,255); (83,0,255); (84,0,63); (85,16,255); (86,59,255); (87,9,255); (88,196,255); (89,0,255); (90,0,255);
    (91,0,255); (92,125,255); (93,0,255); (94,0,255); (95,0,63); (96,16,0); (97,241,255); (98,33,255);
    (99,124,255); (100,2,255); (101,0,255); (102,0,255); (103,113,255); (104,2,255); (105,0,255); (106,128,191);
    (107,0,255); (108,0,255); (109,0,255); (110,64,255); (111,0,255); (112,0,255); (113,0,255); (114,64,255);
    (115,0,255); (116,128,255); (117,0,255); (118,64,255); (119,0,255); (120,0,255); (121,0,255); (122,64,255) ].
(** [clkinit_26_27_125_125.h]: registers 123 to 254 of page 0. *)
Definition clkinit_26_27_125_125_steps : list (Z * Z * Z) :=
  [ (123,0,255); (124,0,255); (125,0,255); (126,0,255); (127,0,255); (128,0,255); (129,0,15); (130,0,15);
    (131,0,255); (132,0,255); (133,0,255); (134,0,255); (135,0,255); (136,0,255); (137,0,255); (138,0,255);
    (139,0,255); (140,0,255); (141,0,255); (142,0,255); (143,0,255); (144,0,255); (145,0,0); (146,255,0);
    (147,0,0); (148,0,0); (149,0,0); (150,0,0); (151,0,0); (152,0,255); (153,0,255); (154,0,255); (155,0,255);
    (156,0,255); (157,0,255); (158,0,15); (159,0,15); (160,0,255); (161,0,255); (162,0,255); (163,0,255);
    (164,0,255); (165,0,255); (166,0,255); (167,0,255); (168,0,255); (169,0,255); (170,0,255); (171,0,255);
    (172,0,255); (173,0,255); (174,0,255); (175,0,255); (176,0,255); (177,0,255); (178,0,255); (179,0,255);
    (180,0,255); (181,0,15); (182,0,255); (183,0,255); (184,0,255); (185,0,255); (186,0,255); (187,0,255);
    (188,0,255); (189,0,255); (190,0,255); (191,0,255); (192,0,255); (193,0,255); (194,0,255); (195,0,255);
    (196,0,255); (197,0,255); (198,0,255); (199,0,255); (200,0,255); (201,0,255); (202,0,255); (203,0,15);
    (204,0,255); (205,0,255); (206,0,255); (207,0,255); (208,0,255); (209,0,255); (210,0,255); (211,0,255);
    (212,0,255); (213,0,255); (214,0,255); (215,0,255); (216,0,255); (217,0,255); (218,0,0); (219,0,0); (220,0,0);
    (221,13,0); (222,0,0); (223,0,0); (224,244,0); (225,240,0); (226,0,0); (227,0,0); (228,0,0); (229,0,0);
    (231,0,0); (232,0,0); (233,0,0); (234,0,0); (235,0,0); (236,0,0); (237,0,0); (238,20,0); (239,0,0); (240,0,0);
    (242,2,2); (243,240,0); (244,0,0); (245,0,0); (247,0,0); (248,0,0); (249,168,0); (250,0,0); (251,132,0);
    (252,0,0); (253,0,0); (254,0,0) ].
(** [clkinit_26_27_125_125.h]: page 1, and back to page 0. *)
Definition clkinit_26_27_125_125_page1 : list (Z * Z * Z) :=
  [ (255,1,255); (0,0,0); (1,0,0); (2,0,0); (3,0,0); (4,0,0); (5,0,0); (6,0,0); (7,0,0); (8,0,0); (9,0,0);
    (10,0,0); (11,0,0); (12,0,0); (13,0,0); (14,0,0); (15,0,0); (16,0,0); (17,1,0); (18,0,0); (19,0,0);
    (20,144,0); (21,49,0); (22,0,0); (23,0,0); (24,1,0); (25,0,0); (26,0,0); (27,0,0); (28,0,0); (29,0,0);
    (30,0,0); (31,0,255); (32,0,255); (33,1,255); (34,0,255); (35,0,255); (36,144,255); (37,49,255); (38,0,255);
    (39,0,255); (40,1,255); (41,0,255); (42,0,255); (43,0,15); (44,0,0); (45,0,0); (46,0,0); (47,0,255);
    (48,0,255); (49,1,255); (50,0,255); (51,0,255); (52,144,255); (53,49,255); (54,0,255); (55,0,255); (56,1,255);
    (57,0,255); (58,0,255); (59,0,15); (60,0,0); (61,0,0); (62,0,0); (63,0,255); (64,0,255); (65,1,255);
    (66,0,255); (67,0,255); (68,144,255); (69,49,255); (70,0,255); (71,0,255); (72,1,255); (73,0,255); (74,0,255);
    (75,0,15); (76,0,0); (77,0,0); (78,0,0); (79,0,255); (80,0,255); (81,0,255); (82,0,255); (83,0,255);
    (84,144,255); (85,49,255); (86,0,255); (87,0,255); (88,1,255); (89,0,255); (90,0,255); (91,0,15); (92,0,0);
    (93,0,0); (94,0,0); (255,0,255) ].
Definition clkinit_26_27_125_125 : list (Z * Z * Z) :=
  clkinit_26_27_125_125_config ++ clkinit_26_27_125_125_steps ++ clkinit_26_27_125_125_page1 ++ replicate 1 (0,0,0).

(** [clkinit_27_125_26_125.h]: registers 0 to 122 of page 0. *)
Definition clkinit_27_125_26_125_config : list (Z * Z * Z) :=
  [ (0,0,0); (1,0,0); (2,0,0); (3,0,0); (4,0,0); (5,0,0); (6,8,29); (7,0,0); (8,112,0); (9,15,0); (10,0,0);
    (11,0,0); (12,0,0); (13,0,0); (14,0,0); (15,0,0); (16,0,0); (17,0,0); (18,0,0); (19,0,0); (20,0,0); (21,0,0);
    (22,0,0); (23,0,0); (24,0,0); (25,0,0); (26,0,0); (27,112,128); (28,3,255); (29,66,255); (30,176,255);
    (31,192,255); (32,192,255); (33,192,255); (34,192,255); (35,170,255); (36,6,31); (37,6,31); (38,6,31);
    (39,6,31); (40,132,255); (41,16,127); (42,36,63); (43,0,0); (44,0,0); (45,0,255); (46,0,255); (47,20,63);
    (48,29,255); (49,0,255); (50,194,255); (51,7,255); (52,16,255); (53,0,255); (54,50,255); (55,0,255);
    (56,0,255); (57,0,255); (58,0,255); (59,1,255); (60,0,255); (61,0,255); (62,0,63); (63,16,255); (64,59,255);
    (65,9,255); (66,196,255); (67,0,255); (68,0,255); (69,0,255); (70,125,255); (71,0,255); (72,0,255); (73,0,63);
    (74,16,255); (75,0,255); (76,52,255); (77,0,255); (78,0,255); (79,0,255); (80,0,255); (81,1,255); (82,0,255);
    (83,0,255); (84,0,63); (85,16,255); (86,59,255); (87,9,255); (88,196,255); (89,0,255); (90,0,255); (91,0,255);
    (92,125,255); (93,0,255); (94,0,255); (95,0,63); (96,16,0); (97,241,255); (98,33,255); (99,124,255);
    (100,2,255); (101,0,255); (102,0,255); (103,113,255); (104,2,255); (105,0,255); (106,128,191); (107,0,255);
    (108,0,255); (109,0,255); (110,64,255); (111,0,255); (112,0,255); (113,0,255); (114,64,255); (115,0,255);
    (116,128,255); (117,0,255); (118,64,255); (119,0,255); (120,0,255); (121,0,255); (122,64,255) ].
(** [clkinit_27_125_26_125.h]: registers 123 to 254 of page 0. *)
Definition clkinit_27_125_26_125_steps : list (Z * Z * Z) :=
  [ (123,0,255); (124,0,255); (125,0,255); (126,0,255); (127,0,255); (128,0,255); (129,0,15); (130,0,15);
    (131,0,255); (132,0,255); (133,0,255); (134,0,255); (135,0,255); (136,0,255); (137,0,255); (138,0,255);
    (139,0,255); (140,0,255); (141,0,255); (142,0,255); (143,0,255); (144,0,255); (145,0,0); (146,255,0);
    (147,0,0); (148,0,0); (149,0,0); (150,0,0); (151,0,0); (152,0,255); (153,0,255); (154,0,255); (155,0,255);
    (156,0,255); (157,0,255); (158,0,15); (159,0,15); (160,0,255); (161,0,255); (162,0,255); (163,0,255);
    (164,0,255); (165,0,255); (166,0,255); (167,0,255); (168,0,255); (169,0,255); (170,0,255); (171,0,255);
    (172,0,255); (173,0,255); (174,0,255); (175,0,255); (176,0,255); (177,0,255); (178,0,255); (179,0,255);
    (180,0,255); (181,0,15); (182,0,255); (183,0,255); (184,0,255); (185,0,255); (186,0,255); (187,0,255);
    (188,0,255); (189,0,255); (190,0,255); (191,0,255); (192,0,255); (193,0,255); (194,0,255); (195,0,255);
    (196,0,255); (197,0,255); (198,0,255); (199,0,255); (200,0,255); (201,0,255); (202,0,255); (203,0,15);
    (204,0,255); (205,0,255); (206,0,255); (207,0,255); (208,0,255); (209,0,255); (210,0,255); (211,0,255);
    (212,0,255); (213,0,255); (214,0,255); (215,0,255); (216,0,255); (217,0,255); (218,0,0); (219,0,0); (220,0,0);
    (221,13,0); (222,0,0); (223,0,0); (224,244,0); (225,240,0); (226,0,0); (227,0,0); (228,0,0); (229,0,0);
    (231,0,0); (232,0,0); (233,0,0); (234,0,0); (235,0,0); (236,0,0); (237,0,0); (238,20,0); (239,0,0); (240,0,0);
    (242,2,2); (243,240,0); (244,0,0); (245,0,0); (247,0,0); (248,0,0); (249,168,0); (250,0,0); (251,132,0);
    (252,0,0); (253,0,0); (254,0,0) ].
(** [clkinit_27_125_26_125.h]: page 1, and back to page 0. *)
Definition clkinit_27_125_26_125_page1 : list (Z * Z * Z) :=
  [ (255,1,255); (0,0,0); (1,0,0); (2,0,0); (3,0,0); (4,0,0); (5,0,0); (6,0,0); (7,0,0); (8,0,0); (9,0,0);
    (10,0,0); (11,0,0); (12,0,0); (13,0,0); (14,0,0); (15,0,0); (16,0,0); (17,1,0); (18,0,0); (19,0,0);
    (20,144,0); (21,49,0); (22,0,0); (23,0,0); (24,1,0); (25,0,0); (26,0,0); (27,0,0); (28,0,0); (29,0,0);
    (30,0,0); (31,0,255); (32,0,255); (33,1,255); (34,0,255); (35,0,255); (36,144,255); (37,49,255); (38,0,255);
    (39,0,255); (40,1,255); (41,0,255); (42,0,255); (43,0,15); (44,0,0); (45,0,0); (46,0,0); (47,0,255);
    (48,0,255); (49,1,255); (50,0,255); (51,0,255); (52,144,255); (53,49,255); (54,0,255); (55,0,255); (56,1,255);
    (57,0,255); (58,0,255); (59,0,15); (60,0,0); (61,0,0); (62,0,0); (63,0,255); (64,0,255); (65,1,255);
    (66,0,255); (67,0,255); (68,144,255); (69,49,255); (70,0,255); (71,0,255); (72,1,255); (73,0,255); (74,0,255);
    (75,0,15); (76,0,0); (77,0,0); (78,0,0); (79,0,255); (80,0,255); (81,0,255); (82,0,255); (83,0,255);
    (84,144,255); (85,49,255); (86,0,255); (87,0,255); (88,1,255); (89,0,255); (90,0,255); (91,0,15); (92,0,0);
    (93,0,0); (94,0,0); (255,0,255) ].
Definition clkinit_27_125_26_125 : list (Z * Z * Z) :=
  clkinit_27_125_26_125_config ++ clkinit_27_125_26_125_steps ++ clkinit_27_125_26_125_page1 ++ replicate 1 (0,0,0).

(** [clkinit_27_26_125_125.h]: registers 0 to 122 of page 0. *)
Definition clkinit_27_26_125_125_config : list (Z * Z * Z) :=
  [ (0,0,0); (1,0,0); (2,0,0); (3,0,0); (4,0,0); (5,0,0); (6,8,29); (7,0,0); (8,112,0); (9,15,0); (10,0,0);
    (11,0,0); (12,0,0); (13,0,0); (14,0,0); (15,0,0); (16,0,0); (17,0,0); (18,0,0); (19,0,0); (20,0,0); (21,0,0);
    (22,0,0); (23,0,0); (24,0,0); (25,0,0); (26,0,0); (27,112,128); (28,3,255); (29,66,255); (30,176,255);
    (31,192,255); (32,192,255); (33,192,255); (34,192,255); (35,170,255); (36,6,31); (37,6,31); (38,6,31);
    (39,6,31); (40,132,255); (41,16,127); (42,36,63); (43,0,0); (44,0,0); (45,0,255); (46,0,255); (47,20,63);
    (48,29,255); (49,0,255); (50,194,255); (51,7,255); (52,16,255); (53,0,255); (54,50,255); (55,0,255);
    (56,0,255); (57,0,255); (58,0,255); (59,1,255); (60,0,255); (61,0,255); (62,0,63); (63,16,255); (64,0,255);
    (65,52,255); (66,0,255); (67,0,255); (68,0,255); (69,0,255); (70,1,255); (71,0,255); (72,0,255); (73,0,63);
    (74,16,255); (75,59,255); (76,9,255); (77,196,255); (78,0,255); (79,0,255); (80,0,255); (81,125,255);
    (82,0,255); (83,0,255); (84,0,63); (85,16,255); (86,59,255); (87,9,255); (88,196,255); (89,0,255); (90,0,255);
    (91,0,255); (92,125,255); (93,0,255); (94,0,255); (95,0,63); (96,16,0); (97,241,255); (98,33,255);
    (99,124,255); (100,2,255); (101,0,255); (102,0,255); (103,113,255); (104,2,255); (105,0,255); (106,128,191);
    (107,0,255); (108,0,255); (109,0,255); (110,64,255); (111,0,255); (112,0,255); (113,0,255); (114,64,255);
    (115,0,255); (116,128,255); (117,0,255); (118,64,255); (119,0,255); (120,0,255); (121,0,255); (122,64,255) ].
(** [clkinit_27_26_125_125.h]: registers 123 to 254 of page 0. *)
Definition clkinit_27_26_125_125_steps : list (Z * Z * Z) :=
  [ (123,0,255); (124,0,255); (125,0,255); (126,0,255); (127,0,255); (128,0,255); (129,0,15); (130,0,15);
    (131,0,255); (132,0,255); (133,0,255); (134,0,255); (135,0,255); (136,0,255); (137,0,255); (138,0,255);
    (139,0,255); (140,0,255); (141,0,255); (142,0,255); (143,0,255); (144,0,255); (145,0,0); (146,255,0);
    (147,0,0); (148,0,0); (149,0,0); (150,0,0); (151,0,0); (152,0,255); (153,0,255); (154,0,255); (155,0,255);
    (156,0,255); (157,0,255); (158,0,15); (159,0,15); (160,0,255); (161,0,255); (162,0,255); (163,0,255);
    (164,0,255); (165,0,255); (166,0,255); (167,0,255); (168,0,255); (169,0,255); (170,0,255); (171,0,255);
    (172,0,255); (173,0,255); (174,0,255); (175,0,255); (176,0,255); (177,0,255); (178,0,255); (179,0,255);
    (180,0,255); (181,0,15); (182,0,255); (183,0,255); (184,0,255); (185,0,255); (186,0,255); (187,0,255);
    (188,0,255); (189,0,255); (190,0,255); (191,0,255); (192,0,255); (193,0,255); (194,0,255); (195,0,255);
    (196,0,255); (197,0,255); (198,0,255); (199,0,255); (200,0,255); (201,0,255); (202,0,255); (203,0,15);
    (204,0,255); (205,0,255); (206,0,255); (207,0,255); (208,0,255); (209,0,255); (210,0,255); (211,0,255);
    (212,0,255); (213,0,255); (214,0,255); (215,0,255); (216,0,255); (217,0,255); (218,0,0); (219,0,0); (220,0,0);
    (221,13,0); (222,0,0); (223,0,0); (224,244,0); (225,240,0); (226,0,0); (227,0,0); (228,0,0); (229,0,0);
    (231,0,0); (232,0,0); (233,0,0); (234,0,0); (235,0,0); (236,0,0); (237,0,0); (238,20,0); (239,0,0); (240,0,0);
    (242,2,2); (243,240,0); (244,0,0); (245,0,0); (247,0,0); (248,0,0); (249,168,0); (250,0,0); (251,132,0);
    (252,0,0); (253,0,0); (254,0,0) ].
(** [clkinit_27_26_125_125.h]: page 1, and back to page 0. *)
Definition clkinit_27_26_125_125_page1 : list (Z * Z * Z) :=
  [ (255,1,255); (0,0,0); (1,0,0); (2,0,0); (3,0,0); (4,0,0); (5,0,0); (6,0,0); (7,0,0); (8,0,0); (9,0,0);
    (10,0,0); (11,0,0); (12,0,0); (13,0,0); (14,0,0); (15,0,0); (16,0,0); (17,1,0); (18,0,0); (19,0,0);
    (20,144,0); (21,49,0); (22,0,0); (23,0,0); (24,1,0); (25,0,0); (26,0,0); (27,0,0); (28,0,0); (29,0,0);
    (30,0,0); (31,0,255); (32,0,255); (33,1,255); (34,0,255); (35,0,255); (36,144,255); (37,49,255); (38,0,255);
    (39,0,255); (40,1,255); (41,0,255); (42,0,255); (43,0,15); (44,0,0); (45,0,0); (46,0,0); (47,0,255);
    (48,0,255); (49,1,255); (50,0,255); (51,0,255); (52,144,255); (53,49,255); (54,0,255); (55,0,255); (56,1,255);
    (57,0,255); (58,0,255); (59,0,15); (60,0,0); (61,0,0); (62,0,0); (63,0,255); (64,0,255); (65,1,255);
    (66,0,255); (67,0,255); (68,144,255); (69,49,255); (70,0,255); (71,0,255); (72,1,255); (73,0,255); (74,0,255);
    (75,0,15); (76,0,0); (77,0,0); (78,0,0); (79,0,255); (80,0,255); (81,0,255); (82,0,255); (83,0,255);
    (84,144,255); (85,49,255); (86,0,255); (87,0,255); (88,1,255); (89,0,255); (90,0,255); (91,0,15); (92,0,0);
    (93,0,0); (94,0,0); (255,0,255) ].
Definition clkinit_27_26_125_125 : list (Z * Z * Z) :=
  clkinit_27_26_125_125_config ++ clkinit_27_26_125_125_steps ++ clkinit_27_26_125_125_page1 ++ replicate 1 (0,0,0).

(** ** The chip's register map

    The registers that set the frequencies, with the bits that do: the input divider (29), the
    output dividers and their multiplexers (31 to 34), and five fractional dividers of ten
    registers each, for the outputs (53, 64, 75, 86) and the feedback of the PLL (97). *)
Definition config_mask (r : Z) : Z :=
  if r =? 29 then 0x07
  else if (31 <=? r) && (r <=? 34) then 0xFC
  else if bool_decide (r ∈ [62; 73; 84; 95; 106]) then 0x3F
  else 0xFF.
Definition dividers_at : list Z := [53; 64; 75; 86; 97].
Definition config_regs : list Z := [29; 31; 32; 33; 34] ++ b ← dividers_at; seqZ b 10.
Definition config (f : reg_file) (r : Z) : Z := Z.land (f (0, r)) (config_mask r).

(** A fractional divider: numerator and denominator of (P1 P3 + P2 + 512 P3) / (128 P3). *)
Definition multisynth (c : Z -> Z) (b : Z) : Z * Z :=
  let p1 := c b + 2 ^ 8 * c (b + 1) + 2 ^ 16 * (c (b + 2) mod 4) in
  let p2 := c (b + 2) / 4 + 2 ^ 6 * c (b + 3) + 2 ^ 14 * c (b + 4) + 2 ^ 22 * c (b + 5) in
  let p3 := c (b + 6) + 2 ^ 8 * c (b + 7) + 2 ^ 16 * c (b + 8) + 2 ^ 24 * c (b + 9) in
  (p1 * p3 + p2 + 512 * p3, 128 * p3).

(** The frequency of one output for an input of [fin], when it is a whole number of hertz and
    the output takes its own divider (multiplexer 6). *)
Definition output (fin : Z) (c : Z -> Z) (r b : Z) : option Z :=
  let '(nn, nd) := multisynth c 97 in
  let '(mn, md) := multisynth c b in
  let num := fin * nn * md in
  let den := 2 ^ c 29 * nd * mn * 2 ^ ((c r / 4) mod 8) in
  if (c r / 32 =? 6) && (0 <? den) && (num mod den =? 0) then Some (num / den) else None.
Definition outputs (fin : Z) (c : Z -> Z) : list (option Z) :=
  [output fin c 31 53; output fin c 32 64; output fin c 33 75; output fin c 34 86].

(** The tables and the frequencies they are named after. *)
Definition MHz : Z := 1000000.
Definition clock_tables : list (list (Z * Z * Z) * list Z) :=
  [ (Reg_Store, [100; 125; 26; 125]);
    (clkinit_108_125_26_125, [108; 125; 26; 125]);
    (clkinit_26_27_125_125, [26; 27; 125; 125]);
    (clkinit_27_125_26_125, [27; 125; 26; 125]);
    (clkinit_27_26_125_125, [27; 26; 125; 125]) ].
Definition FIN : Z := 156250000.
Definition makes (f : reg_file) (freqs : list Z) : Prop := outputs FIN (config f) = (fun m => Some (m * MHz)) <$> freqs.

(** ** What a table says about a register

    The bits of register [l] that are known after a table, and their values, starting with
    [page] and the knowledge [acc]. *)
Definition learn (l : Z * Z) (page : Z) (acc : Z * Z) (line : (Z * Z * Z)) : Z * (Z * Z) :=
  let '(addr, val, mask) := line in
  if mask =? 0 then (page, acc) else
  let here := if addr =? 255 then (0, 255) else (page, addr) in
  (if addr =? 255 then Z.land val 1 else page,
   if bool_decide (l = here) then (Z.lor acc.1 mask, merge acc.2 val mask) else acc).
Definition known (l : Z * Z) (table : list (Z * Z * Z)) : Z * (Z * Z) :=
  foldl (fun pa line => learn l pa.1 pa.2 line) (0, (0, 0)) table.

(** The page is always set as a whole. *)
Definition page_okb (line : (Z * Z * Z)) : bool := let '(addr, _, mask) := line in negb (addr =? 255) || (mask =? 255).

Lemma compl_bit m n : is_byte m -> 0 <= n < 8 -> Z.testbit (255 - m) n = negb (Z.testbit m n).
Proof.
  intros Hm Hn.
  assert (Hall : forallb (fun m => forallb (fun n => Bool.eqb (Z.testbit (255 - m) n) (negb (Z.testbit m n))) (seqZ 0 8)) (seqZ 0 256) = true)
    by (vm_compute; reflexivity).
  rewrite forallb_forall in Hall. specialize (Hall m). rewrite forallb_forall in Hall.
  apply Bool.eqb_prop, Hall; apply list_elem_of_In, elem_of_seqZ; unfold is_byte in Hm; lia.
Qed.

(** [v] is a byte that agrees with the known bits. *)
Definition agrees (v : Z) (acc : Z * Z) : Prop := is_byte v /\ is_byte acc.1 /\ is_byte acc.2 /\ Z.land v acc.1 = acc.2.

Lemma lor_byte a b : is_byte a -> is_byte b -> is_byte (Z.lor a b).
Proof.
  intros Ha Hb. apply byte_testbit; [apply Z.lor_nonneg; unfold is_byte in *; lia|].
  intros n Hn. by rewrite Z.lor_spec, !testbit_byte.
Qed.
Lemma agrees_merge v acc val mask : agrees v acc -> is_byte val -> is_byte mask ->
  agrees (merge v val mask) (Z.lor acc.1 mask, merge acc.2 val mask).
Proof.
  intros (Hv & Hk & Hx & Hland) Hval Hm. unfold agrees. cbn [fst snd].
  split_and!; [by apply merge_byte|by apply lor_byte|by apply merge_byte|]. rewrite <- Hland. apply Z.bits_inj'. intros n Hn. unfold merge.
  repeat rewrite ?Z.lor_spec, ?Z.land_spec. destruct (Z.lt_ge_cases n 8).
  - rewrite compl_bit by done. by destruct (Z.testbit v n), (Z.testbit acc.1 n), (Z.testbit val n), (Z.testbit mask n).
  - by rewrite (testbit_byte v), (testbit_byte val) by done.
Qed.

Lemma known_sound l table : Forall line_ok table -> forallb page_okb table = true ->
  forall f page acc, (forall l, is_byte (f l)) -> Z.land (f (0, 255)) 1 = page -> agrees (f l) acc ->
  let r := foldl (fun pa line => learn l pa.1 pa.2 line) (page, acc) table in
  let f' := foldl apply_line f table in
  (forall l, is_byte (f' l)) /\ Z.land (f' (0, 255)) 1 = r.1 /\ agrees (f' l) r.2.
Proof.
  induction 1 as [|[[addr val] mask] table (Hval & Hm & _) _ IH]; intros Hp f page acc Hf Hpage Ha; [done|].
  cbn [forallb] in Hp. apply andb_prop in Hp as [Hp1 Hp2]. cbn [foldl fst snd]. unfold page_okb in Hp1.
  destruct (learn l page acc (addr, val, mask)) as [page' acc'] eqn:E. apply IH; clear IH; [done|..]; unfold learn in E; unfold apply_line.
  - intros l'. destruct ((mask =? 0) || _); [apply Hf|]. apply merge_byte; [apply Hf|done..].
  - destruct (mask =? 0); cbn [orb]; [congruence|]. injection E as <- _. subst page. unfold place.
    destruct (addr =? 255) eqn:E255; cbn [negb orb] in Hp1.
    + rewrite bool_decide_true by done. cbn [negb]. apply Z.eqb_eq in Hp1 as ->. unfold merge. rewrite Z.land_0_r, Z.lor_0_l.
      rewrite <- Z.land_assoc. done.
    + rewrite bool_decide_false; [done|]. intros [= _ E1]. apply Z.eqb_neq in E255. congruence.
  - destruct (mask =? 0); cbn [orb]; [congruence|]. injection E as _ <-. unfold place. rewrite Hpage.
    case_bool_decide; cbn [negb]; [by apply agrees_merge|done].
Qed.

(** ** A table makes its frequencies *)

(** Everything the theorems need to know of a table, by computation: no volatile register and
    no part of the page is written, page 0 is left selected, and the known bits decode. *)
Definition table_checks (t : list (Z * Z * Z) * list Z) : bool :=
  let '(table, freqs) := t in
  let k r := known (0, r) table in
  forallb line_okb table && forallb page_okb table && ((k 255).1 =? 0) &&
  forallb (fun r => Z.land (k r).2.1 (config_mask r) =? config_mask r) config_regs &&
  bool_decide (outputs FIN (fun r => Z.land (k r).2.2 (config_mask r)) = (fun m => Some (m * MHz)) <$> freqs).

Lemma tables_check t : t ∈ clock_tables -> table_checks t = true.
Proof.
  intros Ht. assert (Hall : forallb table_checks clock_tables = true) by (vm_compute; reflexivity).
  rewrite forallb_forall in Hall. by apply Hall, list_elem_of_In.
Qed.

Lemma multisynth_ext c c' b : (forall r, r ∈ config_regs -> c r = c' r) -> b ∈ dividers_at -> multisynth c b = multisynth c' b.
Proof.
  intros Hc Hb. assert (Hr : forall r, b <= r <= b + 9 -> c r = c' r).
  { intros r Hr. apply Hc, elem_of_app. right. apply list_elem_of_bind. exists b. split; [apply elem_of_seqZ; lia|done]. }
  unfold multisynth. rewrite !Hr by lia. done.
Qed.
Lemma outputs_ext fin c c' : (forall r, r ∈ config_regs -> c r = c' r) -> outputs fin c = outputs fin c'.
Proof.
  intros Hc. assert (Hs : forall r, r ∈ [29; 31; 32; 33; 34] -> c r = c' r) by (intros r Hrs; apply Hc, elem_of_app; by left).
  unfold outputs, output.
  rewrite !(multisynth_ext c c') by (done || (apply (bool_decide_unpack _); exact I)). rewrite !Hs by (apply (bool_decide_unpack _); exact I). done.
Qed.

(** A table applied to any registers, from page 0. *)
Lemma table_makes table freqs f : (table, freqs) ∈ clock_tables ->
  (forall l, is_byte (f l)) -> Z.land (f (0, 255)) 1 = 0 ->
  Forall line_ok table /\ makes (foldl apply_line f table) freqs /\ Z.land (foldl apply_line f table (0, 255)) 1 = 0.
Proof.
  intros Ht Hf Hpage. apply tables_check in Ht. unfold table_checks in Ht. do 4 apply andb_prop in Ht as [Ht ?Hc].
  apply table_okb in Ht. apply bool_decide_eq_true in Hc. rename Hc0 into Hmask, Hc1 into Hp0, Hc2 into Hpok. apply Z.eqb_eq in Hp0.
  assert (Hk : forall r, _ /\ _ /\ agrees _ _) by
    (intros r; apply (known_sound (0, r) table Ht Hpok f 0 (0, 0)); [done..|]; unfold agrees; split_and!; [done..|apply Z.land_0_r]).
  split_and!; [done| |by rewrite (proj1 (proj2 (Hk 255)))].
  unfold makes. rewrite <- Hc. apply outputs_ext. intros r Hr. rewrite forallb_forall in Hmask.
  specialize (Hmask r (proj1 (list_elem_of_In _ _) Hr)). apply Z.eqb_eq in Hmask. destruct (Hk r) as (_ & _ & _ & _ & _ & Hland).
  unfold config. fold (known (0, r) table) in Hland. rewrite <- Hland, <- Z.land_assoc, Hmask. done.
Qed.

(** ** The start of the generator *)

Section start.
Context {W : Type} `{ClockChip W}.
Variable dev : Z.

(** Nothing changes between two states but the registers [S] of page 0. *)
Definition keeps (S : list Z) (w w' : W) : Prop :=
  forall d l, ~ (d = dev /\ l ∈ (fun r => (0, r)) <$> S) -> chip_reg w' d l = chip_reg w d l.
Lemma keeps_trans S1 S2 w w1 w2 : keeps S1 w w1 -> keeps S2 w1 w2 -> keeps (S1 ++ S2) w w2.
Proof.
  intros H1 H2 d l Hl. rewrite H2, H1; [done|..]; intros [-> Hin]; apply Hl; split; [done|rewrite fmap_app, elem_of_app; tauto|done|].
  rewrite fmap_app, elem_of_app; tauto.
Qed.
Lemma keeps_reg S w w' r : keeps S w w' -> r ∉ S -> chip_reg w' dev (0, r) = chip_reg w dev (0, r).
Proof. intros Hk Hr. apply Hk. intros [_ Hin]. apply list_elem_of_fmap in Hin as (r' & [= <-] & Hin). done. Qed.

(** Page 0 is selected. *)
Definition page0 (w : W) : Prop := Z.land (chip_reg w dev (0, 255)) 1 = 0.
Lemma page0_place w r : page0 w -> r <> 255 -> place (chip_reg w dev) r = (0, r).
Proof. intros Hp Hr. unfold place. rewrite (proj2 (Z.eqb_neq r 255)) by done. by rewrite Hp. Qed.
Lemma page0_keeps S w w' : keeps S w w' -> 255 ∉ S -> page0 w -> page0 w'.
Proof. intros Hk Hs Hp. unfold page0. by rewrite (keeps_reg S w). Qed.

Lemma masked_step a v m k w : is_byte v -> is_byte m -> m <> 0 -> volatile a = false -> a <> 255 -> page0 w ->
  exists w', or_code (ClockGenWriteMasked dev a v m) k w = k w' /\ page0 w' /\ keeps [a] w w' /\
    chip_reg w' dev (0, a) = merge (chip_reg w dev (0, a)) v m.
Proof.
  intros Hv Hm Hne Hvol Ha Hp. destruct (write_masked_run dev a v m w Hv Hm Hne Hvol) as (w' & Hr & H1 & H2).
  exists w'. unfold or_code. rewrite (bind_run _ _ _ _ _ Hr). cbn [Z.eqb negb]. split; [done|].
  unfold apply_line in H1. rewrite (page0_place w a Hp Ha), (proj2 (Z.eqb_neq m 0) Hne) in H1. cbn [orb] in H1.
  assert (Hk : keeps [a] w w').
  { intros d l Hl. destruct (decide (d = dev)) as [->|]; [|by apply H2]. rewrite H1, bool_decide_false; [done|].
    intros ->. apply Hl. split; [done|by left]. }
  split_and!; [|done|by rewrite H1, bool_decide_true]. apply (page0_keeps [a] w); [done| |done]. intros Hin%list_elem_of_singleton. congruence.
Qed.
Lemma write_step a v k w : is_byte v -> a <> 255 -> page0 w ->
  exists w', or_code (ClockGenWrite dev a v) k w = k w' /\ page0 w' /\ keeps [a] w w'.
Proof.
  intros Hv Ha Hp. destruct (write_law w dev a v Hv) as (w' & Hr & _ & H2). rewrite (page0_place w a Hp Ha) in H2.
  exists w'. unfold or_code. rewrite (bind_run _ _ _ _ _ Hr). cbn [Z.eqb negb]. split; [done|].
  assert (Hk : keeps [a] w w') by (intros d l Hl; apply H2; intros [-> ->]; apply Hl; split; [done|by left]).
  split; [|done]. apply (page0_keeps [a] w); [done| |done]. intros Hin%list_elem_of_singleton. congruence.
Qed.
Lemma read_step a k w : page0 w -> exists v w', read_then dev a k w = k v w' /\ is_byte v /\ page0 w' /\ keeps [] w w'.
Proof.
  intros Hp. destruct (read_law w dev a) as (v & w' & Hr & Hv & _ & H1). exists v, w'. unfold read_then. rewrite (bind_run _ _ _ _ _ Hr).
  cbn [Z.eqb negb]. rewrite (lift_run _ _ _ _ eq_refl). split_and!; [done..| |intros d l _; apply H1]. unfold page0. by rewrite H1.
Qed.
Lemma pll_step fuel k w : fuel <> 0%nat -> page0 w ->
  exists v w', pll_loop fuel dev k w = k v w' /\ is_byte v /\ page0 w' /\ keeps [] w w'.
Proof.
  revert w. induction fuel as [|fuel IH]; intros w Hf Hp; [done|]. cbn [pll_loop].
  edestruct (read_step 218) as (v & w1 & Hr & Hv & Hp1 & H1); [done|]. rewrite Hr. destruct (negb _ && _) eqn:E; [|by exists v, w1].
  destruct (IH w1) as (v2 & w2 & Hr2 & Hv2 & Hp2 & H2); [bool_to_prop; lia|done|].
  exists v2, w2. split_and!; [done..|]. by apply (keeps_trans [] []) with w1.
Qed.

(** The registers the start procedure writes after the table. *)
Definition pll_regs : list Z := [230; 241; 50; 49; 246; 241; 241; 47; 46; 45; 49; 230].

Lemma merge_bit v val mask n : 0 <= n < 8 -> is_byte mask ->
  Z.testbit (merge v val mask) n = if Z.testbit mask n then Z.testbit val n else Z.testbit v n.
Proof.
  intros Hn Hm. unfold merge. rewrite Z.lor_spec, !Z.land_spec, compl_bit by done.
  destruct (Z.testbit mask n); cbn [negb]; by rewrite ?andb_false_r, ?andb_true_r, ?orb_false_r.
Qed.

Lemma keeps_sub S S' w w' : keeps S w w' -> S ⊆ S' -> keeps S' w w'.
Proof.
  intros Hk Hs d l Hl. apply Hk. intros [-> Hin]. apply Hl. split; [done|].
  apply list_elem_of_fmap in Hin as (r & -> & Hin). apply list_elem_of_fmap. exists r. split; [done|by apply Hs].
Qed.

(** [Kn], from the last state on, added to [K] and [Ko]. *)
Ltac extend K Ko Kn :=
  apply (keeps_trans _ _ _ _ _ K) in Kn as K'; clear K; rename K' into K;
  apply (keeps_trans _ _ _ _ _ Ko) in Kn as K'; clear Ko Kn; rename K' into Ko.

(** The start of the PLL: outputs off, wait, calibration, outputs on. *)
Lemma reset_run w : page0 w ->
  exists r w', IV_ResetSi5338Pll dev true w = Some (r, w') /\ r ∈ [0; -1; -3] /\ keeps pll_regs w w' /\
    Z.testbit (chip_reg w' dev (0, 230)) 4 = negb (r =? 0) /\
    (r = 0 -> Z.testbit (chip_reg w' dev (0, 49)) 7 = true).
Proof.
  intros Hp. unfold IV_ResetSi5338Pll.
  edestruct (masked_step 230 0x10 0x10) as (w1 & -> & Hp1 & K & V1); [done..|].
  assert (Hoff : Z.testbit (chip_reg w1 dev (0, 230)) 4 = true) by (rewrite V1, merge_bit by done; done). clear V1.
  edestruct (masked_step 241 0x80 0x80) as (w2 & -> & Hp2 & Ko & _); [done..|].
  apply (keeps_trans _ _ _ _ _ K) in Ko as K'. clear K. rename K' into K.
  edestruct (masked_step 50 0xC0 0xC0) as (w3 & -> & Hp3 & Kn & _); [done..|]. extend K Ko Kn.
  edestruct (read_step 218) as (v4 & w4 & -> & _ & Hp4 & Kn); [done|]. extend K Ko Kn.
  destruct (negb _ && true).
  { exists (-1), w4. split_and!; [done|set_solver| | |done].
    - eapply keeps_sub; [exact K|]. by apply (bool_decide_unpack _).
    - rewrite (keeps_reg _ _ _ 230 Ko); [done|]. by apply (bool_decide_unpack _). }
  rewrite andb_false_r.
  edestruct (masked_step 49 0x00 0x80) as (w5 & -> & Hp5 & Kn & _); [done..|]. extend K Ko Kn.
  edestruct (write_step 246 0x02) as (w6 & -> & Hp6 & Kn); [done..|]. extend K Ko Kn.
  edestruct (masked_step 241 0x00 0x80) as (w7 & -> & Hp7 & Kn & _); [done..|]. extend K Ko Kn.
  edestruct (write_step 241 0x65) as (w8 & -> & Hp8 & Kn); [done..|]. extend K Ko Kn.
  edestruct (pll_step (Z.to_nat PLL_TRIES)) as (v9 & w9 & -> & _ & Hp9 & Kn); [done..|]. extend K Ko Kn.
  destruct (negb _).
  { exists (-3), w9. split_and!; [done|set_solver| | |done].
    - eapply keeps_sub; [exact K|]. by apply (bool_decide_unpack _).
    - rewrite (keeps_reg _ _ _ 230 Ko); [done|]. by apply (bool_decide_unpack _). }
  edestruct (read_step 237) as (v10 & w10 & -> & V10 & Hp10 & Kn); [done|]. extend K Ko Kn.
  edestruct (write_step 47 (Z.lor (Z.land v10 0x03) 0x14)) as (w11 & -> & Hp11 & Kn); [by apply lor_byte; [by apply land_byte|]|done|done|]. extend K Ko Kn.
  edestruct (read_step 236) as (v12 & w12 & -> & V12 & Hp12 & Kn); [done|]. extend K Ko Kn.
  edestruct (write_step 46 v12) as (w13 & -> & Hp13 & Kn); [done..|]. extend K Ko Kn.
  edestruct (read_step 235) as (v14 & w14 & -> & V14 & Hp14 & Kn); [done|]. extend K Ko Kn.
  edestruct (write_step 45 v14) as (w15 & -> & Hp15 & Kn); [done..|]. extend K Ko Kn.
  edestruct (masked_step 49 0x80 0x80) as (w16 & -> & Hp16 & Kn & V16); [done..|]. extend K Ko Kn.
  edestruct (masked_step 230 0x00 0x10) as (w17 & -> & _ & Kn & V17); [done..|].
  exists 0, w17. split_and!; [done|set_solver| | |intros _].
  - eapply keeps_sub; [exact (keeps_trans _ _ _ _ _ K Kn)|]. by apply (bool_decide_unpack _).
  - by rewrite V17, merge_bit by done.
  - rewrite (keeps_reg _ _ _ 49 Kn) by by apply (bool_decide_unpack _). by rewrite V16, merge_bit by done.
Qed.

(** C13: starting the generator from any of the tables ends with success, without an input
    clock or without a lock, and leaves the registers that set the frequencies the table is
    named after: 100, 125, 26 and 125 MHz with the one that is included, whatever the
    registers held before.  The outputs are on exactly when it succeeded. *)
Theorem clocks_started table freqs w :
  (table, freqs) ∈ clock_tables -> page0 w ->
  exists r w', init_gt_clks dev table w = Some (r, w') /\ r ∈ [0; -1; -3] /\
    makes (chip_reg w' dev) freqs /\
    Z.testbit (chip_reg w' dev (0, 230)) 4 = negb (r =? 0) /\
    (r = 0 -> Z.testbit (chip_reg w' dev (0, 49)) 7 = true) /\
    (forall d l, d <> dev -> chip_reg w' d l = chip_reg w d l).
Proof.
  intros Ht Hp. unfold init_gt_clks. destruct (start_law w) as (w0 & Hs & Hsame). rewrite (bind_run _ _ _ _ _ Hs).
  assert (Hp0 : page0 w0) by (unfold page0; by rewrite Hsame).
  destruct (table_makes table freqs (chip_reg w0 dev) Ht) as (Hok & Hm & Hpage); [apply chip_bytes|exact Hp0|].
  destruct (table_run dev table Hok w0) as (w1 & Hr & H1 & Ho1). rewrite (bind_run _ _ _ _ _ Hr). cbn [Z.eqb negb].
  destruct (reset_run w1) as (r & w2 & Hr2 & Hcode & Hk & Hoe & Hfcal); [unfold page0; by rewrite H1|].
  exists r, w2. split_and!; [done|done| |done|done|].
  - unfold makes. rewrite <- Hm. apply outputs_ext. intros x Hx. unfold config. rewrite <- H1. f_equal. apply (keeps_reg _ _ _ _ Hk).
    intros Hin. assert (Hd : Forall (fun x => x ∉ pll_regs) config_regs) by by apply (bool_decide_unpack _).
    by apply (proj1 (Forall_forall _ _) Hd x Hx).
  - intros d l Hd. rewrite Hk, Ho1, Hsame; [done|done|]. by intros [? _].
Qed.
End start.

(** Devices that are registers, on page 0. *)
Lemma clocks_started_witness :
  exists r w', init_gt_clks 0x70 clkinit_27_26_125_125 (fun _ _ => 254 : Z) = Some (r, w') /\ r ∈ [0; -1; -3] /\
    makes (chip_reg w' 0x70) [27; 26; 125; 125].
Proof.
  destruct (clocks_started 0x70 clkinit_27_26_125_125 [27; 26; 125; 125] (fun _ _ => 254 : Z)) as (r & w' & ? & ? & ? & _);
    [exact (list_elem_of_lookup_2 clock_tables 4 (clkinit_27_26_125_125, [27; 26; 125; 125]) eq_refl)|vm_compute; reflexivity|]. exists r, w'. split; [assumption|split; assumption].
Defined.
