(* ===== verification/ZynqHooks.v ===== *)
(** * Hooks of the first-stage loader on Zynq boards
    ([recipes-bsp/fsbl-firmware/files/zynq-hooks.c])

    Before it hands over, the loader of a Zynq board programs a Si5326 clock generator over
    I2C so that it derives two clocks from one; around the processor's own initialisation
    it holds the USB controllers in reset. *)
From S2P Require Import Prelude ClkInit.

#[local] Open Scope list_scope.
#[local] Open Scope Z_scope.

(** ** The machine *)

(** What the hooks do to the machine: the vendor's driver is set up, bytes go to a device,
    the system registers are unlocked, locked, read and written. *)
Inductive hook_event :=
  | CfgInitialize
  | SetSClk (rate : Z)
  | MasterSend (addr : Z) (buf : list Z)
  | SlcrUnlock
  | SlcrLock
  | In32 (addr : Z)
  | Out32 (addr value : Z).
#[export] Instance hook_event_eq_dec : EqDecision hook_event.
Proof. solve_decision. Defined.
Abbreviation hooks := (list hook_event).

(** The vendor's driver and the hardware, which know what was done before.
    [end_without_return] is what a caller finds as the value of a function that ends without
    a [return]: nothing in C, where using it is undefined ([None]); with most compilers
    whatever a register holds. *)
Class ZynqFsbl := {
  XST_SUCCESS : Z;
  XST_FAILURE : Z;
  I2C_DEVICE_ID : Z;
  iic_lookup : Z -> bool;
  iic_cfg_initialize : hooks -> Z;
  iic_send : hooks -> Z -> list Z -> Z;
  zynq_in32 : hooks -> Z -> Z;
  end_without_return : hooks -> option Z
}.

Definition I2C_CLKGEN_ADDR : Z := 0x68.
Definition I2C_CLK_RATE : Z := 100000.
Definition USB_RST_CTRL : Z := 0xF8000210.
Definition USB0_CPU1X_RST : Z := 0x00000001.
Definition USB1_CPU1X_RST : Z := 0x00000002.

Section hooks.
Context `{ZynqFsbl}.

Definition emit (e : hook_event) : M hooks unit := fun w => Some (tt, w ++ [e]).

Definition read32 (addr : Z) : M hooks Z := fun w => Some (u32 (zynq_in32 w addr), w ++ [In32 addr]).

(** ** The clock generator *)

Definition i2c_reg_write (addr reg val : Z) : M hooks Z :=
  let buf := [u8 reg; u8 val] in
  fun w => Some (iic_send w addr buf, w ++ [MasterSend addr buf]).

(** The array [regs]. *)
Definition si5326_regs (nBwSel nN1_Hs nNc1_Ls nNc2_Ls nN2_Hs nN2_Ls nN31 nN32 : Z) : list (Z * Z) :=
  let minus1 x := u32 (x - 1) in
  [ (2, Z.land (u32 (Z.shiftl nBwSel 4)) 0x0FF);
    (25, Z.land (u32 (Z.shiftl (u32 (nN1_Hs - 4)) 5)) 0x0E0);
    (31, Z.land (Z.shiftr (minus1 nNc1_Ls) 16) 0x00F);
    (32, Z.land (Z.shiftr (minus1 nNc1_Ls) 8) 0x0FF);
    (33, Z.land (Z.shiftr (minus1 nNc1_Ls) 0) 0x0FF);
    (34, Z.land (Z.shiftr (minus1 nNc2_Ls) 16) 0x00F);
    (35, Z.land (Z.shiftr (minus1 nNc2_Ls) 8) 0x0FF);
    (36, Z.land (Z.shiftr (minus1 nNc2_Ls) 0) 0x0FF);
    (40, Z.lor (Z.land (u32 (Z.shiftl (u32 (nN2_Hs - 4)) 5)) 0x0E0) (Z.land (Z.shiftr (minus1 nN2_Ls) 16) 0x00F));
    (41, Z.land (Z.shiftr (minus1 nN2_Ls) 8) 0x0FF);
    (42, Z.land (Z.shiftr (minus1 nN2_Ls) 0) 0x0FF);
    (43, Z.land (Z.shiftr (minus1 nN31) 16) 0x007);
    (44, Z.land (Z.shiftr (minus1 nN31) 8) 0x0FF);
    (45, Z.land (Z.shiftr (minus1 nN31) 0) 0x0FF);
    (46, Z.land (Z.shiftr (minus1 nN32) 16) 0x007);
    (47, Z.land (Z.shiftr (minus1 nN32) 8) 0x0FF);
    (48, Z.land (Z.shiftr (minus1 nN32) 0) 0x0FF) ].

(** The loop over the array: each status replaces the one before. *)
Fixpoint reg_loop (regs : list (Z * Z)) : M hooks unit :=
  match regs with
  | [] => mret tt
  | (reg, val) :: regs => _ ← i2c_reg_write I2C_CLKGEN_ADDR reg val; reg_loop regs
  end.

Definition no_return : M hooks (option Z) := fun w => Some (end_without_return w, w).

(** The function declares an [int] and returns none. *)
Definition Si5326SetDirect (nBwSel nN1_Hs nNc1_Ls nNc2_Ls nN2_Hs nN2_Ls nN31 nN32 : Z) : M hooks (option Z) :=
  _ ← reg_loop (si5326_regs nBwSel nN1_Hs nNc1_Ls nNc2_Ls nN2_Hs nN2_Ls nN31 nN32);
  _ ← i2c_reg_write I2C_CLKGEN_ADDR 136 0x40;
  no_return.

(** [Status = ...; if (Status != XST_SUCCESS) return XST_FAILURE;] followed by [k]. *)
Definition or_fail (m : M hooks Z) (k : M hooks Z) : M hooks Z :=
  Status ← m; if negb (Status =? XST_SUCCESS) then mret XST_FAILURE else k.

Definition clkgen_init : M hooks Z :=
  or_fail (i2c_reg_write I2C_CLKGEN_ADDR 0 0x34) (
  or_fail (i2c_reg_write I2C_CLKGEN_ADDR 3 0x45) (
  or_fail (i2c_reg_write I2C_CLKGEN_ADDR 4 0x12) (
  or_fail (i2c_reg_write I2C_CLKGEN_ADDR 6 0x3f) (
  or_fail (i2c_reg_write I2C_CLKGEN_ADDR 21 0x7c) (
  or_fail (Status ← Si5326SetDirect 10 4 10 8 8 316 79 79; lift Status) (
  mret XST_SUCCESS)))))).

Definition cfg_initialize : M hooks Z := fun w => Some (iic_cfg_initialize w, w ++ [CfgInitialize]).
Definition i2c_init (DeviceId : Z) : M hooks Z :=
  if negb (iic_lookup DeviceId) then mret XST_FAILURE else
  or_fail cfg_initialize (
  _ ← emit (SetSClk I2C_CLK_RATE);
  mret XST_SUCCESS).

(** Built with I2C and the clock generator. *)
Definition FsblHookBeforeHandoff : M hooks Z :=
  or_fail (i2c_init I2C_DEVICE_ID) (
  or_fail clkgen_init (
  mret XST_SUCCESS)).

(** ** The USB controllers *)

Definition usb_reset (active : bool) : M hooks unit :=
  let mask := Z.lor USB0_CPU1X_RST USB1_CPU1X_RST in
  _ ← emit SlcrUnlock;
  v ← read32 USB_RST_CTRL;
  _ ← emit (Out32 USB_RST_CTRL (Z.lor (Z.land v (not32 mask)) (if active then mask else 0)));
  emit SlcrLock.

Definition ps7_init_prehook : M hooks unit := usb_reset true.
Definition ps7_init_posthook : M hooks unit := usb_reset false.
End hooks.

(** ** The chip

    What the registers hold after the transfers: the last value sent to each. *)
Definition chip_step (regs : gmap Z Z) (e : hook_event) : gmap Z Z :=
  match e with
  | MasterSend addr [reg; val] => if addr =? I2C_CLKGEN_ADDR then <[reg := val]> regs else regs
  | _ => regs
  end.
Definition chip_regs (regs : gmap Z Z) (w : hooks) : gmap Z Z := foldl chip_step regs w.

(** The dividers the registers stand for, by the chip's register map: the high-speed
    dividers count from 4, the others from 1. *)
Definition high_speed (r : Z) : Z := r / 32 + 4.
Definition divider (hi mid lo : Z) : Z := (hi * 65536 + mid * 256 + lo) + 1.
Record dividers := Dividers { bwsel : Z; n1_hs : Z; nc1_ls : Z; nc2_ls : Z; n2_hs : Z; n2_ls : Z; n31 : Z; n32 : Z }.
Definition decode (regs : gmap Z Z) : option dividers :=
  r2 ← regs !! 2; r25 ← regs !! 25;
  r31 ← regs !! 31; r32 ← regs !! 32; r33 ← regs !! 33;
  r34 ← regs !! 34; r35 ← regs !! 35; r36 ← regs !! 36;
  r40 ← regs !! 40; r41 ← regs !! 41; r42 ← regs !! 42;
  r43 ← regs !! 43; r44 ← regs !! 44; r45 ← regs !! 45;
  r46 ← regs !! 46; r47 ← regs !! 47; r48 ← regs !! 48;
  Some (Dividers (r2 / 16) (high_speed r25) (divider r31 r32 r33) (divider r34 r35 r36)
          (high_speed r40) (divider (r40 mod 16) r41 r42) (divider r43 r44 r45) (divider r46 r47 r48)).

(** The two outputs for an input on CLKIN2: the oscillator runs at the input divided by N32
    and multiplied by N2; each output divides it by N1 and its own divider. *)
Definition clkout1 (fin : Z) (d : dividers) : Z := fin * (n2_hs d * n2_ls d) / (n32 d * (n1_hs d * nc1_ls d)).
Definition clkout2 (fin : Z) (d : dividers) : Z := fin * (n2_hs d * n2_ls d) / (n32 d * (n1_hs d * nc2_ls d)).
