(* ===== verification/ZynqHooksProps.v ===== *)
(** * Properties of the hooks of the Zynq loader

    The registers written for the clock generator stand for the dividers asked for, whatever
    they are within the chip's ranges; before the hand-over the two outputs run at the
    frequencies the code announces; but the hook's own result is not determined. *)
From S2P Require Import Prelude ClkInit ZynqHooks.

#[local] Open Scope list_scope.
#[local] Open Scope Z_scope.

(** ** Register values *)

(** A number below 2^20 (2^19 under the narrower mask) in three registers. *)
Lemma divider_split k x :
  0 <= k -> 1 <= x <= 2 ^ (16 + k) -> k <= 8 ->
  let y := u32 (x - 1) in
  divider (Z.land (Z.shiftr y 16) (Z.ones k)) (Z.land (Z.shiftr y 8) 0x0FF) (Z.land (Z.shiftr y 0) 0x0FF) = x.
Proof.
  intros Hk Hx Hk8. cbv zeta. change 0x0FF with (Z.ones 8). unfold divider.
  assert (2 ^ (16 + k) <= 2 ^ 24) by (apply Z.pow_le_mono_r; lia).
  rewrite u32_small, !Z.land_ones, !Z.shiftr_div_pow2 by lia.
  rewrite (Z.mod_small ((x - 1) / 2 ^ 16)).
  - change (2 ^ 0) with 1. change (2 ^ 8) with 256. change (2 ^ 16) with 65536. mlia.
  - rewrite Z.pow_add_r in Hx by lia. split; [apply Z.div_pos; lia|].
    apply Z.div_lt_upper_bound; lia.
Qed.

(** The registers that hold a high-speed divider, and one with the top of another. *)
Definition hs_field (x : Z) : Z := Z.land (u32 (Z.shiftl (u32 (x - 4)) 5)) 0x0E0.
Lemma hs_field_value x : 4 <= x <= 11 -> hs_field x = 32 * (x - 4).
Proof.
  intros Hx. assert (Hc : x ∈ seqZ 4 8) by (apply elem_of_seqZ; lia).
  clear Hx. revert x Hc. apply Forall_forall. by repeat constructor.
Qed.
Lemma hs_lor x b : 4 <= x <= 11 -> 0 <= b < 16 -> Z.lor (hs_field x) b = 32 * (x - 4) + b.
Proof.
  intros Hx Hb. rewrite hs_field_value, <- Z.add_lor_land by done.
  enough (Z.land (32 * (x - 4)) b = 0) by lia. apply Z.bits_inj'. intros n Hn.
  rewrite Z.land_spec, Z.bits_0. destruct (Z.lt_ge_cases n 5).
  - replace (32 * (x - 4)) with (Z.shiftl (x - 4) 5) by (rewrite Z.shiftl_mul_pow2 by lia; lia).
    by rewrite Z.shiftl_spec_low.
  - rewrite (Z.bits_above_log2 b n), andb_false_r; [done|lia|].
    destruct (Z.eq_dec b 0) as [->|]; [cbn; lia|]. pose proof (Z.log2_lt_pow2 b 5). lia.
Qed.

(** ** Transfers *)

Section hooks.
Context `{ZynqFsbl}.

Definition reg_send (rv : Z * Z) : hook_event := MasterSend I2C_CLKGEN_ADDR [u8 (fst rv); u8 (snd rv)].

Lemma reg_loop_run regs w : reg_loop regs w = Some (tt, w ++ (reg_send <$> regs)).
Proof.
  revert w. induction regs as [|[r v] regs IH]; intros w; [by rewrite app_nil_r|].
  cbn [reg_loop]. unfold mbind, M_bind, i2c_reg_write. rewrite IH. by rewrite <- (assoc_L (++)).
Qed.

Lemma chip_regs_app m w1 w2 : chip_regs m (w1 ++ w2) = chip_regs (chip_regs m w1) w2.
Proof. apply foldl_app. Qed.

Lemma chip_regs_sends m regs :
  Forall (fun rv => is_byte (fst rv) /\ is_byte (snd rv)) regs ->
  chip_regs m (reg_send <$> regs) = foldl (fun m rv => <[fst rv := snd rv]> m) m regs.
Proof.
  intros Hr. revert m. induction Hr as [|[r v] regs [Hr Hv] _ IH]; intros m; [done|].
  cbn. rewrite !u8_id by done. apply IH.
Qed.
Lemma decode_regs m v2 v25 v31 v32 v33 v34 v35 v36 v40 v41 v42 v43 v44 v45 v46 v47 v48 x :
  decode (<[136 := x]> (foldl (fun m rv => <[fst rv := snd rv]> m) m
    [(2, v2); (25, v25); (31, v31); (32, v32); (33, v33); (34, v34); (35, v35); (36, v36); (40, v40); (41, v41); (42, v42);
     (43, v43); (44, v44); (45, v45); (46, v46); (47, v47); (48, v48)])) =
  Some (Dividers (v2 / 16) (high_speed v25) (divider v31 v32 v33) (divider v34 v35 v36) (high_speed v40)
          (divider (v40 mod 16) v41 v42) (divider v43 v44 v45) (divider v46 v47 v48)).
Proof.
  unfold decode. cbn [foldl fst snd].
  rewrite ?lookup_insert_ne, !lookup_insert_eq by lia. cbn [mbind option_bind].
  repeat (rewrite ?lookup_insert_ne by lia; rewrite !lookup_insert_eq; cbn [mbind option_bind]). done.
Qed.

Lemma si5326_run bw n1 nc1 nc2 n2h n2l a b w m :
  0 <= bw < 16 -> 4 <= n1 <= 11 -> 4 <= n2h <= 11 ->
  1 <= nc1 <= 2 ^ 20 -> 1 <= nc2 <= 2 ^ 20 -> 1 <= n2l <= 2 ^ 20 -> 1 <= a <= 2 ^ 19 -> 1 <= b <= 2 ^ 19 ->
  exists l, Si5326SetDirect bw n1 nc1 nc2 n2h n2l a b w = Some (end_without_return (w ++ l), w ++ l) /\
    decode (chip_regs m (w ++ l)) = Some (Dividers bw n1 nc1 nc2 n2h n2l a b).
Proof.
  intros. unfold Si5326SetDirect, mbind, M_bind. rewrite reg_loop_run.
  unfold i2c_reg_write, no_return. rewrite <- (assoc_L (++)). eexists. split; [reflexivity|].
  assert (Hb : forall z, 0 <= z < 2 ^ 24 -> 0 <= Z.shiftr z 16).
  { intros z Hz. apply Z.shiftr_nonneg. lia. }
  rewrite !chip_regs_app, chip_regs_sends.
  - set (m' := chip_regs m w). unfold chip_regs at 1. cbn [foldl chip_step]. rewrite Z.eqb_refl.
    unfold si5326_regs. rewrite decode_regs. fold (hs_field n1) (hs_field n2h).
    change 15 with (Z.ones 4). change 7 with (Z.ones 3).
    rewrite hs_lor by (rewrite ?Z.land_ones by lia; try lia; apply Z.mod_pos_bound; lia).
    f_equal. f_equal.
    + rewrite u32_small by (rewrite Z.shiftl_mul_pow2; lia). change 255 with (Z.ones 8).
      rewrite Z.land_ones, Z.shiftl_mul_pow2 by lia. mlia.
    + rewrite hs_field_value by done. unfold high_speed. mlia.
    + by apply (divider_split 4).
    + by apply (divider_split 4).
    + unfold high_speed. rewrite Z.land_ones by lia. mlia.
    + rewrite <- (divider_split 4 n2l) at 4 by lia. f_equal. rewrite Z.land_ones by lia. mlia.
    + by apply (divider_split 3).
    + by apply (divider_split 3).
  - unfold si5326_regs. repeat (constructor; [split; [unfold is_byte; cbn; lia|cbn [snd]; try (apply land_byte; lia)]|]); [|constructor].
    fold (hs_field n2h). change 15 with (Z.ones 4).
    rewrite hs_lor by (rewrite ?Z.land_ones by lia; try lia; apply Z.mod_pos_bound; lia).
    rewrite Z.land_ones by lia. unfold is_byte. mlia.
Qed.
(** The registers set one by one, whose failures are noticed. *)
Definition first_regs : list Z := [0; 3; 4; 6; 21].

(** C20: before the hand-over the generator is told to make 125 MHz and 156.25 MHz out of the
    156.25 MHz on its second input, when the driver starts and the first five registers can
    be written.  Failures of the other registers are not noticed, and the result is whatever
    the caller of a function without a [return] finds: the hook fails, or has undefined
    behaviour, on a board whose generator was programmed without an error. *)
Theorem handoff_clocks w m :
  iic_lookup I2C_DEVICE_ID = true -> iic_cfg_initialize w = XST_SUCCESS ->
  (forall w reg val, reg ∈ first_regs -> iic_send w I2C_CLKGEN_ADDR [reg; val] = XST_SUCCESS) ->
  exists l d,
    FsblHookBeforeHandoff w =
      (v ← end_without_return (w ++ l); Some (if v =? XST_SUCCESS then XST_SUCCESS else XST_FAILURE, w ++ l)) /\
    decode (chip_regs m (w ++ l)) = Some d /\
    clkout1 156250000 d = 125000000 /\ clkout2 156250000 d = 156250000.
Proof.
  intros Hlook Hcfg Hsend.
  set (first := [CfgInitialize; SetSClk I2C_CLK_RATE; reg_send (0, 0x34); reg_send (3, 0x45); reg_send (4, 0x12);
                 reg_send (6, 0x3f); reg_send (21, 0x7c)]).
  destruct (si5326_run 10 4 10 8 8 316 79 79 (w ++ first) m) as (l & Hrun & Hdec); [lia..|].
  rewrite <- (assoc_L (++)) in Hrun, Hdec.
  exists (first ++ l), (Dividers 10 4 10 8 8 316 79 79). split; [|done].
  unfold FsblHookBeforeHandoff, i2c_init, clkgen_init, or_fail, cfg_initialize, i2c_reg_write, emit, mbind, M_bind, mret, M_ret.
  rewrite Hlook. cbn [negb]. rewrite Hcfg. rewrite Z.eqb_refl. cbn [negb]. rewrite Z.eqb_refl. cbn [negb].
  repeat (rewrite Hsend by (apply (bool_decide_unpack _); exact I); rewrite Z.eqb_refl; cbn [negb]).
  rewrite <- !(assoc_L (++)). cbn [app].
  unfold first, reg_send in Hrun. cbn [fst snd app] in Hrun. 
  rewrite <- ?(assoc_L (++)). cbn [app]. rewrite Hrun. unfold lift. cbn [first app].
  unfold reg_send. cbn [fst snd mbind option_bind]. destruct (end_without_return _) as [v|]; [|reflexivity].
  unfold option_bind. destruct (v =? XST_SUCCESS); cbn [negb]; rewrite ?Z.eqb_refl; [done|].
  destruct (XST_FAILURE =? XST_SUCCESS) eqn:Hf; [|done]. apply Z.eqb_eq in Hf. by rewrite Hf.
Qed.

(** Around the initialisation of the processor exactly the reset bits of the two USB
    controllers are set, and afterwards cleared, with the system registers unlocked for
    that write and locked again. *)
Theorem usb_reset_exact active w :
  let v := u32 (zynq_in32 (w ++ [SlcrUnlock]) USB_RST_CTRL) in
  exists v', usb_reset active w = Some (tt, w ++ [SlcrUnlock; In32 USB_RST_CTRL; Out32 USB_RST_CTRL v'; SlcrLock]) /\
    forall n, 0 <= n -> Z.testbit v' n = if n <? 2 then active else Z.testbit v n.
Proof.
  intros v. eexists. split.
  - unfold usb_reset, emit, read32, mbind, M_bind. rewrite <- !(assoc_L (++)). reflexivity.
  - intros n Hn. fold v. assert (Hv : 0 <= v < 2 ^ 32) by (apply Z.mod_pos_bound; lia).
    rewrite Z.lor_spec, Z.land_spec. change (not32 _) with (Z.shiftl (Z.ones 30) 2).
    rewrite Z.shiftl_spec by done. destruct (n <? 2) eqn:Hn2; [apply Z.ltb_lt in Hn2|apply Z.ltb_ge in Hn2].
    + assert (n = 0 \/ n = 1) as [-> | ->] by lia; destruct active; cbn; rewrite ?andb_false_r; done.
    + assert (Z.testbit (if active then Z.lor USB0_CPU1X_RST USB1_CPU1X_RST else 0) n = false) as ->.
      { change (Z.lor _ _) with 3. destruct active; [|apply Z.bits_0]. apply Z.bits_above_log2; [lia|]. change (Z.log2 3) with 1. lia. }
      rewrite orb_false_r. destruct (Z.lt_ge_cases n 32).
      * rewrite Z.ones_spec_low by lia. by rewrite andb_true_r.
      * rewrite (Z.bits_above_log2 v n); [done|lia|].
        destruct (Z.eq_dec v 0) as [->|]; [cbn; lia|]. apply Z.log2_lt_pow2; [lia|]. apply Z.lt_le_trans with (2 ^ 32); [lia|].
        apply Z.pow_le_mono_r; lia.
Qed.
End hooks.

(** ** A board *)

#[local] Instance sample_fsbl : ZynqFsbl := {
  XST_SUCCESS := 0; XST_FAILURE := 1; I2C_DEVICE_ID := 1; iic_lookup _ := true; iic_cfg_initialize _ := 0;
  iic_send _ _ _ := 0; zynq_in32 _ _ := 0; end_without_return _ := None
}.

Lemma handoff_clocks_witness :
  FsblHookBeforeHandoff [] = None /\
  exists l d, FsblHookBeforeHandoff [] = (v ← end_without_return ([] ++ l); Some (if v =? XST_SUCCESS then XST_SUCCESS else XST_FAILURE, [] ++ l)) /\
    decode (chip_regs ∅ ([] ++ l)) = Some d /\ clkout1 156250000 d = 125000000 /\ clkout2 156250000 d = 156250000.
Proof. split; [reflexivity|]. apply (handoff_clocks [] ∅); [reflexivity|reflexivity|]. intros. reflexivity. Defined.
