(* ===== verification/BoardHooks.v ===== *)
(** * Initialisation hooks of the boards
    ([recipes-bsp/fsbl-firmware/files/00104.c], [00108.c], [00114.c], [00126.c], [00127.c])

    A board replaces the hooks of [iv_z8_init]: what is done before the clock generator is
    programmed, and whether there is one.  Over registers that hold what is written the
    theorems say which bits a board's hooks change. *)
From S2P Require Import Prelude ClkInit.

#[local] Open Scope list_scope.
#[local] Open Scope Z_scope.

(** Addresses from the generated psu_init.h. *)
Class PsuInit := {
  IOU_SLCR_MIO_MST_TRI1_OFFSET : Z;
  IOU_SLCR_MIO_PIN_36_OFFSET : Z;
  IOU_SLCR_MIO_PIN_37_OFFSET : Z;
  CRL_APB_I2C0_REF_CTRL_OFFSET : Z;
  CRL_APB_I2C1_REF_CTRL_OFFSET : Z;
  CRL_APB_TIMESTAMP_REF_CTRL_OFFSET : Z
}.

Definition IV_GPIO_DIRM_0_OFFSET : Z := 0x00FF0A0204.
Definition IV_GPIO_OEN_0_OFFSET : Z := 0x00FF0A0208.
Definition IV_GPIO_MASK_DATA_0_MSW_OFFSET : Z := 0x00FF0A0004.
Definition CRL_APB_RST_LPD_IOU2_OFFSET : Z := 0xFF5E0238.

Section boards.
Context `{Soc} `{PsuInit}.

(** ** 00104 *)
Definition before_hook_00104 : M bus unit := PSU_Mask_Write 0xFF5E0238 0x00000600 0x00000000.
Definition board_00104 : z8_hooks := Z8Hooks before_hook_00104 iv_z8_init_after_hook iv_z8_has_clock_chip.

(** ** 00108 *)
Definition pins_00108 : Z :=
  let pins := 0 in
  let pins := Z.lor pins (Z.shiftl 1 (17 - 16)) in
  let pins := Z.lor pins (Z.shiftl 1 (18 - 16)) in
  let pins := Z.lor pins (Z.shiftl 1 (19 - 16)) in
  Z.lor pins (Z.shiftl 1 (20 - 16)).
Definition iv_00108_enable_clocks : M bus unit :=
  let pins := pins_00108 in
  let dirm := u32 (Z.shiftl pins 16) in
  _ ← PSU_Mask_Write IV_GPIO_DIRM_0_OFFSET dirm dirm;
  _ ← PSU_Mask_Write IV_GPIO_OEN_0_OFFSET dirm dirm;
  let mask := u32 (Z.shiftl pins 16) in
  let data := pins in
  writel (Z.lor (Z.land 0xFFFF0000 (not32 mask)) data) IV_GPIO_MASK_DATA_0_MSW_OFFSET.
Definition before_hook_00108 : M bus unit := iv_00108_enable_clocks.
Definition has_clock_chip_00108 : bool := false.
Definition board_00108 : z8_hooks := Z8Hooks before_hook_00108 iv_z8_init_after_hook has_clock_chip_00108.

(** ** 00114 *)
Definition before_hook_00114 : M bus unit :=
  _ ← PSU_Mask_Write IOU_SLCR_MIO_MST_TRI1_OFFSET 0x00000030 0x00000000;
  _ ← writel 0x00000040 IOU_SLCR_MIO_PIN_36_OFFSET;
  _ ← writel 0x00000040 IOU_SLCR_MIO_PIN_37_OFFSET;
  _ ← PSU_Mask_Write CRL_APB_I2C0_REF_CTRL_OFFSET 0x013F3F07 0x01010F00;
  _ ← PSU_Mask_Write CRL_APB_I2C1_REF_CTRL_OFFSET 0x013F3F07 0x01010F00;
  _ ← PSU_Mask_Write CRL_APB_TIMESTAMP_REF_CTRL_OFFSET 0x01003F07 0x01000104;
  _ ← PSU_Mask_Write CRL_APB_RST_LPD_IOU2_OFFSET 0x00100000 0x00000000;
  _ ← PSU_Mask_Write CRL_APB_RST_LPD_IOU2_OFFSET 0x00000060 0x00000000;
  PSU_Mask_Write CRL_APB_RST_LPD_IOU2_OFFSET 0x00000600 0x00000000.
Definition board_00114 : z8_hooks := Z8Hooks before_hook_00114 iv_z8_init_after_hook iv_z8_has_clock_chip.

(** ** 00126 *)
Definition has_clock_chip_00126 : bool := false.
Definition board_00126 : z8_hooks := Z8Hooks iv_z8_init_before_hook iv_z8_init_after_hook has_clock_chip_00126.

(** ** 00127 *)
Definition before_hook_00127 : M bus unit :=
  _ ← PSU_Mask_Write IOU_SLCR_MIO_MST_TRI1_OFFSET 0x00000030 0x00000000;
  _ ← writel 0x00000040 IOU_SLCR_MIO_PIN_36_OFFSET;
  _ ← writel 0x00000040 IOU_SLCR_MIO_PIN_37_OFFSET;
  _ ← PSU_Mask_Write CRL_APB_I2C0_REF_CTRL_OFFSET 0x013F3F07 0x01010F00;
  _ ← PSU_Mask_Write CRL_APB_I2C1_REF_CTRL_OFFSET 0x013F3F07 0x01010F00;
  _ ← PSU_Mask_Write CRL_APB_TIMESTAMP_REF_CTRL_OFFSET 0x01003F07 0x01000104;
  _ ← PSU_Mask_Write CRL_APB_RST_LPD_IOU2_OFFSET 0x00100000 0x00000000;
  _ ← PSU_Mask_Write CRL_APB_RST_LPD_IOU2_OFFSET 0x00000060 0x00000000;
  PSU_Mask_Write CRL_APB_RST_LPD_IOU2_OFFSET 0x00000600 0x00000000.
Definition board_00127 : z8_hooks := Z8Hooks before_hook_00127 iv_z8_init_after_hook iv_z8_has_clock_chip.
End boards.

(** ** Registers that hold what is written *)

(** The value of a register after some accesses: the last one written, at first [init]. *)
Definition stored (init : Z -> Z) (w : bus) (a : Z) : Z :=
  foldl (fun v e => match e with Wr a' v' => if a' =? a then v' else v | Rd _ => v end) (u32 (init a)) w.
Definition memory (init : Z -> Z) : Soc := fun w a => stored init w a.
