(* ===== verification/BoardHooksProps.v ===== *)
(** * Properties of the boards' hooks

    Which bits of the processor's registers a board's hook changes, over registers that hold
    what is written to them, and that boards without a clock generator leave its bus alone. *)
From S2P Require Import Prelude ClkInit BoardHooks.

#[local] Open Scope list_scope.
#[local] Open Scope Z_scope.

(** ** Hooks as lists of writes *)

(** A masked write, or a plain one. *)
Inductive reg_write := Masked (a mask val : Z) | Plain (a val : Z).
Definition target (o : reg_write) : Z := match o with Masked a _ _ | Plain a _ => a end.

(** What it makes of the bit [n] of its register. *)
Definition write_bit (o : reg_write) (n : Z) (b : bool) : bool :=
  match o with
  | Masked _ mask val => if Z.testbit mask n then Z.testbit val n else b
  | Plain _ val => Z.testbit val n
  end.
Definition writes_bit (l : list reg_write) (a n : Z) (b : bool) : bool :=
  foldl (fun b o => if target o =? a then write_bit o n b else b) b l.

Definition run_write `{Soc} (o : reg_write) : M bus unit :=
  match o with Masked a mask val => PSU_Mask_Write a mask val | Plain a val => writel val a end.
Fixpoint run_writes `{Soc} (l : list reg_write) : M bus unit :=
  match l with [] => mret tt | o :: l => _ ← run_write o; run_writes l end.

Lemma stored_snoc init w e a :
  stored init (w ++ [e]) a = match e with Wr a' v => if a' =? a then v else stored init w a | Rd _ => stored init w a end.
Proof. unfold stored. by rewrite foldl_app. Qed.
Lemma u32_bit v n : 0 <= n < 32 -> Z.testbit (u32 v) n = Z.testbit v n.
Proof. intros Hn. unfold u32. by rewrite Z.mod_pow2_bits_low by lia. Qed.
Lemma not32_bit m n : 0 <= n < 32 -> Z.testbit (not32 m) n = negb (Z.testbit m n).
Proof.
  intros Hn. unfold not32. replace (2 ^ 32 - 1 - u32 m) with (u32 (Z.lnot (u32 m))).
  - rewrite u32_bit, Z.lnot_spec, u32_bit by lia. done.
  - unfold Z.lnot, u32. mlia.
Qed.

Lemma run_write_bits init o w :
  exists w', @run_write (memory init) o w = Some (tt, w') /\
    forall a n, 0 <= n < 32 -> Z.testbit (stored init w' a) n =
      (if target o =? a then write_bit o n (Z.testbit (stored init w a) n) else Z.testbit (stored init w a) n).
Proof.
  destruct o as [a0 mask val|a0 val]; unfold run_write, PSU_Mask_Write, mbind, M_bind, readl, writel;
    eexists; (split; [reflexivity|]); intros a n Hn; cbn [target].
  - rewrite !stored_snoc. destruct (a0 =? a) eqn:Ha; [|done]. apply Z.eqb_eq in Ha. subst a0.
    rewrite u32_bit, Z.lor_spec, !Z.land_spec, u32_bit, not32_bit by done. unfold soc_value, memory. cbn [write_bit].
    by destruct (Z.testbit mask n), (Z.testbit _ n), (Z.testbit val n).
  - rewrite stored_snoc. destruct (a0 =? a); [|done]. by rewrite u32_bit.
Qed.

Lemma run_writes_bits init l w :
  exists w', @run_writes (memory init) l w = Some (tt, w') /\
    forall a n, 0 <= n < 32 -> Z.testbit (stored init w' a) n = writes_bit l a n (Z.testbit (stored init w a) n).
Proof.
  revert w. induction l as [|o l IH]; intros w; [by exists w|].
  destruct (run_write_bits init o w) as (w1 & H1 & B1). destruct (IH w1) as (w2 & H2 & B2).
  exists w2. split; [cbn [run_writes]; unfold mbind, M_bind; by rewrite H1|].
  intros a n Hn. rewrite B2, B1 by done. done.
Qed.

(** ** The boards *)

Lemma clrbits_masked `{Soc} a m w : jsm_clrbits_le32 a m w = PSU_Mask_Write a m 0 w.
Proof. unfold jsm_clrbits_le32, PSU_Mask_Write, mbind, M_bind, readl, writel. by rewrite Z.land_0_l, Z.lor_0_r. Qed.

Definition weak_writes : list reg_write :=
  [Masked 0XFF180208 0x0003DFC3 0x00000082; Masked 0XFF5E0238 0x00100000 0; Masked 0XFF5E0238 0x00000600 0;
   Masked IOU_SLCR_MIO_PIN_8_OFFSET 0x000000FE 0x00000040; Masked IOU_SLCR_MIO_PIN_9_OFFSET 0x000000FE 0x00000040;
   Masked 0xff5e0238 0x400 0].
Definition writes_00104 : list reg_write := [Masked 0xFF5E0238 0x00000600 0].
Definition writes_00108 : list reg_write :=
  [Masked IV_GPIO_DIRM_0_OFFSET 0x1E0000 0x1E0000; Masked IV_GPIO_OEN_0_OFFSET 0x1E0000 0x1E0000;
   Plain IV_GPIO_MASK_DATA_0_MSW_OFFSET 0xFFE1001E].
Definition writes_00114 `{PsuInit} : list reg_write :=
  [Masked IOU_SLCR_MIO_MST_TRI1_OFFSET 0x00000030 0; Plain IOU_SLCR_MIO_PIN_36_OFFSET 0x00000040;
   Plain IOU_SLCR_MIO_PIN_37_OFFSET 0x00000040; Masked CRL_APB_I2C0_REF_CTRL_OFFSET 0x013F3F07 0x01010F00;
   Masked CRL_APB_I2C1_REF_CTRL_OFFSET 0x013F3F07 0x01010F00; Masked CRL_APB_TIMESTAMP_REF_CTRL_OFFSET 0x01003F07 0x01000104;
   Masked CRL_APB_RST_LPD_IOU2_OFFSET 0x00100000 0; Masked CRL_APB_RST_LPD_IOU2_OFFSET 0x00000060 0;
   Masked CRL_APB_RST_LPD_IOU2_OFFSET 0x00000600 0].

Section boards.
Context (init : Z -> Z) `{PsuInit}.
#[local] Instance regs : Soc := memory init.

Lemma weak_run w : iv_z8_init_before_hook w = run_writes weak_writes w.
Proof.
  unfold iv_z8_init_before_hook, mbind, M_bind. cbn -[PSU_Mask_Write jsm_clrbits_le32 Z.shiftl].
  unfold PSU_Mask_Write at 1 2 3 4 5. unfold mbind, M_bind, readl, writel. rewrite clrbits_masked. reflexivity.
Qed.
Lemma run_00104 w : before_hook_00104 w = run_writes writes_00104 w.
Proof. reflexivity. Qed.
Lemma run_00108 w : before_hook_00108 w = run_writes writes_00108 w.
Proof. reflexivity. Qed.
Lemma run_00114 w : before_hook_00114 w = run_writes writes_00114 w.
Proof. reflexivity. Qed.
Lemma run_00127 w : before_hook_00127 w = run_writes writes_00114 w.
Proof. reflexivity. Qed.

Lemma hook_bits hook l w : hook w = run_writes l w ->
  exists w', hook w = Some (tt, w') /\
    forall a n, 0 <= n < 32 -> Z.testbit (stored init w' a) n = writes_bit l a n (Z.testbit (stored init w a) n).
Proof. intros ->. apply run_writes_bits. Qed.

(** The reset bits a hook clears in [CRL_APB_RST_LPD_IOU2_OFFSET]: those of the I2C
    controllers are 9 and 10. *)
Definition hooks_cleared : list (M bus unit * list Z) :=
  [(iv_z8_init_before_hook, [20; 9; 10]); (before_hook_00104, [9; 10]);
   (before_hook_00114, [20; 5; 6; 9; 10]); (before_hook_00127, [20; 5; 6; 9; 10])].

Definition psu_registers : list Z :=
  [IOU_SLCR_MIO_MST_TRI1_OFFSET; IOU_SLCR_MIO_PIN_36_OFFSET; IOU_SLCR_MIO_PIN_37_OFFSET;
   CRL_APB_I2C0_REF_CTRL_OFFSET; CRL_APB_I2C1_REF_CTRL_OFFSET; CRL_APB_TIMESTAMP_REF_CTRL_OFFSET].

Lemma below_32 n : 0 <= n < 32 -> n ∈ seqZ 0 32.
Proof. intros Hn. apply elem_of_seqZ. lia. Qed.

(** The hooks that run before a clock generator is programmed take both I2C controllers
    out of reset; in the reset register they clear the bits listed for them and keep every
    other one. *)
Theorem i2c_out_of_reset hook cleared w :
  (hook, cleared) ∈ hooks_cleared -> Forall (fun a => a <> CRL_APB_RST_LPD_IOU2_OFFSET) psu_registers ->
  exists w', hook w = Some (tt, w') /\ 9 ∈ cleared /\ 10 ∈ cleared /\
    forall n, 0 <= n < 32 ->
      Z.testbit (stored init w' CRL_APB_RST_LPD_IOU2_OFFSET) n =
      Z.testbit (stored init w CRL_APB_RST_LPD_IOU2_OFFSET) n && negb (bool_decide (n ∈ cleared)).
Proof.
  intros Hin Hne.
  assert (exists l, hook w = run_writes l w /\ 9 ∈ cleared /\ 10 ∈ cleared /\ forall b n, 0 <= n < 32 ->
            writes_bit l CRL_APB_RST_LPD_IOU2_OFFSET n b = b && negb (bool_decide (n ∈ cleared))) as (l & Hl & H9 & H10 & Hb).
  2:{ destruct (hook_bits hook l w Hl) as (w' & Hr & Hw). exists w'. split_and!; [done..|].
      intros n Hn. by rewrite Hw, Hb. }
  unfold psu_registers in Hne. rewrite !Forall_cons in Hne. destruct Hne as (N1 & N2 & N3 & N4 & N5 & N6 & _).
  apply Z.eqb_neq in N1, N2, N3, N4, N5, N6.
  unfold hooks_cleared in Hin. rewrite !elem_of_cons, elem_of_nil in Hin.
  destruct Hin as [[= -> ->]|[[= -> ->]|[[= -> ->]|[[= -> ->]|[]]]]].
  - exists weak_writes. split_and!; [apply weak_run|set_solver|set_solver|].
    intros b n Hn%below_32. revert n Hn. apply Forall_forall. destruct b; by repeat constructor.
  - exists writes_00104. split_and!; [apply run_00104|set_solver|set_solver|].
    intros b n Hn%below_32. revert n Hn. apply Forall_forall. destruct b; by repeat constructor.
  - exists writes_00114. split_and!; [apply run_00114|set_solver|set_solver|].
    intros b n Hn%below_32. unfold writes_bit, writes_00114. cbn [foldl target]. rewrite N1, N2, N3, N4, N5, N6.
    revert n Hn. apply Forall_forall. destruct b; by repeat constructor.
  - exists writes_00114. split_and!; [apply run_00127|set_solver|set_solver|].
    intros b n Hn%below_32. unfold writes_bit, writes_00114. cbn [foldl target]. rewrite N1, N2, N3, N4, N5, N6.
    revert n Hn. apply Forall_forall. destruct b; by repeat constructor.
Qed.

(** What a value written to [IV_GPIO_MASK_DATA_0_MSW_OFFSET] does to pin [p], 16 to 25, by
    the description in the source: nothing when bit [p] masks it out, else it is driven as
    bit [p - 16] says. *)
Definition pin_driven (v p : Z) : option bool := if Z.testbit v p then None else Some (Z.testbit v (p - 16)).

(** On board 00108 the hook makes pins 17 to 20, which enable the oscillators, outputs
    that are driven high, and leaves the direction, the output enable and the level of every
    other pin and all other registers as they were. *)
Theorem oscillators_enabled w :
  exists w', before_hook_00108 w = Some (tt, w') /\
    (forall p, 0 <= p < 32 ->
       let on := (17 <=? p) && (p <=? 20) in
       Z.testbit (stored init w' IV_GPIO_DIRM_0_OFFSET) p = on || Z.testbit (stored init w IV_GPIO_DIRM_0_OFFSET) p /\
       Z.testbit (stored init w' IV_GPIO_OEN_0_OFFSET) p = on || Z.testbit (stored init w IV_GPIO_OEN_0_OFFSET) p) /\
    (forall p, 16 <= p < 26 ->
       pin_driven (stored init w' IV_GPIO_MASK_DATA_0_MSW_OFFSET) p =
         if (17 <=? p) && (p <=? 20) then Some true else None) /\
    (forall a n, a ∉ [IV_GPIO_DIRM_0_OFFSET; IV_GPIO_OEN_0_OFFSET; IV_GPIO_MASK_DATA_0_MSW_OFFSET] -> 0 <= n < 32 ->
       Z.testbit (stored init w' a) n = Z.testbit (stored init w a) n).
Proof.
  destruct (hook_bits _ _ w (run_00108 w)) as (w' & Hr & Hw). exists w'. split_and!; [done|..].
  - intros p Hp. rewrite !Hw by done. revert Hp. 
    generalize (Z.testbit (stored init w IV_GPIO_DIRM_0_OFFSET) p) (Z.testbit (stored init w IV_GPIO_OEN_0_OFFSET) p).
    intros b1 b2 Hn%below_32. revert p Hn. apply Forall_forall. destruct b1, b2; by repeat constructor.
  - intros p Hp. unfold pin_driven. rewrite !Hw by lia.
    generalize (Z.testbit (stored init w IV_GPIO_MASK_DATA_0_MSW_OFFSET) p)
      (Z.testbit (stored init w IV_GPIO_MASK_DATA_0_MSW_OFFSET) (p - 16)). intros b1 b2.
    assert (Hn : p ∈ seqZ 16 10) by (apply elem_of_seqZ; lia). clear Hp. revert p Hn. apply Forall_forall. by repeat constructor.
  - intros a n Ha Hn. rewrite Hw by done. unfold writes_bit, writes_00108. cbn [foldl target].
    rewrite !not_elem_of_cons in Ha. destruct Ha as (N1 & N2 & N3 & _).
    rewrite (proj2 (Z.eqb_neq IV_GPIO_DIRM_0_OFFSET a)), (proj2 (Z.eqb_neq IV_GPIO_OEN_0_OFFSET a)),
      (proj2 (Z.eqb_neq IV_GPIO_MASK_DATA_0_MSW_OFFSET a)) by done. done.
Qed.
End boards.

Definition access_addr (e : access) : Z := match e with Rd a | Wr a _ => a end.

(** Boards without a clock generator never touch the I2C controller, whatever the
    registers read. *)
Theorem no_chip_leaves_bus `{Soc} board fuel w :
  board ∈ [board_00108; board_00126] ->
  exists l, iv_z8_init board fuel w = Some (tt, w ++ l) /\
    Forall (fun e => ~ ZYNQ_I2C_BASE <= access_addr e < ZYNQ_I2C_BASE + 0x2C) l.
Proof.
  rewrite !elem_of_cons, elem_of_nil. intros [-> | [-> | []]]; unfold iv_z8_init, mbind, M_bind; cbn -[PSU_Mask_Write jsm_clrbits_le32];
    unfold before_hook_00108, iv_00108_enable_clocks, iv_z8_init_before_hook, PSU_Mask_Write, jsm_clrbits_le32, readl, writel, mbind, M_bind;
    rewrite <- !(assoc_L (++)); eexists; (split; [reflexivity|]); cbn [app];
    repeat (constructor; [unfold access_addr; vm_compute; intros [? ?]; by auto|]); constructor.
Qed.

(** ** Witnesses *)

#[local] Instance sample_psu : PsuInit := {
  IOU_SLCR_MIO_MST_TRI1_OFFSET := 0xFF180208; IOU_SLCR_MIO_PIN_36_OFFSET := 0xFF180090;
  IOU_SLCR_MIO_PIN_37_OFFSET := 0xFF180094; CRL_APB_I2C0_REF_CTRL_OFFSET := 0xFF5E0120;
  CRL_APB_I2C1_REF_CTRL_OFFSET := 0xFF5E0124; CRL_APB_TIMESTAMP_REF_CTRL_OFFSET := 0xFF5E0128
}.

Lemma i2c_out_of_reset_witness :
  exists w', @before_hook_00114 (memory (fun _ => 0x600)) sample_psu [] = Some (tt, w') /\ 9 ∈ [20; 5; 6; 9; 10] /\
    10 ∈ [20; 5; 6; 9; 10] /\
    forall n, 0 <= n < 32 ->
      Z.testbit (stored (fun _ => 0x600) w' CRL_APB_RST_LPD_IOU2_OFFSET) n =
      Z.testbit (stored (fun _ => 0x600) [] CRL_APB_RST_LPD_IOU2_OFFSET) n && negb (bool_decide (n ∈ [20; 5; 6; 9; 10])).
Proof.
  apply (i2c_out_of_reset (fun _ => 0x600) (@before_hook_00114 (memory (fun _ => 0x600)) sample_psu) [20; 5; 6; 9; 10] []).
  - unfold hooks_cleared. rewrite !elem_of_cons. right. right. left. reflexivity.
  - repeat constructor; by vm_compute.
Defined.
