(* ===== verification/Pwm.v ===== *)
(** * The PWM driver ([recipes-kernel/iv-pwm/src/pwm-iveia.c])

    The kernel's PWM core calls [iveia_pwm_apply] for a new state and, when it succeeds,
    records that state as the current one. *)
From S2P Require Import Prelude.

#[local] Open Scope list_scope.
#[local] Open Scope Z_scope.

Definition CONTROL_REG : Z := 0x00.
Definition CONTROL_REG_ENABLE : Z := 0x02.
Definition DUTY_REG : Z := 0x04.
Definition PERIOD_REG : Z := 0x08.
Definition CLOCK_REG : Z := 0x0C.
Definition NSEC_PER_SEC : Z := 1000000000.

(** Times in nanoseconds. *)
Record pwm_state := PwmState { period : Z; duty_cycle : Z; enabled : bool }.

(** The state the core has recorded, the registers of the controller, and whether the chip
    is registered with the core. *)
Record pwm_dev := PwmDev { cur_state : pwm_state; regs : gmap Z Z; registered : bool }.

Definition pwm_readl (reg : Z) : M pwm_dev Z := fun w => Some (default 0 (regs w !! reg), w).
Definition pwm_writel (v reg : Z) : M pwm_dev unit :=
  fun w => Some (tt, PwmDev (cur_state w) (<[reg := u32 v]> (regs w)) (registered w)).
Definition pwm_get_state : M pwm_dev pwm_state := fun w => Some (cur_state w, w).

Definition iveia_pwm_apply (state : pwm_state) : M pwm_dev Z :=
  cstate ← pwm_get_state;
  _ ← (if enabled state then
         pwm_clock ← pwm_readl CLOCK_REG;
         let period_reg := u64 (period cstate * pwm_clock) `quot` NSEC_PER_SEC in
         let duty_reg := u64 (duty_cycle cstate * pwm_clock) `quot` NSEC_PER_SEC in
         _ ← pwm_writel (u32 period_reg) PERIOD_REG;
         _ ← pwm_writel (u32 duty_reg) DUTY_REG;
         pwm_writel CONTROL_REG_ENABLE CONTROL_REG
       else if enabled cstate then pwm_writel 0x0 CONTROL_REG else mret tt);
  mret 0.

(** The answers of the kernel to [iveia_pwm_probe]: the allocation, the mapping of the
    registers and the registration with the core. *)
Record pwm_probe_env := { pe_alloc : bool; pe_ioremap : Z; pe_add : Z }.
Definition ENOMEM : Z := 12.

Definition iveia_pwm_probe (env : pwm_probe_env) : M pwm_dev Z :=
  if negb (pe_alloc env) then mret (- ENOMEM) else
  if pe_ioremap env <? 0 then mret (pe_ioremap env) else
  if pe_add env <? 0 then mret (pe_add env) else
  _ ← (fun w => Some (tt, PwmDev (cur_state w) (regs w) true));
  _ ← pwm_writel 0x0 CONTROL_REG;
  mret (pe_add env).

(** [pwmchip_remove] answers [r]. *)
Definition iveia_pwm_remove (r : Z) : M pwm_dev Z :=
  fun w => Some (r, PwmDev (cur_state w) (regs w) (if r =? 0 then false else registered w)).

(** The core around the driver. *)
Definition pwm_apply_state (state : pwm_state) : M pwm_dev Z :=
  r ← iveia_pwm_apply state;
  if negb (r =? 0) then mret r else ((fun w => Some (0, PwmDev state (regs w) (registered w))) : M pwm_dev Z).

(** The registers of a state: how many ticks of the clock its times are. *)
Definition ticks (clock ns : Z) : Z := u32 (u64 (ns * clock) `quot` NSEC_PER_SEC).

(** ** Properties *)

(** A conversion is exact up to rounding when neither the product nor the count wraps. *)
Lemma ticks_exact clock ns : 0 <= clock -> 0 <= ns -> ns * clock < 2 ^ 64 -> ns * clock < 2 ^ 32 * NSEC_PER_SEC ->
  let t := ticks clock ns in t * NSEC_PER_SEC <= ns * clock < (t + 1) * NSEC_PER_SEC.
Proof.
  unfold ticks, NSEC_PER_SEC. intros Hc Hn H64 H32. cbv zeta. rewrite (u64_small (ns * clock)) by nia.
  rewrite Z.quot_div_nonneg by nia. assert (0 <= ns * clock) by nia. set (x := ns * clock) in *.
  rewrite u32_small by mlia. mlia.
Qed.

Lemma apply_enabled state w : enabled state = true ->
  let clock := default 0 (regs w !! CLOCK_REG) in
  iveia_pwm_apply state w =
    Some (0, PwmDev (cur_state w)
      (<[CONTROL_REG := 2]> (<[DUTY_REG := ticks clock (duty_cycle (cur_state w))]>
        (<[PERIOD_REG := ticks clock (period (cur_state w))]> (regs w)))) (registered w)).
Proof.
  intros He clock. unfold iveia_pwm_apply, pwm_get_state, pwm_readl, pwm_writel, mbind, M_bind. rewrite He.
  unfold ticks, u32. by rewrite !Zmod_mod.
Qed.

(** enabling programs the controller with the times of the state recorded before, not
    of the one asked for: after two calls the registers hold the ticks of the first
    call's times, rounded down, while the core records the second state. *)
Theorem pwm_lags s1 s2 w :
  enabled s1 = true -> enabled s2 = true ->
  let clock := default 0 (regs w !! CLOCK_REG) in
  exists w1 w2, pwm_apply_state s1 w = Some (0, w1) /\ pwm_apply_state s2 w1 = Some (0, w2) /\
    cur_state w2 = s2 /\ regs w2 !! PERIOD_REG = Some (ticks clock (period s1)) /\
    regs w2 !! DUTY_REG = Some (ticks clock (duty_cycle s1)) /\ regs w2 !! CONTROL_REG = Some CONTROL_REG_ENABLE /\
    (0 <= clock -> 0 <= period s1 -> period s1 * clock < 2 ^ 64 -> period s1 * clock < 2 ^ 32 * NSEC_PER_SEC ->
     ticks clock (period s1) * NSEC_PER_SEC <= period s1 * clock < (ticks clock (period s1) + 1) * NSEC_PER_SEC).
Proof.
  intros H1 H2 clock.
  assert (Hrun : forall s w, enabled s = true -> pwm_apply_state s w =
    Some (0, PwmDev s (<[CONTROL_REG := 2]> (<[DUTY_REG := ticks (default 0 (regs w !! CLOCK_REG)) (duty_cycle (cur_state w))]>
        (<[PERIOD_REG := ticks (default 0 (regs w !! CLOCK_REG)) (period (cur_state w))]> (regs w)))) (registered w))).
  { intros s w' Hs. pose proof (apply_enabled s w' Hs) as Hr. cbv zeta in Hr. unfold pwm_apply_state, mbind, M_bind. by rewrite Hr. }
  eexists _, _. split; [by apply Hrun|]. split; [by apply Hrun|]. cbn [cur_state regs period duty_cycle].
  assert (Hclk : forall m : gmap Z Z, forall a b c, (<[CONTROL_REG := a]> (<[DUTY_REG := b]> (<[PERIOD_REG := c]> m))) !! CLOCK_REG = m !! CLOCK_REG).
  { intros m a b c. by rewrite !lookup_insert_ne. }
  rewrite !Hclk. fold clock. split_and!; [done| | | |by apply ticks_exact].
  - rewrite !lookup_insert_ne by done. apply lookup_insert_eq.
  - rewrite lookup_insert_ne by done. apply lookup_insert_eq.
  - apply lookup_insert_eq.
Qed.

(** Disabling an enabled channel clears the control register and nothing else; on a
    channel that is off it changes nothing. *)
Theorem pwm_disable_exact state w :
  enabled state = false ->
  iveia_pwm_apply state w =
    Some (0, if enabled (cur_state w) then PwmDev (cur_state w) (<[CONTROL_REG := 0]> (regs w)) (registered w) else w).
Proof.
  intros He. unfold iveia_pwm_apply, pwm_get_state, mbind, M_bind. rewrite He. by destruct (enabled (cur_state w)).
Qed.

(** ** Concrete inputs *)

Definition sample_pwm : pwm_dev := PwmDev (PwmState 0 0 false) {[CLOCK_REG := 100000000]} true.

Lemma pwm_lags_witness :
  exists w1 w2, pwm_apply_state (PwmState 1000000 500000 true) sample_pwm = Some (0, w1) /\
    pwm_apply_state (PwmState 2000000 500000 true) w1 = Some (0, w2) /\ regs w2 !! PERIOD_REG = Some 100000.
Proof.
  destruct (pwm_lags (PwmState 1000000 500000 true) (PwmState 2000000 500000 true) sample_pwm eq_refl eq_refl)
    as (w1 & w2 & H1 & H2 & _ & H3 & _). exists w1, w2. exact (conj H1 (conj H2 H3)).
Defined.

Lemma pwm_disable_exact_witness :
  iveia_pwm_apply (PwmState 1 1 false) (PwmDev (PwmState 9 9 true) ∅ true) = Some (0, PwmDev (PwmState 9 9 true) {[CONTROL_REG := 0]} true).
Proof. exact (pwm_disable_exact (PwmState 1 1 false) (PwmDev (PwmState 9 9 true) ∅ true) eq_refl). Defined.
