(* ===== verification/Pool.v ===== *)
(** * The packet pool of the ZAP driver ([iv-zap/src/pool.c])

    A pool cuts a DMA buffer into packets; every packet has an entry that is
    linked into one of three lists (free, fifo, used).  The model is the driver's
    on an LP64 kernel: [unsigned long] and pointers have 64 bits, addresses are
    integers, an entry is its index in the array [pentries].  [None] is a fault
    (an access outside the array, a NULL dereference, a division by zero, BUG) or
    a deadlock (taking a spinlock that is held). *)
From S2P Require Import Prelude.

(** ** Constants *)

Definition EINVAL : Z := 22.
Definition ENOMEM : Z := 12.
Definition EBUSY : Z := 16.
Definition EAGAIN : Z := 11.
Definition ERESTARTSYS : Z := 512.

Definition PAGE_SIZE : Z := 4096.
Definition PAGE_ALIGN (n : Z) : Z := u64 (Z.land (n + (PAGE_SIZE - 1)) (2 ^ 64 - PAGE_SIZE)).
(** Four words, one pointer and a [list_head] of two pointers. *)
Definition sizeof_pool_entry : Z := 56.
Definition sizeof_int : Z := 4.

(** ** State *)

(** The three list heads; [pcur_list] points to one of them or is NULL. *)
Inductive list_id := FREELIST | FIFOLIST | USEDLIST.
#[export] Instance list_id_eq_dec : EqDecision list_id.
Proof. solve_decision. Defined.

Record pool_entry := PoolEntry {
  pe_pbuf : Z;
  pe_flags : Z;
  pe_len : Z;
  pe_ooblen : Z;
  pe_pcur_list : option list_id
}.

(** The lists as the indices of the entries linked into them, first to last; the
    wait queues as the number of times they have been woken. *)
Record pool := Pool {
  p_size : Z;
  p_buf_paddr : Z;
  p_packet_size : Z;
  p_aligned_packet_size : Z;
  p_num_packets : Z;
  p_pentries : option (list pool_entry);
  p_ppackets : Z;
  p_locked : bool;
  p_freeq : nat;
  p_fifoq : nat;
  p_freelist : list nat;
  p_fifolist : list nat;
  p_usedlist : list nat
}.

Definition set_lists (free fifo used : list nat) (p : pool) : pool :=
  Pool (p_size p) (p_buf_paddr p) (p_packet_size p) (p_aligned_packet_size p) (p_num_packets p)
    (p_pentries p) (p_ppackets p) (p_locked p) (p_freeq p) (p_fifoq p) free fifo used.
Definition set_pentries (es : option (list pool_entry)) (p : pool) : pool :=
  Pool (p_size p) (p_buf_paddr p) (p_packet_size p) (p_aligned_packet_size p) (p_num_packets p)
    es (p_ppackets p) (p_locked p) (p_freeq p) (p_fifoq p) (p_freelist p) (p_fifolist p) (p_usedlist p).
Definition set_locked (l : bool) (p : pool) : pool :=
  Pool (p_size p) (p_buf_paddr p) (p_packet_size p) (p_aligned_packet_size p) (p_num_packets p)
    (p_pentries p) (p_ppackets p) l (p_freeq p) (p_fifoq p) (p_freelist p) (p_fifolist p) (p_usedlist p).
Definition wake_freeq (p : pool) : pool :=
  Pool (p_size p) (p_buf_paddr p) (p_packet_size p) (p_aligned_packet_size p) (p_num_packets p)
    (p_pentries p) (p_ppackets p) (p_locked p) (S (p_freeq p)) (p_fifoq p) (p_freelist p) (p_fifolist p) (p_usedlist p).
Definition wake_fifoq (p : pool) : pool :=
  Pool (p_size p) (p_buf_paddr p) (p_packet_size p) (p_aligned_packet_size p) (p_num_packets p)
    (p_pentries p) (p_ppackets p) (p_locked p) (p_freeq p) (S (p_fifoq p)) (p_freelist p) (p_fifolist p) (p_usedlist p).
Definition set_geometry (packet_size aligned num ppackets : Z) (p : pool) : pool :=
  Pool (p_size p) (p_buf_paddr p) packet_size aligned num
    (p_pentries p) ppackets (p_locked p) (p_freeq p) (p_fifoq p) (p_freelist p) (p_fifolist p) (p_usedlist p).

(** [spin_lock_irqsave] and [spin_unlock_irqrestore]. *)
Definition spin_lock (p : pool) : option pool := if p_locked p then None else Some (set_locked true p).
Definition spin_unlock (p : pool) : pool := set_locked false p.

(** ** List surgery *)

Definition list_without (i : nat) (l : list nat) : list nat := filter (fun j => j <> i) l.

(** Unlinks entry [i] from whatever list it is in; an entry that is in none has
    NULL links. *)
Definition list_unlink (i : nat) (p : pool) : option pool :=
  if bool_decide (i ∈ p_freelist p ++ p_fifolist p ++ p_usedlist p)
  then Some (set_lists (list_without i (p_freelist p)) (list_without i (p_fifolist p))
               (list_without i (p_usedlist p)) p)
  else None.

Definition list_link (f : list nat -> list nat) (dst : list_id) (p : pool) : pool :=
  match dst with
  | FREELIST => set_lists (f (p_freelist p)) (p_fifolist p) (p_usedlist p) p
  | FIFOLIST => set_lists (p_freelist p) (f (p_fifolist p)) (p_usedlist p) p
  | USEDLIST => set_lists (p_freelist p) (p_fifolist p) (f (p_usedlist p)) p
  end.

Definition list_move (i : nat) (dst : list_id) (p : pool) : option pool :=
  list_link (cons i) dst <$> list_unlink i p.
Definition list_move_tail (i : nat) (dst : list_id) (p : pool) : option pool :=
  list_link (fun l => l ++ [i]) dst <$> list_unlink i p.

(** ** Entries *)

(** [pentries[i]], for the [int] index [i]. *)
Definition entry_get (p : pool) (i : Z) : option pool_entry :=
  es ← p_pentries p; if i <? 0 then None else es !! Z.to_nat i.
Definition entry_set (i : nat) (e : pool_entry) (p : pool) : pool :=
  set_pentries (es ← p_pentries p; Some (<[i := e]> es)) p.

Definition pentry2pbuf (e : pool_entry) : Z := pe_pbuf e.

(** The index of the entry, computed in 32 bits; a fault when packets have no size. *)
Definition pbuf2pentry (p : pool) (pbuf : Z) : option Z :=
  if p_aligned_packet_size p =? 0 then None
  else Some (to_i32 (u32 (pbuf - p_ppackets p) `div` p_aligned_packet_size p)).

(** [_getbuf]: the buffer and its length. *)
Definition _getbuf (p : pool) : option ((Z * Z) * pool) :=
  match p_freelist p with
  | [] => None
  | i :: _ =>
    e ← entry_get p (Z.of_nat i);
    let e := PoolEntry (pe_pbuf e) (pe_flags e) (pe_len e) (pe_ooblen e) (Some USEDLIST) in
    p ← list_move i USEDLIST (entry_set i e p);
    Some ((pentry2pbuf e, pe_len e), p)
  end.

Definition _freebuf (p : pool) (pbuf : Z) : option pool :=
  i ← pbuf2pentry p pbuf;
  e ← entry_get p i;
  let i := Z.to_nat i in
  let e := PoolEntry (pe_pbuf e) (pe_flags e) (p_packet_size p) (pe_ooblen e) (Some FREELIST) in
  list_move_tail i FREELIST (entry_set i e p).

Definition _enqbuf (p : pool) (pbuf len ooblen flags : Z) : option pool :=
  i ← pbuf2pentry p pbuf;
  e ← entry_get p i;
  let i := Z.to_nat i in
  let e := PoolEntry (pe_pbuf e) flags len ooblen (Some FIFOLIST) in
  list_move_tail i FIFOLIST (entry_set i e p).

(** [_deqbuf]: the buffer, its length, out-of-band length and flags. *)
Definition _deqbuf (p : pool) : option ((Z * Z * Z * Z) * pool) :=
  match p_fifolist p with
  | [] => None
  | i :: _ =>
    e ← entry_get p (Z.of_nat i);
    let e := PoolEntry (pe_pbuf e) (pe_flags e) (pe_len e) (pe_ooblen e) (Some USEDLIST) in
    p ← list_move i USEDLIST (entry_set i e p);
    Some ((pentry2pbuf e, pe_len e, pe_ooblen e, pe_flags e), p)
  end.

(** The comparison of the entry's address with [&pentries[num_packets]] lets the
    index [num_packets] through; the entry is then read. *)
Definition is_valid_pbuf (p : pool) (pbuf : Z) : option bool :=
  if pbuf <? p_ppackets p then Some false
  else if p_buf_paddr p + p_size p <? pbuf then Some false
  else
    i ← pbuf2pentry p pbuf;
    if i <? 0 then Some false
    else if p_num_packets p <? i then Some false
    else e ← entry_get p i; Some (pe_pbuf e =? pbuf).

(** ** Public operations *)

(** [pool_create] on a zeroed structure or on one used before. *)
Definition pool_create (p : pool) (buf_paddr size : Z) : Z * pool :=
  (0, Pool size buf_paddr (p_packet_size p) (p_aligned_packet_size p) (p_num_packets p)
        (p_pentries p) (p_ppackets p) false 0 0 [] [] []).

Definition pool_destroy (p : pool) : pool :=
  Pool (p_size p) 0 (p_packet_size p) (p_aligned_packet_size p) (p_num_packets p)
    None (p_ppackets p) (p_locked p) (p_freeq p) (p_fifoq p) (p_freelist p) (p_fifolist p) (p_usedlist p).

(** The structure [kzalloc] gives. *)
Definition pool_zero : pool := Pool 0 0 0 0 0 None 0 false 0 0 [] [] [].

Definition pool_total_size (p : pool) : Z := p_size p.
Definition pool_packets_offset (p : pool) : Z := 0.
Definition pool_offset2pbuf (p : pool) (offset : Z) : Z := p_ppackets p + offset.
Definition pool_pbuf2offset (p : pool) (pbuf : Z) : Z := u64 (pbuf - p_ppackets p).
Definition pool_paddr (p : pool) : Z := p_buf_paddr p.

(** The initialisation loop: [n] iterations from [i]; every entry goes to the head
    of the free list. *)
Fixpoint init_entries (n : nat) (i : nat) (p : pool) : option pool :=
  match n with
  | O => Some p
  | S n =>
    e ← entry_get p (Z.of_nat i);
    let e := PoolEntry (p_ppackets p + Z.of_nat i * p_aligned_packet_size p) 0 (p_packet_size p)
               (pe_ooblen e) (Some FREELIST) in
    init_entries n (S i) (list_link (cons i) FREELIST (entry_set i e p))
  end.

Section kernel.
(** Whether [kzalloc] of that many bytes succeeds. *)
Context (kzalloc_ok : Z -> bool).

(** [pool_resize]; the failed allocation returns with the lock held. *)
Definition pool_resize (p : pool) (packet_size max_packets force : Z) : option (Z * pool) :=
  if u64 (p_size p - PAGE_ALIGN sizeof_pool_entry) <? packet_size then Some (- ENOMEM, p)
  else
    p ← spin_lock p;
    let aligned := Z.land (u64 (packet_size + (sizeof_int - 1))) (2 ^ 64 - sizeof_int) in
    let alloc_per_packet := u64 (sizeof_pool_entry + aligned) in
    if alloc_per_packet =? 0 then None else
    let num := Z.min (p_size p `div` alloc_per_packet) max_packets in
    let p := set_geometry packet_size aligned num (p_buf_paddr p) p in
    let bytes := u64 (num * sizeof_pool_entry) in
    if negb (kzalloc_ok bytes) then Some (- ENOMEM, set_pentries None p)
    else
      let p := set_pentries (Some (replicate (Z.to_nat (bytes `div` sizeof_pool_entry)) (PoolEntry 0 0 0 0 None))) p in
      let p := set_lists [] [] [] p in
      p ← init_entries (Z.to_nat num) 0 p;
      Some (0, spin_unlock p).

Definition pool_flush (p : pool) : option (Z * pool) :=
  pool_resize p (p_packet_size p) (p_num_packets p) 1.
End kernel.

Definition pool_busy (p : pool) : option (Z * pool) :=
  p ← spin_lock p;
  let busy := negb (bool_decide (p_usedlist p = [])) in
  Some (if busy then - EBUSY else 0, spin_unlock p).

Definition pool_bufinuse (p : pool) (pbuf : Z) : option bool :=
  i ← pbuf2pentry p pbuf;
  e ← entry_get p i;
  Some (bool_decide (pe_pcur_list e = Some USEDLIST)).

(** [! is_valid_pbuf(...) || ! pool_bufinuse(...)], left to right. *)
Definition not_used_pbuf (p : pool) (pbuf : Z) : option bool :=
  valid ← is_valid_pbuf p pbuf;
  if negb valid then Some true else used ← pool_bufinuse p pbuf; Some (negb used).

Definition pool_freebuf (p : pool) (pbuf : Z) : option (Z * pool) :=
  p ← spin_lock p;
  bad ← not_used_pbuf p pbuf;
  if (bad : bool) then Some (- EINVAL, spin_unlock p)
  else p ← _freebuf p pbuf; Some (0, wake_freeq (spin_unlock p)).

Definition pool_enqbuf (p : pool) (pbuf len ooblen flags : Z) : option (Z * pool) :=
  p ← spin_lock p;
  bad ← not_used_pbuf p pbuf;
  if (bad : bool) then Some (- EINVAL, spin_unlock p)
  else p ← _enqbuf p pbuf len ooblen flags; Some (0, wake_fifoq (spin_unlock p)).

(** The [try] operations: [Some] result when [gotbuf] is 1. *)
Definition pool_getbuf_try (p : pool) : option (option (Z * Z) * pool) :=
  p ← spin_lock p;
  if negb (bool_decide (p_freelist p = [])) then
    '(r, p) ← _getbuf p; Some (Some r, spin_unlock p)
  else Some (None, spin_unlock p).

Definition pool_deqbuf_try (p : pool) : option (option (Z * Z * Z * Z) * pool) :=
  p ← spin_lock p;
  if negb (bool_decide (p_fifolist p = [])) then
    '(r, p) ← _deqbuf p; Some (Some r, spin_unlock p)
  else Some (None, spin_unlock p).

(** ** Blocking operations

    What the environment does during one wait: a signal, the time-out, or a
    wake-up with the pool as the other threads have left it.  The operation gets
    the outcomes of its successive waits; when they run out it is still blocked. *)
Inductive wait_outcome :=
  | WaitSignal
  | WaitTimeout
  | WaitWoken (p : pool).

Inductive blocking (A : Type) :=
  | Returned (r : A)
  | StillBlocked.
Arguments Returned {A}.
Arguments StillBlocked {A}.

(** The error code or the result. *)
Abbreviation wait_result A := (blocking (Z + A)).

Section blocking.
Context {A : Type} (is_empty : pool -> bool) (take : pool -> option (A * pool)).

(** [while(list_empty) { unlock; wait; lock; }] followed by the removal; [p] is
    the locked pool, [timeout] tells the timed variant (the other one has no time-out
    and keeps sleeping). *)
Fixpoint wait_loop (timeout : bool) (waits : list wait_outcome) (p : pool) : option (wait_result A * pool) :=
  if is_empty p then
    let p := spin_unlock p in
    match waits with
    | [] => Some (StillBlocked, p)
    | WaitSignal :: _ => Some (Returned (inl (- ERESTARTSYS)), p)
    | WaitTimeout :: waits =>
      if timeout then Some (Returned (inl (- EAGAIN)), p) else Some (StillBlocked, p)
    | WaitWoken p' :: waits => p' ← spin_lock p'; wait_loop timeout waits p'
    end
  else '(r, p) ← take p; Some (Returned (inr r), spin_unlock p).
End blocking.

Definition freelist_empty (p : pool) : bool := bool_decide (p_freelist p = []).
Definition fifolist_empty (p : pool) : bool := bool_decide (p_fifolist p = []).

Definition pool_getbuf (waits : list wait_outcome) (p : pool) : option (wait_result (Z * Z) * pool) :=
  p ← spin_lock p; wait_loop freelist_empty _getbuf false waits p.
Definition pool_getbuf_timeout (waits : list wait_outcome) (p : pool) : option (wait_result (Z * Z) * pool) :=
  p ← spin_lock p; wait_loop freelist_empty _getbuf true waits p.
Definition pool_deqbuf (waits : list wait_outcome) (p : pool) : option (wait_result (Z * Z * Z * Z) * pool) :=
  p ← spin_lock p; wait_loop fifolist_empty _deqbuf false waits p.
Definition pool_deqbuf_timeout (waits : list wait_outcome) (p : pool) : option (wait_result (Z * Z * Z * Z) * pool) :=
  p ← spin_lock p; wait_loop fifolist_empty _deqbuf true waits p.

(** Readiness, for [poll]; the wait queue to sleep on is the list's. *)
Definition pool_buf_available (p : pool) : bool := negb (freelist_empty p).
Definition pool_fifo_buf_available (p : pool) : bool := negb (fifolist_empty p).
Definition pool_freebufs_ready (p : pool) : option (bool * pool) :=
  p ← spin_lock p; Some (negb (freelist_empty p), spin_unlock p).
Definition pool_fifobufs_ready (p : pool) : option (bool * pool) :=
  p ← spin_lock p; Some (negb (fifolist_empty p), spin_unlock p).

(** [pool_dump]: the entries printed for each list with the "BAD" mark, and the
    three counts. *)
Record dump := Dump {
  d_entries : list (list_id * Z * Z * Z * bool);
  d_free : Z; d_fifo : Z; d_used : Z
}.
Definition dump_list (p : pool) (l : list_id) (ids : list nat) : option (list (list_id * Z * Z * Z * bool)) :=
  mapM (fun i => e ← entry_get p (Z.of_nat i);
    Some (l, pe_pbuf e, pe_flags e, pe_len e, negb (bool_decide (pe_pcur_list e = Some l)))) ids.
Definition pool_dump (p : pool) (flags : Z) : option (dump * pool) :=
  p ← spin_lock p;
  free ← dump_list p FREELIST (p_freelist p);
  fifo ← dump_list p FIFOLIST (p_fifolist p);
  used ← dump_list p USEDLIST (p_usedlist p);
  Some (Dump (if flags =? 0 then free ++ fifo ++ used else []) (zlen free) (zlen fifo) (zlen used), spin_unlock p).
