(* ===== verification/PoolSpec.v ===== *)
(** * The packet pool: invariant and specification

    A pool partitions its packets into free, queued and used ones; the free list
    and the fifo are queues.  The operations of [Pool] preserve the invariant and
    implement the abstract pool. *)
From S2P Require Import Prelude Pool.

(** ** Invariant *)

Definition get_list (l : list_id) (p : pool) : list nat :=
  match l with FREELIST => p_freelist p | FIFOLIST => p_fifolist p | USEDLIST => p_usedlist p end.
Definition all_lists (p : pool) : list nat := p_freelist p ++ p_fifolist p ++ p_usedlist p.

Definition entries (p : pool) : list pool_entry := default [] (p_pentries p).
Definition packets (p : pool) : nat := length (entries p).

(** The address of packet [i]. *)
Definition buf (p : pool) (i : nat) : Z := p_ppackets p + Z.of_nat i * p_aligned_packet_size p.

(** The sizes: packets and entries fit the pool, and offsets fit 32 bits. *)
Definition geometry_ok (p : pool) : Prop :=
  0 < p_aligned_packet_size p /\ p_aligned_packet_size p `mod` 4 = 0 /\
  p_ppackets p = p_buf_paddr p /\
  p_num_packets p * (sizeof_pool_entry + p_aligned_packet_size p) <= p_size p < 2 ^ 32.

(** Entry [i] describes packet [i] and is in the list it says. *)
Definition entry_ok (p : pool) (i : nat) (e : pool_entry) : Prop :=
  pe_pbuf e = buf p i /\
  exists l, pe_pcur_list e = Some l /\ i ∈ get_list l p /\ (l = FREELIST -> pe_len e = p_packet_size p).

Record pool_wf (p : pool) : Prop := PoolWf {
  wf_geometry : geometry_ok p;
  wf_alloc : p_pentries p = Some (entries p);
  wf_num : zlen (entries p) = p_num_packets p;
  wf_partition : all_lists p ≡ₚ seq 0 (packets p);
  wf_entries : forall i e, entries p !! i = Some e -> entry_ok p i e
}.

(** Well formed and not locked: the state between operations. *)
Definition pool_ok (p : pool) : Prop := pool_wf p /\ p_locked p = false.

(** ** The abstract pool *)

(** Free packets, queued packets with their lengths and flags, used packets. *)
Record apool := APool {
  a_free : list nat;
  a_fifo : list (nat * (Z * Z * Z));
  a_used : list nat
}.

Definition meta (p : pool) (i : nat) : Z * Z * Z :=
  match entries p !! i with Some e => (pe_len e, pe_ooblen e, pe_flags e) | None => (0, 0, 0) end.
Definition abs (p : pool) : apool :=
  APool (p_freelist p) ((fun i => (i, meta p i)) <$> p_fifolist p) (p_usedlist p).

Definition a_get (a : apool) : option (nat * apool) :=
  match a_free a with [] => None | i :: free => Some (i, APool free (a_fifo a) (i :: a_used a)) end.
Definition a_put (i : nat) (a : apool) : option apool :=
  if bool_decide (i ∈ a_used a) then Some (APool (a_free a ++ [i]) (a_fifo a) (list_without i (a_used a))) else None.
Definition a_enq (i : nat) (m : Z * Z * Z) (a : apool) : option apool :=
  if bool_decide (i ∈ a_used a) then Some (APool (a_free a) (a_fifo a ++ [(i, m)]) (list_without i (a_used a))) else None.
Definition a_deq (a : apool) : option (nat * (Z * Z * Z) * apool) :=
  match a_fifo a with [] => None | q :: fifo => Some (q, APool (a_free a) fifo (fst q :: a_used a)) end.

(** ** Lemmas: lists *)

Lemma without_notin i l : i ∉ l -> list_without i l = l.
Proof.
  intros Hi. induction l as [|j l IH]; [done|]. unfold list_without in *. rewrite filter_cons.
  apply not_elem_of_cons in Hi as [Hne Hi]. rewrite decide_True by congruence. by rewrite IH.
Qed.

Lemma without_app i l1 l2 : list_without i (l1 ++ l2) = list_without i l1 ++ list_without i l2.
Proof. apply filter_app. Qed.

Lemma without_perm i l : NoDup l -> i ∈ l -> i :: list_without i l ≡ₚ l.
Proof.
  intros Hnd Hi. induction Hnd as [|j l Hj Hnd IH]; [by apply elem_of_nil in Hi|].
  unfold list_without in *. rewrite filter_cons. destruct (decide (j <> i)) as [Hne|Heq].
  - apply elem_of_cons in Hi as [->|Hi]; [done|]. rewrite Permutation_swap. by rewrite IH.
  - assert (j = i) as -> by (destruct (decide (j = i)); [done|by destruct Heq]).
    fold (list_without i l). by rewrite without_notin.
Qed.

Lemma elem_of_without j i l : j ∈ list_without i l <-> j <> i /\ j ∈ l.
Proof. unfold list_without. by rewrite list_elem_of_filter. Qed.

Lemma without_head i l : NoDup (i :: l) -> list_without i (i :: l) = l.
Proof.
  intros [Hi _]%NoDup_cons. unfold list_without. rewrite filter_cons, decide_False by tauto. by apply without_notin.
Qed.

(** ** Lemmas: the partition *)

Section wf.
Context (p : pool) (Hwf : pool_wf p).

Lemma lists_nodup : NoDup (all_lists p).
Proof. rewrite (wf_partition p Hwf). apply NoDup_seq. Qed.

Lemma in_lists i : i ∈ all_lists p <-> (i < packets p)%nat.
Proof. rewrite (wf_partition p Hwf), elem_of_seq. lia. Qed.

Lemma get_list_all l i : i ∈ get_list l p -> i ∈ all_lists p.
Proof. unfold all_lists. destruct l; cbn; set_solver. Qed.

Lemma lists_disjoint i : 
  NoDup (p_freelist p) /\ NoDup (p_fifolist p) /\ NoDup (p_usedlist p) /\
  (i ∈ p_freelist p -> (i ∉ p_fifolist p) /\ (i ∉ p_usedlist p)) /\ (i ∈ p_fifolist p -> i ∉ p_usedlist p).
Proof.
  pose proof lists_nodup as H. unfold all_lists in H.
  apply NoDup_app in H as (Hf & Hd1 & H). apply NoDup_app in H as (Hq & Hd2 & Hu).
  split_and!; [done..| |by apply Hd2]. intros Hi. apply Hd1 in Hi. set_solver.
Qed.

(** Membership in two lists is membership in one. *)
Lemma get_list_inj l1 l2 i : i ∈ get_list l1 p -> i ∈ get_list l2 p -> l1 = l2.
Proof. destruct (lists_disjoint i) as (_ & _ & _ & H1 & H2). destruct l1, l2; cbn; tauto. Qed.

Lemma entry_exists i : (i < packets p)%nat -> exists e, entries p !! i = Some e /\ entry_ok p i e.
Proof.
  intros Hi. destruct (lookup_lt_is_Some_2 (entries p) i Hi) as [e He].
  exists e. split; [done|]. by apply (wf_entries p Hwf).
Qed.

Lemma entry_get_ok i : entry_get p (Z.of_nat i) = entries p !! i.
Proof.
  unfold entry_get. rewrite (wf_alloc p Hwf). cbn [mbind option_bind].
  rewrite (proj2 (Z.ltb_ge _ _)), Nat2Z.id by lia. done.
Qed.

(** The entry of a packet's address. *)
Lemma pbuf2pentry_buf i : (i < packets p)%nat -> pbuf2pentry p (buf p i) = Some (Z.of_nat i).
Proof.
  intros Hi. destruct (wf_geometry p Hwf) as (Ha & Hm & _ & Hs). pose proof (wf_num p Hwf) as Hn.
  unfold packets in Hi. unfold zlen, sizeof_pool_entry in *.
  set (a := p_aligned_packet_size p) in *. assert (Hb : 0 <= Z.of_nat i * a < 2 ^ 32) by nia.
  unfold pbuf2pentry, buf. fold a. rewrite (proj2 (Z.eqb_neq a 0)) by lia.
  replace (p_ppackets p + Z.of_nat i * a - p_ppackets p) with (Z.of_nat i * a) by lia.
  unfold u32. rewrite Z.mod_small by lia. rewrite Z.div_mul by lia. f_equal.
  apply to_i32_small. nia.
Qed.

Lemma buf_range i : (i < packets p)%nat ->
  p_ppackets p <= buf p i /\ buf p i + p_aligned_packet_size p <= p_buf_paddr p + p_size p.
Proof.
  intros Hi. destruct (wf_geometry p Hwf) as (Ha & _ & Hpp & Hs). pose proof (wf_num p Hwf) as Hn.
  unfold packets, zlen, sizeof_pool_entry, buf in *. rewrite Hpp. nia.
Qed.

(** The test of the public operations: a packet's address is refused exactly when
    the packet is not used. *)
Lemma not_used_buf i :
  (i < packets p)%nat -> not_used_pbuf p (buf p i) = Some (negb (bool_decide (i ∈ p_usedlist p))).
Proof.
  intros Hi. destruct (buf_range i Hi) as [Hlo Hhi]. destruct (wf_geometry p Hwf) as (Ha & _).
  pose proof (wf_num p Hwf) as Hn. destruct (entry_exists i Hi) as (e & He & Hpb & l & Hcur & Hin & _).
  unfold not_used_pbuf, is_valid_pbuf, pool_bufinuse.
  rewrite (proj2 (Z.ltb_ge (buf p i) _)), (proj2 (Z.ltb_ge _ (buf p i))) by lia.
  rewrite pbuf2pentry_buf by done. cbn [mbind option_bind].
  rewrite (proj2 (Z.ltb_ge (Z.of_nat i) 0)), (proj2 (Z.ltb_ge _ (Z.of_nat i))) by (unfold packets, zlen in *; lia).
  rewrite entry_get_ok, He. cbn [mbind option_bind]. rewrite Hpb, Z.eqb_refl. cbn [negb mbind option_bind].
  do 2 f_equal. rewrite Hcur. apply bool_decide_ext. split; [by intros [= ->]|].
  intros Hu. f_equal. by apply (get_list_inj _ USEDLIST i).
Qed.

End wf.

(** ** Lemmas: moving an entry *)

(** [q] is [p] with entry [i] unlinked and linked into [dst] by [f]. *)
Definition relocated (p : pool) (i : nat) (e : pool_entry) (dst : list_id) (f : list nat -> list nat) : pool :=
  list_link f dst
    (set_lists (list_without i (p_freelist p)) (list_without i (p_fifolist p)) (list_without i (p_usedlist p))
       (entry_set i e p)).

Lemma move_relocated p i e dst :
  pool_wf p -> (i < packets p)%nat ->
  list_move i dst (entry_set i e p) = Some (relocated p i e dst (cons i)) /\
  list_move_tail i dst (entry_set i e p) = Some (relocated p i e dst (fun l => l ++ [i])).
Proof.
  intros Hwf Hi. apply (in_lists p Hwf) in Hi. unfold all_lists in Hi.
  unfold list_move, list_move_tail, list_unlink. cbn [entry_set set_pentries p_freelist p_fifolist p_usedlist].
  rewrite bool_decide_true by done. done.
Qed.

Section relocate.
Context (p : pool) (Hwf : pool_wf p) (i : nat) (e : pool_entry) (dst : list_id) (f : list nat -> list nat).
Context (Hi : (i < packets p)%nat) (Hf : forall l, f l ≡ₚ i :: l).
Context (Hbuf : pe_pbuf e = buf p i) (Hcur : pe_pcur_list e = Some dst).
Context (Hlen : dst = FREELIST -> pe_len e = p_packet_size p).

Let q := relocated p i e dst f.

Lemma relocated_entries : entries q = <[i := e]> (entries p).
Proof using Hwf. clear Hcur Hlen.
  unfold q, relocated, entries. destruct dst; cbn; rewrite (wf_alloc p Hwf); cbn; reflexivity.
Qed.

Lemma relocated_list l :
  get_list l q = if decide (l = dst) then f (list_without i (get_list l p)) else list_without i (get_list l p).
Proof using. clear Hcur Hlen. unfold q, relocated. by destruct l, dst. Qed.

Lemma relocated_partition : all_lists q ≡ₚ all_lists p.
Proof using Hwf Hi Hf. clear Hcur Hlen.
  rewrite <- (without_perm i (all_lists p)); [|by apply lists_nodup|by apply in_lists].
  unfold all_lists. rewrite !without_app. unfold q, relocated.
  destruct dst; cbn [list_link set_lists p_freelist p_fifolist p_usedlist entry_set set_pentries]; rewrite Hf; cbn [app].
  - done.
  - by rewrite <- Permutation_middle.
  - by rewrite <- !Permutation_middle.
Qed.

Lemma relocated_wf : pool_wf q.
Proof using Hwf Hi Hf Hbuf Hcur Hlen.
  pose proof relocated_entries as He. pose proof (wf_geometry p Hwf) as Hg.
  assert (Hn : packets q = packets p) by (unfold packets; by rewrite He, length_insert).
  split.
  - unfold q, relocated, geometry_ok in *. by destruct dst.
  - unfold q, relocated, entries. destruct dst; cbn; rewrite (wf_alloc p Hwf); done.
  - unfold zlen. rewrite He, length_insert. pose proof (wf_num p Hwf) as Hz. unfold zlen in Hz. rewrite Hz.
    unfold q, relocated. by destruct dst.
  - by rewrite relocated_partition, Hn, (wf_partition p Hwf).
  - intros j d Hd. rewrite He in Hd. assert (Hb : buf q j = buf p j) by (unfold q, relocated, buf; by destruct dst).
    unfold entry_ok. rewrite Hb. destruct (decide (j = i)) as [->|Hne].
    + rewrite list_lookup_insert_eq in Hd by done. injection Hd as <-. split; [done|]. exists dst. split_and!; [done| |].
      * rewrite relocated_list, decide_True by done. rewrite Hf. set_solver.
      * intros Hd. rewrite Hlen by done. unfold q, relocated. by destruct dst.
    + rewrite list_lookup_insert_ne in Hd by done. apply (wf_entries p Hwf) in Hd as (Hpb & l & Hc & Hin & Hl).
      split; [done|]. exists l. split_and!; [done| |].
      * rewrite relocated_list. assert (j ∈ list_without i (get_list l p)) by (by apply elem_of_without).
        destruct (decide (l = dst)); [|done]. rewrite Hf. set_solver.
      * intros Hd. rewrite Hl by done. unfold q, relocated. by destruct dst.
Qed.

Lemma relocated_meta j : j <> i -> meta q j = meta p j.
Proof using Hwf. intros Hne. unfold meta. by rewrite relocated_entries, list_lookup_insert_ne. Qed.

Lemma relocated_meta_self : meta q i = (pe_len e, pe_ooblen e, pe_flags e).
Proof using Hwf Hi. unfold meta. by rewrite relocated_entries, list_lookup_insert_eq. Qed.

(** The queue seen through the moved pool, when the entry is not queued in it. *)
Lemma relocated_fifo (l : list nat) : i ∉ l -> (fun j => (j, meta q j)) <$> l = (fun j => (j, meta p j)) <$> l.
Proof using Hwf.
  intros Hl. apply list_fmap_ext. intros k j Hj. rewrite relocated_meta; [done|].
  intros ->. apply Hl. by eapply list_elem_of_lookup_2.
Qed.

End relocate.

(** What moving entries leaves alone. *)
Definition frame (p : pool) : list Z * bool * nat * nat :=
  ([p_size p; p_buf_paddr p; p_packet_size p; p_aligned_packet_size p; p_num_packets p; p_ppackets p],
   p_locked p, p_freeq p, p_fifoq p).

Lemma relocated_frame p i e dst f : frame (relocated p i e dst f) = frame p.
Proof. by destruct dst. Qed.

Lemma relocated_packets p i e dst f : pool_wf p -> packets (relocated p i e dst f) = packets p.
Proof. intros Hwf. unfold packets. by rewrite relocated_entries, length_insert. Qed.

(** ** Lemmas: the internal operations *)

Lemma getbuf_spec p :
  pool_wf p -> 
  match a_get (abs p) with
  | None => _getbuf p = None
  | Some (i, a) => (i < packets p)%nat /\
      exists q, _getbuf p = Some ((buf p i, p_packet_size p), q) /\ pool_wf q /\ abs q = a /\ frame q = frame p
  end.
Proof.
  intros Hwf. unfold a_get, abs at 1, _getbuf. cbn [a_free]. destruct (p_freelist p) as [|i free] eqn:Hfree; [done|].
  assert (Hin : i ∈ get_list FREELIST p) by (cbn; rewrite Hfree; set_solver).
  assert (Hi : (i < packets p)%nat) by (apply (in_lists p Hwf); by eapply get_list_all).
  split; [done|]. destruct (entry_exists p Hwf i Hi) as (e & He & Hpb & l & Hc & Hl & Hlen).
  assert (l = FREELIST) as -> by by apply (get_list_inj p Hwf _ _ i).
  rewrite (entry_get_ok p Hwf), He. cbn [mbind option_bind].
  set (e' := PoolEntry _ _ _ _ (Some USEDLIST)). destruct (move_relocated p i e' USEDLIST Hwf Hi) as [-> _].
  cbn [mbind option_bind]. eexists. split; [|split; [|split]].
  - unfold pentry2pbuf. cbn [e' pe_pbuf pe_len]. rewrite Hpb, Hlen by done. reflexivity.
  - by apply relocated_wf.
  - destruct (lists_disjoint p Hwf i) as (Hndf & _ & _ & Hd & _). destruct (Hd Hin) as [Hq Hu].
    unfold abs. f_equal.
    + cbn. rewrite Hfree in Hndf |- *. by apply without_head.
    + transitivity ((fun j => (j, meta (relocated p i e' USEDLIST (cons i)) j)) <$> p_fifolist p).
      * cbn. by rewrite (without_notin i (p_fifolist p)).
      * by apply relocated_fifo.
    + cbn. by rewrite without_notin.
  - apply relocated_frame.
Qed.

Lemma deqbuf_spec p :
  pool_wf p ->
  match a_deq (abs p) with
  | None => _deqbuf p = None
  | Some (i, (len, oob, flags), a) => (i < packets p)%nat /\
      exists q, _deqbuf p = Some ((buf p i, len, oob, flags), q) /\ pool_wf q /\ abs q = a /\ frame q = frame p
  end.
Proof.
  intros Hwf. unfold a_deq, abs at 1, _deqbuf. cbn [a_fifo]. destruct (p_fifolist p) as [|i fifo] eqn:Hfifo; [done|].
  assert (Hin : i ∈ get_list FIFOLIST p) by (cbn; rewrite Hfifo; set_solver).
  assert (Hi : (i < packets p)%nat) by (apply (in_lists p Hwf); by eapply get_list_all).
  destruct (entry_exists p Hwf i Hi) as (e & He & Hpb & l & Hc & Hl & _).
  cbn [fmap list_fmap]. unfold meta at 1. rewrite He.
  split; [done|]. rewrite (entry_get_ok p Hwf), He. cbn [mbind option_bind].
  set (e' := PoolEntry _ _ _ _ (Some USEDLIST)). destruct (move_relocated p i e' USEDLIST Hwf Hi) as [-> _].
  cbn [mbind option_bind]. eexists. split; [|split; [|split]].
  - unfold pentry2pbuf. cbn [e' pe_pbuf pe_len pe_ooblen pe_flags]. rewrite Hpb. reflexivity.
  - by apply relocated_wf.
  - destruct (lists_disjoint p Hwf i) as (_ & Hndq & _ & Hd & Hd'). cbn in Hin.
    pose proof (Hd' Hin) as Hu. assert (Hf : i ∉ p_freelist p) by tauto.
    unfold abs. cbn [a_free a_used fst]. f_equal.
    + cbn. by rewrite without_notin.
    + rewrite Hfifo in Hndq. pose proof Hndq as [Hnf _]%NoDup_cons.
      transitivity ((fun j => (j, meta (relocated p i e' USEDLIST (cons i)) j)) <$> fifo).
      * cbn. by rewrite Hfifo, (without_head i fifo).
      * by apply relocated_fifo.
    + cbn. by rewrite without_notin.
  - apply relocated_frame.
Qed.

(** Both operations that end the use of a packet. *)
Lemma used_move_spec p i e dst f a :
  pool_wf p -> i ∈ p_usedlist p -> (forall l, f l ≡ₚ i :: l) -> pe_pbuf e = buf p i ->
  pe_pcur_list e = Some dst -> (dst = FREELIST -> pe_len e = p_packet_size p) ->
  let q := relocated p i e dst f in
  (dst = FREELIST -> a = APool (f (p_freelist p)) (a_fifo (abs p)) (list_without i (p_usedlist p))) ->
  (dst = FIFOLIST -> a = APool (p_freelist p)
     ((fun j => (j, if decide (j = i) then (pe_len e, pe_ooblen e, pe_flags e) else meta p j)) <$> f (p_fifolist p))
     (list_without i (p_usedlist p))) ->
  dst <> USEDLIST -> pool_wf q /\ abs q = a.
Proof.
  intros Hwf Hu Hf Hb Hc Hl q Ha1 Ha2 Hne.
  assert (Hi : (i < packets p)%nat) by (apply (in_lists p Hwf); by apply (get_list_all p Hwf USEDLIST)).
  split; [by apply relocated_wf|].
  destruct (lists_disjoint p Hwf i) as (_ & _ & _ & Hd & Hd').
  assert (Hff : i ∉ p_freelist p) by (intros Hx; apply Hd in Hx; tauto). assert (Hfq : i ∉ p_fifolist p) by tauto.
  destruct dst; [rewrite Ha1 by done|rewrite Ha2 by done|done]; unfold abs; f_equal.
  - cbn. by rewrite without_notin.
  - transitivity ((fun j => (j, meta q j)) <$> p_fifolist p).
    + cbn. by rewrite (without_notin i (p_fifolist p)).
    + by apply relocated_fifo.
  - cbn. by rewrite without_notin.
  - transitivity ((fun j => (j, meta q j)) <$> f (p_fifolist p)).
    + cbn. by rewrite (without_notin i (p_fifolist p)).
    + apply list_fmap_ext. intros k j _. destruct (decide (j = i)) as [->|Hji].
      * unfold q. by rewrite (relocated_meta_self p Hwf i e FIFOLIST f Hi).
      * unfold q. by rewrite (relocated_meta p Hwf i e FIFOLIST f j Hji).
Qed.

(** ** Lemmas: the public operations *)

Lemma wf_set_locked b p : pool_wf p -> pool_wf (set_locked b p).
Proof. intros [H1 H2 H3 H4 H5]. by split. Qed.

Lemma lock_ok p : pool_ok p -> spin_lock p = Some (set_locked true p) /\ pool_wf (set_locked true p).
Proof. intros [Hwf Hl]. unfold spin_lock. rewrite Hl. split; [done|]. by apply wf_set_locked. Qed.

Lemma unlock_ok p : pool_wf p -> pool_ok (spin_unlock p).
Proof. intros Hwf. split; [by apply wf_set_locked|done]. Qed.

Lemma unlock_lock p : pool_ok p -> spin_unlock (set_locked true p) = p.
Proof. intros [_ Hl]. destruct p. cbn in *. by subst. Qed.

(** [packet_size] and the addresses of the packets are part of the frame. *)
Lemma frame_buf p q : frame p = frame q -> (forall i, buf p i = buf q i) /\ p_packet_size p = p_packet_size q /\
  p_num_packets p = p_num_packets q.
Proof. unfold frame, buf. intros [=]. split_and!; congruence. Qed.

Lemma frame_packets p q : pool_wf p -> pool_wf q -> frame p = frame q -> packets p = packets q.
Proof.
  intros Hp Hq (_ & _ & Hn)%frame_buf. pose proof (wf_num p Hp). pose proof (wf_num q Hq).
  unfold packets, zlen in *. lia.
Qed.

(** The results of the four operations on a pool between operations. *)
Definition get_result (p : pool) (o : option (Z * Z)) (q : pool) : Prop :=
  match a_get (abs p) with
  | None => o = None /\ q = p
  | Some (i, a) => o = Some (buf p i, p_packet_size p) /\ abs q = a
  end.
Definition deq_result (p : pool) (o : option (Z * Z * Z * Z)) (q : pool) : Prop :=
  match a_deq (abs p) with
  | None => o = None /\ q = p
  | Some (i, (len, oob, flags), a) => o = Some (buf p i, len, oob, flags) /\ abs q = a
  end.

Lemma getbuf_try_spec p :
  pool_ok p -> exists o q, pool_getbuf_try p = Some (o, q) /\ pool_ok q /\ get_result p o q /\ frame q = frame p.
Proof.
  intros Hok. destruct (lock_ok p Hok) as [Hl Hwf]. unfold pool_getbuf_try, get_result.
  rewrite Hl. cbn [mbind option_bind]. pose proof (getbuf_spec _ Hwf) as Hs.
  change (abs (set_locked true p)) with (abs p) in Hs. unfold a_get in *. cbn [abs a_free] in *.
  change (p_freelist (set_locked true p)) with (p_freelist p).
  destruct (p_freelist p) as [|i free].
  - rewrite bool_decide_true by done. cbn [negb]. do 2 eexists. split; [done|]. by rewrite unlock_lock.
  - rewrite bool_decide_false by done. cbn [negb]. destruct Hs as (_ & q & Hg & Hq & Ha & Hf).
    rewrite Hg. cbn [mbind option_bind]. do 2 eexists. split; [done|]. split; [by apply unlock_ok|]. split; [done|].
    unfold frame in *. destruct Hok as [_ Hl0]. cbn in Hf |- *. rewrite Hl0. congruence.
Qed.

Lemma deqbuf_try_spec p :
  pool_ok p -> exists o q, pool_deqbuf_try p = Some (o, q) /\ pool_ok q /\ deq_result p o q /\ frame q = frame p.
Proof.
  intros Hok. destruct (lock_ok p Hok) as [Hl Hwf]. unfold pool_deqbuf_try, deq_result.
  rewrite Hl. cbn [mbind option_bind]. pose proof (deqbuf_spec _ Hwf) as Hs.
  change (abs (set_locked true p)) with (abs p) in Hs. unfold a_deq in *. cbn [abs a_fifo] in *.
  change (p_fifolist (set_locked true p)) with (p_fifolist p).
  destruct (p_fifolist p) as [|i fifo].
  - rewrite bool_decide_true by done. cbn [negb]. do 2 eexists. split; [done|]. by rewrite unlock_lock.
  - rewrite bool_decide_false by done. cbn [negb fmap list_fmap] in *. destruct (meta p i) as [[len oob] fl].
    destruct Hs as (_ & q & Hg & Hq & Ha & Hf).
    rewrite Hg. cbn [mbind option_bind]. do 2 eexists. split; [done|]. split; [by apply unlock_ok|]. split; [done|].
    unfold frame in *. destruct Hok as [_ Hl0]. cbn in Hf |- *. rewrite Hl0. congruence.
Qed.

Lemma freebuf_spec p i :
  pool_ok p -> (i < packets p)%nat ->
  match a_put i (abs p) with
  | None => pool_freebuf p (buf p i) = Some (- EINVAL, p)
  | Some a => exists q, pool_freebuf p (buf p i) = Some (0, q) /\ pool_ok q /\ abs q = a /\
      frame q = frame (wake_freeq p)
  end.
Proof.
  intros Hok Hi. destruct (lock_ok p Hok) as [Hl Hwf]. unfold a_put, pool_freebuf. cbn [abs a_used].
  rewrite Hl. cbn [mbind option_bind]. set (pl := set_locked true p) in *.
  change (packets p) with (packets pl) in Hi. change (buf p i) with (buf pl i).
  rewrite (not_used_buf pl Hwf i Hi). cbn [mbind option_bind]. change (p_usedlist p) with (p_usedlist pl).
  destruct (decide (i ∈ p_usedlist pl)) as [Hu|Hu].
  2:{ rewrite (bool_decide_false _ Hu). cbn [negb]. unfold pl. by rewrite unlock_lock. }
  rewrite (bool_decide_true _ Hu). cbn [negb]. destruct (entry_exists pl Hwf i Hi) as (e & He & Hpb & _).
  unfold _freebuf. rewrite (pbuf2pentry_buf pl Hwf i Hi). cbn [mbind option_bind].
  rewrite (entry_get_ok pl Hwf), He. cbn [mbind option_bind]. rewrite Nat2Z.id.
  set (e' := PoolEntry _ _ _ _ (Some FREELIST)). destruct (move_relocated pl i e' FREELIST Hwf Hi) as [_ ->].
  cbn [mbind option_bind].
  destruct (used_move_spec pl i e' FREELIST (fun l => l ++ [i]) _ Hwf Hu
    ltac:(intros l; by rewrite Permutation_app_comm) Hpb eq_refl ltac:(done) ltac:(intros _; reflexivity) ltac:(discriminate) ltac:(discriminate))
    as [Hq Ha].
  eexists. split; [reflexivity|]. destruct (unlock_ok _ Hq) as [Hq1 Hq2].
  split; [split; [by destruct Hq1; split|done]|]. split; [exact Ha|].
  pose proof (relocated_frame pl i e' FREELIST (fun l => l ++ [i])) as Hf. unfold frame in *.
  destruct Hok as [_ Hl0]. cbn in Hf |- *. rewrite Hl0. congruence.
Qed.

Lemma enqbuf_spec p i len oob flags :
  pool_ok p -> (i < packets p)%nat ->
  match a_enq i (len, oob, flags) (abs p) with
  | None => pool_enqbuf p (buf p i) len oob flags = Some (- EINVAL, p)
  | Some a => exists q, pool_enqbuf p (buf p i) len oob flags = Some (0, q) /\ pool_ok q /\ abs q = a /\
      frame q = frame (wake_fifoq p)
  end.
Proof.
  intros Hok Hi. destruct (lock_ok p Hok) as [Hl Hwf]. unfold a_enq, pool_enqbuf. cbn [abs a_used].
  rewrite Hl. cbn [mbind option_bind]. set (pl := set_locked true p) in *.
  change (packets p) with (packets pl) in Hi. change (buf p i) with (buf pl i).
  rewrite (not_used_buf pl Hwf i Hi). cbn [mbind option_bind]. change (p_usedlist p) with (p_usedlist pl).
  destruct (decide (i ∈ p_usedlist pl)) as [Hu|Hu].
  2:{ rewrite (bool_decide_false _ Hu). cbn [negb]. unfold pl. by rewrite unlock_lock. }
  rewrite (bool_decide_true _ Hu). cbn [negb]. destruct (entry_exists pl Hwf i Hi) as (e & He & Hpb & _).
  unfold _enqbuf. rewrite (pbuf2pentry_buf pl Hwf i Hi). cbn [mbind option_bind].
  rewrite (entry_get_ok pl Hwf), He. cbn [mbind option_bind]. rewrite Nat2Z.id.
  set (e' := PoolEntry _ _ _ _ (Some FIFOLIST)). destruct (move_relocated pl i e' FIFOLIST Hwf Hi) as [_ ->].
  cbn [mbind option_bind].
  destruct (lists_disjoint pl Hwf i) as (_ & _ & _ & Hd & Hd'). assert (Hfq : i ∉ p_fifolist pl) by tauto.
  destruct (used_move_spec pl i e' FIFOLIST (fun l => l ++ [i]) _ Hwf Hu
    ltac:(intros l; by rewrite Permutation_app_comm) Hpb eq_refl ltac:(discriminate) ltac:(discriminate) ltac:(intros _; reflexivity) ltac:(discriminate))
    as [Hq Ha].
  eexists. split; [reflexivity|]. destruct (unlock_ok _ Hq) as [Hq1 Hq2].
  split; [split; [by destruct Hq1; split|done]|]. split.
  - etransitivity; [exact Ha|]. f_equal. rewrite fmap_app. f_equal.
    + apply list_fmap_ext. intros k j Hj. rewrite decide_False; [done|].
      intros ->. apply Hfq. by eapply list_elem_of_lookup_2.
    + cbn. by rewrite decide_True by done.
  - pose proof (relocated_frame pl i e' FIFOLIST (fun l => l ++ [i])) as Hf. unfold frame in *.
    destruct Hok as [_ Hl0]. cbn in Hf |- *. rewrite Hl0. congruence.
Qed.

(** ** Lemmas: resizing *)

Lemma align4 x : 0 <= x < 2 ^ 64 -> Z.land x (2 ^ 64 - sizeof_int) = 4 * (x `div` 4).
Proof.
  intros Hx. unfold sizeof_int. set (a := 2 ^ 64 - 4).
  assert (Hor : Z.land x (Z.lor a 3) = x).
  { change (Z.lor a 3) with (Z.ones 64). rewrite Z.land_ones by lia. by apply Z.mod_small. }
  rewrite Z.land_lor_distr_r in Hor.
  pose proof (Z.add_lor_land (Z.land x a) (Z.land x 3)) as Hadd.
  assert (Z.land (Z.land x a) (Z.land x 3) = 0) as H0.
  { apply Z.bits_inj'. intros n _. rewrite !Z.land_spec, Z.bits_0.
    assert (Hn : Z.testbit a n && Z.testbit 3 n = false) by (rewrite <- Z.land_spec; apply Z.bits_0).
    by destruct (Z.testbit x n), (Z.testbit a n), (Z.testbit 3 n). }
  change (Z.land x 3) with (Z.land x (Z.ones 2)) in *. rewrite Z.land_ones in * by lia. change (2 ^ 2) with 4 in *.
  rewrite Hor, H0 in Hadd. mlia.
Qed.

(** The pool after the loop, from the pool before it. *)
Lemma init_entries_spec n : forall i p,
  p_pentries p = Some (entries p) -> packets p = (i + n)%nat ->
  exists q, init_entries n i p = Some q /\ frame q = frame p /\ p_pentries q = Some (entries q) /\
    packets q = packets p /\ p_freelist q = rev (seq i n) ++ p_freelist p /\
    p_fifolist q = p_fifolist p /\ p_usedlist q = p_usedlist p /\
    (forall j, (j < i)%nat -> entries q !! j = entries p !! j) /\
    (forall j e, (i <= j)%nat -> entries q !! j = Some e ->
       pe_pbuf e = buf p j /\ pe_pcur_list e = Some FREELIST /\ pe_len e = p_packet_size p).
Proof.
  induction n as [|n IH]; intros i p Hp Hn; cbn [init_entries].
  - exists p. split_and!; try done. intros j e Hj He. apply lookup_lt_Some in He. unfold packets in Hn. lia.
  - unfold packets in Hn. destruct (lookup_lt_is_Some_2 (entries p) i ltac:(lia)) as [e He].
    assert (entry_get p (Z.of_nat i) = Some e) as ->.
    { unfold entry_get. rewrite Hp. cbn [mbind option_bind]. by rewrite (proj2 (Z.ltb_ge _ _)), Nat2Z.id by lia. }
    cbn [mbind option_bind]. set (e' := PoolEntry _ _ _ _ (Some FREELIST)).
    set (p1 := list_link (cons i) FREELIST (entry_set i e' p)).
    assert (He1 : entries p1 = <[i := e']> (entries p)).
    { unfold p1, entries. cbn. rewrite Hp. done. }
    destruct (IH (S i) p1) as (q & -> & Hf & Ha & Hl & Hfree & Hfifo & Hused & Hlow & Hhigh).
    { unfold p1, entries. cbn. rewrite Hp. done. }
    { unfold packets. rewrite He1, length_insert. lia. }
    exists q. split_and!; [done|exact Hf|done| | |done|done| |].
    + rewrite Hl. unfold packets. by rewrite He1, length_insert.
    + rewrite Hfree. cbn [seq rev]. rewrite <- (assoc_L (++)). done.
    + intros j Hj. rewrite Hlow by lia. rewrite He1. by rewrite list_lookup_insert_ne by lia.
    + intros j d Hj Hd. destruct (decide (j = i)) as [->|Hne].
      * rewrite Hlow, He1, list_lookup_insert_eq in Hd by lia. injection Hd as <-. done.
      * apply (Hhigh j d); [lia|done].
Qed.

Lemma pool_resize_spec ok p packet_size max_packets force :
  p_locked p = false -> 0 < packet_size -> PAGE_SIZE + packet_size <= p_size p < 2 ^ 32 -> 0 <= max_packets ->
  (forall n, ok n = true) ->
  exists q, pool_resize ok p packet_size max_packets force = Some (0, q) /\ pool_ok q /\
    p_size q = p_size p /\ p_buf_paddr q = p_buf_paddr p /\ p_packet_size q = packet_size /\
    p_aligned_packet_size q = 4 * ((packet_size + 3) `div` 4) /\
    Z.of_nat (packets q) = Z.min (p_size p `div` (56 + 4 * ((packet_size + 3) `div` 4))) max_packets /\
    abs q = APool (rev (seq 0 (packets q))) [] [].
Proof.
  intros Hl Hps Hsz Hmax Hok. unfold pool_resize, PAGE_SIZE in *.
  change (PAGE_ALIGN sizeof_pool_entry) with 4096. rewrite (u64_small (p_size p - 4096)) by lia.
  rewrite (proj2 (Z.ltb_ge _ _)) by lia. unfold spin_lock. rewrite Hl. cbn [mbind option_bind].
  set (aligned := 4 * ((packet_size + 3) `div` 4)).
  assert (Hal : 0 < aligned <= packet_size + 3) by (unfold aligned; mlia).
  replace (Z.land (u64 (packet_size + (sizeof_int - 1))) (2 ^ 64 - sizeof_int)) with aligned.
  2:{ change (packet_size + (sizeof_int - 1)) with (packet_size + 3). rewrite u64_small by lia.
      symmetry. apply align4. lia. }
  change sizeof_pool_entry with 56. rewrite (u64_small (56 + aligned)) by lia. cbv zeta. rewrite (proj2 (Z.eqb_neq (56 + aligned) 0)) by lia.
  change (p_size (set_locked true p)) with (p_size p).
  set (num := Z.min (p_size p `div` (56 + aligned)) max_packets).
  assert (Hd : 0 <= p_size p `div` (56 + aligned)) by (apply Z.div_pos; lia).
  assert (Hd2 : p_size p `div` (56 + aligned) * (56 + aligned) <= p_size p) by mlia.
  assert (Hnum : 0 <= num /\ num * (56 + aligned) <= p_size p) by (unfold num; nia).
  rewrite (u64_small (num * 56)) by nia. rewrite Hok. cbn [negb]. rewrite Z.div_mul by lia.
  match goal with |- context [init_entries _ 0 ?P] => set (p0 := P) end.
  assert (He0 : entries p0 = replicate (Z.to_nat num) (PoolEntry 0 0 0 0 None)) by done.
  destruct (init_entries_spec (Z.to_nat num) 0 p0) as (q & -> & Hf & Ha & Hn & Hfree & Hfifo & Hused & _ & Hent).
  { done. } { unfold packets. by rewrite He0, length_replicate. }
  cbn [mbind option_bind]. unfold packets in Hn. rewrite He0, length_replicate in Hn.
  change (p_freelist p0) with (@nil nat) in Hfree. change (p_fifolist p0) with (@nil nat) in Hfifo.
  change (p_usedlist p0) with (@nil nat) in Hused. rewrite app_nil_r in Hfree.
  unfold frame in Hf. cbn in Hf. injection Hf as Hs1 Hs2 Hs3 Hs4 Hs5 Hs6 Hs7 Hs8 Hs9.
  exists (spin_unlock q). split; [done|]. split.
  { apply unlock_ok. split.
    - unfold geometry_ok, sizeof_pool_entry. rewrite Hs1, Hs2, Hs4, Hs5, Hs6. split_and!; [lia| |done|lia|lia].
      unfold aligned. rewrite Z.mul_comm. apply Z.mod_mul. lia.
    - done.
    - unfold zlen. rewrite Hn, Hs5. lia.
    - unfold all_lists. rewrite Hfree, Hfifo, Hused, !app_nil_r, <- Permutation_rev. unfold packets. by rewrite Hn.
    - intros i e He. apply lookup_lt_Some in He as Hi. apply Hent in He as (Hpb & Hc & Hlen); [|lia]. split.
      + rewrite Hpb. unfold buf. by rewrite Hs4, Hs6.
      + exists FREELIST. split_and!; [done| |intros _; by rewrite Hs3, Hlen].
        cbn. rewrite Hfree. apply list_elem_of_In, in_rev. rewrite rev_involutive. apply in_seq. lia. }
  split_and!; [exact Hs1|exact Hs2|exact Hs3|exact Hs4| |].
  - unfold packets. change (entries (spin_unlock q)) with (entries q). rewrite Hn. lia.
  - unfold packets. change (entries (spin_unlock q)) with (entries q). rewrite Hn.
    unfold abs. cbn. by rewrite Hfree, Hfifo, Hused.
Qed.
