(* ===== verification/PoolProps.v ===== *)
(** * The packet pool: properties

    Refinement of the abstract pool by every operation, the queue discipline over
    whole histories, blocking removal, and the two defects of the code: the lock
    kept by a failed resize and the index one past the last entry. *)
From S2P Require Import Prelude Pool PoolSpec.

(** ** Histories *)

(** Operations on the packets of a pool, and what they report. *)
Inductive pool_op :=
  | OpGet
  | OpFree (i : nat)
  | OpEnq (i : nat) (len ooblen flags : Z)
  | OpDeq.

(** A queued packet: its buffer, length, out-of-band length and flags. *)
Abbreviation packet := (Z * Z * Z * Z)%type.

(** One operation: the packets that entered and left the fifo. *)
Definition run_op (o : pool_op) (p : pool) : option (list packet * list packet * pool) :=
  match o with
  | OpGet => '(_, q) ← pool_getbuf_try p; Some ([], [], q)
  | OpFree i => '(_, q) ← pool_freebuf p (buf p i); Some ([], [], q)
  | OpEnq i len oob fl =>
    '(r, q) ← pool_enqbuf p (buf p i) len oob fl;
    Some (if r =? 0 then [(buf p i, len, oob, fl)] else [], [], q)
  | OpDeq => '(r, q) ← pool_deqbuf_try p; Some ([], match r with Some pk => [pk] | None => [] end, q)
  end.

Fixpoint run_ops (os : list pool_op) (p : pool) : option (list packet * list packet * pool) :=
  match os with
  | [] => Some ([], [], p)
  | o :: os =>
    '(enq, deq, p) ← run_op o p;
    '(enqs, deqs, p) ← run_ops os p;
    Some (enq ++ enqs, deq ++ deqs, p)
  end.

Definition op_in_range (n : nat) (o : pool_op) : Prop :=
  match o with OpFree i | OpEnq i _ _ _ => (i < n)%nat | _ => True end.

(** The contents of the fifo, first to last. *)
Definition queued (p : pool) : list packet :=
  (fun q => (buf p (fst q), fst (fst (snd q)), snd (fst (snd q)), snd (snd q))) <$> a_fifo (abs p).

Lemma queued_eq p a : a_fifo (abs p) = a ->
  queued p = (fun q => (buf p (fst q), fst (fst (snd q)), snd (fst (snd q)), snd (snd q))) <$> a.
Proof. by intros <-. Qed.

Lemma queued_ext p q : (forall i, buf p i = buf q i) -> abs p = abs q -> queued p = queued q.
Proof. intros Hb Ha. unfold queued. rewrite Ha. apply list_fmap_ext. intros k x _. by rewrite Hb. Qed.

Lemma wake_frame p q : (frame q = frame (wake_freeq p) \/ frame q = frame (wake_fifoq p) \/ frame q = frame p) ->
  (forall i, buf q i = buf p i) /\ p_num_packets q = p_num_packets p.
Proof. by intros [H|[H|H]]; apply frame_buf in H as (? & _ & ?). Qed.

(** One step keeps the invariant, the packets and the order of the queue. *)
Lemma run_op_spec o p :
  pool_ok p -> op_in_range (packets p) o ->
  exists enq deq q, run_op o p = Some (enq, deq, q) /\ pool_ok q /\ packets q = packets p /\
    queued p ++ enq = deq ++ queued q.
Proof.
  intros Hok Hr.
  assert (Hpk : forall q, pool_ok q -> frame q = frame p \/ frame q = frame (wake_freeq p) \/ frame q = frame (wake_fifoq p) ->
    packets q = packets p /\ forall i, buf q i = buf p i).
  { intros q [Hq _] Hf. destruct Hok as [Hp _]. destruct (wake_frame p q) as (Hb & Hn); [tauto|].
    split; [|done]. pose proof (wf_num p Hp). pose proof (wf_num q Hq). unfold packets, zlen in *. lia. }
  destruct o as [|i|i len oob fl|]; cbn [run_op op_in_range] in *.
  - destruct (getbuf_try_spec p Hok) as (o & q & -> & Hq & Hres & Hf). cbn [mbind option_bind].
    destruct (Hpk q Hq) as [Hn Hb]; [auto|]. exists [], [], q. split_and!; [done..|]. rewrite app_nil_r. cbn [app].
    unfold get_result, a_get in Hres. cbn [abs a_free] in Hres.
    destruct (p_freelist p); [by destruct Hres as [_ ->]|]. destruct Hres as [_ Ha].
    rewrite (queued_eq q _ ltac:(by rewrite Ha)). unfold queued. cbn [a_fifo]. apply list_fmap_ext. intros. by rewrite Hb.
  - pose proof (freebuf_spec p i Hok Hr) as Hs. unfold a_put in Hs. case_bool_decide.
    + destruct Hs as (q & -> & Hq & Ha & Hf). cbn [mbind option_bind]. destruct (Hpk q Hq) as [Hn Hb]; [auto|].
      exists [], [], q. split_and!; [done..|]. rewrite app_nil_r. cbn [app].
      rewrite (queued_eq q _ ltac:(by rewrite Ha)). apply list_fmap_ext. intros. by rewrite Hb.
    + rewrite Hs. cbn [mbind option_bind]. exists [], [], p. rewrite app_nil_r. by split_and!.
  - pose proof (enqbuf_spec p i len oob fl Hok Hr) as Hs. unfold a_enq in Hs. case_bool_decide.
    + destruct Hs as (q & -> & Hq & Ha & Hf). cbn [mbind option_bind Z.eqb]. destruct (Hpk q Hq) as [Hn Hb]; [auto|].
      exists [(buf p i, len, oob, fl)], [], q. split_and!; [done..|]. cbn [app].
      rewrite (queued_eq q _ ltac:(by rewrite Ha)). cbn [a_fifo]. rewrite fmap_app. cbn [fmap list_fmap fst snd].
      rewrite Hb. f_equal. apply list_fmap_ext. intros. by rewrite Hb.
    + rewrite Hs. cbn [mbind option_bind]. exists [], [], p. rewrite app_nil_r. by split_and!.
  - destruct (deqbuf_try_spec p Hok) as (o & q & -> & Hq & Hres & Hf). cbn [mbind option_bind].
    destruct (Hpk q Hq) as [Hn Hb]; [auto|]. unfold deq_result, a_deq in Hres.
    destruct (a_fifo (abs p)) as [|[i [[len oob] fl]] fifo] eqn:Hfifo.
    + destruct Hres as [-> ->]. exists [], [], p. rewrite app_nil_r. by split_and!.
    + destruct Hres as [-> Ha]. exists [], [(buf p i, len, oob, fl)], q. split_and!; [done..|]. rewrite app_nil_r.
      rewrite (queued_eq p _ Hfifo), (queued_eq q _ ltac:(by rewrite Ha)). cbn [a_fifo fmap list_fmap app fst snd].
      f_equal. apply list_fmap_ext. intros. by rewrite Hb.
Qed.

Lemma run_ops_spec os : forall p,
  pool_ok p -> Forall (op_in_range (packets p)) os ->
  exists enqs deqs q, run_ops os p = Some (enqs, deqs, q) /\ pool_ok q /\ packets q = packets p /\
    queued p ++ enqs = deqs ++ queued q.
Proof.
  induction os as [|o os IH]; intros p Hok Hr; cbn [run_ops].
  - exists [], [], p. rewrite app_nil_r. by split_and!.
  - inversion_clear Hr as [|? ? Ho Hos].
    destruct (run_op_spec o p Hok Ho) as (enq & deq & p1 & -> & Hok1 & Hn1 & Hq1). cbn [mbind option_bind].
    destruct (IH p1 Hok1 ltac:(by rewrite Hn1)) as (enqs & deqs & q & -> & Hq & Hn & Hqq). cbn [mbind option_bind].
    exists (enq ++ enqs), (deq ++ deqs), q. split_and!; [done..|congruence|].
    by rewrite (assoc_L (++)), Hq1, <- (assoc_L (++)), Hqq, (assoc_L (++)).
Qed.

(** ** Lemmas: blocking removal *)

(** The outcomes a wait can have when the other threads keep the invariant. *)
Definition waits_ok (waits : list wait_outcome) : Prop :=
  Forall (fun w => match w with WaitWoken p => pool_ok p | _ => True end) waits.

(** The pools the operation can see: its own and those it wakes up to. *)
Definition seen (p : pool) (waits : list wait_outcome) : list pool :=
  p :: omap (fun w => match w with WaitWoken p => Some p | _ => None end) waits.

Lemma wait_loop_deq timeout waits : forall p,
  pool_ok p -> waits_ok waits ->
  exists r q p0, wait_loop fifolist_empty _deqbuf timeout waits (set_locked true p) = Some (r, q) /\ pool_ok q /\
    p0 ∈ seen p waits /\ pool_ok p0 /\
    match r with
    | Returned (inr pk) => deq_result p0 (Some pk) q
    | Returned (inl e) => q = p0 /\ (e = - ERESTARTSYS \/ (e = - EAGAIN /\ timeout = true))
    | StillBlocked => q = p0 /\ a_fifo (abs p0) = []
    end.
Proof.
  induction waits as [|w waits IH]; intros p Hok Hw.
  all: destruct (lock_ok p Hok) as [_ Hwf]; pose proof (deqbuf_spec _ Hwf) as Hs; change (abs (set_locked true p)) with (abs p) in Hs;
    unfold a_deq in Hs; cbn [wait_loop]; unfold fifolist_empty at 1; change (p_fifolist (set_locked true p)) with (p_fifolist p);
    cbn [abs a_fifo] in Hs; case_bool_decide as He.
  - exists StillBlocked, p, p. rewrite unlock_lock by done. split_and!; [done|done|set_solver|done|done|]. cbn. by rewrite He.
  - destruct (p_fifolist p) as [|i fifo] eqn:Hl; [done|]. cbn [fmap list_fmap] in Hs. destruct (meta p i) as [[len oob] fl] eqn:Hm.
    destruct Hs as (_ & q & -> & Hq & Ha & _). cbn [mbind option_bind].
    exists (Returned (inr (buf p i, len, oob, fl))), (spin_unlock q), p. split_and!; [done|by apply unlock_ok|set_solver|done|].
    unfold deq_result, a_deq. cbn [abs a_fifo]. rewrite Hl. cbn [fmap list_fmap]. rewrite Hm. split; [done|]. exact Ha.
  - inversion_clear Hw as [|? ? Hw1 Hws]. rewrite unlock_lock by done. destruct w as [| |p'].
    + exists (Returned (inl (- ERESTARTSYS))), p, p. split_and!; [done|done|set_solver|done|done|by left].
    + destruct timeout.
      * exists (Returned (inl (- EAGAIN))), p, p. split_and!; [done|done|set_solver|done|done|by right].
      * exists StillBlocked, p, p. split_and!; [done|done|set_solver|done|done|]. cbn. by rewrite He.
    + destruct (lock_ok p' Hw1) as [-> _]. cbn [mbind option_bind].
      destruct (IH p' Hw1 Hws) as (r & q & p0 & Hrun & Hq & Hin & Hp0 & Hr).
      exists r, q, p0. split_and!; [done|done| |done|done]. unfold seen in *. cbn. set_solver.
  - destruct (p_fifolist p) as [|i fifo] eqn:Hl; [done|]. cbn [fmap list_fmap] in Hs. destruct (meta p i) as [[len oob] fl] eqn:Hm.
    destruct Hs as (_ & q & -> & Hq & Ha & _). cbn [mbind option_bind].
    exists (Returned (inr (buf p i, len, oob, fl))), (spin_unlock q), p. split_and!; [done|by apply unlock_ok|set_solver|done|].
    unfold deq_result, a_deq. cbn [abs a_fifo]. rewrite Hl. cbn [fmap list_fmap]. rewrite Hm. split; [done|]. exact Ha.
Qed.

(** ** Lemmas: addresses that are not packets *)

Lemma pbuf2pentry_inside p i k :
  pool_wf p -> (i < packets p)%nat \/ (i = packets p /\ k = 0) -> 0 <= k < p_aligned_packet_size p ->
  pbuf2pentry p (buf p i + k) = Some (Z.of_nat i).
Proof.
  intros Hwf Hi Hk. destruct (wf_geometry p Hwf) as (Ha & Hm & _ & Hs). pose proof (wf_num p Hwf) as Hn.
  unfold packets in Hi. unfold zlen, sizeof_pool_entry in *. set (a := p_aligned_packet_size p) in *.
  assert (Ha4 : 4 <= a) by mlia.
  assert (Hb : 0 <= Z.of_nat i * a + k < 2 ^ 32) by (destruct Hi as [Hi|[Hi ->]]; nia).
  unfold pbuf2pentry, buf. fold a. rewrite (proj2 (Z.eqb_neq a 0)) by lia.
  replace (p_ppackets p + Z.of_nat i * a + k - p_ppackets p) with (Z.of_nat i * a + k) by lia.
  unfold u32. rewrite Z.mod_small by lia. rewrite Z.div_add_l, Z.div_small, Z.add_0_r by lia.
  by rewrite to_i32_small by nia.
Qed.

Lemma dump_list_ok p l :
  pool_wf p -> exists es, dump_list p l (get_list l p) = Some es /\ zlen es = zlen (get_list l p) /\
    Forall (fun d => snd d = false) es.
Proof.
  intros Hwf. assert (Hin : forall i, i ∈ get_list l p -> i ∈ get_list l p) by done.
  revert Hin. generalize (get_list l p) at 1 3 4. intros ids. induction ids as [|i ids IH]; intros Hin.
  - by exists [].
  - destruct IH as (es & Hes & Hl & Hbad); [intros; apply Hin; set_solver|].
    assert (Hi : i ∈ get_list l p) by (apply Hin; set_solver).
    destruct (entry_exists p Hwf i) as (e & He & Hpb & l' & Hc & Hl' & _); [apply (in_lists p Hwf); by eapply get_list_all|].
    assert (l' = l) as -> by by apply (get_list_inj p Hwf _ _ i).
    exists ((l, pe_pbuf e, pe_flags e, pe_len e, false) :: es). split_and!.
    + unfold dump_list in *. cbn [mapM] in *. rewrite (entry_get_ok p Hwf), He. cbn [mbind option_bind].
      rewrite Hes. cbn [mbind option_bind mret option_ret]. rewrite bool_decide_true by done. done.
    + zl.
    + by constructor.
Qed.

(** ** Properties *)

(** over every history of operations on the packets of a well-formed pool no
    operation faults or hangs, the invariant holds at the end, and the packets that
    left the fifo followed by those still in it are the packets that were in it
    followed by those accepted since, in that order, with their lengths and flags:
    nothing is lost, duplicated or reordered. *)
Theorem pool_fifo_order os p :
  pool_ok p -> Forall (op_in_range (packets p)) os ->
  exists enqs deqs q, run_ops os p = Some (enqs, deqs, q) /\ pool_ok q /\ packets q = packets p /\
    queued p ++ enqs = deqs ++ queued q.
Proof. intros. by apply run_ops_spec. Qed.

(** C2: each operation on a packet of a well-formed pool computes exactly what the
    abstract pool specifies: get takes the oldest free packet with the full length,
    deq the oldest queued one with what was queued with it, free and enq accept
    precisely the used packets (and wake the waiters) and return -EINVAL and change
    nothing for the others; so a packet cannot be freed or queued twice. *)
Theorem pool_implements_abstract p :
  pool_ok p ->
  (exists o q, pool_getbuf_try p = Some (o, q) /\ pool_ok q /\ get_result p o q) /\
  (exists o q, pool_deqbuf_try p = Some (o, q) /\ pool_ok q /\ deq_result p o q) /\
  (forall i, (i < packets p)%nat ->
     match a_put i (abs p) with
     | None => pool_freebuf p (buf p i) = Some (- EINVAL, p)
     | Some a => exists q, pool_freebuf p (buf p i) = Some (0, q) /\ pool_ok q /\ abs q = a /\ p_freeq q = S (p_freeq p)
     end) /\
  (forall i len oob fl, (i < packets p)%nat ->
     match a_enq i (len, oob, fl) (abs p) with
     | None => pool_enqbuf p (buf p i) len oob fl = Some (- EINVAL, p)
     | Some a => exists q, pool_enqbuf p (buf p i) len oob fl = Some (0, q) /\ pool_ok q /\ abs q = a /\ p_fifoq q = S (p_fifoq p)
     end).
Proof.
  intros Hok. split_and!.
  - destruct (getbuf_try_spec p Hok) as (o & q & ? & ? & ? & _). by exists o, q.
  - destruct (deqbuf_try_spec p Hok) as (o & q & ? & ? & ? & _). by exists o, q.
  - intros i Hi. pose proof (freebuf_spec p i Hok Hi) as Hs. destruct (a_put i (abs p)); [|done].
    destruct Hs as (q & ? & ? & ? & Hf). exists q. split_and!; try done. unfold frame in Hf. cbn in Hf. congruence.
  - intros i len oob fl Hi. pose proof (enqbuf_spec p i len oob fl Hok Hi) as Hs. destruct (a_enq _ _ (abs p)); [|done].
    destruct Hs as (q & ? & ? & ? & Hf). exists q. split_and!; try done. unfold frame in Hf. cbn in Hf. congruence.
Qed.

(** resizing an unlocked pool to a packet size that leaves room for one page
    succeeds when the allocation does, whatever the pool held before; the result is
    a well-formed pool of exactly min(size / (56 + aligned size), max_packets)
    packets, all free, queued highest address first. *)
Theorem pool_resize_partitions ok p packet_size max_packets force :
  p_locked p = false -> 0 < packet_size -> PAGE_SIZE + packet_size <= p_size p < 2 ^ 32 -> 0 <= max_packets ->
  (forall n, ok n = true) ->
  exists q, pool_resize ok p packet_size max_packets force = Some (0, q) /\ pool_ok q /\
    p_size q = p_size p /\ p_buf_paddr q = p_buf_paddr p /\ p_packet_size q = packet_size /\
    p_aligned_packet_size q = 4 * ((packet_size + 3) `div` 4) /\
    Z.of_nat (packets q) = Z.min (p_size p `div` (56 + 4 * ((packet_size + 3) `div` 4))) max_packets /\
    abs q = APool (rev (seq 0 (packets q))) [] [].
Proof. intros. by apply pool_resize_spec. Qed.

(** The packets of a well-formed pool lie inside its buffer and do not overlap. *)
Theorem pool_buffers_disjoint p i j :
  pool_ok p -> (i < j < packets p)%nat ->
  p_buf_paddr p <= buf p i /\ buf p i + p_aligned_packet_size p <= buf p j /\
  buf p j + p_aligned_packet_size p <= p_buf_paddr p + p_size p.
Proof.
  intros [Hwf _] Hij. destruct (buf_range p Hwf i) as [Hi _]; [lia|]. destruct (buf_range p Hwf j) as [_ Hj]; [lia|].
  destruct (wf_geometry p Hwf) as (Ha & _ & Hpp & _). unfold buf in *. rewrite Hpp in *. split_and!; nia.
Qed.

(** The blocking removal from the fifo never faults or hangs on a held lock,
    and always leaves an unlocked well-formed pool: it returns the oldest packet of
    a pool it has seen, or an error or no answer with that pool unchanged; only the
    timed variant can answer -EAGAIN, and it is still asleep only while the fifo is
    empty. *)
Theorem pool_deqbuf_blocking waits p :
  pool_ok p -> waits_ok waits ->
  forall timeout : bool, exists r q p0,
    (if timeout then pool_deqbuf_timeout waits p else pool_deqbuf waits p) = Some (r, q) /\ pool_ok q /\
    p0 ∈ seen p waits /\ pool_ok p0 /\
    match r with
    | Returned (inr pk) => deq_result p0 (Some pk) q
    | Returned (inl e) => q = p0 /\ (e = - ERESTARTSYS \/ (e = - EAGAIN /\ timeout = true))
    | StillBlocked => q = p0 /\ a_fifo (abs p0) = []
    end.
Proof.
  intros Hok Hw timeout. destruct (lock_ok p Hok) as [Hl _].
  destruct (wait_loop_deq timeout waits p Hok Hw) as (r & q & p0 & Hrun & H). exists r, q, p0.
  split; [|done]. unfold pool_deqbuf_timeout, pool_deqbuf. destruct timeout; rewrite Hl; exact Hrun.
Qed.

(** An address inside a packet that is not its first byte is refused with
    -EINVAL and the pool is unchanged. *)
Theorem pool_rejects_misaligned p i k len oob fl :
  pool_ok p -> (i < packets p)%nat -> 0 < k < p_aligned_packet_size p ->
  pool_freebuf p (buf p i + k) = Some (- EINVAL, p) /\ pool_enqbuf p (buf p i + k) len oob fl = Some (- EINVAL, p).
Proof.
  intros Hok Hi Hk. destruct (lock_ok p Hok) as [Hl Hwf].
  assert (Hbad : not_used_pbuf (set_locked true p) (buf p i + k) = Some true).
  { set (pl := set_locked true p) in *. change (buf p i) with (buf pl i). change (packets p) with (packets pl) in Hi.
    change (p_aligned_packet_size p) with (p_aligned_packet_size pl) in Hk.
    destruct (buf_range pl Hwf i Hi) as [Hlo Hhi]. destruct (entry_exists pl Hwf i Hi) as (e & He & Hpb & _).
    pose proof (wf_num pl Hwf) as Hn. unfold not_used_pbuf, is_valid_pbuf.
    rewrite (proj2 (Z.ltb_ge _ (p_ppackets pl))), (proj2 (Z.ltb_ge (p_buf_paddr pl + _) _)) by lia.
    rewrite (pbuf2pentry_inside pl i k Hwf) by (first [lia | by left | by right]). cbn [mbind option_bind].
    rewrite (proj2 (Z.ltb_ge (Z.of_nat i) 0)), (proj2 (Z.ltb_ge _ (Z.of_nat i))) by (unfold packets, zlen in *; lia).
    rewrite (entry_get_ok pl Hwf), He. cbn [mbind option_bind]. rewrite Hpb, (proj2 (Z.eqb_neq _ _)) by lia. done. }
  unfold pool_freebuf, pool_enqbuf. rewrite Hl. cbn [mbind option_bind]. rewrite Hbad. cbn [mbind option_bind].
  by rewrite unlock_lock.
Qed.

(** The address just past the last packet, which lies inside the buffer of
    every well-formed pool, passes the range checks and makes the driver read the
    entry one past the end of its array: releasing it faults. *)
Theorem pool_free_past_end_faults p :
  pool_ok p -> pool_freebuf p (buf p (packets p)) = None.
Proof.
  intros Hok. destruct (lock_ok p Hok) as [Hl Hwf]. unfold pool_freebuf. rewrite Hl. cbn [mbind option_bind].
  set (pl := set_locked true p) in *. change (buf p (packets p)) with (buf pl (packets pl)).
  destruct (wf_geometry pl Hwf) as (Ha & _ & Hpp & Hs). pose proof (wf_num pl Hwf) as Hn.
  unfold not_used_pbuf, is_valid_pbuf.
  rewrite (proj2 (Z.ltb_ge _ (p_ppackets pl))) by (unfold buf; lia).
  rewrite (proj2 (Z.ltb_ge (p_buf_paddr pl + _) _)) by (unfold buf, packets, sizeof_pool_entry, zlen in *; nia).
  rewrite <- (Z.add_0_r (buf pl _)), (pbuf2pentry_inside pl _ 0 Hwf) by (first [lia | by left | by right]). cbn [mbind option_bind].
  rewrite (proj2 (Z.ltb_ge _ 0)), (proj2 (Z.ltb_ge _ (Z.of_nat _))) by (unfold packets, zlen in *; lia).
  rewrite (entry_get_ok pl Hwf), lookup_ge_None_2 by (unfold packets; lia). done.
Qed.

(** When the allocation of the entries fails, [pool_resize] returns -ENOMEM
    without releasing the lock: every later operation on the pool deadlocks. *)
Theorem pool_resize_enomem_deadlocks p packet_size max_packets force :
  p_locked p = false -> 0 < packet_size -> PAGE_SIZE + packet_size <= p_size p < 2 ^ 32 ->
  exists q, pool_resize (fun _ => false) p packet_size max_packets force = Some (- ENOMEM, q) /\
    pool_busy q = None /\ pool_getbuf_try q = None /\ pool_deqbuf_try q = None /\
    forall b len oob fl, pool_freebuf q b = None /\ pool_enqbuf q b len oob fl = None.
Proof.
  intros Hl Hps Hsz. unfold pool_resize, PAGE_SIZE in *. change (PAGE_ALIGN sizeof_pool_entry) with 4096.
  rewrite (u64_small (p_size p - 4096)) by lia. rewrite (proj2 (Z.ltb_ge _ _)) by lia.
  unfold spin_lock at 1. rewrite Hl. cbn [mbind option_bind].
  rewrite (u64_small (packet_size + (sizeof_int - 1))) by (unfold sizeof_int; lia). rewrite align4 by (unfold sizeof_int; lia). cbv zeta. unfold sizeof_int.
  rewrite (proj2 (Z.eqb_neq (u64 _) 0)) by (rewrite u64_small; unfold sizeof_pool_entry; mlia).
  cbn [negb]. eexists. split; [reflexivity|]. split_and!; [reflexivity..|]. intros. by split.
Qed.

(** Dumping a well-formed pool reports counts that add up to the number of
    packets and marks no entry as being in a wrong list. *)
Theorem pool_dump_consistent p flags :
  pool_ok p -> exists d, pool_dump p flags = Some (d, p) /\
    d_free d + d_fifo d + d_used d = p_num_packets p /\ Forall (fun e => snd e = false) (d_entries d).
Proof.
  intros Hok. destruct (lock_ok p Hok) as [Hl Hwf]. unfold pool_dump. rewrite Hl. cbn [mbind option_bind].
  set (pl := set_locked true p) in *.
  destruct (dump_list_ok pl FREELIST Hwf) as (e1 & E1 & L1 & B1). destruct (dump_list_ok pl FIFOLIST Hwf) as (e2 & E2 & L2 & B2).
  destruct (dump_list_ok pl USEDLIST Hwf) as (e3 & E3 & L3 & B3). cbn [get_list] in *.
  rewrite E1. cbn [mbind option_bind]. rewrite E2. cbn [mbind option_bind]. rewrite E3. cbn [mbind option_bind].
  eexists. split; [unfold pl; by rewrite unlock_lock|]. cbn [d_free d_fifo d_used d_entries]. split.
  - pose proof (Permutation_length (wf_partition pl Hwf)) as Hp. unfold all_lists in Hp.
    rewrite !length_app, length_seq in Hp. pose proof (wf_num pl Hwf) as Hn.
    change (p_num_packets p) with (p_num_packets pl). unfold packets, zlen in *. lia.
  - case_if; [|constructor]. by rewrite !Forall_app.
Qed.

(** ** Witnesses *)

(** A buffer of two pages at 64 KiB cut into packets of 1000 bytes: seven packets. *)
Definition sample_buffer : pool := snd (pool_create pool_zero 65536 8192).
Definition sample_pool : pool :=
  match pool_resize (fun _ => true) sample_buffer 1000 100 0 with Some (_, q) => q | None => pool_zero end.

Lemma sample_pool_ok : pool_ok sample_pool.
Proof.
  destruct (pool_resize_spec (fun _ => true) sample_buffer 1000 100 0) as (q & Hq & Hok & _);
    [done|done|split; done|done|done|].
  unfold sample_pool. by rewrite Hq.
Qed.

Lemma sample_packets : packets sample_pool = 7%nat.
Proof. vm_compute. reflexivity. Qed.

(** Two buffers taken, then packet 6 queued. *)
Lemma pool_fifo_order_witness :
  exists enqs deqs q, run_ops [OpGet; OpGet; OpEnq 6 10 2 1; OpEnq 5 20 0 0; OpDeq; OpFree 6] sample_pool = Some (enqs, deqs, q) /\
    pool_ok q /\ packets q = packets sample_pool /\ queued sample_pool ++ enqs = deqs ++ queued q.
Proof.
  apply (pool_fifo_order _ sample_pool sample_pool_ok). rewrite sample_packets.
  repeat (apply Forall_cons; split); try apply Forall_nil; cbn [op_in_range]; auto with arith.
Defined.

Lemma pool_implements_abstract_witness : exists o q, pool_getbuf_try sample_pool = Some (o, q) /\ pool_ok q /\ get_result sample_pool o q.
Proof. exact (proj1 (pool_implements_abstract sample_pool sample_pool_ok)). Defined.

Lemma pool_resize_partitions_witness :
  exists q, pool_resize (fun _ => true) sample_buffer 1000 5 1 = Some (0, q) /\ pool_ok q /\
    p_size q = 8192 /\ p_buf_paddr q = 65536 /\ p_packet_size q = 1000 /\
    p_aligned_packet_size q = 1000 /\ Z.of_nat (packets q) = 5 /\ abs q = APool (rev (seq 0 (packets q))) [] [].
Proof. apply (pool_resize_partitions (fun _ => true) sample_buffer 1000 5 1); [done|done|split; done|done|done]. Defined.

Lemma pool_buffers_disjoint_witness :
  65536 <= buf sample_pool 2 /\ buf sample_pool 2 + 1000 <= buf sample_pool 5 /\ buf sample_pool 5 + 1000 <= 65536 + 8192.
Proof. apply (pool_buffers_disjoint sample_pool 2 5 sample_pool_ok). rewrite sample_packets. lia. Defined.

Lemma pool_deqbuf_blocking_witness :
  exists r q p0, pool_deqbuf_timeout [WaitWoken sample_pool; WaitTimeout] sample_pool = Some (r, q) /\ pool_ok q /\
    p0 ∈ seen sample_pool [WaitWoken sample_pool; WaitTimeout] /\ pool_ok p0 /\
    match r with
    | Returned (inr pk) => deq_result p0 (Some pk) q
    | Returned (inl e) => q = p0 /\ (e = - ERESTARTSYS \/ (e = - EAGAIN /\ true = true))
    | StillBlocked => q = p0 /\ a_fifo (abs p0) = []
    end.
Proof.
  refine (pool_deqbuf_blocking [WaitWoken sample_pool; WaitTimeout] sample_pool sample_pool_ok _ true).
  apply Forall_cons. split; [apply sample_pool_ok|]. apply Forall_cons. split; [exact I|apply Forall_nil; exact I].
Defined.

Lemma pool_rejects_misaligned_witness :
  pool_freebuf sample_pool (buf sample_pool 3 + 8) = Some (- EINVAL, sample_pool) /\
  pool_enqbuf sample_pool (buf sample_pool 3 + 8) 1 1 1 = Some (- EINVAL, sample_pool).
Proof. apply (pool_rejects_misaligned sample_pool 3 8 1 1 1 sample_pool_ok); [rewrite sample_packets; lia|split; reflexivity]. Defined.

Lemma pool_free_past_end_faults_witness : pool_freebuf sample_pool (65536 + 7000) = None.
Proof. exact (pool_free_past_end_faults sample_pool sample_pool_ok). Defined.

Lemma pool_resize_enomem_deadlocks_witness :
  exists q, pool_resize (fun _ => false) sample_buffer 1000 5 1 = Some (- ENOMEM, q) /\
    pool_busy q = None /\ pool_getbuf_try q = None /\ pool_deqbuf_try q = None /\
    forall b len oob fl, pool_freebuf q b = None /\ pool_enqbuf q b len oob fl = None.
Proof. apply (pool_resize_enomem_deadlocks sample_buffer 1000 5 1); [done|done|split; done]. Defined.

Lemma pool_dump_consistent_witness :
  exists d, pool_dump sample_pool 0 = Some (d, sample_pool) /\
    d_free d + d_fifo d + d_used d = 7 /\ Forall (fun e => snd e = false) (d_entries d).
Proof. exact (pool_dump_consistent sample_pool 0 sample_pool_ok). Defined.
