(* ===== verification/ZapDev.v ===== *)
(** * State of the ZAP driver ([_zap.h], [dma_zynq.c])

    The device, its interfaces and the DMA engine's view of them, the trace of
    register accesses, and a monad for code that runs over them. *)
From S2P Require Import Prelude Pool.

(** ** Errors and flags of the kernel *)

Definition ENXIO : Z := 6.
Definition EPERM : Z := 1.
Definition EFAULT : Z := 14.
Definition ENODEV : Z := 19.
Definition ENOTTY : Z := 25.
Definition EFBIG : Z := 27.

(** ** State *)

(** The two directions of an interface: [rx_*] and [tx_*] fields. *)
Inductive dir := RX | TX.
#[export] Instance dir_eq_dec : EqDecision dir.
Proof. solve_decision. Defined.

(** The fields of [struct zap_if] for one direction; a semaphore is its count. *)
Record zap_half := ZapHalf {
  zh_in_use : Z;
  zh_pool : pool;
  zh_size : Z;
  zh_paddr : Z;
  zh_highwater : Z;
  zh_payload_max_size : Z;
  zh_header_size : Z;
  zh_header_enable : Z;
  zh_jumbo_pkt_enable : Z
}.

Record zap_if := ZapIf { zi_rx : zap_half; zi_tx : zap_half; zi_fakey : Z }.

(** [struct dma_if_interface]; [di_work] tells that the receive work is queued. *)
Record dma_if_interface := DmaIf {
  di_rx_on : Z;
  di_tx_on : Z;
  di_rx_dma_count : Z;
  di_tx_dma_count : Z;
  di_work : bool
}.

Record zap_fpga_parameters := Fpga {
  fp_num_interfaces : Z;
  fp_rx_dat_fifo_size : Z;
  fp_rx_oob_fifo_size : Z;
  fp_tx_dat_fifo_size : Z;
  fp_tx_oob_fifo_size : Z;
  fp_board_code : Z;
  fp_version_major : Z;
  fp_version_minor : Z;
  fp_version_release : Z
}.

(** Accesses to the 32-bit registers of the FPGA, oldest first. *)
Inductive io_event :=
  | IoRead (reg val : Z)
  | IoWrite (reg val : Z).

(** [struct zap_dev], the engine's [struct dma] and [struct dma_if]. *)
Record zap_dev := ZapDev {
  zd_num_devices : Z;
  zd_open_count : Z;
  zd_sem : Z;
  zd_status : Z;
  zd_fpga : zap_fpga_parameters;
  zd_rx_pool_paddr : Z;
  zd_tx_pool_paddr : Z;
  zd_rx_pool_size : Z;
  zd_tx_pool_size : Z;
  zd_ifs : list zap_if;
  zd_dma : list dma_if_interface;
  zd_dma_sem : Z;
  zd_io : list io_event
}.

(** ** Updates *)

Definition set_ifs (x : list zap_if) (z : zap_dev) : zap_dev :=
  ZapDev (zd_num_devices z) (zd_open_count z) (zd_sem z) (zd_status z) (zd_fpga z) (zd_rx_pool_paddr z)
    (zd_tx_pool_paddr z) (zd_rx_pool_size z) (zd_tx_pool_size z) x (zd_dma z) (zd_dma_sem z) (zd_io z).
Definition set_dma (x : list dma_if_interface) (z : zap_dev) : zap_dev :=
  ZapDev (zd_num_devices z) (zd_open_count z) (zd_sem z) (zd_status z) (zd_fpga z) (zd_rx_pool_paddr z)
    (zd_tx_pool_paddr z) (zd_rx_pool_size z) (zd_tx_pool_size z) (zd_ifs z) x (zd_dma_sem z) (zd_io z).
Definition set_dma_sem (x : Z) (z : zap_dev) : zap_dev :=
  ZapDev (zd_num_devices z) (zd_open_count z) (zd_sem z) (zd_status z) (zd_fpga z) (zd_rx_pool_paddr z)
    (zd_tx_pool_paddr z) (zd_rx_pool_size z) (zd_tx_pool_size z) (zd_ifs z) (zd_dma z) x (zd_io z).
Definition set_io (x : list io_event) (z : zap_dev) : zap_dev :=
  ZapDev (zd_num_devices z) (zd_open_count z) (zd_sem z) (zd_status z) (zd_fpga z) (zd_rx_pool_paddr z)
    (zd_tx_pool_paddr z) (zd_rx_pool_size z) (zd_tx_pool_size z) (zd_ifs z) (zd_dma z) (zd_dma_sem z) x.
Definition set_sem (x : Z) (z : zap_dev) : zap_dev :=
  ZapDev (zd_num_devices z) (zd_open_count z) x (zd_status z) (zd_fpga z) (zd_rx_pool_paddr z)
    (zd_tx_pool_paddr z) (zd_rx_pool_size z) (zd_tx_pool_size z) (zd_ifs z) (zd_dma z) (zd_dma_sem z) (zd_io z).
Definition set_open_count (x : Z) (z : zap_dev) : zap_dev :=
  ZapDev (zd_num_devices z) x (zd_sem z) (zd_status z) (zd_fpga z) (zd_rx_pool_paddr z)
    (zd_tx_pool_paddr z) (zd_rx_pool_size z) (zd_tx_pool_size z) (zd_ifs z) (zd_dma z) (zd_dma_sem z) (zd_io z).
Definition set_fpga (x : zap_fpga_parameters) (z : zap_dev) : zap_dev :=
  ZapDev (zd_num_devices z) (zd_open_count z) (zd_sem z) (zd_status z) x (zd_rx_pool_paddr z)
    (zd_tx_pool_paddr z) (zd_rx_pool_size z) (zd_tx_pool_size z) (zd_ifs z) (zd_dma z) (zd_dma_sem z) (zd_io z).

Definition half (d : dir) (i : zap_if) : zap_half := match d with RX => zi_rx i | TX => zi_tx i end.
Definition set_half (d : dir) (h : zap_half) (i : zap_if) : zap_if :=
  match d with RX => ZapIf h (zi_tx i) (zi_fakey i) | TX => ZapIf (zi_rx i) h (zi_fakey i) end.

Definition set_in_use (x : Z) (h : zap_half) : zap_half :=
  ZapHalf x (zh_pool h) (zh_size h) (zh_paddr h) (zh_highwater h) (zh_payload_max_size h) (zh_header_size h)
    (zh_header_enable h) (zh_jumbo_pkt_enable h).
Definition set_pool (x : pool) (h : zap_half) : zap_half :=
  ZapHalf (zh_in_use h) x (zh_size h) (zh_paddr h) (zh_highwater h) (zh_payload_max_size h) (zh_header_size h)
    (zh_header_enable h) (zh_jumbo_pkt_enable h).
Definition set_size (x : Z) (h : zap_half) : zap_half :=
  ZapHalf (zh_in_use h) (zh_pool h) x (zh_paddr h) (zh_highwater h) (zh_payload_max_size h) (zh_header_size h)
    (zh_header_enable h) (zh_jumbo_pkt_enable h).
Definition set_paddr (x : Z) (h : zap_half) : zap_half :=
  ZapHalf (zh_in_use h) (zh_pool h) (zh_size h) x (zh_highwater h) (zh_payload_max_size h) (zh_header_size h)
    (zh_header_enable h) (zh_jumbo_pkt_enable h).
Definition set_highwater (x : Z) (h : zap_half) : zap_half :=
  ZapHalf (zh_in_use h) (zh_pool h) (zh_size h) (zh_paddr h) x (zh_payload_max_size h) (zh_header_size h)
    (zh_header_enable h) (zh_jumbo_pkt_enable h).
Definition set_payload_max_size (x : Z) (h : zap_half) : zap_half :=
  ZapHalf (zh_in_use h) (zh_pool h) (zh_size h) (zh_paddr h) (zh_highwater h) x (zh_header_size h)
    (zh_header_enable h) (zh_jumbo_pkt_enable h).
Definition set_header (size enable : Z) (h : zap_half) : zap_half :=
  ZapHalf (zh_in_use h) (zh_pool h) (zh_size h) (zh_paddr h) (zh_highwater h) (zh_payload_max_size h) size
    enable (zh_jumbo_pkt_enable h).
Definition set_jumbo (x : Z) (h : zap_half) : zap_half :=
  ZapHalf (zh_in_use h) (zh_pool h) (zh_size h) (zh_paddr h) (zh_highwater h) (zh_payload_max_size h)
    (zh_header_size h) (zh_header_enable h) x.

(** ** The driver monad *)

Definition ZM (A : Type) : Type := M zap_dev A.

Definition gets {A} (f : zap_dev -> A) : ZM A := fun z => Some (f z, z).
Definition modify (f : zap_dev -> zap_dev) : ZM unit := fun z => Some (tt, f z).

(** [interface[i]]: an index outside the array is a fault. *)
Definition index_ok (i : Z) (n : nat) : bool := (0 <=? i) && (i <? Z.of_nat n).
Definition get_if (i : Z) : ZM zap_if :=
  fun z => if index_ok i (length (zd_ifs z)) then x ← zd_ifs z !! Z.to_nat i; Some (x, z) else None.
Definition put_if (i : Z) (x : zap_if) : ZM unit :=
  modify (fun z => set_ifs (<[Z.to_nat i := x]> (zd_ifs z)) z).
Definition upd_half (i : Z) (d : dir) (f : zap_half -> zap_half) : ZM unit :=
  x ← get_if i; put_if i (set_half d (f (half d x)) x).
Definition get_half (i : Z) (d : dir) : ZM zap_half := x ← get_if i; mret (half d x).

Definition get_dma (i : Z) : ZM dma_if_interface :=
  fun z => if index_ok i (length (zd_dma z)) then x ← zd_dma z !! Z.to_nat i; Some (x, z) else None.
Definition upd_dma (i : Z) (f : dma_if_interface -> dma_if_interface) : ZM unit :=
  x ← get_dma i; modify (fun z => set_dma (<[Z.to_nat i := f x]> (zd_dma z)) z).

(** Runs a pool operation on the pool of an interface. *)
Definition on_pool {A} (i : Z) (d : dir) (f : pool -> option (A * pool)) : ZM A :=
  h ← get_half i d;
  '(a, p) ← lift (f (zh_pool h));
  _ ← upd_half i d (set_pool p);
  mret a.

(** [if(err) return err;] followed by [k]. *)
Definition try_err (m : ZM Z) (k : ZM Z) : ZM Z := e ← m; if negb (e =? 0) then mret e else k.

(** Semaphores.  A count of 0 makes the caller sleep; the model has the outcome of
    a signal, the only way out that does not depend on another thread. *)
Definition down_interruptible (count : zap_dev -> Z) (set : Z -> zap_dev -> zap_dev) : ZM bool :=
  fun z => if 0 <? count z then Some (false, set (count z - 1) z) else Some (true, z).
Definition up (count : zap_dev -> Z) (set : Z -> zap_dev -> zap_dev) : ZM unit :=
  modify (fun z => set (count z + 1) z).

(** [if(down_interruptible(sem)) return -ERESTARTSYS; ...; up(sem);] around [k]. *)
Definition with_sem (count : zap_dev -> Z) (set : Z -> zap_dev -> zap_dev) (k : ZM Z) : ZM Z :=
  intr ← down_interruptible count set;
  if (intr : bool) then mret (- ERESTARTSYS) else r ← k; _ ← up count set; mret r.

(** ** Environment

    The values the FPGA's registers read as after a history of accesses, the
    kernel allocator, and the checks and copies of user memory. *)
Class ZapEnv := {
  hw_read : list io_event -> Z -> Z;
  kzalloc_ok : Z -> bool;
  access_ok : Z -> Z -> bool;
  copy_ok : Z -> Z -> bool;
  remap_ok : Z -> Z -> Z -> bool
}.
