(* ===== verification/Dma.v ===== *)
(** * The DMA engine of the ZAP driver ([dma.c], [dma_zynq.c])

    Register accesses, start and stop of the two directions, the receive worker,
    the interrupt handler, and the layer of [dma.c] over them.  [phys_addr_t] and
    [unsigned long] have 64 bits, registers 32. *)
From S2P Require Import Prelude Pool ZapDev.

Definition DMA_BD_RX_NUM : Z := 10000.
Definition DMA_BD_TX_NUM : Z := 10000.

(** ** Registers *)

Definition ZAP_REG_NUM_PORTS : Z := 0x18.
Definition ZAP_REG_ISR : Z := 0x04.
Definition ZAP_REG_CSR : Z := 0x00.
Definition CSR_TX_JUMBO_EN : Z := Z.shiftl 1 5.
Definition CSR_RX_JUMBO_EN : Z := Z.shiftl 1 4.
Definition CSR_TX_OOB : Z := Z.shiftl 1 3.
Definition CSR_RX_OOB : Z := Z.shiftl 1 2.
Definition CSR_TXEN : Z := Z.shiftl 1 1.
Definition CSR_RXEN : Z := Z.shiftl 1 0.
Definition ZAP_REG_ICR : Z := 0x04.
Definition ICR_SET_TX_FREE_RDY : Z := Z.shiftl 1 19.
Definition ICR_SET_TX_FULL_RDY : Z := Z.shiftl 1 18.
Definition ICR_SET_RXRDY : Z := Z.shiftl 1 17.
Definition ICR_SET_GLBL : Z := Z.shiftl 1 16.
Definition ICR_CLR_TX_FREE_RDY : Z := Z.shiftl 1 3.
Definition ICR_CLR_TX_FULL_RDY : Z := Z.shiftl 1 2.
Definition ICR_CLR_RXRDY : Z := Z.shiftl 1 1.
Definition ICR_INT_PEND : Z := Z.shiftl 1 31.
Definition ICR_MSK_TX_FREE_RDY : Z := Z.shiftl 1 19.
Definition ICR_MSK_TX_FULL_RDY : Z := Z.shiftl 1 18.
Definition ICR_MSK_RXRDY : Z := Z.shiftl 1 17.
Definition ICR_INT_TX_FREE_RDY : Z := Z.shiftl 1 3.
Definition ICR_INT_TX_FULL_RDY : Z := Z.shiftl 1 2.
Definition ICR_INT_RXRDY : Z := Z.shiftl 1 1.
Definition ZAP_REG_TBAR : Z := 0x08.
Definition ZAP_REG_RBAR : Z := 0x0C.
Definition ZAP_REG_BSR : Z := 0x10.
Definition RX_SIZE_OOB_OVERFLOW_ERR : Z := 0x80000000.
Definition RX_SIZE_DAT_OVERFLOW_ERR : Z := 0x40000000.
Definition ZAP_REG_HIGH_WATER_MARK : Z := 0x18.
Definition ZAP_REG_RX_FIFO_SIZE : Z := 0x14.
Definition ZAP_REG_TX_FIFO_SIZE : Z := 0x1c.
Definition ZAP_REG_MAX_RX_SIZE : Z := 0x14.
Definition MAX_RX_OOB_SIZE_MASK : Z := 0xFFFF0000.
Definition MAX_RX_DAT_SIZE_MASK : Z := 0x0000FFFF.
Definition ZAP_REG_READ_VERSION : Z := 0x18.
Definition FPGA_VERSION_REG : Z := 0x00.

Definition ZAP_DESC_FLAG_OVERFLOW_OOB : Z := 0x02.
Definition ZAP_DESC_FLAG_OVERFLOW_DATA : Z := 0x04.

Definition bit_set (x mask : Z) : bool := negb (Z.land x mask =? 0).

Section dma.
Context `{ZapEnv}.

(** One access each, under a spinlock of its own. *)
Definition VSOC_ZAP_REG_READ (reg : Z) : ZM Z :=
  fun z => let v := u32 (hw_read (zd_io z) reg) in Some (v, set_io (zd_io z ++ [IoRead reg v]) z).
Definition VSOC_ZAP_REG_WRITE (reg val : Z) : ZM unit :=
  modify (fun z => set_io (zd_io z ++ [IoWrite reg (u32 val)]) z).
(** The macro reads the register to merge the bits outside the mask. *)
Definition VSOC_ZAP_REG_WRITE_MASKED (reg val mask : Z) : ZM unit :=
  old ← VSOC_ZAP_REG_READ reg;
  VSOC_ZAP_REG_WRITE reg (Z.lor (Z.land val mask) (Z.land old (Z.lxor (u32 mask) (2 ^ 32 - 1)))).

Definition ZAP_REG_READ (iDevice reg : Z) : ZM Z := VSOC_ZAP_REG_READ (u32 (iDevice * 0x20 + reg)).
Definition ZAP_REG_WRITE (iDevice reg val : Z) : ZM unit := VSOC_ZAP_REG_WRITE (u32 (iDevice * 0x20 + reg)) val.
Definition ZAP_REG_WRITE_MASKED (iDevice reg val mask : Z) : ZM unit :=
  VSOC_ZAP_REG_WRITE_MASKED (u32 (iDevice * 0x20 + reg)) val mask.

Definition dma_ll_put_rx (iDevice pbuf len : Z) : ZM unit := ZAP_REG_WRITE iDevice ZAP_REG_RBAR (u32 pbuf).

(** ** The receive worker *)

Definition set_rx_on (x : Z) (i : dma_if_interface) : dma_if_interface :=
  DmaIf x (di_tx_on i) (di_rx_dma_count i) (di_tx_dma_count i) (di_work i).
Definition set_tx_on (x : Z) (i : dma_if_interface) : dma_if_interface :=
  DmaIf (di_rx_on i) x (di_rx_dma_count i) (di_tx_dma_count i) (di_work i).
Definition set_rx_dma_count (x : Z) (i : dma_if_interface) : dma_if_interface :=
  DmaIf (di_rx_on i) (di_tx_on i) x (di_tx_dma_count i) (di_work i).
Definition set_tx_dma_count (x : Z) (i : dma_if_interface) : dma_if_interface :=
  DmaIf (di_rx_on i) (di_tx_on i) (di_rx_dma_count i) x (di_work i).
Definition set_work (x : bool) (i : dma_if_interface) : dma_if_interface :=
  DmaIf (di_rx_on i) (di_tx_on i) (di_rx_dma_count i) (di_tx_dma_count i) x.

(** One call of [pool_getbuf_timeout] by the worker: the outcomes of its waits, and
    whether another thread has switched the direction off by the time it returns. *)
Record rx_call := RxCall { rc_waits : list wait_outcome; rc_off : bool }.

(** [dma_rx_task] for the given calls (the remaining ones find a free buffer or sleep
    for ever): the outer loop hands a buffer to the FPGA, the inner one repeats the
    call on -EAGAIN while the direction is on, and any error left switches it off. *)
Fixpoint dma_rx_task (fuel : nat) (iDevice : Z) (calls : list rx_call) : ZM (blocking unit) :=
  match fuel with
  | O => mret StillBlocked
  | S fuel =>
    di ← get_dma iDevice;
    if di_rx_on di =? 0 then mret (Returned tt)
    else
      let call := default (RxCall [] false) (head calls) in
      got ← on_pool iDevice RX (pool_getbuf_timeout (rc_waits call));
      _ ← (if rc_off call then upd_dma iDevice (set_rx_on 0) else mret tt);
      match got with
      | StillBlocked => mret StillBlocked
      | Returned (inl err) =>
        di ← get_dma iDevice;
        if (err =? - EAGAIN) && negb (di_rx_on di =? 0) then dma_rx_task fuel iDevice (tail calls)
        else _ ← upd_dma iDevice (set_rx_on 0); dma_rx_task fuel iDevice (tail calls)
      | Returned (inr (pbuf, len)) =>
        _ ← dma_ll_put_rx iDevice pbuf len;
        dma_rx_task fuel iDevice (tail calls)
      end
  end.

(** ** The interrupt handler *)

Inductive irq_return := IRQ_HANDLED | IRQ_FAIL.

(** The length and flags the FPGA reports for a received packet. *)
Definition rx_size_decode (jumbo len : Z) : Z * Z * Z :=
  if jumbo =? 0 then
    let flags := 0 in
    let flags := if bit_set len RX_SIZE_OOB_OVERFLOW_ERR then Z.lor flags ZAP_DESC_FLAG_OVERFLOW_OOB else flags in
    let flags := if bit_set len RX_SIZE_DAT_OVERFLOW_ERR then Z.lor flags ZAP_DESC_FLAG_OVERFLOW_DATA else flags in
    let ooblen := Z.land 0x00003FFF (Z.shiftr len 16) in
    let ooblen := u32 (Z.shiftl ooblen 2) in
    let len := Z.land len 0x0000FFFF in
    (u32 (Z.shiftl len 2), ooblen, flags)
  else (u32 (Z.shiftl len 2), 0, 0).

(** The receive part of [dma_isr]. *)
Definition dma_isr_rx (iDevice : Z) : ZM unit :=
  paddr ← ZAP_REG_READ iDevice ZAP_REG_RBAR;
  _ ← upd_dma iDevice (fun i => set_rx_dma_count (di_rx_dma_count i + 1) i);
  h ← get_half iDevice RX;
  let offset := u64 (paddr - zh_paddr h) in
  let offset := u64 (offset - pool_packets_offset (zh_pool h)) in
  let pbuf := u64 (pool_offset2pbuf (zh_pool h) offset) in
  len ← ZAP_REG_READ iDevice ZAP_REG_BSR;
  let '(len, ooblen, flags) := rx_size_decode (zh_jumbo_pkt_enable h) len in
  err ← on_pool iDevice RX (fun p => pool_enqbuf p pbuf len ooblen flags);
  if negb (err =? 0) then lift None (* BUG_ON *) else mret tt.

(** The descriptor of a packet to send. *)
Definition tx_size_encode (jumbo len ooblen : Z) : Z :=
  if jumbo =? 0 then
    Z.lor (Z.land 0x0000ffff (Z.shiftr len 2)) (Z.land (u64 (Z.shiftl ooblen 14)) 0xffff0000)
  else Z.shiftr len 2.

(** The part that feeds the next packet to the FPGA, or masks the interrupt when there
    is none; after the last packet it masks it, too. *)
Definition tx_queue_empty (iDevice : Z) : ZM bool := h ← get_half iDevice TX; mret (fifolist_empty (zh_pool h)).
Definition tx_mask (iDevice : Z) : ZM unit := ZAP_REG_WRITE iDevice ZAP_REG_ICR ICR_CLR_TX_FULL_RDY.
Definition tx_feed (iDevice : Z) : ZM irq_return :=
  _ ← upd_dma iDevice (fun i => set_tx_dma_count (di_tx_dma_count i + 1) i);
  got ← on_pool iDevice TX pool_deqbuf_try;
  match got with
  | None => mret IRQ_FAIL
  | Some (pbuf, len, ooblen, flags) =>
    h ← get_half iDevice TX;
    _ ← ZAP_REG_WRITE iDevice ZAP_REG_TBAR (u32 pbuf);
    _ ← ZAP_REG_WRITE iDevice ZAP_REG_BSR (u32 (tx_size_encode (zh_jumbo_pkt_enable h) len ooblen));
    mret IRQ_HANDLED
  end.
Definition dma_isr_tx_full (iDevice : Z) : ZM irq_return :=
  empty ← tx_queue_empty iDevice;
  if empty : bool then _ ← tx_mask iDevice; mret IRQ_HANDLED
  else
    r ← tx_feed iDevice;
    match r with
    | IRQ_FAIL => mret IRQ_FAIL
    | IRQ_HANDLED =>
      empty ← tx_queue_empty iDevice;
      _ ← (if empty : bool then tx_mask iDevice else mret tt);
      mret IRQ_HANDLED
    end.

(** The part that takes back a buffer the FPGA has sent; an error is only logged. *)
Definition dma_isr_tx_free (iDevice : Z) : ZM unit :=
  pbuf ← ZAP_REG_READ iDevice ZAP_REG_TBAR;
  _ ← on_pool iDevice TX (fun p => pool_freebuf p pbuf);
  mret tt.

Definition dma_isr : ZM irq_return :=
  icr ← ZAP_REG_READ 0 ZAP_REG_ISR;
  let iDevice := Z.land (Z.shiftr icr 8) 0xff in
  if negb (bit_set icr ICR_INT_PEND) then mret IRQ_HANDLED
  else
    _ ← (if bit_set icr ICR_INT_RXRDY && bit_set icr ICR_MSK_RXRDY then dma_isr_rx iDevice else mret tt);
    r ← (if bit_set icr ICR_INT_TX_FULL_RDY && bit_set icr ICR_MSK_TX_FULL_RDY
         then dma_isr_tx_full iDevice else mret IRQ_HANDLED);
    match r with
    | IRQ_FAIL => mret IRQ_FAIL
    | IRQ_HANDLED =>
      _ ← (if bit_set icr ICR_INT_TX_FREE_RDY && bit_set icr ICR_MSK_TX_FREE_RDY
           then dma_isr_tx_free iDevice else mret tt);
      mret IRQ_HANDLED
    end.

(** ** Start and stop (Zynq) *)

Definition dma_ll_start_tx (iDevice : Z) : ZM Z :=
  _ ← upd_dma iDevice (set_tx_dma_count 0);
  _ ← ZAP_REG_WRITE_MASKED iDevice ZAP_REG_CSR 0 CSR_TXEN;
  _ ← ZAP_REG_WRITE_MASKED iDevice ZAP_REG_CSR CSR_TXEN CSR_TXEN;
  h ← get_half iDevice TX;
  _ ← ZAP_REG_WRITE_MASKED iDevice ZAP_REG_CSR (if negb (zh_header_enable h =? 0) then CSR_TX_OOB else 0) CSR_TX_OOB;
  _ ← ZAP_REG_WRITE_MASKED iDevice ZAP_REG_CSR
        (if negb (zh_jumbo_pkt_enable h =? 0) then CSR_TX_JUMBO_EN else 0) CSR_TX_JUMBO_EN;
  _ ← ZAP_REG_WRITE iDevice ZAP_REG_ICR (Z.lor ICR_SET_TX_FREE_RDY ICR_SET_GLBL);
  _ ← upd_dma iDevice (set_tx_on 1);
  mret 0.

(** The word that limits received packets. *)
Definition rx_max_size_word (payload_max header_size header_enable jumbo : Z) : Z :=
  let ulPayloadWords := Z.shiftr payload_max 2 in
  let ulOobWords := if negb (header_enable =? 0) then Z.shiftr header_size 2 else 0 in
  let ulPayloadWords := u64 (ulPayloadWords - ulOobWords) in
  if jumbo =? 0 then
    Z.lor (Z.land (u64 (ulPayloadWords - 1)) MAX_RX_DAT_SIZE_MASK)
      (Z.land (u64 (Z.shiftl (u64 (ulOobWords - 1)) 16)) MAX_RX_OOB_SIZE_MASK)
  else u64 (ulPayloadWords - 1).

Definition dma_ll_start_rx (iDevice : Z) : ZM Z :=
  _ ← upd_dma iDevice (set_rx_dma_count 0);
  h ← get_half iDevice RX;
  let w := rx_max_size_word (zh_payload_max_size h) (zh_header_size h) (zh_header_enable h) (zh_jumbo_pkt_enable h) in
  _ ← ZAP_REG_WRITE iDevice ZAP_REG_MAX_RX_SIZE (u32 w);
  _ ← ZAP_REG_WRITE_MASKED iDevice ZAP_REG_CSR 0 CSR_RXEN;
  _ ← ZAP_REG_WRITE_MASKED iDevice ZAP_REG_CSR CSR_RXEN CSR_RXEN;
  _ ← ZAP_REG_WRITE_MASKED iDevice ZAP_REG_CSR (if negb (zh_header_enable h =? 0) then CSR_RX_OOB else 0) CSR_RX_OOB;
  _ ← ZAP_REG_WRITE_MASKED iDevice ZAP_REG_CSR
        (if negb (zh_jumbo_pkt_enable h =? 0) then CSR_RX_JUMBO_EN else 0) CSR_RX_JUMBO_EN;
  _ ← ZAP_REG_WRITE iDevice ZAP_REG_ICR (Z.lor ICR_SET_RXRDY ICR_SET_GLBL);
  _ ← upd_dma iDevice (fun i => set_work true (set_rx_on 1 i));
  mret 0.

Definition dma_ll_stop_tx (iDevice : Z) : ZM Z :=
  _ ← upd_dma iDevice (set_tx_on 0);
  _ ← ZAP_REG_WRITE_MASKED iDevice ZAP_REG_CSR 0 CSR_TXEN;
  _ ← ZAP_REG_WRITE iDevice ZAP_REG_ICR ICR_CLR_TX_FREE_RDY;
  try_err (on_pool iDevice TX (pool_flush kzalloc_ok)) (
  try_err (on_pool iDevice TX pool_busy) (
  _ ← upd_dma iDevice (set_tx_on 0);
  mret 0)).

(** [flush_workqueue] lets the worker notice that the direction is off and end. *)
Definition dma_ll_stop_rx (iDevice : Z) : ZM Z :=
  _ ← ZAP_REG_WRITE iDevice ZAP_REG_ICR ICR_CLR_RXRDY;
  _ ← upd_dma iDevice (set_rx_on 0);
  _ ← ZAP_REG_WRITE_MASKED iDevice ZAP_REG_CSR 0 CSR_RXEN;
  _ ← upd_dma iDevice (set_work false);
  try_err (on_pool iDevice RX (pool_flush kzalloc_ok)) (
  try_err (on_pool iDevice RX pool_busy) (
  _ ← upd_dma iDevice (set_rx_on 0);
  mret 0)).

Definition dma_ll_rx_is_on (iDevice : Z) : ZM Z := di ← get_dma iDevice; mret (di_rx_on di).
Definition dma_ll_tx_is_on (iDevice : Z) : ZM Z := di ← get_dma iDevice; mret (di_tx_on di).
Definition dma_ll_rx_dma_count (iDevice : Z) : ZM Z := di ← get_dma iDevice; mret (di_rx_dma_count di).
Definition dma_ll_tx_dma_count (iDevice : Z) : ZM Z := di ← get_dma iDevice; mret (di_tx_dma_count di).

Definition dma_ll_tx_write_buf (iDevice : Z) : ZM unit := ZAP_REG_WRITE iDevice ZAP_REG_ICR ICR_SET_TX_FULL_RDY.

Definition dma_ll_update_high_water_marks (iDevice : Z) : ZM unit :=
  ulTemp ← ZAP_REG_READ iDevice ZAP_REG_HIGH_WATER_MARK;
  _ ← upd_half iDevice RX (set_highwater (4 * Z.land ulTemp 0xffff));
  upd_half iDevice TX (set_highwater (4 * Z.land (Z.shiftr ulTemp 16) 0xffff)).

(** Only while no device is open: reading the version alters some registers. *)
Definition dma_ll_update_fpga_parameters : ZM unit :=
  count ← gets zd_open_count;
  if count =? 0 then
    _ ← ZAP_REG_WRITE 0 ZAP_REG_READ_VERSION 1;
    v ← ZAP_REG_READ 1 FPGA_VERSION_REG;
    r ← ZAP_REG_READ 0 ZAP_REG_RX_FIFO_SIZE;
    t ← ZAP_REG_READ 0 ZAP_REG_TX_FIFO_SIZE;
    n ← ZAP_REG_READ 0 ZAP_REG_NUM_PORTS;
    let n := to_i32 n in
    let n := if n =? 0 then 1 else n in
    _ ← modify (set_fpga (Fpga n (4 * Z.land r 0xffff) (4 * Z.land (Z.shiftr r 16) 0xffff)
          (4 * Z.land t 0xffff) (4 * Z.land (Z.shiftr t 16) 0xffff)
          (Z.land (Z.shiftr v 24) 0xff) (Z.land (Z.shiftr v 16) 0xff) (Z.land (Z.shiftr v 8) 0xff) (Z.land v 0xff)));
    ZAP_REG_WRITE 0 ZAP_REG_READ_VERSION 0
  else mret tt.

(** ** [dma.c] *)

Definition dma_start_rx_unsafe (iDevice : Z) : ZM Z :=
  try_err (on_pool iDevice RX (pool_flush kzalloc_ok)) (
  try_err (on_pool iDevice RX pool_busy) (
  _ ← dma_ll_start_rx iDevice; mret 0)).
Definition dma_start_tx_unsafe (iDevice : Z) : ZM Z :=
  try_err (on_pool iDevice TX (pool_flush kzalloc_ok)) (
  try_err (on_pool iDevice TX pool_busy) (
  _ ← dma_ll_start_tx iDevice; mret 0)).
(** The result of the low-level stop is dropped. *)
Definition dma_stop_rx_unsafe (iDevice : Z) : ZM Z := _ ← dma_ll_stop_rx iDevice; mret 0.
Definition dma_stop_tx_unsafe (iDevice : Z) : ZM Z := _ ← dma_ll_stop_tx iDevice; mret 0.

Definition with_dma_sem (k : ZM Z) : ZM Z := with_sem zd_dma_sem set_dma_sem k.

Definition dma_start_rx (iDevice : Z) : ZM Z :=
  with_dma_sem (try_err (dma_stop_rx_unsafe iDevice) (dma_start_rx_unsafe iDevice)).
Definition dma_start_tx (iDevice : Z) : ZM Z :=
  with_dma_sem (try_err (dma_stop_tx_unsafe iDevice) (dma_start_tx_unsafe iDevice)).
Definition dma_stop_rx (iDevice : Z) : ZM Z := with_dma_sem (dma_stop_rx_unsafe iDevice).
Definition dma_stop_tx (iDevice : Z) : ZM Z := with_dma_sem (dma_stop_tx_unsafe iDevice).

Definition dma_rx_is_on (iDevice : Z) : ZM Z := dma_ll_rx_is_on iDevice.
Definition dma_tx_is_on (iDevice : Z) : ZM Z := dma_ll_tx_is_on iDevice.

(** Stops both directions of the first [n] ports from [i]; the first error ends it. *)
Fixpoint dma_stop_all (n : nat) (i : Z) : ZM Z :=
  match n with
  | O => mret 0
  | S n => try_err (dma_stop_rx i) (try_err (dma_stop_tx i) (dma_stop_all n (i + 1)))
  end.
(** [dma_cleanup] up to the release of the low-level resources. *)
Definition dma_cleanup (iNumPorts : Z) : ZM Z := dma_stop_all (Z.to_nat iNumPorts) 0.

(** [dma_init] with [dma_ll_init]: [resources] is the outcome of mapping the
    registers, allocating the interfaces and claiming the interrupt. *)
Definition dma_init (resources : Z) (n : Z) : ZM Z :=
  if negb (resources =? 0) then mret resources
  else
    _ ← modify (set_dma (replicate (Z.to_nat n) (DmaIf 0 0 0 0 false)));
    _ ← modify (set_dma_sem 1);
    mret 0.

End dma.
