(* ===== verification/Zap.v ===== *)
(** * The ZAP character driver ([zap.c])

    Every file operation over the state of [ZapDev]: opening and closing, the
    packet descriptors passed by [read] and [write], the [ioctl] commands, mapping
    and polling, and the set-up of the device.  A [file] is the minor number and the
    flags; user memory is the list of words at the address given. *)
From S2P Require Import Prelude Pool ZapDev Dma.

Definition ZAP_POOL_MAX_RX_PACKETS : Z := DMA_BD_RX_NUM - 1.
Definition ZAP_POOL_MAX_TX_PACKETS : Z := DMA_BD_TX_NUM - 1.
Definition ZAP_MAX_DEVICES : Z := 16.
Definition max_packets (d : dir) : Z := match d with RX => ZAP_POOL_MAX_RX_PACKETS | TX => ZAP_POOL_MAX_TX_PACKETS end.

(** ** Files *)

Record file := File { f_minor : Z; f_flags : Z }.

Definition O_ACCMODE : Z := 3.
Definition O_RDONLY : Z := 0.
Definition O_NONBLOCK : Z := 2048.

(** By convention, zaprx devnos are even, zaptx devnos are odd. *)
Definition is_tx_device (filp : file) : Z := Z.land (f_minor filp) 1.
Definition zap_device_num (filp : file) : Z := Z.shiftr (f_minor filp) 1.
Definition file_dir (filp : file) : dir := if negb (is_tx_device filp =? 0) then TX else RX.

(** ** [ioctl] numbers *)

Definition _IOC_READ : Z := 2.
Definition _IOC_WRITE : Z := 1.
Definition _IOC (d type nr size : Z) : Z :=
  Z.lor (Z.shiftl d 30) (Z.lor (Z.shiftl type 8) (Z.lor nr (Z.shiftl size 16))).
Definition _IOC_DIR (cmd : Z) : Z := Z.land (Z.shiftr cmd 30) 3.
Definition _IOC_TYPE (cmd : Z) : Z := Z.land (Z.shiftr cmd 8) 255.
Definition _IOC_NR (cmd : Z) : Z := Z.land cmd 255.
Definition _IOC_SIZE (cmd : Z) : Z := Z.land (Z.shiftr cmd 16) 16383.

Definition ZAP_IOC_MAGIC : Z := 122.
Definition ZAP_IOC_MAXNR : Z := 30.
Definition zap_ior (nr : Z) : Z := _IOC _IOC_READ ZAP_IOC_MAGIC nr 8.
Definition zap_iow (nr : Z) : Z := _IOC _IOC_WRITE ZAP_IOC_MAGIC nr 8.

(** The commands of [zap.h]; the two that write the jumbo flags are declared with
    the macro for reading. *)
Definition ZAP_IOC_R_STATUS := zap_ior 0.
Definition ZAP_IOC_R_RX_HIGH_WATER_MARK := zap_ior 1.
Definition ZAP_IOC_R_TX_HIGH_WATER_MARK := zap_ior 2.
Definition ZAP_IOC_R_TX_MAX_SIZE := zap_ior 7.
Definition ZAP_IOC_W_TX_MAX_SIZE := zap_iow 8.
Definition ZAP_IOC_R_TX_HEADER_SIZE := zap_ior 11.
Definition ZAP_IOC_W_TX_HEADER_SIZE := zap_iow 12.
Definition ZAP_IOC_R_RX_MAX_SIZE := zap_ior 13.
Definition ZAP_IOC_W_RX_MAX_SIZE := zap_iow 14.
Definition ZAP_IOC_R_RX_HEADER_SIZE := zap_ior 17.
Definition ZAP_IOC_W_RX_HEADER_SIZE := zap_iow 18.
Definition ZAP_IOC_R_FAKEY := zap_ior 19.
Definition ZAP_IOC_W_FAKEY := zap_iow 20.
Definition ZAP_IOC_R_RX_DMA_ON := zap_ior 21.
Definition ZAP_IOC_W_RX_DMA_ON := zap_iow 22.
Definition ZAP_IOC_R_TX_DMA_ON := zap_ior 23.
Definition ZAP_IOC_W_TX_DMA_ON := zap_iow 24.
Definition ZAP_IOC_R_POOL_SIZE := zap_ior 25.
Definition ZAP_IOC_R_INSTANCE_COUNT := zap_ior 26.
Definition ZAP_IOC_R_RX_JUMBO_EN := zap_ior 27.
Definition ZAP_IOC_W_RX_JUMBO_EN := zap_ior 28.
Definition ZAP_IOC_R_TX_JUMBO_EN := zap_ior 29.
Definition ZAP_IOC_W_TX_JUMBO_EN := zap_ior 30.

Section zap.
Context `{ZapEnv}.

(** ** Carving the buffers *)

(** The first loop: the start addresses of interfaces [i] to [i + n - 1].  Both
    directions advance by the size of a receive buffer. *)
Fixpoint setup_paddrs (n : nat) (i iRxSize : Z) : ZM unit :=
  match n with
  | O => mret tt
  | S n =>
    rx ← gets zd_rx_pool_paddr;
    tx ← gets zd_tx_pool_paddr;
    _ ← upd_half i RX (set_paddr (PAGE_ALIGN (u64 (rx + u64 (iRxSize * i)))));
    _ ← upd_half i TX (set_paddr (PAGE_ALIGN (u64 (tx + u64 (iRxSize * i)))));
    setup_paddrs n (i + 1) iRxSize
  end.

(** The loop over the sizes of all interfaces but the last. *)
Fixpoint setup_sizes (n : nat) (i : Z) : ZM unit :=
  match n with
  | O => mret tt
  | S n =>
    next ← get_if (i + 1);
    this ← get_if i;
    _ ← upd_half i RX (set_size (u64 (zh_paddr (zi_rx next) - zh_paddr (zi_rx this))));
    _ ← upd_half i TX (set_size (u64 (zh_paddr (zi_tx next) - zh_paddr (zi_tx this))));
    setup_sizes n (i + 1)
  end.

Definition setup_multiple_pools (iNumPools : Z) : ZM unit :=
  rx_size ← gets zd_rx_pool_size;
  tx_size ← gets zd_tx_pool_size;
  if iNumPools =? 0 then lift None (* division by zero *) else
  let iRxSize := rx_size `div` u64 iNumPools in
  _ ← setup_paddrs (Z.to_nat iNumPools) 0 iRxSize;
  if iNumPools =? 1 then
    _ ← upd_half 0 RX (set_size rx_size);
    upd_half 0 TX (set_size tx_size)
  else
    _ ← setup_sizes (Z.to_nat (iNumPools - 1)) 0;
    last ← get_if (iNumPools - 1);
    rx ← gets zd_rx_pool_paddr;
    tx ← gets zd_tx_pool_paddr;
    _ ← upd_half (iNumPools - 1) RX (set_size (u64 (rx + rx_size - zh_paddr (zi_rx last))));
    upd_half (iNumPools - 1) TX (set_size (u64 (tx + tx_size - zh_paddr (zi_tx last)))).

(** Each part of the version is compared on its own. *)
Definition IsJumboPacketSupported (p : zap_fpga_parameters) : Z :=
  if fp_version_major p <? 2 then 0
  else if fp_version_minor p <? 2 then 0
  else if fp_version_release p <? 97 then 0
  else 1.

(** The values [zap_read_procmem] prints, in order, each after its label. *)
Definition zap_read_procmem : ZM (list (string * list Z)) :=
  _ ← dma_ll_update_fpga_parameters;
  p ← gets zd_fpga;
  i ← get_if 0;
  rx ← dma_ll_rx_dma_count 0;
  tx ← dma_ll_tx_dma_count 0;
  mret [("FPGA CODE: "%string, [fp_board_code p]);
        ("FPGA Version: "%string, [fp_version_major p; fp_version_minor p; fp_version_release p]);
        ("NUM_INTERFACES = "%string, [fp_num_interfaces p]);
        ("RX_DAT_FIFO_SIZE = "%string, [to_i32 (fp_rx_dat_fifo_size p)]);
        ("RX_OOB_FIFO_SIZE = "%string, [to_i32 (fp_rx_oob_fifo_size p)]);
        ("TX_DAT_FIFO_SIZE = "%string, [to_i32 (fp_tx_dat_fifo_size p)]);
        ("TX_OOB_FIFO_SIZE = "%string, [to_i32 (fp_tx_oob_fifo_size p)]);
        ("RX_MAX="%string, [to_i32 (zh_payload_max_size (zi_rx i))]);
        ("RX_HDR="%string, [to_i32 (zh_header_size (zi_rx i))]);
        ("TX_MAX="%string, [to_i32 (zh_payload_max_size (zi_tx i))]);
        ("TX_HDR="%string, [to_i32 (zh_header_size (zi_tx i))]);
        ("RX_DMA="%string, [rx]);
        ("TX_DMA="%string, [tx])].

(** ** Open and release *)

Definition fifo_size (d : dir) (p : zap_fpga_parameters) : Z :=
  match d with RX => fp_rx_dat_fifo_size p | TX => fp_tx_dat_fifo_size p end.
Definition oob_size (d : dir) (p : zap_fpga_parameters) : Z :=
  match d with RX => fp_rx_oob_fifo_size p | TX => fp_tx_oob_fifo_size p end.

(** [down_trylock]: true when the semaphore is taken already. *)
Definition down_trylock_in_use (i : Z) (d : dir) : ZM bool :=
  h ← get_half i d;
  if 0 <? zh_in_use h then _ ← upd_half i d (set_in_use (zh_in_use h - 1)); mret false else mret true.

(** One direction of an opened interface; errors of the pool are only logged. *)
Definition zap_open_half (i : Z) (d : dir) : ZM bool :=
  busy ← down_trylock_in_use i d;
  if (busy : bool) then mret true
  else
    p ← gets zd_fpga;
    _ ← upd_half i d (set_payload_max_size (fifo_size d p));
    h ← get_half i d;
    _ ← on_pool i d (fun p => Some (pool_create p (zh_paddr h) (zh_size h)));
    _ ← on_pool i d (fun p => pool_resize kzalloc_ok p (zh_payload_max_size h) (max_packets d) 0);
    mret false.

Definition zap_open (filp : file) : ZM Z :=
  let iDevice := zap_device_num filp in
  _ ← dma_ll_update_fpga_parameters;
  p ← gets zd_fpga;
  if fp_num_interfaces p <=? iDevice then mret (- ENXIO)
  else with_sem zd_sem set_sem (
    busy ← (if negb (Z.land (f_flags filp) O_ACCMODE =? O_RDONLY) then
              _ ← setup_multiple_pools (fp_num_interfaces p);
              zap_open_half iDevice (file_dir filp)
            else mret false);
    if (busy : bool) then mret (- EBUSY)
    else _ ← modify (fun z => set_open_count (u32 (zd_open_count z + 1)) z); mret 0).

(** [open_count] is unsigned: the test for a negative count is never true. *)
Definition zap_release (filp : file) : ZM Z :=
  let iDevice := zap_device_num filp in
  p ← gets zd_fpga;
  if fp_num_interfaces p <=? iDevice then mret (- ENXIO)
  else
    on ← dma_tx_is_on iDevice;
    _ ← (if negb (on =? 0) then dma_stop_tx iDevice else mret 0);
    on ← dma_rx_is_on iDevice;
    _ ← (if negb (on =? 0) then dma_stop_rx iDevice else mret 0);
    with_sem zd_sem set_sem (
      _ ← upd_half iDevice (file_dir filp) (fun h => set_in_use (zh_in_use h + 1) h);
      _ ← modify (fun z =>
            let c := u32 (zd_open_count z - 1) in
            set_open_count (if c <? 0 then 0 else c) z);
      mret 0).

(** ** Read and write *)

Definition sizeof_read_data : Z := 32.
Definition sizeof_write_data : Z := 24.

(** The result of [read]: a code, and the words copied to the user's buffer.  A
    call that sleeps when the given waits run out is [StillBlocked]. *)
Definition read_out (buf : Z) (d : dir) (iDevice pbuf len ooblen flags : Z) : ZM (blocking (Z * list Z)) :=
  h ← get_half iDevice d;
  let words := [pool_pbuf2offset (zh_pool h) pbuf; len; ooblen; flags] in
  if negb (copy_ok buf sizeof_read_data) then mret (Returned (- EFAULT, []))
  else mret (Returned (sizeof_read_data, words)).

Definition zap_read (filp : file) (buf count : Z) (waits : list wait_outcome) : ZM (blocking (Z * list Z)) :=
  let iDevice := zap_device_num filp in
  let nonblock := negb (Z.land (f_flags filp) O_NONBLOCK =? 0) in
  if negb (count =? sizeof_read_data) then mret (Returned (- EINVAL, []))
  else if negb (access_ok buf count) then mret (Returned (- EFAULT, []))
  else if negb (is_tx_device filp =? 0) then
    if nonblock then
      got ← on_pool iDevice TX pool_getbuf_try;
      match got with
      | None => mret (Returned (- EAGAIN, []))
      | Some (pbuf, len) => read_out buf TX iDevice pbuf len 0 0
      end
    else
      got ← on_pool iDevice TX (pool_getbuf waits);
      match got with
      | StillBlocked => mret StillBlocked
      | Returned (inl err) => mret (Returned (err, []))
      | Returned (inr (pbuf, len)) => read_out buf TX iDevice pbuf len 0 0
      end
  else
    if nonblock then
      got ← on_pool iDevice RX pool_deqbuf_try;
      match got with
      | None => mret (Returned (- EAGAIN, []))
      | Some (pbuf, len, ooblen, flags) => read_out buf RX iDevice pbuf len ooblen flags
      end
    else
      got ← on_pool iDevice RX (pool_deqbuf waits);
      match got with
      | StillBlocked => mret StillBlocked
      | Returned (inl err) => mret (Returned (err, []))
      | Returned (inr (pbuf, len, ooblen, flags)) => read_out buf RX iDevice pbuf len ooblen flags
      end.

(** [write]: the three words at [buf].  A length of -1 gives a transmit buffer back
    unsent; otherwise the FPGA is told even when the packet was refused. *)
Definition zap_write_tx (iDevice w0 len ooblen : Z) : ZM Z :=
  h ← get_half iDevice TX;
  let pbuf := u64 (pool_offset2pbuf (zh_pool h) w0) in
  if len =? 2 ^ 64 - 1 then on_pool iDevice TX (fun p => pool_freebuf p pbuf)
  else if negb (ooblen =? 0) && (zh_header_enable h =? 0) then mret (- EPERM)
  else if (zh_payload_max_size h <? len) || ((zh_header_size h <? ooblen) && negb (zh_header_enable h =? 0))
  then mret (- EINVAL)
  else
    err ← on_pool iDevice TX (fun p => pool_enqbuf p pbuf len ooblen 0);
    _ ← dma_ll_tx_write_buf iDevice;
    mret err.

Definition zap_write (filp : file) (buf count w0 w1 w2 : Z) : ZM Z :=
  if negb (count =? sizeof_write_data) then mret (- EINVAL)
  else if negb (access_ok buf count) then mret (- EFAULT)
  else if negb (copy_ok buf count) then mret (- EFAULT)
  else
    let iDevice := zap_device_num filp in
    err ← (if negb (is_tx_device filp =? 0) then zap_write_tx iDevice w0 w1 w2
           else
             h ← get_half iDevice RX;
             on_pool iDevice RX (fun p => pool_freebuf p (u64 (pool_offset2pbuf (zh_pool h) w0))));
    if negb (err =? 0) then mret err else mret count.

(** ** Control *)

Definition dma_stop (d : dir) (i : Z) : ZM Z := match d with RX => dma_stop_rx i | TX => dma_stop_tx i end.
Definition dma_start (d : dir) (i : Z) : ZM Z := match d with RX => dma_start_rx i | TX => dma_start_tx i end.
Definition dma_is_on (d : dir) (i : Z) : ZM Z := match d with RX => dma_rx_is_on i | TX => dma_tx_is_on i end.

(** [ZAP_IOC_W_RX_MAX_SIZE] and [ZAP_IOC_W_TX_MAX_SIZE] with the argument read. *)
Definition ioctl_set_max_size (d : dir) (iDevice ulTemp : Z) : ZM Z :=
  try_err (dma_stop d iDevice) (
  h ← get_half iDevice d;
  p ← gets zd_fpga;
  let data := if negb (zh_header_enable h =? 0) then u64 (ulTemp - zh_header_size h) else ulTemp in
  if (fifo_size d p <? data) && (zh_jumbo_pkt_enable h =? 0) then mret (- EFBIG)
  else
    _ ← upd_half iDevice d (set_payload_max_size ulTemp);
    on_pool iDevice d (fun q => pool_resize kzalloc_ok q ulTemp (max_packets d) 0)).

(** [ZAP_IOC_W_RX_HEADER_SIZE] and [ZAP_IOC_W_TX_HEADER_SIZE]. *)
Definition ioctl_set_header_size (d : dir) (iDevice ulTemp : Z) : ZM Z :=
  try_err (dma_stop d iDevice) (
  h ← get_half iDevice d;
  p ← gets zd_fpga;
  if oob_size d p <? ulTemp then mret (- EFBIG)
  else if zh_payload_max_size h <=? ulTemp then mret (- EFBIG)
  else if (fifo_size d p <? u64 (zh_payload_max_size h - ulTemp)) && (zh_jumbo_pkt_enable h =? 0) then mret (- EFBIG)
  else
    _ ← upd_half iDevice d (set_header ulTemp (if ulTemp =? 0 then 0 else 1));
    mret 0).

(** [ZAP_IOC_W_RX_JUMBO_EN] and [ZAP_IOC_W_TX_JUMBO_EN]. *)
Definition ioctl_set_jumbo (d : dir) (iDevice ulTemp : Z) : ZM Z :=
  try_err (dma_stop d iDevice) (
  if ulTemp =? 0 then _ ← upd_half iDevice d (set_jumbo 0); mret 0
  else
    p ← gets zd_fpga;
    if IsJumboPacketSupported p =? 0 then mret (- EINVAL)
    else _ ← upd_half iDevice d (set_jumbo 1); mret 0).

(** [ZAP_IOC_W_RX_DMA_ON] and [ZAP_IOC_W_TX_DMA_ON]. *)
Definition ioctl_set_dma_on (d : dir) (iDevice dma_on : Z) : ZM Z :=
  if negb (dma_on =? 0) then dma_start d iDevice else dma_stop d iDevice.

(** The commands that report a value: [__put_user] of an [unsigned long]. *)
Definition ioctl_field (filp : file) (d : dir) (f : zap_half -> Z) : ZM (option Z) :=
  h ← get_half (zap_device_num filp) d; mret (Some (f h)).

(** The status, the high-water marks and the sizes. *)
Definition ioctl_get_size (filp : file) (cmd : Z) : ZM (option Z) :=
  let iDevice := zap_device_num filp in
  if cmd =? ZAP_IOC_R_STATUS then s ← gets zd_status; mret (Some s)
  else if cmd =? ZAP_IOC_R_RX_HIGH_WATER_MARK then
    _ ← dma_ll_update_high_water_marks iDevice; ioctl_field filp RX zh_highwater
  else if cmd =? ZAP_IOC_R_TX_HIGH_WATER_MARK then
    _ ← dma_ll_update_high_water_marks iDevice; ioctl_field filp TX zh_highwater
  else if cmd =? ZAP_IOC_R_TX_MAX_SIZE then ioctl_field filp TX zh_payload_max_size
  else if cmd =? ZAP_IOC_R_TX_HEADER_SIZE then ioctl_field filp TX zh_header_size
  else if cmd =? ZAP_IOC_R_RX_MAX_SIZE then ioctl_field filp RX zh_payload_max_size
  else if cmd =? ZAP_IOC_R_RX_HEADER_SIZE then ioctl_field filp RX zh_header_size
  else mret None.

(** The jumbo flags, [fakey], and which directions run. *)
Definition ioctl_get_mode (filp : file) (cmd : Z) : ZM (option Z) :=
  let iDevice := zap_device_num filp in
  if cmd =? ZAP_IOC_R_RX_JUMBO_EN then ioctl_field filp RX zh_jumbo_pkt_enable
  else if cmd =? ZAP_IOC_R_TX_JUMBO_EN then ioctl_field filp TX zh_jumbo_pkt_enable
  else if cmd =? ZAP_IOC_R_FAKEY then i ← get_if iDevice; mret (Some (u64 (zi_fakey i)))
  else if cmd =? ZAP_IOC_R_RX_DMA_ON then on ← dma_rx_is_on iDevice; mret (Some (u64 on))
  else if cmd =? ZAP_IOC_R_TX_DMA_ON then on ← dma_tx_is_on iDevice; mret (Some (u64 on))
  else mret None.

(** The size of the file's buffer and the number of open files. *)
Definition ioctl_get_pool (filp : file) (cmd : Z) : ZM (option Z) :=
  if cmd =? ZAP_IOC_R_POOL_SIZE then ioctl_field filp (file_dir filp) (fun h => pool_total_size (zh_pool h))
  else if cmd =? ZAP_IOC_R_INSTANCE_COUNT then c ← gets zd_open_count; mret (Some c)
  else mret None.

Definition ioctl_get (filp : file) (cmd : Z) : ZM (option Z) :=
  r ← ioctl_get_size filp cmd;
  match r with
  | Some v => mret (Some v)
  | None =>
    r ← ioctl_get_mode filp cmd;
    match r with Some v => mret (Some v) | None => ioctl_get_pool filp cmd end
  end.

(** The commands that take a value: the word [w] at the argument. *)
Definition ioctl_set (filp : file) (cmd w : Z) : ZM Z :=
  let iDevice := zap_device_num filp in
  if cmd =? ZAP_IOC_W_TX_MAX_SIZE then ioctl_set_max_size TX iDevice w
  else if cmd =? ZAP_IOC_W_TX_HEADER_SIZE then ioctl_set_header_size TX iDevice w
  else if cmd =? ZAP_IOC_W_RX_MAX_SIZE then ioctl_set_max_size RX iDevice w
  else if cmd =? ZAP_IOC_W_RX_HEADER_SIZE then ioctl_set_header_size RX iDevice w
  else if cmd =? ZAP_IOC_W_RX_JUMBO_EN then ioctl_set_jumbo RX iDevice w
  else if cmd =? ZAP_IOC_W_TX_JUMBO_EN then ioctl_set_jumbo TX iDevice w
  else if cmd =? ZAP_IOC_W_FAKEY then
    i ← get_if iDevice;
    _ ← put_if iDevice (ZapIf (zi_rx i) (zi_tx i) (to_i32 w)); mret 0
  else if cmd =? ZAP_IOC_W_RX_DMA_ON then ioctl_set_dma_on RX iDevice w
  else if cmd =? ZAP_IOC_W_TX_DMA_ON then ioctl_set_dma_on TX iDevice w
  else mret (- ENOTTY).

(** [zap_ioctl] with the word [w] at [arg]: the result, and the word it leaves
    there. *)
Definition zap_ioctl (filp : file) (cmd arg w : Z) : ZM (Z * Z) :=
  if negb (_IOC_TYPE cmd =? ZAP_IOC_MAGIC) then mret (- ENOTTY, w)
  else if ZAP_IOC_MAXNR <? _IOC_NR cmd then mret (- ENOTTY, w)
  else if negb (Z.land (_IOC_DIR cmd) 3 =? 0) && negb (access_ok arg (_IOC_SIZE cmd)) then mret (- EFAULT, w)
  else
    intr ← down_interruptible zd_sem set_sem;
    if (intr : bool) then mret (- ERESTARTSYS, w)
    else
      out ← ioctl_get filp cmd;
      r ← match out with
          | Some v => mret (0, v)
          | None => r ← ioctl_set filp cmd w; mret (r, w)
          end;
      _ ← up zd_sem set_sem;
      mret r.

(** ** Mapping and polling *)

Definition PAGE_SHIFT : Z := 12.

(** The page frame mapped, for a request of [vm_end - vm_start] bytes. *)
Definition zap_mmap (filp : file) (vm_start vm_end : Z) : ZM (Z * option Z) :=
  h ← get_half (zap_device_num filp) (file_dir filp);
  let pool_size := pool_total_size (zh_pool h) in
  let pool_phys_start := zh_paddr h + pool_packets_offset (zh_pool h) in
  let requested_size := u64 (vm_end - vm_start) in
  let pfn := Z.shiftr pool_phys_start PAGE_SHIFT in
  if pool_size <? requested_size then mret (- EINVAL, None)
  else if negb (remap_ok vm_start pfn requested_size) then mret (- EAGAIN, None)
  else mret (0, Some pfn).

Definition POLLIN : Z := 1.
Definition POLLRDNORM : Z := 64.

(** [poll]: readiness is tested twice, the second time after registering. *)
Definition zap_poll (filp : file) : ZM Z :=
  let iDevice := zap_device_num filp in
  intr ← down_interruptible zd_sem set_sem;
  if (intr : bool) then mret 0
  else
    let ready := match file_dir filp with
                 | TX => on_pool iDevice TX pool_freebufs_ready
                 | RX => on_pool iDevice RX pool_fifobufs_ready
                 end in
    _ ← ready;
    r ← ready;
    _ ← up zd_sem set_sem;
    mret (if (r : bool) then Z.lor POLLIN POLLRDNORM else 0).

(** ** Set-up and removal *)

Definition half_init : zap_half := ZapHalf 1 pool_zero 0 0 0 0 0 0 0.

(** The pools' sizes (transmit, receive) from the "pool-sizes" property, if there is
    one, and the size of the reserved memory; arithmetic of 64 bits. *)
Definition probe_pool_sizes (sizes : option (Z * Z)) (rmem_size : Z) : option (Z * Z) :=
  match sizes with
  | Some (tx, rx) => if rmem_size <? u64 (tx + rx) then None else Some (tx, rx)
  | None => Some (rmem_size `div` 2, rmem_size `div` 2)
  end.

(** What the kernel and the device tree answer to [zap_probe], in the order it asks;
    an error is a code, 0 for success. *)
Record probe_env := ProbeEnv {
  pv_alloc : bool;
  pv_num_devices : option Z;
  pv_irq_err : Z;
  pv_reg0 : bool;
  pv_reg1 : bool;
  pv_region_handle : bool;
  pv_region : option (Z * Z);
  pv_pool_sizes : option (option (Z * Z));
  pv_chrdev_err : Z;
  pv_class_err : Z;
  pv_cdev_err : Z;
  pv_if_alloc : bool;
  pv_dma_err : Z
}.

(** The device; the [fail] label, which removes what there is and returns the code;
    or the one early return. *)
Inductive probe_result :=
  | ProbeOk (z : zap_dev)
  | ProbeFail (err : Z)
  | ProbeReturn (err : Z).

(** [zap_probe].  From the [irq] property to the claim of device numbers [err] is 0,
    and so is it when the interfaces cannot be allocated. *)
Definition zap_probe (e : probe_env) : probe_result :=
  if negb (pv_alloc e) then ProbeFail (- ENOMEM)
  else
    let n := default ZAP_MAX_DEVICES (pv_num_devices e) in
    if negb (pv_irq_err e =? 0) then ProbeFail (pv_irq_err e)
    else if negb (pv_reg0 e) || negb (pv_reg1 e) then ProbeFail 0
    else if negb (pv_region_handle e) then ProbeFail 0
    else
      match pv_region e with
      | None => ProbeReturn (- EINVAL)
      | Some (rmem_base, rmem_size) =>
        match match pv_pool_sizes e with
              | None => probe_pool_sizes None rmem_size
              | Some None => None
              | Some (Some s) => probe_pool_sizes (Some s) rmem_size
              end with
        | None => ProbeFail 0
        | Some (tx, rx) =>
          if negb (pv_chrdev_err e =? 0) then ProbeFail (pv_chrdev_err e)
          else if negb (pv_class_err e =? 0) then ProbeFail (pv_class_err e)
          else if negb (pv_cdev_err e =? 0) then ProbeFail (pv_cdev_err e)
          else if negb (pv_if_alloc e) then ProbeFail 0
          else
            let z := ZapDev n 0 1 0 (Fpga 0 0 0 0 0 0 0 0 0) rmem_base (u64 (rmem_base + rx)) rx tx
                       (replicate (Z.to_nat n) (ZapIf half_init half_init 0)) [] 0 [] in
            match dma_init (pv_dma_err e) n z with
            | Some (err, z) => if negb (err =? 0) then ProbeFail err else ProbeOk z
            | None => ProbeFail (pv_dma_err e)
            end
        end
      end.

(** The pools of all interfaces are released. *)
Definition zap_remove : ZM Z :=
  n ← gets zd_num_devices;
  _ ← dma_cleanup n;
  _ ← modify (fun z => set_ifs ((fun i => ZapIf (set_pool (pool_destroy (zh_pool (zi_rx i))) (zi_rx i))
                                 (set_pool (pool_destroy (zh_pool (zi_tx i))) (zi_tx i)) (zi_fakey i)) <$> zd_ifs z) z);
  mret 0.

End zap.
