(* ===== verification/ZapSpec.v ===== *)
(** * The ZAP driver: how its operations run

    The interfaces of a device as a map from index and direction to halves, the
    result of every access of the driver monad, and the frame of the register
    operations. *)
From S2P Require Import Prelude Pool PoolSpec ZapDev Dma Zap.

(** ** The view of a device *)

Definition dev_half (z : zap_dev) (i : Z) (d : dir) : option zap_half :=
  if i <? 0 then None else half d <$> zd_ifs z !! Z.to_nat i.
Definition dev_dma (z : zap_dev) (i : Z) : option dma_if_interface :=
  if i <? 0 then None else zd_dma z !! Z.to_nat i.

(** The device with one half, one DMA interface, or the trace replaced. *)
Definition with_half (i : Z) (d : dir) (h : zap_half) (z : zap_dev) : zap_dev :=
  set_ifs (alter (set_half d h) (Z.to_nat i) (zd_ifs z)) z.
Definition with_dma (i : Z) (x : dma_if_interface) (z : zap_dev) : zap_dev :=
  set_dma (<[Z.to_nat i := x]> (zd_dma z)) z.
Definition logged (es : list io_event) (z : zap_dev) : zap_dev := set_io (zd_io z ++ es) z.

Lemma half_set d d' h x : half d (set_half d' h x) = if decide (d = d') then h else half d x.
Proof. by destruct d, d'. Qed.

Lemma dev_half_with z i d h j d' :
  0 <= i -> dev_half (with_half i d h z) j d' =
    if decide (i = j /\ d = d') then (fun _ => h) <$> dev_half z i d else dev_half z j d'.
Proof.
  intros Hi. unfold dev_half, with_half. cbn [zd_ifs set_ifs]. case_if.
  - rewrite decide_False by lia. done.
  - destruct (decide (i = j)) as [<-|Hne].
    + rewrite list_lookup_alter_eq. rewrite (proj2 (Z.ltb_ge _ _)) by lia.
      destruct (zd_ifs z !! Z.to_nat i) as [x|]; cbn; [|by destruct (decide _)].
      rewrite half_set. destruct (decide (d = d')) as [<-|Hd]; [by rewrite !decide_True|].
      rewrite !decide_False by naive_solver. done.
    + rewrite list_lookup_alter_ne by lia. by rewrite decide_False by naive_solver.
Qed.

Lemma dev_half_bounds z i d h : dev_half z i d = Some h -> 0 <= i < zlen (zd_ifs z).
Proof.
  unfold dev_half. case_if; [done|]. destruct (zd_ifs z !! Z.to_nat i) eqn:E; [|done].
  apply lookup_lt_Some in E. unfold zlen. lia.
Qed.

Lemma dev_half_inv z i d h : dev_half z i d = Some h -> exists x, zd_ifs z !! Z.to_nat i = Some x /\ half d x = h /\ 0 <= i.
Proof.
  intros H. pose proof (dev_half_bounds _ _ _ _ H). unfold dev_half in H. case_if_in H; [done|].
  destruct (zd_ifs z !! Z.to_nat i) as [x|] eqn:E; [|done]. cbn in H. injection H as H. exists x. split_and!; [done..|lia].
Qed.

Lemma dev_dma_inv z i x : dev_dma z i = Some x -> zd_dma z !! Z.to_nat i = Some x /\ 0 <= i < zlen (zd_dma z).
Proof.
  unfold dev_dma. case_if; [done|]. intros H. split; [done|]. apply lookup_lt_Some in H. unfold zlen. lia.
Qed.

(** ** Runs of the accessors *)

Lemma get_if_run z i x : zd_ifs z !! Z.to_nat i = Some x -> 0 <= i -> get_if i z = Some (x, z).
Proof.
  intros Hx Hi. unfold get_if, index_ok. apply lookup_lt_Some in Hx as Hl.
  rewrite (proj2 (Z.leb_le _ _)), (proj2 (Z.ltb_lt _ _)) by lia. cbn [andb]. by rewrite Hx.
Qed.

Lemma get_half_run z i d h : dev_half z i d = Some h -> get_half i d z = Some (h, z).
Proof.
  intros (x & Hx & <- & Hi)%dev_half_inv. unfold get_half, mbind, M_bind. by rewrite (get_if_run _ _ x).
Qed.

Lemma upd_half_run z i d f h : dev_half z i d = Some h -> upd_half i d f z = Some (tt, with_half i d (f h) z).
Proof.
  intros (x & Hx & <- & Hi)%dev_half_inv. unfold upd_half, mbind, M_bind. rewrite (get_if_run _ _ x) by done.
  unfold put_if, modify, with_half. do 3 f_equal. apply list_eq. intros j.
  destruct (decide (j = Z.to_nat i)) as [->|Hne].
  - rewrite list_lookup_alter_eq, Hx. rewrite list_lookup_insert_eq by (by eapply lookup_lt_Some). done.
  - by rewrite list_lookup_alter_ne, list_lookup_insert_ne by done.
Qed.

Lemma get_dma_run z i x : dev_dma z i = Some x -> get_dma i z = Some (x, z).
Proof.
  intros [Hx Hi]%dev_dma_inv. unfold get_dma, index_ok. unfold zlen in Hi.
  rewrite (proj2 (Z.leb_le _ _)), (proj2 (Z.ltb_lt _ _)) by lia. cbn [andb]. by rewrite Hx.
Qed.

Lemma upd_dma_run z i f x : dev_dma z i = Some x -> upd_dma i f z = Some (tt, with_dma i (f x) z).
Proof. intros Hx. unfold upd_dma, mbind, M_bind. by rewrite (get_dma_run _ _ x). Qed.

Lemma on_pool_run {A} z i d (f : pool -> option (A * pool)) h a q :
  dev_half z i d = Some h -> f (zh_pool h) = Some (a, q) ->
  on_pool i d f z = Some (a, with_half i d (set_pool q h) z).
Proof.
  intros Hh Hf. unfold on_pool, mbind, M_bind. rewrite (get_half_run _ _ _ h) by done. unfold lift. rewrite Hf.
  by rewrite (upd_half_run _ _ _ _ h).
Qed.

Lemma on_pool_fault {A} z i d (f : pool -> option (A * pool)) h :
  dev_half z i d = Some h -> f (zh_pool h) = None -> on_pool i d f z = None.
Proof.
  intros Hh Hf. unfold on_pool, mbind, M_bind. rewrite (get_half_run _ _ _ h) by done. unfold lift. by rewrite Hf.
Qed.

Section regs.
Context `{ZapEnv}.

Lemma reg_write_run z i reg v :
  ZAP_REG_WRITE i reg v z = Some (tt, logged [IoWrite (u32 (i * 0x20 + reg)) (u32 v)] z).
Proof. done. Qed.

Lemma reg_read_run z i reg :
  let r := u32 (i * 0x20 + reg) in let v := u32 (hw_read (zd_io z) r) in
  ZAP_REG_READ i reg z = Some (v, logged [IoRead r v] z).
Proof. done. Qed.

(** A masked write: the bits of the mask from the value, the others as read. *)
Definition masked (old v m : Z) : Z := u32 (Z.lor (Z.land v m) (Z.land old (Z.lxor (u32 m) (2 ^ 32 - 1)))).

Lemma reg_write_masked_run z i reg v m :
  let r := u32 (i * 0x20 + reg) in let old := u32 (hw_read (zd_io z) r) in
  ZAP_REG_WRITE_MASKED i reg v m z = Some (tt, logged [IoRead r old; IoWrite r (masked old v m)] z).
Proof.
  unfold ZAP_REG_WRITE_MASKED, VSOC_ZAP_REG_WRITE_MASKED, mbind, M_bind, VSOC_ZAP_REG_READ, VSOC_ZAP_REG_WRITE, modify.
  cbv zeta. unfold logged. cbn [zd_io set_io]. by rewrite <- (assoc_L (++)).
Qed.

End regs.

(** ** Frames *)

Lemma logged_half es z i d : dev_half (logged es z) i d = dev_half z i d.
Proof. done. Qed.
Lemma logged_dma es z i : dev_dma (logged es z) i = dev_dma z i.
Proof. done. Qed.
Lemma with_dma_half k x z i d : dev_half (with_dma k x z) i d = dev_half z i d.
Proof. done. Qed.
Lemma with_half_dma k e h z i : dev_dma (with_half k e h z) i = dev_dma z i.
Proof. done. Qed.
Lemma logged_io es z : zd_io (logged es z) = zd_io z ++ es.
Proof. done. Qed.
Lemma with_dma_io k x z : zd_io (with_dma k x z) = zd_io z.
Proof. done. Qed.
Lemma with_half_io k e h z : zd_io (with_half k e h z) = zd_io z.
Proof. done. Qed.
Lemma logged_logged es fs z : logged fs (logged es z) = logged (es ++ fs) z.
Proof. unfold logged. cbn. by rewrite (assoc_L (++)). Qed.

Lemma dev_dma_with z i x j : dev_dma z i = Some j -> dev_dma (with_dma i x z) i = Some x.
Proof.
  intros [Hj Hi]%dev_dma_inv. unfold dev_dma, with_dma. cbn. rewrite (proj2 (Z.ltb_ge _ _)) by lia.
  apply list_lookup_insert_eq. unfold zlen in Hi. lia.
Qed.

Lemma dev_half_same z i d h h' : dev_half z i d = Some h' -> dev_half (with_half i d h z) i d = Some h.
Proof.
  intros Hh. rewrite dev_half_with by (apply dev_half_bounds in Hh; lia).
  rewrite decide_True by done. by rewrite Hh.
Qed.

Lemma dev_half_other z i d h j d' : 0 <= i -> (i, d) <> (j, d') -> dev_half (with_half i d h z) j d' = dev_half z j d'.
Proof. intros Hi Hne. rewrite dev_half_with by done. by rewrite decide_False by naive_solver. Qed.

Lemma zbind_some {A B} (m : ZM A) (f : A -> ZM B) z a z' r :
  m z = Some (a, z') -> f a z' = r -> (m ≫= f) z = r.
Proof. unfold mbind, M_bind. by intros ->. Qed.
Lemma zbind_eq {A B} (m : ZM A) (f : A -> ZM B) z a z' :
  m z = Some (a, z') -> (m ≫= f) z = f a z'.
Proof. unfold mbind, M_bind. by intros ->. Qed.

(** Runs the first operation of a goal, [E] being what it does: at the head of an
    equation, or anywhere. *)
Ltac zstep E := eapply zbind_some; [exact E|cbv beta iota].
Ltac zrw E := rewrite (zbind_eq _ _ _ _ _ E); cbv beta iota.
