(* ===== verification/DmaProps.v ===== *)
(** * The DMA engine: properties

    What the interrupt handler does with a received packet and with a packet to
    send, the descriptors exchanged with the FPGA, and the receive worker. *)
From S2P Require Import Prelude Pool PoolSpec PoolProps ZapDev Dma ZapSpec.

(** ** Bit fields *)

Lemma land_low x n : 0 <= n -> Z.land x (Z.ones n) = x `mod` 2 ^ n.
Proof. intros. by apply Z.land_ones. Qed.

(** A word made of a low and a high half. *)
Lemma lor_halves lo hi : 0 <= lo < 2 ^ 16 -> Z.lor lo (Z.shiftl hi 16) = lo + hi * 2 ^ 16.
Proof.
  intros Hlo. rewrite Z.shiftl_mul_pow2 by lia. rewrite <- (Z.add_lor_land lo).
  assert (Z.land lo (hi * 2 ^ 16) = 0) as ->; [|lia].
  apply Z.bits_inj'. intros n Hn. rewrite Z.land_spec, Z.bits_0.
  destruct (decide (n < 16)) as [Hl|Hl]; [rewrite Z.mul_pow2_bits_low by lia; apply andb_false_r|].
  rewrite <- (Z.mod_small lo (2 ^ 16)), Z.mod_pow2_bits_high by lia. done.
Qed.

(** Splitting it again. *)
Lemma shiftr_halves lo hi : 0 <= lo < 2 ^ 16 -> Z.shiftr (lo + hi * 2 ^ 16) 16 = hi.
Proof. intros. rewrite Z.shiftr_div_pow2 by lia. rewrite Z.div_add by lia. by rewrite Z.div_small by lia. Qed.
Lemma land_halves lo hi : 0 <= lo < 2 ^ 16 -> Z.land (lo + hi * 2 ^ 16) 0xFFFF = lo.
Proof. intros. change 0xFFFF with (Z.ones 16). rewrite Z.land_ones, Z.mod_add by lia. by apply Z.mod_small. Qed.

Lemma land_bit x n : 0 <= n -> bit_set x (Z.shiftl 1 n) = Z.testbit x n.
Proof.
  intros Hn. unfold bit_set. rewrite Z.shiftl_1_l.
  destruct (Z.testbit x n) eqn:E.
  - apply negb_true_iff, Z.eqb_neq. intros H0. assert (Z.testbit (Z.land x (2 ^ n)) n = true) as H1.
    { by rewrite Z.land_spec, E, Z.pow2_bits_true. } rewrite H0, Z.bits_0 in H1. done.
  - apply negb_false_iff, Z.eqb_eq. apply Z.bits_inj'. intros m Hm. rewrite Z.land_spec, Z.bits_0.
    destruct (decide (m = n)) as [->|Hne]; [by rewrite E|]. rewrite Z.pow2_bits_false by done. apply andb_false_r.
Qed.

(** ** Lemmas: the interrupt handler *)

(** The packet [pk] enters the pool of direction [d] of interface [i]. *)
Definition others_kept (z z' : zap_dev) (i : Z) (d : dir) : Prop :=
  forall j d', (i, d) <> (j, d') -> dev_half z' j d' = dev_half z j d'.

(** The FPGA holds packets by 32-bit bus addresses. *)
Definition bus_reachable (h : zap_half) : Prop :=
  pool_ok (zh_pool h) /\ zh_paddr h = p_buf_paddr (zh_pool h) /\ 0 <= zh_paddr h /\
  zh_paddr h + p_size (zh_pool h) < 2 ^ 32.

Lemma bus_buf h k : bus_reachable h -> (k < packets (zh_pool h))%nat ->
  0 <= buf (zh_pool h) k < 2 ^ 32 /\ u64 (buf (zh_pool h) k - zh_paddr h) = buf (zh_pool h) k - zh_paddr h /\
  pool_offset2pbuf (zh_pool h) (buf (zh_pool h) k - zh_paddr h) = buf (zh_pool h) k.
Proof.
  intros ([Hwf _] & Hpa & Hlo & Hhi) Hk. pose proof (buf_range _ Hwf k Hk) as [Hb1 Hb2].
  destruct (wf_geometry _ Hwf) as (Ha & _ & Hpp & _). rewrite Hpp in *.
  split_and!; [lia|lia| |unfold pool_offset2pbuf; rewrite Hpp; lia].
  apply u64_small. lia.
Qed.

Section rx.
Context `{ZapEnv}.
Context (z : zap_dev) (i : Z) (h : zap_half) (x : dma_if_interface) (k : nat) (w : Z).
Context (Hh : dev_half z i RX = Some h) (Hx : dev_dma z i = Some x).
Context (Hbus : bus_reachable h) (Hk : (k < packets (zh_pool h))%nat).

Let r1 := u32 (i * 0x20 + ZAP_REG_RBAR).
Let r2 := u32 (i * 0x20 + ZAP_REG_BSR).

(** What the FPGA reports: the packet's address, then its size word. *)
Definition reports : Prop :=
  hw_read (zd_io z) r1 = buf (zh_pool h) k /\
  hw_read (zd_io z ++ [IoRead r1 (buf (zh_pool h) k)]) r2 = w.

(** The device when the packet is about to be queued. *)
Definition rx_before : zap_dev :=
  logged [IoRead r2 (u32 w)] (with_dma i (set_rx_dma_count (di_rx_dma_count x + 1) x)
    (logged [IoRead r1 (buf (zh_pool h) k)] z)).

Lemma isr_rx_run : reports ->
  dma_isr_rx i z =
    (let '(len, oob, fl) := rx_size_decode (zh_jumbo_pkt_enable h) (u32 w) in
     match pool_enqbuf (zh_pool h) (buf (zh_pool h) k) len oob fl with
     | Some (err, q) => if err =? 0 then Some (tt, with_half i RX (set_pool q h) rx_before) else None
     | None => None
     end).
Proof using Hh Hx Hbus Hk.
  intros [Hr1 Hr2]. destruct (bus_buf h k Hbus Hk) as (Hb & Hu & Ho).
  unfold dma_isr_rx. pose proof (reg_read_run z i ZAP_REG_RBAR) as E1. cbv zeta in E1. fold r1 in E1. rewrite Hr1 in E1.
  unfold u32 at 1 2 in E1. rewrite Z.mod_small in E1 by done. zstep E1.
  set (z1 := logged _ z). zstep (upd_dma_run z1 i (fun i => set_rx_dma_count (di_rx_dma_count i + 1) i) x Hx).
  set (z2 := with_dma i _ z1). zstep (get_half_run z2 i RX h Hh). cbv zeta.
  unfold pool_packets_offset. rewrite Z.sub_0_r, Hu, Hu, Ho. rewrite (u64_small (buf _ k)) by lia.
  pose proof (reg_read_run z2 i ZAP_REG_BSR) as E2. cbv zeta in E2. fold r2 in E2.
  change (zd_io z2) with (zd_io z ++ [IoRead r1 (buf (zh_pool h) k)]) in E2. rewrite Hr2 in E2. zstep E2.
  destruct (rx_size_decode _ _) as [[len oob] fl].
  destruct (pool_enqbuf (zh_pool h) (buf (zh_pool h) k) len oob fl) as [[err q]|] eqn:Eq.
  - eapply zbind_some; [apply (on_pool_run (logged [IoRead r2 (u32 w)] z2) i RX (fun p => pool_enqbuf p (buf (zh_pool h) k) len oob fl) h err q Hh Eq)|]. cbv beta. destruct (err =? 0) eqn:E; [|done].
    cbn [negb]. done.
  - unfold mbind, M_bind at 1. by rewrite (on_pool_fault (logged [IoRead r2 (u32 w)] z2) i RX (fun p => pool_enqbuf p (buf (zh_pool h) k) len oob fl) h Hh Eq).
Qed.

End rx.

(** The handler when only the receive cause is pending for interface [i]. *)
Definition rx_cause (icr i : Z) : Prop :=
  0 <= icr < 2 ^ 32 /\ Z.land (Z.shiftr icr 8) 255 = i /\
  Z.testbit icr 31 = true /\ Z.testbit icr 1 = true /\ Z.testbit icr 17 = true /\
  Z.testbit icr 2 = false /\ Z.testbit icr 3 = false.

Definition tx_cause (icr i : Z) : Prop :=
  0 <= icr < 2 ^ 32 /\ Z.land (Z.shiftr icr 8) 255 = i /\
  Z.testbit icr 31 = true /\ Z.testbit icr 2 = true /\ Z.testbit icr 18 = true /\
  Z.testbit icr 1 = false /\ Z.testbit icr 3 = false.

Section isr.
Context `{ZapEnv}.

Lemma isr_read z icr : hw_read (zd_io z) ZAP_REG_ISR = icr -> 0 <= icr < 2 ^ 32 ->
  ZAP_REG_READ 0 ZAP_REG_ISR z = Some (icr, logged [IoRead ZAP_REG_ISR icr] z).
Proof.
  intros Hr Hi. pose proof (reg_read_run z 0 ZAP_REG_ISR) as E. cbv zeta in E.
  change (u32 (0 * 32 + ZAP_REG_ISR)) with ZAP_REG_ISR in E. rewrite Hr in E. unfold u32 in E.
  by rewrite Z.mod_small in E.
Qed.

Lemma dma_isr_rx_only z icr i :
  hw_read (zd_io z) ZAP_REG_ISR = icr -> rx_cause icr i ->
  dma_isr z = match dma_isr_rx i (logged [IoRead ZAP_REG_ISR icr] z) with
              | Some (_, z') => Some (IRQ_HANDLED, z') | None => None end.
Proof.
  intros Hr (Hb & Hi & B31 & B1 & B17 & B2 & B3). unfold dma_isr. zstep (isr_read z icr Hr Hb). cbv zeta. rewrite Hi.
  unfold ICR_INT_PEND, ICR_INT_RXRDY, ICR_MSK_RXRDY, ICR_INT_TX_FULL_RDY, ICR_INT_TX_FREE_RDY.
  rewrite !land_bit by lia. rewrite B31, B1, B17, B2, B3. cbn [negb andb].
  unfold mbind, M_bind. destruct (dma_isr_rx i _) as [[[] z']|]; done.
Qed.

Lemma dma_isr_tx_only z icr i :
  hw_read (zd_io z) ZAP_REG_ISR = icr -> tx_cause icr i ->
  dma_isr z = dma_isr_tx_full i (logged [IoRead ZAP_REG_ISR icr] z).
Proof.
  intros Hr (Hb & Hi & B31 & B2 & B18 & B1 & B3). unfold dma_isr. zstep (isr_read z icr Hr Hb). cbv zeta. rewrite Hi.
  unfold ICR_INT_PEND, ICR_INT_RXRDY, ICR_INT_TX_FULL_RDY, ICR_MSK_TX_FULL_RDY, ICR_INT_TX_FREE_RDY.
  rewrite !land_bit by lia. rewrite B31, B1, B2, B18, B3. cbn [negb andb].
  unfold mbind, M_bind. cbn [mret M_ret]. destruct (dma_isr_tx_full i _) as [[[] z']|]; done.
Qed.
End isr.

(** ** Lemmas: the receive worker *)

(** What giving a packet to the FPGA writes. *)
Definition posted (i : Z) (p : pool) (k : nat) : io_event :=
  IoWrite (u32 (i * 0x20 + ZAP_REG_RBAR)) (u32 (u32 (buf p k))).

(** A call that does not wait. *)
Lemma getbuf_timeout_now p : pool_getbuf_timeout [] p =
  match pool_getbuf_try p with
  | Some (Some r, q) => Some (Returned (inr r), q)
  | Some (None, q) => Some (StillBlocked, q)
  | None => None
  end.
Proof.
  unfold pool_getbuf_timeout, pool_getbuf_try. destruct (spin_lock p) as [q|]; cbn [mbind option_bind]; [|done].
  cbn [wait_loop]. unfold freelist_empty. destruct (bool_decide (p_freelist q = [])); cbn [negb]; [done|].
  by destruct (_getbuf q) as [[[? ?] ?]|].
Qed.

Lemma dma_rx_task_run fuel : forall z i h x,
  dev_half z i RX = Some h -> dev_dma z i = Some x -> di_rx_on x <> 0 -> pool_ok (zh_pool h) ->
  (length (p_freelist (zh_pool h)) < fuel)%nat ->
  exists z' q, dma_rx_task fuel i [] z = Some (StillBlocked, z') /\ dev_half z' i RX = Some (set_pool q h) /\ pool_ok q /\
    abs q = APool [] (a_fifo (abs (zh_pool h))) (rev (p_freelist (zh_pool h)) ++ p_usedlist (zh_pool h)) /\
    zd_io z' = zd_io z ++ (posted i (zh_pool h) <$> p_freelist (zh_pool h)) /\
    others_kept z z' i RX /\ zd_dma z' = zd_dma z.
Proof.
  induction fuel as [|fuel IH]; intros z i h x Hh Hx Hon Hok Hfuel; [lia|]. cbn [dma_rx_task].
  zrw (get_dma_run z i x Hx). rewrite (proj2 (Z.eqb_neq _ _) Hon). cbn [head default from_option id rc_waits rc_off tail].
  destruct (getbuf_try_spec _ Hok) as (o & q & Hg & Hq & Hr & Hf).
  assert (Hg' : pool_getbuf_timeout [] (zh_pool h) = Some (match o with Some r => Returned (inr r) | None => StillBlocked end, q)).
  { rewrite getbuf_timeout_now, Hg. by destruct o. }
  zrw (on_pool_run z i RX (pool_getbuf_timeout []) h _ q Hh Hg').
  unfold mbind at 1, M_bind at 1, mret at 1, M_ret at 1. cbv beta iota.
  unfold get_result, a_get in Hr. cbn [abs a_free a_fifo a_used] in Hr.
  set (z1 := with_half i RX (set_pool q h) z). pose proof (dev_half_same z i RX (set_pool q h) h Hh) as Hh1. fold z1 in Hh1.
  assert (Hk1 : others_kept z z1 i RX).
  { intros j d' Hne. apply dev_half_other; [|done]. apply dev_half_bounds in Hh. lia. }
  destruct (p_freelist (zh_pool h)) as [|k free] eqn:Hfree.
  - destruct Hr as [-> ->]. exists z1, (zh_pool h). split_and!; [done..| |cbn; by rewrite app_nil_r|done|done].
    unfold abs. by rewrite Hfree.
  - destruct Hr as [-> Ha]. cbv beta iota. unfold dma_ll_put_rx.
    zrw (reg_write_run z1 i ZAP_REG_RBAR (u32 (buf (zh_pool h) k))).
    set (z2 := logged _ z1).
    assert (Hfq : p_freelist q = free) by (apply (f_equal a_free) in Ha; done).
    assert (Huq : p_usedlist q = k :: p_usedlist (zh_pool h)) by (apply (f_equal a_used) in Ha; done).
    destruct (IH z2 i (set_pool q h) x Hh1 Hx Hon Hq) as (z' & q' & Hrun & Hh' & Hq' & Ha' & Hio & Hk & Hd).
    { cbn [set_pool zh_pool]. rewrite Hfq. cbn in Hfuel. lia. }
    cbn [set_pool zh_pool] in *. rewrite Hfq, Huq in *. exists z', q'. split_and!; [done..| | | |done].
    + rewrite Ha', Ha. cbn [a_fifo]. f_equal. cbn [rev]. by rewrite <- (assoc_L (++)).
    + rewrite Hio. change (zd_io z2) with (zd_io z ++ [posted i (zh_pool h) k]). rewrite <- (assoc_L (++)). f_equal.
      cbn [fmap list_fmap app]. f_equal. apply list_fmap_ext. intros n y _. unfold posted.
      apply frame_buf in Hf as [Hb _]. by rewrite Hb.
    + intros j d' Hne. rewrite Hk by done. by apply Hk1.
Qed.

(** ** Lemmas: the transmit parts of the handler *)

(** The accesses that hand a packet to the FPGA, and the mask of the cause. *)
Definition tx_masked (i : Z) : io_event := IoWrite (u32 (i * 0x20 + ZAP_REG_ICR)) ICR_CLR_TX_FULL_RDY.
Definition tx_handed (i : Z) (h : zap_half) (k : nat) (len oob : Z) : list io_event :=
  [IoWrite (u32 (i * 0x20 + ZAP_REG_TBAR)) (u32 (u32 (buf (zh_pool h) k)));
   IoWrite (u32 (i * 0x20 + ZAP_REG_BSR)) (u32 (u32 (tx_size_encode (zh_jumbo_pkt_enable h) len oob)))].

Section tx.
Context `{ZapEnv}.

Lemma tx_queue_empty_run z i h : dev_half z i TX = Some h ->
  tx_queue_empty i z = Some (bool_decide (a_fifo (abs (zh_pool h)) = []), z).
Proof.
  intros Hh. unfold tx_queue_empty. zrw (get_half_run z i TX h Hh). unfold mret, M_ret, fifolist_empty. do 2 f_equal.
  apply bool_decide_ext. cbn. by destruct (p_fifolist (zh_pool h)).
Qed.

(** The next packet goes to the FPGA. *)
Lemma tx_feed_run z i h x k len oob fl a :
  dev_half z i TX = Some h -> dev_dma z i = Some x -> pool_ok (zh_pool h) -> a_deq (abs (zh_pool h)) = Some (k, (len, oob, fl), a) ->
  exists z' q, tx_feed i z = Some (IRQ_HANDLED, z') /\ dev_half z' i TX = Some (set_pool q h) /\ pool_ok q /\
    frame q = frame (zh_pool h) /\ abs q = a /\ others_kept z z' i TX /\ zd_io z' = zd_io z ++ tx_handed i h k len oob /\
    (exists x', dev_dma z' i = Some x' /\ di_rx_on x' = di_rx_on x).
Proof.
  intros Hh Hx Hok Hd. set (p := zh_pool h) in *. destruct (deqbuf_try_spec p Hok) as (o & q & Hg & Hq & Hres & Hf).
  unfold deq_result in Hres. rewrite Hd in Hres. destruct Hres as [-> Ha].
  assert (Hi : 0 <= i) by (apply dev_half_bounds in Hh; lia). set (x' := set_tx_dma_count (di_tx_dma_count x + 1) x). unfold tx_feed.
  zrw (upd_dma_run z i (fun i => set_tx_dma_count (di_tx_dma_count i + 1) i) x Hx). set (z2 := with_dma i _ z).
  zrw (on_pool_run z2 i TX pool_deqbuf_try h _ q Hh Hg). set (z3 := with_half i TX _ z2).
  assert (Hh3 : dev_half z3 i TX = Some (set_pool q h)) by by apply (dev_half_same z2 i TX _ h).
  zrw (get_half_run z3 i TX (set_pool q h) Hh3). cbn [set_pool zh_jumbo_pkt_enable].
  zrw (reg_write_run z3 i ZAP_REG_TBAR (u32 (buf p k))). set (z4 := logged _ z3).
  zrw (reg_write_run z4 i ZAP_REG_BSR (u32 (tx_size_encode (zh_jumbo_pkt_enable h) len oob))). set (z5 := logged _ z4).
  exists z5, q. split_and!; [done|exact Hh3|exact Hq|done|exact Ha|intros j d' Hne; by apply (dev_half_other z2)| |].
  - cbn. by rewrite <- (assoc_L (++)).
  - exists x'. split; [|done]. exact (dev_dma_with z i x' x Hx).
Qed.

Lemma isr_tx_full_run z i h x :
  dev_half z i TX = Some h -> dev_dma z i = Some x -> pool_ok (zh_pool h) ->
  let p := zh_pool h in
  exists z' q sent, dma_isr_tx_full i z = Some (IRQ_HANDLED, z') /\ dev_half z' i TX = Some (set_pool q h) /\ pool_ok q /\
    frame q = frame p /\ others_kept z z' i TX /\ zd_io z' = zd_io z ++ sent /\
    (exists x', dev_dma z' i = Some x' /\ di_rx_on x' = di_rx_on x) /\
    match a_deq (abs p) with
    | None => q = p /\ sent = [tx_masked i]
    | Some (k, (len, oob, fl), a) => abs q = a /\
        sent = tx_handed i h k len oob ++ (if bool_decide (a_fifo a = []) then [tx_masked i] else [])
    end.
Proof.
  intros Hh Hx Hok p. unfold dma_isr_tx_full. zrw (tx_queue_empty_run z i h Hh). fold p in Hok |- *.
  assert (He : bool_decide (a_fifo (abs p) = []) = match a_deq (abs p) with None => true | Some _ => false end).
  { unfold a_deq. by destruct (a_fifo (abs p)) as [|[] ?]. }
  rewrite He. destruct (a_deq (abs p)) as [[[k [[len oob] fl]] a]|] eqn:Hd.
  - destruct (tx_feed_run z i h x k len oob fl a Hh Hx Hok Hd) as (z' & q & E & Hh' & Hq & Hf & Ha & Hk & Hio & Hx').
    zrw E. zrw (tx_queue_empty_run z' i (set_pool q h) Hh'). cbn [set_pool zh_pool]. rewrite Ha.
    destruct (bool_decide (a_fifo a = [])).
    + zrw (reg_write_run z' i ZAP_REG_ICR ICR_CLR_TX_FULL_RDY). do 3 eexists.
      split_and!; [reflexivity|exact Hh'|exact Hq|done|exact Hk| |exact Hx'|exact Ha|reflexivity].
      cbn. rewrite Hio. by rewrite <- (assoc_L (++)).
    + do 3 eexists. split_and!; [reflexivity|exact Hh'|exact Hq|done|exact Hk| |exact Hx'|exact Ha|reflexivity].
      by rewrite app_nil_r.
  - zrw (reg_write_run z i ZAP_REG_ICR ICR_CLR_TX_FULL_RDY). exists (logged [tx_masked i] z), p, [tx_masked i].
    split_and!; [reflexivity|subst p; by destruct h|exact Hok|done|intros j d' _; done|done|by exists x|done|reflexivity].
Qed.

(** A buffer that has been sent, whose address the FPGA reports. *)
Lemma isr_tx_free_run z i h k a :
  dev_half z i TX = Some h -> bus_reachable h -> (k < packets (zh_pool h))%nat ->
  hw_read (zd_io z) (u32 (i * 0x20 + ZAP_REG_TBAR)) = buf (zh_pool h) k -> a_put k (abs (zh_pool h)) = Some a ->
  exists q, dma_isr_tx_free i z = Some (tt, with_half i TX (set_pool q h)
      (logged [IoRead (u32 (i * 0x20 + ZAP_REG_TBAR)) (buf (zh_pool h) k)] z)) /\
    pool_ok q /\ abs q = a /\ frame q = frame (wake_freeq (zh_pool h)).
Proof.
  intros Hh Hbus Hk Hr Hput. destruct (bus_buf h k Hbus Hk) as (Hb & _). unfold dma_isr_tx_free.
  pose proof (reg_read_run z i ZAP_REG_TBAR) as E. cbv zeta in E. rewrite Hr in E. unfold u32 at 1 3 in E.
  rewrite Z.mod_small in E by done. zrw E. set (z1 := logged _ z).
  pose proof (freebuf_spec _ k (proj1 Hbus) Hk) as Hs. rewrite Hput in Hs. destruct Hs as (q & Hq & Hok & Ha & Hf).
  zrw (on_pool_run z1 i TX (fun p => pool_freebuf p (buf (zh_pool h) k)) h 0 q Hh Hq). exists q. by split_and!.
Qed.
End tx.

(** ** Properties *)

(** C21: the interrupt for a received packet queues exactly that packet.  When the
    cause register names interface [i] and only its receive cause, and the FPGA
    reports a packet of the interface it has been given, the packet enters the end
    of the receive queue with the length, out-of-band length and flags decoded from
    the size word, and no other interface or direction changes.  A packet the FPGA
    does not hold stops the kernel (BUG). *)
Theorem dma_isr_delivers `{ZapEnv} z icr i h x k w :
  hw_read (zd_io z) ZAP_REG_ISR = icr -> rx_cause icr i ->
  dev_half z i RX = Some h -> dev_dma z i = Some x -> bus_reachable h -> (k < packets (zh_pool h))%nat ->
  reports (logged [IoRead ZAP_REG_ISR icr] z) i h k w ->
  if bool_decide (k ∈ p_usedlist (zh_pool h)) then
    exists z' q len oob fl, dma_isr z = Some (IRQ_HANDLED, z') /\
      rx_size_decode (zh_jumbo_pkt_enable h) (u32 w) = (len, oob, fl) /\
      dev_half z' i RX = Some (set_pool q h) /\ pool_ok q /\
      queued q = queued (zh_pool h) ++ [(buf (zh_pool h) k, len, oob, fl)] /\ others_kept z z' i RX
  else dma_isr z = None.
Proof.
  intros Hr Hc Hh Hx Hbus Hk Hrep. rewrite (dma_isr_rx_only z icr i Hr Hc). set (z1 := logged _ z) in *.
  rewrite (isr_rx_run z1 i h x k w Hh Hx Hbus Hk Hrep). destruct (rx_size_decode _ _) as [[len oob] fl] eqn:Ed.
  destruct Hbus as (Hok & _). pose proof (enqbuf_spec (zh_pool h) k len oob fl Hok Hk) as Hs. unfold a_enq in Hs.
  cbn [abs a_used] in Hs. case_bool_decide as Hu; [|by rewrite Hs].
  destruct Hs as (q & -> & Hq & Ha & Hf). cbn [Z.eqb]. set (zb := rx_before _ _ _ _ _ _).
  exists (with_half i RX (set_pool q h) zb), q, len, oob, fl. split_and!; [done..| |done| |].
  - by apply (dev_half_same zb i RX _ h).
  - rewrite (queued_eq q _ ltac:(by rewrite Ha)). cbn [a_fifo]. rewrite fmap_app. apply frame_buf in Hf as [Hb _].
    f_equal; [|cbn; by rewrite Hb]. unfold queued. cbn [abs a_fifo]. apply list_fmap_ext. intros n y _. by rewrite Hb.
  - intros j d' Hne. rewrite dev_half_other; [done| |done]. apply dev_half_bounds in Hh. lia.
Qed.

(** The interrupt that asks for a packet to send hands the oldest queued packet of
    the interface to the FPGA: its address, then its size word, in this order; the
    packet leaves the queue and becomes used.  The cause is masked exactly when
    nothing is left to send. *)
Theorem dma_isr_sends `{ZapEnv} z icr i h x :
  hw_read (zd_io z) ZAP_REG_ISR = icr -> tx_cause icr i ->
  dev_half z i TX = Some h -> dev_dma z i = Some x -> pool_ok (zh_pool h) ->
  let p := zh_pool h in let reg r := u32 (i * 0x20 + r) in
  let masked := IoWrite (reg ZAP_REG_ICR) ICR_CLR_TX_FULL_RDY in
  exists z' q sent, dma_isr z = Some (IRQ_HANDLED, z') /\ dev_half z' i TX = Some (set_pool q h) /\ pool_ok q /\
    others_kept z z' i TX /\ zd_io z' = zd_io z ++ IoRead ZAP_REG_ISR icr :: sent /\
    match a_deq (abs p) with
    | None => q = p /\ sent = [masked]
    | Some (k, (len, oob, fl), a) => abs q = a /\
        sent = [IoWrite (reg ZAP_REG_TBAR) (u32 (u32 (buf p k)));
                IoWrite (reg ZAP_REG_BSR) (u32 (u32 (tx_size_encode (zh_jumbo_pkt_enable h) len oob)))] ++
               (if bool_decide (a_fifo a = []) then [masked] else [])
    end.
Proof.
  intros Hr Hc Hh Hx Hok p reg masked. rewrite (dma_isr_tx_only z icr i Hr Hc). set (z1 := logged _ z).
  destruct (isr_tx_full_run z1 i h x Hh Hx Hok) as (z' & q & sent & E & Hh' & Hq & _ & Hk & Hio & _ & Hs).
  exists z', q, sent. split_and!; [exact E|exact Hh'|exact Hq|exact Hk| |exact Hs].
  rewrite Hio. cbn [z1 logged set_io zd_io]. by rewrite <- (assoc_L (++)).
Qed.

(** The size words.  The word for a packet to send, decoded the way received sizes
    are, gives the length cut down to whole 32-bit words: modulo 2^18 bytes in the
    normal format, where the out-of-band part up to 2^16 bytes survives beside it
    and no overflow flag appears; up to 2^32 bytes in the jumbo format, which has no
    out-of-band part. *)
Theorem tx_descriptor_roundtrip len oob jumbo :
  0 <= len < 2 ^ 64 -> 0 <= oob < 2 ^ 16 ->
  rx_size_decode 0 (u32 (tx_size_encode 0 len oob)) = (4 * ((len `div` 4) `mod` 2 ^ 16), 4 * (oob `div` 4), 0) /\
  (jumbo <> 0 -> len < 2 ^ 32 -> rx_size_decode jumbo (u32 (tx_size_encode jumbo len oob)) = (4 * (len `div` 4), 0, 0)).
Proof.
  intros Hlen Hoob. split.
  - unfold tx_size_encode. cbn [Z.eqb]. rewrite Z.shiftl_mul_pow2, (Z.shiftr_div_pow2 len), u64_small by lia.
    rewrite (Z.land_comm 0xffff), (land_low _ 16) by lia.
    set (lo := (len `div` 2 ^ 2) `mod` 2 ^ 16). assert (Hlo : 0 <= lo < 2 ^ 16) by (apply Z.mod_pos_bound; lia).
    assert (Z.land (oob * 2 ^ 14) 0xffff0000 = Z.shiftl (oob `div` 4) 16) as ->.
    { apply Z.bits_inj'. intros n Hn. rewrite Z.land_spec. change 0xffff0000 with (Z.shiftl (Z.ones 16) 16).
      destruct (decide (n < 16)) as [Hl|Hl].
      { rewrite !(Z.shiftl_spec_low _ 16) by lia. apply andb_false_r. }
      rewrite !Z.shiftl_spec_high by lia. rewrite <- (Z.shiftl_mul_pow2 oob 14), Z.shiftl_spec by lia.
      change 4 with (2 ^ 2). rewrite <- Z.shiftr_div_pow2, Z.shiftr_spec by lia.
      replace (n - 16 + 2) with (n - 14) by lia.
      destruct (decide (n - 16 < 16)).
      - by rewrite Z.ones_spec_low, andb_true_r by lia.
      - rewrite Z.ones_spec_high, andb_false_r by lia. symmetry.
        rewrite <- (Z.mod_small oob (2 ^ 16)), Z.mod_pow2_bits_high by lia. done. }
    rewrite lor_halves by done. set (hi := oob `div` 4). assert (Hhi : 0 <= hi < 2 ^ 14) by (unfold hi; mlia).
    set (w := lo + hi * 2 ^ 16). unfold u32. rewrite (Z.mod_small w) by (unfold w; lia).
    unfold rx_size_decode. cbn [Z.eqb].
    assert (Hbit : forall n, 30 <= n -> Z.testbit w n = false).
    { intros n Hn. rewrite <- (Z.mod_small w (2 ^ 30)), Z.mod_pow2_bits_high by (unfold w; lia). done. }
    change RX_SIZE_OOB_OVERFLOW_ERR with (Z.shiftl 1 31). change RX_SIZE_DAT_OVERFLOW_ERR with (Z.shiftl 1 30).
    rewrite !land_bit, !Hbit by lia. unfold w. rewrite shiftr_halves, land_halves by done.
    change 0x3FFF with (Z.ones 14). rewrite (Z.land_comm (Z.ones 14)), land_low, (Z.mod_small hi) by lia.
    rewrite !Z.shiftl_mul_pow2 by lia. unfold u32. rewrite !Z.mod_small by lia.
    unfold lo. change (2 ^ 2) with 4. f_equal. f_equal; lia.
  - intros Hj Hl. unfold tx_size_encode, rx_size_decode. rewrite (proj2 (Z.eqb_neq jumbo 0)) by done.
    rewrite Z.shiftr_div_pow2, Z.shiftl_mul_pow2 by lia. change (2 ^ 2) with 4.
    assert (0 <= len `div` 4 /\ len `div` 4 * 4 < 2 ^ 32) by mlia. unfold u32.
    rewrite (Z.mod_small (len `div` 4)) by lia. rewrite Z.mod_small by lia. do 2 f_equal. lia.
Qed.

(** The receive worker gives every free packet of its interface to the FPGA, one
    register write each, in the order of the free list, and stops (asleep) with no
    free packet left: what was free is used, the queue and the other interfaces are
    untouched.  It makes one iteration more than there are free packets. *)
Theorem dma_rx_task_posts fuel z i h x :
  dev_half z i RX = Some h -> dev_dma z i = Some x -> di_rx_on x <> 0 -> pool_ok (zh_pool h) ->
  (length (p_freelist (zh_pool h)) < fuel)%nat ->
  exists z' q, dma_rx_task fuel i [] z = Some (StillBlocked, z') /\ dev_half z' i RX = Some (set_pool q h) /\ pool_ok q /\
    abs q = APool [] (a_fifo (abs (zh_pool h))) (rev (p_freelist (zh_pool h)) ++ p_usedlist (zh_pool h)) /\
    zd_io z' = zd_io z ++ (posted i (zh_pool h) <$> p_freelist (zh_pool h)) /\
    others_kept z z' i RX /\ zd_dma z' = zd_dma z.
Proof. apply dma_rx_task_run. Qed.

(** ** A concrete device

    One interface whose two pools are the sample pool, with one packet taken. *)
Definition taken_pool : pool := match pool_getbuf_try sample_pool with Some (_, p) => p | None => sample_pool end.
Definition queued_pool : pool :=
  match pool_enqbuf taken_pool (buf taken_pool 6) 600 8 0 with Some (_, p) => p | None => sample_pool end.

Lemma taken_pool_ok : pool_ok taken_pool.
Proof.
  destruct (getbuf_try_spec sample_pool sample_pool_ok) as (o & q & Hg & Hq & _). unfold taken_pool. by rewrite Hg.
Qed.
#[local] Opaque sample_pool taken_pool.
Lemma queued_pool_ok : pool_ok queued_pool.
Proof.
  pose proof (enqbuf_spec taken_pool 6 600 8 0 taken_pool_ok) as Hs. unfold queued_pool. revert Hs.
  destruct (pool_enqbuf _ _ _ _ _) as [[e q]|] eqn:E; [|intros; apply sample_pool_ok].
  intros Hs. specialize (Hs ltac:(vm_compute; lia)). destruct (a_enq _ _ _).
  - destruct Hs as (q' & [= -> ->] & Hq & _). done.
  - pose proof (f_equal (fun o => match o with Some (_, p) => p | None => q end) Hs) as Hq. cbv beta iota in Hq.
    rewrite Hq. apply taken_pool_ok.
Qed.

#[local] Opaque queued_pool.

Definition sample_half (p : pool) : zap_half := ZapHalf 0 p 8192 65536 0 1000 16 1 0.
Definition sample_device (rx tx : pool) : zap_dev :=
  ZapDev 1 1 1 0 (Fpga 1 4096 1024 4096 1024 2 2 3 98) 65536 65536 8192 8192
    [ZapIf (sample_half rx) (sample_half tx) 0] [DmaIf 1 1 0 0 true] 1 [].

(** The registers: a cause word, a packet address and a size word. *)
Definition sample_env (icr addr size : Z) : ZapEnv :=
  {| hw_read _ reg := if reg =? 4 then icr else if reg =? 0xC then addr else if reg =? 0x10 then size else 0;
     kzalloc_ok _ := true; access_ok _ _ := true; copy_ok _ _ := true; remap_ok _ _ _ := true |}.

Definition sample_rx_icr : Z := 2 ^ 31 + 2 ^ 17 + 2.
Definition sample_tx_icr : Z := 2 ^ 31 + 2 ^ 18 + 4.

Lemma taken_bus : bus_reachable (sample_half taken_pool).
Proof. split; [apply taken_pool_ok|]. by vm_compute. Qed.

Lemma dma_isr_delivers_witness :
  exists z' q, @dma_isr (sample_env sample_rx_icr (65536 + 6000) 0x00020096) (sample_device taken_pool queued_pool) =
      Some (IRQ_HANDLED, z') /\
    dev_half z' 0 RX = Some (set_pool q (sample_half taken_pool)) /\ queued q = [(65536 + 6000, 600, 8, 0)].
Proof.
  pose proof (@dma_isr_delivers (sample_env sample_rx_icr (65536 + 6000) 0x00020096) (sample_device taken_pool queued_pool)
    sample_rx_icr 0 (sample_half taken_pool) (DmaIf 1 1 0 0 true) 6 0x00020096 eq_refl
    ltac:(vm_compute; split_and!; congruence) eq_refl eq_refl taken_bus ltac:(vm_compute; lia)
    ltac:(split; vm_compute; reflexivity)) as H.
  assert (Hu : bool_decide (6%nat ∈ p_usedlist (zh_pool (sample_half taken_pool))) = true) by (vm_compute; reflexivity).
  rewrite Hu in H.
  destruct H as (z' & q & len & oob & fl & Hr & Hd & Hz & _ & Hq & _).
  assert (Hd' : rx_size_decode (zh_jumbo_pkt_enable (sample_half taken_pool)) (u32 0x00020096) = (600, 8, 0))
    by (vm_compute; reflexivity).
  rewrite Hd' in Hd. injection Hd as <- <- <-. exists z', q. split_and!; [exact Hr|exact Hz|]. rewrite Hq.
  vm_compute. reflexivity.
Defined.

Lemma queued_deq : a_deq (abs queued_pool) = Some (6%nat, (600, 8, 0), APool [5; 4; 3; 2; 1; 0]%nat [] [6%nat]).
Proof. vm_compute. reflexivity. Qed.

Lemma dma_isr_sends_witness :
  exists z', @dma_isr (sample_env sample_tx_icr 0 0) (sample_device taken_pool queued_pool) = Some (IRQ_HANDLED, z') /\
    zd_io z' = [IoRead 4 sample_tx_icr; IoWrite 8 (65536 + 6000); IoWrite 0x10 0x00020096; IoWrite 4 4].
Proof.
  destruct (@dma_isr_sends (sample_env sample_tx_icr 0 0) (sample_device taken_pool queued_pool) sample_tx_icr 0
    (sample_half queued_pool) (DmaIf 1 1 0 0 true) eq_refl ltac:(vm_compute; split_and!; congruence) eq_refl eq_refl
    queued_pool_ok) as (z' & q & sent & Hr & _ & _ & _ & Hio & Hs).
  change (zh_pool (sample_half queued_pool)) with queued_pool in Hs. rewrite queued_deq in Hs. destruct Hs as [_ ->].
  exists z'. split; [exact Hr|]. rewrite Hio. vm_compute. reflexivity.
Defined.

Lemma tx_descriptor_roundtrip_witness : rx_size_decode 0 (u32 (tx_size_encode 0 601 8)) = (600, 8, 0).
Proof. refine (eq_trans (proj1 (tx_descriptor_roundtrip 601 8 0 _ _)) _); [lia|lia|reflexivity]. Defined.

Lemma dma_rx_task_posts_witness :
  exists z', dma_rx_task 8 0 [] (sample_device sample_pool sample_pool) = Some (StillBlocked, z') /\
    zd_io z' = (fun k => IoWrite 0xC (65536 + 1000 * k)) <$> [6; 5; 4; 3; 2; 1; 0].
Proof.
  destruct (dma_rx_task_posts 8 (sample_device sample_pool sample_pool) 0 (sample_half sample_pool)
    (DmaIf 1 1 0 0 true) eq_refl eq_refl ltac:(done) sample_pool_ok ltac:(vm_compute; lia))
    as (z' & q & Hr & _ & _ & _ & Hio & _).
  exists z'. split; [exact Hr|]. rewrite Hio. vm_compute. reflexivity.
Defined.
