(* ===== verification/ZapProps.v ===== *)
(** * The ZAP driver: properties

    The carving of the reserved memory into buffers, the descriptors passed by
    [read] and [write], the [ioctl] that resizes packets, exclusive opening, and
    the bounds of [mmap]. *)
From S2P Require Import Prelude Pool PoolSpec PoolProps ZapDev Dma Zap ZapSpec DmaProps.

(** ** Lemmas: page alignment *)

Lemma land_high x k : 0 <= k <= 64 -> 0 <= x < 2 ^ 64 -> Z.land x (Z.shiftl (Z.ones (64 - k)) k) = 2 ^ k * (x `div` 2 ^ k).
Proof.
  intros Hk Hx. rewrite Z.mul_comm, <- Z.shiftl_mul_pow2, <- Z.shiftr_div_pow2 by lia. apply Z.bits_inj'. intros n Hn.
  rewrite Z.land_spec. destruct (decide (n < k)) as [Hl|Hl].
  - rewrite !(Z.shiftl_spec_low _ k) by lia. apply andb_false_r.
  - rewrite !Z.shiftl_spec_high, Z.shiftr_spec by lia. replace (n - k + k) with n by lia.
    destruct (decide (n < 64)).
    + by rewrite Z.ones_spec_low, andb_true_r by lia.
    + rewrite Z.ones_spec_high, andb_false_r by lia. symmetry.
      rewrite <- (Z.mod_small x (2 ^ 64)), Z.mod_pow2_bits_high by lia. done.
Qed.

Lemma page_align n : 0 <= n -> n + 4095 < 2 ^ 64 -> PAGE_ALIGN n = 4096 * ((n + 4095) `div` 4096).
Proof.
  intros H0 H1. unfold PAGE_ALIGN, PAGE_SIZE. replace (n + (4096 - 1)) with (n + 4095) by lia.
  change (2 ^ 64 - 4096) with (Z.shiftl (Z.ones (64 - 12)) 12). rewrite land_high by lia.
  change (2 ^ 12) with 4096. apply u64_small. mlia.
Qed.

Lemma page_align_id n : 0 <= n -> n + 4095 < 2 ^ 64 -> n `mod` 4096 = 0 -> PAGE_ALIGN n = n.
Proof. intros ? ? ?. rewrite page_align by done. mlia. Qed.

(** ** Lemmas: the loops of [setup_multiple_pools] *)

Definition pool_base (d : dir) (z : zap_dev) : Z := match d with RX => zd_rx_pool_paddr z | TX => zd_tx_pool_paddr z end.
Definition pool_bytes (d : dir) (z : zap_dev) : Z := match d with RX => zd_rx_pool_size z | TX => zd_tx_pool_size z end.

(** Nothing but the interfaces differs. *)
Definition same_dev (z z' : zap_dev) : Prop := set_ifs [] z' = set_ifs [] z.

Lemma same_dev_base z z' d : same_dev z z' -> pool_base d z' = pool_base d z /\ pool_bytes d z' = pool_bytes d z.
Proof. intros H. injection H. destruct d; cbn; auto. Qed.

Lemma same_dev_trans z1 z2 z3 : same_dev z1 z2 -> same_dev z2 z3 -> same_dev z1 z3.
Proof. unfold same_dev. congruence. Qed.

(** [f] applied to the halves of the interfaces from [lo] to [hi - 1]. *)
Definition changed (lo hi : Z) (f : dir -> Z -> zap_half -> zap_half) (z z' : zap_dev) : Prop :=
  same_dev z z' /\
  forall j d, dev_half z' j d = (if decide (lo <= j < hi) then f d j else id) <$> dev_half z j d.

Definition ifs_upto (n : Z) (z : zap_dev) : Prop := forall j d, 0 <= j < n -> is_Some (dev_half z j d).

Lemma changed_ifs lo hi f z z' n : changed lo hi f z z' -> ifs_upto n z -> ifs_upto n z'.
Proof. intros [_ H] Hn j d Hj. rewrite H. by apply fmap_is_Some, Hn. Qed.

(** Both halves of one interface. *)
Lemma upd_both f z i : 0 <= i -> is_Some (dev_half z i RX) -> is_Some (dev_half z i TX) ->
  exists z', (upd_half i RX (f RX i) ≫= (fun _ => upd_half i TX (f TX i))) z = Some (tt, z') /\ changed i (i + 1) f z z'.
Proof.
  intros Hi [h Hh] [h' Hh']. zrw (upd_half_run z i RX (f RX i) h Hh).
  assert (Hne : dev_half (with_half i RX (f RX i h) z) i TX = Some h') by (by rewrite dev_half_other by (done || congruence)).
  rewrite (upd_half_run _ i TX _ h' Hne). eexists. split; [done|]. split; [done|]. intros j d.
  rewrite dev_half_with by done. rewrite Hne. rewrite dev_half_with by done. rewrite Hh.
  destruct (decide (j = i)) as [->|Hj].
  - rewrite (decide_True (P := i <= i < i + 1)) by lia. destruct d.
    + rewrite decide_False by naive_solver. rewrite decide_True by done. by rewrite Hh.
    + rewrite decide_True by done. by rewrite Hh'.
  - rewrite !decide_False by (lia || naive_solver). by rewrite option_fmap_id.
Qed.

Definition carve (z : zap_dev) (s : Z) (d : dir) (j : Z) : Z := PAGE_ALIGN (u64 (pool_base d z + u64 (s * j))).

Lemma setup_paddrs_run n : forall i s z, 0 <= i -> ifs_upto (i + Z.of_nat n) z ->
  exists z', setup_paddrs n i s z = Some (tt, z') /\ changed i (i + Z.of_nat n) (fun d j => set_paddr (carve z s d j)) z z'.
Proof.
  induction n as [|n IH]; intros i s z Hi Hz; cbn [setup_paddrs].
  - eexists. split; [done|]. split; [done|]. intros j d. rewrite decide_False by lia. by rewrite option_fmap_id.
  - unfold mbind at 1, M_bind at 1, gets at 1. cbv beta iota. unfold mbind at 1, M_bind at 1, gets at 1. cbv beta iota.
    destruct (upd_both (fun d j => set_paddr (carve z s d j)) z i Hi) as (z1 & E & Hc); [apply Hz; lia..|].
    unfold mbind, M_bind in E |- *. destruct (upd_half i RX _ z) as [[[] z0]|]; [|done].
    unfold carve, pool_base in E. rewrite E.
    destruct (IH (i + 1) s z1) as (z' & -> & Hc'); [lia| |].
    { eapply changed_ifs; [exact Hc|]. intros j d Hj. apply Hz. lia. }
    exists z'. split; [done|]. destruct Hc as [Hs Hc], Hc' as [Hs' Hc']. split; [by eapply same_dev_trans|].
    intros j d. rewrite Hc', Hc. destruct (same_dev_base _ _ d Hs) as [Hb _].
    destruct (dev_half z j d) as [h|]; cbn; [|done]. f_equal. unfold carve. rewrite Hb.
    repeat case_decide; try lia; done.
Qed.

Definition paddr_of (z : zap_dev) (d : dir) (j : Z) : Z := default 0 (zh_paddr <$> dev_half z j d).

Lemma paddr_same z z' lo hi s d j : changed lo hi (fun d j => set_size (s d j)) z z' -> paddr_of z' d j = paddr_of z d j.
Proof.
  intros [_ H]. unfold paddr_of. rewrite H. destruct (dev_half z j d) as [h|]; [|done]. cbn. by case_decide.
Qed.

(** The difference of the addresses of two neighbours. *)
Definition gap (z : zap_dev) (d : dir) (j : Z) : Z := u64 (paddr_of z d (j + 1) - paddr_of z d j).

Lemma setup_sizes_run n : forall i z, 0 <= i -> ifs_upto (i + Z.of_nat n + 1) z ->
  exists z', setup_sizes n i z = Some (tt, z') /\ changed i (i + Z.of_nat n) (fun d j => set_size (gap z d j)) z z'.
Proof.
  induction n as [|n IH]; intros i z Hi Hz; cbn [setup_sizes].
  - eexists. split; [done|]. split; [done|]. intros j d. rewrite decide_False by lia. by rewrite option_fmap_id.
  - assert (Hif : forall j, 0 <= j < i + 2 -> exists x, zd_ifs z !! Z.to_nat j = Some x /\
       forall d, paddr_of z d j = zh_paddr (half d x)).
    { intros j Hj. destruct (Hz j RX) as [h Hh]; [lia|]. apply dev_half_inv in Hh as (x & Hx & _ & Hj0).
      exists x. split; [done|]. intros d. unfold paddr_of, dev_half. rewrite (proj2 (Z.ltb_ge _ _)) by lia. by rewrite Hx. }
    destruct (Hif (i + 1)) as (xn & Hxn & Hpn); [lia|]. destruct (Hif i) as (x & Hx & Hp); [lia|].
    zrw (get_if_run z (i + 1) xn Hxn ltac:(lia)). zrw (get_if_run z i x Hx Hi).
    change (zi_rx xn) with (half RX xn). change (zi_tx xn) with (half TX xn).
    change (zi_rx x) with (half RX x). change (zi_tx x) with (half TX x).
    rewrite <- !Hp, <- !Hpn. fold (gap z RX i). fold (gap z TX i).
    destruct (upd_both (fun d j => set_size (gap z d j)) z i Hi) as (z1 & E & Hc); [apply Hz; lia..|].
    unfold mbind, M_bind in E |- *. destruct (upd_half i RX _ z) as [[[] z0]|]; [|done]. rewrite E.
    destruct (IH (i + 1) z1) as (z' & -> & Hc'); [lia| |].
    { eapply changed_ifs; [exact Hc|]. intros j d Hj. apply Hz. lia. }
    exists z'. split; [done|].
    assert (Hg : forall d j, gap z1 d j = gap z d j).
    { intros d j. unfold gap. by rewrite !(paddr_same z z1 i (i + 1) (gap z) d). }
    destruct Hc as [Hs Hc], Hc' as [Hs' Hc']. split; [by eapply same_dev_trans|].
    intros j d. rewrite Hc', Hc. destruct (dev_half z j d) as [h|]; cbn; [|done]. f_equal. rewrite Hg.
    repeat case_decide; try lia; done.
Qed.

(** The region of one half: where its buffer starts, and where it ends. *)
Definition region_end (h : zap_half) : Z := zh_paddr h + zh_size h.

Lemma setup_run n z : 1 <= n < 2 ^ 31 -> ifs_upto n z ->
  let s := pool_bytes RX z `div` n in
  exists z', setup_multiple_pools n z = Some (tt, z') /\ same_dev z z' /\
    (forall j d, ~ 0 <= j < n -> dev_half z' j d = dev_half z j d) /\
    forall j d, 0 <= j < n -> exists h, dev_half z j d = Some h /\
      dev_half z' j d = Some (set_size
        (if n =? 1 then pool_bytes d z
         else if j =? n - 1 then u64 (pool_base d z + pool_bytes d z - carve z s d j)
         else u64 (carve z s d (j + 1) - carve z s d j)) (set_paddr (carve z s d j) h)).
Proof.
  intros Hn Hz s. unfold setup_multiple_pools. unfold mbind at 1, M_bind at 1, gets at 1. cbv beta iota.
  unfold mbind at 1, M_bind at 1, gets at 1. cbv beta iota. rewrite (proj2 (Z.eqb_neq n 0)) by lia. cbv zeta.
  rewrite (u64_small n) by lia. change (zd_rx_pool_size z `div` n) with s.
  destruct (setup_paddrs_run (Z.to_nat n) 0 s z) as (z1 & E1 & Hc1); [lia|by replace (0 + Z.of_nat (Z.to_nat n)) with n by lia|].
  replace (0 + Z.of_nat (Z.to_nat n)) with n in Hc1 by lia.
  zrw E1. assert (Hz1 : ifs_upto n z1) by (by eapply changed_ifs). pose proof Hc1 as [Hs1 H1].
  assert (Hp : forall d j, 0 <= j < n -> paddr_of z1 d j = carve z s d j).
  { intros d j Hj. unfold paddr_of. rewrite H1, decide_True by lia. destruct (Hz j d Hj) as [h ->]. done. }
  destruct (n =? 1) eqn:En; bool_to_prop.
  - subst n. destruct (upd_both (fun d _ => set_size (pool_bytes d z)) z1 0) as (z2 & E2 & Hs2 & H2); [lia|apply Hz1; lia..|].
    exists z2. split; [exact E2|]. split; [by eapply same_dev_trans|]. split.
    { intros j d Hj. rewrite H2, H1, !decide_False by lia. by rewrite !option_fmap_id. }
    intros j d Hj.
    destruct (Hz j d Hj) as [h Hh]. exists h. split; [done|]. rewrite H2, H1, Hh, !decide_True by lia. done.
  - destruct (setup_sizes_run (Z.to_nat (n - 1)) 0 z1) as (z2 & E2 & Hc2); [lia| |].
    { by replace (0 + Z.of_nat (Z.to_nat (n - 1)) + 1) with n by lia. }
    replace (0 + Z.of_nat (Z.to_nat (n - 1))) with (n - 1) in Hc2 by lia.
    zrw E2. assert (Hz2 : ifs_upto n z2) by (by eapply changed_ifs). pose proof Hc2 as [Hs2 H2].
    assert (Hs : same_dev z z2) by by eapply same_dev_trans.
    destruct (Hz2 (n - 1) RX) as [hl Hhl]; [lia|]. apply dev_half_inv in Hhl as (x & Hx & _ & _).
    assert (Hpx : forall d, zh_paddr (half d x) = carve z s d (n - 1)).
    { intros d. rewrite <- Hp by lia. rewrite <- (paddr_same z1 z2 _ _ _ d (n - 1) Hc2). unfold paddr_of, dev_half.
      rewrite (proj2 (Z.ltb_ge _ _)) by lia. by rewrite Hx. }
    zrw (get_if_run z2 (n - 1) x Hx ltac:(lia)). unfold mbind at 1, M_bind at 1, gets at 1. cbv beta iota.
    unfold mbind at 1, M_bind at 1, gets at 1. cbv beta iota.
    change (zi_rx x) with (half RX x). change (zi_tx x) with (half TX x). rewrite !Hpx.
    change (zd_rx_pool_paddr z2) with (pool_base RX z2). change (zd_tx_pool_paddr z2) with (pool_base TX z2).
    change (zd_rx_pool_size z) with (pool_bytes RX z). change (zd_tx_pool_size z) with (pool_bytes TX z).
    rewrite !(proj1 (same_dev_base z z2 _ Hs)).
    destruct (upd_both (fun d _ => set_size (u64 (pool_base d z + pool_bytes d z - carve z s d (n - 1)))) z2 (n - 1))
      as (z3 & E3 & Hs3 & H3); [lia|apply Hz2; lia..|].
    exists z3. split; [exact E3|]. split; [by eapply same_dev_trans|]. split.
    { intros j d Hj. rewrite H3, H2, H1, !decide_False by lia. by rewrite !option_fmap_id. }
    intros j d Hj.
    destruct (Hz j d Hj) as [h Hh]. exists h. split; [done|]. rewrite H3, H2, H1, Hh. rewrite (decide_True (P := 0 <= j < n)) by lia.
    destruct (j =? n - 1) eqn:Ej; bool_to_prop.
    + subst j. rewrite (decide_True (P := n - 1 <= n - 1 < n - 1 + 1)), (decide_False (P := 0 <= n - 1 < n - 1)) by lia. done.
    + rewrite (decide_False (P := n - 1 <= j < n - 1 + 1)), (decide_True (P := 0 <= j < n - 1)) by lia. cbn. unfold gap, id.
      by rewrite !Hp by lia.
Qed.

(** Addresses of regions: the strides are those of the receive memory. *)
Definition stride (n : Z) (z : zap_dev) : Z := pool_bytes RX z `div` n.
Definition region_start (n : Z) (z : zap_dev) (d : dir) (j : Z) : Z :=
  pool_base d z + 4096 * ((stride n z * j + 4095) `div` 4096).

Lemma stride_bounds n z j :
  1 <= n -> 0 <= pool_bytes RX z -> 0 <= j < n -> 0 <= stride n z /\ 0 <= stride n z * j <= pool_bytes RX z.
Proof.
  intros Hn Hr Hj. unfold stride. assert (Hs : 0 <= pool_bytes RX z `div` n) by (apply Z.div_pos; lia).
  assert (n * (pool_bytes RX z `div` n) <= pool_bytes RX z) by (apply Z.mul_div_le; lia). nia.
Qed.

Lemma carve_value n z d j :
  pool_base d z `mod` 4096 = 0 -> 0 <= pool_base d z -> pool_base d z + pool_bytes RX z + 4096 < 2 ^ 64 ->
  1 <= n -> 0 <= pool_bytes RX z -> 0 <= j < n ->
  carve z (stride n z) d j = region_start n z d j.
Proof.
  intros Hal H0 Hmax Hn Hr Hj. destruct (stride_bounds n z j Hn Hr Hj) as [Hs Hsj]. unfold carve, region_start.
  set (s := stride n z) in *. clearbody s. rewrite (u64_small (s * j)), u64_small by lia.
  rewrite page_align by lia.
  replace (pool_base d z + s * j + 4095) with (pool_base d z `div` 4096 * 4096 + (s * j + 4095)) by mlia.
  rewrite Z.div_add_l by lia. rewrite Z.mul_add_distr_l. mlia.
Qed.

Lemma region_start_bounds n z d i j :
  1 <= n -> 0 <= pool_bytes RX z -> 0 <= i <= j -> j < n ->
  pool_base d z <= region_start n z d i <= region_start n z d j /\
  region_start n z d j <= pool_base d z + pool_bytes RX z + 4095.
Proof.
  intros Hn Hr Hi Hj. destruct (stride_bounds n z j Hn Hr ltac:(lia)) as [Hs Hsj]. unfold region_start.
  set (s := stride n z) in *. clearbody s. assert (0 <= s * i <= s * j) by nia. split; [split|]; mlia.
Qed.

(** A size that wraps around. *)
Lemma u64_negative x : - 2 ^ 63 <= x < 0 -> u64 x = 2 ^ 64 + x.
Proof. intros H. unfold u64. symmetry. apply (Z.mod_unique_pos x (2 ^ 64) (-1)); lia. Qed.

Lemma region_start_0 n z d : region_start n z d 0 = pool_base d z.
Proof. unfold region_start. rewrite Z.mul_0_r. change ((0 + 4095) `div` 4096) with 0. lia. Qed.

(** Doing it again changes no region. *)
Lemma setup_again n z z' :
  1 <= n < 2 ^ 31 -> ifs_upto n z -> setup_multiple_pools n z = Some (tt, z') ->
  exists z'', setup_multiple_pools n z' = Some (tt, z'') /\ forall j e, dev_half z'' j e = dev_half z' j e.
Proof.
  intros Hn Hz E. destruct (setup_run n z Hn Hz) as (z1 & E1 & Hsd & Hout & Hin). rewrite E in E1. injection E1 as <-.
  assert (Hz' : ifs_upto n z').
  { intros j e Hj. destruct (Hin j e Hj) as (h & _ & ->). done. }
  destruct (setup_run n z' Hn Hz') as (z'' & E' & Hsd' & Hout' & Hin'). exists z''. split; [done|]. intros j e.
  destruct (decide (0 <= j < n)) as [Hj|Hj]; [|by apply Hout'].
  destruct (Hin j e Hj) as (h & Hh & Hh'), (Hin' j e Hj) as (h1 & Hh1 & ->). rewrite Hh' in Hh1. injection Hh1 as <-.
  rewrite Hh'. unfold carve. rewrite !(proj1 (same_dev_base _ _ _ Hsd)), !(proj2 (same_dev_base _ _ _ Hsd)). done.
Qed.

(** The last region starts inside the memory of its direction. *)
Definition holds_strides (n : Z) (z : zap_dev) (d : dir) : bool :=
  region_start n z d (n - 1) <=? pool_base d z + pool_bytes d z.

Lemma holds_strides_enough n z d :
  1 <= n -> 4096 <= stride n z -> stride n z * n <= pool_bytes d z -> holds_strides n z d = true.
Proof.
  intros Hn Hs Hb. unfold holds_strides, region_start. set (s := stride n z) in *. clearbody s.
  apply Z.leb_le. assert (s * (n - 1) + 4096 <= pool_bytes d z) by nia. mlia.
Qed.

(** ** Properties *)

(** C38: [setup_multiple_pools] cuts the reserved memory of a direction into one region
    per interface: page-aligned, adjacent, the first starting at the buffer's start.  The
    strides are those of the receive memory in both directions.  When the last region
    starts inside the memory of its direction, it ends at the memory's end -- so for the
    receive direction when a stride is at least a page, and for the transmit direction
    when its memory holds the receive strides as well.  Otherwise (a transmit memory that
    is too small) the last region starts beyond the end of the memory and its size wraps
    around to almost 2^64.  Pools and users are not touched, and doing it again when
    another file is opened changes no region. *)
Theorem setup_pools_partition n z d :
  1 <= n < 2 ^ 31 -> ifs_upto n z -> pool_base d z `mod` 4096 = 0 -> 0 <= pool_base d z ->
  0 <= pool_bytes RX z -> 0 <= pool_bytes d z ->
  pool_base d z + pool_bytes d z < 2 ^ 63 -> pool_base d z + pool_bytes RX z + 4096 < 2 ^ 63 ->
  (4096 <= stride n z -> stride n z * n <= pool_bytes d z -> holds_strides n z d = true) /\
  exists z', setup_multiple_pools n z = Some (tt, z') /\ same_dev z z' /\
    (exists z'', setup_multiple_pools n z' = Some (tt, z'') /\ forall j e, dev_half z'' j e = dev_half z' j e) /\
    forall j, 0 <= j < n -> exists h h', dev_half z j d = Some h /\ dev_half z' j d = Some h' /\
      zh_pool h' = zh_pool h /\ zh_in_use h' = zh_in_use h /\
      zh_paddr h' = region_start n z d j /\ zh_paddr h' `mod` 4096 = 0 /\ (j = 0 -> zh_paddr h' = pool_base d z) /\
      (forall next, j < n - 1 -> dev_half z' (j + 1) d = Some next ->
         0 <= zh_size h' /\ region_end h' = zh_paddr next) /\
      (j = n - 1 ->
         if holds_strides n z d then 0 <= zh_size h' /\ region_end h' = pool_base d z + pool_bytes d z
         else pool_base d z + pool_bytes d z < zh_paddr h' /\
              zh_size h' = 2 ^ 64 - (zh_paddr h' - (pool_base d z + pool_bytes d z)) /\ 2 ^ 63 <= zh_size h').
Proof.
  intros Hn Hz Hal H0 Hr Hb Hmax Hmaxr. split; [by apply holds_strides_enough; lia|].
  destruct (setup_run n z Hn Hz) as (z' & E & Hsd & Hout & Hin).
  exists z'. split; [done|]. split; [done|]. split; [by eapply setup_again|].
  assert (Hc : forall j, 0 <= j < n -> carve z (pool_bytes RX z `div` n) d j = region_start n z d j).
  { intros j Hj. apply carve_value; lia. }
  intros j Hj. destruct (Hin j d Hj) as (h & Hh & Hh'). exists h. eexists. split; [done|]. split; [exact Hh'|].
  cbn [set_size set_paddr zh_pool zh_in_use zh_paddr zh_size]. rewrite (Hc j Hj). split; [done|]. split; [done|]. split; [done|].
  split; [unfold region_start; mlia|]. split; [intros ->; apply region_start_0|]. split.
  - intros next Hlt Hnext. destruct (Hin (j + 1) d) as (h1 & _ & Hh1); [lia|]. rewrite Hh1 in Hnext. injection Hnext as <-.
    unfold region_end. cbn [set_size set_paddr zh_paddr zh_size].
    rewrite (proj2 (Z.eqb_neq n 1)), (proj2 (Z.eqb_neq j (n - 1))) by lia. rewrite !Hc by lia.
    destruct (region_start_bounds n z d j (j + 1)) as [Hle Hup]; [lia..|]. rewrite u64_small by lia. lia.
  - intros Hlast. unfold region_end, holds_strides. cbn [set_size set_paddr zh_paddr zh_size]. subst j. rewrite Z.eqb_refl.
    destruct (region_start_bounds n z d (n - 1) (n - 1)) as [[Hle _] Hup]; [lia..|].
    destruct (n =? 1) eqn:En; bool_to_prop.
    + subst n. change (1 - 1) with 0 in *. rewrite region_start_0 in *. rewrite (proj2 (Z.leb_le _ _)) by lia. lia.
    + destruct (Z.leb_spec (region_start n z d (n - 1)) (pool_base d z + pool_bytes d z)).
      * rewrite u64_small by lia. lia.
      * rewrite u64_negative by lia. lia.
Qed.

(** ** Lemmas: descriptors *)

(** The packets of a half have addresses of 64 bits. *)
Definition addressable (h : zap_half) : Prop :=
  pool_ok (zh_pool h) /\ 0 <= p_buf_paddr (zh_pool h) /\ p_buf_paddr (zh_pool h) + p_size (zh_pool h) < 2 ^ 64.

(** The offset by which user space names packet [k]. *)
Definition offset_of (h : zap_half) (k : nat) : Z := Z.of_nat k * p_aligned_packet_size (zh_pool h).

Lemma offset_buf h k : addressable h -> (k < packets (zh_pool h))%nat ->
  u64 (pool_offset2pbuf (zh_pool h) (offset_of h k)) = buf (zh_pool h) k /\
  pool_pbuf2offset (zh_pool h) (buf (zh_pool h) k) = offset_of h k /\ 0 <= offset_of h k < 2 ^ 32.
Proof.
  intros ([Hwf _] & H0 & Hmax) Hk. pose proof (buf_range _ Hwf k Hk) as [Hb1 Hb2].
  destruct (wf_geometry _ Hwf) as (Ha & _ & Hpp & Hs). unfold pool_offset2pbuf, pool_pbuf2offset, offset_of.
  unfold buf in *. rewrite Hpp in *. replace (_ + _ - p_buf_paddr (zh_pool h)) with
    (Z.of_nat k * p_aligned_packet_size (zh_pool h)) by lia. rewrite !u64_small by lia. split_and!; [done..|lia|lia].
Qed.

(** The address depends on the frame of the pool only. *)
Lemma addressable_frame h q : addressable h -> pool_ok q -> frame q = frame (zh_pool h) ->
  addressable (set_pool q h) /\ packets q = packets (zh_pool h) /\ (forall k, offset_of (set_pool q h) k = offset_of h k).
Proof.
  intros (Hok & H0 & Hmax) Hq Hf. split_and!.
  - split; [done|]. unfold frame in Hf. injection Hf as E1 E2 _ _ _ _ _ _ _. cbn. by rewrite E1, E2.
  - by apply frame_packets; [apply Hq|apply Hok|].
  - intros k. unfold offset_of, frame in *. injection Hf as _ _ _ E _ _ _ _ _. cbn. by rewrite E.
Qed.

Lemma set_pool_same h : set_pool (zh_pool h) h = h.
Proof. by destruct h. Qed.

Lemma with_half_id z i d h : dev_half z i d = Some h -> with_half i d h z = z.
Proof.
  intros (x & Hx & <- & Hi)%dev_half_inv. unfold with_half.
  replace (alter _ _ (zd_ifs z)) with (zd_ifs z); [by destruct z|]. symmetry. apply list_eq. intros j.
  destruct (decide (j = Z.to_nat i)) as [->|Hne]; [|by rewrite list_lookup_alter_ne].
  rewrite list_lookup_alter_eq, Hx. by destruct x, d.
Qed.

Section cycle.
Context `{ZapEnv} (filp : file) (ubuf : Z).
Context (Huser : forall n, access_ok ubuf n = true /\ copy_ok ubuf n = true).

Lemma read_out_run d i z h pbuf len oob fl : dev_half z i d = Some h ->
  read_out ubuf d i pbuf len oob fl z = Some (Returned (32, [pool_pbuf2offset (zh_pool h) pbuf; len; oob; fl]), z).
Proof using Huser.
  intros Hh. unfold read_out. zrw (get_half_run z i d h Hh). cbv zeta. by rewrite (proj2 (Huser _)).
Qed.

(** A buffer freed through [write]. *)
Lemma free_run z i d h k : dev_half z i d = Some h -> addressable h -> (k < packets (zh_pool h))%nat ->
  match a_put k (abs (zh_pool h)) with
  | None => on_pool i d (fun p => pool_freebuf p (buf (zh_pool h) k)) z = Some (- EINVAL, z)
  | Some a => exists q, on_pool i d (fun p => pool_freebuf p (buf (zh_pool h) k)) z = Some (0, with_half i d (set_pool q h) z) /\
      pool_ok q /\ abs q = a /\ frame q = frame (wake_freeq (zh_pool h))
  end.
Proof using.
  intros Hh (Hok & _) Hk. pose proof (freebuf_spec _ k Hok Hk) as Hs. destruct (a_put _ _) as [a|].
  - destruct Hs as (q & Hr & Hq & Ha & Hf). exists q. split_and!; [|done..].
    by apply (on_pool_run z i d (fun p => pool_freebuf p (buf (zh_pool h) k)) h).
  - rewrite (on_pool_run z i d (fun p => pool_freebuf p (buf (zh_pool h) k)) h _ _ Hh Hs).
    by rewrite set_pool_same, with_half_id.
Qed.

(** A non-blocking [read] of a receive file. *)
Lemma zap_read_rx_run z h : is_tx_device filp = 0 -> Z.land (f_flags filp) O_NONBLOCK <> 0 ->
  dev_half z (zap_device_num filp) RX = Some h -> addressable h ->
  let i := zap_device_num filp in
  match a_deq (abs (zh_pool h)) with
  | None => zap_read filp ubuf 32 [] z = Some (Returned (- EAGAIN, []), z)
  | Some (k, (len, oob, fl), a) => (k < packets (zh_pool h))%nat /\ exists q,
      zap_read filp ubuf 32 [] z = Some (Returned (32, [offset_of h k; len; oob; fl]), with_half i RX (set_pool q h) z) /\
      pool_ok q /\ abs q = a /\ frame q = frame (zh_pool h)
  end.
Proof using Huser.
  intros Hrx Hnb Hh Ha i. unfold zap_read. change (32 =? sizeof_read_data) with true. rewrite (proj1 (Huser 32)), Hrx.
  rewrite (proj2 (Z.eqb_neq _ _) Hnb). cbn [negb Z.eqb].
  destruct (deqbuf_try_spec (zh_pool h) (proj1 Ha)) as (o & q & Hg & Hq & Hres & Hf).
  zrw (on_pool_run z i RX pool_deqbuf_try h o q Hh Hg). set (z1 := with_half i RX _ z).
  assert (Hin : forall k, k ∈ p_fifolist (zh_pool h) -> (k < packets (zh_pool h))%nat).
  { intros k Hk. apply (in_lists _ (proj1 (proj1 Ha))). by apply (get_list_all _ (proj1 (proj1 Ha)) FIFOLIST). }
  unfold deq_result, a_deq in *. cbn [abs a_fifo] in *. destruct (p_fifolist (zh_pool h)) as [|k fifo]; cbn [fmap list_fmap] in *.
  - destruct Hres as [-> ->]. subst z1. by rewrite set_pool_same, with_half_id.
  - destruct (meta (zh_pool h) k) as [[len oob] fl]. destruct Hres as [-> Hab].
    assert (Hk : (k < packets (zh_pool h))%nat) by (apply Hin; set_solver). split; [done|]. exists q. split_and!; [|done..].
    rewrite (read_out_run RX i z1 (set_pool q h)) by by apply (dev_half_same z i RX _ h).
    do 4 f_equal. destruct (addressable_frame h q Ha Hq Hf) as (Ha' & Hn & Ho). rewrite <- Hn in Hk.
    pose proof (offset_buf _ _ Ha' Hk) as (_ & Hoff & _). rewrite Ho in Hoff. rewrite <- Hoff. cbn [set_pool zh_pool].
    apply frame_buf in Hf as [Hb _]. by rewrite Hb.
Qed.

(** A [write] to a receive file. *)
Lemma zap_write_rx_run z h k w1 w2 : is_tx_device filp = 0 ->
  dev_half z (zap_device_num filp) RX = Some h -> addressable h -> (k < packets (zh_pool h))%nat ->
  let i := zap_device_num filp in
  match a_put k (abs (zh_pool h)) with
  | None => zap_write filp ubuf 24 (offset_of h k) w1 w2 z = Some (- EINVAL, z)
  | Some a => exists q, zap_write filp ubuf 24 (offset_of h k) w1 w2 z = Some (24, with_half i RX (set_pool q h) z) /\
      pool_ok q /\ abs q = a /\ frame q = frame (wake_freeq (zh_pool h))
  end.
Proof using Huser.
  intros Hrx Hh Ha Hk i. subst i. set (i := zap_device_num filp) in *. unfold zap_write. fold i. change (24 =? sizeof_write_data) with true.
  rewrite (proj1 (Huser 24)), (proj2 (Huser 24)), Hrx. cbn [negb Z.eqb].
  pose proof (free_run z i RX h k Hh Ha Hk) as Hs. pose proof (offset_buf h k Ha Hk) as (Ho & _).
  unfold mbind, M_bind. rewrite (get_half_run z i RX h Hh). rewrite Ho.
  destruct (a_put _ _) as [a|]; [|by rewrite Hs].
  destruct Hs as (q & -> & Hq & Hab & Hf). exists q. by split_and!.
Qed.
(** A [write] to a transmit file. *)
Lemma zap_write_tx_run z h k len oob : is_tx_device filp <> 0 ->
  dev_half z (zap_device_num filp) TX = Some h -> addressable h -> (k < packets (zh_pool h))%nat ->
  let i := zap_device_num filp in
  let bell := IoWrite (u32 (i * 0x20 + ZAP_REG_ICR)) ICR_SET_TX_FULL_RDY in
  let p := zh_pool h in
  let run := zap_write filp ubuf 24 (offset_of h k) len oob z in
  if len =? 2 ^ 64 - 1 then
    match a_put k (abs p) with
    | None => run = Some (- EINVAL, z)
    | Some a => exists q, run = Some (24, with_half i TX (set_pool q h) z) /\ pool_ok q /\ abs q = a /\ frame q = frame (wake_freeq p)
    end
  else if negb (oob =? 0) && (zh_header_enable h =? 0) then run = Some (- EPERM, z)
  else if (zh_payload_max_size h <? len) || ((zh_header_size h <? oob) && negb (zh_header_enable h =? 0))
  then run = Some (- EINVAL, z)
  else
    match a_enq k (len, oob, 0) (abs p) with
    | None => run = Some (- EINVAL, logged [bell] z)
    | Some a => exists q, run = Some (24, logged [bell] (with_half i TX (set_pool q h) z)) /\ pool_ok q /\ abs q = a /\
        frame q = frame (wake_fifoq p)
    end.
Proof using Huser.
  intros Htx Hh Ha Hk i bell p run. subst run. unfold zap_write. change (24 =? sizeof_write_data) with true.
  rewrite (proj1 (Huser 24)), (proj2 (Huser 24)), (proj2 (Z.eqb_neq _ _) Htx). cbn [negb]. fold i.
  unfold zap_write_tx. unfold mbind, M_bind. rewrite (get_half_run z i TX h Hh). cbv zeta.
  rewrite (proj1 (offset_buf h k Ha Hk)). fold p in Ha, Hk |- *. destruct (len =? 2 ^ 64 - 1).
  { pose proof (free_run z i TX h k Hh Ha Hk) as Hs. fold p in Hs. destruct (a_put k (abs p)); [|by rewrite Hs].
    destruct Hs as (q & -> & Hq & Hab & Hf). exists q. by split_and!. }
  destruct (negb (oob =? 0) && (zh_header_enable h =? 0)); [done|].
  destruct ((zh_payload_max_size h <? len) || _); [done|].
  pose proof (enqbuf_spec p k len oob 0 (proj1 Ha) Hk) as Hs. destruct (a_enq _ _ _).
  - destruct Hs as (q & Hr & Hq & Hab & Hf).
    rewrite (on_pool_run z i TX (fun p' => pool_enqbuf p' (buf p k) len oob 0) h 0 q Hh Hr). exists q. by split_and!.
  - rewrite (on_pool_run z i TX (fun p' => pool_enqbuf p' (buf p k) len oob 0) h _ _ Hh Hs). subst p.
    by rewrite set_pool_same, with_half_id.
Qed.
End cycle.

(** C25: a round trip of a received packet.  A non-blocking [read] of a receive file
    returns the offset, length, out-of-band length and flags of the oldest packet
    (-EAGAIN when there is none, changing nothing), and takes it off the queue;
    [write] of that offset gives it back: it becomes the last free packet.  Writing
    the offset a second time is refused with -EINVAL.  No other interface changes. *)
Theorem zap_rx_round_trip `{ZapEnv} filp ubuf z h w1 w2 :
  (forall n, access_ok ubuf n = true /\ copy_ok ubuf n = true) ->
  is_tx_device filp = 0 -> Z.land (f_flags filp) O_NONBLOCK <> 0 ->
  let i := zap_device_num filp in dev_half z i RX = Some h -> addressable h ->
  match a_deq (abs (zh_pool h)) with
  | None => zap_read filp ubuf 32 [] z = Some (Returned (- EAGAIN, []), z)
  | Some (k, (len, oob, fl), a) =>
    exists z1 q1 z2 q2,
      zap_read filp ubuf 32 [] z = Some (Returned (32, [offset_of h k; len; oob; fl]), z1) /\
      dev_half z1 i RX = Some (set_pool q1 h) /\ abs q1 = a /\ others_kept z z1 i RX /\
      zap_write filp ubuf 24 (offset_of h k) w1 w2 z1 = Some (24, z2) /\
      dev_half z2 i RX = Some (set_pool q2 h) /\ others_kept z z2 i RX /\ pool_ok q2 /\
      abs q2 = APool (a_free a ++ [k]) (a_fifo a) (list_without k (a_used a)) /\
      zap_write filp ubuf 24 (offset_of h k) w1 w2 z2 = Some (- EINVAL, z2)
  end.
Proof.
  intros Huser Hrx Hnb i Hh Ha. pose proof (zap_read_rx_run filp ubuf Huser z h Hrx Hnb Hh Ha) as Hs. cbv zeta in Hs. fold i in Hs.
  destruct (a_deq (abs (zh_pool h))) as [[[k [[len oob] fl]] a]|] eqn:Ed; [|done].
  destruct Hs as (Hk & q1 & Hread & Hq1 & Ha1 & Hf1). set (z1 := with_half i RX _ z) in *.
  assert (Hh1 : dev_half z1 i RX = Some (set_pool q1 h)) by by apply (dev_half_same z i RX _ h).
  destruct (addressable_frame h q1 Ha Hq1 Hf1) as (Hadr1 & Hn1 & Ho1).
  assert (Hk1 : (k < packets q1)%nat) by (by rewrite Hn1).
  pose proof (zap_write_rx_run filp ubuf Huser z1 _ k w1 w2 Hrx Hh1 Hadr1 Hk1) as Hw. cbv zeta in Hw. fold i in Hw.
  cbn [set_pool zh_pool] in Hw. rewrite Ho1, Ha1 in Hw.
  assert (Hka : k ∈ a_used a).
  { unfold a_deq in Ed. destruct (a_fifo _) as [|q fifo]; [done|]. injection Ed as -> <-. cbn. set_solver. }
  unfold a_put in Hw. rewrite bool_decide_true in Hw by done. destruct Hw as (q2 & Hwrite & Hq2 & Ha2 & Hf2).
  change (set_pool q2 (set_pool q1 h)) with (set_pool q2 h) in Hwrite. set (z2 := with_half i RX (set_pool q2 h) z1) in *.
  assert (Hh2 : dev_half z2 i RX = Some (set_pool q2 h)) by by apply (dev_half_same z1 i RX _ (set_pool q1 h)).
  destruct (addressable_frame (set_pool (wake_freeq q1) h) q2) as (Hadr2 & Hn2 & Ho2); [|done|done|].
  { destruct Hadr1 as ([[? ? ? ? ?] ?] & ?). split; [|done]. split; [by split|done]. }
  assert (Hi : 0 <= i) by (apply dev_half_bounds in Hh; lia).
  exists z1, q1, z2, q2. split_and!; [done|done|done| |done|done| |done|done|].
  - intros j d Hne. by apply dev_half_other.
  - intros j d Hne. unfold z2. rewrite dev_half_other by done. by apply dev_half_other.
  - assert (Hk2 : (k < packets q2)%nat) by (rewrite Hn2; done).
    pose proof (zap_write_rx_run filp ubuf Huser z2 _ k w1 w2 Hrx Hh2 Hadr2 Hk2) as Hw2. cbv zeta in Hw2.
    cbn [set_pool zh_pool] in Hw2. replace (offset_of (set_pool q2 h) k) with (offset_of h k) in Hw2.
    2:{ change (set_pool q2 h) with (set_pool q2 (set_pool (wake_freeq q1) h)). rewrite Ho2. rewrite <- Ho1. done. }
    rewrite Ha2 in Hw2. unfold a_put in Hw2. cbn [a_used] in Hw2.
    rewrite bool_decide_false in Hw2; [done|]. rewrite elem_of_without. tauto.
Qed.

(** C26: [write] of a descriptor (offset of packet [k], length, out-of-band length) to a
    transmit file, on every branch.  Length -1 gives a used packet back unsent.  An
    out-of-band part without header mode is -EPERM, a length over the limits is
    -EINVAL, and both change nothing.  A used packet is appended to the transmit
    queue with exactly these lengths and the FPGA is told; for any other packet the
    result is -EINVAL, and the FPGA is told nevertheless. *)
Theorem zap_write_tx_exact `{ZapEnv} filp ubuf z h k len oob :
  (forall n, access_ok ubuf n = true /\ copy_ok ubuf n = true) ->
  is_tx_device filp <> 0 ->
  let i := zap_device_num filp in dev_half z i TX = Some h -> addressable h -> (k < packets (zh_pool h))%nat ->
  let bell := IoWrite (u32 (i * 0x20 + ZAP_REG_ICR)) ICR_SET_TX_FULL_RDY in
  let p := zh_pool h in
  let run := zap_write filp ubuf 24 (offset_of h k) len oob z in
  if len =? 2 ^ 64 - 1 then
    match a_put k (abs p) with
    | None => run = Some (- EINVAL, z)
    | Some a => exists q, run = Some (24, with_half i TX (set_pool q h) z) /\ pool_ok q /\ abs q = a
    end
  else if negb (oob =? 0) && (zh_header_enable h =? 0) then run = Some (- EPERM, z)
  else if (zh_payload_max_size h <? len) || ((zh_header_size h <? oob) && negb (zh_header_enable h =? 0))
  then run = Some (- EINVAL, z)
  else if bool_decide (k ∈ p_usedlist p) then
    exists q, run = Some (24, logged [bell] (with_half i TX (set_pool q h) z)) /\ pool_ok q /\
      queued q = queued p ++ [(buf p k, len, oob, 0)]
  else run = Some (- EINVAL, logged [bell] z).
Proof.
  intros Huser Htx i Hh Ha Hk bell p run.
  pose proof (zap_write_tx_run filp ubuf Huser z h k len oob Htx Hh Ha Hk) as Hs. cbv zeta in Hs. fold i bell p run in Hs.
  destruct (len =? 2 ^ 64 - 1).
  { destruct (a_put k (abs p)); [|done]. destruct Hs as (q & ? & ? & ? & _). by exists q. }
  destruct (negb (oob =? 0) && _); [done|]. destruct ((zh_payload_max_size h <? len) || _); [done|].
  unfold a_enq in Hs. cbn [abs a_used] in Hs. case_bool_decide; [|done]. destruct Hs as (q & Hr & Hq & Hab & Hf).
  exists q. split; [done|]. split; [done|]. apply frame_buf in Hf as [Hb _].
  rewrite (queued_eq q _ ltac:(by rewrite Hab)). cbn [a_fifo]. rewrite fmap_app. cbn. rewrite Hb. f_equal.
  unfold queued. cbn [abs a_fifo]. apply list_fmap_ext. intros n y _. by rewrite Hb.
Qed.

(** ** Lemmas: stopping a direction *)

(** What stopping and resizing leave alone. *)
Definition kept (z z' : zap_dev) : Prop :=
  (zd_fpga z', zd_sem z', zd_dma_sem z', zd_open_count z', zd_status z') =
  (zd_fpga z, zd_sem z, zd_dma_sem z, zd_open_count z, zd_status z).

Definition di_on (d : dir) (x : dma_if_interface) : Z := match d with RX => di_rx_on x | TX => di_tx_on x end.

(** A pool that [pool_resize] can cut again as it is. *)
Definition resizable (p : pool) : Prop :=
  p_locked p = false /\ 0 < p_packet_size p /\ PAGE_SIZE + p_packet_size p <= p_size p < 2 ^ 32 /\ 0 <= p_num_packets p.

(** Cut: every packet is free. *)
Definition all_free (q p : pool) (packet : Z) : Prop :=
  pool_ok q /\ p_size q = p_size p /\ p_buf_paddr q = p_buf_paddr p /\ p_packet_size q = packet /\ a_fifo (abs q) = [] /\ a_used (abs q) = [].

Section stop.
Context `{ZapEnv} (Hmem : forall n, kzalloc_ok n = true).

Lemma flush_run p : resizable p ->
  exists q, pool_flush kzalloc_ok p = Some (0, q) /\ all_free q p (p_packet_size p) /\ pool_busy q = Some (0, q).
Proof using Hmem.
  intros (Hl & Hps & Hsz & Hn). destruct (pool_resize_spec kzalloc_ok p (p_packet_size p) (p_num_packets p) 1 Hl Hps Hsz Hn Hmem)
    as (q & Hr & Hq & Hs & Hb & Hpk & _ & _ & Ha).
  exists q. split; [done|]. assert (Hu : p_usedlist q = []) by (change (a_used (abs q) = []); by rewrite Ha).
  split; [split_and!; [done..| |]; by rewrite Ha|]. unfold pool_busy. destruct (lock_ok q Hq) as [-> _].
  cbn [mbind option_bind]. change (p_usedlist (set_locked true q)) with (p_usedlist q).
  rewrite Hu, bool_decide_true by done. by rewrite unlock_lock.
Qed.

(** Both halves of the proof below: flush, then test. *)
Lemma try_flush z i d h k : dev_half z i d = Some h -> resizable (zh_pool h) ->
  exists q, try_err (on_pool i d (pool_flush kzalloc_ok)) (try_err (on_pool i d pool_busy) k) z =
      k (with_half i d (set_pool q (set_pool q h)) (with_half i d (set_pool q h) z)) /\
    all_free q (zh_pool h) (p_packet_size (zh_pool h)).
Proof using Hmem.
  intros Hh Hr. destruct (flush_run _ Hr) as (q & Hf & Ha & Hb). exists q. split; [|done]. unfold try_err.
  zrw (on_pool_run z i d (pool_flush kzalloc_ok) h 0 q Hh Hf). cbn [Z.eqb negb].
  by zrw (on_pool_run _ i d pool_busy (set_pool q h) 0 q (dev_half_same z i d _ h Hh) Hb).
Qed.

(** The common end of both: the pool is flushed and the direction marked off. *)
Lemma stop_tail d z i h x : dev_half z i d = Some h -> dev_dma z i = Some x -> resizable (zh_pool h) ->
  exists z' q,
    try_err (on_pool i d (pool_flush kzalloc_ok)) (try_err (on_pool i d pool_busy)
      (_ ← upd_dma i (match d with RX => set_rx_on 0 | TX => set_tx_on 0 end); mret 0)) z = Some (0, z') /\
    dev_half z' i d = Some (set_pool q h) /\ all_free q (zh_pool h) (p_packet_size (zh_pool h)) /\
    dev_dma z' i = Some (match d with RX => set_rx_on 0 x | TX => set_tx_on 0 x end) /\ others_kept z z' i d /\ kept z z'.
Proof using Hmem.
  intros Hh Hx Hr. assert (Hi : 0 <= i) by (apply dev_half_bounds in Hh; lia).
  match goal with |- context [try_err _ (try_err _ ?k)] => destruct (try_flush z i d h k Hh Hr) as (q & -> & Hq) end.
  set (z1 := with_half i d (set_pool q h) z). set (z2 := with_half i d _ z1).
  pose proof (dev_half_same z i d (set_pool q h) h Hh) as Hh1. fold z1 in Hh1.
  pose proof (dev_half_same z1 i d (set_pool q (set_pool q h)) _ Hh1) as Hh2. fold z2 in Hh2.
  change (set_pool q (set_pool q h)) with (set_pool q h) in Hh2.
  zrw (upd_dma_run z2 i (match d with RX => set_rx_on 0 | TX => set_tx_on 0 end) x Hx).
  do 2 eexists. split; [done|]. split; [exact Hh2|]. split; [done|]. split.
  - rewrite (dev_dma_with z2 i _ x Hx). by destruct d.
  - split; [|done]. intros j e Hne. unfold z2, z1. change (dev_half (with_dma i _ ?z) j e) with (dev_half z j e).
    etransitivity; [by apply dev_half_other|]. by apply dev_half_other.
Qed.

Lemma dma_stop_run d z i h x : dev_half z i d = Some h -> dev_dma z i = Some x -> resizable (zh_pool h) -> 0 < zd_dma_sem z ->
  exists z' q x', dma_stop d i z = Some (0, z') /\ dev_half z' i d = Some (set_pool q h) /\
    all_free q (zh_pool h) (p_packet_size (zh_pool h)) /\
    dev_dma z' i = Some x' /\ di_on d x' = 0 /\ others_kept z z' i d /\ kept z z'.
Proof using Hmem.
  intros Hh Hx Hr Hsem. unfold dma_stop. set (z0 := set_dma_sem (zd_dma_sem z - 1) z).
  assert (Hd : down_interruptible zd_dma_sem set_dma_sem z = Some (false, z0)).
  { unfold down_interruptible. by rewrite (proj2 (Z.ltb_lt _ _)). }
  assert (Hup : forall z', zd_dma_sem z' = zd_dma_sem z - 1 -> exists z'', up zd_dma_sem set_dma_sem z' = Some (tt, z'') /\
     zd_ifs z'' = zd_ifs z' /\ zd_dma z'' = zd_dma z' /\ zd_dma_sem z'' = zd_dma_sem z /\ zd_fpga z'' = zd_fpga z' /\
     zd_sem z'' = zd_sem z' /\ zd_open_count z'' = zd_open_count z' /\ zd_status z'' = zd_status z').
  { intros z' Hz'. eexists. split; [done|]. cbn. split_and!; [done|done|lia|done..]. }
  assert (Hend : forall (m : ZM Z) z1 x1, dev_dma z1 i = Some x1 -> (forall j e, dev_half z1 j e = dev_half z j e) -> kept z0 z1 ->
    m z0 = try_err (on_pool i d (pool_flush kzalloc_ok)) (try_err (on_pool i d pool_busy)
      (_ ← upd_dma i (match d with RX => set_rx_on 0 | TX => set_tx_on 0 end); mret 0)) z1 ->
    exists z' q x', (r ← (_ ← m; mret 0); _ ← up zd_dma_sem set_dma_sem; mret r) z0 = Some (0, z') /\
      dev_half z' i d = Some (set_pool q h) /\ all_free q (zh_pool h) (p_packet_size (zh_pool h)) /\
      dev_dma z' i = Some x' /\ di_on d x' = 0 /\ others_kept z z' i d /\ kept z z').
  { intros m z1 x1 Hx1 Hh1 Hk Hm. rewrite <- Hh1 in Hh.
    destruct (stop_tail d z1 i h x1 Hh Hx1 Hr) as (z2 & q & E & Hh2 & Hq & Hx2 & Ho & Hk2). rewrite <- Hm in E.
    unfold kept in Hk, Hk2. cbn in Hk. injection Hk as K1 K2 K3 K4 K5. injection Hk2 as L1 L2 L3 L4 L5.
    destruct (Hup z2) as (z3 & E3 & U1 & U2 & U3 & U4 & U5 & U6 & U7); [congruence|].
    exists z3, q. eexists. split_and!.
    - erewrite (zbind_eq _ _ z0 0 z2) by (by zrw E). cbv beta. by zrw E3.
    - unfold dev_half in *. by rewrite U1.
    - exact Hq.
    - unfold dev_dma in *. rewrite U2. exact Hx2.
    - by destruct d.
    - intros j e Hne. transitivity (dev_half z2 j e); [unfold dev_half; by rewrite U1|]. rewrite (Ho j e Hne). apply Hh1.
    - unfold kept. congruence. }
  destruct d; [unfold dma_stop_rx, dma_stop_rx_unsafe|unfold dma_stop_tx, dma_stop_tx_unsafe];
    unfold with_dma_sem, with_sem; zrw Hd.
  - set (z1 := logged [IoWrite (u32 (i * 32 + ZAP_REG_ICR)) (u32 ICR_CLR_RXRDY)] z0).
    set (z2 := with_dma i (set_rx_on 0 x) z1). assert (Hx2 : dev_dma z2 i = Some (set_rx_on 0 x)) by by apply (dev_dma_with z1 i _ x).
    pose proof (reg_write_masked_run z2 i ZAP_REG_CSR 0 CSR_RXEN) as E3. cbv zeta in E3.
    match type of E3 with _ = Some (_, ?z) => set (z3 := z) in E3 end.
    eapply (Hend _ (with_dma i (set_work false (set_rx_on 0 x)) z3)); [by apply (dev_dma_with z3 i _ (set_rx_on 0 x))|done|done|].
    unfold dma_ll_stop_rx. zrw (reg_write_run z0 i ZAP_REG_ICR ICR_CLR_RXRDY). fold z1.
    zrw (upd_dma_run z1 i (set_rx_on 0) x Hx). fold z2. zrw E3.
    by zrw (upd_dma_run z3 i (set_work false) (set_rx_on 0 x) Hx2).
  - set (z1 := with_dma i (set_tx_on 0 x) z0). assert (Hx1 : dev_dma z1 i = Some (set_tx_on 0 x)) by by apply (dev_dma_with z0 i _ x).
    pose proof (reg_write_masked_run z1 i ZAP_REG_CSR 0 CSR_TXEN) as E2. cbv zeta in E2.
    match type of E2 with _ = Some (_, ?z) => set (z2 := z) in E2 end.
    eapply (Hend _ (logged [IoWrite (u32 (i * 32 + ZAP_REG_ICR)) (u32 ICR_CLR_TX_FREE_RDY)] z2)); [exact Hx1|done|done|].
    unfold dma_ll_stop_tx. zrw (upd_dma_run z0 i (set_tx_on 0) x Hx). fold z1. zrw E2.
    by zrw (reg_write_run z2 i ZAP_REG_ICR ICR_CLR_TX_FREE_RDY).
Qed.
End stop.

Definition cmd_set_max_size (d : dir) : Z := match d with RX => ZAP_IOC_W_RX_MAX_SIZE | TX => ZAP_IOC_W_TX_MAX_SIZE end.

Section ioctl.
Context `{ZapEnv}.

Lemma ioctl_get_none d filp z : ioctl_get filp (cmd_set_max_size d) z = Some (None, z).
Proof using. by destruct d. Qed.
Lemma ioctl_set_dir d filp w : ioctl_set filp (cmd_set_max_size d) w = ioctl_set_max_size d (zap_device_num filp) w.
Proof using. by destruct d. Qed.

(** A command that sets a value, between the semaphores. *)
Lemma zap_ioctl_set d filp arg w z : access_ok arg 8 = true -> 0 < zd_sem z ->
  zap_ioctl filp (cmd_set_max_size d) arg w z =
    match ioctl_set_max_size d (zap_device_num filp) w (set_sem (zd_sem z - 1) z) with
    | Some (r, z') => Some ((r, w), set_sem (zd_sem z' + 1) z')
    | None => None
    end.
Proof using.
  intros Hacc Hsem. unfold zap_ioctl. assert (_IOC_SIZE (cmd_set_max_size d) = 8) as -> by by destruct d.
  rewrite Hacc. assert ((_IOC_TYPE (cmd_set_max_size d) =? ZAP_IOC_MAGIC) = true) as -> by by destruct d.
  assert ((ZAP_IOC_MAXNR <? _IOC_NR (cmd_set_max_size d)) = false) as -> by by destruct d.
  cbn [negb]. rewrite andb_false_r.
  assert (Hd : down_interruptible zd_sem set_sem z = Some (false, set_sem (zd_sem z - 1) z)).
  { unfold down_interruptible. by rewrite (proj2 (Z.ltb_lt _ _)). }
  zrw Hd. zrw (ioctl_get_none d filp (set_sem (zd_sem z - 1) z)). rewrite ioctl_set_dir.
  unfold mbind, M_bind. destruct (ioctl_set_max_size _ _ _ _) as [[r z']|]; done.
Qed.
End ioctl.

(** The device semaphore is released after a step that keeps it. *)
Lemma kept_up z z1 : kept (set_sem (zd_sem z - 1) z) z1 -> kept z (set_sem (zd_sem z1 + 1) z1).
Proof.
  unfold kept. cbn. intros [= K1 K2 K3 K4 K5]. rewrite K1, K2, K3, K4, K5. replace (zd_sem z - 1 + 1) with (zd_sem z) by lia. done.
Qed.

(** The commands that set the maximum packet size, on every branch.  Transfers of
    the direction are stopped first, so every packet is free afterwards, whatever
    the result.  A size whose data part exceeds the FPGA's buffer is -EFBIG outside
    jumbo mode and keeps the old size.  Otherwise the limit becomes the new size, and
    the pool is cut again into packets of that size -- unless the pool is too small:
    then the result is -ENOMEM, the packets keep their old size, but the limit has
    changed.  The device semaphores are released on every branch. *)
Theorem zap_set_max_size `{ZapEnv} d filp arg w z h x :
  (forall n, kzalloc_ok n = true) -> access_ok arg 8 = true -> 0 < zd_sem z -> 0 < zd_dma_sem z -> 0 < w < 2 ^ 64 ->
  let i := zap_device_num filp in
  dev_half z i d = Some h -> dev_dma z i = Some x -> resizable (zh_pool h) ->
  let data := if zh_header_enable h =? 0 then w else u64 (w - zh_header_size h) in
  let size := p_size (zh_pool h) in let packet := p_packet_size (zh_pool h) in
  exists z' h' x' r, zap_ioctl filp (cmd_set_max_size d) arg w z = Some ((r, w), z') /\ kept z z' /\
    others_kept z z' i d /\ dev_dma z' i = Some x' /\ di_on d x' = 0 /\ dev_half z' i d = Some h' /\
    if (fifo_size d (zd_fpga z) <? data) && (zh_jumbo_pkt_enable h =? 0)
    then r = - EFBIG /\ zh_payload_max_size h' = zh_payload_max_size h /\ all_free (zh_pool h') (zh_pool h) packet
    else if size - PAGE_SIZE <? w
    then r = - ENOMEM /\ zh_payload_max_size h' = w /\ all_free (zh_pool h') (zh_pool h) packet
    else r = 0 /\ zh_payload_max_size h' = w /\ all_free (zh_pool h') (zh_pool h) w.
Proof.
  intros Hmem Hacc Hsem Hdsem Hw i Hh Hx Hr data size packet. rewrite zap_ioctl_set by done. fold i.
  assert (Hi : 0 <= i) by (apply dev_half_bounds in Hh; lia).
  set (z0 := set_sem (zd_sem z - 1) z). unfold ioctl_set_max_size, try_err.
  destruct (dma_stop_run Hmem d z0 i h x Hh Hx Hr Hdsem) as (z1 & q & x1 & E & Hh1 & Hq & Hx1 & Hon & Ho & Hk).
  zrw E. cbn [Z.eqb negb]. zrw (get_half_run z1 i d _ Hh1). unfold mbind at 1, M_bind at 1, gets at 1. cbv beta iota zeta.
  cbn [set_pool zh_header_enable zh_header_size zh_jumbo_pkt_enable].
  assert (zd_fpga z1 = zd_fpga z) as -> by by injection Hk.
  replace (if negb (zh_header_enable h =? 0) then u64 (w - zh_header_size h) else w) with data
    by (unfold data; by destruct (zh_header_enable h =? 0)).
  destruct ((fifo_size d (zd_fpga z) <? data) && _).
  - eexists (set_sem (zd_sem z1 + 1) z1), _, x1, _. split_and!; [done| |exact Ho|exact Hx1|done|exact Hh1|done|done|exact Hq].
    by apply kept_up.
  - zrw (upd_half_run z1 i d (set_payload_max_size w) _ Hh1). set (h2 := set_payload_max_size w (set_pool q h)).
    set (z2 := with_half i d h2 z1). assert (Hh2 : dev_half z2 i d = Some h2) by by apply (dev_half_same z1 i d _ (set_pool q h)).
    assert (Hres : exists r q', pool_resize kzalloc_ok q w (max_packets d) 0 = Some (r, q') /\
      (if size - PAGE_SIZE <? w then r = - ENOMEM /\ q' = q else r = 0 /\ all_free q' (zh_pool h) w)).
    { destruct Hq as (Hq & Hs & Hbp & Hp & _). destruct Hr as (_ & Hp0 & Hsz & _). unfold PAGE_SIZE in *.
      fold size in Hs, Hsz. destruct (size - 4096 <? w) eqn:Elt; bool_to_prop.
      - exists (- ENOMEM), q. split; [|done]. unfold pool_resize. change (PAGE_ALIGN sizeof_pool_entry) with 4096.
        rewrite Hs, u64_small, (proj2 (Z.ltb_lt _ _)) by lia. done.
      - destruct (pool_resize_spec kzalloc_ok q w (max_packets d) 0) as (q' & Hr' & Hq' & Hs' & Hb' & Hp' & _ & _ & Ha');
          [apply Hq|lia|unfold PAGE_SIZE; lia|by destruct d|done|].
        exists 0, q'. split; [done|]. split; [done|]. split_and!; [done|exact (eq_trans Hs' Hs)|exact (eq_trans Hb' Hbp)|done|by rewrite Ha'..]. }
    destruct Hres as (r & q' & Hr' & Hcase).
    rewrite (on_pool_run z2 i d (fun q => pool_resize kzalloc_ok q w (max_packets d) 0) h2 r q' Hh2 Hr').
    set (z3 := with_half i d (set_pool q' h2) z2).
    assert (Hh3 : dev_half z3 i d = Some (set_pool q' h2)) by by apply (dev_half_same z2 i d _ h2).
    eexists (set_sem (zd_sem z3 + 1) z3), _, x1, r. split_and!; [done| | |exact Hx1|done|exact Hh3|].
    + by apply kept_up.
    + intros j e Hne. change (dev_half (set_sem _ z3) j e) with (dev_half z3 j e). unfold z3, z2.
      rewrite !dev_half_other by done. by apply Ho.
    + cbn. destruct (size - PAGE_SIZE <? w); [destruct Hcase as [-> ->]|destruct Hcase as [-> Hf]]; by split_and!.
Qed.

(** ** Opening *)

(** No file is open for the direction's exclusive use when the semaphore is 1. *)
Lemma trylock_run z i d h : dev_half z i d = Some h ->
  down_trylock_in_use i d z =
    (if 0 <? zh_in_use h then Some (false, with_half i d (set_in_use (zh_in_use h - 1) h) z) else Some (true, z)).
Proof.
  intros Hh. unfold down_trylock_in_use. zrw (get_half_run z i d h Hh). destruct (0 <? zh_in_use h); [|done].
  by zrw (upd_half_run z i d (set_in_use (zh_in_use h - 1)) h Hh).
Qed.

(** Exclusive use.  While a direction of an interface is in use, opening it for
    writing is -EBUSY: no pool, no user count and no other semaphore changes. *)
Theorem zap_open_exclusive `{ZapEnv} filp z h :
  let i := zap_device_num filp in let n := fp_num_interfaces (zd_fpga z) in
  zd_open_count z <> 0 -> 0 < zd_sem z -> 1 <= n < 2 ^ 31 -> ifs_upto n z -> i < n ->
  Z.land (f_flags filp) O_ACCMODE <> O_RDONLY ->
  dev_half z i (file_dir filp) = Some h -> zh_in_use h <= 0 ->
  exists z', zap_open filp z = Some (- EBUSY, z') /\ kept z z' /\
    forall j d g, dev_half z j d = Some g -> exists g', dev_half z' j d = Some g' /\ zh_pool g' = zh_pool g /\ zh_in_use g' = zh_in_use g.
Proof.
  intros i n Hcount Hsem Hn Hz Hin Hacc Hh Hu. unfold zap_open. fold i.
  assert (E : dma_ll_update_fpga_parameters z = Some (tt, z)).
  { unfold dma_ll_update_fpga_parameters, mbind, M_bind, gets. by rewrite (proj2 (Z.eqb_neq _ _) Hcount). }
  zrw E. unfold mbind at 1, M_bind at 1, gets at 1. cbv beta iota. fold n. rewrite (proj2 (Z.leb_gt _ _)) by lia.
  unfold with_sem. set (z0 := set_sem (zd_sem z - 1) z).
  assert (Hd : down_interruptible zd_sem set_sem z = Some (false, z0)).
  { unfold down_interruptible. by rewrite (proj2 (Z.ltb_lt _ _)). }
  zrw Hd. rewrite (proj2 (Z.eqb_neq _ _) Hacc). cbn [negb].
  destruct (setup_run n z0 Hn Hz) as (z1 & E1 & Hs1 & Hout & Hin1).
  assert (Hg : forall j d g, dev_half z j d = Some g -> exists g', dev_half z1 j d = Some g' /\ zh_pool g' = zh_pool g /\ zh_in_use g' = zh_in_use g).
  { intros j d g Hg. destruct (decide (0 <= j < n)) as [Hj|Hj].
    - destruct (Hin1 j d Hj) as (g0 & Hg0 & Hg1). change (dev_half z0 j d) with (dev_half z j d) in Hg0.
      rewrite Hg in Hg0. injection Hg0 as <-. eexists. split; [exact Hg1|]. done.
    - exists g. rewrite Hout by done. done. }
  destruct (Hg i _ h Hh) as (h1 & Hh1 & _ & Hu1).
  assert (E2 : (_ ← setup_multiple_pools n; zap_open_half i (file_dir filp)) z0 = Some (true, z1)).
  { zrw E1. unfold zap_open_half. assert (E3 : down_trylock_in_use i (file_dir filp) z1 = Some (true, z1)).
    { rewrite (trylock_run z1 i _ h1 Hh1), (proj2 (Z.ltb_ge _ _)) by lia. done. } by zrw E3. }
  erewrite (zbind_eq _ _ z0 (- EBUSY) z1) by (by zrw E2). cbv beta.
  assert (E4 : up zd_sem set_sem z1 = Some (tt, set_sem (zd_sem z1 + 1) z1)) by done. zrw E4.
  eexists. split; [done|]. split; [|exact Hg].
  apply kept_up. exact (f_equal (fun z => (zd_fpga z, zd_sem z, zd_dma_sem z, zd_open_count z, zd_status z)) Hs1).
Qed.

(** Closing any file of a direction ends its exclusive use, even a file opened
    read-only that never took it: the semaphore goes up whatever the flags, and the
    next opening for writing no longer finds the direction in use. *)
Theorem zap_release_ends_exclusion `{ZapEnv} filp z h x :
  let i := zap_device_num filp in let d := file_dir filp in
  i < fp_num_interfaces (zd_fpga z) -> 0 < zd_sem z -> 0 < zd_open_count z < 2 ^ 32 ->
  dev_half z i d = Some h -> 0 <= zh_in_use h -> dev_dma z i = Some x -> di_rx_on x = 0 -> di_tx_on x = 0 ->
  exists z1 z2, zap_release filp z = Some (0, z1) /\ zd_open_count z1 = zd_open_count z - 1 /\
    dev_half z1 i d = Some (set_in_use (zh_in_use h + 1) h) /\ down_trylock_in_use i d z1 = Some (false, z2).
Proof.
  intros i d Hi Hsem Hc Hh Hu Hx Hrx Htx. unfold zap_release. fold i. fold d.
  unfold mbind at 1, M_bind at 1, gets at 1. cbv beta iota. rewrite (proj2 (Z.leb_gt _ _)) by lia.
  assert (E1 : dma_tx_is_on i z = Some (0, z)).
  { unfold dma_tx_is_on, dma_ll_tx_is_on. zrw (get_dma_run z i x Hx). by rewrite Htx. }
  assert (E2 : dma_rx_is_on i z = Some (0, z)).
  { unfold dma_rx_is_on, dma_ll_rx_is_on. zrw (get_dma_run z i x Hx). by rewrite Hrx. }
  zrw E1. cbn [Z.eqb negb]. unfold mbind at 1, M_bind at 1, mret at 1, M_ret at 1. cbv beta iota.
  zrw E2. cbn [Z.eqb negb]. unfold mbind at 1, M_bind at 1, mret at 1, M_ret at 1. cbv beta iota.
  unfold with_sem. set (z0 := set_sem (zd_sem z - 1) z).
  assert (Hd : down_interruptible zd_sem set_sem z = Some (false, z0)).
  { unfold down_interruptible. by rewrite (proj2 (Z.ltb_lt _ _)). }
  zrw Hd. set (f := fun h => set_in_use (zh_in_use h + 1) h). set (z1 := with_half i d (f h) z0).
  set (z2 := set_open_count (zd_open_count z - 1) z1).
  assert (E3 : (_ ← upd_half i d f; _ ← modify (fun z => let c := u32 (zd_open_count z - 1) in
      set_open_count (if c <? 0 then 0 else c) z); mret 0) z0 = Some (0, z2)).
  { zrw (upd_half_run z0 i d f h Hh). unfold mbind, M_bind, modify. cbv beta iota zeta.
    change (zd_open_count (with_half i d (f h) z0)) with (zd_open_count z). unfold u32.
    rewrite Z.mod_small, (proj2 (Z.ltb_ge _ _)) by lia. done. }
  zrw E3. assert (E4 : up zd_sem set_sem z2 = Some (tt, set_sem (zd_sem z2 + 1) z2)) by done. zrw E4.
  assert (Hh1 : dev_half (set_sem (zd_sem z2 + 1) z2) i d = Some (f h)).
  { change (dev_half (set_sem _ z2) i d) with (dev_half z1 i d). by apply (dev_half_same z0 i d _ h). }
  eexists. eexists. split; [done|]. split; [done|]. split; [exact Hh1|].
  rewrite (trylock_run _ i d _ Hh1). cbn [f set_in_use zh_in_use]. rewrite (proj2 (Z.ltb_lt _ _)) by lia. done.
Qed.

(** ** Concrete inputs *)

#[local] Opaque sample_pool taken_pool queued_pool.

(** Two interfaces without pools over receive and transmit memory of the given sizes. *)
Definition carved_device (rx_bytes tx_bytes : Z) : zap_dev :=
  ZapDev 2 0 1 0 (Fpga 2 4096 1024 4096 1024 2 2 3 98) 0x10000000 0x18000000 rx_bytes tx_bytes
    (replicate 2 (ZapIf half_init half_init 0)) (replicate 2 (DmaIf 0 0 0 0 false)) 1 [].

Lemma carved_ifs rx tx : ifs_upto 2 (carved_device rx tx).
Proof. intros j d Hj. assert (j = 0 \/ j = 1) as [-> | ->] by lia; by destruct d. Qed.

(** Memories of the same size, and a transmit memory that is too small. *)
Lemma setup_pools_partition_witness :
  (exists z' a b, setup_multiple_pools 2 (carved_device 40960 40960) = Some (tt, z') /\
    dev_half z' 0 RX = Some a /\ dev_half z' 1 RX = Some b /\
    zh_paddr a = 0x10000000 /\ region_end a = zh_paddr b /\ region_end b = 0x10000000 + 40960) /\
  (exists z' h, setup_multiple_pools 2 (carved_device 40960 4096) = Some (tt, z') /\ dev_half z' 1 TX = Some h /\
    0x18001000 < zh_paddr h /\ 2 ^ 63 <= zh_size h).
Proof.
  split.
  - destruct (setup_pools_partition 2 (carved_device 40960 40960) RX) as (_ & z' & E & _ & _ & Hr);
      [lia|apply carved_ifs|done..|].
    destruct (Hr 0 ltac:(lia)) as (_ & a & _ & Ha & _ & _ & _ & _ & H0 & Hnext & _).
    destruct (Hr 1 ltac:(lia)) as (_ & b & _ & Hb & _ & _ & _ & _ & _ & _ & Hlast).
    exists z', a, b. split_and!; [exact E|exact Ha|exact Hb|by apply H0|by apply Hnext|]. by destruct (Hlast eq_refl) as [_ ->].
  - destruct (setup_pools_partition 2 (carved_device 40960 4096) TX) as (_ & z' & E & _ & _ & Hr);
      [lia|apply carved_ifs|done..|].
    destruct (Hr 1 ltac:(lia)) as (_ & h & _ & Hh & _ & _ & _ & _ & _ & _ & Hlast).
    destruct (Hlast eq_refl) as (Hlt & _ & Hbig). exists z', h. split_and!; [exact E|exact Hh|exact Hlt|exact Hbig].
Defined.

Definition rx_file : file := File 0 O_NONBLOCK.
Definition tx_file : file := File 1 2.

Lemma sample_addressable p : pool_ok p -> p_buf_paddr p = 65536 -> p_size p = 8192 -> addressable (sample_half p).
Proof. intros Hok Hb Hs. split; [exact Hok|]. cbn. rewrite Hb, Hs. lia. Qed.

Lemma zap_rx_round_trip_witness :
  exists z1 z2, @zap_read (sample_env 0 0 0) rx_file 4096 32 [] (sample_device queued_pool taken_pool) =
      Some (Returned (32, [6000; 600; 8; 0]), z1) /\
    @zap_write (sample_env 0 0 0) rx_file 4096 24 6000 0 0 z1 = Some (24, z2) /\
    @zap_write (sample_env 0 0 0) rx_file 4096 24 6000 0 0 z2 = Some (- EINVAL, z2).
Proof.
  pose proof (@zap_rx_round_trip (sample_env 0 0 0) rx_file 4096 (sample_device queued_pool taken_pool)
    (sample_half queued_pool) 0 0 ltac:(by split) eq_refl ltac:(done) eq_refl
    (sample_addressable _ queued_pool_ok ltac:(vm_compute; reflexivity) ltac:(vm_compute; reflexivity))) as H.
  change (zh_pool (sample_half queued_pool)) with queued_pool in H. rewrite queued_deq in H.
  assert (Ho : offset_of (sample_half queued_pool) 6 = 6000) by (vm_compute; reflexivity). rewrite Ho in H.
  destruct H as (z1 & q1 & z2 & q2 & E1 & _ & _ & _ & E2 & _ & _ & _ & _ & E3). exists z1, z2. split_and!; [exact E1|exact E2|exact E3].
Defined.

Lemma zap_write_tx_exact_witness :
  exists q, @zap_write (sample_env 0 0 0) tx_file 4096 24 6000 600 8 (sample_device taken_pool taken_pool) =
      Some (24, logged [IoWrite 4 ICR_SET_TX_FULL_RDY]
                  (with_half 0 TX (set_pool q (sample_half taken_pool)) (sample_device taken_pool taken_pool))) /\
    queued q = [(71536, 600, 8, 0)].
Proof.
  pose proof (@zap_write_tx_exact (sample_env 0 0 0) tx_file 4096 (sample_device taken_pool taken_pool)
    (sample_half taken_pool) 6 600 8 ltac:(by split) ltac:(done) eq_refl
    (sample_addressable _ taken_pool_ok ltac:(vm_compute; reflexivity) ltac:(vm_compute; reflexivity))
    ltac:(vm_compute; lia)) as H. cbv zeta in H.
  assert (Ho : offset_of (sample_half taken_pool) 6 = 6000) by (vm_compute; reflexivity). rewrite Ho in H.
  assert (Hu : bool_decide (6%nat ∈ p_usedlist (zh_pool (sample_half taken_pool))) = true) by (vm_compute; reflexivity).
  rewrite Hu in H. cbn [Z.eqb Pos.eqb negb andb orb Z.ltb Z.compare sample_half zh_header_enable zh_header_size zh_payload_max_size] in H.
  destruct H as (q & E & _ & Hq). exists q. split; [exact E|]. rewrite Hq. vm_compute. reflexivity.
Defined.

Lemma sample_resizable : resizable sample_pool.
Proof. by vm_compute. Qed.

Lemma zap_set_max_size_witness :
  exists z' h', @zap_ioctl (sample_env 0 0 0) rx_file ZAP_IOC_W_RX_MAX_SIZE 4096 500 (sample_device sample_pool sample_pool) =
      Some ((0, 500), z') /\ dev_half z' 0 RX = Some h' /\ zh_payload_max_size h' = 500 /\ all_free (zh_pool h') sample_pool 500.
Proof.
  destruct (@zap_set_max_size (sample_env 0 0 0) RX rx_file 4096 500 (sample_device sample_pool sample_pool) (sample_half sample_pool)
    (DmaIf 1 1 0 0 true) ltac:(done) eq_refl eq_refl eq_refl ltac:(lia) eq_refl eq_refl sample_resizable)
    as (z' & h' & x' & r & E & _ & _ & _ & _ & Hh & Hc).
  assert (Hs : p_size (zh_pool (sample_half sample_pool)) = 8192) by (vm_compute; reflexivity). rewrite Hs in Hc.
  assert (Hb : (fifo_size RX (zd_fpga (sample_device sample_pool sample_pool)) <?
    (if zh_header_enable (sample_half sample_pool) =? 0 then 500 else u64 (500 - zh_header_size (sample_half sample_pool))))
    && (zh_jumbo_pkt_enable (sample_half sample_pool) =? 0) = false) by (vm_compute; reflexivity).
  rewrite Hb in Hc. destruct Hc as (-> & Hp & Hf). exists z', h'. split_and!; [exact E|exact Hh|exact Hp|exact Hf].
Defined.

Lemma zap_open_exclusive_witness :
  exists z', @zap_open (sample_env 0 0 0) tx_file (sample_device sample_pool sample_pool) = Some (- EBUSY, z').
Proof.
  destruct (@zap_open_exclusive (sample_env 0 0 0) tx_file (sample_device sample_pool sample_pool) (sample_half sample_pool))
    as (z' & E & _); [done|reflexivity|done| |reflexivity|done|reflexivity|done|by exists z'].
  intros j d Hj. assert (j = 0) as -> by (cbn in Hj; lia). by destruct d.
Defined.

Definition idle_device : zap_dev := set_dma [DmaIf 0 0 0 0 false] (sample_device sample_pool sample_pool).

Lemma zap_release_ends_exclusion_witness :
  exists z1 z2, @zap_release (sample_env 0 0 0) (File 1 O_RDONLY) idle_device = Some (0, z1) /\
    down_trylock_in_use 0 TX z1 = Some (false, z2).
Proof.
  destruct (@zap_release_ends_exclusion (sample_env 0 0 0) (File 1 O_RDONLY) idle_device (sample_half sample_pool)
    (DmaIf 0 0 0 0 false)) as (z1 & z2 & E & _ & _ & E2); [reflexivity|reflexivity|done|reflexivity|done|reflexivity|done|done|].
  exists z1, z2. split; [exact E|exact E2].
Defined.
