(* ===== verification/ZapSystem.v ===== *)
(** * The ZAP driver and its environment

    User programs, the receive worker, the FPGA and its interrupts acting on one
    interface in any order, each action being an operation of [Dma] or [Zap] run on
    the device.  What the FPGA holds is read off the register accesses of the
    driver; what user programs hold, off the results of their system calls. *)
From S2P Require Import Prelude Pool PoolSpec PoolProps ZapDev Dma Zap ZapSpec DmaProps ZapProps.

(** ** What the driver has told the FPGA

    A buffer goes to the FPGA by a write to RBAR or TBAR and comes back by a read
    of the same register; the size of a received packet is read, and the size of a
    packet to send written, through BSR right after the address. *)

Definition zap_reg (i r : Z) : Z := u32 (i * 0x20 + r).

Record fpga_view := FpgaView {
  fv_rx : list Z;          (* empty buffers it may fill *)
  fv_tx : list Z;          (* packets it is sending *)
  fv_done : list (Z * Z);  (* filled buffers returned: address, size word *)
  fv_sent : list (Z * Z);  (* packets accepted for sending: address, size word *)
  fv_rx_addr : Z;
  fv_tx_addr : Z
}.
Definition fpga_idle : fpga_view := FpgaView [] [] [] [] 0 0.

Definition drop_addr (a : Z) (l : list Z) : list Z := filter (fun b => b <> a) l.

Definition observe (i : Z) (v : fpga_view) (e : io_event) : fpga_view :=
  match e with
  | IoWrite r a =>
    if r =? zap_reg i ZAP_REG_RBAR then FpgaView (fv_rx v ++ [a]) (fv_tx v) (fv_done v) (fv_sent v) (fv_rx_addr v) (fv_tx_addr v)
    else if r =? zap_reg i ZAP_REG_TBAR then FpgaView (fv_rx v) (fv_tx v ++ [a]) (fv_done v) (fv_sent v) (fv_rx_addr v) a
    else if r =? zap_reg i ZAP_REG_BSR then
      FpgaView (fv_rx v) (fv_tx v) (fv_done v) (fv_sent v ++ [(fv_tx_addr v, a)]) (fv_rx_addr v) (fv_tx_addr v)
    else v
  | IoRead r a =>
    if r =? zap_reg i ZAP_REG_RBAR then FpgaView (drop_addr a (fv_rx v)) (fv_tx v) (fv_done v) (fv_sent v) a (fv_tx_addr v)
    else if r =? zap_reg i ZAP_REG_TBAR then FpgaView (fv_rx v) (drop_addr a (fv_tx v)) (fv_done v) (fv_sent v) (fv_rx_addr v) (fv_tx_addr v)
    else if r =? zap_reg i ZAP_REG_BSR then
      FpgaView (fv_rx v) (fv_tx v) (fv_done v ++ [(fv_rx_addr v, a)]) (fv_sent v) (fv_rx_addr v) (fv_tx_addr v)
    else v
  end.
Definition view (i : Z) (es : list io_event) : fpga_view := foldl (observe i) fpga_idle es.

(** What the driver relies on when it is interrupted for interface [i]: an address
    read back is one the FPGA has been given and still has.  [io0] are the accesses
    before the interface was started. *)
Definition rx_pending (icr : Z) : Prop := Z.testbit icr 1 = true /\ Z.testbit icr 17 = true.
Definition tx_free_pending (icr : Z) : Prop := Z.testbit icr 3 = true /\ Z.testbit icr 19 = true.
Definition irq_for (i icr : Z) : Prop :=
  0 <= icr < 2 ^ 32 /\ (Z.testbit icr 31 = true -> Z.land (Z.shiftr icr 8) 0xff = i).

Class HonestFpga `{ZapEnv} (i : Z) (io0 : list io_event) : Prop := {
  hf_cause es : let icr := hw_read (io0 ++ es) ZAP_REG_ISR in irq_for i icr -> Z.testbit icr 31 = true ->
    (rx_pending icr -> fv_rx (view i es) <> []) /\ (tx_free_pending icr -> fv_tx (view i es) <> []);
  hf_rbar es : fv_rx (view i es) <> [] -> hw_read (io0 ++ es) (zap_reg i ZAP_REG_RBAR) ∈ fv_rx (view i es);
  hf_tbar es : fv_tx (view i es) <> [] -> hw_read (io0 ++ es) (zap_reg i ZAP_REG_TBAR) ∈ fv_tx (view i es)
}.

(** An FPGA that fills the buffers it is given: the interrupt comes. *)
Class LiveFpga `{ZapEnv} (i : Z) (io0 : list io_event) : Prop := {
  lf_honest :: HonestFpga i io0;
  lf_rx es : fv_rx (view i es) <> [] -> let icr := hw_read (io0 ++ es) ZAP_REG_ISR in
    irq_for i icr /\ Z.testbit icr 31 = true /\ rx_pending icr
}.

(** ** The system *)

(** The device, the offsets user programs hold in the two directions, and the
    descriptors they have read and sent, oldest first. *)
Record zap_sys := Sys {
  ss_dev : zap_dev;
  ss_rx_held : list Z;
  ss_tx_held : list Z;
  ss_got : list (list Z);
  ss_sent : list (Z * Z * Z)
}.
Definition set_dev (z : zap_dev) (s : zap_sys) : zap_sys := Sys z (ss_rx_held s) (ss_tx_held s) (ss_got s) (ss_sent s).
Definition held (d : dir) (s : zap_sys) : list Z := match d with RX => ss_rx_held s | TX => ss_tx_held s end.

Definition took (d : dir) (desc : list Z) (s : zap_sys) : zap_sys :=
  let off := default 0 (head desc) in
  match d with
  | RX => Sys (ss_dev s) (off :: ss_rx_held s) (ss_tx_held s) (ss_got s ++ [desc]) (ss_sent s)
  | TX => Sys (ss_dev s) (ss_rx_held s) (off :: ss_tx_held s) (ss_got s) (ss_sent s)
  end.
Definition gave (d : dir) (off len oob : Z) (s : zap_sys) : zap_sys :=
  match d with
  | RX => Sys (ss_dev s) (drop_addr off (ss_rx_held s)) (ss_tx_held s) (ss_got s) (ss_sent s)
  | TX => Sys (ss_dev s) (ss_rx_held s) (drop_addr off (ss_tx_held s)) (ss_got s)
            (ss_sent s ++ if len =? 2 ^ 64 - 1 then [] else [(off, len, oob)])
  end.

Section actions.
Context `{ZapEnv}.

(** [read] of a packet descriptor; [write] of one; one iteration of the worker's
    loop; one interrupt.  [None] is a fault of the kernel. *)
Definition user_read (filp : file) (ubuf : Z) (s : zap_sys) : option zap_sys :=
  '(r, z) ← zap_read filp ubuf sizeof_read_data [] (ss_dev s);
  Some match r with
       | Returned (n, desc) => if n =? sizeof_read_data then took (file_dir filp) desc (set_dev z s) else set_dev z s
       | StillBlocked => set_dev z s
       end.
Definition user_write (filp : file) (ubuf off len oob : Z) (s : zap_sys) : option zap_sys :=
  '(r, z) ← zap_write filp ubuf sizeof_write_data off len oob (ss_dev s);
  Some (if r =? sizeof_write_data then gave (file_dir filp) off len oob (set_dev z s) else set_dev z s).
Definition worker (i : Z) (s : zap_sys) : option zap_sys :=
  '(_, z) ← dma_rx_task 1 i [] (ss_dev s); Some (set_dev z s).
Definition interrupt (s : zap_sys) : option zap_sys :=
  '(_, z) ← dma_isr (ss_dev s); Some (set_dev z s).

Definition user_memory_ok (ubuf : Z) : Prop := forall n, access_ok ubuf n = true /\ copy_ok ubuf n = true.

(** Accesses and changes that do not concern interface [i]. *)
Definition foreign (i : Z) (e : io_event) : Prop :=
  let r := match e with IoRead r _ => r | IoWrite r _ => r end in
  r <> zap_reg i ZAP_REG_RBAR /\ r <> zap_reg i ZAP_REG_TBAR /\ r <> zap_reg i ZAP_REG_BSR.
Definition elsewhere (i : Z) (z z' : zap_dev) : Prop :=
  (forall d, dev_half z' i d = dev_half z i d) /\ dev_dma z' i = dev_dma z i /\
  exists es, zd_io z' = zd_io z ++ es /\ Forall (foreign i) es.

(** The actions on interface [i], their outcome, and what they ask of the actors:
    user programs give back what they hold, and interrupts are for the interface. *)
Inductive sys_step (i : Z) (s : zap_sys) : option zap_sys -> Prop :=
  | step_read filp ubuf : zap_device_num filp = i -> user_memory_ok ubuf -> sys_step i s (user_read filp ubuf s)
  | step_write filp ubuf off len oob : zap_device_num filp = i -> user_memory_ok ubuf -> off ∈ held (file_dir filp) s ->
      sys_step i s (user_write filp ubuf off len oob s)
  | step_worker : sys_step i s (worker i s)
  | step_interrupt : irq_for i (hw_read (zd_io (ss_dev s)) ZAP_REG_ISR) -> sys_step i s (interrupt s)
  | step_elsewhere z : elsewhere i (ss_dev s) z -> sys_step i s (Some (set_dev z s)).

(** Any number of actions that do not fault. *)
Inductive sys_steps (i : Z) : zap_sys -> zap_sys -> Prop :=
  | steps_refl s : sys_steps i s s
  | steps_more s s1 s2 : sys_steps i s s1 -> sys_step i s1 (Some s2) -> sys_steps i s s2.

(** An interface that has just been started: every buffer is free, nothing is held. *)
Record just_started (i : Z) (z : zap_dev) (hr ht : zap_half) : Prop := JustStarted {
  js_number : 0 <= i < 256;
  js_rx : dev_half z i RX = Some hr;
  js_tx : dev_half z i TX = Some ht;
  js_rx_bus : bus_reachable hr;
  js_tx_bus : bus_reachable ht;
  js_empty : a_fifo (abs (zh_pool hr)) = [] /\ a_used (abs (zh_pool hr)) = [] /\
             a_fifo (abs (zh_pool ht)) = [] /\ a_used (abs (zh_pool ht)) = [];
  js_on : exists x, dev_dma z i = Some x /\ di_rx_on x <> 0
}.
Definition sys_start (z : zap_dev) : zap_sys := Sys z [] [] [] [].

End actions.

(** ** What the two ends mean *)

(** A descriptor read by a user program, and a buffer returned by the FPGA, as the
    packet they describe. *)
Definition desc_packet (h : zap_half) (desc : list Z) : packet :=
  match desc with
  | [off; len; oob; fl] => (p_ppackets (zh_pool h) + off, len, oob, fl)
  | _ => (0, 0, 0, 0)
  end.
Definition done_packet (h : zap_half) (d : Z * Z) : packet :=
  let '(len, oob, fl) := rx_size_decode (zh_jumbo_pkt_enable h) (snd d) in (fst d, len, oob, fl).

(** A descriptor written by a user program, and a queued packet, as what the FPGA
    is told: address and size word. *)
Definition sent_words (h : zap_half) (s : Z * Z * Z) : Z * Z :=
  let '(off, len, oob) := s in
  (p_ppackets (zh_pool h) + off, u32 (tx_size_encode (zh_jumbo_pkt_enable h) len oob)).
Definition packet_words (h : zap_half) (p : packet) : Z * Z :=
  let '(a, len, oob, _) := p in (a, u32 (tx_size_encode (zh_jumbo_pkt_enable h) len oob)).
