(* ===== verification/ZapSystemInv.v ===== *)
(** * The ZAP driver and its environment: the invariant

    Which register accesses the FPGA has seen, who holds the used packets of a pool,
    what one system call or one interrupt does, and the invariant of the system of
    [ZapSystem], kept by every action. *)
From S2P Require Import Prelude Pool PoolSpec PoolProps ZapDev Dma Zap ZapSpec DmaProps ZapProps ZapSystem.

(** ** Lemmas: what the FPGA has seen *)

Section registers.
Context (i : Z) (Hi : 0 <= i < 256).

Lemma zap_reg_eqb r r' : 0 <= r < 32 -> 0 <= r' < 32 -> (zap_reg i r =? zap_reg i r') = (r =? r').
Proof using Hi.
  intros. unfold zap_reg, u32. rewrite !Z.mod_small by lia. apply eq_true_iff_eq. rewrite !Z.eqb_eq. lia.
Qed.

Lemma view_app es fs : view i (es ++ fs) = foldl (observe i) (view i es) fs.
Proof using. apply foldl_app. Qed.

(** The accesses of the driver. *)
Lemma observe_posted v a : observe i v (IoWrite (zap_reg i ZAP_REG_RBAR) a) =
  FpgaView (fv_rx v ++ [a]) (fv_tx v) (fv_done v) (fv_sent v) (fv_rx_addr v) (fv_tx_addr v).
Proof using. unfold observe. by rewrite Z.eqb_refl. Qed.

Lemma observe_filled v a w :
  foldl (observe i) v [IoRead (zap_reg i ZAP_REG_RBAR) a; IoRead (zap_reg i ZAP_REG_BSR) w] =
  FpgaView (drop_addr a (fv_rx v)) (fv_tx v) (fv_done v ++ [(a, w)]) (fv_sent v) a (fv_tx_addr v).
Proof using Hi.
  cbn [foldl observe]. rewrite Z.eqb_refl. by rewrite !zap_reg_eqb by done.
Qed.

Lemma observe_handed v a w :
  foldl (observe i) v [IoWrite (zap_reg i ZAP_REG_TBAR) a; IoWrite (zap_reg i ZAP_REG_BSR) w] =
  FpgaView (fv_rx v) (fv_tx v ++ [a]) (fv_done v) (fv_sent v ++ [(a, w)]) (fv_rx_addr v) a.
Proof using Hi.
  cbn [foldl observe]. rewrite (zap_reg_eqb ZAP_REG_TBAR ZAP_REG_RBAR), Z.eqb_refl by done.
  by rewrite !zap_reg_eqb by done.
Qed.

Lemma observe_returned v a : observe i v (IoRead (zap_reg i ZAP_REG_TBAR) a) =
  FpgaView (fv_rx v) (drop_addr a (fv_tx v)) (fv_done v) (fv_sent v) (fv_rx_addr v) (fv_tx_addr v).
Proof using Hi. unfold observe. by rewrite zap_reg_eqb, Z.eqb_refl by done. Qed.

Lemma observe_foreign v es : Forall (foreign i) es -> foldl (observe i) v es = v.
Proof using.
  intros Hes. revert v. induction Hes as [|e es He _ IH]; intros v; [done|]. cbn [foldl].
  rewrite IH. destruct e as [r a|r a]; destruct He as (H1 & H2 & H3); unfold observe;
    by rewrite (proj2 (Z.eqb_neq _ _) H1), (proj2 (Z.eqb_neq _ _) H2), (proj2 (Z.eqb_neq _ _) H3).
Qed.

Lemma foreign_icr e r a : e = IoRead r a \/ e = IoWrite r a -> r = ZAP_REG_ISR \/ r = zap_reg i ZAP_REG_ICR -> foreign i e.
Proof using Hi.
  intros He Hr. assert (Hne : forall r', 8 <= r' < 32 -> r <> zap_reg i r').
  { intros r' Hr'. unfold zap_reg, u32, ZAP_REG_ISR, ZAP_REG_ICR in *. rewrite Z.mod_small in * by lia. lia. }
  destruct He as [-> | ->]; split_and!; by apply Hne.
Qed.
End registers.

(** ** Lemmas: who holds a packet *)

(** The addresses and sizes of a pool, which no action changes. *)
Definition geom (p : pool) : list Z := fst (fst (fst (frame p))).

Lemma geom_frame p q : frame q = frame p \/ frame q = frame (wake_freeq p) \/ frame q = frame (wake_fifoq p) -> geom q = geom p.
Proof. unfold geom. by intros [-> | [-> | ->]]. Qed.

Lemma geom_eq p q : geom q = geom p ->
  (forall k, buf q k = buf p k) /\ p_ppackets q = p_ppackets p /\ p_buf_paddr q = p_buf_paddr p /\ p_size q = p_size p /\
  p_aligned_packet_size q = p_aligned_packet_size p /\ p_num_packets q = p_num_packets p /\ p_packet_size q = p_packet_size p.
Proof. unfold geom, frame, buf. cbn. intros [=]. split_and!; congruence. Qed.

Lemma geom_bus h q : bus_reachable h -> pool_ok q -> geom q = geom (zh_pool h) ->
  bus_reachable (set_pool q h) /\ packets q = packets (zh_pool h) /\ (forall k, offset_of (set_pool q h) k = offset_of h k).
Proof.
  intros (Hok & Hp & H0 & H1) Hq (_ & _ & E2 & E3 & E4 & E5 & _)%geom_eq. split_and!.
  - split; [done|]. cbn. by rewrite E2, E3.
  - pose proof (wf_num _ (proj1 Hok)) as N. pose proof (wf_num _ (proj1 Hq)) as N'. rewrite E5 in N'. unfold packets, zlen in *. lia.
  - intros k. unfold offset_of. cbn. by rewrite E4.
Qed.

Lemma bus_addressable h : bus_reachable h -> addressable h.
Proof. intros (Hok & Hp & H0 & H1). split; [done|]. rewrite Hp in *. lia. Qed.

Lemma drop_addr_map (f : nat -> Z) k l : (forall j, f j = f k -> j = k) -> drop_addr (f k) (f <$> l) = f <$> list_without k l.
Proof.
  intros Hinj. unfold drop_addr, list_without. induction l as [|j l IH]; [done|]. cbn [fmap list_fmap].
  rewrite !filter_cons. destruct (decide (j <> k)) as [Hne|Heq].
  - rewrite decide_True by (intros E; apply Hne; by apply Hinj). cbn [fmap list_fmap]. by rewrite IH.
  - destruct (decide (j = k)) as [->|]; [|by destruct Heq]. by rewrite decide_False by tauto.
Qed.

Section owned.
Context (h : zap_half) (Hbus : bus_reachable h).

(** The used packets are those the user programs and the FPGA hold. *)
Definition owned (hl fl : list Z) (used : list nat) : Prop :=
  exists us fs, hl = offset_of h <$> us /\ fl = buf (zh_pool h) <$> fs /\ used ≡ₚ us ++ fs.

Lemma aligned_pos : 0 < p_aligned_packet_size (zh_pool h).
Proof using Hbus. destruct Hbus as ([Hwf _] & _). by destruct (wf_geometry _ Hwf). Qed.

Lemma offset_inj j k : offset_of h j = offset_of h k -> j = k.
Proof using Hbus. pose proof aligned_pos. unfold offset_of. nia. Qed.
Lemma buf_inj j k : buf (zh_pool h) j = buf (zh_pool h) k -> j = k.
Proof using Hbus. pose proof aligned_pos. unfold buf. nia. Qed.

Lemma owned_hold hl fl used k : owned hl fl used -> owned (offset_of h k :: hl) fl (k :: used).
Proof using. intros (us & fs & -> & -> & Hp). exists (k :: us), fs. by rewrite Hp. Qed.

Lemma owned_post hl fl used k : owned hl fl used -> owned hl (fl ++ [buf (zh_pool h) k]) (k :: used).
Proof using.
  intros (us & fs & -> & -> & Hp). exists us, (fs ++ [k]). rewrite fmap_app. split_and!; [done..|].
  rewrite Hp, (assoc_L (++)). by rewrite <- Permutation_cons_append.
Qed.

Lemma owned_take hl fl used k : owned hl fl used -> owned (hl ++ [offset_of h k]) fl (k :: used).
Proof using.
  intros (us & fs & -> & -> & Hp). exists (us ++ [k]), fs. rewrite fmap_app. split_and!; [done..|].
  rewrite Hp, <- (assoc_L (++)). apply Permutation_middle.
Qed.

Lemma owned_pass hl fl used k : owned (hl ++ [offset_of h k]) fl used -> owned hl (fl ++ [buf (zh_pool h) k]) used.
Proof using Hbus.
  intros (us & fs & Hu & -> & Hp). symmetry in Hu. apply fmap_app_inv in Hu as (us1 & us2 & -> & Hu2 & ->).
  destruct us2 as [|k' [|]]; [done| |done]. cbn in Hu2. injection Hu2 as Hk. apply offset_inj in Hk as ->.
  exists us1, (fs ++ [k']). rewrite fmap_app. split_and!; [done..|]. rewrite Hp, <- (assoc_L (++)). f_equiv. apply Permutation_cons_append.
Qed.

Lemma owned_nodup hl fl used : NoDup used -> owned hl fl used -> NoDup hl.
Proof using Hbus.
  intros Hnd (us & fs & -> & _ & Hp). rewrite Hp in Hnd. apply NoDup_app in Hnd as (Hu & _). apply NoDup_fmap_2; [|done].
  intros j k. apply offset_inj.
Qed.

Lemma owned_give hl fl used off : NoDup used -> owned hl fl used -> off ∈ hl ->
  exists k, off = offset_of h k /\ k ∈ used /\ owned (drop_addr off hl) fl (list_without k used).
Proof using Hbus.
  intros Hnd (us & fs & -> & -> & Hp) (k & -> & Hk)%list_elem_of_fmap. exists k. split; [done|].
  split; [rewrite Hp; set_solver|]. exists (list_without k us), fs. split_and!; [|done|].
  - apply drop_addr_map. intros j. apply offset_inj.
  - rewrite Hp in Hnd. apply NoDup_app in Hnd as (_ & Hd & _). unfold list_without at 1. rewrite Hp.
    change (list_without k (us ++ fs) ≡ₚ list_without k us ++ fs). rewrite without_app.
    by rewrite (without_notin k fs) by by apply Hd.
Qed.

Lemma owned_return hl fl used a : NoDup used -> owned hl fl used -> a ∈ fl ->
  exists k, a = buf (zh_pool h) k /\ k ∈ used /\ owned hl (drop_addr a fl) (list_without k used).
Proof using Hbus.
  intros Hnd (us & fs & -> & -> & Hp) (k & -> & Hk)%list_elem_of_fmap. exists k. split; [done|].
  split; [rewrite Hp; set_solver|]. exists us, (list_without k fs). split_and!; [done| |].
  - apply drop_addr_map. intros j. apply buf_inj.
  - rewrite Hp in Hnd. apply NoDup_app in Hnd as (_ & Hd & _). unfold list_without at 1. rewrite Hp.
    change (list_without k (us ++ fs) ≡ₚ us ++ list_without k fs). rewrite without_app.
    rewrite (without_notin k us); [done|]. intros Hu. by apply (Hd k Hu).
Qed.
End owned.

(** ** Lemmas: one system call *)

Lemma file_dir_rx filp : file_dir filp = RX <-> is_tx_device filp = 0.
Proof. unfold file_dir. destruct (is_tx_device filp =? 0) eqn:E; bool_to_prop; cbn; naive_solver. Qed.
Lemma file_dir_tx filp : file_dir filp = TX <-> is_tx_device filp <> 0.
Proof. unfold file_dir. destruct (is_tx_device filp =? 0) eqn:E; bool_to_prop; cbn; naive_solver. Qed.

(** A blocking removal that does not wait. *)
Lemma deqbuf_now p : pool_deqbuf [] p =
  match pool_deqbuf_try p with
  | Some (Some r, q) => Some (Returned (inr r), q) | Some (None, q) => Some (StillBlocked, q) | None => None
  end.
Proof.
  unfold pool_deqbuf, pool_deqbuf_try. destruct (spin_lock p) as [q|]; cbn [mbind option_bind]; [|done].
  cbn [wait_loop]. unfold fifolist_empty. destruct (bool_decide (p_fifolist q = [])); cbn [negb]; [done|].
  by destruct (_deqbuf q) as [[[[[? ?] ?] ?] ?]|].
Qed.

Lemma getbuf_now p : pool_getbuf [] p =
  match pool_getbuf_try p with
  | Some (Some r, q) => Some (Returned (inr r), q) | Some (None, q) => Some (StillBlocked, q) | None => None
  end.
Proof. rewrite <- getbuf_timeout_now. by unfold pool_getbuf, pool_getbuf_timeout; destruct (spin_lock p). Qed.

Section calls.
Context `{ZapEnv} (filp : file) (ubuf : Z) (Huser : user_memory_ok ubuf).

(** What [read] answers when there is nothing to read. *)
Definition would_block (r : blocking (Z * list Z)) : Prop := r = StillBlocked \/ r = Returned (- EAGAIN, []).

Lemma read_rx z h : file_dir filp = RX -> dev_half z (zap_device_num filp) RX = Some h -> addressable h ->
  match a_deq (abs (zh_pool h)) with
  | None => exists r, zap_read filp ubuf 32 [] z = Some (r, z) /\ would_block r
  | Some (k, (len, oob, fl), a) => exists q,
      zap_read filp ubuf 32 [] z = Some (Returned (32, [offset_of h k; len; oob; fl]), with_half (zap_device_num filp) RX (set_pool q h) z) /\
      pool_ok q /\ abs q = a /\ frame q = frame (zh_pool h)
  end.
Proof using Huser.
  intros Hd Hh Ha. apply file_dir_rx in Hd. destruct (decide (Z.land (f_flags filp) O_NONBLOCK = 0)) as [Hb|Hb].
  - set (nb := File (f_minor filp) O_NONBLOCK).
    pose proof (zap_read_rx_run nb ubuf Huser z h Hd ltac:(done) Hh Ha) as Hs. cbv zeta in Hs. revert Hs.
    unfold zap_read. change (32 =? sizeof_read_data) with true. rewrite (proj1 (Huser 32)).
    change (is_tx_device nb) with (is_tx_device filp). rewrite Hd, Hb. change (zap_device_num nb) with (zap_device_num filp).
    cbn [negb Z.eqb]. change (negb (Z.land (f_flags nb) O_NONBLOCK =? 0)) with true. cbv iota.
    destruct (deqbuf_try_spec _ (proj1 Ha)) as (o & q & Hg & _ & Hres & _). unfold deq_result in Hres.
    assert (Hg' := deqbuf_now (zh_pool h)). rewrite Hg in Hg'.
    rewrite (zbind_eq _ _ _ _ _ (on_pool_run z _ RX pool_deqbuf_try h o q Hh Hg)).
    destruct o as [[[[pb len] oob] fl]|]; rewrite (zbind_eq _ _ _ _ _ (on_pool_run z _ RX (pool_deqbuf []) h _ q Hh Hg')); cbv beta iota.
    + destruct (a_deq (abs (zh_pool h))) as [[[k [[l b] f]] a]|]; [by intros [_ Hs]|by destruct Hres].
    + destruct (a_deq (abs (zh_pool h))) as [[[k [[l b] f]] a]|]; [by destruct Hres|].
      intros [= Hz]. rewrite Hz. exists StillBlocked. split; [done|by left].
  - pose proof (zap_read_rx_run filp ubuf Huser z h Hd Hb Hh Ha) as Hs. cbv zeta in Hs.
    destruct (a_deq (abs (zh_pool h))) as [[[k [[l b] f]] a]|]; [by destruct Hs as [_ Hs]|].
    eexists. split; [exact Hs|by right].
Qed.

Lemma read_tx z h : file_dir filp = TX -> dev_half z (zap_device_num filp) TX = Some h -> addressable h ->
  match a_get (abs (zh_pool h)) with
  | None => exists r, zap_read filp ubuf 32 [] z = Some (r, z) /\ would_block r
  | Some (k, a) => exists q,
      zap_read filp ubuf 32 [] z = Some (Returned (32, [offset_of h k; p_packet_size (zh_pool h); 0; 0]),
                                         with_half (zap_device_num filp) TX (set_pool q h) z) /\
      pool_ok q /\ abs q = a /\ frame q = frame (zh_pool h)
  end.
Proof using Huser.
  intros Hd Hh Ha. apply file_dir_tx in Hd. destruct (getbuf_try_spec _ (proj1 Ha)) as (o & q & Hg & Hq & Hres & Hf).
  assert (Hg' := getbuf_now (zh_pool h)). rewrite Hg in Hg'.
  assert (Hout : forall k, (k < packets (zh_pool h))%nat -> forall len,
    read_out ubuf TX (zap_device_num filp) (buf (zh_pool h) k) len 0 0 (with_half (zap_device_num filp) TX (set_pool q h) z) =
    Some (Returned (32, [offset_of h k; len; 0; 0]), with_half (zap_device_num filp) TX (set_pool q h) z)).
  { intros k Hk len. rewrite (read_out_run ubuf Huser TX _ _ (set_pool q h)) by by apply (dev_half_same z _ TX _ h).
    do 4 f_equal. cbn [set_pool zh_pool]. unfold pool_pbuf2offset.
    destruct (addressable_frame h q Ha Hq Hf) as (Ha' & Hn & Ho). rewrite <- Hn in Hk.
    pose proof (offset_buf _ _ Ha' Hk) as (_ & Hoff & _). rewrite Ho in Hoff. rewrite <- Hoff.
    apply frame_buf in Hf as [Hb _]. cbn [set_pool zh_pool]. by rewrite Hb. }
  assert (Hin : forall k, k ∈ p_freelist (zh_pool h) -> (k < packets (zh_pool h))%nat).
  { intros k Hk. apply (in_lists _ (proj1 (proj1 Ha))). by apply (get_list_all _ (proj1 (proj1 Ha)) FREELIST). }
  unfold zap_read. change (32 =? sizeof_read_data) with true. rewrite (proj1 (Huser 32)), (proj2 (Z.eqb_neq _ _) Hd). cbn [negb].
  unfold get_result, a_get in *. cbn [abs a_free] in *. destruct (p_freelist (zh_pool h)) as [|k free] eqn:Hfree.
  - destruct Hres as [-> ->]. destruct (Z.land (f_flags filp) O_NONBLOCK =? 0); cbn [negb].
    + rewrite (zbind_eq _ _ _ _ _ (on_pool_run z _ TX (pool_getbuf []) h _ _ Hh Hg')). cbv beta iota.
      rewrite set_pool_same, with_half_id by done. eexists. split; [done|by left].
    + rewrite (zbind_eq _ _ _ _ _ (on_pool_run z _ TX pool_getbuf_try h _ _ Hh Hg)). cbv beta iota.
      rewrite set_pool_same, with_half_id by done. eexists. split; [done|by right].
  - destruct Hres as [-> Hab]. exists q. split_and!; [|done..].
    destruct (Z.land (f_flags filp) O_NONBLOCK =? 0); cbn [negb].
    + rewrite (zbind_eq _ _ _ _ _ (on_pool_run z _ TX (pool_getbuf []) h _ _ Hh Hg')). cbv beta iota. apply Hout, Hin. set_solver.
    + rewrite (zbind_eq _ _ _ _ _ (on_pool_run z _ TX pool_getbuf_try h _ _ Hh Hg)). cbv beta iota. apply Hout, Hin. set_solver.
Qed.
End calls.

(** One iteration of the worker: a free packet, if there is one, goes to the FPGA. *)
Lemma worker_run z i h x :
  dev_half z i RX = Some h -> dev_dma z i = Some x -> di_rx_on x <> 0 -> pool_ok (zh_pool h) ->
  match a_get (abs (zh_pool h)) with
  | None => dma_rx_task 1 i [] z = Some (StillBlocked, z)
  | Some (k, a) => exists q, dma_rx_task 1 i [] z =
      Some (StillBlocked, logged [posted i (zh_pool h) k] (with_half i RX (set_pool q h) z)) /\
      pool_ok q /\ abs q = a /\ frame q = frame (zh_pool h)
  end.
Proof.
  intros Hh Hx Hon Hok. cbn [dma_rx_task]. zrw (get_dma_run z i x Hx). rewrite (proj2 (Z.eqb_neq _ _) Hon).
  cbn [head default from_option id rc_waits rc_off tail].
  destruct (getbuf_try_spec _ Hok) as (o & q & Hg & Hq & Hr & Hf).
  assert (Hg' := getbuf_timeout_now (zh_pool h)). rewrite Hg in Hg'.
  unfold get_result, a_get in *. cbn [abs a_free] in *. destruct (p_freelist (zh_pool h)) as [|k free].
  - destruct Hr as [-> ->]. zrw (on_pool_run z i RX (pool_getbuf_timeout []) h _ _ Hh Hg').
    unfold mbind at 1, M_bind at 1, mret at 1, M_ret at 1. cbv beta iota. by rewrite set_pool_same, with_half_id.
  - destruct Hr as [-> Ha]. zrw (on_pool_run z i RX (pool_getbuf_timeout []) h _ _ Hh Hg').
    unfold mbind at 1, M_bind at 1, mret at 1, M_ret at 1. cbv beta iota. exists q. by split_and!.
Qed.

(** ** The invariant *)

(** One direction: the pool, and who holds its used packets. *)
Record half_inv (i : Z) (d : dir) (h : zap_half) (hl fl : list Z) (z : zap_dev) (q : pool) : Prop := HalfInv {
  hi_half : dev_half z i d = Some (set_pool q h);
  hi_pool : pool_ok q;
  hi_geom : geom q = geom (zh_pool h);
  hi_owned : owned h hl fl (p_usedlist q)
}.

(** The whole: [es] are the accesses since the start, [qr] and [qt] the pools. *)
Record sys_inv_at (i : Z) (io0 : list io_event) (hr ht : zap_half) (s : zap_sys)
    (es : list io_event) (x : dma_if_interface) (qr qt : pool) : Prop := SysInvAt {
  si_io : zd_io (ss_dev s) = io0 ++ es;
  si_dma : dev_dma (ss_dev s) i = Some x;
  si_on : di_rx_on x <> 0;
  si_rx : half_inv i RX hr (ss_rx_held s) (fv_rx (view i es)) (ss_dev s) qr;
  si_tx : half_inv i TX ht (ss_tx_held s) (fv_tx (view i es)) (ss_dev s) qt;
  si_got : (desc_packet hr <$> ss_got s) ++ queued qr = done_packet hr <$> fv_done (view i es);
  si_sent : sent_words ht <$> ss_sent s = fv_sent (view i es) ++ (packet_words ht <$> queued qt)
}.
Definition sys_inv (i : Z) (io0 : list io_event) (hr ht : zap_half) (s : zap_sys) : Prop :=
  exists es x qr qt, sys_inv_at i io0 hr ht s es x qr qt.

(** ** Lemmas: the pool of a direction *)

Section half_inv.
Context (i : Z) (d : dir) (h : zap_half) (Hbus : bus_reachable h).
Context (hl fl : list Z) (z : zap_dev) (q : pool) (Hinv : half_inv i d h hl fl z q).

Lemma hi_bus : bus_reachable (set_pool q h).
Proof using Hbus Hinv. by apply geom_bus; [|apply (hi_pool _ _ _ _ _ _ _ Hinv)|apply (hi_geom _ _ _ _ _ _ _ Hinv)]. Qed.
Lemma hi_offset k : offset_of (set_pool q h) k = offset_of h k.
Proof using Hbus Hinv. by apply geom_bus; [|apply (hi_pool _ _ _ _ _ _ _ Hinv)|apply (hi_geom _ _ _ _ _ _ _ Hinv)]. Qed.
Lemma hi_buf k : buf q k = buf (zh_pool h) k.
Proof using Hinv. apply geom_eq, (hi_geom _ _ _ _ _ _ _ Hinv). Qed.
Lemma hi_wf : pool_wf q.
Proof using Hinv. apply (hi_pool _ _ _ _ _ _ _ Hinv). Qed.
Lemma hi_nodup : NoDup (p_usedlist q).
Proof using Hinv. by destruct (lists_disjoint q hi_wf 0) as (_ & _ & ? & _). Qed.
Lemma hi_used k : k ∈ p_usedlist q -> (k < packets q)%nat.
Proof using Hinv. intros Hk. apply (in_lists q hi_wf). by apply (get_list_all q hi_wf USEDLIST). Qed.
Lemma hi_put k : k ∈ p_usedlist q ->
  a_put k (abs q) = Some (APool (p_freelist q ++ [k]) (a_fifo (abs q)) (list_without k (p_usedlist q))).
Proof using. intros Hk. unfold a_put. by rewrite bool_decide_true. Qed.
Lemma hi_enq k m : k ∈ p_usedlist q ->
  a_enq k m (abs q) = Some (APool (p_freelist q) (a_fifo (abs q) ++ [(k, m)]) (list_without k (p_usedlist q))).
Proof using. intros Hk. unfold a_enq. by rewrite bool_decide_true. Qed.

(** An address of a packet and its offset. *)
Lemma hi_address k : p_ppackets (zh_pool h) + offset_of h k = buf (zh_pool h) k.
Proof using. done. Qed.
End half_inv.

(** The queue of a pool with the addresses of [h]. *)
Definition queue_of (h : zap_half) (l : list (nat * (Z * Z * Z))) : list packet :=
  (fun e => (buf (zh_pool h) (fst e), fst (fst (snd e)), snd (fst (snd e)), snd (snd e))) <$> l.

Lemma queued_of h q : geom q = geom (zh_pool h) -> queued q = queue_of h (a_fifo (abs q)).
Proof. intros [Hb _]%geom_eq. unfold queued, queue_of. apply list_fmap_ext. intros n e _. by rewrite Hb. Qed.

(** ** Lemmas: every action keeps the invariant *)

Section invariant.
Context `{HZ : ZapEnv} (i : Z) (io0 : list io_event) (hr ht : zap_half).
Context (Hi : 0 <= i < 256) (Hr : bus_reachable hr) (Ht : bus_reachable ht).

Let inv := sys_inv_at i io0 hr ht.

(** A change of the receive direction, and of the transmit direction. *)
Lemma inv_rx s s' es es' x x' qr qr' qt :
  inv s es x qr qt ->
  dev_half (ss_dev s') i RX = Some (set_pool qr' hr) -> others_kept (ss_dev s) (ss_dev s') i RX ->
  pool_ok qr' -> geom qr' = geom qr ->
  zd_io (ss_dev s') = io0 ++ es' -> dev_dma (ss_dev s') i = Some x' -> di_rx_on x' = di_rx_on x ->
  ss_tx_held s' = ss_tx_held s -> ss_sent s' = ss_sent s ->
  fv_tx (view i es') = fv_tx (view i es) -> fv_sent (view i es') = fv_sent (view i es) ->
  (owned hr (ss_rx_held s) (fv_rx (view i es)) (p_usedlist qr) -> owned hr (ss_rx_held s') (fv_rx (view i es')) (p_usedlist qr')) ->
  ((desc_packet hr <$> ss_got s) ++ queued qr = done_packet hr <$> fv_done (view i es) ->
   (desc_packet hr <$> ss_got s') ++ queue_of hr (a_fifo (abs qr')) = done_packet hr <$> fv_done (view i es')) ->
  inv s' es' x' qr' qt.
Proof using.
  intros [Hio Hx Hon Hrx Htx Hgot Hsent] Hh Hk Hok Hg Hio' Hx' Hon' E1 E2 E3 E4 Ho Hq. destruct Hrx as [R1 R2 R3 R4].
  destruct Htx as [T1 T2 T3 T4]. split; [done|done|by rewrite Hon'| | | |].
  - split; [done|done|by rewrite Hg|by apply Ho].
  - split; [by rewrite Hk|done|done|by rewrite E1, E3].
  - rewrite (queued_of hr) by (by rewrite Hg). by apply Hq.
  - by rewrite E2, E4.
Qed.

Lemma inv_tx s s' es es' x x' qr qt qt' :
  inv s es x qr qt ->
  dev_half (ss_dev s') i TX = Some (set_pool qt' ht) -> others_kept (ss_dev s) (ss_dev s') i TX ->
  pool_ok qt' -> geom qt' = geom qt ->
  zd_io (ss_dev s') = io0 ++ es' -> dev_dma (ss_dev s') i = Some x' -> di_rx_on x' = di_rx_on x ->
  ss_rx_held s' = ss_rx_held s -> ss_got s' = ss_got s ->
  fv_rx (view i es') = fv_rx (view i es) -> fv_done (view i es') = fv_done (view i es) ->
  (owned ht (ss_tx_held s) (fv_tx (view i es)) (p_usedlist qt) -> owned ht (ss_tx_held s') (fv_tx (view i es')) (p_usedlist qt')) ->
  (sent_words ht <$> ss_sent s = fv_sent (view i es) ++ (packet_words ht <$> queued qt) ->
   sent_words ht <$> ss_sent s' = fv_sent (view i es') ++ (packet_words ht <$> queue_of ht (a_fifo (abs qt')))) ->
  inv s' es' x' qr qt'.
Proof using.
  intros [Hio Hx Hon Hrx Htx Hgot Hsent] Hh Hk Hok Hg Hio' Hx' Hon' E1 E2 E3 E4 Ho Hq. destruct Hrx as [R1 R2 R3 R4].
  destruct Htx as [T1 T2 T3 T4]. split; [done|done|by rewrite Hon'| | | |].
  - split; [by rewrite Hk|done|done|by rewrite E1, E3].
  - split; [done|done|by rewrite Hg|by apply Ho].
  - by rewrite E2, E4.
  - rewrite (queued_of ht) by (by rewrite Hg). by apply Hq.
Qed.

Lemma with_half_kept z d h : others_kept z (with_half i d h z) i d.
Proof using Hi. intros j e Hne. apply dev_half_other; [lia|done]. Qed.

(** *** System calls *)

Lemma inv_read filp ubuf s es x qr qt : zap_device_num filp = i -> user_memory_ok ubuf -> inv s es x qr qt ->
  exists s' qr' qt', user_read filp ubuf s = Some s' /\ inv s' es x qr' qt' /\
    (file_dir filp = RX -> a_fifo (abs qr) <> [] -> length (ss_got s') = S (length (ss_got s))) /\
    (a_fifo (abs qt) <> [] -> a_fifo (abs qt') <> []).
Proof using Hi Hr Ht.
  intros Hn Hu Hinv. pose proof Hinv as [Hio Hx Hon Hrx Htx Hgot Hsent]. unfold user_read. change sizeof_read_data with 32.
  destruct (file_dir filp) eqn:Hd.
  - pose proof (read_rx filp ubuf Hu (ss_dev s)) as Hs. rewrite Hn in Hs.
    specialize (Hs _ Hd (hi_half _ _ _ _ _ _ _ Hrx) (bus_addressable _ (hi_bus _ _ _ Hr _ _ _ _ Hrx))).
    cbn [set_pool zh_pool] in Hs.
    destruct (a_deq (abs qr)) as [[[k [[len oob] fl]] a]|] eqn:Ed; unfold a_deq in Ed; destruct (a_fifo (abs qr)) as [|e l] eqn:Hl; try done.
    + injection Ed as -> <-. destruct Hs as (q & E & Hq & Ha & Hf). rewrite E. cbn [mbind option_bind Z.eqb Pos.eqb].
      rewrite hi_offset with (i := i) (d := RX) (hl := ss_rx_held s) (fl := fv_rx (view i es)) (z := ss_dev s) by done.
      eexists _, q, qt. split; [reflexivity|]. split; [|split; [intros _ _; cbn; rewrite length_app; cbn; lia|done]].
      eapply (inv_rx s); [exact Hinv|..]; cbn [took set_dev ss_dev ss_rx_held ss_tx_held ss_got ss_sent head default from_option id];
        [by eapply dev_half_same, hi_half|apply with_half_kept|done|by apply geom_frame; left|done|done|done|done..| |].
      * assert (p_usedlist q = k :: p_usedlist qr) as -> by exact (f_equal a_used Ha). apply owned_hold.
      * rewrite (queued_of hr qr) by apply (hi_geom _ _ _ _ _ _ _ Hrx). rewrite Hl, Ha. intros <-.
        rewrite fmap_app, <- (assoc_L (++)). done.
    + destruct Hs as (r & E & Hr'). rewrite E. cbn [mbind option_bind]. exists s, qr, qt. split; [|by split_and!].
      destruct s. by destruct Hr' as [-> | ->].
  - pose proof (read_tx filp ubuf Hu (ss_dev s)) as Hs. rewrite Hn in Hs.
    specialize (Hs _ Hd (hi_half _ _ _ _ _ _ _ Htx) (bus_addressable _ (hi_bus _ _ _ Ht _ _ _ _ Htx))).
    cbn [set_pool zh_pool] in Hs.
    destruct (a_get (abs qt)) as [[k a]|] eqn:Ed; unfold a_get in Ed; destruct (a_free (abs qt)) as [|e l] eqn:Hl; try done.
    + injection Ed as -> <-. destruct Hs as (q & E & Hq & Ha & Hf). rewrite E. cbn [mbind option_bind Z.eqb Pos.eqb].
      rewrite hi_offset with (i := i) (d := TX) (hl := ss_tx_held s) (fl := fv_tx (view i es)) (z := ss_dev s) by done.
      eexists _, qr, q. split; [reflexivity|]. split; [|split; [done|by rewrite Ha]].
      eapply (inv_tx s); [exact Hinv|..]; cbn [took set_dev ss_dev ss_rx_held ss_tx_held ss_got ss_sent head default from_option id];
        [by eapply dev_half_same, hi_half|apply with_half_kept|done|by apply geom_frame; left|done|done|done|done..| |].
      * assert (p_usedlist q = k :: p_usedlist qt) as -> by exact (f_equal a_used Ha). apply owned_hold.
      * rewrite (queued_of ht qt) by apply (hi_geom _ _ _ _ _ _ _ Htx). by rewrite Ha.
    + destruct Hs as (r & E & Hr'). rewrite E. cbn [mbind option_bind]. exists s, qr, qt. split; [|by split_and!].
      destruct s. by destruct Hr' as [-> | ->].
Qed.

Lemma set_dev_same s : set_dev (ss_dev s) s = s.
Proof using. by destruct s. Qed.

Lemma inv_write_rx filp ubuf off len oob s es x qr qt :
  zap_device_num filp = i -> user_memory_ok ubuf -> file_dir filp = RX -> off ∈ ss_rx_held s -> inv s es x qr qt ->
  exists s' qr', user_write filp ubuf off len oob s = Some s' /\ inv s' es x qr' qt /\
    ss_got s' = ss_got s /\ a_free (abs qr') <> [].
Proof using Hi Hr Ht.
  intros Hn Hu Hd Hoff Hinv. pose proof Hinv as [Hio Hx Hon Hrx Htx Hgot Hsent]. unfold user_write. change sizeof_write_data with 24.
  pose proof (hi_nodup _ _ _ _ _ _ _ Hrx) as Hnd.
  destruct (owned_give hr Hr _ _ _ off Hnd (hi_owned _ _ _ _ _ _ _ Hrx) Hoff) as (k & -> & Hk & Hown).
  pose proof (zap_write_rx_run filp ubuf Hu (ss_dev s) (set_pool qr hr) k len oob) as Hs. cbv zeta in Hs. rewrite Hn in Hs.
  specialize (Hs (proj1 (file_dir_rx _) Hd) (hi_half _ _ _ _ _ _ _ Hrx) (bus_addressable _ (hi_bus _ _ _ Hr _ _ _ _ Hrx))
    (hi_used _ _ _ _ _ _ _ Hrx k Hk)).
  rewrite (hi_offset i RX hr Hr _ _ _ _ Hrx) in Hs. cbn [set_pool zh_pool] in Hs. rewrite (hi_put qr k Hk) in Hs.
  destruct Hs as (q & E & Hq & Ha & Hf). rewrite E. cbn [mbind option_bind Z.eqb Pos.eqb]. rewrite Hd.
  eexists _, q. split; [reflexivity|].
  split; [|split; [done|rewrite Ha; cbn; intros Hnil; by apply app_eq_nil in Hnil as [_ ?]]].
  eapply (inv_rx s); [exact Hinv|..]; cbn [gave set_dev ss_dev ss_rx_held ss_tx_held ss_got ss_sent];
    [by eapply dev_half_same, hi_half|apply with_half_kept|done|by apply geom_frame; right; left|done|done|done|done..| |].
  - intros _. assert (p_usedlist q = list_without k (p_usedlist qr)) as -> by exact (f_equal a_used Ha). done.
  - rewrite (queued_of hr qr) by apply (hi_geom _ _ _ _ _ _ _ Hrx). by rewrite Ha.
Qed.

Lemma inv_write_tx filp ubuf off len oob s es x qr qt :
  zap_device_num filp = i -> user_memory_ok ubuf -> file_dir filp = TX -> off ∈ ss_tx_held s -> inv s es x qr qt ->
  exists s' es' qt', user_write filp ubuf off len oob s = Some s' /\ inv s' es' x qr qt' /\
    view i es' = view i es /\ ss_got s' = ss_got s /\
    (a_fifo (abs qt) <> [] -> a_fifo (abs qt') <> []).
Proof using Hi Hr Ht.
  intros Hn Hu Hd Hoff Hinv. pose proof Hinv as [Hio Hx Hon Hrx Htx Hgot Hsent]. unfold user_write. change sizeof_write_data with 24.
  pose proof (hi_nodup _ _ _ _ _ _ _ Htx) as Hnd.
  destruct (owned_give ht Ht _ _ _ off Hnd (hi_owned _ _ _ _ _ _ _ Htx) Hoff) as (k & -> & Hk & Hown).
  pose proof (zap_write_tx_run filp ubuf Hu (ss_dev s) (set_pool qt ht) k len oob) as Hs. cbv zeta in Hs. rewrite Hn in Hs.
  specialize (Hs (proj1 (file_dir_tx _) Hd) (hi_half _ _ _ _ _ _ _ Htx) (bus_addressable _ (hi_bus _ _ _ Ht _ _ _ _ Htx))
    (hi_used _ _ _ _ _ _ _ Htx k Hk)).
  rewrite (hi_offset i TX ht Ht _ _ _ _ Htx) in Hs. cbn [set_pool zh_pool zh_header_enable zh_header_size zh_payload_max_size] in Hs.
  rewrite (hi_put qt k Hk), (hi_enq qt k _ Hk) in Hs. destruct (len =? 2 ^ 64 - 1) eqn:El.
  { destruct Hs as (q & E & Hq & Ha & Hf). rewrite E. cbn [mbind option_bind Z.eqb Pos.eqb]. rewrite Hd.
    eexists _, es, q. split; [reflexivity|]. split; [|split_and!; [done..|by rewrite Ha]].
    eapply (inv_tx s); [exact Hinv|..]; cbn [gave set_dev ss_dev ss_rx_held ss_tx_held ss_got ss_sent];
      [by eapply dev_half_same, hi_half|apply with_half_kept|done|by apply geom_frame; right; left|done|done|done|done..| |].
    - intros _. assert (p_usedlist q = list_without k (p_usedlist qt)) as -> by exact (f_equal a_used Ha). done.
    - rewrite (queued_of ht qt) by apply (hi_geom _ _ _ _ _ _ _ Htx). by rewrite Ha, El, app_nil_r. }
  destruct (negb (oob =? 0) && _).
  { rewrite Hs. cbn [mbind option_bind Z.eqb]. exists s, es, qt. by rewrite set_dev_same. }
  destruct ((_ <? len) || _).
  { rewrite Hs. cbn [mbind option_bind Z.eqb]. exists s, es, qt. by rewrite set_dev_same. }
  destruct Hs as (q & E & Hq & Ha & Hf). rewrite E. cbn [mbind option_bind Z.eqb Pos.eqb]. rewrite Hd.
  set (bell := IoWrite _ ICR_SET_TX_FULL_RDY). assert (Hbell : view i (es ++ [bell]) = view i es).
  { rewrite view_app. apply observe_foreign. constructor; [|done]. eapply foreign_icr; [done|by right|by right]. }
  eexists _, (es ++ [bell]), q. split; [reflexivity|].
  split; [|split_and!; [done..|rewrite Ha; cbn; intros _ Hnil; by apply app_eq_nil in Hnil as [_ ?]]].
  eapply (inv_tx s); [exact Hinv|..]; cbn [gave set_dev ss_dev ss_rx_held ss_tx_held ss_got ss_sent]; rewrite ?Hbell;
    [by eapply dev_half_same, hi_half|apply with_half_kept|done|by apply geom_frame; right; right| |done|done|done..| |].
  - rewrite logged_io, with_half_io, Hio. by rewrite <- (assoc_L (++)).
  - intros _. assert (p_usedlist q = list_without k (p_usedlist qt)) as -> by exact (f_equal a_used Ha). done.
  - rewrite (queued_of ht qt) by apply (hi_geom _ _ _ _ _ _ _ Htx). rewrite Ha, El, !fmap_app. cbn [a_fifo]. intros ->.
    unfold queue_of. rewrite !fmap_app, <- (assoc_L (++)). done.
Qed.

(** *** The worker *)

Lemma inv_worker s es x qr qt : inv s es x qr qt ->
  exists s' es' qr', worker i s = Some s' /\ inv s' es' x qr' qt /\
    (a_free (abs qr) <> [] -> fv_rx (view i es') <> []) /\ ss_got s' = ss_got s.
Proof using Hi Hr Ht.
  intros Hinv. pose proof Hinv as [Hio Hx Hon Hrx Htx Hgot Hsent]. unfold worker.
  pose proof (worker_run _ _ _ _ (hi_half _ _ _ _ _ _ _ Hrx) Hx Hon (hi_pool _ _ _ _ _ _ _ Hrx)) as Hs. cbn [set_pool zh_pool] in Hs.
  unfold a_get in Hs. destruct (a_free (abs qr)) as [|k free] eqn:Hl.
  - rewrite Hs. cbn [mbind option_bind]. exists s, es, qr. by rewrite set_dev_same.
  - destruct Hs as (q & E & Hq & Ha & Hf). rewrite E. cbn [mbind option_bind].
    assert (Hk : (k < packets qr)%nat).
    { apply (in_lists qr (hi_wf _ _ _ _ _ _ _ Hrx)). apply (get_list_all qr (hi_wf _ _ _ _ _ _ _ Hrx) FREELIST).
      change (k ∈ a_free (abs qr)). rewrite Hl. set_solver. }
    destruct (bus_buf _ k (hi_bus _ _ _ Hr _ _ _ _ Hrx) Hk) as (Hb & _). cbn [set_pool zh_pool] in Hb.
    assert (Hv : view i (es ++ [posted i qr k]) = FpgaView (fv_rx (view i es) ++ [buf (zh_pool hr) k]) (fv_tx (view i es))
      (fv_done (view i es)) (fv_sent (view i es)) (fv_rx_addr (view i es)) (fv_tx_addr (view i es))).
    { rewrite view_app. cbn [foldl]. unfold posted, u32. rewrite !(Z.mod_small (buf qr k)) by done.
      rewrite (hi_buf _ _ _ _ _ _ _ Hrx). apply observe_posted. }
    eexists _, (es ++ [posted i qr k]), q. split; [reflexivity|]. split.
    + eapply (inv_rx s); [exact Hinv|..]; cbn [set_dev ss_dev ss_rx_held ss_tx_held ss_got ss_sent]; rewrite ?Hv;
        cbn [fv_rx fv_tx fv_done fv_sent];
        [by eapply dev_half_same, hi_half|apply with_half_kept|done|by apply geom_frame; left| |done|done|done..| |].
      * rewrite logged_io, with_half_io, Hio. by rewrite <- (assoc_L (++)).
      * assert (p_usedlist q = k :: p_usedlist qr) as -> by exact (f_equal a_used Ha). apply owned_post.
      * rewrite (queued_of hr qr) by apply (hi_geom _ _ _ _ _ _ _ Hrx). by rewrite Ha.
    + rewrite Hv. cbn. split; [|done]. intros _ Hnil. by apply app_eq_nil in Hnil as [_ ?].
Qed.

(** *** Interrupts *)

Context {HF : HonestFpga i io0}.

Lemma inv_isr_rx s es x qr qt : inv s es x qr qt -> fv_rx (view i es) <> [] ->
  exists z' es' x' qr', dma_isr_rx i (ss_dev s) = Some (tt, z') /\ inv (set_dev z' s) es' x' qr' qt /\
    fv_tx (view i es') = fv_tx (view i es) /\ a_fifo (abs qr') <> [].
Proof using Hi Hr Ht HF.
  intros Hinv Hne. pose proof Hinv as [Hio Hx Hon Hrx Htx Hgot Hsent]. pose proof (hf_rbar es Hne) as Hin. rewrite <- Hio in Hin.
  pose proof (hi_nodup _ _ _ _ _ _ _ Hrx) as Hnd. set (z := ss_dev s) in *. set (h := set_pool qr hr).
  destruct (owned_return hr Hr _ _ _ _ Hnd (hi_owned _ _ _ _ _ _ _ Hrx) Hin) as (k & Hb & Hk & Hown).
  pose proof (hi_buf _ _ _ _ _ _ _ Hrx k) as Hbuf. rewrite <- Hbuf in Hb.
  set (w := hw_read (zd_io z ++ [IoRead (zap_reg i ZAP_REG_RBAR) (buf qr k)]) (zap_reg i ZAP_REG_BSR)).
  rewrite (isr_rx_run z i h x k w (hi_half _ _ _ _ _ _ _ Hrx) Hx (hi_bus _ _ _ Hr _ _ _ _ Hrx) (hi_used _ _ _ _ _ _ _ Hrx k Hk)
    (conj Hb eq_refl)).
  cbn [h set_pool zh_pool zh_jumbo_pkt_enable]. destruct (rx_size_decode (zh_jumbo_pkt_enable hr) (u32 w)) as [[len oob] fl] eqn:Ew.
  pose proof (enqbuf_spec qr k len oob fl (hi_pool _ _ _ _ _ _ _ Hrx) (hi_used _ _ _ _ _ _ _ Hrx k Hk)) as Hs.
  rewrite (hi_enq qr k _ Hk) in Hs. destruct Hs as (q & E & Hq & Ha & Hf). rewrite E. cbn [Z.eqb].
  set (zb := rx_before z i h x k w). set (es' := es ++ [IoRead (zap_reg i ZAP_REG_RBAR) (buf qr k); IoRead (zap_reg i ZAP_REG_BSR) (u32 w)]).
  assert (Hv : view i es' = FpgaView (drop_addr (buf qr k) (fv_rx (view i es))) (fv_tx (view i es))
    (fv_done (view i es) ++ [(buf qr k, u32 w)]) (fv_sent (view i es)) (buf qr k) (fv_tx_addr (view i es))).
  { unfold es'. rewrite view_app. by apply observe_filled. }
  do 3 eexists. exists q. split; [reflexivity|]. split.
  - eapply (inv_rx s _ es es'); [exact Hinv|..]; cbn [set_dev ss_dev ss_rx_held ss_tx_held ss_got ss_sent]; rewrite ?Hv;
      cbn [fv_rx fv_tx fv_done fv_sent];
      [by apply (dev_half_same zb i RX _ h), (hi_half _ _ _ _ _ _ _ Hrx)|apply (with_half_kept zb)|done
      |by apply geom_frame; right; right| |exact (dev_dma_with _ i _ x Hx)|done|done..| |].
    + unfold es'. rewrite with_half_io. unfold zb, rx_before. rewrite logged_io, with_dma_io, logged_io, Hio.
      by rewrite <- !(assoc_L (++)).
    + intros _. assert (p_usedlist q = list_without k (p_usedlist qr)) as -> by exact (f_equal a_used Ha).
      by rewrite Hb in Hown.
    + rewrite (queued_of hr qr) by apply (hi_geom _ _ _ _ _ _ _ Hrx). rewrite Ha, fmap_app. intros <-. cbn [a_fifo].
      unfold queue_of. rewrite fmap_app, (assoc_L (++)). f_equal. cbn. unfold done_packet. cbn [snd fst].
      by rewrite Ew, Hbuf.
  - rewrite Hv. split; [done|]. rewrite Ha. cbn. intros Hnil. by apply app_eq_nil in Hnil as [_ ?].
Qed.

(** Accesses and changes that do not concern the interface. *)
Lemma inv_elsewhere s es x qr qt z : inv s es x qr qt -> elsewhere i (ss_dev s) z ->
  exists es', inv (set_dev z s) es' x qr qt /\ view i es' = view i es.
Proof using.
  intros [Hio Hx Hon [R1 R2 R3 R4] [T1 T2 T3 T4] Hgot Hsent] (Hh & Hd & fs & Hfs & Hall). exists (es ++ fs).
  assert (Hv : view i (es ++ fs) = view i es) by (rewrite view_app; by apply observe_foreign).
  split; [|done]. split; cbn [set_dev ss_dev ss_rx_held ss_tx_held ss_got ss_sent]; rewrite ?Hv, ?Hd; try done.
  - by rewrite Hfs, Hio, <- (assoc_L (++)).
  - split; [by rewrite Hh|done..].
  - split; [by rewrite Hh|done..].
Qed.

(** The interrupt for sending is masked. *)
Lemma inv_mask s es x qr qt : inv s es x qr qt ->
  exists es', inv (set_dev (logged [tx_masked i] (ss_dev s)) s) es' x qr qt /\ view i es' = view i es.
Proof using Hi.
  intros Hinv. apply (inv_elsewhere s); [done|]. split_and!; [done|done|]. eexists. split; [done|].
  constructor; [|done]. by eapply foreign_icr; [|right|right].
Qed.

(** The next packet is handed to the FPGA. *)
Lemma inv_feed s es x qr qt : inv s es x qr qt -> a_fifo (abs qt) <> [] ->
  exists z' es' x' qt', tx_feed i (ss_dev s) = Some (IRQ_HANDLED, z') /\ inv (set_dev z' s) es' x' qr qt' /\
    (fv_tx (view i es) <> [] -> fv_tx (view i es') <> []).
Proof using Hi Ht Hr HZ HF.
  intros Hinv Hne. pose proof Hinv as [Hio Hx Hon Hrx Htx Hgot Hsent]. set (z := ss_dev s) in *.
  destruct (a_fifo (abs qt)) as [|[k [[len oob] fl]] l] eqn:Hl; [done|].
  assert (Hkl : k ∈ p_fifolist qt).
  { cbn in Hl |- *. destruct (p_fifolist qt) as [|j fifo]; [done|]. injection Hl as -> _ _. set_solver. }
  assert (Hkp : (k < packets qt)%nat).
  { apply (in_lists qt (hi_wf _ _ _ _ _ _ _ Htx)). by apply (get_list_all qt (hi_wf _ _ _ _ _ _ _ Htx) FIFOLIST). }
  destruct (tx_feed_run z i (set_pool qt ht) x k len oob fl (APool (a_free (abs qt)) l (k :: a_used (abs qt))) (hi_half _ _ _ _ _ _ _ Htx) Hx
    (hi_pool _ _ _ _ _ _ _ Htx)) as (z' & q & E & Hh & Hq & Hf & Ha & Hk & Hio' & x' & Hx' & Hon').
  { unfold a_deq. cbn [set_pool zh_pool]. by rewrite Hl. }
  destruct (bus_buf _ k (hi_bus _ _ _ Ht _ _ _ _ Htx) Hkp) as (Hb & _). cbn [set_pool zh_pool] in *.
  set (wd := u32 (tx_size_encode (zh_jumbo_pkt_enable ht) len oob)).
  assert (Hv : view i (es ++ tx_handed i (set_pool qt ht) k len oob) =
    FpgaView (fv_rx (view i es)) (fv_tx (view i es) ++ [buf (zh_pool ht) k]) (fv_done (view i es))
      (fv_sent (view i es) ++ [(buf (zh_pool ht) k, wd)]) (fv_rx_addr (view i es)) (buf (zh_pool ht) k)).
  { rewrite view_app. unfold tx_handed. cbn [set_pool zh_pool zh_jumbo_pkt_enable]. fold wd. fold (zap_reg i ZAP_REG_TBAR).
    fold (zap_reg i ZAP_REG_BSR). unfold u32 at 1 2. rewrite !(Z.mod_small (buf qt k)) by done. rewrite (hi_buf _ _ _ _ _ _ _ Htx).
    replace (u32 wd) with wd by (unfold wd, u32; by rewrite Z.mod_mod). by apply observe_handed. }
  exists z', (es ++ tx_handed i (set_pool qt ht) k len oob), x', q. split; [exact E|].
  split; [|rewrite Hv; cbn; intros _ Hnil; by apply app_eq_nil in Hnil as [_ ?]].
  eapply (inv_tx s _ es); [exact Hinv|..]; cbn [set_dev ss_dev ss_rx_held ss_tx_held ss_got ss_sent]; rewrite ?Hv;
    cbn [fv_rx fv_tx fv_done fv_sent];
    [exact Hh|exact Hk|done|by apply geom_frame; left| |exact Hx'|done|done..| |].
  - by rewrite Hio', Hio, <- (assoc_L (++)).
  - assert (p_usedlist q = k :: p_usedlist qt) as -> by exact (f_equal a_used Ha). apply owned_post.
  - rewrite (queued_of ht qt) by apply (hi_geom _ _ _ _ _ _ _ Htx). rewrite Ha, Hl. cbn [a_fifo]. intros ->.
    rewrite <- (assoc_L (++)). done.
Qed.

Lemma inv_isr_full s es x qr qt : inv s es x qr qt ->
  exists z' es' x' qt', dma_isr_tx_full i (ss_dev s) = Some (IRQ_HANDLED, z') /\ inv (set_dev z' s) es' x' qr qt' /\
    (fv_tx (view i es) <> [] -> fv_tx (view i es') <> []).
Proof using Hi Ht Hr HZ HF.
  intros Hinv. unfold dma_isr_tx_full. rewrite (zbind_eq _ _ _ _ _ (tx_queue_empty_run _ i _ (hi_half _ _ _ _ _ _ _ (si_tx _ _ _ _ _ _ _ _ _ Hinv)))).
  cbn [set_pool zh_pool]. case_bool_decide as Hq.
  { destruct (inv_mask s es x qr qt Hinv) as (es' & H1 & Hv). exists (logged [tx_masked i] (ss_dev s)), es', x, qt. by rewrite Hv. }
  destruct (inv_feed s es x qr qt Hinv Hq) as (z' & es' & x' & qt' & E & H1 & Hv). rewrite (zbind_eq _ _ _ _ _ E).
  rewrite (zbind_eq _ _ _ _ _ (tx_queue_empty_run z' i _ (hi_half _ _ _ _ _ _ _ (si_tx _ _ _ _ _ _ _ _ _ H1)))).
  cbn [set_pool zh_pool]. case_bool_decide.
  - destruct (inv_mask _ es' x' qr qt' H1) as (es2 & H2 & Hv2). exists (logged [tx_masked i] z'), es2, x', qt'. by rewrite Hv2.
  - by exists z', es', x', qt'.
Qed.

Lemma inv_isr_free s es x qr qt : inv s es x qr qt -> fv_tx (view i es) <> [] ->
  exists z' es' qt', dma_isr_tx_free i (ss_dev s) = Some (tt, z') /\ inv (set_dev z' s) es' x qr qt'.
Proof using Hi Hr Ht HF.
  intros Hinv Hne. pose proof Hinv as [Hio Hx Hon Hrx Htx Hgot Hsent]. pose proof (hf_tbar es Hne) as Hin. rewrite <- Hio in Hin.
  pose proof (hi_nodup _ _ _ _ _ _ _ Htx) as Hnd. set (z := ss_dev s) in *.
  destruct (owned_return ht Ht _ _ _ _ Hnd (hi_owned _ _ _ _ _ _ _ Htx) Hin) as (k & Hb & Hk & Hown).
  rewrite Hb in Hown. pose proof (hi_buf _ _ _ _ _ _ _ Htx k) as Hbuf. rewrite <- Hbuf in Hb, Hown.
  destruct (isr_tx_free_run z i _ k _ (hi_half _ _ _ _ _ _ _ Htx) (hi_bus _ _ _ Ht _ _ _ _ Htx) (hi_used _ _ _ _ _ _ _ Htx k Hk) Hb
    (hi_put qt k Hk)) as (q & E & Hq & Ha & Hf). cbn [set_pool zh_pool] in *.
  set (es' := es ++ [IoRead (zap_reg i ZAP_REG_TBAR) (buf qt k)]).
  assert (Hv : view i es' = FpgaView (fv_rx (view i es)) (drop_addr (buf qt k) (fv_tx (view i es))) (fv_done (view i es))
    (fv_sent (view i es)) (fv_rx_addr (view i es)) (fv_tx_addr (view i es))).
  { unfold es'. rewrite view_app. by apply observe_returned. }
  eexists _, es', q. split; [exact E|].
  eapply (inv_tx s _ es); [exact Hinv|..]; cbn [set_dev ss_dev ss_rx_held ss_tx_held ss_got ss_sent]; rewrite ?Hv;
    cbn [fv_rx fv_tx fv_done fv_sent];
    [by eapply dev_half_same, (hi_half _ _ _ _ _ _ _ Htx)|exact (with_half_kept (logged _ z) TX _)|done|by apply geom_frame; right; left| |exact Hx|done|done..| |].
  - unfold es'. rewrite with_half_io, logged_io, Hio. by rewrite <- (assoc_L (++)).
  - intros _. by assert (p_usedlist q = list_without k (p_usedlist qt)) as -> by exact (f_equal a_used Ha).
  - rewrite (queued_of ht qt) by apply (hi_geom _ _ _ _ _ _ _ Htx). by rewrite Ha.
Qed.

(** The parts of the handler, after the cause [icr] has been read. *)
Lemma inv_parts s es x qr qt icr : inv s es x qr qt ->
  (rx_pending icr -> fv_rx (view i es) <> []) -> (tx_free_pending icr -> fv_tx (view i es) <> []) ->
  exists z1 z2 z' es' x' qr' qt',
    (if bit_set icr ICR_INT_RXRDY && bit_set icr ICR_MSK_RXRDY then dma_isr_rx i else mret tt) (ss_dev s) = Some (tt, z1) /\
    (if bit_set icr ICR_INT_TX_FULL_RDY && bit_set icr ICR_MSK_TX_FULL_RDY then dma_isr_tx_full i else mret IRQ_HANDLED) z1 =
      Some (IRQ_HANDLED, z2) /\
    (if bit_set icr ICR_INT_TX_FREE_RDY && bit_set icr ICR_MSK_TX_FREE_RDY then dma_isr_tx_free i else mret tt) z2 = Some (tt, z') /\
    inv (set_dev z' s) es' x' qr' qt' /\ (rx_pending icr -> a_fifo (abs qr') <> []).
Proof using Hi Hr Ht HF.
  intros Hinv Hrx Htx. unfold ICR_INT_RXRDY, ICR_MSK_RXRDY, ICR_INT_TX_FULL_RDY, ICR_MSK_TX_FULL_RDY, ICR_INT_TX_FREE_RDY, ICR_MSK_TX_FREE_RDY.
  rewrite !land_bit by lia.
  assert (H1 : exists z1 es1 x1 qr1, (if Z.testbit icr 1 && Z.testbit icr 17 then dma_isr_rx i else mret tt) (ss_dev s) = Some (tt, z1) /\
    inv (set_dev z1 s) es1 x1 qr1 qt /\ fv_tx (view i es1) = fv_tx (view i es) /\ (rx_pending icr -> a_fifo (abs qr1) <> [])).
  { destruct (Z.testbit icr 1 && Z.testbit icr 17) eqn:E.
    - apply andb_true_iff in E. destruct (inv_isr_rx s es x qr qt Hinv (Hrx E)) as (z1 & es1 & x1 & qr1 & E1 & Hi1 & Hv & Hq). by exists z1, es1, x1, qr1.
    - exists (ss_dev s), es, x, qr. rewrite set_dev_same. split_and!; [done..|]. intros [E1 E2]. by rewrite E1, E2 in E. }
  destruct H1 as (z1 & es1 & x1 & qr1 & E1 & Hi1 & Hv1 & Hq1).
  assert (H2 : exists z2 es2 x2 qt2, (if Z.testbit icr 2 && Z.testbit icr 18 then dma_isr_tx_full i else mret IRQ_HANDLED) z1 = Some (IRQ_HANDLED, z2) /\
    inv (set_dev z2 s) es2 x2 qr1 qt2 /\ (fv_tx (view i es1) <> [] -> fv_tx (view i es2) <> [])).
  { destruct (Z.testbit icr 2 && Z.testbit icr 18).
    - destruct (inv_isr_full _ _ _ _ _ Hi1) as (z2 & es2 & x2 & qt2 & E2 & Hi2 & Hv). by exists z2, es2, x2, qt2.
    - by exists z1, es1, x1, qt. }
  destruct H2 as (z2 & es2 & x2 & qt2 & E2 & Hi2 & Hv2). exists z1, z2.
  destruct (Z.testbit icr 3 && Z.testbit icr 19) eqn:E.
  - apply andb_true_iff in E. destruct (inv_isr_free _ _ _ _ _ Hi2) as (z3 & es3 & qt3 & E3 & Hi3); [apply Hv2; rewrite Hv1; by apply Htx|].
    exists z3, es3, x2, qr1, qt3. by split_and!.
  - exists z2, es2, x2, qr1, qt2. by split_and!.
Qed.

Lemma inv_interrupt s es x qr qt : inv s es x qr qt ->
  let icr := hw_read (zd_io (ss_dev s)) ZAP_REG_ISR in irq_for i icr ->
  exists s' es' x' qr' qt', interrupt s = Some s' /\ inv s' es' x' qr' qt' /\ ss_got s' = ss_got s /\
    (Z.testbit icr 31 = true -> rx_pending icr -> a_fifo (abs qr') <> []).
Proof using Hi Hr Ht HF.
  intros Hinv icr Hirq. pose proof (hf_cause es) as Hc. rewrite <- (si_io _ _ _ _ _ _ _ _ _ Hinv) in Hc. cbv zeta in Hc. fold icr in Hc.
  pose proof Hirq as [Hb Hn]. set (z := ss_dev s) in *. set (z0 := logged [IoRead ZAP_REG_ISR icr] z).
  destruct (inv_elsewhere s es x qr qt z0 Hinv) as (es0 & Hi0 & Hv0).
  { split_and!; [done|done|]. eexists. split; [done|]. constructor; [|done]. eapply foreign_icr; [done|by left|by left]. }
  unfold interrupt, dma_isr. fold z. rewrite (zbind_eq _ _ _ _ _ (isr_read z icr eq_refl Hb)). cbv zeta. fold z0.
  unfold ICR_INT_PEND at 1. rewrite land_bit by lia. destruct (Z.testbit icr 31) eqn:E31; cbn [negb].
  - rewrite (Hn eq_refl). destruct (Hc Hirq eq_refl) as [Hc1 Hc2].
    destruct (inv_parts (set_dev z0 s) es0 x qr qt icr Hi0) as (z1 & z2 & z3 & es3 & x3 & qr3 & qt3 & E1 & E2 & E3 & Hi3 & Hq);
      [by rewrite Hv0..|]. cbn [set_dev ss_dev] in E1.
    rewrite (zbind_eq _ _ _ _ _ E1), (zbind_eq _ _ _ _ _ E2). cbv beta iota. rewrite (zbind_eq _ _ _ _ _ E3). cbn [mbind option_bind mret M_ret].
    exists (set_dev z3 s), es3, x3, qr3, qt3. split_and!; [done|exact Hi3|done|by intros _].
  - cbn [mbind option_bind mret M_ret]. exists (set_dev z0 s), es0, x, qr, qt. by split_and!.
Qed.

(** *** The system *)

Lemma inv_step s o : sys_inv i io0 hr ht s -> sys_step i s o -> exists s', o = Some s' /\ sys_inv i io0 hr ht s'.
Proof using Hi Hr Ht HF.
  intros (es & x & qr & qt & Hinv) Hstep. destruct Hstep as [filp ubuf Hn Hu|filp ubuf off len oob Hn Hu Hoff| |Hirq|z Hz].
  - destruct (inv_read filp ubuf s es x qr qt Hn Hu Hinv) as (s' & qr' & qt' & E & H & _). exists s'. split; [done|by eexists _, _, _, _].
  - destruct (file_dir filp) eqn:Hd.
    + destruct (inv_write_rx filp ubuf off len oob s es x qr qt Hn Hu Hd Hoff Hinv) as (s' & qr' & E & H & _). exists s'. split; [done|by eexists _, _, _, _].
    + destruct (inv_write_tx filp ubuf off len oob s es x qr qt Hn Hu Hd Hoff Hinv) as (s' & es' & qt' & E & H & _). exists s'. split; [done|by eexists _, _, _, _].
  - destruct (inv_worker s es x qr qt Hinv) as (s' & es' & qr' & E & H & _). exists s'. split; [done|by eexists _, _, _, _].
  - destruct (inv_interrupt s es x qr qt Hinv Hirq) as (s' & es' & x' & qr' & qt' & E & H & _). exists s'. split; [done|by eexists _, _, _, _].
  - destruct (inv_elsewhere s es x qr qt z Hinv Hz) as (es' & H & _). eexists. split; [done|by eexists _, _, _, _].
Qed.

Lemma inv_steps s s' : sys_inv i io0 hr ht s -> sys_steps i s s' -> sys_inv i io0 hr ht s'.
Proof using Hi Hr Ht HF.
  intros Hinv Hs. induction Hs as [|s s1 s2 _ IH Hstep]; [done|].
  destruct (inv_step s1 _ (IH Hinv) Hstep) as (s' & [= <-] & H). done.
Qed.
End invariant.

Lemma inv_start i z hr ht : just_started i z hr ht -> sys_inv i (zd_io z) hr ht (sys_start z).
Proof.
  intros [Hi Hr Ht Br Bt (E1 & E2 & E3 & E4) (x & Hx & Hon)]. exists [], x, (zh_pool hr), (zh_pool ht).
  assert (Hhalf : forall d h, dev_half z i d = Some h -> bus_reachable h -> a_used (abs (zh_pool h)) = [] -> half_inv i d h [] [] z (zh_pool h)).
  { intros d h Hd [Hok _] Hu. split; [by rewrite set_pool_same|done|done|]. cbn in Hu. rewrite Hu. by exists [], []. }
  split; cbn [sys_start ss_dev ss_rx_held ss_tx_held ss_got ss_sent]; [by rewrite app_nil_r|done|done|by apply Hhalf|by apply Hhalf| |].
  - by rewrite (queued_eq _ _ E1).
  - by rewrite (queued_eq _ _ E3).
Qed.
