(* ===== verification/ZapSystemProps.v ===== *)
(** * The ZAP driver and its environment: properties

    Over every history of actions: nothing faults, every packet is in one place, and
    both streams of packets arrive complete and in order; received packets keep
    coming; and two ways a user program can stop the kernel. *)
From S2P Require Import Prelude Pool PoolSpec PoolProps ZapDev Dma Zap ZapSpec DmaProps ZapProps ZapSystem ZapSystemInv.

(** ** Lemmas: the packets of an interface *)

(** What the FPGA has seen since the accesses [io0]. *)
Definition view_since (i : Z) (io0 : list io_event) (s : zap_sys) : fpga_view :=
  view i (drop (length io0) (zd_io (ss_dev s))).

Lemma view_since_eq i io0 hr ht s es x qr qt : sys_inv_at i io0 hr ht s es x qr qt -> view_since i io0 s = view i es.
Proof. intros Hinv. unfold view_since. by rewrite (si_io _ _ _ _ _ _ _ _ _ Hinv), drop_app_length. Qed.

(** The addresses of the packets that are free, queued, held by user programs and
    held by the FPGA. *)
Definition whereabouts (h : zap_half) (q : pool) (hl fl : list Z) : list Z :=
  (buf (zh_pool h) <$> p_freelist q) ++ (buf (zh_pool h) <$> p_fifolist q) ++
  ((fun off => p_ppackets (zh_pool h) + off) <$> hl) ++ fl.
Definition all_addresses (h : zap_half) : list Z := buf (zh_pool h) <$> seq 0 (packets (zh_pool h)).

Lemma half_inv_conserved i d h hl fl z q : bus_reachable h -> half_inv i d h hl fl z q ->
  whereabouts h q hl fl ≡ₚ all_addresses h.
Proof.
  intros Hbus [_ [Hwf Hl] Hg (us & fs & -> & -> & Hp)]. unfold whereabouts, all_addresses.
  destruct (geom_bus h q Hbus (conj Hwf Hl) Hg) as (_ & Hn & _).
  rewrite <- list_fmap_compose. change ((fun off => p_ppackets (zh_pool h) + off) ∘ offset_of h) with (buf (zh_pool h)).
  rewrite <- Hn, <- (wf_partition q Hwf). unfold all_lists. rewrite Hp, !fmap_app. done.
Qed.

Lemma all_addresses_nodup h : bus_reachable h -> NoDup (all_addresses h).
Proof. intros Hbus. apply NoDup_fmap_2; [|apply NoDup_seq]. intros j k. by apply buf_inj. Qed.

(** ** Lemmas: progress *)

Section flow.
Context `{HZ : ZapEnv} (i : Z) (io0 : list io_event) (hr ht : zap_half).
Context (Hi : 0 <= i < 256) (Hr : bus_reachable hr) (Ht : bus_reachable ht) {HL : LiveFpga i io0}.
Context (ubuf : Z) (Huser : user_memory_ok ubuf).

Let inv := sys_inv_at i io0 hr ht.

(** A further packet reaches a user program. *)
Definition delivers (s : zap_sys) : Prop := exists s', sys_steps i s s' /\ (length (ss_got s) < length (ss_got s'))%nat.

Lemma sys_steps_trans s1 s2 s3 : sys_steps i s1 s2 -> sys_steps i s2 s3 -> sys_steps i s1 s3.
Proof. intros H12 H23. induction H23; [done|]. eapply steps_more; [by apply IHsys_steps|done]. Qed.

Lemma delivers_after s s1 : sys_step i s (Some s1) -> ss_got s1 = ss_got s -> delivers s1 -> delivers s.
Proof.
  intros Hs Hg (s' & Hs' & Hlt). exists s'. split; [|by rewrite <- Hg].
  eapply sys_steps_trans; [|exact Hs']. eapply steps_more; [apply steps_refl|done].
Qed.

Let rx_file := File (2 * i) 0.
Lemma rx_file_num : zap_device_num rx_file = i /\ file_dir rx_file = RX.
Proof.
  unfold zap_device_num, file_dir, is_tx_device, rx_file. cbn [f_minor]. rewrite Z.shiftr_div_pow2 by lia.
  change (2 ^ 1) with 2. split; [mlia|]. change 1 with (Z.ones 1). rewrite Z.land_ones by lia. change (2 ^ 1) with 2.
  rewrite Z.mul_comm, Z.mod_mul by lia. done.
Qed.

Lemma flow_queued s es x qr qt : inv s es x qr qt -> a_fifo (abs qr) <> [] -> delivers s.
Proof using Hi Hr Ht Huser.
  intros Hinv Hq. destruct rx_file_num as [Hn Hd].
  destruct (inv_read i io0 hr ht Hi Hr Ht rx_file ubuf s es x qr qt Hn Huser Hinv) as (s' & qr' & qt' & E & _ & Hlen & _).
  exists s'. split; [|rewrite Hlen by done; lia]. eapply steps_more; [apply steps_refl|]. rewrite <- E. by apply step_read.
Qed.

Lemma flow_filled s es x qr qt : inv s es x qr qt -> fv_rx (view i es) <> [] -> delivers s.
Proof using Hi Hr Ht HL Huser.
  intros Hinv Hq. destruct (lf_rx es Hq) as (Hirq & Hp & Hrx). rewrite <- (si_io _ _ _ _ _ _ _ _ _ Hinv) in Hirq, Hp, Hrx.
  destruct (inv_interrupt i io0 hr ht Hi Hr Ht s es x qr qt Hinv Hirq) as (s' & es' & x' & qr' & qt' & E & Hinv' & Hg & Hf).
  eapply (delivers_after s s'); [rewrite <- E; by apply step_interrupt|done|]. eapply flow_queued; [exact Hinv'|by apply Hf].
Qed.

Lemma flow_free s es x qr qt : inv s es x qr qt -> a_free (abs qr) <> [] -> delivers s.
Proof using Hi Hr Ht HL Huser.
  intros Hinv Hq. destruct (inv_worker i io0 hr ht Hi Hr Ht s es x qr qt Hinv) as (s' & es' & qr' & E & Hinv' & Hf & Hg).
  eapply (delivers_after s s'); [rewrite <- E; apply step_worker|done|]. eapply flow_filled; [exact Hinv'|by apply Hf].
Qed.

Lemma flow_held s es x qr qt off : inv s es x qr qt -> off ∈ ss_rx_held s -> delivers s.
Proof using Hi Hr Ht HL Huser.
  intros Hinv Hoff. destruct rx_file_num as [Hn Hd].
  destruct (inv_write_rx i io0 hr ht Hi Hr Ht rx_file ubuf off 0 0 s es x qr qt Hn Huser Hd Hoff Hinv) as (s' & qr' & E & Hinv' & Hg & Hf).
  eapply (delivers_after s s'); [rewrite <- E; apply step_write; [done..|by rewrite Hd]|done|].
  eapply flow_free; [exact Hinv'|done].
Qed.

Lemma flow s : sys_inv i io0 hr ht s -> (0 < packets (zh_pool hr))%nat -> delivers s.
Proof using Hi Hr Ht HL Huser.
  intros (es & x & qr & qt & Hinv) Hn. pose proof (half_inv_conserved _ _ _ _ _ _ _ Hr (si_rx _ _ _ _ _ _ _ _ _ Hinv)) as Hc.
  apply Permutation_length in Hc. unfold whereabouts, all_addresses in Hc. rewrite !length_app, !length_fmap, length_seq in Hc.
  destruct (fv_rx (view i es)) as [|a l] eqn:E1; [|eapply flow_filled; [exact Hinv|by rewrite E1]].
  destruct (p_freelist qr) as [|k l] eqn:E2; [|eapply flow_free; [exact Hinv|cbn; by rewrite E2]].
  destruct (p_fifolist qr) as [|k l] eqn:E3; [|eapply flow_queued; [exact Hinv|cbn; by rewrite E3]].
  destruct (ss_rx_held s) as [|off l] eqn:E4; [cbn in Hc; lia|]. apply (flow_held s es x qr qt off Hinv). rewrite E4. set_solver.
Qed.
End flow.

(** ** Properties *)

(** No history of actions on a started interface makes the driver fault, and no
    packet is ever lost or in two places.  Whatever user programs that give back
    only what they hold, the worker, an FPGA that returns only what it was given,
    interrupts with any combination of causes, and the rest of the driver do, in
    any order: the next action runs, both pools are well formed, and in both
    directions the addresses of the free and the queued packets, of those user
    programs hold and of those the FPGA holds are together exactly the addresses of
    the pool's packets, each once. *)
Theorem zap_system_safe `{ZapEnv} i z hr ht s :
  HonestFpga i (zd_io z) -> just_started i z hr ht -> sys_steps i (sys_start z) s ->
  (forall o, sys_step i s o -> exists s', o = Some s') /\
  exists qr qt, let v := view_since i (zd_io z) s in
    dev_half (ss_dev s) i RX = Some (set_pool qr hr) /\ pool_ok qr /\
    whereabouts hr qr (ss_rx_held s) (fv_rx v) ≡ₚ all_addresses hr /\ NoDup (all_addresses hr) /\
    dev_half (ss_dev s) i TX = Some (set_pool qt ht) /\ pool_ok qt /\
    whereabouts ht qt (ss_tx_held s) (fv_tx v) ≡ₚ all_addresses ht /\ NoDup (all_addresses ht).
Proof.
  intros HF Hs Hsteps. pose proof Hs as [Hi _ _ Br Bt _ _].
  pose proof (inv_steps i _ hr ht Hi Br Bt _ _ (inv_start i z hr ht Hs) Hsteps) as Hinv. split.
  - intros o Ho. destruct (inv_step i _ hr ht Hi Br Bt s o Hinv Ho) as (s' & -> & _). by exists s'.
  - destruct Hinv as (es & x & qr & qt & Hat). exists qr, qt. cbv zeta. rewrite (view_since_eq _ _ _ _ _ _ _ _ _ Hat).
    destruct Hat as [_ _ _ Hrx Htx _ _].
    split_and!; [apply Hrx|apply Hrx|by apply (half_inv_conserved i RX _ _ _ (ss_dev s))|by apply all_addresses_nodup
                |apply Htx|apply Htx|by apply (half_inv_conserved i TX _ _ _ (ss_dev s))|by apply all_addresses_nodup].
Qed.

(** Both streams of packets arrive complete, once, in order and unchanged.  After
    every history of actions on a started interface: the descriptors user programs
    have read, followed by the packets still queued, are the packets the FPGA has
    filled, with the lengths and flags decoded from their size words; and the
    packets user programs have sent are those the FPGA has been given, address and
    size word, followed by the packets still queued. *)
Theorem zap_streams_exact `{ZapEnv} i z hr ht s :
  HonestFpga i (zd_io z) -> just_started i z hr ht -> sys_steps i (sys_start z) s ->
  exists qr qt, let v := view_since i (zd_io z) s in
    dev_half (ss_dev s) i RX = Some (set_pool qr hr) /\ dev_half (ss_dev s) i TX = Some (set_pool qt ht) /\
    (desc_packet hr <$> ss_got s) ++ queued qr = done_packet hr <$> fv_done v /\
    sent_words ht <$> ss_sent s = fv_sent v ++ (packet_words ht <$> queued qt).
Proof.
  intros HF Hs Hsteps. pose proof Hs as [Hi _ _ Br Bt _ _].
  destruct (inv_steps i _ hr ht Hi Br Bt _ _ (inv_start i z hr ht Hs) Hsteps) as (es & x & qr & qt & Hat).
  exists qr, qt. cbv zeta. rewrite (view_since_eq _ _ _ _ _ _ _ _ _ Hat). destruct Hat as [_ _ _ Hrx Htx Hg Hse].
  split_and!; [apply Hrx|apply Htx|exact Hg|exact Hse].
Qed.

(** Received packets keep coming.  When the FPGA interrupts after filling a buffer
    and the pool has a packet at all, then from every state the interface can reach,
    wherever its packets are, some history gives a user program a further packet:
    the exchange never ends in a deadlock. *)
Theorem zap_keeps_flowing `{ZapEnv} i z hr ht s ubuf :
  LiveFpga i (zd_io z) -> just_started i z hr ht -> user_memory_ok ubuf -> (0 < packets (zh_pool hr))%nat ->
  sys_steps i (sys_start z) s ->
  exists s', sys_steps i s s' /\ (length (ss_got s) < length (ss_got s'))%nat.
Proof.
  intros HL Hs Hu Hn Hsteps. pose proof Hs as [Hi _ _ Br Bt _ _].
  apply (flow i (zd_io z) hr ht Hi Br Bt ubuf Hu s); [|done].
  exact (inv_steps i _ hr ht Hi Br Bt _ _ (inv_start i z hr ht Hs) Hsteps).
Qed.

(** C24: the driver does not know who holds a used packet.  A user program that writes
    the offset of a packet the FPGA is filling is told that all went well; when the
    FPGA then reports the packet, the interrupt handler stops the kernel (BUG). *)
Theorem zap_user_can_crash `{ZapEnv} filp ubuf z h x k w icr w1 w2 :
  let i := zap_device_num filp in
  user_memory_ok ubuf -> file_dir filp = RX -> dev_half z i RX = Some h -> dev_dma z i = Some x ->
  bus_reachable h -> k ∈ p_usedlist (zh_pool h) ->
  hw_read (zd_io z) ZAP_REG_ISR = icr -> rx_cause icr i -> reports (logged [IoRead ZAP_REG_ISR icr] z) i h k w ->
  exists z', zap_write filp ubuf sizeof_write_data (offset_of h k) w1 w2 z = Some (sizeof_write_data, z') /\ dma_isr z' = None.
Proof.
  intros i Hu Hd Hh Hx Hbus Hk Hr Hc Hrep. pose proof (proj1 (proj1 Hbus)) as Hwf.
  assert (Hkp : (k < packets (zh_pool h))%nat) by (apply (in_lists _ Hwf); by apply (get_list_all _ Hwf USEDLIST)).
  pose proof (zap_write_rx_run filp ubuf Hu z h k w1 w2 (proj1 (file_dir_rx _) Hd) Hh (bus_addressable _ Hbus) Hkp) as Hs.
  cbv zeta in Hs. fold i in Hs. rewrite (hi_put _ k Hk) in Hs. destruct Hs as (q & E & Hq & Ha & Hf).
  exists (with_half i RX (set_pool q h) z). split; [exact E|]. set (z' := with_half i RX _ z).
  assert (Hg : geom q = geom (zh_pool h)) by (apply geom_frame; by right; left).
  destruct (geom_bus h q Hbus Hq Hg) as (Hbus' & Hn & _). apply geom_eq in Hg as [Hb _].
  rewrite (dma_isr_rx_only z' icr i Hr Hc). set (z1 := logged _ z').
  assert (Hrep' : reports z1 i (set_pool q h) k w) by (unfold reports in *; cbn [set_pool zh_pool]; by rewrite Hb).
  assert (Hkq : (k < packets q)%nat) by (by rewrite Hn).
  rewrite (isr_rx_run z1 i (set_pool q h) x k w (dev_half_same z i RX _ h Hh) Hx Hbus' Hkq Hrep').
  cbn [set_pool zh_pool]. destruct (rx_size_decode _ _) as [[len oob] fl].
  pose proof (enqbuf_spec q k len oob fl Hq Hkq) as Hs. unfold a_enq in Hs. rewrite Ha in Hs. cbn [a_used] in Hs.
  rewrite bool_decide_false in Hs by (rewrite elem_of_without; tauto). by rewrite Hs.
Qed.

(** ** Packets of no size *)

(** Cutting a pool into packets of size 0: they are counted by the size of an entry. *)
Lemma resize_zero ok p max : p_locked p = false -> PAGE_SIZE <= p_size p < 2 ^ 32 -> 0 <= max -> (forall n, ok n = true) ->
  exists q, pool_resize ok p 0 max 0 = Some (0, q) /\ p_locked q = false /\ p_aligned_packet_size q = 0 /\
    p_ppackets q = p_buf_paddr p /\ p_buf_paddr q = p_buf_paddr p /\ p_size q = p_size p.
Proof.
  intros Hl Hsz Hmax Hok. unfold pool_resize, PAGE_SIZE in *. change (PAGE_ALIGN sizeof_pool_entry) with 4096.
  rewrite (u64_small (p_size p - 4096)), (proj2 (Z.ltb_ge _ _)) by lia. unfold spin_lock. rewrite Hl. cbn [mbind option_bind].
  change (Z.land (u64 (0 + (sizeof_int - 1))) (2 ^ 64 - sizeof_int)) with 0. change (u64 (sizeof_pool_entry + 0)) with 56.
  cbn [Z.eqb]. cbv zeta. change (p_size (set_locked true p)) with (p_size p).
  set (num := Z.min (p_size p `div` 56) max).
  assert (0 <= p_size p `div` 56 /\ p_size p `div` 56 * 56 <= p_size p) by mlia.
  assert (Hnum : 0 <= num /\ num * 56 <= p_size p) by (unfold num; lia). change sizeof_pool_entry with 56.
  rewrite (u64_small (num * 56)) by lia. rewrite Hok. cbn [negb]. rewrite Z.div_mul by lia.
  match goal with |- context [init_entries _ 0 ?P] => set (p0 := P) end.
  assert (He0 : entries p0 = replicate (Z.to_nat num) (PoolEntry 0 0 0 0 None)) by done.
  destruct (init_entries_spec (Z.to_nat num) 0 p0) as (q & -> & Hf & _); [done|unfold packets; by rewrite He0, length_replicate|].
  cbn [mbind option_bind]. unfold frame in Hf. cbn in Hf. injection Hf as Hs1 Hs2 Hs3 Hs4 Hs5 Hs6 Hs7 Hs8 Hs9.
  exists (spin_unlock q). by split_and!.
Qed.

(** No address inside the buffer of such a pool can be tested. *)
Lemma free_zero q a : p_locked q = false -> p_aligned_packet_size q = 0 -> p_ppackets q = p_buf_paddr q ->
  p_buf_paddr q <= a <= p_buf_paddr q + p_size q -> pool_freebuf q a = None.
Proof.
  intros Hl Hz Hp Ha. unfold pool_freebuf, spin_lock. rewrite Hl. cbn [mbind option_bind].
  unfold not_used_pbuf, is_valid_pbuf, pbuf2pentry. cbn [set_locked p_ppackets p_buf_paddr p_size p_aligned_packet_size].
  by rewrite Hp, Hz, !(proj2 (Z.ltb_ge _ _)) by lia.
Qed.

(** A packet size of 0 is accepted.  Outside header mode the [ioctl] that sets the
    receive size returns success for 0 and cuts the pool into packets of no size;
    the next [write] of offset 0 divides by that size. *)
Theorem zap_zero_size_faults `{ZapEnv} filp ubuf arg z h x w1 w2 :
  let i := zap_device_num filp in
  (forall n, kzalloc_ok n = true) -> user_memory_ok ubuf -> access_ok arg 8 = true -> 0 < zd_sem z -> 0 < zd_dma_sem z ->
  file_dir filp = RX -> dev_half z i RX = Some h -> dev_dma z i = Some x -> resizable (zh_pool h) ->
  zh_header_enable h = 0 -> 0 <= fp_rx_dat_fifo_size (zd_fpga z) -> 0 <= p_buf_paddr (zh_pool h) < 2 ^ 64 ->
  exists z', zap_ioctl filp ZAP_IOC_W_RX_MAX_SIZE arg 0 z = Some ((0, 0), z') /\
    zap_write filp ubuf sizeof_write_data 0 w1 w2 z' = None.
Proof.
  intros i Hmem Hu Hacc Hsem Hdsem Hd Hh Hx Hr He Hfifo Hb. change ZAP_IOC_W_RX_MAX_SIZE with (cmd_set_max_size RX).
  rewrite zap_ioctl_set by done. fold i. set (z0 := set_sem (zd_sem z - 1) z). unfold ioctl_set_max_size, try_err.
  destruct (dma_stop_run Hmem RX z0 i h x Hh Hx Hr Hdsem) as (z1 & q & x1 & E & Hh1 & Hq & _ & _ & _ & Hk).
  zrw E. cbn [Z.eqb negb]. zrw (get_half_run z1 i RX _ Hh1). unfold mbind at 1, M_bind at 1, gets at 1. cbv beta iota zeta.
  cbn [set_pool zh_header_enable]. rewrite He. assert (zd_fpga z1 = zd_fpga z) as -> by by injection Hk.
  cbn [Z.eqb negb fifo_size]. rewrite (proj2 (Z.ltb_ge _ 0)) by done. cbn [andb].
  zrw (upd_half_run z1 i RX (set_payload_max_size 0) _ Hh1). set (h2 := set_payload_max_size 0 (set_pool q h)).
  set (z2 := with_half i RX h2 z1). assert (Hh2 : dev_half z2 i RX = Some h2) by by apply (dev_half_same z1 i RX _ (set_pool q h)).
  destruct Hq as ([_ Hl] & Hs & Hbp & _). destruct Hr as (_ & Hps & Hsz & _).
  destruct (resize_zero kzalloc_ok q (max_packets RX)) as (q' & Hres & Hl' & Hz' & Hp' & Hb' & Hs');
    [done|rewrite Hs; unfold PAGE_SIZE in *; lia|done|done|].
  rewrite (on_pool_run z2 i RX (fun q => pool_resize kzalloc_ok q 0 (max_packets RX) 0) h2 0 q' Hh2 Hres).
  set (z3 := with_half i RX (set_pool q' h2) z2).
  assert (Hh3 : dev_half z3 i RX = Some (set_pool q' h2)) by by apply (dev_half_same z2 i RX _ h2).
  exists (set_sem (zd_sem z3 + 1) z3). split; [done|]. set (z4 := set_sem _ z3).
  change (dev_half z3 i RX) with (dev_half z4 i RX) in Hh3. unfold zap_write. fold i.
  change (sizeof_write_data =? sizeof_write_data) with true. rewrite (proj1 (Hu _)), (proj2 (Hu _)).
  rewrite (proj1 (file_dir_rx _) Hd). cbn [negb Z.eqb]. unfold mbind, M_bind. rewrite (get_half_run z4 i RX _ Hh3).
  cbn [set_pool zh_pool].
  rewrite (on_pool_fault z4 i RX (fun p => pool_freebuf p (u64 (pool_offset2pbuf q' 0))) _ Hh3); [done|].
  cbn [set_pool zh_pool]. unfold pool_offset2pbuf. rewrite Hp', Hbp, Z.add_0_r, u64_small by done.
  apply free_zero; [done|done|congruence|]. rewrite Hb', Hbp, Hs', Hs. unfold PAGE_SIZE in *. lia.
Qed.

(** ** A concrete system

    One interface, just started, whose FPGA returns its buffers oldest first, each
    with 600 bytes and 8 bytes out of band, and interrupts for whatever it has. *)
#[local] Opaque sample_pool.

Definition fifo_cause (v : fpga_view) : Z :=
  2 ^ 31 + (match fv_rx v with [] => 0 | _ => 2 ^ 17 + 2 end) + (2 ^ 18 + 4) + (match fv_tx v with [] => 0 | _ => 2 ^ 19 + 8 end).
Definition fifo_env : ZapEnv :=
  {| hw_read io reg :=
       let v := view 0 io in
       if reg =? ZAP_REG_ISR then fifo_cause v
       else if reg =? ZAP_REG_RBAR then default 0 (head (fv_rx v))
       else if reg =? ZAP_REG_TBAR then default 0 (head (fv_tx v))
       else 0x00020096;
     kzalloc_ok _ := true; access_ok _ _ := true; copy_ok _ _ := true; remap_ok _ _ _ := true |}.

Lemma fifo_irq v : irq_for 0 (fifo_cause v) /\ Z.testbit (fifo_cause v) 31 = true /\
  (rx_pending (fifo_cause v) <-> fv_rx v <> []) /\ (tx_free_pending (fifo_cause v) <-> fv_tx v <> []).
Proof.
  unfold fifo_cause, irq_for, rx_pending, tx_free_pending. destruct (fv_rx v), (fv_tx v); (split; [by vm_compute|]; split; [by vm_compute|]);
    split; (split; [intros [E1 E2]; by vm_compute in E1, E2|by vm_compute]).
Qed.

#[local] Instance fifo_live : @LiveFpga fifo_env 0 [].
Proof.
  split; [split|]; intros es; cbn [app hw_read fifo_env]; change (zap_reg 0 ZAP_REG_RBAR) with 12; change (zap_reg 0 ZAP_REG_TBAR) with 8;
    cbn [Z.eqb ZAP_REG_ISR ZAP_REG_RBAR ZAP_REG_TBAR Pos.eqb].
  - intros _ _. destruct (fifo_irq (view 0 es)) as (_ & _ & [H1 _] & [H2 _]). done.
  - destruct (fv_rx (view 0 es)) as [|a l]; [done|]. cbn. set_solver.
  - destruct (fv_tx (view 0 es)) as [|a l]; [done|]. cbn. set_solver.
  - intros Hne. destruct (fifo_irq (view 0 es)) as (H1 & H2 & [_ H3] & _).
    split; [exact H1|split; [exact H2|by apply H3]].
Qed.

Definition started_device : zap_dev := sample_device sample_pool sample_pool.
Lemma sample_started : just_started 0 started_device (sample_half sample_pool) (sample_half sample_pool).
Proof.
  split; [lia|done|done| | |by vm_compute|by exists (DmaIf 1 1 0 0 true)].
  all: split; [exact sample_pool_ok|by vm_compute].
Qed.

Definition run_step (f : zap_sys -> option zap_sys) (s : zap_sys) : zap_sys := default s (f s).
(** The worker posts a buffer, the FPGA fills it, a user program reads its
    descriptor and gives it back; then it sends a packet of its own. *)
Definition sample_history : list (zap_sys -> option zap_sys) :=
  [worker 0; @interrupt fifo_env; @user_read fifo_env rx_file 4096; @user_write fifo_env rx_file 4096 6000 0 0;
   @user_read fifo_env tx_file 4096; @user_write fifo_env tx_file 4096 6000 601 8; @interrupt fifo_env].
Definition sample_end : zap_sys := foldl (fun s f => run_step f s) (sys_start started_device) sample_history.

Lemma one_step `{ZapEnv} i s0 s f s1 : sys_steps i s0 s -> sys_step i s (f s) -> f s = Some s1 -> sys_steps i s0 (run_step f s).
Proof. intros Hs Hf E. unfold run_step. rewrite E in *. by eapply steps_more. Qed.

Lemma fifo_user n : @user_memory_ok fifo_env n.
Proof. by split. Qed.

Lemma sample_run : @sys_steps fifo_env 0 (sys_start started_device) sample_end.
Proof.
  unfold sample_end, sample_history. cbn [foldl].
  assert (Hrx : zap_device_num rx_file = 0) by done. assert (Htx : zap_device_num tx_file = 0) by done.
  assert (Hirq : forall s, hw_read (ZapEnv := fifo_env) (zd_io (ss_dev s)) ZAP_REG_ISR = fifo_cause (view 0 (zd_io (ss_dev s)))) by done.
  assert (Hint : forall s, @sys_step fifo_env 0 s (@interrupt fifo_env s)) by (intros s; apply step_interrupt; rewrite Hirq; apply fifo_irq).
  eapply one_step; [|apply Hint|vm_compute; reflexivity].
  eapply one_step; [|apply step_write; [done|by split|vm_compute; by left]|vm_compute; reflexivity].
  eapply one_step; [|by apply step_read|vm_compute; reflexivity].
  eapply one_step; [|apply step_write; [done|by split|vm_compute; by left]|vm_compute; reflexivity].
  eapply one_step; [|by apply step_read|vm_compute; reflexivity].
  eapply one_step; [|apply Hint|vm_compute; reflexivity].
  eapply one_step; [apply steps_refl|apply step_worker|vm_compute; reflexivity].
Qed.

(** In the last state the FPGA holds the packet sent. *)
Lemma zap_system_safe_witness :
  fv_tx (view_since 0 [] sample_end) = [65536 + 6000] /\
  (forall o, @sys_step fifo_env 0 sample_end o -> exists s', o = Some s').
Proof.
  split; [vm_compute; reflexivity|].
  exact (proj1 (@zap_system_safe fifo_env 0 started_device _ _ sample_end _ sample_started sample_run)).
Defined.

Lemma zap_streams_exact_witness :
  ss_got sample_end = [[6000; 600; 8; 0]] /\
  exists qr qt, dev_half (ss_dev sample_end) 0 RX = Some (set_pool qr (sample_half sample_pool)) /\
    [(65536 + 6000, 600, 8, 0)] ++ queued qr = [(65536 + 6000, 600, 8, 0)] /\
    [(65536 + 6000, 0x00020096)] = [(65536 + 6000, 0x00020096)] ++ (packet_words (sample_half sample_pool) <$> queued qt).
Proof.
  split; [vm_compute; reflexivity|].
  destruct (@zap_streams_exact fifo_env 0 started_device _ _ sample_end _ sample_started sample_run) as (qr & qt & E1 & E2 & E3 & E4).
  exists qr, qt. split; [exact E1|]. split.
  - refine (eq_trans _ (eq_trans E3 _)); [f_equal|]; vm_compute; reflexivity.
  - refine (eq_trans _ (eq_trans E4 _)); [|f_equal]; vm_compute; reflexivity.
Defined.

Lemma zap_keeps_flowing_witness :
  exists s', @sys_steps fifo_env 0 sample_end s' /\ (1 < length (ss_got s'))%nat.
Proof.
  exact (@zap_keeps_flowing fifo_env 0 started_device _ _ sample_end 4096 _ sample_started (fifo_user 4096)
    ltac:(vm_compute; lia) sample_run).
Defined.

(** The packet at 6000 is used; the FPGA reports it. *)
Lemma zap_user_can_crash_witness :
  exists z', @zap_write (sample_env sample_rx_icr (65536 + 6000) 0x00020096) rx_file 4096 24 6000 0 0
      (sample_device taken_pool taken_pool) = Some (24, z') /\
    @dma_isr (sample_env sample_rx_icr (65536 + 6000) 0x00020096) z' = None.
Proof.
  exact (@zap_user_can_crash (sample_env sample_rx_icr (65536 + 6000) 0x00020096) rx_file 4096
    (sample_device taken_pool taken_pool) (sample_half taken_pool) (DmaIf 1 1 0 0 true) 6 0x00020096 sample_rx_icr 0 0
    ltac:(by split) eq_refl eq_refl eq_refl taken_bus ltac:(vm_compute; by left) eq_refl
    ltac:(vm_compute; split_and!; congruence) ltac:(split; vm_compute; reflexivity)).
Defined.

(** The sample interface without header mode. *)
Definition headerless : zap_dev :=
  set_ifs [ZapIf (set_header 0 0 (sample_half sample_pool)) (sample_half sample_pool) 0] started_device.

Lemma zap_zero_size_faults_witness :
  exists z', @zap_ioctl fifo_env rx_file ZAP_IOC_W_RX_MAX_SIZE 4096 0 headerless = Some ((0, 0), z') /\
    @zap_write fifo_env rx_file 4096 24 0 0 0 z' = None.
Proof.
  exact (@zap_zero_size_faults fifo_env rx_file 4096 4096 headerless (set_header 0 0 (sample_half sample_pool))
    (DmaIf 1 1 0 0 true) 0 0 ltac:(done) ltac:(by split) eq_refl eq_refl eq_refl eq_refl eq_refl eq_refl sample_resizable
    eq_refl ltac:(done) ltac:(by vm_compute)).
Defined.
