(* ===== verification/ZapInterleave.v ===== *)
(** * The ZAP driver with interleaved steps

    The system of [ZapSystem] with the worker and the interrupt handler cut into steps
    that anything else may come between: the worker first takes a buffer and later
    hands it to the FPGA; the handler reads the cause, then serves receiving,
    sending and freed buffers one after the other, and for sending it first looks at
    the queue and later takes the packet or masks the interrupt. *)
From S2P Require Import Prelude Pool PoolSpec PoolProps ZapDev Dma Zap ZapSpec DmaProps ZapProps ZapSystem.

(** Where the handler is, with the cause it has read. *)
Inductive handler :=
  | Idle
  | BeforeRx (icr : Z)
  | BeforeTxFull (icr : Z)
  | BeforeFeed (icr : Z)   (* the queue was not empty *)
  | BeforeCheck (icr : Z)  (* a packet has been handed to the FPGA *)
  | BeforeMask (icr : Z)   (* the queue was empty *)
  | BeforeTxFree (icr : Z).

(** The system, the handler, and the buffer in the worker's hand. *)
Record zap_conc := Conc { zc_sys : zap_sys; zc_handler : handler; zc_hand : option Z }.

Section steps.
Context `{ZapEnv}.

(** A part of the driver runs on the device. *)
Definition run_part {A} (m : ZM A) (next : A -> handler) (c : zap_conc) : option zap_conc :=
  '(x, z) ← m (ss_dev (zc_sys c)); Some (Conc (set_dev z (zc_sys c)) (next x) (zc_hand c)).

(** The handler: [dma_isr] up to its first test, and its parts, with the one for
    sending, [dma_isr_tx_full], cut in four. *)
Definition handler_enter : zap_conc -> option zap_conc :=
  run_part (ZAP_REG_READ 0 ZAP_REG_ISR) (fun icr => if negb (bit_set icr ICR_INT_PEND) then Idle else BeforeRx icr).
Definition icr_device (icr : Z) : Z := Z.land (Z.shiftr icr 8) 0xff.
Definition handler_rx (icr : Z) : zap_conc -> option zap_conc :=
  run_part (if bit_set icr ICR_INT_RXRDY && bit_set icr ICR_MSK_RXRDY then dma_isr_rx (icr_device icr) else mret tt)
    (fun _ => BeforeTxFull icr).
Definition handler_tx_full (icr : Z) : zap_conc -> option zap_conc :=
  run_part (if bit_set icr ICR_INT_TX_FULL_RDY && bit_set icr ICR_MSK_TX_FULL_RDY
            then e ← tx_queue_empty (icr_device icr); mret (Some e) else mret None)
    (fun r => match r with Some true => BeforeMask icr | Some false => BeforeFeed icr | None => BeforeTxFree icr end).
Definition handler_feed (icr : Z) : zap_conc -> option zap_conc :=
  run_part (tx_feed (icr_device icr)) (fun r => match r with IRQ_FAIL => Idle | IRQ_HANDLED => BeforeCheck icr end).
Definition handler_check (icr : Z) : zap_conc -> option zap_conc :=
  run_part (tx_queue_empty (icr_device icr)) (fun e : bool => if e then BeforeMask icr else BeforeTxFree icr).
Definition handler_mask (icr : Z) : zap_conc -> option zap_conc :=
  run_part (tx_mask (icr_device icr)) (fun _ => BeforeTxFree icr).
Definition handler_tx_free (icr : Z) : zap_conc -> option zap_conc :=
  run_part (if bit_set icr ICR_INT_TX_FREE_RDY && bit_set icr ICR_MSK_TX_FREE_RDY
            then dma_isr_tx_free (icr_device icr) else mret tt)
    (fun _ => Idle).

(** The rest of the handler from where it is. *)
Definition handler_step (c : zap_conc) : option zap_conc :=
  match zc_handler c with
  | Idle => handler_enter c
  | BeforeRx icr => handler_rx icr c
  | BeforeTxFull icr => handler_tx_full icr c
  | BeforeFeed icr => handler_feed icr c
  | BeforeCheck icr => handler_check icr c
  | BeforeMask icr => handler_mask icr c
  | BeforeTxFree icr => handler_tx_free icr c
  end.
Fixpoint handler_finish (n : nat) (c : zap_conc) : option zap_conc :=
  match n with
  | O => Some c
  | S n => match zc_handler c with Idle => Some c | _ => c ← handler_step c; handler_finish n c end
  end.

(** The worker: it takes a free buffer, when receiving is on and there is one, and
    posts it ([dma_ll_put_rx] does not use the length). *)
Definition worker_take (i : Z) (c : zap_conc) : option zap_conc :=
  let s := zc_sys c in
  '(got, z) ← (di ← get_dma i;
               if di_rx_on di =? 0 then mret None
               else r ← on_pool i RX (pool_getbuf_timeout []);
                    mret match r with Returned (inr (pbuf, _)) => Some pbuf | _ => None end) (ss_dev s);
  Some (Conc (set_dev z s) (zc_handler c) got).
Definition worker_post (i pbuf : Z) (c : zap_conc) : option zap_conc :=
  let s := zc_sys c in
  '(_, z) ← dma_ll_put_rx i pbuf 0 (ss_dev s); Some (Conc (set_dev z s) (zc_handler c) None).

(** A system call while the handler and the worker are where they are. *)
Definition lift_sys (c : zap_conc) (o : option zap_sys) : option zap_conc :=
  s ← o; Some (Conc s (zc_handler c) (zc_hand c)).

Inductive conc_step (i : Z) (c : zap_conc) : option zap_conc -> Prop :=
  | conc_read filp ubuf : zap_device_num filp = i -> user_memory_ok ubuf ->
      conc_step i c (lift_sys c (user_read filp ubuf (zc_sys c)))
  | conc_write filp ubuf off len oob : zap_device_num filp = i -> user_memory_ok ubuf -> off ∈ held (file_dir filp) (zc_sys c) ->
      conc_step i c (lift_sys c (user_write filp ubuf off len oob (zc_sys c)))
  | conc_take : zc_hand c = None -> conc_step i c (worker_take i c)
  | conc_post pbuf : zc_hand c = Some pbuf -> conc_step i c (worker_post i pbuf c)
  | conc_handler : (zc_handler c = Idle -> irq_for i (hw_read (zd_io (ss_dev (zc_sys c))) ZAP_REG_ISR)) ->
      conc_step i c (handler_step c)
  | conc_elsewhere z : elsewhere i (ss_dev (zc_sys c)) z ->
      conc_step i c (Some (Conc (set_dev z (zc_sys c)) (zc_handler c) (zc_hand c))).

Inductive conc_steps (i : Z) : zap_conc -> zap_conc -> Prop :=
  | conc_refl c : conc_steps i c c
  | conc_more c c1 c2 : conc_steps i c c1 -> conc_step i c1 (Some c2) -> conc_steps i c c2.

Definition conc_start (z : zap_dev) : zap_conc := Conc (sys_start z) Idle None.
End steps.
