(* ===== verification/ZapInterleaveProps.v ===== *)
(** * The ZAP driver with interleaved steps: properties

    The steps make up the functions of the driver; and over every interleaving of them
    with user programs and the FPGA nothing faults, every packet is in one place, both
    streams of packets arrive complete and in order, and packets keep coming. *)
From S2P Require Import Prelude Pool PoolSpec PoolProps ZapDev Dma Zap ZapSpec DmaProps ZapProps ZapSystem ZapSystemInv ZapSystemProps ZapInterleave.

(** ** The steps make up the driver *)

Section steps.
Context `{ZapEnv}.

Lemma run_part_eq {A} (m : ZM A) next c x z : m (ss_dev (zc_sys c)) = Some (x, z) ->
  run_part m next c = Some (Conc (set_dev z (zc_sys c)) (next x) (zc_hand c)).
Proof. intros E. unfold run_part. by rewrite E. Qed.

Lemma zbind_unfold {A B} (m : ZM A) (f : A -> ZM B) z : (m ≫= f) z = match m z with Some (a, z') => f a z' | None => None end.
Proof. done. Qed.

(** The rest of the handler, part by part. *)
Lemma finish_part {A} n (m : ZM A) next s hd hand :
  zc_handler (Conc s hd hand) <> Idle -> handler_step (Conc s hd hand) = run_part m next (Conc s hd hand) ->
  handler_finish (S n) (Conc s hd hand) =
    match m (ss_dev s) with Some (x, z) => handler_finish n (Conc (set_dev z s) (next x) hand) | None => None end.
Proof.
  cbn [handler_finish]. intros Hne ->. unfold run_part. cbn [zc_sys zc_hand] in *.
  destruct hd; [by destruct Hne|..]; by destruct (m (ss_dev s)) as [[x z]|].
Qed.

Lemma finish_idle n s hand : handler_finish n (Conc s Idle hand) = Some (Conc s Idle hand).
Proof. by destruct n. Qed.

Definition idle_after (s : zap_sys) (hand : option Z) (o : option (irq_return * zap_dev)) : option zap_conc :=
  match o with Some (_, z) => Some (Conc (set_dev z s) Idle hand) | None => None end.

Lemma finish_tx_free n s icr hand : handler_finish (S n) (Conc s (BeforeTxFree icr) hand) =
  idle_after s hand ((_ ← (if bit_set icr ICR_INT_TX_FREE_RDY && bit_set icr ICR_MSK_TX_FREE_RDY
                           then dma_isr_tx_free (icr_device icr) else mret tt); mret IRQ_HANDLED) (ss_dev s)).
Proof.
  erewrite finish_part by done. rewrite zbind_unfold.
  destruct (bit_set icr ICR_INT_TX_FREE_RDY && bit_set icr ICR_MSK_TX_FREE_RDY).
  - destruct (dma_isr_tx_free (icr_device icr) (ss_dev s)) as [[u z]|]; [|done]. cbv beta. by rewrite finish_idle.
  - cbn [mret M_ret]. by rewrite finish_idle.
Qed.

Lemma finish_mask n s icr hand : handler_finish (S (S n)) (Conc s (BeforeMask icr) hand) =
  handler_finish (S n) (Conc (set_dev (logged [tx_masked (icr_device icr)] (ss_dev s)) s) (BeforeTxFree icr) hand).
Proof. by erewrite finish_part by done. Qed.

Lemma tx_mask_eq i z : tx_mask i z = Some (tt, logged [tx_masked i] z).
Proof. done. Qed.

(** Sending, in its four parts. *)
Lemma finish_tx_full n s icr hand : handler_finish (S (S (S (S (S n))))) (Conc s (BeforeTxFull icr) hand) =
  match (if bit_set icr ICR_INT_TX_FULL_RDY && bit_set icr ICR_MSK_TX_FULL_RDY
         then dma_isr_tx_full (icr_device icr) else mret IRQ_HANDLED) (ss_dev s) with
  | Some (IRQ_HANDLED, z) => handler_finish 1 (Conc (set_dev z s) (BeforeTxFree icr) hand)
  | Some (IRQ_FAIL, z) => Some (Conc (set_dev z s) Idle hand)
  | None => None
  end.
Proof.
  erewrite finish_part by done. destruct (bit_set icr ICR_INT_TX_FULL_RDY && bit_set icr ICR_MSK_TX_FULL_RDY).
  2: { cbn [mret M_ret]. by rewrite !finish_tx_free. }
  unfold dma_isr_tx_full. rewrite !zbind_unfold. destruct (tx_queue_empty (icr_device icr) (ss_dev s)) as [[[|] z1]|]; [|..|done].
  { cbn [mret M_ret]. rewrite finish_mask, zbind_unfold, tx_mask_eq. cbn [mret M_ret]. by rewrite !finish_tx_free. }
  cbn [mret M_ret]. erewrite finish_part by done. rewrite zbind_unfold. cbn [set_dev ss_dev].
  destruct (tx_feed (icr_device icr) z1) as [[[|] z2]|]; [|by rewrite finish_idle|done].
  erewrite finish_part by done. rewrite zbind_unfold. cbn [set_dev ss_dev].
  destruct (tx_queue_empty (icr_device icr) z2) as [[[|] z3]|]; [| |done].
  - rewrite finish_mask, zbind_unfold, tx_mask_eq. cbn [mret M_ret]. by rewrite !finish_tx_free.
  - rewrite zbind_unfold. cbn [mret M_ret]. by rewrite !finish_tx_free.
Qed.

(** The handler, run without anything in between, is [dma_isr]. *)
Theorem handler_is_isr c : zc_handler c = Idle ->
  (c1 ← handler_step c; handler_finish 6 c1) = (fun s => Conc s Idle (zc_hand c)) <$> interrupt (zc_sys c).
Proof.
  destruct c as [s hd hand]. cbn [zc_handler]. intros ->.
  unfold handler_step, interrupt, dma_isr, handler_enter. cbn [zc_handler zc_sys zc_hand]. rewrite zbind_unfold.
  unfold run_part. cbn [zc_sys zc_hand].
  destruct (ZAP_REG_READ 0 ZAP_REG_ISR (ss_dev s)) as [[icr z0]|]; [|done]. cbn [mbind option_bind]. cbv zeta. fold (icr_device icr).
  destruct (negb (bit_set icr ICR_INT_PEND)); [done|].
  erewrite finish_part by done. rewrite zbind_unfold. cbn [set_dev ss_dev].
  destruct ((if bit_set icr ICR_INT_RXRDY && bit_set icr ICR_MSK_RXRDY then dma_isr_rx (icr_device icr) else mret tt) z0) as [[u z1]|]; [|done].
  rewrite finish_tx_full, zbind_unfold. cbn [set_dev ss_dev].
  destruct ((if bit_set icr ICR_INT_TX_FULL_RDY && bit_set icr ICR_MSK_TX_FULL_RDY then dma_isr_tx_full (icr_device icr) else mret IRQ_HANDLED) z1)
    as [[[] z2]|]; [|done..].
  rewrite finish_tx_free. cbn [set_dev ss_dev].
  by destruct ((_ ← (if bit_set icr ICR_INT_TX_FREE_RDY && bit_set icr ICR_MSK_TX_FREE_RDY then dma_isr_tx_free (icr_device icr) else mret tt);
               mret IRQ_HANDLED) z2) as [[? ?]|].
Qed.

(** Taking and posting a buffer is one iteration of [dma_rx_task]. *)
Theorem take_post_is_worker i c : zc_hand c = None ->
  (c1 ← worker_take i c; match zc_hand c1 with Some a => worker_post i a c1 | None => Some c1 end) =
    (fun s => Conc s (zc_handler c) None) <$> worker i (zc_sys c).
Proof.
  destruct c as [[d rh th g st] hd hand]. cbn [zc_hand]. intros ->. unfold worker_take, worker. cbn [zc_sys ss_dev zc_handler dma_rx_task].
  rewrite !zbind_unfold. destruct (get_dma i d) as [[di z0]|]; [|done]. destruct (di_rx_on di =? 0); [done|].
  cbn [head default from_option id rc_waits rc_off tail]. rewrite !zbind_unfold.
  assert (Hne : forall z e z', on_pool i RX (pool_getbuf_timeout []) z <> Some (Returned (inl e), z')).
  { intros z e z'. unfold on_pool. rewrite zbind_unfold. destruct (get_half i RX z) as [[h z1]|]; [|done]. rewrite zbind_unfold. unfold lift.
    rewrite getbuf_timeout_now. destruct (pool_getbuf_try (zh_pool h)) as [[[r|] q]|]; [| |done];
      rewrite zbind_unfold; by destruct (upd_half i RX (set_pool q) z1) as [[? ?]|]. }
  destruct (on_pool i RX (pool_getbuf_timeout []) z0) as [[[[e|[a len]]|] z1]|] eqn:E; [by destruct (Hne _ _ _ E)| |done|done].
  cbn [mbind option_bind mret M_ret zc_hand]. unfold worker_post. cbn [zc_sys set_dev ss_dev zc_handler].
  unfold dma_ll_put_rx. change (rc_off (RxCall [] false)) with false. rewrite !zbind_unfold. unfold mret at 1, M_ret at 1. cbv beta iota.
  rewrite ?zbind_unfold. by destruct (ZAP_REG_WRITE i ZAP_REG_RBAR (u32 a) z1) as [[? ?]|].
Qed.
End steps.

(** ** The invariant *)

(** The worker's hand counts as one more holder. *)
Definition hand_list (h : zap_half) (hand : option Z) : list Z :=
  match hand with Some a => [a - p_ppackets (zh_pool h)] | None => [] end.
Definition add_hand (l : list Z) (s : zap_sys) : zap_sys := Sys (ss_dev s) (ss_rx_held s ++ l) (ss_tx_held s) (ss_got s) (ss_sent s).

Section lift.
Context `{ZapEnv}.

Lemma user_read_hand filp ubuf l s : user_read filp ubuf (add_hand l s) = add_hand l <$> user_read filp ubuf s.
Proof.
  destruct s as [z rh th g st]. unfold user_read, add_hand. cbn [ss_dev].
  destruct (zap_read filp ubuf sizeof_read_data [] z) as [[[[n desc]|] z']|]; [|done..]. cbn [mbind option_bind fmap option_fmap option_map].
  destruct (n =? sizeof_read_data); [|done]. by destruct (file_dir filp).
Qed.

Lemma user_write_hand filp ubuf off len oob l s : (file_dir filp = RX -> off ∉ l) ->
  user_write filp ubuf off len oob (add_hand l s) = add_hand l <$> user_write filp ubuf off len oob s.
Proof.
  intros Hl. destruct s as [z rh th g st]. unfold user_write, add_hand. cbn [ss_dev].
  destruct (zap_write filp ubuf sizeof_write_data off len oob z) as [[r z']|]; [|done]. cbn [mbind option_bind fmap option_fmap option_map].
  destruct (r =? sizeof_write_data); [|done]. destruct (file_dir filp); [|done]. unfold gave. cbn.
  unfold drop_addr. rewrite filter_app. do 3 f_equal. specialize (Hl eq_refl). clear -Hl. induction l as [|b l IH]; [done|].
  rewrite not_elem_of_cons in Hl. rewrite filter_cons_True by (intros ->; tauto). by rewrite IH by tauto.
Qed.
End lift.

Section invariant.
Context `{HZ : ZapEnv} (i : Z) (io0 : list io_event) (hr ht : zap_half).
Context (Hi : 0 <= i < 256) (Hr : bus_reachable hr) (Ht : bus_reachable ht).

Let inv := sys_inv_at i io0 hr ht.

(** What the handler has still to do is possible. *)
Definition handler_ok (hd : handler) (v : fpga_view) (qt : pool) : Prop :=
  match hd with
  | Idle => True
  | BeforeRx icr => icr_device icr = i /\ (tx_free_pending icr -> fv_tx v <> []) /\ (rx_pending icr -> fv_rx v <> [])
  | BeforeFeed icr => icr_device icr = i /\ (tx_free_pending icr -> fv_tx v <> []) /\ a_fifo (abs qt) <> []
  | BeforeTxFull icr | BeforeCheck icr | BeforeMask icr | BeforeTxFree icr =>
    icr_device icr = i /\ (tx_free_pending icr -> fv_tx v <> [])
  end.

Record conc_inv_at (c : zap_conc) (es : list io_event) (x : dma_if_interface) (qr qt : pool) : Prop := ConcInvAt {
  ci_sys : inv (add_hand (hand_list hr (zc_hand c)) (zc_sys c)) es x qr qt;
  ci_hand : match zc_hand c with Some a => exists k, a = buf (zh_pool hr) k | None => True end;
  ci_handler : handler_ok (zc_handler c) (view i es) qt
}.
Definition conc_inv (c : zap_conc) : Prop := exists es x qr qt, conc_inv_at c es x qr qt.

Lemma add_hand_same l s : set_dev (ss_dev s) (add_hand l s) = add_hand l s.
Proof using. done. Qed.
Lemma add_hand_nil s : add_hand [] s = s.
Proof using. destruct s. unfold add_hand. cbn. by rewrite app_nil_r. Qed.

(** System calls and what happens elsewhere leave what the FPGA has seen, and do not
    empty the queue for sending. *)
Lemma keep_view c es x qr qt s' es' x' qr' qt' : conc_inv_at c es x qr qt ->
  inv (add_hand (hand_list hr (zc_hand c)) s') es' x' qr' qt' -> view i es' = view i es ->
  (a_fifo (abs qt) <> [] -> a_fifo (abs qt') <> []) -> conc_inv (Conc s' (zc_handler c) (zc_hand c)).
Proof using Hi.
  intros [_ Hh Hd] Hinv Hv Hq. exists es', x', qr', qt'. split; [done|done|]. cbn [zc_handler]. rewrite Hv.
  destruct (zc_handler c); cbn [handler_ok] in *; tauto.
Qed.

Lemma conc_inv_read filp ubuf c : zap_device_num filp = i -> user_memory_ok ubuf -> conc_inv c ->
  exists c', lift_sys c (user_read filp ubuf (zc_sys c)) = Some c' /\ conc_inv c'.
Proof using Hi Hr Ht.
  intros Hn Hu (es & x & qr & qt & Hc).
  destruct (inv_read i io0 hr ht Hi Hr Ht filp ubuf _ es x qr qt Hn Hu (ci_sys _ _ _ _ _ Hc)) as (s1 & qr' & qt' & E & H1 & _ & Hq).
  rewrite user_read_hand in E. apply fmap_Some in E as (s' & E & ->). exists (Conc s' (zc_handler c) (zc_hand c)).
  split; [by rewrite E|]. by eapply keep_view.
Qed.

(** What is in the worker's hand no user program holds. *)
Lemma hand_not_held c es x qr qt off : conc_inv_at c es x qr qt -> off ∈ ss_rx_held (zc_sys c) -> off ∉ hand_list hr (zc_hand c).
Proof using Hr.
  intros [[_ _ _ Hrx _ _ _] _ _] Hoff.
  pose proof (owned_nodup hr Hr _ _ _ (hi_nodup _ _ _ _ _ _ _ Hrx) (hi_owned _ _ _ _ _ _ _ Hrx)) as Hnd.
  cbn [add_hand ss_rx_held] in Hnd. apply NoDup_app in Hnd as (_ & Hnd & _). by apply Hnd.
Qed.

Lemma conc_inv_write filp ubuf off len oob c : zap_device_num filp = i -> user_memory_ok ubuf ->
  off ∈ held (file_dir filp) (zc_sys c) -> conc_inv c ->
  exists c', lift_sys c (user_write filp ubuf off len oob (zc_sys c)) = Some c' /\ conc_inv c'.
Proof using Hi Hr Ht.
  intros Hn Hu Hoff (es & x & qr & qt & Hc). set (l := hand_list hr (zc_hand c)).
  assert (Hw : exists s1 es' qr' qt', user_write filp ubuf off len oob (add_hand l (zc_sys c)) = Some s1 /\
    inv s1 es' x qr' qt' /\ view i es' = view i es /\ (a_fifo (abs qt) <> [] -> a_fifo (abs qt') <> [])).
  { destruct (file_dir filp) eqn:Hd.
    - destruct (inv_write_rx i io0 hr ht Hi Hr Ht filp ubuf off len oob (add_hand l (zc_sys c)) es x qr qt Hn Hu Hd) as (s1 & qr' & E & H1 & _);
        [cbn in Hoff |- *; set_solver|exact (ci_sys _ _ _ _ _ Hc)|]. by exists s1, es, qr', qt.
    - destruct (inv_write_tx i io0 hr ht Hi Hr Ht filp ubuf off len oob (add_hand l (zc_sys c)) es x qr qt Hn Hu Hd Hoff (ci_sys _ _ _ _ _ Hc))
        as (s1 & es' & qt' & E & H1 & Hv & _ & Hq). by exists s1, es', qr, qt'. }
  destruct Hw as (s1 & es' & qr' & qt' & E & H1 & Hv & Hq).
  rewrite user_write_hand in E by (intros Hd; rewrite Hd in Hoff; by eapply hand_not_held).
  apply fmap_Some in E as (s' & E & ->). exists (Conc s' (zc_handler c) (zc_hand c)). split; [by rewrite E|]. by eapply keep_view.
Qed.

Lemma conc_inv_elsewhere z c : elsewhere i (ss_dev (zc_sys c)) z -> conc_inv c ->
  conc_inv (Conc (set_dev z (zc_sys c)) (zc_handler c) (zc_hand c)).
Proof using Hi.
  intros Hz (es & x & qr & qt & Hc).
  destruct (inv_elsewhere i io0 hr ht _ es x qr qt z (ci_sys _ _ _ _ _ Hc) Hz) as (es' & H1 & Hv). by eapply keep_view.
Qed.

(** The worker takes a buffer: it was free. *)
Lemma conc_inv_take c : zc_hand c = None -> conc_inv c -> exists c', worker_take i c = Some c' /\ conc_inv c'.
Proof using Hi.
  destruct c as [s hd hand]. cbn [zc_hand]. intros -> (es & x & qr & qt & [Hinv _ Hd]). cbn [zc_sys zc_handler zc_hand hand_list] in *.
  rewrite add_hand_nil in Hinv. pose proof Hinv as [Hio Hx Hon Hrx Htx Hgot Hsent].
  destruct (getbuf_try_spec qr (hi_pool _ _ _ _ _ _ _ Hrx)) as (o & q & Hg & Hq & Hres & Hf).
  pose proof (getbuf_timeout_now qr) as Hg'. rewrite Hg in Hg'.
  unfold worker_take. cbn [zc_sys zc_handler]. rewrite (zbind_eq _ _ _ _ _ (get_dma_run _ _ _ Hx)), (proj2 (Z.eqb_neq _ _) Hon).
  pose proof (hi_half _ _ _ _ _ _ _ Hrx) as Hh.
  unfold get_result, a_get in Hres. cbn [abs a_free] in Hres. destruct (p_freelist qr) as [|k free].
  - destruct Hres as [-> ->]. rewrite (zbind_eq _ _ _ _ _ (on_pool_run _ i RX (pool_getbuf_timeout []) _ _ _ Hh Hg')).
    cbn [mbind option_bind mret M_ret]. change (set_pool qr (set_pool qr hr)) with (set_pool qr hr).
    rewrite with_half_id by apply (hi_half _ _ _ _ _ _ _ Hrx). rewrite set_dev_same. eexists. split; [done|].
    exists es, x, qr, qt. split; cbn [zc_sys zc_handler zc_hand hand_list]; [by rewrite add_hand_nil|done|done].
  - destruct Hres as [-> Ha]. rewrite (zbind_eq _ _ _ _ _ (on_pool_run _ i RX (pool_getbuf_timeout []) _ _ _ Hh Hg')).
    cbn [mbind option_bind mret M_ret]. eexists. split; [done|].
    pose proof (hi_buf _ _ _ _ _ _ _ Hrx k) as Hbuf.
    exists es, x, q, qt. split; cbn [zc_sys zc_handler zc_hand hand_list]; [|by exists k|done].
    eapply (inv_rx i io0 hr ht s); [exact Hinv|..]; cbn [add_hand set_dev ss_dev ss_rx_held ss_tx_held ss_got ss_sent];
      [by eapply dev_half_same, hi_half|by apply with_half_kept|done|by apply geom_frame; left|done|done|done..| |].
    + assert (p_usedlist q = k :: p_usedlist qr) as -> by exact (f_equal a_used Ha). rewrite Hbuf.
      assert (buf (zh_pool hr) k - p_ppackets (zh_pool hr) = offset_of hr k) as -> by (unfold buf, offset_of; lia). apply owned_take.
    + rewrite (queued_of hr qr) by apply (hi_geom _ _ _ _ _ _ _ Hrx). by rewrite Ha.
Qed.

(** It posts the buffer, which the FPGA then holds. *)
Lemma conc_inv_post a c : zc_hand c = Some a -> conc_inv c ->
  exists c', worker_post i a c = Some c' /\ conc_inv c' /\ zc_hand c' = None /\ zc_handler c' = zc_handler c /\
    ss_got (zc_sys c') = ss_got (zc_sys c).
Proof using Hi Hr Ht.
  destruct c as [s hd hand]. cbn [zc_hand]. intros -> (es & x & qr & qt & [Hinv [k Hk] Hd]). cbn [zc_sys zc_handler zc_hand hand_list] in *.
  subst a. pose proof Hinv as [Hio Hx Hon Hrx Htx Hgot Hsent].
  assert (Ho : buf (zh_pool hr) k - p_ppackets (zh_pool hr) = offset_of hr k) by (unfold buf, offset_of; lia). rewrite Ho in *.
  set (a := buf (zh_pool hr) k). assert (Ha : u32 a = a).
  { assert (Hku : k ∈ p_usedlist qr).
    { destruct (owned_give hr Hr _ _ _ (offset_of hr k) (hi_nodup _ _ _ _ _ _ _ Hrx) (hi_owned _ _ _ _ _ _ _ Hrx)) as (j & Hj & Hin & _);
        [cbn; set_solver|]. by apply (offset_inj hr Hr) in Hj as ->. }
    destruct (bus_buf _ k (hi_bus _ _ _ Hr _ _ _ _ Hrx) (hi_used _ _ _ _ _ _ _ Hrx k Hku)) as (Hb & _).
    cbn [set_pool zh_pool] in Hb. rewrite (hi_buf _ _ _ _ _ _ _ Hrx) in Hb. by apply Z.mod_small. }
  set (e := IoWrite (zap_reg i ZAP_REG_RBAR) a).
  assert (E : worker_post i a (Conc s hd (Some a)) = Some (Conc (set_dev (logged [e] (ss_dev s)) s) hd None)).
  { unfold worker_post, dma_ll_put_rx. cbn [zc_sys zc_handler]. rewrite reg_write_run. unfold e. by rewrite !Ha. }
  rewrite E. eexists. split; [done|]. split; [|done]. assert (Hv : view i (es ++ [e]) =
    FpgaView (fv_rx (view i es) ++ [a]) (fv_tx (view i es)) (fv_done (view i es)) (fv_sent (view i es)) (fv_rx_addr (view i es))
      (fv_tx_addr (view i es))) by (rewrite view_app; apply observe_posted).
  exists (es ++ [e]), x, qr, qt. split; cbn [zc_sys zc_handler zc_hand hand_list]; [|done|].
  - eapply (inv_rx i io0 hr ht); [exact Hinv|..]; cbn [add_hand set_dev ss_dev ss_rx_held ss_tx_held ss_got ss_sent]; rewrite ?Hv;
      cbn [fv_rx fv_tx fv_done fv_sent]; [exact (hi_half _ _ _ _ _ _ _ Hrx)|done|apply (hi_pool _ _ _ _ _ _ _ Hrx)|done| |exact Hx|done..| |].
    + rewrite logged_io. cbn [add_hand ss_dev] in Hio. rewrite Hio. by rewrite <- (assoc_L (++)).
    + rewrite app_nil_r. by apply owned_pass.
    + by rewrite (queued_of hr qr) by apply (hi_geom _ _ _ _ _ _ _ Hrx).
  - rewrite Hv. destruct hd; cbn [handler_ok fv_rx fv_tx] in *; [done| |done..]. split_and!; [apply Hd|apply Hd|].
    intros _ Hnil. by apply app_eq_nil in Hnil as [_ ?].
Qed.

(** *** The handler *)

Context {HF : HonestFpga i io0}.

(** A part of the handler keeps the invariant when its body does. *)
Lemma conc_part {A} (m : ZM A) next c z' a : conc_inv c -> m (ss_dev (zc_sys c)) = Some (a, z') ->
  (exists es' x' qr' qt', inv (set_dev z' (add_hand (hand_list hr (zc_hand c)) (zc_sys c))) es' x' qr' qt' /\ handler_ok (next a) (view i es') qt') ->
  exists c', run_part m next c = Some c' /\ conc_inv c' /\ zc_hand c' = zc_hand c /\ ss_got (zc_sys c') = ss_got (zc_sys c).
Proof using.
  intros (es & x & qr & qt & Hc) E (es' & x' & qr' & qt' & Hinv & Hh). rewrite (run_part_eq _ _ _ _ _ E). eexists. split; [done|].
  split; [|done]. exists es', x', qr', qt'. split; [done|exact (ci_hand _ _ _ _ _ Hc)|done].
Qed.

Lemma conc_enter c : irq_for i (hw_read (zd_io (ss_dev (zc_sys c))) ZAP_REG_ISR) -> conc_inv c ->
  exists c', handler_enter c = Some c' /\ conc_inv c' /\ zc_hand c' = zc_hand c /\ ss_got (zc_sys c') = ss_got (zc_sys c).
Proof using Hi HF.
  intros Hirq Hc. pose proof Hc as (es & x & qr & qt & Hat). set (s := add_hand (hand_list hr (zc_hand c)) (zc_sys c)).
  pose proof (hf_cause es) as Hcause. rewrite <- (si_io _ _ _ _ _ _ _ _ _ (ci_sys _ _ _ _ _ Hat)) in Hcause.
  cbn [add_hand ss_dev] in Hcause. set (icr := hw_read _ _) in *. cbv zeta in Hcause. specialize (Hcause Hirq). destruct Hirq as [Hb Hn].
  destruct (inv_elsewhere i io0 hr ht s es x qr qt (logged [IoRead ZAP_REG_ISR icr] (ss_dev (zc_sys c))) (ci_sys _ _ _ _ _ Hat))
    as (es' & Hinv & Hv).
  { split_and!; [done|done|]. eexists. split; [done|]. constructor; [|done]. by eapply foreign_icr; [|by left|by left]. }
  apply (conc_part _ _ c _ icr Hc (isr_read _ icr eq_refl Hb)). exists es', x, qr, qt. split; [exact Hinv|].
  unfold ICR_INT_PEND. rewrite land_bit by lia. destruct (Z.testbit icr 31) eqn:E31; cbn [negb handler_ok]; [|done].
  rewrite Hv. destruct (Hcause eq_refl). split_and!; [by apply Hn|done|done].
Qed.

Lemma conc_rx icr c : zc_handler c = BeforeRx icr -> conc_inv c ->
  exists c', handler_rx icr c = Some c' /\ conc_inv c' /\ zc_hand c' = zc_hand c /\ ss_got (zc_sys c') = ss_got (zc_sys c).
Proof using Hi Hr Ht HF.
  intros E Hc. pose proof Hc as (es & x & qr & qt & [Hinv _ Hd]). rewrite E in Hd. destruct Hd as (Hdev & Htx & Hrx).
  unfold handler_rx, ICR_INT_RXRDY, ICR_MSK_RXRDY. rewrite !land_bit, Hdev by lia. destruct (Z.testbit icr 1 && Z.testbit icr 17) eqn:Eb.
  - apply andb_true_iff in Eb. destruct (inv_isr_rx i io0 hr ht Hi Hr Ht _ es x qr qt Hinv (Hrx Eb)) as (z1 & es1 & x1 & qr1 & E1 & H1 & Hv & _).
    apply (conc_part _ _ c z1 tt Hc E1). exists es1, x1, qr1, qt. split; [done|]. split; [done|by rewrite Hv].
  - apply (conc_part _ _ c _ tt Hc eq_refl). exists es, x, qr, qt. by rewrite add_hand_same.
Qed.

Lemma conc_tx_full icr c : zc_handler c = BeforeTxFull icr -> conc_inv c ->
  exists c', handler_tx_full icr c = Some c' /\ conc_inv c' /\ zc_hand c' = zc_hand c /\ ss_got (zc_sys c') = ss_got (zc_sys c).
Proof using.
  intros E Hc. pose proof Hc as (es & x & qr & qt & [Hinv _ Hd]). rewrite E in Hd. destruct Hd as (Hdev & Htx).
  unfold handler_tx_full. destruct (bit_set icr ICR_INT_TX_FULL_RDY && bit_set icr ICR_MSK_TX_FULL_RDY).
  - rewrite Hdev. pose proof (tx_queue_empty_run _ i _ (hi_half _ _ _ _ _ _ _ (si_tx _ _ _ _ _ _ _ _ _ Hinv))) as Ee.
    cbn [add_hand ss_dev set_pool zh_pool] in Ee. eapply (conc_part _ _ c _ (Some _) Hc); [by rewrite (zbind_eq _ _ _ _ _ Ee)|].
    exists es, x, qr, qt. rewrite add_hand_same. split; [done|]. by case_bool_decide.
  - apply (conc_part _ _ c _ None Hc eq_refl). exists es, x, qr, qt. by rewrite add_hand_same.
Qed.

Lemma conc_feed icr c : zc_handler c = BeforeFeed icr -> conc_inv c ->
  exists c', handler_feed icr c = Some c' /\ conc_inv c' /\ zc_hand c' = zc_hand c /\ ss_got (zc_sys c') = ss_got (zc_sys c).
Proof using Hi Ht Hr HZ HF.
  intros E Hc. pose proof Hc as (es & x & qr & qt & [Hinv _ Hd]). rewrite E in Hd. destruct Hd as (Hdev & Htx & Hq).
  destruct (inv_feed i io0 hr ht Hi Hr Ht _ es x qr qt Hinv Hq) as (z1 & es1 & x1 & qt1 & E1 & H1 & Hv).
  unfold handler_feed. rewrite Hdev. apply (conc_part _ _ c z1 IRQ_HANDLED Hc E1). exists es1, x1, qr, qt1. split; [done|].
  split; [done|]. intros Hp. by apply Hv, Htx.
Qed.

Lemma conc_check icr c : zc_handler c = BeforeCheck icr -> conc_inv c ->
  exists c', handler_check icr c = Some c' /\ conc_inv c' /\ zc_hand c' = zc_hand c /\ ss_got (zc_sys c') = ss_got (zc_sys c).
Proof using.
  intros E Hc. pose proof Hc as (es & x & qr & qt & [Hinv _ Hd]). rewrite E in Hd. destruct Hd as (Hdev & Htx).
  unfold handler_check. rewrite Hdev. pose proof (tx_queue_empty_run _ i _ (hi_half _ _ _ _ _ _ _ (si_tx _ _ _ _ _ _ _ _ _ Hinv))) as Ee.
  apply (conc_part _ _ c _ _ Hc Ee). exists es, x, qr, qt. cbn [add_hand ss_dev]. rewrite add_hand_same. split; [done|]. by case_bool_decide.
Qed.

Lemma conc_mask icr c : zc_handler c = BeforeMask icr -> conc_inv c ->
  exists c', handler_mask icr c = Some c' /\ conc_inv c' /\ zc_hand c' = zc_hand c /\ ss_got (zc_sys c') = ss_got (zc_sys c).
Proof using Hi.
  intros E Hc. pose proof Hc as (es & x & qr & qt & [Hinv _ Hd]). rewrite E in Hd. destruct Hd as (Hdev & Htx).
  destruct (inv_mask i io0 hr ht Hi _ es x qr qt Hinv) as (es' & H1 & Hv). unfold handler_mask. rewrite Hdev.
  apply (conc_part _ _ c _ tt Hc (tx_mask_eq _ _)). exists es', x, qr, qt. split; [done|]. by rewrite Hv.
Qed.

Lemma conc_tx_free icr c : zc_handler c = BeforeTxFree icr -> conc_inv c ->
  exists c', handler_tx_free icr c = Some c' /\ conc_inv c' /\ zc_hand c' = zc_hand c /\ ss_got (zc_sys c') = ss_got (zc_sys c).
Proof using Hi Hr Ht HF.
  intros E Hc. pose proof Hc as (es & x & qr & qt & [Hinv _ Hd]). rewrite E in Hd. destruct Hd as (Hdev & Htx).
  unfold handler_tx_free, ICR_INT_TX_FREE_RDY, ICR_MSK_TX_FREE_RDY. rewrite !land_bit, Hdev by lia. destruct (Z.testbit icr 3 && Z.testbit icr 19) eqn:Eb.
  - apply andb_true_iff in Eb. destruct (inv_isr_free i io0 hr ht Hi Hr Ht _ es x qr qt Hinv (Htx Eb)) as (z1 & es1 & qt1 & E1 & H1).
    apply (conc_part _ _ c z1 tt Hc E1). by exists es1, x, qr, qt1.
  - apply (conc_part _ _ c _ tt Hc eq_refl). exists es, x, qr, qt. by rewrite add_hand_same.
Qed.

Lemma conc_handler_step c : (zc_handler c = Idle -> irq_for i (hw_read (zd_io (ss_dev (zc_sys c))) ZAP_REG_ISR)) -> conc_inv c ->
  exists c', handler_step c = Some c' /\ conc_inv c' /\ zc_hand c' = zc_hand c /\ ss_got (zc_sys c') = ss_got (zc_sys c).
Proof using Hi Hr Ht HF.
  intros Hirq Hc. unfold handler_step. destruct (zc_handler c) eqn:E;
    [by apply conc_enter; [apply Hirq|]|by apply conc_rx|by apply conc_tx_full|by apply conc_feed|by apply conc_check|by apply conc_mask
    |by apply conc_tx_free].
Qed.

(** *** The system *)

Lemma conc_inv_step c o : conc_inv c -> conc_step i c o -> exists c', o = Some c' /\ conc_inv c'.
Proof using Hi Hr Ht HF.
  intros Hc Hs. destruct Hs as [filp ubuf Hn Hu|filp ubuf off len oob Hn Hu Hoff|Hh|a Hh|Hirq|z Hz].
  - by apply conc_inv_read.
  - by apply conc_inv_write.
  - by apply conc_inv_take.
  - destruct (conc_inv_post a c Hh Hc) as (c' & E & H1 & _). by exists c'.
  - destruct (conc_handler_step c Hirq Hc) as (c' & E & H1 & _). by exists c'.
  - eexists. split; [done|]. by apply conc_inv_elsewhere.
Qed.

Lemma conc_inv_steps c c' : conc_inv c -> conc_steps i c c' -> conc_inv c'.
Proof using Hi Hr Ht HF.
  intros Hc Hs. induction Hs as [|c c1 c2 _ IH Hs]; [done|]. by destruct (conc_inv_step c1 _ (IH Hc) Hs) as (? & [= <-] & ?).
Qed.
End invariant.

Lemma conc_inv_start i z hr ht : just_started i z hr ht -> conc_inv i (zd_io z) hr ht (conc_start z).
Proof.
  intros Hs. destruct (inv_start i z hr ht Hs) as (es & x & qr & qt & Hinv). by exists es, x, qr, qt.
Qed.

(** ** Lemmas: progress *)

Section flow.
Context `{HZ : ZapEnv} (i : Z).

Lemma conc_steps_trans c1 c2 c3 : conc_steps i c1 c2 -> conc_steps i c2 c3 -> conc_steps i c1 c3.
Proof. intros H12 H23. induction H23; [done|]. eapply conc_more; [by apply IHconc_steps|done]. Qed.

Lemma conc_one c c' : conc_step i c (Some c') -> conc_steps i c c'.
Proof. intros Hs. eapply conc_more; [apply conc_refl|done]. Qed.

(** How much of the handler is left; every step of it leaves less. *)
Definition handler_left (hd : handler) : nat :=
  match hd with
  | Idle => 0 | BeforeTxFree _ => 1 | BeforeMask _ => 2 | BeforeCheck _ => 3 | BeforeFeed _ => 4 | BeforeTxFull _ => 5 | BeforeRx _ => 6
  end.

Lemma run_part_next {A} (m : ZM A) next c c' : run_part m next c = Some c' -> exists x, zc_handler c' = next x.
Proof. unfold run_part. destruct (m _) as [[x z]|]; [|done]. cbn [mbind option_bind]. intros [= <-]. by exists x. Qed.

Lemma handler_advances c c' : zc_handler c <> Idle -> handler_step c = Some c' ->
  (handler_left (zc_handler c') < handler_left (zc_handler c))%nat.
Proof.
  intros Hne. unfold handler_step. destruct (zc_handler c); [done|..]; intros (x & ->)%run_part_next;
    cbn; first [lia|destruct x; cbn; lia|destruct x as [e|]; [destruct e|]; cbn; lia].
Qed.

Lemma finish_steps n c c' : handler_finish n c = Some c' -> conc_steps i c c'.
Proof.
  revert c. induction n as [|n IH]; intros c; cbn [handler_finish]; [intros [= <-]; apply conc_refl|].
  destruct (zc_handler c) eqn:E; [intros [= <-]; apply conc_refl|..];
    (destruct (handler_step c) as [c1|] eqn:E1; [|done]); intros Hf; (eapply conc_steps_trans; [apply conc_one|by apply IH]);
    rewrite <- E1; apply conc_handler; by rewrite E.
Qed.

(** A history in which the worker and the handler are not interrupted is one in
    which they may be. *)
Lemma sys_steps_conc s s' : sys_steps i s s' -> conc_steps i (Conc s Idle None) (Conc s' Idle None).
Proof.
  intros Hs. induction Hs as [s|s s1 s2 _ IH Hs]; [apply conc_refl|]. eapply conc_steps_trans; [exact IH|]. clear IH.
  remember (Some s2) as o eqn:Eo. destruct Hs as [filp ubuf Hn Hu|filp ubuf off len oob Hn Hu Hoff| |Hirq|z Hz].
  - apply conc_one. pose proof (conc_read i (Conc s1 Idle None) filp ubuf Hn Hu) as Hc. cbn [zc_sys] in Hc. by rewrite Eo in Hc.
  - apply conc_one. pose proof (conc_write i (Conc s1 Idle None) filp ubuf off len oob Hn Hu Hoff) as Hc. cbn [zc_sys] in Hc. by rewrite Eo in Hc.
  - pose proof (take_post_is_worker i (Conc s1 Idle None) eq_refl) as E. cbn [zc_sys zc_handler] in E. rewrite Eo in E.
    destruct (worker_take i (Conc s1 Idle None)) as [c1|] eqn:E1; [|done]. cbn [mbind option_bind fmap option_fmap option_map] in E.
    eapply conc_steps_trans; [apply conc_one; rewrite <- E1; by apply conc_take|].
    destruct (zc_hand c1) as [a|] eqn:Eh; [apply conc_one; rewrite <- E; by apply conc_post|]. injection E as ->. apply conc_refl.
  - pose proof (handler_is_isr (Conc s1 Idle None) eq_refl) as E. cbn [zc_sys zc_hand] in E. rewrite Eo in E.
    destruct (handler_step (Conc s1 Idle None)) as [c1|] eqn:E1; [|done]. cbn [mbind option_bind fmap option_fmap option_map] in E.
    eapply conc_steps_trans; [apply conc_one; rewrite <- E1; by apply conc_handler|]. by apply finish_steps in E.
  - injection Eo as <-. apply conc_one. by apply (conc_elsewhere i (Conc s1 Idle None)).
Qed.

Context (io0 : list io_event) (hr ht : zap_half).
Context (Hi : 0 <= i < 256) (Hr : bus_reachable hr) (Ht : bus_reachable ht).

(** The handler can run to its end, and the worker post what it holds. *)
Lemma reach_idle `{!HonestFpga i io0} c : conc_inv i io0 hr ht c ->
  exists s, conc_steps i c (Conc s Idle (zc_hand c)) /\ conc_inv i io0 hr ht (Conc s Idle (zc_hand c)) /\ ss_got s = ss_got (zc_sys c).
Proof using Hi Hr Ht.
  remember (handler_left (zc_handler c)) as n eqn:En. revert c En. induction (lt_wf n) as [n _ IH]. intros c -> Hc.
  destruct (decide (handler_left (zc_handler c) = 0%nat)) as [E|E].
  - assert (zc_handler c = Idle) as Eh by by destruct (zc_handler c). destruct c as [s hd hand]. cbn in Eh |- *. subst hd.
    exists s. split_and!; [apply conc_refl|done|done].
  - assert (zc_handler c <> Idle) as Eh by (by intros Eh; rewrite Eh in E).
    destruct (conc_handler_step i io0 hr ht Hi Hr Ht c ltac:(by intros ?) Hc) as (c1 & E1 & Hc1 & Eha & Eg).
    destruct (IH _ (handler_advances c c1 Eh E1) c1 eq_refl Hc1) as (s & Hs & Hcs & Egs). exists s. rewrite <- Eha.
    split_and!; [|done|by rewrite Egs]. eapply conc_steps_trans; [apply conc_one; rewrite <- E1|exact Hs]. by apply conc_handler.
Qed.

Lemma reach_empty_hand `{!HonestFpga i io0} c : conc_inv i io0 hr ht c ->
  exists s, conc_steps i c (Conc s Idle None) /\ conc_inv i io0 hr ht (Conc s Idle None) /\ ss_got s = ss_got (zc_sys c).
Proof using Hi Hr Ht.
  intros Hc. destruct (reach_idle c Hc) as (s & Hs & Hcs & Eg). destruct (zc_hand c) as [a|]; [|by exists s].
  destruct (conc_inv_post i io0 hr ht Hi Hr Ht a (Conc s Idle (Some a)) eq_refl Hcs) as ([s' hd hand] & E & Hc' & Eh & Ehd & Eg').
  cbn [zc_hand zc_handler zc_sys] in *. subst hand hd. exists s'. split_and!; [|done|by rewrite Eg'].
  eapply conc_steps_trans; [exact Hs|]. apply conc_one. rewrite <- E. by apply conc_post.
Qed.

Lemma conc_inv_sys s hd : conc_inv i io0 hr ht (Conc s hd None) -> sys_inv i io0 hr ht s.
Proof using. intros (es & x & qr & qt & [Hinv _ _]). cbn in Hinv. rewrite add_hand_nil in Hinv. by exists es, x, qr, qt. Qed.
End flow.

(** ** Properties *)

(** The addresses of [h]'s packets: free, queued, in the worker's hand, held by user
    programs, held by the FPGA. *)
Definition whereabouts_rx (h : zap_half) (q : pool) (c : zap_conc) (fl : list Z) : list Z :=
  option_list (zc_hand c) ++ whereabouts h q (ss_rx_held (zc_sys c)) fl.

Lemma hand_conserved i hr ht io0 c es x qr qt : bus_reachable hr -> conc_inv_at i io0 hr ht c es x qr qt ->
  whereabouts_rx hr qr c (fv_rx (view i es)) ≡ₚ all_addresses hr.
Proof.
  intros Hr [[_ _ _ Hrx _ _ _] Hh _]. rewrite <- (half_inv_conserved i RX _ _ _ _ _ Hr Hrx). unfold whereabouts_rx, whereabouts.
  cbn [add_hand ss_rx_held]. destruct (zc_hand c) as [a|]; cbn [option_list hand_list]; [|by rewrite app_nil_r].
  rewrite !fmap_app. cbn [fmap list_fmap]. replace (p_ppackets (zh_pool hr) + (a - p_ppackets (zh_pool hr))) with a by lia.
  set (l1 := _ <$> p_freelist qr). set (l2 := _ <$> p_fifolist qr). set (l3 := _ <$> ss_rx_held _). set (l4 := fv_rx _). solve_Permutation.
Qed.

(** C3: no interleaving of the worker, the interrupt handler and user programs makes
    the driver fault, and no packet is ever lost or in two places.  The worker may be
    stopped between taking a buffer and handing it to the FPGA, and the handler between
    reading the cause and serving receiving, sending and freed buffers; in between, and
    in any order, user programs that give back only what they hold make system calls
    and the rest of the driver runs.  With an FPGA that returns only what it was given:
    the next step always runs, both pools are well formed, and the addresses of the
    free and the queued packets, of the one in the worker's hand, of those user programs
    hold and of those the FPGA holds are together exactly the addresses of the pool's
    packets, each once. *)
Theorem zap_interleaved_safe `{ZapEnv} i z hr ht c :
  HonestFpga i (zd_io z) -> just_started i z hr ht -> conc_steps i (conc_start z) c ->
  (forall o, conc_step i c o -> exists c', o = Some c') /\
  exists qr qt, let s := zc_sys c in let v := view_since i (zd_io z) s in
    dev_half (ss_dev s) i RX = Some (set_pool qr hr) /\ pool_ok qr /\
    whereabouts_rx hr qr c (fv_rx v) ≡ₚ all_addresses hr /\ NoDup (all_addresses hr) /\
    dev_half (ss_dev s) i TX = Some (set_pool qt ht) /\ pool_ok qt /\
    whereabouts ht qt (ss_tx_held s) (fv_tx v) ≡ₚ all_addresses ht /\ NoDup (all_addresses ht).
Proof.
  intros HF Hs Hsteps. pose proof Hs as [Hi _ _ Br Bt _ _].
  pose proof (conc_inv_steps i _ hr ht Hi Br Bt _ _ (conc_inv_start i z hr ht Hs) Hsteps) as Hinv. split.
  - intros o Ho. destruct (conc_inv_step i _ hr ht Hi Br Bt c o Hinv Ho) as (c' & -> & _). by exists c'.
  - destruct Hinv as (es & x & qr & qt & Hat). exists qr, qt. cbv zeta. pose proof Hat as [Hsys _ _].
    pose proof (view_since_eq _ _ _ _ _ _ _ _ _ Hsys) as Hv. change (view_since i (zd_io z) (zc_sys c) = view i es) in Hv. rewrite Hv.
    destruct Hsys as [_ _ _ Hrx Htx _ _].
    split_and!; [apply Hrx|apply Hrx|by eapply hand_conserved|by apply all_addresses_nodup
                |apply Htx|apply Htx|by apply (half_inv_conserved i TX _ _ _ (ss_dev (zc_sys c)))|by apply all_addresses_nodup].
Qed.

(** C4: both streams of packets arrive complete, once, in order and unchanged, however
    worker, handler and user programs interleave: the descriptors user programs have
    read, followed by the packets still queued, are the packets the FPGA has filled,
    with the lengths and flags decoded from their size words; and the packets user
    programs have sent are those the FPGA has been given, address and size word,
    followed by the packets still queued. *)
Theorem zap_interleaved_streams `{ZapEnv} i z hr ht c :
  HonestFpga i (zd_io z) -> just_started i z hr ht -> conc_steps i (conc_start z) c ->
  exists qr qt, let s := zc_sys c in let v := view_since i (zd_io z) s in
    dev_half (ss_dev s) i RX = Some (set_pool qr hr) /\ dev_half (ss_dev s) i TX = Some (set_pool qt ht) /\
    (desc_packet hr <$> ss_got s) ++ queued qr = done_packet hr <$> fv_done v /\
    sent_words ht <$> ss_sent s = fv_sent v ++ (packet_words ht <$> queued qt).
Proof.
  intros HF Hs Hsteps. pose proof Hs as [Hi _ _ Br Bt _ _].
  destruct (conc_inv_steps i _ hr ht Hi Br Bt _ _ (conc_inv_start i z hr ht Hs) Hsteps) as (es & x & qr & qt & [Hsys _ _]).
  exists qr, qt. cbv zeta. pose proof (view_since_eq _ _ _ _ _ _ _ _ _ Hsys) as Hv.
  change (view_since i (zd_io z) (zc_sys c) = view i es) in Hv. rewrite Hv. destruct Hsys as [_ _ _ Hrx Htx Hg Hse].
  split_and!; [apply Hrx|apply Htx|exact Hg|exact Hse].
Qed.

(** C22: received packets keep coming.  When the FPGA interrupts after filling a buffer
    and the pool has a packet at all, then from every state the interleaved steps can
    reach, wherever its packets are and wherever worker and handler were stopped, some
    history gives a user program a further packet: there is no deadlock. *)
Theorem zap_interleaved_flowing `{ZapEnv} i z hr ht c ubuf :
  LiveFpga i (zd_io z) -> just_started i z hr ht -> user_memory_ok ubuf -> (0 < packets (zh_pool hr))%nat ->
  conc_steps i (conc_start z) c ->
  exists c', conc_steps i c c' /\ (length (ss_got (zc_sys c)) < length (ss_got (zc_sys c')))%nat.
Proof.
  intros HL Hs Hu Hn Hsteps. pose proof Hs as [Hi _ _ Br Bt _ _].
  destruct (reach_empty_hand i (zd_io z) hr ht Hi Br Bt c) as (s & Hc1 & Hinv & <-).
  { exact (conc_inv_steps i _ hr ht Hi Br Bt _ _ (conc_inv_start i z hr ht Hs) Hsteps). }
  destruct (flow i (zd_io z) hr ht Hi Br Bt ubuf Hu s (conc_inv_sys i _ hr ht s Idle Hinv) Hn) as (s' & Hs' & Hlt).
  exists (Conc s' Idle None). split; [|exact Hlt]. eapply conc_steps_trans; [exact Hc1|]. by apply sys_steps_conc.
Qed.

(** C23: a packet can stay behind.  When the handler has found the queue for sending
    empty and is about to mask the interrupt, a [write] that gives a packet to send
    succeeds: it queues the packet and unmasks the interrupt.  The handler then masks it
    again: the packet is queued, the register access after the one that unmasked the
    interrupt is the one that masks it, and the handler has passed the part for
    sending. *)
Theorem tx_wakeup_lost `{ZapEnv} i z hr ht c icr filp ubuf off len :
  HonestFpga i (zd_io z) -> just_started i z hr ht -> conc_steps i (conc_start z) c -> zc_handler c = BeforeMask icr ->
  zap_device_num filp = i -> file_dir filp = TX -> user_memory_ok ubuf -> off ∈ ss_tx_held (zc_sys c) ->
  0 <= zh_header_size ht -> len <= zh_payload_max_size ht -> len <> 2 ^ 64 - 1 ->
  exists s1 c2 q, user_write filp ubuf off len 0 (zc_sys c) = Some s1 /\
    ss_sent s1 = ss_sent (zc_sys c) ++ [(off, len, 0)] /\
    handler_step (Conc s1 (BeforeMask icr) (zc_hand c)) = Some c2 /\ conc_steps i c c2 /\
    dev_half (ss_dev (zc_sys c2)) i TX = Some (set_pool q ht) /\ queued q <> [] /\ zc_handler c2 = BeforeTxFree icr /\
    zd_io (ss_dev (zc_sys c2)) = zd_io (ss_dev (zc_sys c)) ++
      [IoWrite (zap_reg i ZAP_REG_ICR) ICR_SET_TX_FULL_RDY; IoWrite (zap_reg i ZAP_REG_ICR) ICR_CLR_TX_FULL_RDY].
Proof.
  intros HF Hs Hsteps Hh Hn Hd Hu Hoff Hhs Hlen Hne. pose proof Hs as [Hi _ _ Br Bt _ _].
  destruct (conc_inv_steps i _ hr ht Hi Br Bt _ _ (conc_inv_start i z hr ht Hs) Hsteps) as (es & x & qr & qt & [Hsys _ Hok]).
  rewrite Hh in Hok. destruct Hok as [Hdev _]. pose proof (si_tx _ _ _ _ _ _ _ _ _ Hsys) as Htx.
  destruct (owned_give ht Bt _ _ _ off (hi_nodup _ _ _ _ _ _ _ Htx) (hi_owned _ _ _ _ _ _ _ Htx) Hoff) as (k & -> & Hk & _).
  pose proof (zap_write_tx_run filp ubuf Hu (ss_dev (zc_sys c)) (set_pool qt ht) k len 0) as Hw. cbv zeta in Hw. rewrite Hn in Hw.
  specialize (Hw (proj1 (file_dir_tx _) Hd) (hi_half _ _ _ _ _ _ _ Htx) (bus_addressable _ (hi_bus _ _ _ Bt _ _ _ _ Htx))
    (hi_used _ _ _ _ _ _ _ Htx k Hk)).
  rewrite (hi_offset i TX ht Bt _ _ _ _ Htx), (proj2 (Z.eqb_neq _ _) Hne) in Hw.
  cbn [set_pool zh_pool zh_header_enable zh_header_size zh_payload_max_size Z.eqb negb andb] in Hw.
  rewrite (proj2 (Z.ltb_ge _ _) Hlen), (proj2 (Z.ltb_ge (zh_header_size ht) 0)), (hi_enq qt k _ Hk) in Hw by lia.
  cbn [orb andb] in Hw. destruct Hw as (q & E & Hq & Ha & Hf).
  set (z1 := logged [IoWrite (u32 (i * 0x20 + ZAP_REG_ICR)) ICR_SET_TX_FULL_RDY] (with_half i TX (set_pool q ht) (ss_dev (zc_sys c)))).
  set (s1 := gave TX (offset_of ht k) len 0 (set_dev z1 (zc_sys c))).
  assert (E1 : user_write filp ubuf (offset_of ht k) len 0 (zc_sys c) = Some s1).
  { unfold user_write. change sizeof_write_data with 24. rewrite E. cbn [mbind option_bind Z.eqb Pos.eqb]. by rewrite Hd. }
  set (c2 := Conc (set_dev (logged [tx_masked i] z1) s1) (BeforeTxFree icr) (zc_hand c)).
  assert (E2 : handler_step (Conc s1 (BeforeMask icr) (zc_hand c)) = Some c2).
  { cbn [handler_step zc_handler]. unfold handler_mask. rewrite Hdev. by erewrite run_part_eq by exact (tx_mask_eq i z1). }
  exists s1, c2, q. split_and!; [exact E1| |exact E2| | | |done|].
  - cbn. by rewrite (proj2 (Z.eqb_neq _ _) Hne).
  - eapply conc_steps_trans; [apply conc_one|apply conc_one; rewrite <- E2; by apply conc_handler].
    pose proof (conc_write i c filp ubuf (offset_of ht k) len 0 Hn Hu) as Hc. rewrite Hd, E1 in Hc.
    unfold lift_sys in Hc. cbn [mbind option_bind] in Hc. rewrite Hh in Hc. by apply Hc.
  - exact (dev_half_same _ i TX _ _ (hi_half _ _ _ _ _ _ _ Htx)).
  - unfold queued. rewrite Ha. cbn [a_fifo]. rewrite fmap_app. intros Hnil. by apply app_eq_nil in Hnil as [_ ?].
  - cbn. by rewrite <- (assoc_L (++)).
Qed.

(** ** A concrete interleaving

    The system of [ZapSystemProps].  A user program takes a buffer for sending while the
    worker holds one; the FPGA fills the buffer posted; the program sends between two
    parts of the handler and takes a further buffer, and in the end both worker and handler are stopped halfway. *)
#[local] Opaque sample_pool.
#[local] Existing Instances fifo_env fifo_live.

Definition step_or_stay (f : zap_conc -> option zap_conc) (c : zap_conc) : zap_conc := default c (f c).
Definition call (f : zap_sys -> option zap_sys) (c : zap_conc) : option zap_conc := lift_sys c (f (zc_sys c)).
Definition post_hand (c : zap_conc) : option zap_conc := a ← zc_hand c; worker_post 0 a c.
Definition conc_history : list (zap_conc -> option zap_conc) :=
  [worker_take 0; call (user_read tx_file 4096); post_hand; handler_step; handler_step; worker_take 0;
   call (user_write tx_file 4096 6000 601 8); call (user_read rx_file 4096); handler_step; handler_step; handler_step;
   call (user_read tx_file 4096)].
Definition conc_end : zap_conc := foldl (fun c f => step_or_stay f c) (conc_start started_device) conc_history.

Lemma conc_next i c0 c f c1 : conc_steps i c0 c -> conc_step i c (f c) -> f c = Some c1 -> conc_steps i c0 (step_or_stay f c).
Proof. intros Hs Hf E. unfold step_or_stay. rewrite E in *. by eapply conc_more. Qed.

Lemma post_step i c a : zc_hand c = Some a -> i = 0 -> conc_step i c (post_hand c).
Proof. intros E ->. unfold post_hand. rewrite E. by apply conc_post. Qed.

Lemma conc_run : conc_steps 0 (conc_start started_device) conc_end.
Proof.
  unfold conc_end, conc_history. cbn [foldl].
  assert (Hrx : zap_device_num rx_file = 0) by done. assert (Htx : zap_device_num tx_file = 0) by done.
  assert (Hint : forall c, conc_step 0 c (handler_step c)) by (intros c; apply conc_handler; intros _; apply fifo_irq).
  eapply conc_next; [|by apply conc_read|vm_compute; reflexivity].
  do 3 (eapply conc_next; [|apply Hint|vm_compute; reflexivity]).
  eapply conc_next; [|by apply conc_read|vm_compute; reflexivity].
  eapply conc_next; [|apply conc_write; [done|by split|vm_compute; by left]|vm_compute; reflexivity].
  eapply conc_next; [|apply conc_take; vm_compute; reflexivity|vm_compute; reflexivity].
  do 2 (eapply conc_next; [|apply Hint|vm_compute; reflexivity]).
  eapply conc_next; [|eapply post_step; [vm_compute; reflexivity|done]|vm_compute; reflexivity].
  eapply conc_next; [|by apply conc_read|vm_compute; reflexivity].
  eapply conc_next; [apply conc_refl|apply conc_take; vm_compute; reflexivity|vm_compute; reflexivity].
Qed.

(** The packet sent is with the FPGA, the packet at 5000 in the worker's hand, and the
    packet received with the user program; the handler is about to
    mask the interrupt for sending. *)
Lemma zap_interleaved_safe_witness :
  (exists icr, zc_handler conc_end = BeforeMask icr) /\ zc_hand conc_end = Some (65536 + 5000) /\
  fv_tx (view_since 0 [] (zc_sys conc_end)) = [65536 + 6000] /\
  (forall o, conc_step 0 conc_end o -> exists c', o = Some c').
Proof.
  split; [eexists; vm_compute; reflexivity|]. split; [vm_compute; reflexivity|]. split; [vm_compute; reflexivity|].
  exact (proj1 (zap_interleaved_safe 0 started_device _ _ conc_end _ sample_started conc_run)).
Defined.

Lemma zap_interleaved_streams_witness :
  ss_got (zc_sys conc_end) = [[6000; 600; 8; 0]] /\
  exists qr qt, dev_half (ss_dev (zc_sys conc_end)) 0 RX = Some (set_pool qr (sample_half sample_pool)) /\
    [(65536 + 6000, 600, 8, 0)] ++ queued qr = [(65536 + 6000, 600, 8, 0)] /\
    [(65536 + 6000, 0x00020096)] = [(65536 + 6000, 0x00020096)] ++ (packet_words (sample_half sample_pool) <$> queued qt).
Proof.
  split; [vm_compute; reflexivity|].
  destruct (zap_interleaved_streams 0 started_device _ _ conc_end _ sample_started conc_run) as (qr & qt & E1 & E2 & E3 & E4).
  exists qr, qt. split; [exact E1|]. split.
  - refine (eq_trans _ (eq_trans E3 _)); [f_equal|]; vm_compute; reflexivity.
  - refine (eq_trans _ (eq_trans E4 _)); [|f_equal]; vm_compute; reflexivity.
Defined.

Lemma zap_interleaved_flowing_witness :
  exists c', conc_steps 0 conc_end c' /\ (1 < length (ss_got (zc_sys c')))%nat.
Proof.
  exact (zap_interleaved_flowing 0 started_device _ _ conc_end 4096 _ sample_started (fifo_user 4096)
    ltac:(vm_compute; lia) conc_run).
Defined.

(** The program, which holds the packet at 5000, sends it now. *)
Lemma tx_wakeup_lost_witness :
  exists s1 c2 q, user_write tx_file 4096 5000 100 0 (zc_sys conc_end) = Some s1 /\
    ss_sent s1 = [(6000, 601, 8); (5000, 100, 0)] /\
    conc_steps 0 conc_end c2 /\ dev_half (ss_dev (zc_sys c2)) 0 TX = Some (set_pool q (sample_half sample_pool)) /\ queued q <> [].
Proof.
  destruct (tx_wakeup_lost 0 started_device _ _ conc_end 2147876870 tx_file 4096 5000 100 _ sample_started conc_run
    ltac:(vm_compute; reflexivity) eq_refl eq_refl (fifo_user 4096) ltac:(vm_compute; by left) ltac:(vm_compute; congruence)
    ltac:(vm_compute; congruence) ltac:(lia)) as (s1 & c2 & q & E1 & E2 & _ & E3 & E4 & E5 & _).
  exists s1, c2, q. split; [exact E1|]. split; [|by split_and!]. refine (eq_trans E2 _). vm_compute. reflexivity.
Defined.
