(* ===== verification/Events.v ===== *)
(** * The events driver ([iv-events/src/events.c], [_events.h])

    User processes wait for bits of an interrupt controller in the FPGA: [write] sets
    what a file waits for, the interrupt handler marks events pending in every open
    file, [read] sleeps until the request is met and takes the events.  Registers and
    masks have 32 bits; the sleeping and waking of readers is explicit. *)
From S2P Require Import Prelude Pool ZapDev Dma Zap.

(** ** Constants *)

Definition EVENTS_MASK_REG : Z := 0.
Definition EVENTS_PENDING_REG : Z := 1.
Definition EVENTS_MASK_EN_REG : Z := 2.

Definition EVENTS_IOC_MAGIC : Z := 101.
Definition EVENTS_IOC_R_INSTANCE_COUNT : Z := _IOC _IOC_READ EVENTS_IOC_MAGIC 0 8.
Definition EVENTS_IOC_MAXNR : Z := 0.

(** ** State *)

(** [struct events_file]; [ef_woken] counts the wake-ups of its wait queue. *)
Record events_file := EventsFile {
  ef_woken : nat;
  ef_pending : Z;
  ef_pending_mask : Z;
  ef_all_events : Z
}.

(** [struct events_dev] and the module's [scratch]: the open files by identity
    (the order of the driver's list has no effect), the depth to which the interrupt is disabled, and the accesses
    to the registers. *)
Record events_dev := EventsDev {
  ed_sem : Z;
  ed_opened : Z;
  ed_filelist : gmap nat events_file;
  ed_irq_disabled : Z;
  ed_scratch : Z;
  ed_io : list io_event
}.

Definition ed_set_sem (x : Z) (d : events_dev) : events_dev :=
  EventsDev x (ed_opened d) (ed_filelist d) (ed_irq_disabled d) (ed_scratch d) (ed_io d).
Definition ed_set_opened (x : Z) (d : events_dev) : events_dev :=
  EventsDev (ed_sem d) x (ed_filelist d) (ed_irq_disabled d) (ed_scratch d) (ed_io d).
Definition ed_set_files (x : gmap nat events_file) (d : events_dev) : events_dev :=
  EventsDev (ed_sem d) (ed_opened d) x (ed_irq_disabled d) (ed_scratch d) (ed_io d).
Definition ed_set_irq (x : Z) (d : events_dev) : events_dev :=
  EventsDev (ed_sem d) (ed_opened d) (ed_filelist d) x (ed_scratch d) (ed_io d).
Definition ed_set_scratch (x : Z) (d : events_dev) : events_dev :=
  EventsDev (ed_sem d) (ed_opened d) (ed_filelist d) (ed_irq_disabled d) x (ed_io d).
Definition ed_log (e : io_event) (d : events_dev) : events_dev :=
  EventsDev (ed_sem d) (ed_opened d) (ed_filelist d) (ed_irq_disabled d) (ed_scratch d) (ed_io d ++ [e]).

(** The environment: the registers after a history of accesses, the allocator, and the
    checks and copies of user memory. *)
Class EventsEnv := {
  ev_read : list io_event -> Z -> Z;
  ev_kmalloc_ok : bool;
  ev_access_ok : Z -> Z -> bool;
  ev_copy_ok : Z -> Z -> bool
}.

(** ** Operations *)

Definition ARE_REQUESTED_EVENTS_PENDING (f : events_file) : bool :=
  (negb (ef_all_events f =? 0) && (Z.land (ef_pending f) (ef_pending_mask f) =? ef_pending_mask f))
  || ((ef_all_events f =? 0) && negb (Z.land (ef_pending f) (ef_pending_mask f) =? 0)).

(** One file's share of [events_wake_up]. *)
Definition file_wake_up (event : Z) (f : events_file) : events_file :=
  let f := EventsFile (ef_woken f) (Z.lor (ef_pending f) (Z.shiftl 1 event)) (ef_pending_mask f) (ef_all_events f) in
  if ARE_REQUESTED_EVENTS_PENDING f
  then EventsFile (S (ef_woken f)) (ef_pending f) (ef_pending_mask f) (ef_all_events f) else f.

Definition events_wake_up (event : Z) (d : events_dev) : events_dev :=
  ed_set_files (file_wake_up event <$> ed_filelist d) d.

(** [for(i = 0; i < 31; i++) if(events & 1) wake_up(i); events >>= 1;]: [n] iterations
    from [i]. *)
Fixpoint wake_loop (n : nat) (i events : Z) (d : events_dev) : events_dev :=
  match n with
  | O => d
  | S n =>
    let d := if negb (Z.land events 1 =? 0) then events_wake_up i d else d in
    wake_loop n (i + 1) (Z.shiftr events 1) d
  end.

Section events.
Context `{EventsEnv}.

Definition EM (A : Type) : Type := M events_dev A.

Definition ed_modify (f : events_dev -> events_dev) : EM unit := fun d => Some (tt, f d).
Definition reg_read (reg : Z) : EM Z :=
  fun d => let v := u32 (ev_read (ed_io d) reg) in Some (v, ed_log (IoRead reg v) d).
Definition reg_write (reg v : Z) : EM unit := ed_modify (ed_log (IoWrite reg (u32 v))).

(** The file's state; using a file that is not open is a fault. *)
Definition get_file (f : nat) : EM events_file := fun d => x ← ed_filelist d !! f; Some (x, d).
Definition put_file (f : nat) (x : events_file) : EM unit :=
  ed_modify (fun d => ed_set_files (<[f := x]> (ed_filelist d)) d).

(** [down_interruptible]: a semaphore that is not free makes the caller sleep; the
    model has the outcome of a signal. *)
Definition ed_down : EM bool :=
  fun d => if 0 <? ed_sem d then Some (false, ed_set_sem (ed_sem d - 1) d) else Some (true, d).
Definition ed_up : EM unit := ed_modify (fun d => ed_set_sem (ed_sem d + 1) d).

Definition disable_irq : EM unit := ed_modify (fun d => ed_set_irq (ed_irq_disabled d + 1) d).
Definition enable_irq : EM unit := ed_modify (fun d => ed_set_irq (ed_irq_disabled d - 1) d).

Definition bug_on (f : events_dev -> bool) : EM unit := fun d => if f d then None else Some (tt, d).

Definition events_get_events : EM Z := reg_read EVENTS_PENDING_REG.

(** Bit 31 is acknowledged but its event is not delivered. *)
Definition events_foreach_wake_up : EM unit :=
  pending ← reg_read EVENTS_PENDING_REG;
  _ ← ed_modify (wake_loop 31 0 pending);
  _ ← reg_write EVENTS_PENDING_REG pending;
  reg_write EVENTS_MASK_REG 0.

Definition events_isr : EM irq_return := _ ← events_foreach_wake_up; mret IRQ_HANDLED.

(** [open]: the file gets the identity [f] (the address of its structure). *)
Definition events_open (f : nat) : EM Z :=
  intr ← ed_down;
  if (intr : bool) then mret (- ERESTARTSYS)
  else
    _ ← disable_irq;
    err ← (if negb ev_kmalloc_ok then mret (- ENOMEM)
           else
             _ ← put_file f (EventsFile 0 0 0 0);
             _ ← enable_irq;
             _ ← ed_modify (fun d => ed_set_opened (ed_opened d + 1) d);
             mret 0);
    _ ← ed_up;
    mret err.

Definition events_release (f : nat) : EM Z :=
  _ ← get_file f;
  intr ← ed_down;
  if (intr : bool) then mret (- ERESTARTSYS)
  else
    _ ← disable_irq;
    _ ← ed_modify (fun d => ed_set_files (delete f (ed_filelist d)) d);
    _ ← enable_irq;
    _ ← ed_modify (fun d => ed_set_opened (ed_opened d - 1) d);
    _ ← bug_on (fun d => ed_opened d <? 0);
    _ ← ed_up;
    mret 0.

(** The result, and the word left at [arg]. *)
Definition events_ioctl (f : nat) (cmd arg w : Z) : EM (Z * Z) :=
  _ ← get_file f;
  if negb (_IOC_TYPE cmd =? EVENTS_IOC_MAGIC) then mret (- ENOTTY, w)
  else if EVENTS_IOC_MAXNR <? _IOC_NR cmd then mret (- ENOTTY, w)
  else if negb (Z.land (_IOC_DIR cmd) 3 =? 0) && negb (ev_access_ok arg (_IOC_SIZE cmd)) then mret (- EFAULT, w)
  else
    intr ← ed_down;
    if (intr : bool) then mret (- ERESTARTSYS, w)
    else
      r ← (if cmd =? EVENTS_IOC_R_INSTANCE_COUNT then n ← (fun d => Some (ed_opened d, d)); mret (0, u64 n)
           else mret (- ENOTTY, w));
      _ ← ed_up;
      mret r.

(** What can end a sleep: a signal, or a wake-up with the device as the interrupt
    handler and the other processes have left it. *)
Inductive sleep :=
  | SleepSignal
  | SleepWoken (d : events_dev).

(** [wait_event_interruptible]: true for an interrupted sleep; [None] in the result
    while the file's request is not met and the sleeps run out. *)
Fixpoint wait_events (f : nat) (sleeps : list sleep) : EM (option bool) :=
  x ← get_file f;
  if ARE_REQUESTED_EVENTS_PENDING x then mret (Some false)
  else
    match sleeps with
    | [] => mret None
    | SleepSignal :: _ => mret (Some true)
    | SleepWoken d :: sleeps => fun _ => wait_events f sleeps d
    end.

(** [for(i = 0; i < 32; i++) if(events & (1 << i)) pending &= ~(1 << i);]: [n] iterations
    from [i]. *)
Fixpoint clear_loop (n : nat) (i events pending : Z) : Z :=
  match n with
  | O => pending
  | S n =>
    let pending := if negb (Z.land events (Z.shiftl 1 i) =? 0) then Z.ldiff pending (Z.shiftl 1 i) else pending in
    clear_loop n (i + 1) events pending
  end.

(** The result of [read]: a code and the word copied to the user's buffer. *)
Definition events_read (f : nat) (buf count : Z) (sleeps : list sleep) : EM (blocking (Z * option Z)) :=
  _ ← get_file f;
  intr ← ed_down;
  if (intr : bool) then mret (Returned (- ERESTARTSYS, None))
  else if negb (count =? 4) then _ ← ed_up; mret (Returned (- EFAULT, None))
  else
    _ ← ed_up;
    w ← wait_events f sleeps;
    match w with
    | None => mret StillBlocked
    | Some true => mret (Returned (- ERESTARTSYS, None))
    | Some false =>
      intr ← ed_down;
      if (intr : bool) then mret (Returned (- ERESTARTSYS, None))
      else
        x ← get_file f;
        let events := Z.land (ef_pending x) (ef_pending_mask x) in
        _ ← put_file f (EventsFile (ef_woken x) (clear_loop 32 0 events (ef_pending x)) (ef_pending_mask x) (ef_all_events x));
        r ← (if negb (ev_copy_ok buf count) then mret (- EFAULT, None) else mret (count, Some events));
        _ ← ed_up;
        mret (Returned r)
    end.

(** [write] of the word [w]: bit 31 asks for all of the events. *)
Definition events_write (f : nat) (buf count w : Z) : EM Z :=
  _ ← get_file f;
  intr ← ed_down;
  if (intr : bool) then mret (- ERESTARTSYS)
  else
    r ← (if negb (count =? 4) then mret (- EFAULT)
         else if negb (ev_copy_ok buf count) then mret (- EFAULT)
         else
           x ← get_file f;
           _ ← put_file f (EventsFile (ef_woken x) (ef_pending x) (Z.land w 0x7fffffff) (Z.land w 0x80000000));
           _ ← reg_write EVENTS_MASK_EN_REG w;
           mret count);
    _ ← ed_up;
    mret r.

Definition events_poll (f : nat) : EM Z :=
  x ← get_file f;
  mret (if ARE_REQUESTED_EVENTS_PENDING x then Z.lor POLLIN POLLRDNORM else 0).

(** ** Debug files *)

Definition levels_get : EM Z := events_get_events.
Definition trigger_set (val : Z) : EM Z := _ ← ed_modify (wake_loop 31 0 (u32 val)); mret 0.
Definition scratch_get : EM Z := fun d => Some (ed_scratch d, d).
Definition scratch_set (val : Z) : EM Z := _ ← ed_modify (ed_set_scratch val); mret 0.

End events.

(** ** Set-up *)

(** The answers of the kernel and of the device tree to [events_probe], in order. *)
Record events_probe_env := EventsProbeEnv {
  ep_chrdev_err : Z;
  ep_alloc : bool;
  ep_class_err : Z;
  ep_cdev_err : Z;
  ep_irq_err : Z;
  ep_reg0 : bool;
  ep_reg1 : bool;
  ep_ioremap : bool;
  ep_debugfs : bool;
  ep_request_irq_err : Z
}.

(** The device, or the code returned from the [fail] label.  The code is 0 when the
    "reg" property is missing.  When the class is refused, [fail] hands the error pointer
    left in the class to [device_destroy], which follows it: a fault. *)
Definition events_probe (e : events_probe_env) : option (Z + events_dev) :=
  if negb (ep_chrdev_err e =? 0) then Some (inl (ep_chrdev_err e))
  else if negb (ep_alloc e) then Some (inl (- ENOMEM))
  else if negb (ep_class_err e =? 0) then None
  else if negb (ep_cdev_err e =? 0) then Some (inl (ep_cdev_err e))
  else if negb (ep_irq_err e =? 0) then Some (inl (ep_irq_err e))
  else if negb (ep_reg0 e) || negb (ep_reg1 e) then Some (inl 0)
  else if negb (ep_ioremap e) then Some (inl (- ENOMEM))
  else
    let d := EventsDev 1 0 ∅ 0 0xdeadbeef [IoWrite EVENTS_PENDING_REG 0xFFFFFFFF] in
    if negb (ep_debugfs e) then Some (inl (- ENOMEM))
    else if negb (ep_request_irq_err e =? 0) then Some (inl (ep_request_irq_err e))
    else Some (inr d).
