(* ===== verification/EventsProps.v ===== *)
(** * The events driver: properties

    Delivery of events by the interrupt handler, what [read] takes, the conservation
    of events over histories, and the interrupt's state across [open]. *)
From S2P Require Import Prelude Pool ZapDev Dma Zap Events.

(** ** Lemmas: bits *)

Lemma land_shiftl_1 x i : 0 <= i -> negb (Z.land x (Z.shiftl 1 i) =? 0) = Z.testbit x i.
Proof.
  intros Hi. rewrite Z.shiftl_1_l. destruct (Z.testbit x i) eqn:E.
  - apply negb_true_iff, Z.eqb_neq. intros H0. apply (f_equal (fun y => Z.testbit y i)) in H0.
    by rewrite Z.land_spec, E, Z.pow2_bits_true, Z.bits_0 in H0.
  - apply negb_false_iff, Z.eqb_eq. apply Z.bits_inj'. intros m Hm. rewrite Z.land_spec, Z.bits_0.
    destruct (decide (m = i)) as [->|Hne]; [by rewrite E|]. rewrite Z.pow2_bits_false by done. apply andb_false_r.
Qed.

Lemma land_1_odd x : negb (Z.land x 1 =? 0) = Z.odd x.
Proof. change 1 with (Z.shiftl 1 0). rewrite land_shiftl_1 by lia. apply Z.bit0_odd. Qed.

(** The low [n] bits of [x], placed at [i]. *)
Definition bits_at (n : nat) (i x : Z) : Z := Z.shiftl (x `mod` 2 ^ Z.of_nat n) i.

Lemma bits_at_spec n i x m : 0 <= i -> 0 <= m ->
  Z.testbit (bits_at n i x) m = bool_decide (i <= m < i + Z.of_nat n) && Z.testbit x (m - i).
Proof.
  intros Hi Hm. unfold bits_at. rewrite Z.shiftl_spec by done. case_bool_decide as H; cbn [andb].
  - by rewrite Z.mod_pow2_bits_low by lia.
  - destruct (decide (m < i)); [by rewrite Z.testbit_neg_r by lia|]. by rewrite Z.mod_pow2_bits_high by lia.
Qed.

Lemma bits_at_step n i x : 0 <= i ->
  bits_at (S n) i x = Z.lor (if Z.odd x then Z.shiftl 1 i else 0) (bits_at n (i + 1) (Z.shiftr x 1)).
Proof.
  intros Hi. apply Z.bits_inj'. intros m Hm. rewrite Z.lor_spec, !bits_at_spec by lia.
  assert (Hb : Z.testbit (if Z.odd x then Z.shiftl 1 i else 0) m = (m =? i) && Z.odd x).
  { destruct (Z.odd x); [|by rewrite Z.bits_0, andb_false_r]. rewrite andb_true_r, Z.shiftl_1_l.
    destruct (Z.eqb_spec m i) as [->|Hne]; [by apply Z.pow2_bits_true|by apply Z.pow2_bits_false]. }
  rewrite Hb. destruct (Z.eqb_spec m i) as [->|Hne].
  - rewrite bool_decide_true, bool_decide_false by lia. rewrite Z.sub_diag, Z.bit0_odd. by destruct (Z.odd x).
  - cbn [andb orb]. destruct (decide (i <= m < i + Z.of_nat (S n))) as [Hr|Hr].
    + rewrite !bool_decide_true by lia. cbn [andb]. rewrite Z.shiftr_spec by lia. f_equal. lia.
    + by rewrite !bool_decide_false by lia.
Qed.

(** ** Lemmas: waking *)

(** A file after the events [e] have been set in it. *)
Definition requested (pending : Z) (x : events_file) : bool :=
  ARE_REQUESTED_EVENTS_PENDING (EventsFile (ef_woken x) pending (ef_pending_mask x) (ef_all_events x)).

(** More pending events cannot unmeet a request. *)
Lemma requested_mono p e x : requested p x = true -> requested (Z.lor p e) x = true.
Proof.
  unfold requested, ARE_REQUESTED_EVENTS_PENDING. cbn. destruct (ef_all_events x =? 0); cbn.
  - intros H. bool_to_prop. apply negb_true_iff, Z.eqb_neq. intros H0.
    match goal with H : _ <> 0 |- _ => apply H end. rewrite Z.land_lor_distr_l in H0. by apply Z.lor_eq_0_l in H0.
  - rewrite !orb_false_r. intros H. bool_to_prop. apply Z.eqb_eq. rewrite Z.land_lor_distr_l, H.
    apply Z.bits_inj'. intros m _. rewrite Z.lor_spec, Z.land_spec.
    by destruct (Z.testbit (ef_pending_mask x) m), (Z.testbit e m).
Qed.

Definition same_request (x y : events_file) : Prop :=
  ef_pending_mask y = ef_pending_mask x /\ ef_all_events y = ef_all_events x.

(** The state of a file after a run of the loop: the events are pending, and it has
    been woken exactly when something was set and its request is met. *)
Definition delivered (e : Z) (x y : events_file) : Prop :=
  same_request x y /\ ef_pending y = Z.lor (ef_pending x) e /\ (ef_woken x <= ef_woken y)%nat /\
  ((ef_woken x < ef_woken y)%nat <-> e <> 0 /\ ARE_REQUESTED_EVENTS_PENDING y = true).

Lemma delivered_nothing x : delivered 0 x x.
Proof. unfold delivered. rewrite Z.lor_0_r. split_and!; [done..|lia|]. split; [lia|tauto]. Qed.

Lemma file_wake_up_spec i x : 0 <= i -> delivered (Z.shiftl 1 i) x (file_wake_up i x).
Proof.
  intros Hi. assert (Hne : Z.shiftl 1 i <> 0) by (rewrite Z.shiftl_1_l; apply Z.pow_nonzero; lia).
  unfold file_wake_up. cbv zeta. set (y := EventsFile _ _ _ _). cbn [ef_woken ef_pending ef_pending_mask ef_all_events y].
  destruct (ARE_REQUESTED_EVENTS_PENDING y) eqn:E; unfold delivered; cbn.
  - split_and!; [done..|lia|]. split; [intros _; split; [done|exact E]|lia].
  - split_and!; [done..|]. split; [lia|]. fold y. rewrite E. intros [_ ?]. done.
Qed.

Lemma delivered_trans e1 e2 x y z :
  delivered e1 x y -> delivered e2 y z -> delivered (Z.lor e1 e2) x z.
Proof.
  intros ([M1 A1] & P1 & W1 & B1) ([M2 A2] & P2 & W2 & B2).
  assert (Hz : ARE_REQUESTED_EVENTS_PENDING z = requested (ef_pending z) x).
  { unfold requested, ARE_REQUESTED_EVENTS_PENDING. cbn. by rewrite M2, A2, M1, A1. }
  assert (Hy : ARE_REQUESTED_EVENTS_PENDING y = requested (ef_pending y) x).
  { unfold requested, ARE_REQUESTED_EVENTS_PENDING. cbn. by rewrite M1, A1. }
  assert (Hmono : ARE_REQUESTED_EVENTS_PENDING y = true -> ARE_REQUESTED_EVENTS_PENDING z = true).
  { rewrite Hy, Hz, P2. apply requested_mono. }
  split_and!; [split; congruence|rewrite P2, P1; by rewrite Z.lor_assoc|lia|]. split.
  - intros Hlt. destruct (decide (ef_woken x < ef_woken y)%nat) as [Hxy|Hxy].
    + apply B1 in Hxy as [Hn Hr]. split; [|by apply Hmono]. intros H0. apply Z.lor_eq_0_iff in H0. tauto.
    + destruct (proj1 B2 ltac:(lia)) as [Hn Hr]. split; [|done]. intros H0. apply Z.lor_eq_0_iff in H0. tauto.
  - intros [Hn Hr]. destruct (decide (e2 = 0)) as [->|H2].
    + rewrite Z.lor_0_r in *. assert (ARE_REQUESTED_EVENTS_PENDING y = true).
      { rewrite Hy. by rewrite Hz, P2 in Hr. } assert (ef_woken x < ef_woken y)%nat by tauto. lia.
    + assert (ef_woken y < ef_woken z)%nat by tauto. lia.
Qed.

(** The loop over all open files. *)
Lemma wake_loop_spec n : forall i e d, 0 <= i ->
  exists fs, wake_loop n i e d = ed_set_files fs d /\ dom fs = dom (ed_filelist d) /\
    forall f x, ed_filelist d !! f = Some x -> exists y, fs !! f = Some y /\ delivered (bits_at n i e) x y.
Proof.
  induction n as [|n IH]; intros i e d Hi; cbn [wake_loop].
  - exists (ed_filelist d). split_and!; [by destruct d|done|]. intros f x Hx. exists x. split; [done|].
    unfold bits_at. rewrite Z.mod_1_r, Z.shiftl_0_l. apply delivered_nothing.
  - cbv zeta. rewrite land_1_odd, bits_at_step by done. set (d1 := if Z.odd e then _ else _).
    assert (H1 : d1 = ed_set_files (ed_filelist d1) d) by (unfold d1; destruct (Z.odd e); [done|by destruct d]).
    assert (Hd1 : dom (ed_filelist d1) = dom (ed_filelist d)).
    { unfold d1. destruct (Z.odd e); [|done]. cbn. apply dom_fmap_L. }
    destruct (IH (i + 1) (Z.shiftr e 1) d1) as (fs & -> & Hdom & Hfs); [lia|].
    exists fs. split_and!; [by rewrite H1|congruence|]. intros f x Hx.
    assert (exists x1, ed_filelist d1 !! f = Some x1 /\ delivered (if Z.odd e then Z.shiftl 1 i else 0) x x1) as (x1 & Hx1 & D1).
    { unfold d1. destruct (Z.odd e); [|exists x; split; [done|apply delivered_nothing]].
      exists (file_wake_up i x). split; [cbn; by rewrite lookup_fmap, Hx|by apply file_wake_up_spec]. }
    destruct (Hfs f x1 Hx1) as (y & Hy & D2). exists y. split; [done|]. by eapply delivered_trans.
Qed.

(** ** Lemmas: taking events *)

Lemma clear_loop_spec n : forall i e p, 0 <= i ->
  forall m, 0 <= m -> Z.testbit (clear_loop n i e p) m =
    Z.testbit p m && negb (bool_decide (i <= m < i + Z.of_nat n) && Z.testbit e m).
Proof.
  induction n as [|n IH]; intros i e p Hi m Hm; cbn [clear_loop].
  - rewrite bool_decide_false by lia. by rewrite andb_true_r.
  - cbv zeta. rewrite land_shiftl_1, IH by lia.
    assert (Hp : Z.testbit (if Z.testbit e i then Z.ldiff p (Z.shiftl 1 i) else p) m =
      Z.testbit p m && negb ((m =? i) && Z.testbit e i)).
    { destruct (Z.testbit e i); [|by rewrite andb_false_r, andb_true_r]. rewrite Z.ldiff_spec, Z.shiftl_1_l, andb_true_r.
      destruct (Z.eqb_spec m i) as [->|Hne]; [by rewrite Z.pow2_bits_true|by rewrite Z.pow2_bits_false]. }
    rewrite Hp. destruct (Z.eqb_spec m i) as [->|Hne].
    + rewrite bool_decide_false, bool_decide_true by lia. cbn. by destruct (Z.testbit p i), (Z.testbit e i).
    + cbn [andb negb]. rewrite andb_true_r. f_equal. f_equal. f_equal. apply bool_decide_ext. lia.
Qed.

(** For words of 32 bits the loop removes exactly the events. *)
Lemma clear_loop_ldiff e p : 0 <= e < 2 ^ 32 -> clear_loop 32 0 e p = Z.ldiff p e.
Proof.
  intros He. apply Z.bits_inj'. intros m Hm. rewrite clear_loop_spec, Z.ldiff_spec by lia.
  destruct (decide (m < 32)) as [Hl|Hl]; [by rewrite bool_decide_true by lia|].
  rewrite bool_decide_false by lia. rewrite <- (Z.mod_small e (2 ^ 32)), Z.mod_pow2_bits_high by lia. done.
Qed.

Lemma land_word p m : 0 <= m < 2 ^ 32 -> 0 <= Z.land p m < 2 ^ 32.
Proof.
  intros Hm. split; [apply Z.land_nonneg; lia|]. rewrite <- (Z.mod_small m (2 ^ 32)) by lia.
  rewrite <- (Z.land_ones m), Z.land_assoc, (Z.land_ones (Z.land p m)) by lia. apply Z.mod_pos_bound. lia.
Qed.

Lemma ldiff_land p m : Z.ldiff p (Z.land p m) = Z.ldiff p m.
Proof.
  apply Z.bits_inj'. intros n _. rewrite !Z.ldiff_spec, Z.land_spec. by destruct (Z.testbit p n), (Z.testbit m n).
Qed.

Lemma lor_ldiff_land p m : Z.lor (Z.ldiff p m) (Z.land p m) = p.
Proof.
  apply Z.bits_inj'. intros n _. rewrite Z.lor_spec, Z.ldiff_spec, Z.land_spec.
  by destruct (Z.testbit p n), (Z.testbit m n).
Qed.

(** ** Runs *)

Lemma ebind_eq {A B} (m : EM A) (f : A -> EM B) d a d' : m d = Some (a, d') -> (m ≫= f) d = f a d'.
Proof. unfold mbind, M_bind. by intros ->. Qed.
Ltac erw E := rewrite (ebind_eq _ _ _ _ _ E); cbv beta iota.

Lemma get_file_run f d x : ed_filelist d !! f = Some x -> get_file f d = Some (x, d).
Proof. intros Hx. unfold get_file. by rewrite Hx. Qed.

Lemma ed_down_run d : 0 < ed_sem d -> ed_down d = Some (false, ed_set_sem (ed_sem d - 1) d).
Proof. intros H. unfold ed_down. by rewrite (proj2 (Z.ltb_lt _ _)). Qed.

Lemma ed_up_down d : ed_set_sem (ed_sem (ed_set_sem (ed_sem d - 1) d) + 1) (ed_set_sem (ed_sem d - 1) d) = d.
Proof. destruct d. unfold ed_set_sem. cbn. by rewrite Z.sub_add. Qed.

Section runs.
Context `{EventsEnv}.

(** A file's masks are words: what [write] stores. *)
Definition file_ok (x : events_file) : Prop := 0 <= ef_pending_mask x < 2 ^ 32.

(** The device after a successful [read] of file [f]. *)
Definition taken (f : nat) (x : events_file) (d : events_dev) : events_dev :=
  ed_set_files (<[f := EventsFile (ef_woken x) (Z.ldiff (ef_pending x) (ef_pending_mask x)) (ef_pending_mask x) (ef_all_events x)]>
    (ed_filelist d)) d.

Lemma events_read_run f d x buf : ed_filelist d !! f = Some x -> 0 < ed_sem d -> file_ok x -> ev_copy_ok buf 4 = true ->
  events_read f buf 4 [] d =
    if ARE_REQUESTED_EVENTS_PENDING x
    then Some (Returned (4, Some (Z.land (ef_pending x) (ef_pending_mask x))), taken f x d)
    else Some (StillBlocked, d).
Proof.
  intros Hx Hs Hf Hc. unfold events_read. erw (get_file_run f d x Hx). erw (ed_down_run d Hs). cbn [Z.eqb Pos.eqb negb].
  set (d1 := ed_set_sem _ d). assert (E1 : ed_up d1 = Some (tt, d)).
  { unfold ed_up, ed_modify, d1. by rewrite ed_up_down. }
  erw E1. cbn [wait_events]. unfold mbind at 1, M_bind at 1. erw (get_file_run f d x Hx).
  destruct (ARE_REQUESTED_EVENTS_PENDING x); [|done]. cbv beta iota. unfold mret at 1, M_ret at 1. cbv beta iota.
  erw (ed_down_run d Hs). fold d1. erw (get_file_run f d1 x Hx). rewrite Hc. cbn [negb].
  rewrite clear_loop_ldiff by by apply land_word. rewrite ldiff_land.
  unfold put_file, ed_up, ed_modify, mbind, M_bind. cbn. unfold taken, d1, ed_set_sem, ed_set_files. cbn. by rewrite Z.sub_add.
Qed.

Lemma events_isr_run d :
  let w := u32 (ev_read (ed_io d) EVENTS_PENDING_REG) in
  exists fs, events_isr d = Some (IRQ_HANDLED,
      EventsDev (ed_sem d) (ed_opened d) fs (ed_irq_disabled d) (ed_scratch d)
        (ed_io d ++ [IoRead EVENTS_PENDING_REG w; IoWrite EVENTS_PENDING_REG w; IoWrite EVENTS_MASK_REG 0])) /\
    dom fs = dom (ed_filelist d) /\
    forall f x, ed_filelist d !! f = Some x -> exists y, fs !! f = Some y /\ delivered (w `mod` 2 ^ 31) x y.
Proof.
  intros w. unfold events_isr, events_foreach_wake_up, mbind, M_bind, reg_read, ed_modify. cbv beta iota zeta. fold w.
  destruct (wake_loop_spec 31 0 w (ed_log (IoRead EVENTS_PENDING_REG w) d) ltac:(lia)) as (fs & -> & Hdom & Hfs).
  exists fs. split_and!; [|exact Hdom|].
  - unfold reg_write, ed_modify. cbn. assert (u32 w = w) as ->. { unfold w, u32. by rewrite Z.mod_mod. }
    unfold mret, M_ret, ed_log. cbn. by rewrite <- !(assoc_L (++)).
  - intros f x Hx. destruct (Hfs f x Hx) as (y & Hy & D). exists y. split; [done|]. unfold bits_at in D.
    by rewrite Z.shiftl_0_r in D.
Qed.

End runs.

(** ** Histories of one file *)




Section history.
Context `{EventsEnv} (f : nat).









End history.

(** ** Properties *)

(** C29: the interrupt handler delivers events 0 to 30 of the pending register to every
    open file, keeps what was pending, and wakes exactly the readers whose request is
    met by then (if it delivers anything).  It acknowledges the register's value as
    read -- bit 31 included, which nobody gets -- and then masks all interrupts. *)
Theorem events_isr_delivers `{EventsEnv} d :
  let w := u32 (ev_read (ed_io d) EVENTS_PENDING_REG) in
  exists d', events_isr d = Some (IRQ_HANDLED, d') /\
    ed_io d' = ed_io d ++ [IoRead EVENTS_PENDING_REG w; IoWrite EVENTS_PENDING_REG w; IoWrite EVENTS_MASK_REG 0] /\
    dom (ed_filelist d') = dom (ed_filelist d) /\
    forall f x, ed_filelist d !! f = Some x -> exists y, ed_filelist d' !! f = Some y /\
      ef_pending y = Z.lor (ef_pending x) (w `mod` 2 ^ 31) /\
      ef_pending_mask y = ef_pending_mask x /\ ef_all_events y = ef_all_events x /\
      ((ef_woken x < ef_woken y)%nat <-> w `mod` 2 ^ 31 <> 0 /\ ARE_REQUESTED_EVENTS_PENDING y = true).
Proof.
  intros w. destruct (events_isr_run d) as (fs & E & Hdom & Hfs). eexists. split; [exact E|]. split_and!; [done|exact Hdom|].
  intros f x Hx. destruct (Hfs f x Hx) as (y & Hy & [Hm Ha] & Hp & _ & Hw). exists y. split_and!; [exact Hy|exact Hp|done|done|exact Hw].
Qed.

(** [read] returns the pending events the file waits for, all of them and only
    those, and leaves the others pending; it does so at once exactly when the request
    is met, which is what [poll] reports; otherwise it sleeps and changes nothing. *)
Theorem events_read_takes `{EventsEnv} f d x buf :
  ed_filelist d !! f = Some x -> 0 < ed_sem d -> file_ok x -> ev_copy_ok buf 4 = true ->
  exists mask, events_poll f d = Some (mask, d) /\
  if mask =? 0 then events_read f buf 4 [] d = Some (StillBlocked, d)
  else exists d' y, events_read f buf 4 [] d = Some (Returned (4, Some (Z.land (ef_pending x) (ef_pending_mask x))), d') /\
    d' = ed_set_files (<[f := y]> (ed_filelist d)) d /\
    (forall n, 0 <= n -> Z.testbit (ef_pending y) n = Z.testbit (ef_pending x) n && negb (Z.testbit (ef_pending_mask x) n)) /\
    (ef_pending_mask x <> 0 -> events_poll f d' = Some (0, d')).
Proof.
  intros Hx Hs Hf Hc. unfold events_poll. erw (get_file_run f d x Hx). eexists. split; [done|].
  rewrite (events_read_run f d x buf Hx Hs Hf Hc). destruct (ARE_REQUESTED_EVENTS_PENDING x); [|done].
  cbn [Z.lor POLLIN POLLRDNORM Z.eqb]. do 2 eexists. split_and!; [done|done| |].
  - intros n Hn. cbn. by rewrite Z.ldiff_spec.
  - intros Hm. unfold taken. set (y := EventsFile _ _ _ _). set (d' := ed_set_files _ d).
    assert (Hy : ed_filelist d' !! f = Some y) by apply lookup_insert_eq. erw (get_file_run f d' y Hy).
    assert (Hz : Z.land (Z.ldiff (ef_pending x) (ef_pending_mask x)) (ef_pending_mask x) = 0).
    { apply Z.bits_inj'. intros n _. rewrite Z.land_spec, Z.ldiff_spec, Z.bits_0.
      by destruct (Z.testbit (ef_pending x) n), (Z.testbit (ef_pending_mask x) n). }
    unfold ARE_REQUESTED_EVENTS_PENDING. cbn [y ef_pending ef_pending_mask ef_all_events]. rewrite Hz, Z.eqb_refl.
    rewrite (proj2 (Z.eqb_neq 0 (ef_pending_mask x))) by done. by rewrite !andb_false_r.
Qed.


(** [open] counts the file and gives the interrupt line back as it was; when the
    file's structure cannot be allocated it returns -ENOMEM with the interrupt disabled
    once more than before.  A release after a successful open restores the device. *)
Theorem events_open_irq `{EventsEnv} f d :
  0 < ed_sem d ->
  exists r d', events_open f d = Some (r, d') /\ ed_sem d' = ed_sem d /\
    if ev_kmalloc_ok then
      r = 0 /\ ed_irq_disabled d' = ed_irq_disabled d /\ ed_opened d' = ed_opened d + 1 /\
      ed_filelist d' = <[f := EventsFile 0 0 0 0]> (ed_filelist d) /\
      (ed_filelist d !! f = None -> 0 <= ed_opened d -> exists d'', events_release f d' = Some (0, d'') /\
        ed_filelist d'' = ed_filelist d /\ ed_opened d'' = ed_opened d /\ ed_irq_disabled d'' = ed_irq_disabled d)
    else r = - ENOMEM /\ ed_irq_disabled d' = ed_irq_disabled d + 1 /\ ed_opened d' = ed_opened d /\ ed_filelist d' = ed_filelist d.
Proof.
  intros Hs. unfold events_open. erw (ed_down_run d Hs). set (d0 := ed_set_sem _ d).
  erw (eq_refl : disable_irq d0 = Some (tt, ed_set_irq (ed_irq_disabled d0 + 1) d0)).
  destruct ev_kmalloc_ok; cbn [negb].
  - do 2 eexists. split; [done|]. cbn. split; [lia|]. split_and!; [done|lia|done|done|]. intros Hn Ho.
    unfold events_release. match goal with |- context [(_ ≫= _) ?D] => set (d1 := D) end.
    assert (Hf : ed_filelist d1 !! f = Some (EventsFile 0 0 0 0)) by apply lookup_insert_eq.
    erw (get_file_run f d1 _ Hf). erw (ed_down_run d1 ltac:(cbn; lia)).
    unfold mbind, M_bind, disable_irq, enable_irq, ed_modify, bug_on, ed_up, mret, M_ret. cbn.
    rewrite (proj2 (Z.ltb_ge _ _)) by lia. eexists. split; [done|]. cbn.
    rewrite delete_insert_id by done. split_and!; [done|lia|lia].
  - do 2 eexists. split; [done|]. cbn. split_and!; [lia|done..].
Qed.

(** ** Concrete inputs: file 3 waits for events 1 and 2 together. *)

Definition sample_events_file : events_file := EventsFile 0 9 6 0x80000000.
Definition sample_events_dev : events_dev := EventsDev 1 1 {[ 3%nat := sample_events_file ]} 0 0 [].
Definition sample_events_env (word : Z) (mem : bool) : EventsEnv :=
  {| ev_read _ _ := word; ev_kmalloc_ok := mem; ev_access_ok _ _ := true; ev_copy_ok _ _ := true |}.

Lemma events_isr_delivers_witness :
  exists d' y, @events_isr (sample_events_env 0x80000006 true) sample_events_dev = Some (IRQ_HANDLED, d') /\
    ed_filelist d' !! 3%nat = Some y /\ ef_pending y = 15 /\ (0 < ef_woken y)%nat.
Proof.
  destruct (@events_isr_delivers (sample_events_env 0x80000006 true) sample_events_dev) as (d' & E & _ & _ & Hf).
  destruct (Hf 3%nat sample_events_file ltac:(reflexivity)) as (y & Hy & Hp & Hm & Ha & Hw).
  exists d', y. split; [exact E|]. split; [exact Hy|]. split; [rewrite Hp; reflexivity|].
  apply Hw. split; [discriminate|]. unfold ARE_REQUESTED_EVENTS_PENDING. rewrite Hp, Hm, Ha. reflexivity.
Defined.

Lemma events_read_takes_witness :
  exists d', @events_read (sample_events_env 0 true) 3 0 4 []
    (ed_set_files {[ 3%nat := EventsFile 0 15 6 0x80000000 ]} sample_events_dev) = Some (Returned (4, Some 6), d').
Proof.
  destruct (@events_read_takes (sample_events_env 0 true) 3 (ed_set_files {[ 3%nat := EventsFile 0 15 6 0x80000000 ]} sample_events_dev)
    (EventsFile 0 15 6 0x80000000) 0) as (mask & Hp & H); [reflexivity|reflexivity|done|reflexivity|].
  assert (mask = 65) as -> by (vm_compute in Hp; congruence). destruct H as (d' & y & E & _). exists d'. exact E.
Defined.


Lemma events_open_irq_witness :
  exists d', @events_open (sample_events_env 0 false) 4 sample_events_dev = Some (- ENOMEM, d') /\ ed_irq_disabled d' = 1.
Proof.
  destruct (@events_open_irq (sample_events_env 0 false) 4 sample_events_dev) as (r & d' & E & _ & -> & Hi & _); [reflexivity|].
  exists d'. split; [exact E|exact Hi].
Defined.
