(* ===== verification/Ocp.v ===== *)
(** * The OCP driver ([iv-ocp/src/ocp.c], [ocp.h])

    Windows onto address spaces of the FPGA: minor 0 and minor 1 give the first space,
    minor [n] the [n]-th.  A space is its physical address, its size and the bytes
    mapped there; [loff_t] has 64 signed bits, [size_t] and [unsigned long] 64
    unsigned ones, [unsigned int] 32. *)
From S2P Require Import Prelude Pool ZapDev Dma Zap.

Definition OCP_IOC_MAGIC : Z := 111.
Definition OCP_IOC_R_INSTANCE_COUNT : Z := _IOC _IOC_READ OCP_IOC_MAGIC 0 8.
Definition OCP_IOC_MAXNR : Z := 0.

(** ** State *)

Record ocp_mapping := OcpMapping {
  om_phys : Z;
  om_size : Z;
  om_virt : list Z
}.

Record ocp_dev := OcpDev {
  od_sem : Z;
  od_instance_count : Z;
  od_num_addr_spaces : Z;
  od_mappings : list ocp_mapping
}.

Definition od_set_sem (x : Z) (d : ocp_dev) : ocp_dev :=
  OcpDev x (od_instance_count d) (od_num_addr_spaces d) (od_mappings d).
Definition od_set_count (x : Z) (d : ocp_dev) : ocp_dev :=
  OcpDev (od_sem d) x (od_num_addr_spaces d) (od_mappings d).
Definition od_set_mappings (x : list ocp_mapping) (d : ocp_dev) : ocp_dev :=
  OcpDev (od_sem d) (od_instance_count d) (od_num_addr_spaces d) x.

Definition OM (A : Type) : Type := M ocp_dev A.
Definition od_gets {A} (f : ocp_dev -> A) : OM A := fun d => Some (f d, d).
Definition od_modify (f : ocp_dev -> ocp_dev) : OM unit := fun d => Some (tt, f d).

(** [down_interruptible] of a semaphore that is not free is interrupted. *)
Definition od_down : OM bool :=
  fun d => if 0 <? od_sem d then Some (false, od_set_sem (od_sem d - 1) d) else Some (true, d).
Definition od_up : OM unit := od_modify (fun d => od_set_sem (od_sem d + 1) d).

(** [if(down_interruptible(sem)) return e; ...; up(sem); return ...] around [k]. *)
Definition od_locked {A} (e : A) (k : OM A) : OM A :=
  intr ← od_down;
  if (intr : bool) then mret e else r ← k; _ ← od_up; mret r.

Definition to_i64 (z : Z) : Z := (z + 2 ^ 63) `mod` 2 ^ 64 - 2 ^ 63.
Definition i64 (z : Z) : option Z := if (- 2 ^ 63 <=? z) && (z <? 2 ^ 63) then Some z else None.

(** ** Operations *)

Definition minor_to_mapping_index (minor : Z) : Z := if minor =? 0 then 0 else u32 (minor - 1).

(** [mappings[minor_to_mapping_index(minor)]]; outside the array it is a fault. *)
Definition mapping_of (minor : Z) : OM ocp_mapping :=
  fun d => x ← od_mappings d !! Z.to_nat (minor_to_mapping_index minor); Some (x, d).
Definition put_mapping (minor : Z) (x : ocp_mapping) : OM unit :=
  od_modify (fun d => od_set_mappings (<[Z.to_nat (minor_to_mapping_index minor) := x]> (od_mappings d)) d).

(** [minor > num_addr_spaces]: the count is converted to unsigned. *)
Definition no_device (minor : Z) : OM bool := od_gets (fun d => u32 (od_num_addr_spaces d) <? minor).

Section ocp.
(** The checks and copies of user memory, and the mapping of page frames. *)
Context (access_ok copy_ok : Z -> Z -> bool) (remap_ok : Z -> Z -> Z -> bool).

Definition ocp_open : OM Z :=
  od_locked (- ERESTARTSYS) (_ ← od_modify (fun d => od_set_count (u32 (od_instance_count d + 1)) d); mret 0).
Definition ocp_release : OM Z :=
  od_locked (- ERESTARTSYS) (_ ← od_modify (fun d => od_set_count (u32 (od_instance_count d - 1)) d); mret 0).

(** The part of a transfer of [count] bytes at [f_pos] that lies in a space. *)
Definition clip (size f_pos count : Z) : Z :=
  if size <? u64 (f_pos + count) then u64 (size - f_pos) else count.
Definition misaligned (buf count : Z) : bool := negb (count `mod` 4 =? 0) || negb (u32 buf `mod` 4 =? 0).

(** The result, the new position, and the bytes copied to the user. *)
Definition ocp_read (minor buf count f_pos : Z) : OM (Z * Z * list Z) :=
  bad ← no_device minor;
  if (bad : bool) then mret (- ENODEV, f_pos, [])
  else od_locked (- ERESTARTSYS, f_pos, []) (
    x ← mapping_of minor;
    if om_size x <=? u64 f_pos then mret (0, f_pos, [])
    else
      let count := clip (om_size x) f_pos count in
      if misaligned buf count then mret (- EFAULT, f_pos, [])
      else
        data ← lift (rd_range (om_virt x) f_pos count);
        if negb (copy_ok buf count) then mret (- EFAULT, f_pos, [])
        else mret (count, f_pos + count, data)).

(** The user's buffer holds [data] (as many bytes as asked for). *)
Definition ocp_write (minor buf : Z) (data : list Z) (f_pos : Z) : OM (Z * Z) :=
  bad ← no_device minor;
  if (bad : bool) then mret (- ENODEV, f_pos)
  else od_locked (- ERESTARTSYS, f_pos) (
    x ← mapping_of minor;
    if om_size x <=? u64 f_pos then mret (0, f_pos)
    else
      let count := clip (om_size x) f_pos (zlen data) in
      if misaligned buf count then mret (- EFAULT, f_pos)
      else if negb (copy_ok buf count) then mret (- EFAULT, f_pos)
      else
        virt ← lift (wr_range (om_virt x) f_pos (take (Z.to_nat count) data));
        _ ← put_mapping minor (OcpMapping (om_phys x) (om_size x) virt);
        mret (count, f_pos + count)).

(** The result, and the word left at [arg]. *)
Definition ocp_ioctl (cmd arg w : Z) : OM (Z * Z) :=
  if negb (_IOC_TYPE cmd =? OCP_IOC_MAGIC) then mret (- ENOTTY, w)
  else if OCP_IOC_MAXNR <? _IOC_NR cmd then mret (- ENOTTY, w)
  else if negb (Z.land (_IOC_DIR cmd) 3 =? 0) && negb (access_ok arg (_IOC_SIZE cmd)) then mret (- EFAULT, w)
  else od_locked (- ERESTARTSYS, w) (
    if cmd =? OCP_IOC_R_INSTANCE_COUNT then n ← od_gets od_instance_count; mret (0, n) else mret (- ENOTTY, w)).

(** The result, and the file's position. *)
Definition ocp_llseek (minor off whence f_pos : Z) : OM (Z * Z) :=
  bad ← no_device minor;
  if (bad : bool) then mret (- ENODEV, f_pos)
  else od_locked (- ERESTARTSYS, f_pos) (
    newpos ← (if whence =? 0 then mret (Some off)
              else if whence =? 1 then n ← lift (i64 (f_pos + off)); mret (Some n)
              else if whence =? 2 then x ← mapping_of minor; mret (Some (to_i64 (om_size x + off)))
              else mret None);
    match newpos with
    | None => mret (- EINVAL, f_pos)
    | Some newpos =>
      if newpos <? 0 then mret (- EINVAL, f_pos)
      else if negb (newpos `mod` 4 =? 0) then mret (- EFAULT, f_pos)
      else mret (newpos, newpos)
    end).

(** The page frame the pages from [vm_start] on are mapped to.  Addresses and sizes of
    the space are cut to 32 bits. *)
Definition ocp_mmap (minor vm_start vm_end vm_pgoff : Z) : OM (Z * option Z) :=
  let size := u64 (vm_end - vm_start) in
  bad ← no_device minor;
  if (bad : bool) then mret (- ENODEV, None)
  else
    x ← mapping_of minor;
    let offset := u64 (Z.shiftl vm_pgoff PAGE_SHIFT) in
    let ulPhysStart := u32 (u32 (om_phys x) + offset) in
    let available_size := u32 (om_size x) in
    if available_size <? u64 (offset + size) then mret (- EINVAL, None)
    else
      let pfn := Z.shiftr ulPhysStart PAGE_SHIFT in
      if negb (remap_ok vm_start pfn size) then mret (- EAGAIN, None) else mret (0, Some pfn).

End ocp.

(** ** Set-up *)

(** One address space as [ocp_probe] finds it: the two numbers of the "reg" property, if
    they can be read, and the memory [ioremap] gives. *)
Record ocp_space := OcpSpace {
  os_phys : option Z;
  os_size : option Z;
  os_virt : option (list Z)
}.

(** The loop: it stops early, without an error, at a number that cannot be read; [inl]
    is the failure of [ioremap].  The spaces not reached stay zero. *)
Fixpoint probe_spaces (spaces : list ocp_space) : Z + list ocp_mapping :=
  let blank := fun s : ocp_space => OcpMapping 0 0 [] in
  match spaces with
  | [] => inr []
  | s :: rest =>
    match os_phys s with
    | None => inr (OcpMapping 0 0 [] :: (blank <$> rest))
    | Some phys =>
      match os_size s with
      | None => inr (OcpMapping phys 0 [] :: (blank <$> rest))
      | Some size =>
        match os_virt s with
        | None => inl (- ENOMEM)
        | Some virt =>
          match probe_spaces rest with inl e => inl e | inr l => inr (OcpMapping phys size virt :: l) end
        end
      end
    end
  end.

(** [ocp_probe]; errors are the allocations' and registrations' codes, in order. *)
Definition ocp_probe (alloc : bool) (chrdev_err cdev_err class_err : Z) (spaces : list ocp_space) : Z + ocp_dev :=
  if negb alloc then inl (- ENOMEM)
  else if negb (chrdev_err =? 0) then inl chrdev_err
  else if negb (cdev_err =? 0) then inl cdev_err
  else if negb (class_err =? 0) then inl class_err
  else
    match probe_spaces spaces with
    | inl e => inl e
    | inr l => inr (OcpDev 1 0 (zlen spaces) l)
    end.
