(* ===== verification/OcpProps.v ===== *)
(** * The OCP driver: properties

    What [write] stores is what [read] returns, inside the window and nowhere else;
    positions set by [llseek]; the pages [mmap] gives, and the ones it gives for a
    space above 4 GiB. *)
From S2P Require Import Prelude Pool ZapDev Dma Zap Ocp.

(** ** Runs *)

Lemma obind_eq {A B} (m : OM A) (f : A -> OM B) d a d' : m d = Some (a, d') -> (m ≫= f) d = f a d'.
Proof. unfold mbind, M_bind. by intros ->. Qed.
Ltac orw E := rewrite (obind_eq _ _ _ _ _ E); cbv beta iota.

(** A minor of the device, and the space behind it. *)
Definition space (d : ocp_dev) (minor : Z) (x : ocp_mapping) : Prop :=
  minor <= u32 (od_num_addr_spaces d) /\ od_mappings d !! Z.to_nat (minor_to_mapping_index minor) = Some x.

Lemma no_device_run d minor x : space d minor x -> no_device minor d = Some (false, d).
Proof. intros [Hm _]. unfold no_device, od_gets. by rewrite (proj2 (Z.ltb_ge _ _)). Qed.

Lemma mapping_of_run d minor x : space d minor x -> mapping_of minor d = Some (x, d).
Proof. intros [_ Hx]. unfold mapping_of. by rewrite Hx. Qed.

(** The semaphore around a step that gives it back. *)
Lemma locked_run {A} (e : A) (k : OM A) d r d' : 0 < od_sem d ->
  k (od_set_sem (od_sem d - 1) d) = Some (r, d') -> od_sem d' = od_sem d - 1 ->
  od_locked e k d = Some (r, od_set_sem (od_sem d) d').
Proof.
  intros Hs Hk Hd. unfold od_locked.
  assert (E : od_down d = Some (false, od_set_sem (od_sem d - 1) d)) by (unfold od_down; by rewrite (proj2 (Z.ltb_lt _ _))).
  orw E. orw Hk. unfold mbind, M_bind, od_up, od_modify, mret, M_ret. rewrite Hd. by replace (od_sem d - 1 + 1) with (od_sem d) by lia.
Qed.

Lemma set_sem_same d : od_set_sem (od_sem d) (od_set_sem (od_sem d - 1) d) = d.
Proof. by destruct d. Qed.

(** ** Windows *)

(** A space whose mapping is as long as its size, and a transfer the kernel lets through. *)
Definition window (x : ocp_mapping) (f_pos n : Z) : Prop :=
  zlen (om_virt x) = om_size x /\ om_size x < 2 ^ 63 /\ 0 <= f_pos /\ 0 <= n /\ f_pos + n < 2 ^ 63.

Lemma clip_min x f_pos n : window x f_pos n -> f_pos < om_size x -> clip (om_size x) f_pos n = Z.min n (om_size x - f_pos).
Proof.
  intros (_ & Hs & H0 & Hn & Hmax) Hlt. unfold clip. rewrite (u64_small (f_pos + n)) by lia. case_if; [|lia].
  rewrite u64_small by lia. lia.
Qed.

(** The bytes after [data] has been stored at [a]. *)
Definition stored (b : list Z) (a : Z) (data : list Z) : list Z :=
  take (Z.to_nat a) b ++ data ++ drop (Z.to_nat a + length data) b.

Lemma wr_stored b a data : 0 <= a -> a + zlen data <= zlen b -> wr_range b a data = Some (stored b a data).
Proof. intros H0 H1. unfold wr_range, stored. rewrite !(proj2 (Z.leb_le _ _)) by lia. done. Qed.

Lemma rd_stored b a data : 0 <= a -> a + zlen data <= zlen b -> rd_range (stored b a data) a (zlen data) = Some data.
Proof. intros H0 H1. unfold stored. apply rd_mid; [|done]. rewrite zlen_take by (zl). done. Qed.

Lemma zlen_stored b a data : 0 <= a -> a + zlen data <= zlen b -> zlen (stored b a data) = zlen b.
Proof.
  intros H0 H1. unfold stored. rewrite !zlen_app, zlen_take by zl.
  replace (Z.to_nat a + length data)%nat with (Z.to_nat (a + zlen data)) by (unfold zlen in *; lia).
  rewrite zlen_drop by zl. lia.
Qed.

Section transfer.
Context (copy_ok : Z -> Z -> bool) (Hcopy : forall a n, copy_ok a n = true).
Context (d : ocp_dev) (minor : Z) (x : ocp_mapping) (Hx : space d minor x) (Hsem : 0 < od_sem d).

Let d0 := od_set_sem (od_sem d - 1) d.

Lemma ocp_read_run buf n f_pos : window x f_pos n -> u32 buf `mod` 4 = 0 ->
  let m := Z.min n (om_size x - f_pos) in
  ocp_read copy_ok minor buf n f_pos d =
    if om_size x <=? f_pos then Some ((0, f_pos, []), d)
    else if m `mod` 4 =? 0 then
      match rd_range (om_virt x) f_pos m with Some data => Some ((m, f_pos + m, data), d) | None => None end
    else Some ((- EFAULT, f_pos, []), d).
Proof using Hcopy Hx Hsem.
  intros Hw Hb m. pose proof Hw as (Hv & Hs & H0 & Hn & Hmax). unfold ocp_read. orw (no_device_run d minor x Hx).
  assert (Hx0 : space d0 minor x) by exact Hx.
  match goal with |- od_locked ?e ?k d = _ => set (K := k) end.
  assert (E : K d0 = if om_size x <=? f_pos then Some ((0, f_pos, []), d0)
    else if m `mod` 4 =? 0 then
      match rd_range (om_virt x) f_pos m with Some data => Some ((m, f_pos + m, data), d0) | None => None end
    else Some ((- EFAULT, f_pos, []), d0)).
  { unfold K. orw (mapping_of_run d0 minor x Hx0). rewrite (u64_small f_pos) by lia.
    destruct (om_size x <=? f_pos) eqn:E; bool_to_prop; [done|]. rewrite clip_min by done. fold m.
    unfold misaligned. rewrite Hb. destruct (m `mod` 4 =? 0); cbn [negb orb Z.eqb]; [|done].
    unfold mbind, M_bind, lift. destruct (rd_range _ _ _); [|done]. by rewrite Hcopy. }
  assert (Hdone : forall r, K d0 = Some (r, d0) -> od_locked (- ERESTARTSYS, f_pos, []) K d = Some (r, d)).
  { intros r Hr. rewrite (locked_run _ K d r d0 Hsem Hr) by done. unfold d0. by rewrite set_sem_same. }
  destruct (om_size x <=? f_pos); [by apply Hdone|]. destruct (m `mod` 4 =? 0); [|by apply Hdone].
  destruct (rd_range _ _ _); [by apply Hdone|]. unfold od_locked.
  assert (Ed : od_down d = Some (false, d0)) by (unfold od_down; by rewrite (proj2 (Z.ltb_lt _ _))).
  orw Ed. unfold mbind at 1, M_bind at 1. by rewrite E.
Qed.

(** The device after [data] has been stored in the space. *)
Definition with_stored (f_pos : Z) (data : list Z) : ocp_dev :=
  od_set_mappings (<[Z.to_nat (minor_to_mapping_index minor) :=
    OcpMapping (om_phys x) (om_size x) (stored (om_virt x) f_pos data)]> (od_mappings d)) d.

Lemma ocp_write_run buf data f_pos : window x f_pos (zlen data) -> u32 buf `mod` 4 = 0 ->
  let m := Z.min (zlen data) (om_size x - f_pos) in
  ocp_write copy_ok minor buf data f_pos d =
    if om_size x <=? f_pos then Some ((0, f_pos), d)
    else if m `mod` 4 =? 0 then Some ((m, f_pos + m), with_stored f_pos (take (Z.to_nat m) data))
    else Some ((- EFAULT, f_pos), d).
Proof using Hcopy Hx Hsem.
  intros Hw Hb m. pose proof Hw as (Hv & Hs & H0 & Hn & Hmax). unfold ocp_write. orw (no_device_run d minor x Hx).
  assert (Hx0 : space d0 minor x) by exact Hx.
  match goal with |- od_locked ?e ?k d = _ => set (K := k) end.
  assert (E : K d0 = if om_size x <=? f_pos then Some ((0, f_pos), d0)
    else if m `mod` 4 =? 0 then Some ((m, f_pos + m), od_set_sem (od_sem d - 1) (with_stored f_pos (take (Z.to_nat m) data)))
    else Some ((- EFAULT, f_pos), d0)).
  { unfold K. orw (mapping_of_run d0 minor x Hx0). rewrite (u64_small f_pos) by lia.
    destruct (om_size x <=? f_pos) eqn:E; bool_to_prop; [done|]. rewrite clip_min by done. fold m.
    unfold misaligned. rewrite Hb. destruct (m `mod` 4 =? 0); cbn [negb orb Z.eqb]; [|done]. rewrite Hcopy. cbn [negb].
    rewrite wr_stored; [|done|]. 2:{ unfold m. rewrite zlen_take by lia. lia. }
    done. }
  destruct (om_size x <=? f_pos); [|destruct (m `mod` 4 =? 0)].
  - rewrite (locked_run _ K d _ _ Hsem E) by done. unfold d0. by rewrite set_sem_same.
  - rewrite (locked_run _ K d _ _ Hsem E) by done. f_equal.
  - rewrite (locked_run _ K d _ _ Hsem E) by done. unfold d0. by rewrite set_sem_same.
Qed.
End transfer.

(** ** Properties *)

(** C33: [write] and [read] through a window.  A transfer is cut at the end of the space;
    at or beyond the end it moves nothing; a part that is not whole words is refused
    with -EFAULT.  Otherwise exactly the bytes at the position are replaced, the position
    advances, and a [read] of the same range returns what was written. *)
Theorem ocp_write_read copy_ok d minor x buf rbuf data f_pos :
  (forall a n, copy_ok a n = true) -> space d minor x -> 0 < od_sem d ->
  window x f_pos (zlen data) -> u32 buf `mod` 4 = 0 -> u32 rbuf `mod` 4 = 0 ->
  let m := Z.min (zlen data) (om_size x - f_pos) in
  let wr := ocp_write copy_ok minor buf data f_pos d in
  if om_size x <=? f_pos then wr = Some ((0, f_pos), d)
  else if negb (m `mod` 4 =? 0) then wr = Some ((- EFAULT, f_pos), d)
  else exists d' x', wr = Some ((m, f_pos + m), d') /\ space d' minor x' /\
    om_virt x' = stored (om_virt x) f_pos (take (Z.to_nat m) data) /\
    (forall other y, minor_to_mapping_index other <> minor_to_mapping_index minor -> 0 <= other < 2 ^ 32 -> 0 <= minor < 2 ^ 32 ->
       space d other y -> space d' other y) /\
    ocp_read copy_ok minor rbuf (zlen data) f_pos d' = Some ((m, f_pos + m, take (Z.to_nat m) data), d').
Proof.
  intros Hcopy Hx Hs Hw Hb Hrb m wr. unfold wr. rewrite (ocp_write_run copy_ok Hcopy d minor x Hx Hs buf data f_pos Hw Hb). fold m.
  destruct (om_size x <=? f_pos) eqn:Ep; [done|]. destruct (m `mod` 4 =? 0) eqn:Em; cbn [negb]; [|done]. bool_to_prop.
  pose proof Hw as (Hv & Hsz & H0 & Hn & Hmax). destruct Hx as [Hm Hx].
  set (t := take (Z.to_nat m) data). assert (Ht : zlen t = m) by (apply zlen_take; unfold m; lia).
  set (x' := OcpMapping (om_phys x) (om_size x) (stored (om_virt x) f_pos t)).
  assert (Hx' : space (with_stored d minor x f_pos t) minor x').
  { split; [exact Hm|]. apply list_lookup_insert_eq. by eapply lookup_lt_Some. }
  exists (with_stored d minor x f_pos t), x'. split_and!; [done|exact Hx'|done| |].
  - intros other y Hne Ho Hmi [Hom Hy]. split; [exact Hom|]. cbn. rewrite list_lookup_insert_ne; [exact Hy|].
    assert (forall k, 0 <= k < 2 ^ 32 -> 0 <= minor_to_mapping_index k) as Hnn.
    { intros k Hk. unfold minor_to_mapping_index. case_if; [done|]. apply Z.mod_pos_bound. done. }
    pose proof (Hnn other Ho). pose proof (Hnn minor Hmi). lia.
  - assert (Hfit : f_pos + zlen t <= zlen (om_virt x)) by (rewrite Ht; unfold m; lia).
    rewrite (ocp_read_run copy_ok Hcopy _ minor x' Hx' Hs rbuf (zlen data) f_pos); [|split_and!; try done; cbn; by rewrite zlen_stored|done].
    cbn [om_size om_virt x']. fold m. rewrite (proj2 (Z.leb_gt _ _)), (proj2 (Z.eqb_eq _ _)) by done.
    rewrite <- Ht at 1. by rewrite rd_stored.
Qed.

(** [mmap] of whole pages of a space.  It succeeds exactly when the request lies in
    the space (up to 4 GiB of it); the pages are those of the space when it ends below
    4 GiB; for a space that begins at 4 GiB or above they are never its pages, because
    the physical address is cut to 32 bits. *)
Theorem ocp_mmap_pages remap_ok d minor x vm_start vm_end vm_pgoff :
  (forall a p n, remap_ok a p n = true) -> space d minor x ->
  0 <= om_phys x -> om_phys x `mod` 4096 = 0 -> 0 <= om_size x ->
  0 <= vm_start <= vm_end -> 0 <= vm_pgoff -> vm_pgoff * 4096 + (vm_end - vm_start) < 2 ^ 64 ->
  let last := vm_pgoff * 4096 + (vm_end - vm_start) in
  if om_size x `mod` 2 ^ 32 <? last then ocp_mmap remap_ok minor vm_start vm_end vm_pgoff d = Some ((- EINVAL, None), d)
  else exists pfn, ocp_mmap remap_ok minor vm_start vm_end vm_pgoff d = Some ((0, Some pfn), d) /\ last <= om_size x /\
    (om_phys x + om_size x < 2 ^ 32 -> pfn * 4096 = om_phys x + vm_pgoff * 4096) /\
    (2 ^ 32 <= om_phys x -> pfn * 4096 < om_phys x).
Proof.
  intros Hr Hx Hp0 Hpal Hs0 Hv Ho Hmax last. unfold ocp_mmap. orw (no_device_run d minor x Hx). orw (mapping_of_run d minor x Hx).
  rewrite Z.shiftl_mul_pow2 by (unfold PAGE_SHIFT; lia). change (2 ^ PAGE_SHIFT) with 4096.
  rewrite (u64_small (vm_end - vm_start)), (u64_small (vm_pgoff * 4096)), u64_small by lia. fold last.
  change (u32 (om_size x)) with (om_size x `mod` 2 ^ 32). destruct (om_size x `mod` 2 ^ 32 <? last) eqn:E; [done|]. bool_to_prop.
  rewrite Hr. cbn [negb]. eexists. split; [done|].
  assert (Hl : last <= om_size x) by (pose proof (Z.mod_le (om_size x) (2 ^ 32) Hs0 ltac:(lia)); lia).
  rewrite Z.shiftr_div_pow2 by (unfold PAGE_SHIFT; lia). change (2 ^ PAGE_SHIFT) with 4096.
  assert (Hb : 0 <= u32 (u32 (om_phys x) + vm_pgoff * 4096) < 2 ^ 32) by (apply Z.mod_pos_bound; lia).
  split_and!; [done| |].
  - intros Hlow. unfold u32. rewrite (Z.mod_small (om_phys x)), Z.mod_small by lia. mlia.
  - intros Hhigh. pose proof (Z.mul_div_le (u32 (u32 (om_phys x) + vm_pgoff * 4096)) 4096 ltac:(lia)). lia.
Qed.

(** ** Concrete inputs *)

Definition sample_ocp (phys : Z) : ocp_dev := OcpDev 1 0 1 [OcpMapping phys 8192 (replicate (Z.to_nat 8192) 0)].

Lemma ocp_write_read_witness :
  exists d', ocp_write (fun _ _ => true) 1 4096 [1; 2; 3; 4; 5; 6; 7; 8] 8188 (sample_ocp 0xA0000000) = Some ((4, 8192), d') /\
    ocp_read (fun _ _ => true) 1 4096 8 8188 d' = Some ((4, 8192, [1; 2; 3; 4]), d').
Proof.
  destruct (ocp_write_read (fun _ _ => true) (sample_ocp 0xA0000000) 1 (OcpMapping 0xA0000000 8192 (replicate (Z.to_nat 8192) 0))
    4096 4096 [1; 2; 3; 4; 5; 6; 7; 8] 8188) as (d' & x' & E & _ & _ & _ & R);
    [done|split; [done|reflexivity]|done| |done|done|].
  - unfold window. cbn [om_virt om_size]. rewrite zlen_replicate. split_and!; reflexivity || done.
  - exists d'. split; [exact E|exact R].
Defined.

Lemma ocp_mmap_pages_witness :
  exists pfn, ocp_mmap (fun _ _ _ => true) 1 0 4096 1 (sample_ocp 0x4A0000000) = Some ((0, Some pfn), sample_ocp 0x4A0000000) /\
    pfn * 4096 < 0x4A0000000.
Proof.
  destruct (ocp_mmap_pages (fun _ _ _ => true) (sample_ocp 0x4A0000000) 1 (OcpMapping 0x4A0000000 8192 (replicate (Z.to_nat 8192) 0))
    0 4096 1) as (pfn & E & _ & _ & H); [done|split; [done|reflexivity]|done|reflexivity|done|done|done|done|].
  exists pfn. split; [exact E|]. apply H. done.
Defined.
