(* ===== verification/Lifecycle.v ===== *)
(** * Kernel resources of the drivers

    What a driver takes from the kernel when a device is bound and gives back when it is
    removed, as the list of its calls.  The lemmas compare what was claimed with what was
    released. *)
From S2P Require Import Prelude.

#[local] Open Scope string_scope.
#[local] Open Scope list_scope.
#[local] Open Scope Z_scope.

Inductive resource :=
  | Memory (what : string)
  | Minor (n : Z)
  | Class
  | Device (n : Z)
  | Cdev
  | Mapping (p : Z)
  | Irq (n : Z)
  | Debugfs
  | Workqueue (i : Z)
  | FrameBuffer (p : Z)
  | FbRegistration (p : Z)
  | MdioBus (p : Z)
  | MdioRegistration (p : Z)
  | NodeRef (p : Z)
  | NodeOf (what : string)
  | IrqMapping (n : Z)
  | MediaEntity
  | Subdev.
#[export] Instance resource_eq_dec : EqDecision resource.
Proof. solve_decision. Defined.

Inductive kcall := Claim (r : resource) | Release (r : resource).
#[export] Instance kcall_eq_dec : EqDecision kcall.
Proof. solve_decision. Defined.

(** A state with the calls made so far. *)
Class HasCalls (W : Type) := {
  get_calls : W -> list kcall;
  add_calls : list kcall -> W -> W
}.
Definition call {W} `{HasCalls W} (c : kcall) : M W unit := fun w => Some (tt, add_calls [c] w).
Definition calls {W} `{HasCalls W} (l : list kcall) : M W unit := fun w => Some (tt, add_calls l w).
Definition claim {W} `{HasCalls W} (r : resource) : M W unit := call (Claim r).
Definition release {W} `{HasCalls W} (r : resource) : M W unit := call (Release r).

(** What the calls leave: claims minus releases. *)
Definition weight (c : kcall) (r : resource) : Z :=
  match c with
  | Claim r' => if decide (r' = r) then 1 else 0
  | Release r' => if decide (r' = r) then -1 else 0
  end.
Definition held (l : list kcall) (r : resource) : Z := foldr (fun c n => weight c r + n) 0 l.

(** Nothing is released that is not held, at any time. *)
Definition proper (l : list kcall) : Prop := forall p q r, l = p ++ q -> 0 <= held p r.

(** ** Lemmas *)

Lemma held_app l1 l2 r : held (l1 ++ l2) r = held l1 r + held l2 r.
Proof. induction l1 as [|c l1 IH]; [done|]. cbn [app held foldr]. fold (held (l1 ++ l2) r) (held l1 r). lia. Qed.
Lemma held_claims l r : NoDup l -> held (Claim <$> l) r = if decide (r ∈ l) then 1 else 0.
Proof.
  induction 1 as [|x l Hx _ IH]; [done|]. cbn [fmap list_fmap held foldr weight]. fold (held (Claim <$> l) r). rewrite IH.
  repeat case_decide; first [lia|set_solver].
Qed.
Lemma held_releases l r : NoDup l -> held (Release <$> l) r = if decide (r ∈ l) then -1 else 0.
Proof.
  induction 1 as [|x l Hx _ IH]; [done|]. cbn [fmap list_fmap held foldr weight]. fold (held (Release <$> l) r). rewrite IH.
  repeat case_decide; first [lia|set_solver].
Qed.

(** Claims followed by releases of some of them. *)
Lemma held_claims_releases l l' r : NoDup l -> NoDup l' -> l' ⊆ l ->
  held ((Claim <$> l) ++ (Release <$> l')) r = if decide (r ∈ l /\ r ∉ l') then 1 else 0.
Proof.
  intros Hl Hl' Hsub. rewrite held_app, held_claims, held_releases by done. specialize (Hsub r).
  repeat case_decide; first [lia|set_solver].
Qed.
Lemma proper_claims_releases l l' : NoDup l -> NoDup l' -> l' ⊆ l -> proper ((Claim <$> l) ++ (Release <$> l')).
Proof.
  intros Hl Hl' Hsub p q r Hpq. apply app_eq_inv in Hpq as [(k & E1 & E2)|(k & E1 & E2)].
  - apply fmap_app_inv in E1 as (l1 & l2 & -> & -> & ->). rewrite held_claims by (by apply NoDup_app in Hl as [? _]). case_decide; lia.
  - apply fmap_app_inv in E2 as (l1 & l2 & -> & -> & ->). subst p. apply NoDup_app in Hl' as (H1 & _ & _).
    rewrite held_claims_releases; [case_decide; lia|done|done|]. intros x Hx. apply Hsub, elem_of_app. by left.
Qed.
