(* ===== verification/EventsLife.v ===== *)
(** * Binding and removing the events device ([recipes-kernel/iv-events/src/events.c])

    The kernel resources behind [events_probe] and [events_remove], which is also the end of
    a probe that fails. *)
From S2P Require Import Prelude Lifecycle Pool Events.

#[local] Open Scope string_scope.
#[local] Open Scope list_scope.
#[local] Open Scope Z_scope.

(** The interrupt layer: whether the controller's node is found, and the number it maps a
    hardware interrupt to, 0 for none. *)
Record irq_layer := { gic_node : bool; irq_create_of_mapping : Z -> Z }.

(** The kernel's answers: those of [events_probe], whether the debug directory (the first of
    four debug entries) can be made, and the translation of the interrupt. *)
Record life_env := { le_env : events_probe_env; le_dir : bool; le_hw_irq : Z; le_irqs : irq_layer }.

(** The device's fields that say what there is to give back, and whether the class is a
    class rather than an error pointer; [events_dev] is NULL or points to them. *)
Record events_fields := { f_class : bool; f_irq : Z; f_dbg : bool; f_vsoc : bool }.
Record events_life := { ev_dev : option events_fields; ev_calls : list kcall }.
#[export] Instance events_has_calls : HasCalls events_life :=
  {| get_calls := ev_calls; add_calls := fun l s => {| ev_dev := ev_dev s; ev_calls := ev_calls s ++ l |} |}.
Definition set_dev (d : option events_fields) : M events_life unit := fun s => Some (tt, {| ev_dev := d; ev_calls := ev_calls s |}).
Definition get_dev : M events_life (option events_fields) := fun s => Some (ev_dev s, s).

(** The search takes a reference to the controller's node, and the mapping stays until it is
    disposed of. *)
Definition xlate_irq (l : irq_layer) (hwirq : Z) : M events_life Z :=
  if negb (gic_node l) then mret hwirq else
  _ ← claim (NodeOf "interrupt controller");
  let irq := irq_create_of_mapping l hwirq in
  if irq =? 0 then mret hwirq else
  _ ← claim (IrqMapping irq);
  mret irq.

Definition events_remove : M events_life Z :=
  d ← get_dev;
  match d with
  | None => mret 0
  | Some f =>
    _ ← (if negb (f_irq f =? 0) then release (Irq (f_irq f)) else mret tt);
    _ ← (if f_dbg f then release Debugfs else mret tt);
    _ ← (if f_vsoc f then release (Mapping 0) else mret tt);
    _ ← (if negb (f_class f) then lift None else release (Device 0));
    _ ← release Class;
    _ ← release Cdev;
    _ ← release (Minor 0);
    _ ← release (Memory "events_dev");
    _ ← set_dev None;
    mret 0
  end.

(** The label [fail]. *)
Definition events_fail (err : Z) : M events_life Z := _ ← events_remove; mret err.

Definition events_probe_life (env : life_env) : M events_life Z :=
  let e := le_env env in
  if negb (ep_chrdev_err e =? 0) then events_fail (ep_chrdev_err e) else
  _ ← claim (Minor 0);
  if negb (ep_alloc e) then _ ← set_dev None; events_fail (- ENOMEM) else
  _ ← claim (Memory "events_dev");
  _ ← set_dev (Some {| f_class := false; f_irq := 0; f_dbg := false; f_vsoc := false |});
  if negb (ep_class_err e =? 0) then events_fail (ep_class_err e) else
  _ ← claim Class;
  _ ← set_dev (Some {| f_class := true; f_irq := 0; f_dbg := false; f_vsoc := false |});
  _ ← claim (Device 0);
  if negb (ep_cdev_err e =? 0) then events_fail (ep_cdev_err e) else
  _ ← claim Cdev;
  if negb (ep_irq_err e =? 0) then events_fail (ep_irq_err e) else
  if negb (ep_reg0 e) then events_fail 0 else
  if negb (ep_reg1 e) then events_fail 0 else
  if negb (ep_ioremap e) then events_fail (- ENOMEM) else
  _ ← claim (Mapping 0);
  _ ← set_dev (Some {| f_class := true; f_irq := 0; f_dbg := false; f_vsoc := true |});
  if negb (le_dir env) then events_fail (- ENOMEM) else
  _ ← claim Debugfs;
  _ ← set_dev (Some {| f_class := true; f_irq := 0; f_dbg := true; f_vsoc := true |});
  if negb (ep_debugfs e) then events_fail (- ENOMEM) else
  irq ← xlate_irq (le_irqs env) (le_hw_irq env);
  _ ← set_dev (Some {| f_class := true; f_irq := irq; f_dbg := true; f_vsoc := true |});
  if negb (ep_request_irq_err e =? 0) then events_fail (ep_request_irq_err e) else
  _ ← claim (Irq irq);
  mret 0.

(** ** Properties *)

(** The translation: its result, and what it takes. *)
Definition translated (l : irq_layer) (hwirq : Z) : Z :=
  if gic_node l && negb (irq_create_of_mapping l hwirq =? 0) then irq_create_of_mapping l hwirq else hwirq.
Definition translation_claims (l : irq_layer) (hwirq : Z) : list resource :=
  if gic_node l then
    NodeOf "interrupt controller" ::
      (if irq_create_of_mapping l hwirq =? 0 then [] else [IrqMapping (irq_create_of_mapping l hwirq)])
  else [].
Definition le_irq (env : life_env) : Z := translated (le_irqs env) (le_hw_irq env).
Definition le_claims (env : life_env) : list resource := translation_claims (le_irqs env) (le_hw_irq env).

(** What a probe that fails keeps, and what it gives back without having taken it. *)
Definition leaked (env : life_env) : list resource :=
  let e := le_env env in
  if negb (ep_chrdev_err e =? 0) then []
  else if negb (ep_alloc e) then [Minor 0]
  else if (ep_cdev_err e =? 0) && (ep_irq_err e =? 0) && ep_reg0 e && ep_reg1 e && ep_ioremap e && ep_debugfs e then le_claims env
  else [].
Definition excess (env : life_env) : list resource :=
  let e := le_env env in
  if negb (ep_chrdev_err e =? 0) || negb (ep_alloc e) then []
  else if negb (ep_cdev_err e =? 0) then [Cdev]
  else if negb (ep_irq_err e =? 0) || negb (ep_reg0 e) || negb (ep_reg1 e) || negb (ep_ioremap e) || negb (ep_debugfs e) then []
  else [Irq (le_irq env)].

Definition unloaded : events_life := {| ev_dev := None; ev_calls := [] |}.

Lemma xlate_irq_run l hwirq s :
  xlate_irq l hwirq s =
    Some (translated l hwirq, {| ev_dev := ev_dev s; ev_calls := ev_calls s ++ (Claim <$> translation_claims l hwirq) |}).
Proof.
  unfold xlate_irq, translated, translation_claims, claim, call, mbind, M_bind. destruct (gic_node l); cbn [negb andb].
  2:{ cbn. rewrite app_nil_r. by destruct s. }
  destruct (irq_create_of_mapping l hwirq =? 0); cbn; by rewrite <- ?(assoc_L (++)).
Qed.

(** What [events_remove] releases of a device with a class. *)
Definition releases (f : events_fields) : list resource :=
  (if negb (f_irq f =? 0) then [Irq (f_irq f)] else []) ++ (if f_dbg f then [Debugfs] else []) ++
  (if f_vsoc f then [Mapping 0] else []) ++ [Device 0; Class; Cdev; Minor 0; Memory "events_dev"].

Lemma events_remove_run f l : f_class f = true ->
  events_remove {| ev_dev := Some f; ev_calls := l |} = Some (0, {| ev_dev := None; ev_calls := l ++ (Release <$> releases f) |}).
Proof.
  intros Hc. unfold events_remove, releases, release, call, get_dev, set_dev, mbind, M_bind. cbn. rewrite Hc.
  destruct (f_irq f =? 0), (f_dbg f), (f_vsoc f); cbn; by rewrite <- ?(assoc_L (++)).
Qed.
Lemma events_fail_run f l err : f_class f = true ->
  events_fail err {| ev_dev := Some f; ev_calls := l |} = Some (err, {| ev_dev := None; ev_calls := l ++ (Release <$> releases f) |}).
Proof. intros Hc. unfold events_fail, mbind, M_bind. by rewrite events_remove_run. Qed.

(** The claims of a probe up to the translation of the interrupt. *)
Definition probe_claims : list resource := [Minor 0; Memory "events_dev"; Class; Device 0; Cdev; Mapping 0; Debugfs].
Lemma probe_claims_nodup n : NoDup (take n probe_claims).
Proof. apply (NoDup_app _ (drop n probe_claims)). rewrite take_drop. by apply (bool_decide_unpack _). Qed.

(** The whole list of claims of a bound device. *)
Lemma bound_claims_nodup env : NoDup (probe_claims ++ le_claims env ++ [Irq (le_irq env)]).
Proof.
  unfold le_claims, translation_claims. unfold probe_claims. destruct (gic_node _); [destruct (_ =? 0)|]; cbn [app];
    repeat (constructor; [rewrite ?elem_of_cons, ?elem_of_nil; naive_solver|]); constructor.
Qed.
Lemma translation_claims_fresh l hwirq x : x ∈ translation_claims l hwirq -> x = NodeOf "interrupt controller" \/ exists n, x = IrqMapping n.
Proof.
  unfold translation_claims. destruct (gic_node l); [|by rewrite elem_of_nil].
  destruct (_ =? 0); rewrite ?elem_of_cons, ?elem_of_nil; naive_solver.
Qed.

(** When the interrupt is refused. *)
Lemma refused_leak T irq :
  (forall x, x ∈ T -> x = NodeOf "interrupt controller" \/ exists n, x = IrqMapping n) ->
  list_difference (probe_claims ++ T) [Irq irq; Debugfs; Mapping 0; Device 0; Class; Cdev; Minor 0; Memory "events_dev"] = T.
Proof.
  intros HT. unfold probe_claims. cbn [app]. set (R := [Irq irq; _; _; _; _; _; _; _]).
  assert (Htail : forall l, l ⊆ T -> list_difference l R = l).
  { induction l as [|x l IH]; intros Hl; [done|]. cbn [list_difference].
    rewrite IH by set_solver. destruct (decide_rel _ x R) as [Hin|_]; [|done]. exfalso.
    destruct (HT x) as [->|[n ->]]; [set_solver|unfold R in Hin; set_solver|unfold R in Hin; set_solver]. }
  rewrite <- (Htail T) at 2 by done. cbn [list_difference]. unfold R. repeat (destruct (decide_rel _ _ _) as [_|Hn]; [|destruct Hn; set_solver]). done.
Qed.
Lemma refused_excess T irq :
  (forall x, x ∈ T -> x = NodeOf "interrupt controller" \/ exists n, x = IrqMapping n) ->
  list_difference [Irq irq; Debugfs; Mapping 0; Device 0; Class; Cdev; Minor 0; Memory "events_dev"] (probe_claims ++ T) = [Irq irq].
Proof.
  intros HT. unfold probe_claims. cbn [app list_difference].
  destruct (decide_rel _ (Irq irq) _) as [Hin|_].
  2:{ repeat (destruct (decide_rel _ _ _) as [_|Hn]; [|destruct Hn; set_solver]). done. }
  exfalso. revert Hin. rewrite !elem_of_cons. intros Hin.
  assert (Irq irq ∈ T) as HI by naive_solver. destruct (HT _ HI) as [|[n ?]]; discriminate.
Qed.

(** A probe that fails after the first [n] of these claims. *)
Ltac stage n f :=
  rewrite (events_fail_run f) by done; eexists _, (take n probe_claims), (releases f);
  split_and!; [reflexivity|done|reflexivity|apply probe_claims_nodup|vm_compute; reflexivity|vm_compute; reflexivity].

(** C30: the probe returns what [events_probe] says.  A device that was bound gives back on
    removal what the probe took, except the reference to the interrupt controller's node and
    the mapping of its interrupt.  A probe that fails gives back what it took, but loses the
    device number when there is no memory, and the reference and the mapping when the
    interrupt is refused; it releases a character device that was not added, or an
    interrupt it never got, when these are refused; and when the class is refused it
    follows an error pointer, which is a fault. *)
Theorem events_lifecycle env :
  le_irq env <> 0 -> (ep_debugfs (le_env env) = true -> le_dir env = true) ->
  match events_probe (le_env env) with
  | None => events_probe_life env unloaded = None
  | Some (inr _) => exists s1 s C R, events_probe_life env unloaded = Some (0, s1) /\ ev_calls s1 = Claim <$> C /\
      events_remove s1 = Some (0, s) /\ ev_dev s = None /\ ev_calls s = (Claim <$> C) ++ (Release <$> R) /\
      NoDup C /\ C ≡ₚ R ++ le_claims env
  | Some (inl err) => exists s C R, events_probe_life env unloaded = Some (err, s) /\ ev_dev s = None /\
      ev_calls s = (Claim <$> C) ++ (Release <$> R) /\ NoDup C /\
      list_difference C R = leaked env /\ list_difference R C = excess env
  end.
Proof.
  intros Hirq Hdir. pose proof (bound_claims_nodup env) as Hnd. unfold le_claims in *.
  destruct env as [e dir hw layer]. unfold le_irq in *. cbn [le_env le_dir le_irqs le_hw_irq] in *.
  unfold events_probe, events_probe_life, leaked, excess, le_claims, le_irq. cbn [le_env le_dir le_irqs le_hw_irq].
  unfold claim, call, set_dev, unloaded. cbn [mbind M_bind]. unfold mbind, M_bind. cbn [add_calls events_has_calls ev_dev ev_calls app].
  destruct (ep_chrdev_err e =? 0); cbn [negb andb orb add_calls events_has_calls ev_dev ev_calls app].
  2:{ eexists _, [], []. split_and!; [reflexivity|done|done|constructor|done|done]. }
  destruct (ep_alloc e); cbn [negb andb orb add_calls events_has_calls ev_dev ev_calls app].
  2:{ eexists _, [Minor 0], []. split_and!; [reflexivity|done|done|by apply (bool_decide_unpack _)|done|done]. }
  set (f0 := {| f_class := true; f_irq := 0; f_dbg := false; f_vsoc := false |}).
  set (f1 := {| f_class := true; f_irq := 0; f_dbg := false; f_vsoc := true |}).
  set (f2 := {| f_class := true; f_irq := 0; f_dbg := true; f_vsoc := true |}).
  destruct (ep_class_err e =? 0); cbn [negb andb orb add_calls events_has_calls ev_dev ev_calls app]; [|done].
  destruct (ep_cdev_err e =? 0); cbn [negb andb orb add_calls events_has_calls ev_dev ev_calls app]; [|by stage 4%nat f0].
  destruct (ep_irq_err e =? 0); cbn [negb andb orb add_calls events_has_calls ev_dev ev_calls app]; [|by stage 5%nat f0].
  destruct (ep_reg0 e); cbn [negb andb orb add_calls events_has_calls ev_dev ev_calls app]; [|by stage 5%nat f0].
  destruct (ep_reg1 e); cbn [negb andb orb add_calls events_has_calls ev_dev ev_calls app]; [|by stage 5%nat f0].
  destruct (ep_ioremap e); cbn [negb andb orb add_calls events_has_calls ev_dev ev_calls app]; [|by stage 5%nat f0].
  destruct (ep_debugfs e) eqn:Ed; cbn [negb andb orb add_calls events_has_calls ev_dev ev_calls app].
  2:{ destruct dir; cbn [negb add_calls events_has_calls ev_dev ev_calls app]; [by stage 7%nat f2|by stage 6%nat f1]. }
  rewrite Hdir by done. cbn [negb add_calls events_has_calls ev_dev ev_calls app]. rewrite xlate_irq_run.
  cbn [ev_dev ev_calls]. set (irq := translated layer hw) in *. set (T := translation_claims layer hw) in *.
  set (f3 := {| f_class := true; f_irq := irq; f_dbg := true; f_vsoc := true |}).
  assert (H3 : releases f3 = [Irq irq; Debugfs; Mapping 0; Device 0; Class; Cdev; Minor 0; Memory "events_dev"]).
  { unfold releases, f3. cbn. by rewrite (proj2 (Z.eqb_neq _ _) Hirq). }
  destruct (ep_request_irq_err e =? 0); cbn [negb add_calls events_has_calls ev_dev ev_calls].
  - eexists _, _, (probe_claims ++ T ++ [Irq irq]), (releases f3).
    split_and!; [reflexivity| |by apply events_remove_run|done| |done|].
    + cbn [ev_calls]. rewrite !fmap_app. cbn. by rewrite <- ?(assoc_L (++)).
    + cbn [ev_calls]. rewrite !fmap_app. cbn. by rewrite <- ?(assoc_L (++)).
    + rewrite H3. unfold probe_claims. solve_Permutation.
  - rewrite (events_fail_run f3) by done. eexists _, (probe_claims ++ T), (releases f3).
    rewrite (assoc_L (++)) in Hnd. apply NoDup_app in Hnd as (Hnd & _ & _).
    split_and!; [reflexivity|done| |done| |].
    + cbn [ev_calls]. rewrite !fmap_app. cbn. by rewrite <- ?(assoc_L (++)).
    + rewrite H3. apply refused_leak, translation_claims_fresh.
    + rewrite H3. apply refused_excess, translation_claims_fresh.
Qed.

Definition sample_life : life_env :=
  {| le_env := EventsProbeEnv 0 true 0 0 0 true true true true 0; le_dir := true; le_hw_irq := 29;
     le_irqs := {| gic_node := true; irq_create_of_mapping := fun h => h + 32 |} |}.
Lemma events_lifecycle_witness :
  exists s1 s C R, events_probe_life sample_life unloaded = Some (0, s1) /\ ev_calls s1 = Claim <$> C /\
    events_remove s1 = Some (0, s) /\ ev_dev s = None /\ ev_calls s = (Claim <$> C) ++ (Release <$> R) /\
    NoDup C /\ C ≡ₚ R ++ [NodeOf "interrupt controller"; IrqMapping 61].
Proof. apply (events_lifecycle sample_life); [by vm_compute|done]. Defined.
