(* ===== verification/OcpLife.v ===== *)
(** * Binding and removing the OCP device ([recipes-kernel/iv-ocp/src/ocp.c])

    The kernel resources behind [ocp_probe] and [ocp_remove]. *)
From S2P Require Import Prelude Lifecycle Pool Ocp.

#[local] Open Scope string_scope.
#[local] Open Scope list_scope.
#[local] Open Scope Z_scope.

(** The device's fields that say what there is to give back: the number of address spaces,
    and for each element of the array of mappings whether it is mapped ([None] when there is
    no array).  The driver's data is NULL or points to them. *)
Record ocp_fields := { num_spaces : nat; virts : option (list bool) }.
Record ocp_life := { oc_dev : option ocp_fields; oc_calls : list kcall }.
#[export] Instance ocp_has_calls : HasCalls ocp_life :=
  {| get_calls := oc_calls; add_calls := fun l s => {| oc_dev := oc_dev s; oc_calls := oc_calls s ++ l |} |}.
Definition set_fields (f : ocp_fields) : M ocp_life unit := fun s => Some (tt, {| oc_dev := Some f; oc_calls := oc_calls s |}).

(** The device numbers from 0 on. *)
Definition minors (n : nat) : list resource := (fun i => Minor (Z.of_nat i)) <$> seq 0 n.

(** The loop of [ocp_remove] from element [i] on. *)
Fixpoint unmap_loop (i : Z) (virts : list bool) : M ocp_life unit :=
  match virts with
  | [] => mret tt
  | virt :: virts =>
    _ ← (if virt : bool then release (Mapping i) else mret tt);
    _ ← release (Device (i + 1));
    unmap_loop (i + 1) virts
  end.

Definition ocp_remove : M ocp_life Z := fun s =>
  match oc_dev s with
  | None => None
  | Some f =>
    (_ ← match virts f with
         | Some v => _ ← unmap_loop 0 v; release (Memory "mappings")
         | None => mret tt
         end;
     _ ← release (Device 0);
     _ ← release Class;
     _ ← release Cdev;
     _ ← calls (Release <$> minors (num_spaces f));
     _ ← release (Memory "ocp_dev");
     mret 0) s
  end.

(** The label [fail]. *)
Definition ocp_fail (err : Z) : M ocp_life Z := _ ← ocp_remove; mret err.

(** The loop over the spaces from element [i] on: the error to leave with, and which of them
    are mapped. *)
Fixpoint map_loop (i : Z) (spaces : list ocp_space) : M ocp_life (option Z * list bool) :=
  match spaces with
  | [] => mret (None, [])
  | s :: rest =>
    match os_phys s, os_size s with
    | Some _, Some _ =>
      match os_virt s with
      | None => mret (Some (- ENOMEM), replicate (length spaces) false)
      | Some _ =>
        _ ← claim (Mapping i);
        _ ← claim (Device (i + 1));
        '(r, v) ← map_loop (i + 1) rest;
        mret (r, true :: v)
      end
    | _, _ => mret (None, replicate (length spaces) false)
    end
  end.

Definition ocp_probe_life (alloc : bool) (chrdev_err cdev_err class_err : Z) (spaces : list ocp_space) : M ocp_life Z :=
  if negb alloc then ocp_fail (- ENOMEM) else
  let n := length spaces in
  _ ← claim (Memory "ocp_dev");
  _ ← set_fields {| num_spaces := n; virts := None |};
  if negb (chrdev_err =? 0) then ocp_fail chrdev_err else
  _ ← calls (Claim <$> minors (n + 1));
  if negb (cdev_err =? 0) then ocp_fail cdev_err else
  _ ← claim Cdev;
  _ ← claim (Memory "mappings");
  _ ← set_fields {| num_spaces := n; virts := Some (replicate n false) |};
  if negb (class_err =? 0) then mret class_err else
  _ ← claim Class;
  _ ← claim (Device 0);
  '(r, v) ← map_loop 0 spaces;
  _ ← set_fields {| num_spaces := n; virts := Some v |};
  match r with Some err => ocp_fail err | None => mret 0 end.

(** ** Properties *)

Definition complete (s : ocp_space) : Prop := is_Some (os_phys s) /\ is_Some (os_size s) /\ is_Some (os_virt s).

(** What the loops claim and release for [n] spaces from number [i] on. *)
Definition space_resources (i : Z) (n : nat) : list resource :=
  concat ((fun k => [Mapping (i + Z.of_nat k); Device (i + Z.of_nat k + 1)]) <$> seq 0 n).
Lemma space_resources_S i n : space_resources i (S n) = Mapping i :: Device (i + 1) :: space_resources (i + 1) n.
Proof.
  unfold space_resources. cbn [seq fmap list_fmap concat app]. rewrite <- seq_shift, <- list_fmap_compose, Z.add_0_r.
  do 3 f_equal. apply list_fmap_ext. intros k x _. unfold compose. by replace (i + Z.of_nat (S x)) with (i + 1 + Z.of_nat x) by lia.
Qed.

Lemma map_loop_run spaces i s : Forall complete spaces ->
  map_loop i spaces s = Some ((None, replicate (length spaces) true),
    {| oc_dev := oc_dev s; oc_calls := oc_calls s ++ (Claim <$> space_resources i (length spaces)) |}).
Proof.
  intros Hc. revert i s. induction Hc as [|x spaces ([phys Hp] & [size Hs] & [virt Hv]) _ IH]; intros i s.
  - cbn. rewrite app_nil_r. by destruct s.
  - cbn [map_loop length]. rewrite Hp, Hs, Hv. unfold claim, call, mbind, M_bind. rewrite IH. cbn [oc_dev oc_calls add_calls ocp_has_calls].
    rewrite space_resources_S. cbn. by rewrite <- !(assoc_L (++)).
Qed.
Lemma unmap_loop_run n i s :
  unmap_loop i (replicate n true) s = Some (tt, {| oc_dev := oc_dev s; oc_calls := oc_calls s ++ (Release <$> space_resources i n) |}).
Proof.
  revert i s. induction n as [|n IH]; intros i s.
  - cbn. rewrite app_nil_r. by destruct s.
  - cbn [unmap_loop replicate]. unfold release, call, mbind, M_bind. rewrite IH. cbn [oc_dev oc_calls add_calls ocp_has_calls].
    rewrite space_resources_S. cbn. by rewrite <- !(assoc_L (++)).
Qed.

(** C34: binding and removing a device with [n] spaces keeps one device number, the last of
    the [n + 1] that were claimed: everything else is given back.  A failure before there
    is memory for the device is a NULL dereference in [ocp_remove], and a class that cannot
    be made leaves what was taken before. *)
Theorem ocp_lifecycle spaces :
  Forall complete spaces ->
  let n := length spaces in
  (exists s s' C R, ocp_probe_life true 0 0 0 spaces {| oc_dev := None; oc_calls := [] |} = Some (0, s) /\ oc_calls s = Claim <$> C /\
     ocp_remove s = Some (0, s') /\ oc_calls s' = (Claim <$> C) ++ (Release <$> R) /\ C ≡ₚ Minor (Z.of_nat n) :: R) /\
  (forall e1 e2 e3 s, oc_dev s = None -> ocp_probe_life false e1 e2 e3 spaces s = None) /\
  (forall e, e <> 0 -> exists s, ocp_probe_life true 0 0 e spaces {| oc_dev := None; oc_calls := [] |} = Some (e, s) /\
     oc_calls s = Claim <$> [Memory "ocp_dev"] ++ minors (n + 1) ++ [Cdev; Memory "mappings"]).
Proof.
  intros Hc n. split_and!.
  - set (C := [Memory "ocp_dev"] ++ minors (n + 1) ++ [Cdev; Memory "mappings"; Class; Device 0] ++ space_resources 0 n).
    set (R := space_resources 0 n ++ [Memory "mappings"; Device 0; Class; Cdev] ++ minors n ++ [Memory "ocp_dev"]).
    exists {| oc_dev := Some {| num_spaces := n; virts := Some (replicate n true) |}; oc_calls := Claim <$> C |},
      {| oc_dev := Some {| num_spaces := n; virts := Some (replicate n true) |}; oc_calls := (Claim <$> C) ++ (Release <$> R) |}, C, R.
    split_and!; [|done| |done|].
    + unfold ocp_probe_life. cbn [negb]. unfold claim, call, calls, set_fields, mbind, M_bind. cbn [Z.eqb negb add_calls ocp_has_calls oc_dev oc_calls app].
      rewrite map_loop_run by done. cbn [oc_dev oc_calls]. fold n. unfold C. rewrite !fmap_app. cbn. by rewrite <- ?(assoc_L (++)).
    + unfold ocp_remove. cbn [oc_dev virts]. unfold release, call, calls, mbind, M_bind. rewrite unmap_loop_run.
      cbn [oc_dev oc_calls add_calls ocp_has_calls num_spaces]. unfold R. rewrite !fmap_app. cbn. by rewrite <- ?(assoc_L (++)).
    + unfold C, R, minors. rewrite Nat.add_1_r, seq_S, fmap_app. cbn [fmap list_fmap]. cbn [app]. generalize (space_resources 0 n) ((λ i : nat, Minor (Z.of_nat i)) <$> seq 0 n). intros S Ms. solve_Permutation.
  - intros e1 e2 e3 s Hs. unfold ocp_probe_life, ocp_fail, ocp_remove, mbind, M_bind. cbn. by rewrite Hs.
  - intros e He. eexists. split.
    + unfold ocp_probe_life. unfold claim, call, calls, set_fields, mbind, M_bind. cbn [Z.eqb negb add_calls ocp_has_calls oc_dev oc_calls app].
      rewrite (proj2 (Z.eqb_neq e 0)) by done. reflexivity.
    + cbn [oc_calls]. rewrite !fmap_app. cbn. by rewrite <- ?(assoc_L (++)).
Qed.


Lemma ocp_lifecycle_witness :
  let spaces := [OcpSpace (Some 0x1000) (Some 4) (Some [1; 2; 3; 4])] in
  (exists s s' C R, ocp_probe_life true 0 0 0 spaces {| oc_dev := None; oc_calls := [] |} = Some (0, s) /\ oc_calls s = Claim <$> C /\
     ocp_remove s = Some (0, s') /\ oc_calls s' = (Claim <$> C) ++ (Release <$> R) /\ C ≡ₚ Minor 1 :: R) /\
  (forall e1 e2 e3 s, oc_dev s = None -> ocp_probe_life false e1 e2 e3 spaces s = None) /\
  (forall e, e <> 0 -> exists s, ocp_probe_life true 0 0 e spaces {| oc_dev := None; oc_calls := [] |} = Some (e, s) /\
     oc_calls s = Claim <$> [Memory "ocp_dev"] ++ minors 2 ++ [Cdev; Memory "mappings"]).
Proof. intros spaces. apply (ocp_lifecycle spaces). constructor; [by split_and!|constructor]. Defined.
