(* ===== verification/ZapLife.v ===== *)
(** * Binding and removing the ZAP device ([recipes-kernel/iv-zap/src/zap.c], [dma.c],
    [dma_zynq.c])

    The kernel resources behind [zap_probe] and [zap_remove], with those of the DMA engine:
    [dma_ll_init] and [dma_ll_cleanup]. *)
From S2P Require Import Prelude Lifecycle Pool ZapDev Dma Zap EventsLife.

#[local] Open Scope string_scope.
#[local] Open Scope list_scope.
#[local] Open Scope Z_scope.

Definition ENODEV : Z := 19.

(** The kernel's answers to [dma_ll_init]: the number of pages, whether the registers can be
    mapped and the array allocated, the hardware interrupt and the interrupt layer, the code
    of [request_irq]. *)
Record dma_env := {
  de_physpages : Z;
  de_ioremap : bool;
  de_alloc : bool;
  de_hw_irq : Z;
  de_irqs : irq_layer;
  de_request_irq_err : Z
}.

(** The variables of the engine: whether the registers' address and the array of interfaces
    are not NULL, the interrupt, whether the semaphore was ever initialised, and whether
    [gic_node] is not NULL; the device ([zap_devp], NULL or with its number of ports and
    whether its array is there). *)
Record zap_fields := { num_devices : nat; has_interface : bool }.
Record zap_life := {
  zl_dev : option zap_fields;
  zl_reg : bool;
  zl_interface : bool;
  zl_irq : Z;
  zl_sem : bool;
  zl_gic : bool;
  zl_calls : list kcall
}.
#[export] Instance zap_has_calls : HasCalls zap_life :=
  {| get_calls := zl_calls;
     add_calls := fun l '(Build_zap_life d r i q m g c) => Build_zap_life d r i q m g (c ++ l) |}.
Definition set_dev (d : option zap_fields) : M zap_life unit :=
  fun '(Build_zap_life _ r i q m g c) => Some (tt, Build_zap_life d r i q m g c).
Definition set_reg (r : bool) : M zap_life unit :=
  fun '(Build_zap_life d _ i q m g c) => Some (tt, Build_zap_life d r i q m g c).
Definition set_interface (i : bool) : M zap_life unit :=
  fun '(Build_zap_life d r _ q m g c) => Some (tt, Build_zap_life d r i q m g c).
Definition set_irq (q : Z) : M zap_life unit :=
  fun '(Build_zap_life d r i _ m g c) => Some (tt, Build_zap_life d r i q m g c).
Definition set_sem (m : bool) : M zap_life unit :=
  fun '(Build_zap_life d r i q _ g c) => Some (tt, Build_zap_life d r i q m g c).
Definition set_gic (g : bool) : M zap_life unit :=
  fun '(Build_zap_life d r i q m _ c) => Some (tt, Build_zap_life d r i q m g c).
Definition get_life : M zap_life zap_life := fun s => Some (s, s).

(** ** The DMA engine *)

(** [while (pow2_boundary_pages < get_num_physpages()) pow2_boundary_pages <<= 1;] *)
Fixpoint pow2_loop (fuel : nat) (pow2_boundary_pages physpages : Z) : option Z :=
  if pow2_boundary_pages <? physpages then
    match fuel with O => None | S fuel => pow2_loop fuel (u64 (Z.shiftl pow2_boundary_pages 1)) physpages end
  else Some pow2_boundary_pages.
Definition ZAP_POOL_MIN_SIZE : Z := 0 * 1024 * 1024.

(** The controller's node is looked for once, and its reference kept in [gic_node]. *)
Definition zap_xlate_irq (l : irq_layer) (hwirq : Z) : M zap_life Z :=
  s ← get_life;
  _ ← (if negb (zl_gic s) && gic_node l then _ ← claim (NodeOf "interrupt controller"); set_gic true else mret tt);
  s ← get_life;
  if negb (zl_gic s) then mret hwirq else
  let irq := irq_create_of_mapping l hwirq in
  if irq =? 0 then mret hwirq else
  _ ← claim (IrqMapping irq);
  mret irq.

Definition workqueues (n : nat) : list resource := (fun i => Workqueue (Z.of_nat i)) <$> seq 0 n.

Definition dma_ll_init (e : dma_env) (num_devices : nat) : M zap_life Z :=
  pow2_boundary_pages ← lift (pow2_loop 64 1 (de_physpages e));
  let zap_pool_size := u64 ((pow2_boundary_pages - de_physpages e) * PAGE_SIZE) in
  if zap_pool_size <? ZAP_POOL_MIN_SIZE then mret (- ENOMEM) else
  _ ← set_irq (-1);
  _ ← set_reg (de_ioremap e);
  if negb (de_ioremap e) then mret (- ENOMEM) else
  _ ← claim (Mapping 0);
  _ ← set_interface (de_alloc e);
  if negb (de_alloc e) then mret (- ENOMEM) else
  _ ← claim (Memory "dma interfaces");
  _ ← calls (Claim <$> workqueues num_devices);
  n ← zap_xlate_irq (de_irqs e) (de_hw_irq e);
  let irq := to_i32 n in
  _ ← set_irq irq;
  if irq <=? 0 then mret (- ENODEV) else
  if negb (de_request_irq_err e =? 0) then mret (de_request_irq_err e) else
  _ ← claim (Irq irq);
  mret 0.

(** An array that is not there is used through NULL. *)
Definition dma_ll_cleanup (num_devices : nat) : M zap_life Z :=
  s ← get_life;
  _ ← (if (num_devices =? 0)%nat then mret tt else if negb (zl_interface s) then lift None else calls (Release <$> workqueues num_devices));
  _ ← (if zl_reg s then release (Mapping 0) else mret tt);
  _ ← (if 0 <=? zl_irq s then _ ← release (Irq (zl_irq s)); set_irq (-1) else mret tt);
  _ ← (if zl_interface s then release (Memory "dma interfaces") else mret tt);
  mret 0.

Definition dma_init_life (e : dma_env) (num_devices : nat) : M zap_life Z :=
  err ← dma_ll_init e num_devices;
  if negb (err =? 0) then mret err else _ ← set_sem true; mret 0.

(** The ports are stopped first, under the semaphore, whose use before its initialisation is
    a fault; [interrupted]: a signal is pending, and taking the semaphore fails. *)
Definition dma_cleanup_life (interrupted : bool) (iNumPorts : nat) : M zap_life Z :=
  s ← get_life;
  if (iNumPorts =? 0)%nat then dma_ll_cleanup iNumPorts else
  if negb (zl_sem s) then lift None else
  if interrupted then mret (- ERESTARTSYS) else dma_ll_cleanup iNumPorts.

(** ** The device *)

Definition minors (n : nat) : list resource := (fun i => Minor (Z.of_nat i)) <$> seq 0 n.
Definition devices (n : nat) : list resource := (fun i => Device (Z.of_nat i)) <$> seq 0 n.

Definition zap_remove_life (interrupted : bool) : M zap_life Z :=
  s ← get_life;
  match zl_dev s with
  | None => lift None
  | Some z =>
    let n := num_devices z in
    _ ← dma_cleanup_life interrupted n;
    _ ← (if negb (has_interface z) && negb (n =? 0)%nat then lift None else mret tt);
    _ ← calls (Release <$> devices (2 * n));
    _ ← release Class;
    _ ← release Cdev;
    _ ← calls (Release <$> minors (2 * n));
    _ ← (if has_interface z then release (Memory "interfaces") else mret tt);
    _ ← release (Memory "zap_dev");
    _ ← set_dev None;
    mret 0
  end.

(** The label [fail]. *)
Definition zap_fail (err : Z) : M zap_life Z := _ ← zap_remove_life false; mret err.

(** The answers of [probe_env] are asked in the order of [zap_probe]. *)
Definition zap_probe_life (e : probe_env) (d : dma_env) : M zap_life Z :=
  if negb (pv_alloc e) then _ ← set_dev None; zap_fail (- ENOMEM) else
  let n := Z.to_nat (default ZAP_MAX_DEVICES (pv_num_devices e)) in
  _ ← claim (Memory "zap_dev");
  _ ← set_dev (Some {| num_devices := n; has_interface := false |});
  if negb (pv_irq_err e =? 0) then zap_fail (pv_irq_err e) else
  if negb (pv_reg0 e) then zap_fail 0 else
  if negb (pv_reg1 e) then zap_fail 0 else
  if negb (pv_region_handle e) then zap_fail 0 else
  _ ← claim (NodeOf "memory-region");
  match pv_region e with
  | None => mret (- EINVAL)
  | Some (_, rmem_size) =>
    match match pv_pool_sizes e with
          | None => probe_pool_sizes None rmem_size
          | Some None => None
          | Some (Some s) => probe_pool_sizes (Some s) rmem_size
          end with
    | None => zap_fail 0
    | Some _ =>
      if negb (pv_chrdev_err e =? 0) then zap_fail (pv_chrdev_err e) else
      _ ← calls (Claim <$> minors (2 * n));
      if negb (pv_class_err e =? 0) then zap_fail (pv_class_err e) else
      _ ← claim Class;
      if negb (pv_cdev_err e =? 0) then zap_fail (pv_cdev_err e) else
      _ ← claim Cdev;
      if negb (pv_if_alloc e) then zap_fail 0 else
      _ ← claim (Memory "interfaces");
      _ ← set_dev (Some {| num_devices := n; has_interface := true |});
      _ ← calls (Claim <$> devices (2 * n));
      err ← dma_init_life d n;
      if negb (err =? 0) then zap_fail err else mret 0
    end
  end.

(** ** Properties *)

Lemma pow2_loop_run np fuel k : np <= 2 ^ 63 -> 0 <= k <= 63 -> 63 <= k + Z.of_nat fuel ->
  exists j, pow2_loop fuel (2 ^ k) np = Some (2 ^ j) /\ np <= 2 ^ j.
Proof.
  intros Hnp. revert k. induction fuel as [|fuel IH]; intros k Hk Hf; cbn [pow2_loop].
  - assert (k = 63) as -> by lia. rewrite (proj2 (Z.ltb_ge _ _)) by lia. by exists 63.
  - destruct (2 ^ k <? np) eqn:E; [|apply Z.ltb_ge in E; by exists k].
    apply Z.ltb_lt in E. assert (k < 63).
    { destruct (Z.eq_dec k 63) as [->|]; [|lia]. lia. }
    rewrite Z.shiftl_mul_pow2, Z.pow_1_r by lia. replace (2 ^ k * 2) with (2 ^ (k + 1)) by (rewrite Z.pow_add_r; lia).
    rewrite u64_small; [apply IH; lia|]. split; [lia|]. apply Z.pow_lt_mono_r; lia.
Qed.

(** The translation, with the controller's node already known ([g]) or not: its result and
    what it takes. *)
Definition zap_translated (g : bool) (l : irq_layer) (hwirq : Z) : Z :=
  if (g || gic_node l) && negb (irq_create_of_mapping l hwirq =? 0) then irq_create_of_mapping l hwirq else hwirq.
Definition zap_translation_claims (g : bool) (l : irq_layer) (hwirq : Z) : list resource :=
  (if negb g && gic_node l then [NodeOf "interrupt controller"] else []) ++
  (if (g || gic_node l) && negb (irq_create_of_mapping l hwirq =? 0) then [IrqMapping (irq_create_of_mapping l hwirq)] else []).

Lemma zap_xlate_irq_run l hwirq d r i q m g c :
  zap_xlate_irq l hwirq (Build_zap_life d r i q m g c) =
    Some (zap_translated g l hwirq,
          Build_zap_life d r i q m (g || gic_node l) (c ++ (Claim <$> zap_translation_claims g l hwirq))).
Proof.
  unfold zap_xlate_irq, zap_translated, zap_translation_claims, get_life, claim, call, mbind, M_bind.
  destruct g, (gic_node l); cbn; destruct (irq_create_of_mapping l hwirq =? 0); cbn; by rewrite <- ?(assoc_L (++)), ?app_nil_r.
Qed.

(** The engine's answers are good ones. *)
Definition dma_ok (g : bool) (d : dma_env) (irq : Z) : Prop :=
  de_physpages d <= 2 ^ 63 /\ de_ioremap d = true /\ de_alloc d = true /\
  to_i32 (zap_translated g (de_irqs d) (de_hw_irq d)) = irq /\ 0 < irq /\ de_request_irq_err d = 0.

(** What the engine takes for good: the reference to the controller's node, if it has none
    yet, and the mapping of the interrupt. *)
Definition dma_keeps (g : bool) (d : dma_env) : list resource := zap_translation_claims g (de_irqs d) (de_hw_irq d).
Definition dma_claims (n : nat) (g : bool) (d : dma_env) (irq : Z) : list resource :=
  [Mapping 0; Memory "dma interfaces"] ++ workqueues n ++ dma_keeps g d ++ [Irq irq].

Lemma dma_init_run d n irq s : dma_ok (zl_gic s) d irq ->
  dma_init_life d n s = Some (0, {| zl_dev := zl_dev s; zl_reg := true; zl_interface := true; zl_irq := irq; zl_sem := true;
                                    zl_gic := zl_gic s || gic_node (de_irqs d);
                                    zl_calls := zl_calls s ++ (Claim <$> dma_claims n (zl_gic s) d irq) |}).
Proof.
  intros (Hp & Hm & Ha & Hi & Hpos & Hr). destruct (pow2_loop_run (de_physpages d) 64 0 Hp) as (j & Hj & _); [lia|lia|].
  destruct s as [dv r i q m g c]. cbn [zl_gic zl_dev zl_calls] in *.
  unfold dma_init_life, dma_ll_init, mbind, M_bind, lift. change (2 ^ 0) with 1 in Hj. rewrite Hj, Hm, Ha, Hr.
  rewrite (proj2 (Z.ltb_ge _ _)) by (apply Z.mod_pos_bound; lia).
  unfold set_irq, set_reg, set_interface, set_sem, claim, call, calls. cbn [negb add_calls zap_has_calls]. cbn [mret M_ret].
  rewrite zap_xlate_irq_run, Hi, (proj2 (Z.leb_gt irq 0)) by done. cbn.
  unfold dma_claims, dma_keeps. rewrite !fmap_app. cbn. by rewrite <- ?(assoc_L (++)).
Qed.

(** The kernel resources of a device of [n] ports, in the order of the claims; those that are
    released in the end, and those that never are. *)
Definition zap_claims (n : nat) (g : bool) (d : dma_env) (irq : Z) : list resource :=
  [Memory "zap_dev"; NodeOf "memory-region"] ++ minors (2 * n) ++ [Class; Cdev; Memory "interfaces"] ++ devices (2 * n) ++
  dma_claims n g d irq.
Definition dma_releases (n : nat) (irq : Z) : list resource := workqueues n ++ [Mapping 0; Irq irq; Memory "dma interfaces"].
Definition zap_releases (n : nat) : list resource :=
  devices (2 * n) ++ [Class; Cdev] ++ minors (2 * n) ++ [Memory "interfaces"; Memory "zap_dev"].
Definition zap_keeps (g : bool) (d : dma_env) : list resource := NodeOf "memory-region" :: dma_keeps g d.

Lemma zap_probe_run e d irq z s :
  zap_probe e = ProbeOk z -> dma_ok (zl_gic s) d irq ->
  let n := Z.to_nat (default ZAP_MAX_DEVICES (pv_num_devices e)) in
  zap_probe_life e d s = Some (0, {| zl_dev := Some {| num_devices := n; has_interface := true |}; zl_reg := true;
    zl_interface := true; zl_irq := irq; zl_sem := true; zl_gic := zl_gic s || gic_node (de_irqs d);
    zl_calls := zl_calls s ++ (Claim <$> zap_claims n (zl_gic s) d irq) |}).
Proof.
  intros Hz Hd n. unfold zap_probe in Hz. unfold zap_probe_life.
  destruct (pv_alloc e); cbn [negb] in *; [|done].
  destruct (pv_irq_err e =? 0); cbn [negb] in *; [|done].
  destruct (pv_reg0 e); cbn [negb orb] in *; [|done]. destruct (pv_reg1 e); cbn [negb orb] in *; [|done].
  destruct (pv_region_handle e); cbn [negb] in *; [|done]. destruct (pv_region e) as [[base size]|]; [|done].
  destruct (match pv_pool_sizes e with None => _ | Some None => _ | Some (Some s) => _ end) as [[tx rx]|]; [|done].
  destruct (pv_chrdev_err e =? 0); cbn [negb] in *; [|done]. destruct (pv_class_err e =? 0); cbn [negb] in *; [|done].
  destruct (pv_cdev_err e =? 0); cbn [negb] in *; [|done]. destruct (pv_if_alloc e); cbn [negb] in *; [|done].
  fold n. destruct s as [dv r i q m g c]. unfold set_dev, claim, call, calls, mbind, M_bind. cbn [add_calls zap_has_calls zl_gic] in *.
  rewrite (dma_init_run d n irq) by done. cbn [negb Z.eqb zl_gic]. unfold zap_claims. cbn [zl_dev zl_calls]. rewrite !fmap_app. cbn.
  by rewrite <- ?(assoc_L (++)).
Qed.

Lemma zap_remove_run n irq interrupted g c : 0 < irq ->
  zap_remove_life interrupted {| zl_dev := Some {| num_devices := n; has_interface := true |}; zl_reg := true; zl_interface := true;
                                 zl_irq := irq; zl_sem := true; zl_gic := g; zl_calls := c |} =
  let stopped := negb (interrupted && negb (n =? 0)%nat) in
  Some (0, {| zl_dev := None; zl_reg := true; zl_interface := true; zl_irq := if stopped then -1 else irq; zl_sem := true; zl_gic := g;
              zl_calls := c ++ (Release <$> (if stopped then dma_releases n irq else []) ++ zap_releases n) |}).
Proof.
  intros Hirq. assert (Hcl : forall c, dma_ll_cleanup n {| zl_dev := Some {| num_devices := n; has_interface := true |}; zl_reg := true; zl_interface := true;
      zl_irq := irq; zl_sem := true; zl_gic := g; zl_calls := c |} =
    Some (0, {| zl_dev := Some {| num_devices := n; has_interface := true |}; zl_reg := true; zl_interface := true;
      zl_irq := -1; zl_sem := true; zl_gic := g; zl_calls := c ++ (Release <$> dma_releases n irq) |})).
  { intros c0. unfold dma_ll_cleanup, get_life, set_irq, calls, release, call, mbind, M_bind. cbn [zl_interface zl_reg zl_irq negb].
    rewrite (proj2 (Z.leb_le 0 irq)) by lia. unfold dma_releases. rewrite fmap_app.
    destruct n as [|n]; cbn; by rewrite <- ?(assoc_L (++)). }
  unfold zap_remove_life, dma_cleanup_life, get_life, mbind, M_bind. cbn [zl_dev num_devices has_interface zl_sem negb andb].
  unfold calls, release, call, set_dev. destruct ((n =? 0)%nat) eqn:En.
  - rewrite Hcl. rewrite andb_false_r. cbn [negb]. unfold zap_releases. rewrite !fmap_app. cbn. by rewrite <- ?(assoc_L (++)).
  - destruct interrupted; cbn [negb andb]; [|rewrite Hcl]; unfold zap_releases; rewrite !fmap_app; cbn; by rewrite <- ?(assoc_L (++)).
Qed.

Lemma zap_claims_split n g d irq : zap_claims n g d irq ≡ₚ (dma_releases n irq ++ zap_releases n) ++ zap_keeps g d.
Proof.
  unfold zap_claims, zap_releases, dma_releases, dma_claims, zap_keeps.
  generalize (minors (2 * n)) (devices (2 * n)) (workqueues n) (dma_keeps g d). intros l1 l2 l3 l4. solve_Permutation.
Qed.

(** C27: a device that was bound gives back on removal what the probe and the engine took,
    except the reference to the "memory-region" node, the one to the interrupt controller's
    node (taken once, the first time) and the mapping of the interrupt, which are never
    released.  When a signal is pending the removal does not reach the engine either: its
    registers, array, interrupt and work queues stay taken, while the device's memory is
    freed. *)
Theorem zap_lifecycle e d irq z s :
  zap_probe e = ProbeOk z -> dma_ok (zl_gic s) d irq -> zl_calls s = [] ->
  let n := Z.to_nat (default ZAP_MAX_DEVICES (pv_num_devices e)) in
  exists C s1, zap_probe_life e d s = Some (0, s1) /\ zl_calls s1 = Claim <$> C /\
    (exists s2 R, zap_remove_life false s1 = Some (0, s2) /\ zl_dev s2 = None /\
       zl_calls s2 = (Claim <$> C) ++ (Release <$> R) /\ C ≡ₚ R ++ zap_keeps (zl_gic s) d) /\
    (n <> 0%nat -> exists s2 R, zap_remove_life true s1 = Some (0, s2) /\ zl_dev s2 = None /\
       zl_calls s2 = (Claim <$> C) ++ (Release <$> R) /\ C ≡ₚ R ++ dma_releases n irq ++ zap_keeps (zl_gic s) d).
Proof.
  intros Hz Hd Hs n. pose proof (zap_probe_run e d irq z s Hz Hd) as Hp. cbv zeta in Hp. fold n in Hp. rewrite Hs in Hp. cbn [app] in Hp.
  assert (0 < irq) by apply Hd. exists (zap_claims n (zl_gic s) d irq). eexists. split; [exact Hp|]. split; [done|]. split.
  - rewrite zap_remove_run by done. cbn [andb negb]. eexists _, (dma_releases n irq ++ zap_releases n). split_and!; [reflexivity|done|done|].
    apply zap_claims_split.
  - intros Hn. rewrite zap_remove_run by done. rewrite (proj2 (Nat.eqb_neq n 0)) by done. cbn [andb negb].
    eexists _, (zap_releases n). split_and!; [reflexivity|done|done|]. rewrite zap_claims_split. solve_Permutation.
Qed.

(** The engine's initialisation leaves the device alone, and the semaphore unless it
    succeeds. *)
Lemma dma_init_frame d n s r s' : dma_init_life d n s = Some (r, s') ->
  zl_dev s' = zl_dev s /\ (r = 0 -> zl_sem s' = true) /\ (r <> 0 -> zl_sem s' = zl_sem s).
Proof.
  unfold dma_init_life, dma_ll_init, mbind, M_bind, lift. destruct (pow2_loop _ _ _); [|done].
  destruct s as [dv rg it q m g c]. unfold set_irq, set_reg, set_interface, set_sem, claim, call, calls. cbn [add_calls zap_has_calls].
  destruct (_ <? ZAP_POOL_MIN_SIZE); [by intros [= <- <-]|]. destruct (de_ioremap d); cbn [negb]; [|by intros [= <- <-]].
  destruct (de_alloc d); cbn [negb]; [|by intros [= <- <-]].
  rewrite zap_xlate_irq_run. destruct (_ <=? 0); [by intros [= <- <-]|].
  destruct (de_request_irq_err d =? 0) eqn:E; cbn [negb].
  - by intros [= <- <-].
  - unfold mret, M_ret. rewrite E. cbn [negb]. intros [= <- <-]. apply Z.eqb_neq in E. done.
Qed.

(** A branch that ends at the label [fail]. *)
Ltac fault Hfail := rewrite Hfail by (done || by left; eexists); done.

(** The first probe of a device with ports does not survive a failure: the label [fail]
    stops the ports under a semaphore that is initialised only when the engine was; the
    only failure that returns is the one that leaves without it. *)
Theorem zap_probe_failure_faults e d s :
  zl_sem s = false -> Z.to_nat (default ZAP_MAX_DEVICES (pv_num_devices e)) <> 0%nat ->
  match zap_probe_life e d s with
  | Some (r, s') => (r = 0 /\ zl_sem s' = true) \/ (r = - EINVAL /\ pv_region e = None)
  | None => True
  end /\
  (forall err, zap_probe e = ProbeFail err -> pv_dma_err e = 0 -> zap_probe_life e d s = None).
Proof.
  intros Hs Hn. set (n := Z.to_nat _) in *. apply Nat.eqb_neq in Hn.
  assert (Hrem : forall s', zl_sem s' = false -> (exists b, zl_dev s' = Some {| num_devices := n; has_interface := b |}) \/ zl_dev s' = None ->
    zap_remove_life false s' = None).
  { intros s' Hs' [[b Hb]|Hb]; unfold zap_remove_life, get_life, dma_cleanup_life, mbind, M_bind, lift; rewrite Hb; [|done].
    cbn [num_devices]. rewrite Hn. cbn. by rewrite Hs'. }
  assert (Hfail : forall err s', zl_sem s' = false -> (exists b, zl_dev s' = Some {| num_devices := n; has_interface := b |}) \/ zl_dev s' = None ->
    zap_fail err s' = None) by (intros err s' H1 H2; unfold zap_fail, mbind, M_bind; by rewrite Hrem).
  unfold zap_probe, zap_probe_life. fold n. destruct s as [dv rg it q m g c]. cbn [zl_sem] in Hs. unfold set_dev, claim, call, calls, mbind, M_bind.
  cbn [add_calls zap_has_calls zl_calls zl_dev zl_reg zl_interface zl_irq zl_sem].
  destruct (pv_alloc e); cbn [negb]; [|rewrite Hfail by (done || by right); done].
  destruct (pv_irq_err e =? 0); cbn [negb]; [|fault Hfail]. destruct (pv_reg0 e); cbn [negb orb]; [|fault Hfail].
  destruct (pv_reg1 e); cbn [negb orb]; [|fault Hfail]. destruct (pv_region_handle e); cbn [negb]; [|fault Hfail].
  destruct (pv_region e) as [[base size]|]; [|split; [by right|done]].
  destruct (match pv_pool_sizes e with None => _ | Some None => _ | Some (Some s) => _ end) as [[tx rx]|]; [|fault Hfail].
  destruct (pv_chrdev_err e =? 0); cbn [negb]; [|fault Hfail]. destruct (pv_class_err e =? 0); cbn [negb]; [|fault Hfail].
  destruct (pv_cdev_err e =? 0); cbn [negb]; [|fault Hfail]. destruct (pv_if_alloc e); cbn [negb]; [|fault Hfail].
  split.
  - destruct (dma_init_life d n _) as [[r s']|] eqn:Ei; [|done]. apply dma_init_frame in Ei as (Hd & Hok & Hbad). cbn [zl_dev zl_sem] in *.
    destruct (r =? 0) eqn:Er; cbn [negb].
    + apply Z.eqb_eq in Er. left. by split; [|apply Hok].
    + apply Z.eqb_neq in Er. rewrite Hfail; [done|by rewrite Hbad|]. left. by eexists.
  - intros err Hz Hdma. exfalso. revert Hz. unfold dma_init. rewrite Hdma. done.
Qed.

(** ** Witnesses *)

Definition sample_probe (irq_err : Z) : probe_env :=
  ProbeEnv true (Some 1) irq_err true true true (Some (0x40000000, 0x100000)) None 0 0 0 true 0.
Definition sample_dma : dma_env :=
  {| de_physpages := 0x40000; de_ioremap := true; de_alloc := true; de_hw_irq := 29;
     de_irqs := {| gic_node := true; irq_create_of_mapping := fun h => h + 32 |}; de_request_irq_err := 0 |}.
Definition fresh : zap_life := {| zl_dev := None; zl_reg := false; zl_interface := false; zl_irq := 0; zl_sem := false; zl_gic := false; zl_calls := [] |}.

Lemma zap_lifecycle_witness :
  let kept := [NodeOf "memory-region"; NodeOf "interrupt controller"; IrqMapping 61] in
  exists C s1, zap_probe_life (sample_probe 0) sample_dma fresh = Some (0, s1) /\ zl_calls s1 = Claim <$> C /\
    (exists s2 R, zap_remove_life false s1 = Some (0, s2) /\ zl_dev s2 = None /\
       zl_calls s2 = (Claim <$> C) ++ (Release <$> R) /\ C ≡ₚ R ++ kept) /\
    (1%nat <> 0%nat -> exists s2 R, zap_remove_life true s1 = Some (0, s2) /\ zl_dev s2 = None /\
       zl_calls s2 = (Claim <$> C) ++ (Release <$> R) /\ C ≡ₚ R ++ dma_releases 1 61 ++ kept).
Proof. by apply (zap_lifecycle (sample_probe 0) sample_dma 61 _ fresh eq_refl). Defined.

Lemma zap_probe_failure_faults_witness : zap_probe_life (sample_probe (-22)) sample_dma fresh = None.
Proof. by apply (zap_probe_failure_faults (sample_probe (-22)) sample_dma fresh) with (err := -22). Defined.
