(* ===== verification/FbDev.v ===== *)
(** * The frame buffer driver ([recipes-kernel/iv-fbdev/src/iv-fbdev.c])

    [probe] reads the device tree, maps the video memory and registers a frame buffer over
    it; [remove] takes it back.  The mapping is kept in a variable of the module, which
    outlives the device. *)
From S2P Require Import Prelude Lifecycle.

#[local] Open Scope list_scope.
#[local] Open Scope Z_scope.

Definition IV_SCREEN_WIDTH : Z := 1024.
Definition IV_SCREEN_HEIGHT : Z := 768.
Definition IV_BYTES_PER_PIXEL : Z := 2.
Definition VIDEOMEMSTART : Z := 0x7F000000.
Definition VIDEOMEMFINISH : Z := 0x7FFFFFFF.
Definition VIDEOMEMSIZE : Z := VIDEOMEMFINISH - VIDEOMEMSTART.
Definition ENOMEM : Z := 12.

Record bitfield := { offset : Z; blength : Z }.
Record fb_var_screeninfo := { xres : Z; yres : Z; xres_virtual : Z; yres_virtual : Z; bits_per_pixel : Z;
  red : bitfield; green : bitfield; blue : bitfield }.
Definition iveia_fb_default : fb_var_screeninfo :=
  {| xres := IV_SCREEN_WIDTH; yres := IV_SCREEN_HEIGHT; xres_virtual := IV_SCREEN_WIDTH; yres_virtual := IV_SCREEN_HEIGHT;
     bits_per_pixel := IV_BYTES_PER_PIXEL * 8; blue := {| offset := 0; blength := 5 |};
     green := {| offset := 5; blength := 6 |}; red := {| offset := 11; blength := 5 |} |}.
Record fb_fix_screeninfo := { line_length : Z; smem_start : Z; smem_len : Z }.
Definition iveia_fb_fix : fb_fix_screeninfo :=
  {| line_length := IV_SCREEN_WIDTH * IV_BYTES_PER_PIXEL; smem_start := VIDEOMEMSTART; smem_len := VIDEOMEMSIZE |}.

(** The structure as it is registered. *)
Record fb_info := { screen_base : Z; fb_var : fb_var_screeninfo; fb_fix : fb_fix_screeninfo }.

(** The module's [fb_addr] ([None] is NULL), the device's data, the frame buffer's structure
    and the calls to the kernel. *)
Record fb_state := FbState { fb_addr : option Z; drvdata : option Z; info : option fb_info; fb_calls : list kcall }.
#[export] Instance fb_has_calls : HasCalls fb_state :=
  {| get_calls := fb_calls; add_calls := fun l s => FbState (fb_addr s) (drvdata s) (info s) (fb_calls s ++ l) |}.
Definition set_addr (a : option Z) : M fb_state unit := fun s => Some (tt, FbState a (drvdata s) (info s) (fb_calls s)).
Definition get_addr : M fb_state (option Z) := fun s => Some (fb_addr s, s).
Definition set_drvdata (d : option Z) : M fb_state unit := fun s => Some (tt, FbState (fb_addr s) d (info s) (fb_calls s)).
Definition set_info (i : fb_info) : M fb_state unit := fun s => Some (tt, FbState (fb_addr s) (drvdata s) (Some i) (fb_calls s)).

(** What the kernel answers to one [probe]: the code of each of the two cells of "reg" and of
    the three of "resolution", the address of the mapping and of the structure ([None] is
    NULL), and the code of the registration. *)
Record fb_env := { reg_codes : list Z; resolution_codes : list Z; map_addr : option Z; info_addr : option Z; register_code : Z }.

(** The first code that is not zero, of the cells of a property. *)
Fixpoint first_error (codes : list Z) : Z := match codes with [] => 0 | r :: codes => if negb (r =? 0) then r else first_error codes end.

(** The label [out]. *)
Definition fb_out (info : option Z) (ret : Z) : M fb_state Z :=
  _ ← match info with Some k => release (FrameBuffer k) | None => mret tt end;
  a ← get_addr;
  _ ← match a with Some a => release (Mapping a) | None => mret tt end;
  mret ret.

Definition iveia_fb_probe (env : fb_env) : M fb_state Z :=
  let ret := first_error (reg_codes env) in
  if negb (ret =? 0) then fb_out None ret else
  let ret := first_error (resolution_codes env) in
  if negb (ret =? 0) then fb_out None ret else
  _ ← set_addr (map_addr env);
  match map_addr env with
  | None => mret (- ENOMEM)
  | Some base =>
    _ ← claim (Mapping base);
    match info_addr env with
    | None => fb_out None ret
    | Some k =>
      _ ← claim (FrameBuffer k);
      _ ← set_info {| screen_base := base; fb_var := iveia_fb_default; fb_fix := iveia_fb_fix |};
      let ret := register_code env in
      if ret <? 0 then fb_out (Some k) ret
      else _ ← claim (FbRegistration k); _ ← set_drvdata (Some k); mret 0
    end
  end.

Definition iveia_fb_remove : M fb_state Z := fun s =>
  match drvdata s with
  | Some k =>
    (_ ← release (FbRegistration k);
     a ← get_addr;
     _ ← match a with Some a => release (Mapping a) | None => mret tt end;
     _ ← release (FrameBuffer k);
     mret 0) s
  | None => Some (0, s)
  end.

(** The driver core unbinds a device: it calls [remove] and forgets the device's data. *)
Definition fb_unbind : M fb_state Z := r ← iveia_fb_remove; _ ← set_drvdata None; mret r.

(** ** Properties *)

(** The device tree is complete. *)
Definition tree_ok (env : fb_env) : bool := (first_error (reg_codes env) =? 0) && (first_error (resolution_codes env) =? 0).

(** a successful probe shows the video memory it mapped, in a format whose colours fill
    two bytes, and unbinding the device gives back what the probe took.  But the module
    keeps the address: when the device is bound again and its device tree is incomplete, the
    address is unmapped a second time. *)
Theorem fb_stale_mapping env s base k :
  tree_ok env = true -> map_addr env = Some base -> info_addr env = Some k -> 0 <= register_code env ->
  exists s1 s2, iveia_fb_probe env s = Some (0, s1) /\
    info s1 = Some {| screen_base := base; fb_var := iveia_fb_default; fb_fix := iveia_fb_fix |} /\
    fb_unbind s1 = Some (0, s2) /\ drvdata s2 = None /\
    (exists l, fb_calls s2 = fb_calls s ++ l /\ proper l /\ forall r, held l r = 0) /\
    forall env', tree_ok env' = false -> exists ret s3, iveia_fb_probe env' s2 = Some (ret, s3) /\ ret <> 0 /\
      fb_calls s3 = fb_calls s2 ++ [Release (Mapping base)].
Proof.
  intros Ht Hm Hi Hr. unfold tree_ok in Ht. apply andb_prop in Ht as [Ht1 Ht2].
  set (l1 := [Claim (Mapping base); Claim (FrameBuffer k); Claim (FbRegistration k)]).
  set (l2 := [Release (FbRegistration k); Release (Mapping base); Release (FrameBuffer k)]).
  set (i := {| screen_base := base; fb_var := iveia_fb_default; fb_fix := iveia_fb_fix |}).
  exists (FbState (Some base) (Some k) (Some i) (fb_calls s ++ l1)), (FbState (Some base) None (Some i) ((fb_calls s ++ l1) ++ l2)).
  split_and!; try done.
  - unfold iveia_fb_probe. rewrite Ht1, Ht2, Hm, Hi. cbn [negb].
    unfold set_addr, claim, call, set_info, set_drvdata, mbind, M_bind. rewrite (proj2 (Z.ltb_ge _ _)) by done.
    cbn. by rewrite <- ?(assoc_L (++)).
  - unfold fb_unbind, iveia_fb_remove, mbind, M_bind, release, call, get_addr, set_drvdata. cbn. by rewrite <- ?(assoc_L (++)).
  - exists (l1 ++ l2). split; [cbn [fb_calls]; by rewrite <- (assoc_L (++))|].
    change l1 with (Claim <$> [Mapping base; FrameBuffer k; FbRegistration k]).
    change l2 with (Release <$> [FbRegistration k; Mapping base; FrameBuffer k]).
    assert (NoDup [Mapping base; FrameBuffer k; FbRegistration k]) by (apply (bool_decide_unpack _); reflexivity).
    assert (NoDup [FbRegistration k; Mapping base; FrameBuffer k]) by (apply (bool_decide_unpack _); reflexivity).
    split; [apply proper_claims_releases; [done|done|set_solver]|].
    intros r. rewrite held_claims_releases by (done || set_solver). rewrite decide_False; [done|set_solver].
  - intros env' Ht'. unfold iveia_fb_probe, tree_ok in *.
    destruct (first_error (reg_codes env') =? 0) eqn:E1; cbn [negb andb] in *.
    + rewrite Ht'. cbn [negb]. eexists _, _. split; [reflexivity|]. split; [by apply Z.eqb_neq|done].
    + eexists _, _. split; [reflexivity|]. split; [by apply Z.eqb_neq|done].
Qed.

(** A probe that fails in a module that holds no address gives back what it took, with
    the code of what failed; but a frame buffer that cannot be allocated is reported as
    success. *)
Theorem fb_probe_errors env s :
  fb_addr s = None ->
  negb (tree_ok env) || bool_decide (map_addr env = None) || bool_decide (info_addr env = None) || (register_code env <? 0) = true ->
  exists s' l, iveia_fb_probe env s =
    Some (if negb (first_error (reg_codes env) =? 0) then first_error (reg_codes env)
          else if negb (first_error (resolution_codes env) =? 0) then first_error (resolution_codes env)
          else if bool_decide (map_addr env = None) then - ENOMEM
          else if bool_decide (info_addr env = None) then 0 else register_code env, s') /\
    fb_calls s' = fb_calls s ++ l /\ proper l /\ (forall r, held l r = 0) /\ drvdata s' = drvdata s.
Proof.
  intros Hnone Hfail. unfold tree_ok in Hfail.
  assert (Hnil : proper []) by (by intros [|??] ? ? [=]).
  assert (Hpair : forall rs, NoDup rs -> proper ((Claim <$> rs) ++ (Release <$> reverse rs)) /\ forall r, held ((Claim <$> rs) ++ (Release <$> reverse rs)) r = 0).
  { intros rs Hrs. assert (NoDup (reverse rs)) by by rewrite reverse_Permutation.
    assert (reverse rs ⊆ rs) by (intros x; by rewrite reverse_Permutation).
    split; [by apply proper_claims_releases|]. intros r. rewrite held_claims_releases by done.
    rewrite decide_False; [done|]. rewrite reverse_Permutation. tauto. }
  assert (Hout : forall r, fb_out None r s = Some (r, s)) by (intros r; unfold fb_out, get_addr, mbind, M_bind; cbn; by rewrite Hnone).
  unfold iveia_fb_probe.
  destruct (first_error (reg_codes env) =? 0) eqn:E1; cbn [negb]; [|exists s, []; by rewrite Hout, app_nil_r].
  destruct (first_error (resolution_codes env) =? 0) eqn:E2; cbn [negb]; [|exists s, []; by rewrite Hout, app_nil_r].
  apply Z.eqb_eq in E2. rewrite E2. unfold set_addr, mbind, M_bind.
  destruct (map_addr env) as [base|]; [|eexists _, []; split; [reflexivity|]; cbn; by rewrite app_nil_r].
  destruct (info_addr env) as [k|].
  - cbn [negb andb orb] in Hfail. rewrite !bool_decide_false in Hfail by done. cbn [orb] in Hfail. rewrite Hfail.
    rewrite !bool_decide_false by done. eexists _, [Claim (Mapping base); Claim (FrameBuffer k); Release (FrameBuffer k); Release (Mapping base)].
    split; [reflexivity|]. split; [cbn; by rewrite <- ?(assoc_L (++))|].
    destruct (Hpair [Mapping base; FrameBuffer k]) as [Hp Hh]; [apply (bool_decide_unpack _); reflexivity|]. done.
  - rewrite bool_decide_false, bool_decide_true by done. eexists _, [Claim (Mapping base); Release (Mapping base)].
    split; [reflexivity|]. split; [cbn; by rewrite <- ?(assoc_L (++))|].
    destruct (Hpair [Mapping base]) as [Hp Hh]; [apply (bool_decide_unpack _); reflexivity|]. done.
Qed.

(** ** Witnesses *)

Definition loaded : fb_state := FbState None None None [].
Definition good_env : fb_env :=
  {| reg_codes := [0; 0]; resolution_codes := [0; 0; 0]; map_addr := Some 0x1000; info_addr := Some 0x2000; register_code := 0 |}.

Lemma fb_stale_mapping_witness :
  exists s1 s2, iveia_fb_probe good_env loaded = Some (0, s1) /\ fb_unbind s1 = Some (0, s2) /\
    exists ret s3, iveia_fb_probe {| reg_codes := [0; -22]; resolution_codes := []; map_addr := None; info_addr := None; register_code := 0 |} s2 =
      Some (ret, s3) /\ ret <> 0 /\ fb_calls s3 = fb_calls s2 ++ [Release (Mapping 0x1000)].
Proof.
  destruct (fb_stale_mapping good_env loaded 0x1000 0x2000) as (s1 & s2 & H1 & _ & H2 & _ & _ & Hp); [done..|].
  exists s1, s2. split_and!; [done|done|by apply Hp].
Defined.

Lemma fb_probe_errors_witness :
  exists s' l, iveia_fb_probe {| reg_codes := [0; 0]; resolution_codes := [0; 0; 0]; map_addr := Some 1; info_addr := None; register_code := 0 |} loaded =
    Some (0, s') /\ fb_calls s' = l /\ proper l /\ (forall r, held l r = 0) /\ drvdata s' = None.
Proof. by apply (fb_probe_errors {| reg_codes := [0; 0]; resolution_codes := [0; 0; 0]; map_addr := Some 1; info_addr := None; register_code := 0 |} loaded). Defined.
