(* ===== verification/Passthrough.v ===== *)
(** * The video pass-through driver
    ([recipes-kernel/iv-v4l-passthrough/src/iveia-passthrough.c])

    A video sub-device with one input and one output that keeps the format of each and
    changes no data.  A format is either the active one, kept by the driver, or one a file
    handle tries out. *)
From S2P Require Import Prelude Lifecycle.

#[local] Open Scope list_scope.
#[local] Open Scope Z_scope.

Definition IVPASS_WIDTH_MIN : Z := 640.
Definition IVPASS_WIDTH_MAX : Z := 10328.
Definition IVPASS_HEIGHT_MIN : Z := 480.
Definition IVPASS_HEIGHT_MAX : Z := 7760.
Definition EINVAL : Z := 22.

Record mbus_framefmt := Fmt { width : Z; height : Z; code : Z; field : Z; colorspace : Z }.

(** Constants of the video layer. *)
Class V4l2 := {
  MEDIA_BUS_FMT_VYYUYY8_1X24 : Z;
  V4L2_FIELD_NONE : Z;
  V4L2_COLORSPACE_REC709 : Z;
  MEDIA_PAD_FL_SINK : Z;
  MEDIA_PAD_FL_SOURCE : Z
}.

(** V4L2_SUBDEV_FORMAT_TRY, V4L2_SUBDEV_FORMAT_ACTIVE and any other value. *)
Inductive which_fmt := TRY | ACTIVE | OTHER.
#[export] Instance which_eq_dec : EqDecision which_fmt.
Proof. solve_decision. Defined.

(** [struct ivpass_info] with its two pads, and the formats the calling file handle tries
    out; an access to a pad that is not there is a fault. *)
Record ivpass := Ivpass {
  pads : list Z;
  formats : list mbus_framefmt;
  default_format : mbus_framefmt;
  try_formats : list mbus_framefmt
}.
Definition with_formats f s := Ivpass (pads s) f (default_format s) (try_formats s).
Definition with_try t s := Ivpass (pads s) (formats s) (default_format s) t.

(** [v4l2_subdev_get_try_format], read and written; writing [formats]. *)
Definition get_try (pad : nat) : M ivpass mbus_framefmt := fun s => f ← try_formats s !! pad; Some (f, s).
Definition put_try (pad : nat) (f : mbus_framefmt) : M ivpass unit := fun s =>
  if decide (pad < length (try_formats s))%nat then Some (tt, with_try (<[pad := f]> (try_formats s)) s) else None.
Definition get_active (pad : nat) : M ivpass mbus_framefmt := fun s => f ← formats s !! pad; Some (f, s).
Definition put_active (pad : nat) (f : mbus_framefmt) : M ivpass unit := fun s =>
  if decide (pad < length (formats s))%nat then Some (tt, with_formats (<[pad := f]> (formats s)) s) else None.

Definition ivpass_s_stream (enable : bool) : M ivpass Z := mret 0.

(** The code of the format at index [index]. *)
Definition ivpass_enum_mbus_code (which : which_fmt) (pad : nat) (index : Z) : M ivpass (Z * option Z) :=
  if bool_decide (which = ACTIVE) then mret (- EINVAL, None) else
  if negb (index =? 0) then mret (- EINVAL, None) else
  format ← get_try pad;
  mret (0, Some (code format)).

(** The sizes: smallest and largest width, smallest and largest height. *)
Definition ivpass_enum_frame_size : M ivpass (Z * (Z * Z * Z * Z)) :=
  mret (0, (IVPASS_WIDTH_MIN, IVPASS_WIDTH_MAX, IVPASS_HEIGHT_MIN, IVPASS_HEIGHT_MAX)).

(** The code, and the format stored in the request, [req] before. *)
Definition ivpass_get_fmt (which : which_fmt) (pad : nat) (req : mbus_framefmt) : M ivpass (Z * mbus_framefmt) :=
  format ← match which with TRY => get_try pad | ACTIVE => get_active pad | OTHER => mret req end;
  mret (0, format).

(** [clamp_t] gives a value and changes nothing: that of the two calls is not used. *)
Definition clamp_t (v lo hi : Z) : Z := if v <? lo then lo else if hi <? v then hi else v.
Definition ivpass_set_fmt (which : which_fmt) (pad : nat) (req : mbus_framefmt) : M ivpass Z :=
  let _ := clamp_t (width req) IVPASS_WIDTH_MIN IVPASS_WIDTH_MAX in
  let _ := clamp_t (height req) IVPASS_HEIGHT_MIN IVPASS_HEIGHT_MAX in
  match which with
  | TRY => _ ← put_try pad req; mret 0
  | ACTIVE => _ ← put_active pad req; mret 0
  | OTHER => mret (- EINVAL)
  end.

(** A file is opened: [default_format] on both pads. *)
Definition ivpass_open : M ivpass Z := fun s =>
  (_ ← put_try 0 (default_format s); _ ← put_try 1 (default_format s); mret 0) s.
Definition ivpass_close : M ivpass Z := mret 0.

(** What the kernel answers to [probe]: the allocation, and the codes of the registration of
    the pads and of the sub-device. *)
Record ivpass_env := { p_alloc : bool; p_pads_init : Z; p_register : Z }.
Inductive ivpass_outcome := Bound (s : ivpass) | Unbound.

(** A call that takes [r] when its code is 0. *)
Definition taken (code : Z) (r : resource) : list kcall := if code =? 0 then [Claim r] else [].

(** [u32 ret], tested for being negative: the result, whether the device is in use, and the
    calls to the kernel. *)
Definition ivpass_probe `{V4l2} (env : ivpass_env) : Z * ivpass_outcome * list kcall :=
  if negb (p_alloc env) then (- 12, Unbound, []) else
  let d := Fmt 0 0 MEDIA_BUS_FMT_VYYUYY8_1X24 V4L2_FIELD_NONE V4L2_COLORSPACE_REC709 in
  let s := Ivpass [MEDIA_PAD_FL_SOURCE; MEDIA_PAD_FL_SINK] [d; d] d [Fmt 0 0 0 0 0; Fmt 0 0 0 0 0] in
  let ret := u32 (p_pads_init env) in
  let l := taken (p_pads_init env) MediaEntity in
  if ret <? 0 then (to_i32 ret, Unbound, l ++ [Release MediaEntity]) else
  let ret := u32 (p_register env) in
  let l := l ++ taken (p_register env) Subdev in
  if ret <? 0 then (to_i32 ret, Unbound, l ++ [Release MediaEntity]) else (0, Bound s, l).

Definition ivpass_remove : Z * list kcall := (0, [Release Subdev; Release MediaEntity]).

(** ** Properties *)

(** A format that is set is the one read back, for the active format and for the one
    tried out, and setting one changes neither the other kind nor the other pad; so a size
    outside the announced limits is kept as it is. *)
Theorem set_get_fmt s which pad req old :
  length (formats s) = 2%nat -> length (try_formats s) = 2%nat -> (pad < 2)%nat -> which <> OTHER ->
  exists s', ivpass_set_fmt which pad req s = Some (0, s') /\
    ivpass_get_fmt which pad old s' = Some ((0, req), s') /\
    forall which' pad', which' <> which \/ pad' <> pad -> which' <> OTHER ->
      forall r s1, ivpass_get_fmt which' pad' old s = Some (r, s1) -> ivpass_get_fmt which' pad' old s' = Some (r, s').
Proof.
  intros Hf Ht Hp Hw. unfold ivpass_set_fmt, ivpass_get_fmt, put_try, put_active, get_try, get_active, mbind, M_bind.
  destruct which; [| |done].
  - rewrite decide_True by lia. eexists. split; [reflexivity|]. cbn. split.
    + rewrite list_lookup_insert_eq by lia. done.
    + intros [| |] pad' Hne Ho r s1; [| |done].
      * cbn. rewrite list_lookup_insert_ne by (destruct Hne; congruence). intros Hr.
        destruct (try_formats s !! pad') as [f|]; [|done]. cbn in Hr |- *. by injection Hr as <- _.
      * cbn. intros Hr. destruct (formats s !! pad') as [f|]; [|done]. cbn in Hr |- *. by injection Hr as <- _.
  - rewrite decide_True by lia. eexists. split; [reflexivity|]. cbn. split.
    + rewrite list_lookup_insert_eq by lia. done.
    + intros [| |] pad' Hne Ho r s1; [| |done].
      * cbn. intros Hr. destruct (try_formats s !! pad') as [f|]; [|done]. cbn in Hr |- *. by injection Hr as <- _.
      * cbn. rewrite list_lookup_insert_ne by (destruct Hne; congruence). intros Hr.
        destruct (formats s !! pad') as [f|]; [|done]. cbn in Hr |- *. by injection Hr as <- _.
Qed.

(** The device is taken into use whatever the video layer answers: the codes are compared
    as unsigned numbers.  Its active formats and those a file finds after opening are the
    default.  Removing it gives back what was taken when nothing was refused, and otherwise
    also what was never taken. *)
Theorem ivpass_probe_exact `{V4l2} env :
  p_alloc env = true ->
  exists s d l, ivpass_probe env = (0, Bound s, l) /\ formats s = [d; d] /\
    (exists s', ivpass_open s = Some (0, s') /\ formats s' = [d; d] /\ try_formats s' = [d; d]) /\
    let all := l ++ ivpass_remove.2 in
    held all MediaEntity = (if p_pads_init env =? 0 then 0 else -1) /\
    held all Subdev = (if p_register env =? 0 then 0 else -1).
Proof.
  intros Ha. unfold ivpass_probe. rewrite Ha. cbn [negb].
  assert (Hu : forall z, (u32 z <? 0) = false) by (intros z; apply Z.ltb_ge, Z.mod_pos_bound; lia).
  rewrite !Hu. eexists _, _, _. split; [reflexivity|]. split; [reflexivity|]. split; [eexists; split; [reflexivity|done]|].
  unfold taken. by destruct (p_pads_init env =? 0), (p_register env =? 0).
Qed.

(** ** Witnesses *)

#[local] Instance sample_v4l2 : V4l2 := {
  MEDIA_BUS_FMT_VYYUYY8_1X24 := 0x202c; V4L2_FIELD_NONE := 1; V4L2_COLORSPACE_REC709 := 3;
  MEDIA_PAD_FL_SINK := 1; MEDIA_PAD_FL_SOURCE := 2
}.
Definition sample_info : ivpass := Ivpass [2; 1] [Fmt 640 480 1 1 3; Fmt 640 480 1 1 3] (Fmt 0 0 1 1 3) [Fmt 0 0 0 0 0; Fmt 0 0 0 0 0].

Lemma set_get_fmt_witness :
  exists s', ivpass_set_fmt ACTIVE 1 (Fmt 1 1 7 1 3) sample_info = Some (0, s') /\
    ivpass_get_fmt ACTIVE 1 (Fmt 0 0 0 0 0) s' = Some ((0, Fmt 1 1 7 1 3), s') /\
    ivpass_get_fmt ACTIVE 0 (Fmt 0 0 0 0 0) s' = Some ((0, Fmt 640 480 1 1 3), s').
Proof.
  destruct (set_get_fmt sample_info ACTIVE 1 (Fmt 1 1 7 1 3) (Fmt 0 0 0 0 0)) as (s' & H1 & H2 & H3); [done|done|lia|done|].
  exists s'. split_and!; [done|done|]. eapply H3; [by right|done|reflexivity].
Defined.

Lemma ivpass_probe_exact_witness :
  exists s d l, ivpass_probe {| p_alloc := true; p_pads_init := -22; p_register := -22 |} = (0, Bound s, l) /\ formats s = [d; d] /\
    (exists s', ivpass_open s = Some (0, s') /\ formats s' = [d; d] /\ try_formats s' = [d; d]) /\
    let all := l ++ ivpass_remove.2 in held all MediaEntity = -1 /\ held all Subdev = -1.
Proof. by apply (ivpass_probe_exact {| p_alloc := true; p_pads_init := -22; p_register := -22 |}). Defined.
