(* ===== verification/MdioGen.v ===== *)
(** * The MDIO bus over I2C ([recipes-kernel/linux/files/drivers/net/mdio/mdio-i2c-gen.c])

    The driver checks that its node of the device tree has exactly one PHY whose address
    fits the address on the I2C bus, and registers the bus. *)
From S2P Require Import Prelude Lifecycle.

#[local] Open Scope list_scope.
#[local] Open Scope Z_scope.

Definition EINVAL : Z := 22.
Definition ENODEV : Z := 19.

(** The kernel's answers: the allocation of the bus (an error code, or its address), the
    number of children of the node, the first of them ([None] is NULL), "reg" of the node
    and of the child (an error code, or the value), and the code of the registration. *)
Record mdio_env := {
  mdio_alloc : Z + Z;
  child_count : Z;
  next_child : option Z;
  i2c_reg : Z + Z;
  phy_reg : Z + Z;
  register_code : Z
}.

(** The calls to the kernel are the state. *)
#[export] Instance calls_has_calls : HasCalls (list kcall) := {| get_calls := id; add_calls := fun l w => w ++ l |}.

Definition mdio_i2c_gen_probe (env : mdio_env) : M (list kcall) Z :=
  match mdio_alloc env with
  | inl err => mret err
  | inr bus =>
    _ ← claim (MdioBus bus);
    if negb (child_count env =? 1) then mret (- EINVAL) else
    match next_child env with
    | None => mret (- ENODEV)
    | Some phy_node =>
      _ ← claim (NodeRef phy_node);
      match i2c_reg env with
      | inl ret => mret ret
      | inr i2c_addr =>
        match phy_reg env with
        | inl ret => mret ret
        | inr phy_addr =>
          if negb (u32 (phy_addr + 0x40) =? i2c_addr) then mret (- EINVAL) else
          if (phy_addr =? 0x10) || (phy_addr =? 0x11) then mret (- EINVAL) else
          _ ← (if register_code env =? 0 then claim (MdioRegistration bus) else mret tt);
          mret (register_code env)
        end
      end
    end
  end.
Definition mdio_i2c_gen_remove : M (list kcall) Z := mret 0.

(** The PHY address a node must have for its address on the I2C bus. *)
Definition phy_fits (i2c phy : Z) : bool := (i2c =? phy + 0x40) && negb ((phy =? 0x10) || (phy =? 0x11)).

(** The bus is registered exactly when the node has one child and the PHY's address,
    0x40 below the one on the I2C bus, is not one of the two reserved for SFP modules.
    Otherwise the probe fails and keeps what it took; a removed device keeps it too. *)
Theorem mdio_probe_exact env bus node i2c phy w :
  mdio_alloc env = inr bus -> next_child env = Some node -> i2c_reg env = inr i2c -> phy_reg env = inr phy ->
  0 <= i2c < 2 ^ 32 -> 0 <= phy < 2 ^ 32 - 0x40 -> register_code env = 0 ->
  let ok := (child_count env =? 1) && phy_fits i2c phy in
  exists l, mdio_i2c_gen_probe env w = Some (if ok then 0 else - EINVAL, w ++ l) /\
    held l (MdioRegistration bus) = (if ok then 1 else 0) /\ held l (MdioBus bus) = 1 /\
    mdio_i2c_gen_remove (w ++ l) = Some (0, w ++ l).
Proof.
  intros Ha Hn Hi Hp Hi32 Hp32 Hr ok. unfold mdio_i2c_gen_probe, ok, phy_fits. rewrite Ha, Hn, Hi, Hp, Hr, u32_small by lia.
  unfold mbind, M_bind, claim, call. cbn [add_calls calls_has_calls]. change (0 =? 0) with true. cbv iota.
  destruct (child_count env =? 1); cbn [negb andb].
  - rewrite (Z.eqb_sym i2c). rewrite <- ?(assoc_L (++)). destruct (phy + 64 =? i2c); cbn [negb andb];
      [destruct ((phy =? 16) || (phy =? 17)); cbn [negb]|];
      (eexists; split; [cbv beta iota; rewrite <- ?(assoc_L (++)); reflexivity|]; unfold held; cbn; repeat case_decide; split_and!; first [done|congruence]).
  - eexists. split; [reflexivity|]. unfold held. cbn. repeat case_decide; split_and!; first [done|congruence].
Qed.

Lemma mdio_probe_exact_witness :
  let env := {| mdio_alloc := inr 5; child_count := 1; next_child := Some 7; i2c_reg := inr 0x56; phy_reg := inr 0x16;
                register_code := 0 |} in
  exists l, mdio_i2c_gen_probe env [] = Some (0, [] ++ l) /\ held l (MdioRegistration 5) = 1 /\ held l (MdioBus 5) = 1 /\
    mdio_i2c_gen_remove ([] ++ l) = Some (0, [] ++ l).
Proof. intros env. by apply (mdio_probe_exact env 5 7 0x56 0x16 []). Defined.
