(* ===== verification/SmallTools.v ===== *)
(** * Two small tools ([recipes-support/bdevmem/files/bdevmem.c],
    [recipes-support/busyloop/files/busyloop.c])

    [bdevmem] copies physical memory to its output, on request only when a header with a
    checksum says that the memory holds a file; [busyloop] counts down. *)
From S2P Require Import Prelude CString.

#[local] Open Scope string_scope.
#[local] Open Scope list_scope.
#[local] Open Scope Z_scope.

(** ** Numbers in base 0: the prefix tells the base *)

Definition base_of (s : list Z) : Z :=
  match s with
  | 48 :: x :: c :: _ => if ((x =? 120) || (x =? 88)) && bool_decide (is_Some (digit_val 16 c)) then 16 else 8
  | 48 :: _ => 8
  | _ => 10
  end.
Definition unsigned_part (s : list Z) : list Z :=
  match skip_space s with c :: s' => if (c =? 45) || (c =? 43) then s' else c :: s' | [] => [] end.
Definition strtoul0 (s : list Z) : Z := fst (strtoul (base_of (unsigned_part s)) s).

(** ** bdevmem *)

Definition MAGIC : Z := 0x4a544147.
Definition sizeof_header : Z := 12.
Record header := { magic : Z; len : Z; be_crc32 : Z }.

(** Words are stored low byte first; the checksum's bytes are the other way round. *)
Definition le32 (l : list Z) : Z := foldr (fun b v => b + 256 * v) 0 l.
Definition ntohl (v : Z) : Z :=
  Z.lor (Z.lor (Z.shiftl (Z.land v 0xff) 24) (Z.shiftl (Z.land v 0xff00) 8))
    (Z.lor (Z.land (Z.shiftr v 8) 0xff00) (Z.shiftr v 24)).
Definition header_of (l : list Z) : option header :=
  m ← rd_range l 0 4; n ← rd_range l 4 4; c ← rd_range l 8 4;
  Some {| magic := le32 m; len := le32 n; be_crc32 := le32 c |}.

(** The system: the descriptor each of the two calls to [open] gives (-1 for a failure), the
    bytes a mapping makes accessible ([None] for MAP_FAILED), whether [munmap] succeeds, and
    zlib's checksum. *)
Class DevMem := {
  open_header : Z;
  open_payload : Z;
  mmap : Z -> Z -> Z -> option (list Z);
  munmap : Z -> bool;
  crc32 : list Z -> Z
}.

Section bdevmem.
Context `{DevMem}.

(** The loop over the payload. *)
Fixpoint put_loop (n : nat) (i : Z) (payload : list Z) : option (list Z) :=
  match n with
  | O => Some []
  | S n => c ← ld payload i; out ← put_loop n (i + 1) payload; Some (c :: out)
  end.

(** The second half of [main], from the second [open] on: the exit code and the output. *)
Definition dump (start : Z) (n : Z) (h : option header) : option (Z * list Z) :=
  if open_payload =? 1 then Some (4, []) else
  let map_len := match h with Some _ => u32 (n + sizeof_header) | None => n end in
  match mmap open_payload map_len start with
  | None => Some (5, [])
  | Some base =>
    checked ← match h with
              | Some h =>
                data ← rd_range base sizeof_header n;
                Some (if negb (crc32 data =? ntohl (be_crc32 h)) then None else Some (drop (Z.to_nat sizeof_header) base))
              | None => Some (Some base)
              end;
    match checked with
    | None => Some (6, [])
    | Some payload =>
      out ← put_loop (Z.to_nat n) 0 payload;
      Some (if negb (munmap n) then (7, out) else (0, out))
    end
  end.

Definition bdevmem_main (argv : list string) : option (Z * list Z) :=
  match argv with
  | [_; a1; a2] =>
    if bool_decide (a1 = "-H") then
      let start := strtoul0 (bytes a2) in
      if open_header =? 1 then Some (1, []) else
      match mmap open_header sizeof_header start with
      | None => Some (2, [])
      | Some base =>
        h ← header_of base;
        if negb (magic h =? MAGIC) then Some (3, []) else dump start (len h) (Some h)
      end
    else dump (strtoul0 (bytes a1)) (u32 (strtoul0 (bytes a2))) None
  | _ => Some (1, [])
  end.
End bdevmem.

(** ** busyloop *)

(** [for (;count--;);] from [count] on, with [fuel] tests left: how many it makes. *)
Fixpoint count_loop (fuel : nat) (count : Z) : option Z :=
  match fuel with
  | O => None
  | S fuel => if count =? 0 then Some 1 else n ← count_loop fuel (count - 1); Some (n + 1)
  end.

(** The value of [count], and what becomes of it: the exit code and the tests made, or
    [None] for the loop without an end. *)
Definition to_i64 (z : Z) : Z := (z + 2 ^ 63) `mod` 2 ^ 64 - 2 ^ 63.
Definition busyloop_main (fuel : nat) (argv : list string) : option (Z * Z) :=
  match argv with
  | [_; a] =>
    let count := to_i64 (strtoul0 (bytes a)) in
    if count <? 0 then None else n ← count_loop fuel count; Some (0, n)
  | _ => Some (1, 0)
  end.

(** ** Properties *)

Lemma put_loop_run n payload pre : zlen payload = Z.of_nat n ->
  forall i post, i = zlen pre -> put_loop n i (pre ++ payload ++ post) = Some payload.
Proof.
  revert pre payload. induction n as [|n IH]; intros pre payload Hl i post ->; destruct payload as [|c payload]; [done|zl|zl|].
  cbn [put_loop app]. rewrite ld_mid by done. cbn [mbind option_bind].
  pose proof (IH (pre ++ [c]) payload ltac:(zl) (zlen pre + 1) post ltac:(zl)) as Hr.
  rewrite <- (assoc_L (++)) in Hr. cbn [app] in Hr. by rewrite Hr.
Qed.

Lemma count_loop_run fuel count : 0 <= count -> (Z.to_nat count < fuel)%nat -> count_loop fuel count = Some (count + 1).
Proof.
  revert count. induction fuel as [|fuel IH]; intros count Hc Hf; [lia|]. cbn [count_loop].
  destruct (count =? 0) eqn:E; [apply Z.eqb_eq in E; by subst|]. apply Z.eqb_neq in E.
  rewrite IH by lia. cbn [mbind option_bind]. f_equal. lia.
Qed.

(** The bytes of a word, and the word of the bytes. *)
Lemma le32_four a b c d : le32 [a; b; c; d] = a + 256 * b + 65536 * c + 16777216 * d.
Proof. cbn. lia. Qed.

(** The [n] bytes from an address on. *)
Definition bytes_at (memory : Z -> Z) (a n : Z) : list Z := (fun i => memory (a + i)) <$> seqZ 0 n.
Lemma zlen_bytes_at memory a n : 0 <= n -> zlen (bytes_at memory a n) = n.
Proof. intros Hn. unfold zlen, bytes_at. rewrite length_fmap, length_seqZ. lia. Qed.
Lemma bytes_at_prefix memory a n k : 0 <= n <= k -> exists r, bytes_at memory a k = bytes_at memory a n ++ r.
Proof.
  intros Hn. exists ((fun i => memory (a + i)) <$> seqZ n (k - n)). unfold bytes_at. rewrite <- fmap_app. f_equal.
  replace k with (n + (k - n)) at 1 by lia. by rewrite seqZ_app by lia.
Qed.

Section properties.
Context `{DevMem} (memory : Z -> Z).

(** What the kernel promises: [open] does not give descriptor 1, and mapping [n] bytes at an
    address makes at least the [n] bytes stored there accessible. *)
Context (Hopen1 : open_header <> 1) (Hopen2 : open_payload <> 1).
Context (Hmap : forall f n start, f = open_header \/ f = open_payload -> 0 < n ->
  exists rest, mmap f n start = Some (bytes_at memory start n ++ rest)).

(** With -H memory is copied out only when it starts with a header: the magic number, the
    length and the checksum of the bytes that follow, which are then the whole output.
    Otherwise nothing is printed and the exit code says which test failed.  The code after
    the output is the one of [munmap], which fails for a payload of no bytes. *)
Theorem bdevmem_header_exact prog a m n c data :
  let start := strtoul0 (bytes a) in
  bytes_at memory start (sizeof_header + zlen data) = m ++ n ++ c ++ data -> zlen m = 4 -> zlen n = 4 -> zlen c = 4 ->
  zlen data = le32 n -> le32 n < 2 ^ 32 - sizeof_header ->
  bdevmem_main [prog; "-H"; a] =
    Some (if negb (le32 m =? MAGIC) then (3, [])
          else if negb (crc32 data =? ntohl (le32 c)) then (6, [])
          else (if munmap (zlen data) then 0 else 7, data)).
Proof.
  intros start Hm H4m H4n H4c Hd Hlen. pose proof (zlen_nonneg data).
  assert (Hz : zlen (m ++ n ++ c) = sizeof_header) by (unfold sizeof_header; zl).
  assert (Hhd : bytes_at memory start sizeof_header = m ++ n ++ c).
  { destruct (bytes_at_prefix memory start sizeof_header (sizeof_header + zlen data)) as [r Hr]; [unfold sizeof_header; lia|].
    rewrite Hm in Hr. replace (m ++ n ++ c ++ data) with ((m ++ n ++ c) ++ data) in Hr by by rewrite <- !(assoc_L (++)).
    apply app_eq_split in Hr as [-> _]; [done|]. by rewrite zlen_bytes_at. }
  unfold bdevmem_main. change (bool_decide ("-H" = "-H")) with true. cbv iota zeta. fold start.
  rewrite (proj2 (Z.eqb_neq _ _)) by done.
  destruct (Hmap open_header sizeof_header start) as (r1 & Hr1); [by left|done|]. rewrite Hr1, Hhd.
  rewrite <- !(assoc_L (++)). unfold header_of.
  pose proof (rd_mid [] m (n ++ c ++ r1) 0 4 eq_refl ltac:(lia)) as Hr0. cbn [app] in Hr0. rewrite Hr0. cbn [mbind option_bind].
  rewrite (rd_mid m n (c ++ r1) 4 4) by lia. cbn [mbind option_bind].
  rewrite (assoc_L (++) m n), (rd_mid (m ++ n) c r1 8 4) by zl. cbn [mbind option_bind magic].
  case_if; [done|]. unfold dump. cbn [len be_crc32]. rewrite (proj2 (Z.eqb_neq open_payload 1)) by done.
  rewrite <- Hd in *. rewrite u32_small by (unfold sizeof_header in *; lia).
  destruct (Hmap open_payload (zlen data + sizeof_header) start) as (r2 & Hr2); [by right|unfold sizeof_header; lia|]. rewrite Hr2.
  rewrite (Z.add_comm (zlen data)), Hm.
  replace ((m ++ n ++ c ++ data) ++ r2) with ((m ++ n ++ c) ++ data ++ r2) by by rewrite <- !(assoc_L (++)).
  rewrite rd_mid by done. cbn [mbind option_bind].
  case_if; [done|]. replace (Z.to_nat sizeof_header) with (length (m ++ n ++ c)) by (unfold zlen in Hz; lia).
  pose proof (put_loop_run (Z.to_nat (zlen data)) data [] ltac:(lia) 0 r2 eq_refl) as Hp. cbn [app] in Hp.
  rewrite drop_app_length, Hp. cbn [mbind option_bind].
  by destruct (munmap (zlen data)).
Qed.
End properties.

(** The loop of busyloop ends after as many tests as the count says and one more, when
    the count is below 2^63; a larger one becomes negative and the loop never ends. *)
Theorem busyloop_counts prog a fuel :
  let n := strtoul0 (bytes a) in
  0 <= n < 2 ^ 64 -> (Z.to_nat n < fuel)%nat ->
  busyloop_main fuel [prog; a] = if n <? 2 ^ 63 then Some (0, n + 1) else None.
Proof.
  intros n Hn Hf. unfold busyloop_main. fold n. destruct (n <? 2 ^ 63) eqn:E; [apply Z.ltb_lt in E|apply Z.ltb_ge in E].
  - assert (to_i64 n = n) as -> by (unfold to_i64; rewrite Z.mod_small; lia).
    rewrite (proj2 (Z.ltb_ge n 0)) by lia. by rewrite count_loop_run by lia.
  - assert (to_i64 n = n - 2 ^ 64) as ->.
    { unfold to_i64. replace (n + 2 ^ 63) with (n - 2 ^ 63 + 1 * 2 ^ 64) by lia. rewrite Z_mod_plus_full, Z.mod_small; lia. }
    by rewrite (proj2 (Z.ltb_lt _ 0)) by lia.
Qed.

(** ** Witnesses *)

(** A memory with a header and the payload [1; 2] at 0x1000. *)
Definition sample_memory (a : Z) : Z :=
  default 0 ([0x47; 0x41; 0x54; 0x4a; 2; 0; 0; 0; 0; 0; 0; 3; 1; 2] !! Z.to_nat (a - 0x1000)).
#[local] Instance sample_mem : DevMem := {
  open_header := 3; open_payload := 3; crc32 := foldr Z.add 0; munmap := fun n => 0 <? n;
  mmap := fun _ n start => if 0 <? n then Some (bytes_at sample_memory start n ++ replicate 8 0) else None
}.
Lemma bdevmem_header_exact_witness :
  bdevmem_main ["bdevmem"; "-H"; "0x1000"] = Some (0, [1; 2]).
Proof.
  apply (@bdevmem_header_exact sample_mem sample_memory) with (m := [0x47; 0x41; 0x54; 0x4a]) (n := [2; 0; 0; 0]) (c := [0; 0; 0; 3]) (data := [1; 2]);
    try done.
  intros f n start _ Hn. exists (replicate 8 0). cbn. by rewrite (proj2 (Z.ltb_lt 0 n)).
Defined.

Lemma busyloop_counts_witness : busyloop_main 20 ["busyloop"; "0x10"] = Some (0, 17).
Proof. apply (busyloop_counts "busyloop" "0x10" 20); vm_compute; [by split|lia]. Defined.
